(* ===== verification/_CoqProject ===== *)
-Q . S2P
Prelude.v
GoStd.v
Encoding.v
Errors.v
Domain.v
DomainData.v
Json.v
Net.v
World.v
Logic.v
Sql.v
Concrete.v
InstanceRepo.v
NetworkRepo.v
InstanceService.v
VolumeService.v
NetworkService.v
LBRepo.v
LBService.v
AutoScalingRepo.v
Ports.v
AutoScalingService.v
AutoScalingWorker.v
Secret.v
Queue.v
Storage.v
Rbac.v
Auth.v
SecurityGroup.v
Snapshot.v
Http.v
Cron.v
Gateway.v
Notify.v
Cache.v
Database.v
Function.v
Stack.v
Dashboard.v
Router.v
Container.v
Gin.v
ComputeHandlers.v
OrchestrationHandlers.v
DataHandlers.v
IdentityHandlers.v
Host.v
Ovs.v
Libvirt.v
Docker.v
Hub.v
InstanceProofs.v
NetworkProofs.v
LBProofs.v
AutoScalingProofs.v
ScalingProofs.v
QueueProofs.v
RbacProofs.v
ContainerProofs.v
System.v
Server.v
Invariants.v
Keyed.v
Isolation.v
EdgeProofs.v
DataProofs.v
StackProofs.v
SecurityGroupProofs.v
AdapterProofs.v
AuthProofs.v
StorageProofs.v
SecretProofs.v
Reach.v
ServerProofs.v
PlatformWitnesses.v
ServerWitnesses.v
DataWitnesses.v
AdapterWitnesses.v
ResourceWitnesses.v
ServiceWitnesses.v
