(* ===== verification/Prelude.v ===== *)
(** * The Cloud: a verification library of its control plane

    The Cloud is a small cloud platform written in Go.  A REST API ([internal/api/setup],
    [internal/handlers]) calls the services of [internal/core/services]; the services keep
    their state in PostgreSQL through the repositories of [internal/repositories/postgres] and
    act on backends behind the interfaces of [internal/core/ports]: a compute backend (Docker or
    libvirt), Open vSwitch, a proxy per load balancer and a file store.  Four workers of the same
    process compare the tables with the backends at an interval, and some operations leave a
    goroutine running.  This library models the server from the request to the statement: the
    middlewares and the handlers, the services, their repositories, the workers, the goroutines
    and the adapters of the backends, with the statements and the constraints of the migrations,
    and proves what they guarantee, alone and together.

    ** How the program is modelled

    - [GoStd], [Encoding], [Net], [Http]: what the code uses of the standard library of Go.  An
      [int] is a [Z] with wrap-around at 64 bits written out ([int_add], [wrap64]), a string is its
      bytes, a [float64] an IEEE binary64, an IP address its bytes, a time its nanoseconds.
    - [Errors] ([internal/errors], [pkg/httputil/response.go]): the dynamic types of errors and
      their rendering as a response.
    - [Json]: the decoding of a parsed JSON document into a struct by the rules of
      [encoding/json], and the statistics of a container read with it.
    - [Domain], [DomainData] ([internal/core/domain]): a record per struct, an inductive type per
      enumeration, and [Task], a goroutine left running.
    - [World]: the state.  One finite map per table, the rows of the event and audit logs, the maps
      services keep in memory (failed logins, lockouts, routes), the files of the object store, the
      pending goroutines, the history of calls to backends and a clock tick.  [M A] is the monad of
      Go code on it: a call returns, returns an error or panics, and leaves a world in each
      case.  The class [Env] holds what the code cannot see: the clock, new UUIDs, the order of
      rows and of maps, the failure of any statement, the row at which the reading of a result
      breaks off ([env_cut]: no repository asks [rows.Err()], so the rows before it are all the
      code sees), the answer of any backend (a function of the history of calls), text forms of
      PostgreSQL.  [UUIDLaws], [FreshUUIDs], [OrderLaws] (a query without ORDER BY returns some
      permutation) and [NoFaults] (no statement fails and no reading breaks off) are
      hypotheses of the theorems that name them, and their comments say so; all others hold
      whatever fails.
    - [Sql]: the statements the repositories are built from, with foreign keys, UNIQUE and CHECK
      constraints, ON DELETE actions, row counts and the WHERE clauses.  [transaction] is
      BEGIN ... COMMIT, undone in the tables by an error but not in the history of calls.
    - [Logic]: the program logic.  [Steps R m] says that [m] relates its initial and final world by
      [R] on every path; frames ([same p]) and invariants ([holds p P]) are instances of it and
      resolved by type classes along the code.  [Invariants] adds the search that takes an
      operation without a known frame apart down to its statements.

    One file per component holds its repository and its service, in the order of the source and
    with its names (a prefix tells methods of the same name apart, as in [cron_DeleteJob]):

    - [InstanceRepo], [InstanceService]: [instance_repo.go], [volume_repo.go], [instance.go];
      [VolumeService], [NetworkRepo], [NetworkService]: volumes, VPCs, subnets;
      [SecurityGroup], [Snapshot]: the security groups with their flows, and snapshots.
    - [LBRepo], [LBService]: [lb_repo.go], [loadbalancer.go], [lb_worker.go]. [AutoScalingRepo],
      [AutoScalingService], [AutoScalingWorker]: scaling groups, their policies and the worker,
      a client of the interfaces of [Ports]; [AutoScalingProofs] shows that the services above
      implement these.  [Container]: deployments and their worker.
    - [Rbac], [Auth], [Router]: users, roles, API keys, login with its
      lockout, password reset, the two middlewares, the table of all endpoints, the limiter.
    - [Secret]: key derivation, encryption and the stored secrets.
    - [Queue], [Storage], [Cache], [Database], [Function], [Cron], [Gateway], [Notify], [Stack],
      [Dashboard], with the health checks: the service of that name with its repository, worker
      and goroutines.
    - [Gin]: requests, the binding of a body to a struct with its validation, and responses.
      [ComputeHandlers], [OrchestrationHandlers], [DataHandlers], [IdentityHandlers]: the handlers
      of [internal/handlers], [VolumeHandler_Create] for the method [Create] of [VolumeHandler].
      [Server]: the handler of every endpoint, the chain of middlewares with its headers and
      limiters, and [ServeHTTP], the answer to one request with the world it leaves.
    - [Host], [Ovs], [Libvirt], [Docker]: the adapters behind the backend interfaces, in a second
      monad [H] over a [Host]: the world of the control plane, the calls to libvirt, to the Docker
      client and to the operating system with their answers (class [HostEnv]), and what a libvirt
      adapter keeps in memory, with their program logic.
    - [Hub]: the hub of the WebSockets ([handlers/ws]) with the two goroutines of every client, as a
      transition system whose step is one turn of one goroutine.
    - [System]: the whole as a transition system.  A step is one operation of the API with any
      arguments, one of the sections of a login between which the code lets its mutex go, a
      reading that changes nothing but the clock and the history of calls, a pass of a worker,
      one of the pending goroutines, or a restart that empties the memory; [reachable] are the
      states that follow from the database the migrations leave, with its three roles.

    ** What is proved

    - On the whole system.  [Keyed.reachable_keyed]: every row is stored under its own identifier
      in every reachable state.  [Reach]: stored secrets are ciphertexts under the key of their
      owner, an address with five counted failures is locked out, also when logins run at once,
      credentials are unique, the members of a security group belong to its owner.
      [Isolation.tenant_isolation]: no operation of a user changes a row of another one in
      thirteen tables, on any path, errors and panics included, but that the deletion of his
      instance or VPC clears the references to it.  [ServerProofs]: the server implements the transition system, so that what holds of
      it holds behind any request ([server_refines]); a request touches rows of the owner of its
      key only ([request_isolation]); one without a key is refused ([keyless_request_refused]);
      every endpoint has its handler; what the checks of a launch let through ([Launch_validates]).
      [AuthProofs.gate_sound]: who gets past the middlewares has a permitted role, unless the
      reading of the role fails and the defaults of its name decide; every endpoint of the
      routing table is guarded, with the exceptions listed.
    - [InstanceProofs], [NetworkProofs]: what a launch, a termination, the creation and deletion of
      volumes, VPCs and subnets leave in tables and backends on success and on every failure;
      [Net.findAvailableIP_correct]: the search for a free address ends and finds the first one,
      or there is none; the port specifications.
    - [LBProofs], [AutoScalingProofs], [ScalingProofs], [ContainerProofs]: the life of a load
      balancer, the bounds every pass of the scaling worker keeps, limits and idempotency keys,
      deletion against a concurrent worker (versions), and that a pass over a deployment ends.
    - [QueueProofs]: a receipt hides a message for the visibility timeout and its handle deletes
      at most once.  [SecretProofs], [StorageProofs]: round trips.  [AuthProofs]: lockout,
      login, reset.
    - [DataProofs], [StackProofs], [EdgeProofs], [SecurityGroupProofs], [Dashboard]: goroutines
      leave a final status, failures are compensated, messages fan out, requests reach a stored
      route, a function stays in its directory.
    - [AdapterProofs]: a libvirt instance that could not be made has its disk and its domain
      taken back, whatever call failed, and one that was made was started; the networks of libvirt never overlap; the names of bridges and
      interfaces are accepted by the Open vSwitch adapter; the helper container of an archive is
      removed.  [Hub.hub_correct]: under every interleaving no channel is used after it is closed,
      and a client gets a gapless run of the messages.
    - Each of these files also holds theorems that say where the code does not do what it means
      to, from [ScalingProofs.backoff_never_applies] to [DataProofs.caches_not_scoped].
    - [Concrete] and [PlatformWitnesses] instantiate all parameters with functions that compute;
      [ResourceWitnesses], [ServiceWitnesses], [PlatformWitnesses], [ServerWitnesses],
      [DataWitnesses] and [AdapterWitnesses] run the theorems there, the ones on reachable
      states on a history of nine requests.

    ** Fuel and bounds

    The loop of [findAvailableIP] has no bound of its own; it is given as fuel one step more than
    there are used addresses, which [findAvailableIP_correct] shows to be enough.  The libvirt
    adapter waits for an address at most 24 ticks, and for the end of a task until its context
    ends, whose number of ticks is a parameter.  All other loops are structural, over a list or a
    count.  Integers of the code wrap at 64 bits; columns of
    type INTEGER refuse what does not fit in 32 bits.

    ** Not modelled

    - Two operations never interleave inside one another, logins apart: a step runs a whole
      operation.  The theorems on versions and on goroutines speak of an operation that works
      with a row read in an earlier step.  Locks of other transactions on a row of a queue are a parameter.
    - The web framework is third-party code: the text of JSON and of forms, the rules of the tags
      of a struct and the upgrade of a connection are parameters, and so is the choice of the
      route.  Of a response, the identifier of the request in its envelope and the time that the
      log and the metrics take are left out; of a proxied request, what the other server answers.
      A body that repeats the key of a list does not reuse the elements read before.
    - Start-up, configuration, migrations as a program, metrics, logging, the command-line client,
      the SDK, the no-op backends, with the answer of [/health/ovs] about one, and generated
      documentation.
    - The services call the backends as calls with an answer; that the adapters give these answers
      is not stated as a refinement, for the answers of libvirt and Docker are themselves
      parameters.
    - Lengths of VARCHAR columns, the rounding of timestamps to microseconds, directories of the
      file store, raw paths and queries of the reverse proxy. *)
From stdpp Require Export base tactics prelude list list_numbers gmap strings sorting pretty.
From Stdlib Require Export ZArith Lia Ascii String.
From stdpp Require Export base strings.
#[global] Open Scope string_scope.

(** ** Functional record update

    A record that wants updates declares its eta expansion as an instance of
    [Eta]; the update of one field is then synthesised by resolution. *)

Class Eta (R : Type) := eta : R → R.
Class Field {R T : Type} (p : R → T) := modify : (T → T) → R → R.
Arguments modify {R T} p {_} f r.

Ltac solve_field :=
  match goal with
  | |- @Field ?R ?T ?p =>
      let i := constr:(_ : Eta R) in
      let e := eval hnf in i in
      match eval pattern p in e with
      | ?g _ =>
          let t := eval cbv beta in (fun f : T → T => g (fun x : R => f (p x))) in
          exact t
      end
  end.

#[export] Hint Extern 0 (Field _) => solve_field : typeclass_instances.

Declare Scope cloud_scope.
Delimit Scope cloud_scope with cloud.

Notation "r <| p ::= f |>" := (modify p f r)
  (at level 12, left associativity, format "r  <| p  ::=  f |>") : cloud_scope.
Notation "r <| p := v |>" := (modify p (fun _ => v) r)
  (at level 12, left associativity, format "r  <| p  :=  v |>") : cloud_scope.

#[global] Open Scope list_scope.
#[global] Open Scope Z_scope.
#[global] Open Scope cloud_scope.
#[global] Arguments String.append !_ _ /.

(** ** Tactics *)

(** Destructs the scrutinee of every [match] of the goal or of a hypothesis. *)
Ltac crush_match :=
  repeat (case_match; simplify_eq/=; try done).

(** ** Lists *)

Section lists.
Context {A : Type}.

(** The first occurrence test used for Go's [map[K]bool] membership checks. *)
Definition mem `{EqDecision A} (x : A) (l : list A) : bool := bool_decide (x ∈ l).

Lemma mem_true `{EqDecision A} x (l : list A) : mem x l = true ↔ x ∈ l.
Proof. apply bool_decide_eq_true. Qed.

Lemma mem_false `{EqDecision A} x (l : list A) : mem x l = false ↔ x ∉ l.
Proof. apply bool_decide_eq_false. Qed.

End lists.
