(* ===== verification/GoStd.v ===== *)
(** * The parts of Go and its standard library the program uses

    64-bit integers with wrap-around, [float64] as IEEE 754 binary64,
    [strings.Split], [strings.Join], [strings.TrimSpace], [strconv.Atoi] and the
    [%d] verb.  A Go string is a sequence of bytes: a Rocq [string]. *)
From Corelib Require Export SpecFloat.
From S2P Require Import Prelude.

(** ** Integers: Go's [int] has 64 bits *)

Definition wrap64 (z : Z) : Z := (z + 2 ^ 63) `mod` 2 ^ 64 - 2 ^ 63.
Definition int64_range (z : Z) : Prop := - 2 ^ 63 ≤ z < 2 ^ 63.
Definition int_add (a b : Z) : Z := wrap64 (a + b).
Definition int_sub (a b : Z) : Z := wrap64 (a - b).

Lemma wrap64_id z : int64_range z → wrap64 z = z.
Proof. unfold int64_range, wrap64. intros. rewrite Z.mod_small; lia. Qed.

Lemma wrap64_range z : int64_range (wrap64 z).
Proof.
  unfold int64_range, wrap64. pose proof (Z.mod_pos_bound (z + 2 ^ 63) (2 ^ 64)). lia.
Qed.

Lemma wrap64_le z : 0 ≤ z → wrap64 z ≤ z.
Proof. unfold wrap64. intros. pose proof (Z.mod_le (z + 2 ^ 63) (2 ^ 64)). lia. Qed.

Lemma int_add_exact a b : int64_range (a + b) → int_add a b = a + b.
Proof. apply wrap64_id. Qed.

Lemma int_sub_exact a b : int64_range (a - b) → int_sub a b = a - b.
Proof. apply wrap64_id. Qed.

(** ** [float64]: the specification floats of the standard library, 53 bits of
    precision and exponent bound 1024 *)

Notation float64 := spec_float (only parsing).

Definition float_sub (x y : float64) : float64 := SFsub 53 1024 x y.
Definition float_mul (x y : float64) : float64 := SFmul 53 1024 x y.
Definition float_div (x y : float64) : float64 := SFdiv 53 1024 x y.
Definition float_lt (x y : float64) : bool := SFltb x y.
Definition float_gt (x y : float64) : bool := SFltb y x.
Definition float_of_int (z : Z) : float64 := binary_normalize 53 1024 z 0 false.

(** ** Strings *)

Fixpoint split_on (c : ascii) (s : string) : list string :=
  match s with
  | EmptyString => [EmptyString]
  | String a s' =>
      if bool_decide (a = c) then EmptyString :: split_on c s'
      else match split_on c s' with
           | h :: t => String a h :: t
           | [] => [String a EmptyString]
           end
  end.

Fixpoint join (sep : string) (l : list string) : string :=
  match l with
  | [] => EmptyString
  | [x] => x
  | x :: l' => x +:+ sep +:+ join sep l'
  end.

(** The byte [c] does not occur in the string. *)
Fixpoint str_free (c : ascii) (s : string) : bool :=
  match s with
  | EmptyString => true
  | String a s' => negb (bool_decide (a = c)) && str_free c s'
  end.

(** [s[:n]] for [n] at most the length. *)
Definition str_prefix (n : nat) (s : string) : string := String.substring 0 n s.

(** [strings.TrimSpace].  [unicode.IsSpace] holds of six ASCII characters, of
    U+0085 and U+00A0, and of the spaces of the blocks U+1680, U+2000-U+200A,
    U+2028, U+2029, U+202F, U+205F and U+3000, matched here by their UTF-8 bytes. *)
Definition is_ascii_space (a : N) : bool := ((9 <=? a) && (a <=? 13))%N || (a =? 32)%N.
Definition is_space2 (a b : N) : bool := ((a =? 0xC2) && ((b =? 0x85) || (b =? 0xA0)))%N.
Definition is_space3 (a b c : N) : bool :=
  (((a =? 0xE1) && (b =? 0x9A) && (c =? 0x80))
   || ((a =? 0xE2) && (b =? 0x80)
       && (((0x80 <=? c) && (c <=? 0x8A)) || (c =? 0xA8) || (c =? 0xA9) || (c =? 0xAF)))
   || ((a =? 0xE2) && (b =? 0x81) && (c =? 0x9F))
   || ((a =? 0xE3) && (b =? 0x80) && (c =? 0x80)))%N.

Fixpoint trim_left (l : list N) : list N :=
  match l with
  | a :: l' =>
      if is_ascii_space a then trim_left l'
      else match l' with
           | b :: l'' =>
               if is_space2 a b then trim_left l''
               else match l'' with
                    | c :: l''' => if is_space3 a b c then trim_left l''' else l
                    | [] => l
                    end
           | [] => l
           end
  | [] => []
  end.

(** The same from the right end, on the reversed bytes. *)
Fixpoint trim_right_rev (l : list N) : list N :=
  match l with
  | a :: l' =>
      if is_ascii_space a then trim_right_rev l'
      else match l' with
           | b :: l'' =>
               if is_space2 b a then trim_right_rev l''
               else match l'' with
                    | c :: l''' => if is_space3 c b a then trim_right_rev l''' else l
                    | [] => l
                    end
           | [] => l
           end
  | [] => []
  end.

Fixpoint str_bytes (s : string) : list N :=
  match s with
  | EmptyString => []
  | String a s' => N_of_ascii a :: str_bytes s'
  end.

Fixpoint bytes_str (l : list N) : string :=
  match l with
  | [] => EmptyString
  | a :: l' => String (ascii_of_N a) (bytes_str l')
  end.

Definition TrimSpace (s : string) : string :=
  bytes_str (reverse (trim_right_rev (reverse (trim_left (str_bytes s))))).

(** [strconv.Atoi]: an optional sign and at least one decimal digit, the value in
    the range of [int]. *)
Definition digit_val (a : ascii) : option Z :=
  let n := N_of_ascii a in
  if ((48 <=? n) && (n <=? 57))%N then Some (Z.of_N n - 48) else None.

Fixpoint digits_val (acc : Z) (s : string) : option Z :=
  match s with
  | EmptyString => Some acc
  | String a s' => d ← digit_val a; digits_val (acc * 10 + d) s'
  end.

Definition parse_uint (s : string) : option Z :=
  match s with
  | EmptyString => None
  | _ => digits_val 0 s
  end.

Definition in_int64 (z : Z) : option Z :=
  if bool_decide (- 2 ^ 63 ≤ z ∧ z < 2 ^ 63) then Some z else None.

Definition Atoi (s : string) : option Z :=
  match s with
  | EmptyString => None
  | String a s' =>
      if bool_decide (a = "-"%char) then u ← parse_uint s'; in_int64 (- u)
      else if bool_decide (a = "+"%char) then u ← parse_uint s'; in_int64 u
      else u ← parse_uint s; in_int64 u
  end.

(** [fmt.Sscanf] with one [%s] or [%d]: spaces but no newline are skipped, then a token
    is read; a failure leaves the variable as it was, which is [None] here. *)
Fixpoint scan_skip (l : list N) : option (list N) :=
  match l with
  | a :: l' =>
      if (a =? 10)%N then None
      else if is_ascii_space a then scan_skip l'
      else match l' with
           | b :: l'' =>
               if is_space2 a b then scan_skip l''
               else match l'' with
                    | c :: l''' => if is_space3 a b c then scan_skip l''' else Some l
                    | [] => Some l
                    end
           | [] => Some l
           end
  | [] => None
  end.

Fixpoint scan_token (l : list N) : list N :=
  match l with
  | a :: l' =>
      if is_ascii_space a then []
      else match l' with
           | b :: l'' =>
               if is_space2 a b then []
               else match l'' with
                    | c :: _ => if is_space3 a b c then [] else a :: scan_token l'
                    | [] => a :: scan_token l'
                    end
           | [] => [a]
           end
  | [] => []
  end.

Definition Sscanf_s (s : string) : option string :=
  l ← scan_skip (str_bytes s); Some (bytes_str (scan_token l)).

Fixpoint scan_digits (s : string) : string :=
  match s with
  | String a s' => match digit_val a with Some _ => String a (scan_digits s') | None => EmptyString end
  | EmptyString => EmptyString
  end.

Definition Sscanf_d (s : string) : option Z :=
  l ← scan_skip (str_bytes s);
  match bytes_str l with
  | String a s' =>
      if bool_decide (a = "-"%char) then u ← parse_uint (scan_digits s'); in_int64 (- u)
      else if bool_decide (a = "+"%char) then u ← parse_uint (scan_digits s'); in_int64 u
      else u ← parse_uint (scan_digits (String a s')); in_int64 u
  | EmptyString => None
  end.

(** The [%d] verb. *)
Definition itoa (z : Z) : string := pretty z.

(** ** Lemmas *)

Lemma split_on_nonempty c s : split_on c s ≠ [].
Proof. destruct s; simpl; repeat case_match; done. Qed.

Lemma join_cons sep x l : l ≠ [] → join sep (x :: l) = x +:+ sep +:+ join sep l.
Proof. by destruct l. Qed.

Lemma str_app_nil_r s : s +:+ "" = s.
Proof. induction s; simpl; congruence. Qed.

Lemma str_app_assoc a b c : (a +:+ b) +:+ c = a +:+ (b +:+ c).
Proof. induction a; simpl; congruence. Qed.

(** Splitting and joining on a one-byte separator are inverse. *)
Lemma join_split_on c s : join (String c EmptyString) (split_on c s) = s.
Proof.
  induction s as [|a s IH]; simpl; [done|].
  case_bool_decide as Ha; subst.
  - rewrite join_cons by apply split_on_nonempty. simpl. by rewrite IH.
  - destruct (split_on c s) as [|h t] eqn:Hs; [by apply split_on_nonempty in Hs|].
    destruct t; simpl in *; by rewrite IH.
Qed.

Lemma split_on_free c s : str_free c s = true → split_on c s = [s].
Proof.
  induction s as [|a s IH]; simpl; [done|].
  intros [Ha Hs]%andb_true_iff. rewrite (IH Hs).
  by case_bool_decide.
Qed.

Lemma split_on_app_sep c x s :
  str_free c x = true → split_on c (x +:+ String c s) = x :: split_on c s.
Proof.
  induction x as [|a x IH]; simpl.
  - intros _. by rewrite bool_decide_true.
  - intros [Ha Hx]%andb_true_iff. rewrite (IH Hx). by case_bool_decide.
Qed.

Lemma split_on_join c l :
  l ≠ [] → Forall (λ s, str_free c s = true) l →
  split_on c (join (String c EmptyString) l) = l.
Proof.
  induction l as [|x l IH]; intros Hne Hl; [done|]. inversion_clear Hl.
  destruct l as [|y l].
  - by apply split_on_free.
  - rewrite join_cons by done. change (String c "" +:+ ?r) with (String c r).
    rewrite split_on_app_sep by done. f_equal. by apply IH.
Qed.

Lemma split_on_pieces_free c s : Forall (λ p, str_free c p = true) (split_on c s).
Proof.
  induction s as [|a s IH]; simpl; [by repeat constructor|].
  case_bool_decide as Ha; [by constructor|].
  destruct (split_on c s) as [|h t].
  - repeat constructor. simpl. by rewrite bool_decide_false.
  - inversion_clear IH. constructor; [|done]. simpl. by rewrite bool_decide_false.
Qed.

(** A byte absent from the whole string is absent from every piece. *)
Lemma split_on_free_other c d s :
  str_free d s = true → Forall (λ p, str_free d p = true) (split_on c s).
Proof.
  induction s as [|a s IH]; simpl; [by repeat constructor|].
  intros [Ha Hs]%andb_true_iff. specialize (IH Hs).
  destruct (bool_decide (a = c)); [by constructor|].
  destruct (split_on c s) as [|h t].
  - repeat constructor. simpl. by rewrite Ha.
  - inversion_clear IH. constructor; [|done]. simpl. by rewrite Ha.
Qed.

Lemma str_free_app c a b : str_free c (a +:+ b) = str_free c a && str_free c b.
Proof. induction a; simpl; [done|]. by rewrite IHa, andb_assoc. Qed.

Lemma in_int64_Some z z' : in_int64 z = Some z' ↔ z' = z ∧ int64_range z.
Proof. unfold in_int64, int64_range. case_bool_decide; naive_solver. Qed.

Lemma Atoi_range s z : Atoi s = Some z → int64_range z.
Proof.
  unfold Atoi. repeat case_match; try done;
    intros (u & _ & Hz)%bind_Some; by apply in_int64_Some in Hz as [-> ?].
Qed.

Create HintDb gostd discriminated.
#[export] Hint Resolve split_on_nonempty split_on_pieces_free split_on_free_other : gostd.

(** Executable checks of the model against known values. *)
Example split_ex : split_on ","%char "80:80,443:443" = ["80:80"; "443:443"].
Proof. reflexivity. Qed.
Example split_empty_ex : split_on ","%char "" = [""].
Proof. reflexivity. Qed.
Example atoi_ex : (Atoi "8080", Atoi "-1", Atoi "+80", Atoi "", Atoi "8x", Atoi "-",
                   Atoi "9223372036854775808") =
                  (Some 8080, Some (-1), Some 80, None, None, None, None).
Proof. vm_compute. reflexivity. Qed.
Example trim_ex : TrimSpace (" 80 " +:+ String "194" (String "160" "")) = "80".
Proof. vm_compute. reflexivity. Qed.
