(* ===== verification/Encoding.v ===== *)
(** * [encoding/hex], [encoding/base64] and [path/filepath] of Go's standard library

    The parts the services use: [hex.EncodeToString], [base64.StdEncoding] with its
    padding and its tolerance of line breaks, and the lexical processing of slash-separated
    paths ([filepath.Clean], [filepath.Join], [strings.HasPrefix]).  Bytes are numbers
    below 256. *)
From S2P Require Import Prelude GoStd.

Definition byte_ok (b : N) : Prop := (b < 256)%N.

(** ** Hexadecimal *)

Definition hex_digit (n : N) : ascii :=
  if (n <? 10)%N then ascii_of_N (48 + n) else ascii_of_N (87 + n).

Fixpoint hex_encode (l : list N) : string :=
  match l with
  | [] => EmptyString
  | b :: l' => String (hex_digit (b / 16)) (String (hex_digit (b mod 16)) (hex_encode l'))
  end.

(** The value of a digit of [hex_encode], used to read it back. *)
Definition hex_val (a : ascii) : N :=
  let n := N_of_ascii a in if (n <? 58)%N then n - 48 else n - 87.

Fixpoint hex_read (s : string) : list N :=
  match s with
  | String a (String b s') => (16 * hex_val a + hex_val b)%N :: hex_read s'
  | _ => []
  end.

(** ** Base 64 *)

Definition b64_alphabet : list ascii :=
  list_ascii_of_string "ABCDEFGHIJKLMNOPQRSTUVWXYZabcdefghijklmnopqrstuvwxyz0123456789+/".

Definition b64_char (n : N) : ascii := nth (N.to_nat n) b64_alphabet "="%char.

Definition b64_val (a : ascii) : option N :=
  let n := N_of_ascii a in
  (if (65 <=? n) && (n <=? 90) then Some (n - 65)
   else if (97 <=? n) && (n <=? 122) then Some (n - 71)
   else if (48 <=? n) && (n <=? 57) then Some (n + 4)
   else if n =? 43 then Some 62
   else if n =? 47 then Some 63
   else None)%N.

(** [StdEncoding.EncodeToString]: three bytes to four digits, the last group padded. *)
Fixpoint b64_encode (l : list N) : list ascii :=
  match l with
  | a :: b :: c :: l' =>
      b64_char (a / 4) :: b64_char (a mod 4 * 16 + b / 16) :: b64_char (b mod 16 * 4 + c / 64)
        :: b64_char (c mod 64) :: b64_encode l'
  | [a; b] =>
      [b64_char (a / 4); b64_char (a mod 4 * 16 + b / 16); b64_char (b mod 16 * 4); "="%char]
  | [a] => [b64_char (a / 4); b64_char (a mod 4 * 16); "="%char; "="%char]
  | [] => []
  end%N.

(** The decoder on the characters that are not line breaks.  The bits that a padded
    group leaves over are not looked at. *)
Fixpoint b64_groups (l : list ascii) : option (list N) :=
  match l with
  | [] => Some []
  | a :: b :: c :: d :: l' =>
      va ← b64_val a; vb ← b64_val b;
      let b1 := (va * 4 + vb / 16)%N in
      if bool_decide (c = "="%char) then
        if bool_decide (d = "="%char ∧ l' = []) then Some [b1] else None
      else
        vc ← b64_val c;
        let b2 := (vb mod 16 * 16 + vc / 4)%N in
        if bool_decide (d = "="%char) then
          if bool_decide (l' = []) then Some [b1; b2] else None
        else
          vd ← b64_val d;
          r ← b64_groups l';
          Some (b1 :: b2 :: (vc mod 4 * 64 + vd)%N :: r)
  | _ => None
  end.

Definition line_break (a : ascii) : Prop := a = "010"%char ∨ a = "013"%char.

Definition EncodeToString (l : list N) : string := string_of_list_ascii (b64_encode l).
Definition DecodeString (s : string) : option (list N) :=
  b64_groups (filter (λ a, a ≠ "010"%char ∧ a ≠ "013"%char) (list_ascii_of_string s)).

(** ** Paths *)

Definition slash : ascii := "/"%char.

(** [strings.HasPrefix] and [strings.TrimPrefix] *)
Fixpoint HasPrefix (s prefix : string) {struct prefix} : bool :=
  match prefix, s with
  | EmptyString, _ => true
  | String p prefix', String a s' => bool_decide (a = p) && HasPrefix s' prefix'
  | String _ _, EmptyString => false
  end.

Fixpoint str_drop (n : nat) (s : string) : string :=
  match n, s with
  | S n', String _ s' => str_drop n' s'
  | O, _ => s
  | _, EmptyString => EmptyString
  end.

Definition TrimPrefix (s prefix : string) : string :=
  if HasPrefix s prefix then str_drop (String.length prefix) s else s.

(** The elements of a cleaned path, the last one first: an element ["."] or an empty one
    is dropped, [".."] drops the element before it, and is kept when there is none and
    the path is not rooted. *)
Definition push_elem (rooted : bool) (acc : list string) (e : string) : list string :=
  if bool_decide (e = "" ∨ e = ".") then acc
  else if bool_decide (e = "..") then
    match acc with
    | [] => if rooted then [] else [".."]
    | x :: acc' => if bool_decide (x = "..") then ".." :: acc else acc'
    end
  else e :: acc.

Definition is_rooted (p : string) : bool := HasPrefix p "/".

Definition clean_elems (p : string) : list string :=
  reverse (foldl (push_elem (is_rooted p)) [] (split_on slash p)).

(** [filepath.Clean] *)
Definition Clean (p : string) : string :=
  let out := join "/" (clean_elems p) in
  if is_rooted p then "/" +:+ out
  else if bool_decide (out = "") then "." else out.

(** [filepath.Join]: the elements that are not empty, cleaned. *)
Definition Join (l : list string) : string :=
  match filter (λ s, s ≠ "") l with
  | [] => ""
  | l' => Clean (join "/" l')
  end.

(** [filepath.Dir]: the path up to its last slash, cleaned. *)
Fixpoint up_to_slash (s : string) : option string :=
  match s with
  | EmptyString => None
  | String a s' =>
      match up_to_slash s' with
      | Some r => Some (String a r)
      | None => if bool_decide (a = slash) then Some "/" else None
      end
  end.

Definition Dir (p : string) : string := Clean (default "" (up_to_slash p)).

(** ** Lemmas *)

Lemma filter_all {A} (P : A → Prop) `{!∀ x, Decision (P x)} (l : list A) :
  Forall P l → filter P l = l.
Proof.
  induction 1 as [|x l Hx Hl IH]; [done|]. by rewrite filter_cons_True, IH.
Qed.

Lemma string_list_inv l : list_ascii_of_string (string_of_list_ascii l) = l.
Proof. apply list_ascii_of_string_of_list_ascii. Qed.

Lemma small_all (P : N → bool) n :
  forallb (λ i, P (N.of_nat i)) (seq 0 n) = true → ∀ v, (v < N.of_nat n)%N → P v = true.
Proof.
  rewrite forallb_forall. intros Hall v Hv. rewrite <- (N2Nat.id v). apply Hall, in_seq. lia.
Qed.

Lemma b64_val_char v : (v < 64)%N → b64_val (b64_char v) = Some v.
Proof.
  intros Hv. apply (small_all (λ v, bool_decide (b64_val (b64_char v) = Some v)) 64) in Hv;
    [by apply bool_decide_eq_true in Hv|vm_compute; reflexivity].
Qed.

(** The characters of the alphabet are neither padding nor line breaks. *)
Lemma b64_char_plain v :
  (v < 64)%N → b64_char v ≠ "="%char ∧ b64_char v ≠ "010"%char ∧ b64_char v ≠ "013"%char.
Proof.
  intros Hv. apply (small_all (λ v, bool_decide (b64_char v ≠ "="%char ∧ b64_char v ≠ "010"%char
    ∧ b64_char v ≠ "013"%char)) 64) in Hv;
    [by apply bool_decide_eq_true in Hv|vm_compute; reflexivity].
Qed.

Lemma div_small a n m : (0 < n → a < n * m → a / n < m)%N.
Proof. intros. apply N.Div0.div_lt_upper_bound; lia. Qed.

(** The digits of a group are below 64. *)
Lemma b64_digits_ok a b c : byte_ok a → byte_ok b → byte_ok c →
  (a / 4 < 64 ∧ a mod 4 * 16 + b / 16 < 64 ∧ b mod 16 * 4 + c / 64 < 64 ∧ c mod 64 < 64)%N.
Proof.
  unfold byte_ok. intros Ha Hb Hc.
  pose proof (div_small a 4 64). pose proof (div_small b 16 16). pose proof (div_small c 64 4).
  pose proof (N.mod_lt a 4). pose proof (N.mod_lt b 16). pose proof (N.mod_lt c 64). lia.
Qed.

(** A group gives its bytes back. *)
Lemma b64_group_inv a b c : byte_ok a → byte_ok b → byte_ok c →
  (a / 4 * 4 + (a mod 4 * 16 + b / 16) / 16 = a ∧
   (a mod 4 * 16 + b / 16) mod 16 * 16 + (b mod 16 * 4 + c / 64) / 4 = b ∧
   (b mod 16 * 4 + c / 64) mod 4 * 64 + c mod 64 = c)%N.
Proof.
  unfold byte_ok. intros Ha Hb Hc.
  pose proof (div_small b 16 16). pose proof (div_small c 64 4).
  rewrite (N.add_comm (a mod 4 * 16)), N.div_add by lia. rewrite N.Div0.mod_add.
  rewrite (N.add_comm (b mod 16 * 4)), N.div_add by lia. rewrite N.Div0.mod_add.
  rewrite (N.div_small (b / 16)), (N.mod_small (b / 16)) by lia.
  rewrite (N.div_small (c / 64)), (N.mod_small (c / 64)) by lia.
  pose proof (N.div_mod a 4). pose proof (N.div_mod b 16). pose proof (N.div_mod c 64). lia.
Qed.

Lemma b64_encode_plain l :
  Forall byte_ok l → Forall (λ a, a ≠ "010"%char ∧ a ≠ "013"%char) (b64_encode l).
Proof.
  revert l. fix IH 1. intros [|a [|b [|c l]]] Hl; cbn [b64_encode]; [constructor|..];
    rewrite ?Forall_cons in *.
  - destruct Hl as [Ha _]. destruct (b64_digits_ok a 0 0 Ha) as (?&H2&?); [done..|].
    rewrite N.add_0_r in H2. split_and!; try done; by apply b64_char_plain.
  - destruct Hl as (Ha & Hb & _). destruct (b64_digits_ok a b 0 Ha Hb) as (?&?&H3&?); [done|].
    rewrite N.add_0_r in H3. split_and!; try done; by apply b64_char_plain.
  - destruct Hl as (Ha & Hb & Hc & Hl). destruct (b64_digits_ok a b c Ha Hb Hc) as (?&?&?&?).
    repeat split; try (by apply b64_char_plain). by apply IH.
Qed.

Lemma b64_groups_encode l : Forall byte_ok l → b64_groups (b64_encode l) = Some l.
Proof.
  revert l. fix IH 1. intros [|a [|b [|c l]]] Hl; cbn [b64_encode]; [done|..];
    rewrite ?Forall_cons in *; cbn [b64_groups].
  - destruct Hl as [Ha _]. destruct (b64_digits_ok a 0 0 Ha) as (H1&H2&_); [done..|].
    destruct (b64_group_inv a 0 0 Ha) as (Hg1&_); [done..|]. change (0 / 16)%N with 0%N in *.
    rewrite N.add_0_r in *. rewrite !b64_val_char by done. cbn. by rewrite Hg1.
  - destruct Hl as (Ha & Hb & _). destruct (b64_digits_ok a b 0 Ha Hb) as (H1&H2&H3&_); [done|].
    destruct (b64_group_inv a b 0 Ha Hb) as (Hg1&Hg2&_); [done|]. change (0 / 64)%N with 0%N in *.
    rewrite N.add_0_r in H3, Hg2. rewrite !b64_val_char by done. cbn.
    rewrite bool_decide_false by (by apply b64_char_plain). by rewrite Hg1, Hg2.
  - destruct Hl as (Ha & Hb & Hc & Hl). destruct (b64_digits_ok a b c Ha Hb Hc) as (?&?&?&?).
    destruct (b64_group_inv a b c Ha Hb Hc) as (Hg1&Hg2&Hg3). rewrite !b64_val_char by done. cbn.
    rewrite !bool_decide_false by (by apply b64_char_plain). rewrite IH by done. cbn.
    by rewrite Hg1, Hg2, Hg3.
Qed.

(** Decoding inverts encoding. *)
Lemma DecodeString_EncodeToString l : Forall byte_ok l → DecodeString (EncodeToString l) = Some l.
Proof.
  intros Hl. unfold DecodeString, EncodeToString. rewrite string_list_inv.
  rewrite filter_all by (by apply b64_encode_plain). by apply b64_groups_encode.
Qed.

Lemma hex_read_encode l : Forall byte_ok l → hex_read (hex_encode l) = l.
Proof.
  induction 1 as [|b l Hb Hl IH]; [done|]. cbn [hex_encode hex_read]. rewrite IH. f_equal.
  assert (∀ v, (v < 16)%N → hex_val (hex_digit v) = v) as Hv.
  { intros v Hv. apply (small_all (λ v, bool_decide (hex_val (hex_digit v) = v)) 16) in Hv;
      [by apply bool_decide_eq_true in Hv|vm_compute; reflexivity]. }
  unfold byte_ok in Hb. pose proof (div_small b 16 16). pose proof (N.mod_lt b 16).
  rewrite !Hv by lia. pose proof (N.div_mod b 16). lia.
Qed.

Lemma hex_encode_inj l1 l2 :
  Forall byte_ok l1 → Forall byte_ok l2 → hex_encode l1 = hex_encode l2 → l1 = l2.
Proof.
  intros H1 H2 Heq. by rewrite <- (hex_read_encode l1), Heq, hex_read_encode.
Qed.

Lemma str_bytes_ok s : Forall byte_ok (str_bytes s).
Proof.
  induction s as [|a s IH]; constructor; [|done]. unfold byte_ok. apply N_ascii_bounded.
Qed.

Lemma bytes_str_bytes s : bytes_str (str_bytes s) = s.
Proof. induction s as [|a s IH]; [done|]. cbn. by rewrite IH, ascii_N_embedding. Qed.

Lemma str_bytes_str l : Forall byte_ok l → str_bytes (bytes_str l) = l.
Proof. induction 1 as [|b l Hb Hl IH]; [done|]. cbn. by rewrite IH, N_ascii_embedding. Qed.

Example base64_ex : map (λ s, EncodeToString (str_bytes s)) [""; "f"; "fo"; "foo"; "foobar"]
  = [""; "Zg=="; "Zm8="; "Zm9v"; "Zm9vYmFy"].
Proof. vm_compute. reflexivity. Qed.
Example base64_bad_ex : map DecodeString ["Zg="; "Zg==x"; "Z"; "Zm9v*mFy"] = [None; None; None; None].
Proof. vm_compute. reflexivity. Qed.
Example hex_ex : hex_encode [0; 15; 160; 255]%N = "000fa0ff".
Proof. reflexivity. Qed.
Example dir_ex : map Dir ["a/b/c"; "/a"; "a"; "a/b/"] = ["a/b"; "/"; "."; "a/b"].
Proof. vm_compute. reflexivity. Qed.
Example clean_ex : map Clean [""; "/"; "a//b"; "a/../b"; "../a"; "/../a"; "a/.."; "a/./b/"; "../../x"]
  = ["."; "/"; "a/b"; "b"; "../a"; "/a"; "."; "a/b"; "../../x"].
Proof. vm_compute. reflexivity. Qed.

(** ** Cleaned paths *)

Definition plain_elem (e : string) : Prop :=
  e ≠ "" ∧ e ≠ "." ∧ e ≠ ".." ∧ str_free slash e = true.

(** The elements of a cleaned path from the last: names, and before them [".."] only, of
    which a rooted path has none. *)
Definition normal_elems (rooted : bool) (acc : list string) : Prop :=
  ∃ xs n, acc = xs ++ replicate n ".." ∧ Forall plain_elem xs ∧ (rooted = true → n = 0%nat).

Lemma push_elem_normal r acc e :
  str_free slash e = true → normal_elems r acc → normal_elems r (push_elem r acc e).
Proof.
  intros He (xs & n & -> & Hxs & Hn). unfold push_elem.
  case_bool_decide as H1; [by exists xs, n|]. case_bool_decide as H2.
  - destruct xs as [|x xs]; cbn [app].
    + destruct n as [|n]; cbn.
      * destruct r; [by exists [], 0%nat|by exists [], 1%nat].
      * rewrite bool_decide_true by done. exists [], (S (S n)).
        split_and!; [done|done|]. intros Hr. specialize (Hn Hr). lia.
    + apply Forall_cons in Hxs as [(?&?&Hx&_) Hxs].
      rewrite bool_decide_false by done. by exists xs, n.
  - exists (e :: xs), n. split_and!; [done| |done]. constructor; [|done].
    unfold plain_elem. naive_solver.
Qed.

Lemma push_elems_normal r l acc :
  Forall (λ e, str_free slash e = true) l → normal_elems r acc →
  normal_elems r (foldl (push_elem r) acc l).
Proof.
  intros Hl. revert acc. induction Hl as [|e l He Hl IH]; intros acc Hacc; [done|].
  cbn. by apply IH, push_elem_normal.
Qed.

Lemma clean_elems_normal p : normal_elems (is_rooted p) (reverse (clean_elems p)).
Proof.
  unfold clean_elems. rewrite reverse_involutive. apply push_elems_normal.
  - apply split_on_pieces_free.
  - by exists [], 0%nat.
Qed.

Lemma push_plain r l acc : Forall plain_elem l → foldl (push_elem r) acc l = reverse l ++ acc.
Proof.
  intros Hl. revert acc. induction Hl as [|e l (?&?&?&_) Hl IH]; intros acc; [done|].
  cbn [foldl]. rewrite IH, reverse_cons, <- (assoc_L (++)). f_equal. unfold push_elem.
  rewrite !bool_decide_false by naive_solver. done.
Qed.

Lemma push_dots n k : foldl (push_elem false) (replicate k "..") (replicate n "..") = replicate (n + k) "..".
Proof.
  revert k. induction n as [|n IH]; intros k; [done|]. cbn [replicate foldl].
  assert (push_elem false (replicate k "..") ".." = replicate (S k) "..") as ->.
  { unfold push_elem. rewrite bool_decide_false by naive_solver. rewrite bool_decide_true by done.
    destruct k; [done|]. cbn. by rewrite bool_decide_true. }
  rewrite IH. by rewrite Nat.add_succ_r.
Qed.

(** Processing the elements of a cleaned path again changes nothing. *)
Lemma push_normal r acc : normal_elems r acc → foldl (push_elem r) [] (reverse acc) = acc.
Proof.
  intros (xs & n & -> & Hxs & Hn). rewrite reverse_app, foldl_app, reverse_replicate.
  assert (foldl (push_elem r) [] (replicate n "..") = replicate n "..") as ->.
  { destruct r; [by rewrite Hn|]. pose proof (push_dots n 0) as Hd. by rewrite Nat.add_0_r in Hd. }
  rewrite push_plain; [by rewrite reverse_involutive|by apply Forall_reverse].
Qed.

Lemma push_normal_clean p : foldl (push_elem (is_rooted p)) [] (clean_elems p) = reverse (clean_elems p).
Proof.
  rewrite <- (reverse_involutive (clean_elems p)) at 1. apply push_normal, clean_elems_normal.
Qed.

(** The elements of a cleaned path as pieces between slashes. *)
Lemma clean_elems_free p : Forall (λ e, str_free slash e = true ∧ e ≠ "" ∧ e ≠ ".") (clean_elems p).
Proof.
  rewrite <- Forall_reverse. destruct (clean_elems_normal p) as (xs & n & -> & Hxs & _).
  apply Forall_app. split.
  - eapply Forall_impl; [exact Hxs|]. unfold plain_elem. naive_solver.
  - apply Forall_replicate. done.
Qed.

Lemma split_join_elems l : l ≠ [] → Forall (λ e, str_free slash e = true) l → split_on slash (join "/" l) = l.
Proof. apply split_on_join. Qed.

Lemma foldl_push_clean p acc l :
  foldl (push_elem (is_rooted p)) acc (split_on slash (Clean p) ++ l) =
  foldl (push_elem (is_rooted p)) acc (clean_elems p ++ l).
Proof.
  assert (Forall (λ e, str_free slash e = true) (clean_elems p)) as Hfree.
  { eapply Forall_impl; [apply clean_elems_free|]. naive_solver. }
  assert (∀ r a, push_elem r a "" = a) as Hnil by done.
  assert (∀ r a, push_elem r a "." = a) as Hdot by done.
  unfold Clean. destruct (is_rooted p) eqn:Hr.
  - cbn [String.append split_on]. rewrite bool_decide_true by done. cbn [app foldl]. rewrite Hnil.
    destruct (decide (clean_elems p = [])) as [->|Hne]; [done|]. by rewrite split_join_elems.
  - case_bool_decide as Hout.
    + destruct (decide (clean_elems p = [])) as [->|Hne]; [done|].
      pose proof (split_join_elems _ Hne Hfree) as Hs. rewrite Hout in Hs.
      pose proof (clean_elems_free p) as Hf. rewrite <- Hs in Hf.
      apply Forall_cons in Hf as [(_ & Hf & _) _]. by destruct Hf.
    + destruct (decide (clean_elems p = [])) as [Hnil'|Hne]; [destruct Hout; by rewrite Hnil'|].
      by rewrite split_join_elems.
Qed.

Lemma is_rooted_app p s : p ≠ "" → is_rooted (p +:+ s) = is_rooted p.
Proof. destruct p as [|a p]; [done|]. intros _. unfold is_rooted. cbn. by destruct (bool_decide _). Qed.

Lemma Clean_nonempty p : Clean p ≠ "".
Proof. unfold Clean. destruct (is_rooted p); [done|]. by case_bool_decide. Qed.

Lemma is_rooted_Clean p : is_rooted (Clean p) = is_rooted p.
Proof.
  unfold Clean. destruct (is_rooted p) eqn:Hr; [done|]. case_bool_decide as Hout; [done|].
  pose proof (clean_elems_free p) as Hf. destruct (clean_elems p) as [|e l]; [done|].
  apply Forall_cons in Hf as [(Hfree & Hne & _) _].
  assert (join "/" (e :: l) = e +:+ (if decide (l = []) then "" else "/" +:+ join "/" l)) as ->.
  { destruct l; [by rewrite str_app_nil_r|done]. }
  rewrite is_rooted_app by done. destruct e as [|a e]; [done|]. cbn in *.
  unfold is_rooted. cbn. apply andb_true_iff in Hfree as [Ha%negb_true_iff _].
  unfold slash in Ha. by rewrite Ha.
Qed.

Lemma split_on_app c x s : split_on c (x +:+ String c s) = split_on c x ++ split_on c s.
Proof.
  induction x as [|a x IH]; cbn; [by rewrite bool_decide_true|].
  destruct (bool_decide (a = c)); [by rewrite IH|]. rewrite IH.
  destruct (split_on c x) eqn:Hx; [by apply split_on_nonempty in Hx|done].
Qed.

(** Cleaning the first part of a path before the whole changes nothing. *)
Lemma Clean_Clean_app p s : p ≠ "" → Clean (Clean p +:+ "/" +:+ s) = Clean (p +:+ "/" +:+ s).
Proof.
  intros Hp.
  assert (clean_elems (Clean p +:+ "/" +:+ s) = clean_elems (p +:+ "/" +:+ s)) as He.
  { unfold clean_elems. rewrite !is_rooted_app, is_rooted_Clean by (done || apply Clean_nonempty).
    f_equal.
    change ("/" +:+ s) with (String slash s).
    rewrite !split_on_app, foldl_push_clean, foldl_app, push_normal_clean, foldl_app.
    unfold clean_elems. by rewrite reverse_involutive. }
  unfold Clean at 1 3. rewrite He, !is_rooted_app, is_rooted_Clean; [done|done|apply Clean_nonempty].
Qed.

Lemma Join_nonempty l : l ≠ [] → Forall (λ s, s ≠ "") l → Join l = Clean (join "/" l).
Proof. intros Hne Hl. unfold Join. rewrite filter_all by done. by destruct l. Qed.

(** Joining in two steps gives the path of joining at once. *)
Lemma Join_Join b x y :
  b ≠ "" → x ≠ "" → y ≠ "" → Join [Join [b; x]; y] = Join [b; x; y].
Proof.
  intros Hb Hx Hy. rewrite (Join_nonempty [b; x]), (Join_nonempty [b; x; y]) by auto.
  rewrite Join_nonempty by (auto using Clean_nonempty). cbn [join].
  rewrite Clean_Clean_app; [by rewrite str_app_assoc|by destruct b].
Qed.

(** A path that has another as a prefix and then a slash goes through its elements. *)
Lemma Clean_prefix_elems p t s :
  is_rooted p = true → is_rooted t = true → clean_elems t ≠ [] →
  Clean p = Clean t +:+ "/" +:+ s →
  ∃ rest, rest ≠ [] ∧ clean_elems p = clean_elems t ++ rest ∧ Forall (λ e, e ≠ "..") (clean_elems p).
Proof.
  intros Hp Ht Hne Heq.
  assert (∀ q, Forall (λ e, str_free slash e = true) (clean_elems q)) as Hfree.
  { intros q. eapply Forall_impl; [apply clean_elems_free|]. naive_solver. }
  assert (split_on slash (Clean p) = "" :: split_on slash (join "/" (clean_elems p))) as Hs.
  { unfold Clean. by rewrite Hp. }
  rewrite Heq in Hs. change ("/" +:+ s) with (String slash s) in Hs. rewrite split_on_app in Hs.
  assert (split_on slash (Clean t) = "" :: clean_elems t) as Hs'.
  { unfold Clean. rewrite Ht. cbn. by rewrite split_join_elems. }
  rewrite Hs' in Hs. cbn in Hs. injection Hs as Hs.
  assert (clean_elems p ≠ []) as Hnep.
  { intros Hnil. rewrite Hnil in Hs. cbn in Hs. destruct (clean_elems t); [done|].
    destruct l; [|done]. cbn in Hs. by destruct (split_on_nonempty slash s); destruct (split_on slash s). }
  rewrite split_join_elems in Hs by done. exists (split_on slash s).
  split_and!; [apply split_on_nonempty|done|].
  rewrite <- Forall_reverse. destruct (clean_elems_normal p) as (xs & n & -> & Hxs & Hn).
  rewrite (Hn Hp), app_nil_r. eapply Forall_impl; [exact Hxs|]. unfold plain_elem. naive_solver.
Qed.
