(* ===== verification/Errors.v ===== *)
(** * Errors: [internal/errors] and its HTTP rendering in [pkg/httputil]

    [error] is Go's [error] interface with the dynamic types the program
    builds: the API error of [internal/errors], the errors of [fmt.Errorf], the
    sentinel [pgx.ErrNoRows], and errors made by code outside the repository. *)
From S2P Require Import Prelude.

Inductive ErrType :=
  | NotFound | InvalidInput | Internal | Unauthorized | Conflict | Forbidden
  | ResourceLimitExceeded
  | BucketNotFound | ObjectNotFound | ObjectTooLarge
  | InvalidPortFormat | PortConflict | TooManyPorts | InstanceNotRunning
  | LBNotFound | LBTargetExists | LBCrossVPC.

#[export] Instance ErrType_eq_dec : EqDecision ErrType.
Proof. solve_decision. Defined.

Definition ErrType_string (t : ErrType) : string :=
  match t with
  | NotFound => "NOT_FOUND"
  | InvalidInput => "INVALID_INPUT"
  | Internal => "INTERNAL"
  | Unauthorized => "UNAUTHORIZED"
  | Conflict => "CONFLICT"
  | Forbidden => "FORBIDDEN"
  | ResourceLimitExceeded => "RESOURCE_LIMIT_EXCEEDED"
  | BucketNotFound => "BUCKET_NOT_FOUND"
  | ObjectNotFound => "OBJECT_NOT_FOUND"
  | ObjectTooLarge => "OBJECT_TOO_LARGE"
  | InvalidPortFormat => "INVALID_PORT_FORMAT"
  | PortConflict => "PORT_CONFLICT"
  | TooManyPorts => "TOO_MANY_PORTS"
  | InstanceNotRunning => "INSTANCE_NOT_RUNNING"
  | LBNotFound => "LB_NOT_FOUND"
  | LBTargetExists => "LB_TARGET_EXISTS"
  | LBCrossVPC => "LB_CROSS_VPC"
  end.

Inductive error :=
  | AppError (ty : ErrType) (msg code : string) (cause : option error)
  | FmtError (msg : string) (wrapped : option error)
  | ErrNoRows
  | ExternalError (msg : string).

(** [Error.Error]: the text of an error, with the cause when there is one. *)
Fixpoint error_text (e : error) : string :=
  match e with
  | AppError ty msg _ (Some c) =>
      ErrType_string ty +:+ ": " +:+ msg +:+ " (cause: " +:+ error_text c +:+ ")"
  | AppError ty msg _ None => ErrType_string ty +:+ ": " +:+ msg
  | FmtError msg _ => msg
  | ErrNoRows => "no rows in result set"
  | ExternalError msg => msg
  end.

Definition Unwrap (e : error) : option error :=
  match e with
  | AppError _ _ _ cause => cause
  | FmtError _ w => w
  | _ => None
  end.

Definition New (t : ErrType) (msg : string) : error := AppError t msg (ErrType_string t) None.

Definition Wrap (t : ErrType) (msg : string) (err : error) : error :=
  AppError t msg (ErrType_string t) (Some err).

Definition Is (err : error) (t : ErrType) : bool :=
  match err with
  | AppError ty _ _ _ => bool_decide (ty = t)
  | _ => false
  end.

Definition GetCause (err : error) : option error :=
  match err with
  | AppError _ _ _ cause => cause
  | _ => None
  end.

Definition ErrLBNotFound : error := New LBNotFound "load balancer not found".
Definition ErrLBTargetExists : error := New LBTargetExists "target already registered".
Definition ErrLBCrossVPC : error := New LBCrossVPC "target must be in same VPC as LB".

(** [fmt.Errorf] without and with the [%w] verb at the end of the format. *)
Definition Errorf (msg : string) : error := FmtError msg None.
Definition Errorf_w (prefix : string) (err : error) : error :=
  FmtError (prefix +:+ ": " +:+ error_text err) (Some err).

(** ** The HTTP error response *)

(** The error object of a response body: [Cause] has the tag [json:"-"]. *)
Record ErrorBody := MkErrorBody { eb_type : string; eb_message : string; eb_code : string }.

Definition error_body (e : error) : ErrorBody :=
  match e with
  | AppError ty msg code _ => MkErrorBody (ErrType_string ty) msg code
  | _ => MkErrorBody (ErrType_string Internal) "An unexpected error occurred" (ErrType_string Internal)
  end.

Definition error_type (e : error) : ErrType :=
  match e with
  | AppError ty _ _ _ => ty
  | _ => Internal
  end.

(** The switch of [httputil.Error]. *)
Definition status_code (t : ErrType) : Z :=
  match t with
  | NotFound => 404
  | InvalidInput => 400
  | Unauthorized => 401
  | Conflict => 409
  | BucketNotFound | ObjectNotFound => 404
  | ObjectTooLarge => 413
  | InstanceNotRunning | PortConflict | TooManyPorts => 409
  | ResourceLimitExceeded => 429
  | _ => 500
  end.

Definition http_error (e : error) : Z * ErrorBody := (status_code (error_type e), error_body e).

(** ** Properties *)

Lemma ErrType_string_inj t1 t2 : ErrType_string t1 = ErrType_string t2 → t1 = t2.
Proof. by destruct t1, t2. Qed.

Lemma Is_New t t' msg : Is (New t msg) t' = bool_decide (t = t').
Proof. done. Qed.

Lemma Is_Wrap t t' msg e : Is (Wrap t msg e) t' = bool_decide (t = t').
Proof. done. Qed.

(** What a client sees of an error does not depend on its cause. *)
Lemma http_error_hides_cause t msg e1 e2 : http_error (Wrap t msg e1) = http_error (Wrap t msg e2).
Proof. done. Qed.
