(* ===== verification/Domain.v ===== *)
(** * The domain model: [internal/core/domain]

    One record per struct, with the struct's fields in the source's order under
    a prefix (Go's field names are shared between structs), one inductive type
    per enumeration of status constants.  A pointer field is an option, an [int]
    is a [Z], a [time.Time] the number of nanoseconds since the epoch. *)
From S2P Require Import Prelude GoStd.

(** [uuid.UUID]: sixteen bytes, read as a number; [uuid.Nil] is zero. *)
Notation uuid := N (only parsing).
Notation time := Z (only parsing).
Definition uuid_Nil : uuid := 0%N.

(** A [map[string]interface{}] literal of event metadata or audit details. *)
Inductive value :=
  | VString (s : string)
  | VInt (z : Z)
  | VUUID (u : uuid).

Definition metadata : Type := option (list (string * value)).

Inductive InstanceStatus :=
  | StatusStarting
  | StatusRunning
  | StatusStopped
  | StatusError
  | StatusDeleted.

#[export] Instance InstanceStatus_eq_dec : EqDecision InstanceStatus.
Proof. solve_decision. Defined.

Definition InstanceStatus_string (s : InstanceStatus) : string :=
  match s with
  | StatusStarting => "STARTING"
  | StatusRunning => "RUNNING"
  | StatusStopped => "STOPPED"
  | StatusError => "ERROR"
  | StatusDeleted => "DELETED"
  end.

Inductive VolumeStatus :=
  | VolumeStatusAvailable
  | VolumeStatusInUse
  | VolumeStatusDeleting.

#[export] Instance VolumeStatus_eq_dec : EqDecision VolumeStatus.
Proof. solve_decision. Defined.

Definition VolumeStatus_string (s : VolumeStatus) : string :=
  match s with
  | VolumeStatusAvailable => "AVAILABLE"
  | VolumeStatusInUse => "IN-USE"
  | VolumeStatusDeleting => "DELETING"
  end.

Inductive SnapshotStatus :=
  | SnapshotStatusCreating
  | SnapshotStatusAvailable
  | SnapshotStatusDeleting
  | SnapshotStatusError.

#[export] Instance SnapshotStatus_eq_dec : EqDecision SnapshotStatus.
Proof. solve_decision. Defined.

Definition SnapshotStatus_string (s : SnapshotStatus) : string :=
  match s with
  | SnapshotStatusCreating => "CREATING"
  | SnapshotStatusAvailable => "AVAILABLE"
  | SnapshotStatusDeleting => "DELETING"
  | SnapshotStatusError => "ERROR"
  end.

Inductive LBStatus :=
  | LBStatusCreating
  | LBStatusActive
  | LBStatusDraining
  | LBStatusDeleted.

#[export] Instance LBStatus_eq_dec : EqDecision LBStatus.
Proof. solve_decision. Defined.

Definition LBStatus_string (s : LBStatus) : string :=
  match s with
  | LBStatusCreating => "CREATING"
  | LBStatusActive => "ACTIVE"
  | LBStatusDraining => "DRAINING"
  | LBStatusDeleted => "DELETED"
  end.

Inductive ScalingGroupStatus :=
  | ScalingGroupStatusActive
  | ScalingGroupStatusUpdating
  | ScalingGroupStatusDeleting
  | ScalingGroupStatusDeleted.

#[export] Instance ScalingGroupStatus_eq_dec : EqDecision ScalingGroupStatus.
Proof. solve_decision. Defined.

Definition ScalingGroupStatus_string (s : ScalingGroupStatus) : string :=
  match s with
  | ScalingGroupStatusActive => "ACTIVE"
  | ScalingGroupStatusUpdating => "UPDATING"
  | ScalingGroupStatusDeleting => "DELETING"
  | ScalingGroupStatusDeleted => "DELETED"
  end.

Inductive QueueStatus :=
  | QueueStatusActive
  | QueueStatusDeleting.

#[export] Instance QueueStatus_eq_dec : EqDecision QueueStatus.
Proof. solve_decision. Defined.

Definition QueueStatus_string (s : QueueStatus) : string :=
  match s with
  | QueueStatusActive => "ACTIVE"
  | QueueStatusDeleting => "DELETING"
  end.

Inductive DeploymentStatus :=
  | DeploymentStatusScaling
  | DeploymentStatusReady
  | DeploymentStatusDegraded
  | DeploymentStatusDeleting.

#[export] Instance DeploymentStatus_eq_dec : EqDecision DeploymentStatus.
Proof. solve_decision. Defined.

Definition DeploymentStatus_string (s : DeploymentStatus) : string :=
  match s with
  | DeploymentStatusScaling => "SCALING"
  | DeploymentStatusReady => "READY"
  | DeploymentStatusDegraded => "DEGRADED"
  | DeploymentStatusDeleting => "DELETING"
  end.

Record Instance := MkInstance {
  inst_ID : uuid;
  inst_UserID : uuid;
  inst_Name : string;
  inst_Image : string;
  inst_ContainerID : string;
  inst_Status : InstanceStatus;
  inst_Ports : string;
  inst_VpcID : option uuid;
  inst_SubnetID : option uuid;
  inst_PrivateIP : string;
  inst_OvsPort : string;
  inst_Version : Z;
  inst_CreatedAt : time;
  inst_UpdatedAt : time
}.

#[export] Instance eta_Instance : Eta Instance := fun x =>
  MkInstance (inst_ID x) (inst_UserID x) (inst_Name x) (inst_Image x) (inst_ContainerID x)
    (inst_Status x) (inst_Ports x) (inst_VpcID x) (inst_SubnetID x) (inst_PrivateIP
    x) (inst_OvsPort x) (inst_Version x) (inst_CreatedAt x) (inst_UpdatedAt x).

Record VolumeAttachment := MkVolumeAttachment {
  va_VolumeIDOrName : string;
  va_MountPath : string
}.

#[export] Instance eta_VolumeAttachment : Eta VolumeAttachment := fun x =>
  MkVolumeAttachment (va_VolumeIDOrName x) (va_MountPath x).

Record Volume := MkVolume {
  vol_ID : uuid;
  vol_UserID : uuid;
  vol_Name : string;
  vol_SizeGB : Z;
  vol_Status : VolumeStatus;
  vol_InstanceID : option uuid;
  vol_MountPath : string;
  vol_CreatedAt : time;
  vol_UpdatedAt : time
}.

#[export] Instance eta_Volume : Eta Volume := fun x =>
  MkVolume (vol_ID x) (vol_UserID x) (vol_Name x) (vol_SizeGB x) (vol_Status x)
    (vol_InstanceID x) (vol_MountPath x) (vol_CreatedAt x) (vol_UpdatedAt x).

Record VPC := MkVPC {
  vpc_ID : uuid;
  vpc_UserID : uuid;
  vpc_Name : string;
  vpc_CIDRBlock : string;
  vpc_NetworkID : string;
  vpc_VXLANID : Z;
  vpc_Status : string;
  vpc_ARN : string;
  vpc_CreatedAt : time
}.

#[export] Instance eta_VPC : Eta VPC := fun x =>
  MkVPC (vpc_ID x) (vpc_UserID x) (vpc_Name x) (vpc_CIDRBlock x) (vpc_NetworkID x)
    (vpc_VXLANID x) (vpc_Status x) (vpc_ARN x) (vpc_CreatedAt x).

Record Subnet := MkSubnet {
  sn_ID : uuid;
  sn_UserID : uuid;
  sn_VPCID : uuid;
  sn_Name : string;
  sn_CIDRBlock : string;
  sn_AvailabilityZone : string;
  sn_GatewayIP : string;
  sn_ARN : string;
  sn_Status : string;
  sn_CreatedAt : time
}.

#[export] Instance eta_Subnet : Eta Subnet := fun x =>
  MkSubnet (sn_ID x) (sn_UserID x) (sn_VPCID x) (sn_Name x) (sn_CIDRBlock x)
    (sn_AvailabilityZone x) (sn_GatewayIP x) (sn_ARN x) (sn_Status x) (sn_CreatedAt
    x).

Record Snapshot := MkSnapshot {
  snap_ID : uuid;
  snap_UserID : uuid;
  snap_VolumeID : uuid;
  snap_VolumeName : string;
  snap_SizeGB : Z;
  snap_Status : SnapshotStatus;
  snap_Description : string;
  snap_CreatedAt : time
}.

#[export] Instance eta_Snapshot : Eta Snapshot := fun x =>
  MkSnapshot (snap_ID x) (snap_UserID x) (snap_VolumeID x) (snap_VolumeName x) (snap_SizeGB
    x) (snap_Status x) (snap_Description x) (snap_CreatedAt x).

Record LoadBalancer := MkLoadBalancer {
  lb_ID : uuid;
  lb_UserID : uuid;
  lb_IdempotencyKey : string;
  lb_Name : string;
  lb_VpcID : uuid;
  lb_Port : Z;
  lb_Algorithm : string;
  lb_Status : LBStatus;
  lb_Version : Z;
  lb_CreatedAt : time
}.

#[export] Instance eta_LoadBalancer : Eta LoadBalancer := fun x =>
  MkLoadBalancer (lb_ID x) (lb_UserID x) (lb_IdempotencyKey x) (lb_Name x) (lb_VpcID x) (lb_Port
    x) (lb_Algorithm x) (lb_Status x) (lb_Version x) (lb_CreatedAt x).

Record LBTarget := MkLBTarget {
  tgt_ID : uuid;
  tgt_LBID : uuid;
  tgt_InstanceID : uuid;
  tgt_Port : Z;
  tgt_Weight : Z;
  tgt_Health : string
}.

#[export] Instance eta_LBTarget : Eta LBTarget := fun x =>
  MkLBTarget (tgt_ID x) (tgt_LBID x) (tgt_InstanceID x) (tgt_Port x) (tgt_Weight x)
    (tgt_Health x).

Record ScalingGroup := MkScalingGroup {
  sg_ID : uuid;
  sg_UserID : uuid;
  sg_IdempotencyKey : string;
  sg_Name : string;
  sg_VpcID : uuid;
  sg_LoadBalancerID : option uuid;
  sg_Image : string;
  sg_Ports : string;
  sg_MinInstances : Z;
  sg_MaxInstances : Z;
  sg_DesiredCount : Z;
  sg_CurrentCount : Z;
  sg_Status : ScalingGroupStatus;
  sg_FailureCount : Z;
  sg_LastFailureAt : option time;
  sg_Version : Z;
  sg_CreatedAt : time;
  sg_UpdatedAt : time
}.

#[export] Instance eta_ScalingGroup : Eta ScalingGroup := fun x =>
  MkScalingGroup (sg_ID x) (sg_UserID x) (sg_IdempotencyKey x) (sg_Name x) (sg_VpcID x)
    (sg_LoadBalancerID x) (sg_Image x) (sg_Ports x) (sg_MinInstances x)
    (sg_MaxInstances x) (sg_DesiredCount x) (sg_CurrentCount x) (sg_Status x)
    (sg_FailureCount x) (sg_LastFailureAt x) (sg_Version x) (sg_CreatedAt x)
    (sg_UpdatedAt x).

Record ScalingPolicy := MkScalingPolicy {
  pol_ID : uuid;
  pol_ScalingGroupID : uuid;
  pol_Name : string;
  pol_MetricType : string;
  pol_TargetValue : float64;
  pol_ScaleOutStep : Z;
  pol_ScaleInStep : Z;
  pol_CooldownSec : Z;
  pol_LastScaledAt : option time
}.

#[export] Instance eta_ScalingPolicy : Eta ScalingPolicy := fun x =>
  MkScalingPolicy (pol_ID x) (pol_ScalingGroupID x) (pol_Name x) (pol_MetricType x)
    (pol_TargetValue x) (pol_ScaleOutStep x) (pol_ScaleInStep x) (pol_CooldownSec x)
    (pol_LastScaledAt x).

Record Queue := MkQueue {
  q_ID : uuid;
  q_UserID : uuid;
  q_Name : string;
  q_ARN : string;
  q_VisibilityTimeout : Z;
  q_RetentionDays : Z;
  q_MaxMessageSize : Z;
  q_Status : QueueStatus;
  q_CreatedAt : time;
  q_UpdatedAt : time
}.

#[export] Instance eta_Queue : Eta Queue := fun x =>
  MkQueue (q_ID x) (q_UserID x) (q_Name x) (q_ARN x) (q_VisibilityTimeout x)
    (q_RetentionDays x) (q_MaxMessageSize x) (q_Status x) (q_CreatedAt x)
    (q_UpdatedAt x).

Record Message := MkMessage {
  msg_ID : uuid;
  msg_QueueID : uuid;
  msg_Body : string;
  msg_ReceiptHandle : string;
  msg_VisibleAt : time;
  msg_ReceivedCount : Z;
  msg_CreatedAt : time
}.

#[export] Instance eta_Message : Eta Message := fun x =>
  MkMessage (msg_ID x) (msg_QueueID x) (msg_Body x) (msg_ReceiptHandle x) (msg_VisibleAt x)
    (msg_ReceivedCount x) (msg_CreatedAt x).

Record Role := MkRole {
  role_ID : uuid;
  role_Name : string;
  role_Description : string;
  role_Permissions : list string
}.

#[export] Instance eta_Role : Eta Role := fun x =>
  MkRole (role_ID x) (role_Name x) (role_Description x) (role_Permissions x).

Record User := MkUser {
  user_ID : uuid;
  user_Email : string;
  user_PasswordHash : string;
  user_Name : string;
  user_Role : string;
  user_CreatedAt : time;
  user_UpdatedAt : time
}.

#[export] Instance eta_User : Eta User := fun x =>
  MkUser (user_ID x) (user_Email x) (user_PasswordHash x) (user_Name x) (user_Role x)
    (user_CreatedAt x) (user_UpdatedAt x).

Record SecurityRule := MkSecurityRule {
  rule_ID : uuid;
  rule_GroupID : uuid;
  rule_Direction : string;
  rule_Protocol : string;
  rule_PortMin : Z;
  rule_PortMax : Z;
  rule_CIDR : string;
  rule_Priority : Z;
  rule_CreatedAt : time
}.

#[export] Instance eta_SecurityRule : Eta SecurityRule := fun x =>
  MkSecurityRule (rule_ID x) (rule_GroupID x) (rule_Direction x) (rule_Protocol x) (rule_PortMin
    x) (rule_PortMax x) (rule_CIDR x) (rule_Priority x) (rule_CreatedAt x).

Record SecurityGroup := MkSecurityGroup {
  secg_ID : uuid;
  secg_UserID : uuid;
  secg_VPCID : uuid;
  secg_Name : string;
  secg_Description : string;
  secg_ARN : string;
  secg_Rules : list SecurityRule;
  secg_CreatedAt : time
}.

#[export] Instance eta_SecurityGroup : Eta SecurityGroup := fun x =>
  MkSecurityGroup (secg_ID x) (secg_UserID x) (secg_VPCID x) (secg_Name x) (secg_Description x)
    (secg_ARN x) (secg_Rules x) (secg_CreatedAt x).

Record FlowRule := MkFlowRule {
  flow_FlowID : string;
  flow_Priority : Z;
  flow_Match : string;
  flow_Actions : string
}.

#[export] Instance eta_FlowRule : Eta FlowRule := fun x =>
  MkFlowRule (flow_FlowID x) (flow_Priority x) (flow_Match x) (flow_Actions x).

Record Deployment := MkDeployment {
  dep_ID : uuid;
  dep_UserID : uuid;
  dep_Name : string;
  dep_Image : string;
  dep_Replicas : Z;
  dep_CurrentCount : Z;
  dep_Ports : string;
  dep_Status : DeploymentStatus;
  dep_CreatedAt : time;
  dep_UpdatedAt : time
}.

#[export] Instance eta_Deployment : Eta Deployment := fun x =>
  MkDeployment (dep_ID x) (dep_UserID x) (dep_Name x) (dep_Image x) (dep_Replicas x)
    (dep_CurrentCount x) (dep_Ports x) (dep_Status x) (dep_CreatedAt x)
    (dep_UpdatedAt x).

Record DeploymentContainer := MkDeploymentContainer {
  dc_ID : uuid;
  dc_DeploymentID : uuid;
  dc_InstanceID : uuid
}.

#[export] Instance eta_DeploymentContainer : Eta DeploymentContainer := fun x =>
  MkDeploymentContainer (dc_ID x) (dc_DeploymentID x) (dc_InstanceID x).

Record Event := MkEvent {
  ev_ID : uuid;
  ev_UserID : uuid;
  ev_Action : string;
  ev_ResourceID : string;
  ev_ResourceType : string;
  ev_Metadata : metadata;
  ev_CreatedAt : time
}.

#[export] Instance eta_Event : Eta Event := fun x =>
  MkEvent (ev_ID x) (ev_UserID x) (ev_Action x) (ev_ResourceID x) (ev_ResourceType x)
    (ev_Metadata x) (ev_CreatedAt x).

Record AuditLog := MkAuditLog {
  al_ID : uuid;
  al_UserID : uuid;
  al_Action : string;
  al_ResourceType : string;
  al_ResourceID : string;
  al_Details : metadata;
  al_IPAddress : string;
  al_UserAgent : string;
  al_CreatedAt : time
}.

#[export] Instance eta_AuditLog : Eta AuditLog := fun x =>
  MkAuditLog (al_ID x) (al_UserID x) (al_Action x) (al_ResourceType x) (al_ResourceID x)
    (al_Details x) (al_IPAddress x) (al_UserAgent x) (al_CreatedAt x).

(** Limits of the domain package. *)
Definition MinPort : Z := 0.
Definition MaxPort : Z := 65535.
Definition MaxPortsPerInstance : Z := 10.
Definition MaxInstancesHardLimit : Z := 20.
Definition MaxScalingGroupsPerVPC : Z := 5.
Definition MinCooldownSeconds : Z := 60.
