(* ===== verification/DomainData.v ===== *)
(** * The domain model of the data, messaging, identity and orchestration services

    The structs of [internal/core/domain] that [Domain] leaves out, in the same form,
    the options of a task of the compute backend ([ports.RunTaskOptions]), and [Task]:
    what a [go] statement of the services leaves running in the background. *)
From S2P Require Import Prelude GoStd Domain.

Inductive CronStatus :=
  | CronStatusActive
  | CronStatusPaused
  | CronStatusDeleted.

#[export] Instance CronStatus_eq_dec : EqDecision CronStatus.
Proof. solve_decision. Defined.

Definition CronStatus_string (s : CronStatus) : string :=
  match s with
  | CronStatusActive => "ACTIVE"
  | CronStatusPaused => "PAUSED"
  | CronStatusDeleted => "DELETED"
  end.

Inductive CacheStatus :=
  | CacheStatusCreating
  | CacheStatusRunning
  | CacheStatusStopped
  | CacheStatusDeleting
  | CacheStatusFailed.

#[export] Instance CacheStatus_eq_dec : EqDecision CacheStatus.
Proof. solve_decision. Defined.

Definition CacheStatus_string (s : CacheStatus) : string :=
  match s with
  | CacheStatusCreating => "CREATING"
  | CacheStatusRunning => "RUNNING"
  | CacheStatusStopped => "STOPPED"
  | CacheStatusDeleting => "DELETING"
  | CacheStatusFailed => "FAILED"
  end.

Inductive DatabaseStatus :=
  | DatabaseStatusCreating
  | DatabaseStatusRunning
  | DatabaseStatusStopped
  | DatabaseStatusDeleting
  | DatabaseStatusFailed.

#[export] Instance DatabaseStatus_eq_dec : EqDecision DatabaseStatus.
Proof. solve_decision. Defined.

Definition DatabaseStatus_string (s : DatabaseStatus) : string :=
  match s with
  | DatabaseStatusCreating => "CREATING"
  | DatabaseStatusRunning => "RUNNING"
  | DatabaseStatusStopped => "STOPPED"
  | DatabaseStatusDeleting => "DELETING"
  | DatabaseStatusFailed => "FAILED"
  end.

Inductive StackStatus :=
  | StackStatusCreateInProgress
  | StackStatusCreateComplete
  | StackStatusCreateFailed
  | StackStatusDeleteInProgress
  | StackStatusDeleteComplete
  | StackStatusDeleteFailed
  | StackStatusRollbackInProgress
  | StackStatusRollbackComplete
  | StackStatusRollbackFailed.

#[export] Instance StackStatus_eq_dec : EqDecision StackStatus.
Proof. solve_decision. Defined.

Definition StackStatus_string (s : StackStatus) : string :=
  match s with
  | StackStatusCreateInProgress => "CREATE_IN_PROGRESS"
  | StackStatusCreateComplete => "CREATE_COMPLETE"
  | StackStatusCreateFailed => "CREATE_FAILED"
  | StackStatusDeleteInProgress => "DELETE_IN_PROGRESS"
  | StackStatusDeleteComplete => "DELETE_COMPLETE"
  | StackStatusDeleteFailed => "DELETE_FAILED"
  | StackStatusRollbackInProgress => "ROLLBACK_IN_PROGRESS"
  | StackStatusRollbackComplete => "ROLLBACK_COMPLETE"
  | StackStatusRollbackFailed => "ROLLBACK_FAILED"
  end.

Record Secret := MkSecret {
  sec_ID : uuid;
  sec_UserID : uuid;
  sec_Name : string;
  sec_EncryptedValue : string;
  sec_Description : string;
  sec_CreatedAt : time;
  sec_UpdatedAt : time;
  sec_LastAccessedAt : option time
}.

#[export] Instance eta_Secret : Eta Secret := fun x =>
  MkSecret (sec_ID x) (sec_UserID x) (sec_Name x) (sec_EncryptedValue x) (sec_Description
    x) (sec_CreatedAt x) (sec_UpdatedAt x) (sec_LastAccessedAt x).

Record APIKey := MkAPIKey {
  ak_ID : uuid;
  ak_UserID : uuid;
  ak_Key : string;
  ak_Name : string;
  ak_CreatedAt : time;
  ak_LastUsed : time
}.

#[export] Instance eta_APIKey : Eta APIKey := fun x =>
  MkAPIKey (ak_ID x) (ak_UserID x) (ak_Key x) (ak_Name x) (ak_CreatedAt x) (ak_LastUsed x).

Record PasswordResetToken := MkPasswordResetToken {
  prt_ID : uuid;
  prt_UserID : uuid;
  prt_TokenHash : string;
  prt_ExpiresAt : time;
  prt_Used : bool;
  prt_CreatedAt : time
}.

#[export] Instance eta_PasswordResetToken : Eta PasswordResetToken := fun x =>
  MkPasswordResetToken (prt_ID x) (prt_UserID x) (prt_TokenHash x) (prt_ExpiresAt x) (prt_Used x)
    (prt_CreatedAt x).

Record Object := MkObject {
  obj_ID : uuid;
  obj_UserID : uuid;
  obj_ARN : string;
  obj_Bucket : string;
  obj_Key : string;
  obj_SizeBytes : Z;
  obj_ContentType : string;
  obj_CreatedAt : time;
  obj_DeletedAt : option time
}.

#[export] Instance eta_Object : Eta Object := fun x =>
  MkObject (obj_ID x) (obj_UserID x) (obj_ARN x) (obj_Bucket x) (obj_Key x) (obj_SizeBytes
    x) (obj_ContentType x) (obj_CreatedAt x) (obj_DeletedAt x).

Record CronJob := MkCronJob {
  cj_ID : uuid;
  cj_UserID : uuid;
  cj_Name : string;
  cj_Schedule : string;
  cj_TargetURL : string;
  cj_TargetMethod : string;
  cj_TargetPayload : string;
  cj_Status : CronStatus;
  cj_LastRunAt : option time;
  cj_NextRunAt : option time;
  cj_CreatedAt : time;
  cj_UpdatedAt : time
}.

#[export] Instance eta_CronJob : Eta CronJob := fun x =>
  MkCronJob (cj_ID x) (cj_UserID x) (cj_Name x) (cj_Schedule x) (cj_TargetURL x)
    (cj_TargetMethod x) (cj_TargetPayload x) (cj_Status x) (cj_LastRunAt x)
    (cj_NextRunAt x) (cj_CreatedAt x) (cj_UpdatedAt x).

Record CronJobRun := MkCronJobRun {
  cr_ID : uuid;
  cr_JobID : uuid;
  cr_Status : string;
  cr_StatusCode : Z;
  cr_Response : string;
  cr_DurationMs : Z;
  cr_StartedAt : time
}.

#[export] Instance eta_CronJobRun : Eta CronJobRun := fun x =>
  MkCronJobRun (cr_ID x) (cr_JobID x) (cr_Status x) (cr_StatusCode x) (cr_Response x)
    (cr_DurationMs x) (cr_StartedAt x).

Record GatewayRoute := MkGatewayRoute {
  rt_ID : uuid;
  rt_UserID : uuid;
  rt_Name : string;
  rt_PathPrefix : string;
  rt_TargetURL : string;
  rt_StripPrefix : bool;
  rt_RateLimit : Z;
  rt_CreatedAt : time;
  rt_UpdatedAt : time
}.

#[export] Instance eta_GatewayRoute : Eta GatewayRoute := fun x =>
  MkGatewayRoute (rt_ID x) (rt_UserID x) (rt_Name x) (rt_PathPrefix x) (rt_TargetURL x)
    (rt_StripPrefix x) (rt_RateLimit x) (rt_CreatedAt x) (rt_UpdatedAt x).

Record Topic := MkTopic {
  top_ID : uuid;
  top_UserID : uuid;
  top_Name : string;
  top_ARN : string;
  top_CreatedAt : time;
  top_UpdatedAt : time
}.

#[export] Instance eta_Topic : Eta Topic := fun x =>
  MkTopic (top_ID x) (top_UserID x) (top_Name x) (top_ARN x) (top_CreatedAt x)
    (top_UpdatedAt x).

Record Subscription := MkSubscription {
  sub_ID : uuid;
  sub_UserID : uuid;
  sub_TopicID : uuid;
  sub_Protocol : string;
  sub_Endpoint : string;
  sub_CreatedAt : time;
  sub_UpdatedAt : time
}.

#[export] Instance eta_Subscription : Eta Subscription := fun x =>
  MkSubscription (sub_ID x) (sub_UserID x) (sub_TopicID x) (sub_Protocol x) (sub_Endpoint x)
    (sub_CreatedAt x) (sub_UpdatedAt x).

Record NotifyMessage := MkNotifyMessage {
  nm_ID : uuid;
  nm_TopicID : uuid;
  nm_Body : string;
  nm_CreatedAt : time
}.

#[export] Instance eta_NotifyMessage : Eta NotifyMessage := fun x =>
  MkNotifyMessage (nm_ID x) (nm_TopicID x) (nm_Body x) (nm_CreatedAt x).

Record Cache := MkCache {
  ca_ID : uuid;
  ca_UserID : uuid;
  ca_Name : string;
  ca_Engine : string;
  ca_Version : string;
  ca_Status : CacheStatus;
  ca_VpcID : option uuid;
  ca_ContainerID : string;
  ca_Port : Z;
  ca_Password : string;
  ca_MemoryMB : Z;
  ca_CreatedAt : time;
  ca_UpdatedAt : time
}.

#[export] Instance eta_Cache : Eta Cache := fun x =>
  MkCache (ca_ID x) (ca_UserID x) (ca_Name x) (ca_Engine x) (ca_Version x) (ca_Status x)
    (ca_VpcID x) (ca_ContainerID x) (ca_Port x) (ca_Password x) (ca_MemoryMB x)
    (ca_CreatedAt x) (ca_UpdatedAt x).

Record Database := MkDatabase {
  db_ID : uuid;
  db_UserID : uuid;
  db_Name : string;
  db_Engine : string;
  db_Version : string;
  db_Status : DatabaseStatus;
  db_VpcID : option uuid;
  db_ContainerID : string;
  db_Port : Z;
  db_Username : string;
  db_Password : string;
  db_CreatedAt : time;
  db_UpdatedAt : time
}.

#[export] Instance eta_Database : Eta Database := fun x =>
  MkDatabase (db_ID x) (db_UserID x) (db_Name x) (db_Engine x) (db_Version x) (db_Status x)
    (db_VpcID x) (db_ContainerID x) (db_Port x) (db_Username x) (db_Password x)
    (db_CreatedAt x) (db_UpdatedAt x).

Record Function := MkFunction {
  fn_ID : uuid;
  fn_UserID : uuid;
  fn_Name : string;
  fn_Runtime : string;
  fn_Handler : string;
  fn_CodePath : string;
  fn_Timeout : Z;
  fn_MemoryMB : Z;
  fn_Status : string;
  fn_CreatedAt : time;
  fn_UpdatedAt : time
}.

#[export] Instance eta_Function : Eta Function := fun x =>
  MkFunction (fn_ID x) (fn_UserID x) (fn_Name x) (fn_Runtime x) (fn_Handler x) (fn_CodePath
    x) (fn_Timeout x) (fn_MemoryMB x) (fn_Status x) (fn_CreatedAt x) (fn_UpdatedAt
    x).

Record Invocation := MkInvocation {
  iv_ID : uuid;
  iv_FunctionID : uuid;
  iv_Status : string;
  iv_StartedAt : time;
  iv_EndedAt : option time;
  iv_DurationMs : Z;
  iv_StatusCode : Z;
  iv_Logs : string
}.

#[export] Instance eta_Invocation : Eta Invocation := fun x =>
  MkInvocation (iv_ID x) (iv_FunctionID x) (iv_Status x) (iv_StartedAt x) (iv_EndedAt x)
    (iv_DurationMs x) (iv_StatusCode x) (iv_Logs x).

Record StackResource := MkStackResource {
  sr_ID : uuid;
  sr_StackID : uuid;
  sr_LogicalID : string;
  sr_PhysicalID : string;
  sr_ResourceType : string;
  sr_Status : string;
  sr_CreatedAt : time
}.

#[export] Instance eta_StackResource : Eta StackResource := fun x =>
  MkStackResource (sr_ID x) (sr_StackID x) (sr_LogicalID x) (sr_PhysicalID x) (sr_ResourceType x)
    (sr_Status x) (sr_CreatedAt x).

Record Stack := MkStack {
  stk_ID : uuid;
  stk_UserID : uuid;
  stk_Name : string;
  stk_Template : string;
  stk_Parameters : string;
  stk_Status : StackStatus;
  stk_StatusReason : string;
  stk_Resources : list StackResource;
  stk_CreatedAt : time;
  stk_UpdatedAt : time
}.

#[export] Instance eta_Stack : Eta Stack := fun x =>
  MkStack (stk_ID x) (stk_UserID x) (stk_Name x) (stk_Template x) (stk_Parameters x)
    (stk_Status x) (stk_StatusReason x) (stk_Resources x) (stk_CreatedAt x)
    (stk_UpdatedAt x).

Record RunTaskOptions := MkRunTaskOptions {
  rto_Image : string;
  rto_Command : list string;
  rto_Env : list string;
  rto_MemoryMB : Z;
  rto_CPUs : float64;
  rto_NetworkDisabled : bool;
  rto_ReadOnlyRootfs : bool;
  rto_PidsLimit : option Z;
  rto_WorkingDir : string;
  rto_Binds : list string
}.

#[export] Instance eta_RunTaskOptions : Eta RunTaskOptions := fun x =>
  MkRunTaskOptions (rto_Image x) (rto_Command x) (rto_Env x) (rto_MemoryMB x) (rto_CPUs x)
    (rto_NetworkDisabled x) (rto_ReadOnlyRootfs x) (rto_PidsLimit x) (rto_WorkingDir
    x) (rto_Binds x).

(** The zero value of [time.Time], the first of January of the year 1. *)
Definition time_zero : time := -62135596800 * 1000000000.

(** A goroutine that was started and has not run yet, with the values it captured. *)
Inductive Task :=
  | SnapshotTask (vol : Volume) (snapshot : Snapshot)
  | CronTask (job : CronJob)
  | DeliverTask (sub : Subscription) (body : string)
  | RemoveCodeTask (path : string)
  | InvocationTask (f : Function) (i : Invocation) (payload : string)
  | ProcessStackTask (stack : Stack)
  | DeleteStackTask (id userID : uuid).

(** A row of the table [stacks], whose column [status_reason] is NULL until an UPDATE
    sets it. *)
Record StackRow := MkStackRow {
  row_stack : Stack;
  row_status_reason : option string
}.

#[export] Instance eta_StackRow : Eta StackRow := fun x =>
  MkStackRow (row_stack x) (row_status_reason x).
