(* ===== verification/Json.v ===== *)
(** * What the code uses of [encoding/json]: reading a value into a Go variable

    The text of a document is read by a parameter; what becomes of a parsed value is
    written out: a [Decoder] reads it into a variable that has a value already, which a [null]
    and a missing member leave alone.  At the end, the statistics of a container, which the
    compute backend streams as such a document. *)
From S2P Require Import Prelude GoStd Encoding Errors Domain DomainData.

(** A parsed document; a number keeps its text. *)
Inductive json :=
  | JNull
  | JBool (b : bool)
  | JNumber (literal : string)
  | JString (s : string)
  | JArray (l : list json)
  | JObject (members : list (string * json)).

Class JsonText := {
  (** [json.NewDecoder(r).Decode]: the first value of the text *)
  json_Decode : string → error + json;
  (** the error for a value that does not fit the type of the variable *)
  json_type_error : string → json → error;
  (** [strconv.ParseFloat] with 64 bits *)
  ParseFloat : string → option float64;
  (** [uuid.UUID.UnmarshalText], [time.Time.UnmarshalJSON] on a string *)
  uuid_UnmarshalText : string → error + uuid;
  time_UnmarshalJSON : string → error + time;
}.

Definition Decoder (T : Type) : Type := json → T → error + T.

Section decoders.
Context `{JsonText}.

Definition decode_string : Decoder string := λ j old,
  match j with JString s => inr s | JNull => inr old | _ => inl (json_type_error "string" j) end.

Definition decode_bool : Decoder bool := λ j old,
  match j with JBool b => inr b | JNull => inr old | _ => inl (json_type_error "bool" j) end.

(** An [int] takes a literal without fraction and exponent in its range, a [uint64] one without
    a sign. *)
Definition decode_int : Decoder Z := λ j old,
  match j with
  | JNumber t => match Atoi t with Some n => inr n | None => inl (json_type_error "int" j) end
  | JNull => inr old
  | _ => inl (json_type_error "int" j)
  end.

Definition decode_uint64 : Decoder Z := λ j old,
  match j with
  | JNumber t =>
      match parse_uint t with
      | Some n => if n <? 2 ^ 64 then inr n else inl (json_type_error "uint64" j)
      | None => inl (json_type_error "uint64" j)
      end
  | JNull => inr old
  | _ => inl (json_type_error "uint64" j)
  end.

Definition decode_float64 : Decoder float64 := λ j old,
  match j with
  | JNumber t => match ParseFloat t with Some x => inr x | None => inl (json_type_error "float64" j) end
  | JNull => inr old
  | _ => inl (json_type_error "float64" j)
  end.

Definition decode_text {T} (name : string) (unmarshal : string → error + T) : Decoder T := λ j old,
  match j with
  | JString s => unmarshal s
  | JNull => inr old
  | _ => inl (json_type_error name j)
  end.

Definition decode_uuid : Decoder uuid := decode_text "uuid.UUID" uuid_UnmarshalText.
Definition decode_time : Decoder time := decode_text "time.Time" time_UnmarshalJSON.

(** A pointer: [null] makes it nil, another value is read into what it points to. *)
Definition decode_ptr {T} (zero : T) (d : Decoder T) : Decoder (option T) := λ j old,
  match j with
  | JNull => inr None
  | _ => match d j (default zero old) with inl e => inl e | inr v => inr (Some v) end
  end.

Fixpoint decode_elems {T} (zero : T) (d : Decoder T) (l : list json) : error + list T :=
  match l with
  | [] => inr []
  | j :: l' =>
      match d j zero with
      | inl e => inl e
      | inr v => match decode_elems zero d l' with inl e => inl e | inr vs => inr (v :: vs) end
      end
  end.

Definition decode_slice {T} (zero : T) (d : Decoder T) : Decoder (list T) := λ j old,
  match j with
  | JArray l => decode_elems zero d l
  | JNull => inr []
  | _ => inl (json_type_error "slice" j)
  end.

(** [map[string]string]: the members are added to the map. *)
Fixpoint decode_members (l : list (string * json)) (m : gmap string string) : error + gmap string string :=
  match l with
  | [] => inr m
  | (k, j) :: l' =>
      match decode_string j "" with
      | inl e => inl e
      | inr v => decode_members l' (<[k := v]> m)
      end
  end.

Definition decode_map : Decoder (gmap string string) := λ j old,
  match j with
  | JObject l => decode_members l old
  | JNull => inr ∅
  | _ => inl (json_type_error "map" j)
  end.

(** ** Structs *)

(** The bytes of a key with the case of its letters forgotten; the long s and the sign for
    kelvin are the two other characters that fold to a letter. *)
Fixpoint fold_bytes (l : list N) : list N :=
  match l with
  | 0xC5%N :: 0xBF%N :: l' => 83%N :: fold_bytes l'
  | 0xE2%N :: 0x84%N :: 0xAA%N :: l' => 75%N :: fold_bytes l'
  | b :: l' => (if (97 <=? b)%N && (b <=? 122)%N then (b - 32)%N else b) :: fold_bytes l'
  | [] => []
  end.

Definition fold_name (s : string) : list N := fold_bytes (str_bytes s).

(** A field: the name of its tag, and how a value is read into it. *)
Definition FieldDecoder (R : Type) : Type := string * (json → R → error + R).

Definition field {R T} (name : string) (p : R → T) `{!Field p} (d : Decoder T) : FieldDecoder R :=
  (name, λ j r, match d j (p r) with inl e => inl e | inr v => inr (r <| p := v |>) end).

(** The field for a key: the one of that name, else one that differs in case only. *)
Definition find_field {R} (fields : list (FieldDecoder R)) (key : string) : option (json → R → error + R) :=
  match list_find (λ f, f.1 = key) fields with
  | Some (_, f) => Some f.2
  | None => snd ∘ snd <$> list_find (λ f, fold_name f.1 = fold_name key) fields
  end.

(** The members in their order; one without a field is ignored.  Here the first value that
    does not fit ends the decoding; Go may read on, which changes nothing but which of several
    errors is reported. *)
Fixpoint decode_object {R} (fields : list (FieldDecoder R)) (l : list (string * json)) (r : R) : error + R :=
  match l with
  | [] => inr r
  | (k, j) :: l' =>
      match find_field fields k with
      | None => decode_object fields l' r
      | Some d => match d j r with inl e => inl e | inr r' => decode_object fields l' r' end
      end
  end.

Definition decode_struct {R} (fields : list (FieldDecoder R)) : Decoder R := λ j r,
  match j with
  | JObject l => decode_object fields l r
  | JNull => inr r
  | _ => inl (json_type_error "struct" j)
  end.

End decoders.

(** * The statistics of a container, as the compute backend streams them

    The structs that [InstanceService.GetInstanceStats] and [CacheService.GetCacheStats]
    read the first JSON value of the stream into. *)

Record CPUUsage := MkCPUUsage { cpu_TotalUsage : Z }.
#[export] Instance eta_CPUUsage : Eta CPUUsage := fun x => MkCPUUsage (cpu_TotalUsage x).

Record CPUStats := MkCPUStats { cpu_CPUUsage : CPUUsage; cpu_SystemCPUUsage : Z }.
#[export] Instance eta_CPUStats : Eta CPUStats := fun x => MkCPUStats (cpu_CPUUsage x) (cpu_SystemCPUUsage x).

Record MemoryStats := MkMemoryStats { mem_Usage : Z; mem_Limit : Z }.
#[export] Instance eta_MemoryStats : Eta MemoryStats := fun x => MkMemoryStats (mem_Usage x) (mem_Limit x).

Record ContainerStats := MkContainerStats {
  st_CPUStats : CPUStats; st_PreCPUStats : CPUStats; st_MemoryStats : MemoryStats
}.
#[export] Instance eta_ContainerStats : Eta ContainerStats := fun x =>
  MkContainerStats (st_CPUStats x) (st_PreCPUStats x) (st_MemoryStats x).

(** [domain.InstanceStats] *)
Record InstanceStats := MkInstanceStats {
  is_CPUPercentage : float64;
  is_MemoryUsageBytes : float64;
  is_MemoryLimitBytes : float64;
  is_MemoryPercentage : float64
}.

Section stats.
Context `{JsonText}.

Definition decode_cpu : Decoder CPUStats := decode_struct [
  field "cpu_usage" cpu_CPUUsage (decode_struct [field "total_usage" cpu_TotalUsage decode_uint64]);
  field "system_cpu_usage" cpu_SystemCPUUsage decode_uint64].

Definition decode_memory : Decoder MemoryStats := decode_struct [
  field "usage" mem_Usage decode_uint64; field "limit" mem_Limit decode_uint64].

Definition decode_stats : Decoder ContainerStats := decode_struct [
  field "cpu_stats" st_CPUStats decode_cpu; field "precpu_stats" st_PreCPUStats decode_cpu;
  field "memory_stats" st_MemoryStats decode_memory].

Definition no_stats : ContainerStats :=
  MkContainerStats (MkCPUStats (MkCPUUsage 0) 0) (MkCPUStats (MkCPUUsage 0) 0) (MkMemoryStats 0 0).

(** [json.NewDecoder(stream).Decode(&stats)] *)
Definition read_stats (stream : string) : error + ContainerStats :=
  match json_Decode stream with
  | inl err => inl err
  | inr j => decode_stats j no_stats
  end.

(** Only the memory: a cache looks at nothing else of the same document. *)
Definition read_memory_stats (stream : string) : error + MemoryStats :=
  match json_Decode stream with
  | inl err => inl err
  | inr j => decode_struct [("memory_stats", decode_memory)] j (MkMemoryStats 0 0)
  end.

End stats.

(** The percentages of the processor and of the memory. *)
Definition instance_stats (stats : ContainerStats) : InstanceStats :=
  let total s := float_of_int (cpu_TotalUsage (cpu_CPUUsage s)) in
  let system s := float_of_int (cpu_SystemCPUUsage s) in
  let zero := float_of_int 0 in
  let percent x y := float_mul (float_div x y) (float_of_int 100) in
  let cpuDelta := float_sub (total (st_CPUStats stats)) (total (st_PreCPUStats stats)) in
  let systemDelta := float_sub (system (st_CPUStats stats)) (system (st_PreCPUStats stats)) in
  let cpuPercent := if float_gt systemDelta zero && float_gt cpuDelta zero
                    then percent cpuDelta systemDelta else zero in
  let memUsage := float_of_int (mem_Usage (st_MemoryStats stats)) in
  let memLimit := float_of_int (mem_Limit (st_MemoryStats stats)) in
  let memPercent := if float_gt memLimit zero then percent memUsage memLimit else zero in
  MkInstanceStats cpuPercent memUsage memLimit memPercent.
