(* ===== verification/Net.v ===== *)
(** * The [net] package as the program uses it, and the address arithmetic of
    [services/instance.go] and [services/subnet.go]

    An address is its list of bytes, most significant first: four for IPv4,
    sixteen for IPv6.  IPv4 text is modelled; the text form of an IPv6 address
    is left to the two functions of [IPv6Text]. *)
From S2P Require Import Prelude GoStd.

Class IPv6Text := {
  parse_ipv6 : string → option (list Z);
  ipv6_string : list Z → string;
}.

(** ** Addresses *)

Definition v4InV6Prefix : list Z := [0; 0; 0; 0; 0; 0; 0; 0; 0; 0; 255; 255].

Definition To4 (ip : list Z) : option (list Z) :=
  if bool_decide (length ip = 4%nat) then Some ip
  else if bool_decide (length ip = 16%nat ∧ take 12 ip = v4InV6Prefix) then Some (drop 12 ip)
  else None.

Definition dotted (ip : list Z) : string := join "." (map itoa ip).

Definition IP_String `{IPv6Text} (ip : list Z) : string :=
  match To4 ip with
  | Some ip4 => dotted ip4
  | None => ipv6_string ip
  end.

(** The increment loop of [findAvailableIP] and [calculateGatewayIP]: bytes from the
    last one, stopping at the first that does not wrap to zero. *)
Fixpoint incr_rev (l : list Z) : list Z :=
  match l with
  | [] => []
  | b :: l' =>
      let b' := (b + 1) `mod` 256 in
      if 0 <? b' then b' :: l' else b' :: incr_rev l'
  end.

Definition incr (ip : list Z) : list Z := reverse (incr_rev (reverse ip)).

(** ** Networks *)

Record IPNet := MkIPNet { net_IP : list Z; net_Mask : list Z }.

Fixpoint mask_bytes (n : Z) (len : nat) : list Z :=
  match len with
  | O => []
  | S len' =>
      if 8 <=? n then 255 :: mask_bytes (n - 8) len'
      else (255 - Z.shiftr 255 n) :: mask_bytes 0 len'
  end.

(** [net.CIDRMask] for [ones] at most [bits]. *)
Definition CIDRMask (ones : Z) (bits : nat) : list Z := mask_bytes ones (bits / 8).

Definition IP_Mask (ip mask : list Z) : list Z :=
  let ip := if bool_decide (length mask = 4%nat ∧ length ip = 16%nat ∧ take 12 ip = v4InV6Prefix)
            then drop 12 ip else ip in
  zip_with Z.land ip mask.

Definition networkNumberAndMask (n : IPNet) : list Z * list Z :=
  match To4 (net_IP n) with
  | Some ip4 => (ip4, if bool_decide (length (net_Mask n) = 16%nat) then drop 12 (net_Mask n)
                      else net_Mask n)
  | None => (net_IP n, net_Mask n)
  end.

Definition Contains (n : IPNet) (ip : list Z) : bool :=
  let '(nn, m) := networkNumberAndMask n in
  let ip := default ip (To4 ip) in
  bool_decide (length ip = length nn ∧ zip_with Z.land nn m = zip_with Z.land ip m).

(** [Mask.Size]: the number of leading ones of a canonical mask. *)
Definition mask_ones (mask : list Z) : Z :=
  foldr (fun b acc =>
    if b =? 255 then 8 + acc
    else Z.of_nat (length (filter (λ i, Z.testbit b (Z.of_nat i) = true) (seq 0 8)))) 0 mask.

(** ** Parsing *)

Definition parse_octet (s : string) : option Z :=
  match s with
  | EmptyString => None
  | String a s' =>
      if bool_decide (a = "0"%char ∧ s' ≠ EmptyString) then None
      else v ← parse_uint s; if v <=? 255 then Some v else None
  end.

Definition parse_ipv4 (s : string) : option (list Z) :=
  match split_on "."%char s with
  | [a; b; c; d] => mapM parse_octet [a; b; c; d]
  | _ => None
  end.

Definition in16 (ip4 : list Z) : list Z := v4InV6Prefix ++ ip4.

(** [netip.ParseAddr]: the first of [.], [:] and [%] decides the family.  The result
    carries the bit length of the address. *)
Fixpoint ParseAddr_scan `{IPv6Text} (whole s : string) : option (list Z * nat) :=
  match s with
  | EmptyString => None
  | String a s' =>
      if bool_decide (a = "."%char) then ip ← parse_ipv4 whole; Some (in16 ip, 32%nat)
      else if bool_decide (a = ":"%char) then ip ← parse_ipv6 whole; Some (ip, 128%nat)
      else if bool_decide (a = "%"%char) then None
      else ParseAddr_scan whole s'
  end.

(** [strings.Cut s "/"] *)
Fixpoint cut_slash (s : string) : option (string * string) :=
  match s with
  | EmptyString => None
  | String a s' =>
      if bool_decide (a = "/"%char) then Some (EmptyString, s')
      else '(x, y) ← cut_slash s'; Some (String a x, y)
  end.

(** [net.ParseCIDR]: the address with its sixteen bytes, and the network. *)
Definition ParseCIDR `{IPv6Text} (s : string) : option (list Z * IPNet) :=
  '(addr, mask) ← cut_slash s;
  '(ip, bits) ← ParseAddr_scan addr addr;
  n ← parse_uint mask;
  if (n <=? Z.of_nat bits) then
    let m := CIDRMask n bits in
    Some (ip, MkIPNet (IP_Mask ip m) m)
  else None.

(** ** The address search of [findAvailableIP] *)

Inductive search := Found (ip : string) | Exhausted | OutOfFuel.

(** [isValidHostIP] *)
Definition isValidHostIP (ip : list Z) (n : IPNet) : bool := Contains n ip.

Fixpoint find_from `{IPv6Text} (fuel : nat) (n : IPNet) (used : list string) (ip : list Z) : search :=
  match fuel with
  | O => OutOfFuel
  | S fuel' =>
      let ip := incr ip in
      if negb (Contains n ip) then Exhausted
      else if negb (mem (IP_String ip) used) && isValidHostIP ip n then Found (IP_String ip)
      else find_from fuel' n used ip
  end.

(** One more iteration than there are used addresses is enough: see
    [find_from_terminates]. *)
Definition findAvailableIP `{IPv6Text} (n : IPNet) (used : list string) : search :=
  find_from (S (length used)) n used (net_IP n).

(** [calculateGatewayIP] *)
Definition calculateGatewayIP `{IPv6Text} (ip : list Z) (n : IPNet) : string := IP_String (incr ip).

Section examples.
Local Instance no_ipv6 : IPv6Text := {| parse_ipv6 _ := None; ipv6_string _ := "" |}.

Example parse_cidr_ex :
  ParseCIDR "10.0.1.0/24" =
  Some (in16 [10; 0; 1; 0], MkIPNet [10; 0; 1; 0] [255; 255; 255; 0]).
Proof. vm_compute. reflexivity. Qed.
Example parse_cidr_20 :
  (net_IP ∘ snd) <$> ParseCIDR "10.0.25.7/20" = Some [10; 0; 16; 0].
Proof. vm_compute. reflexivity. Qed.
Example parse_cidr_bad :
  map ParseCIDR ["10.0.1.0"; "10.0.1/24"; "10.0.01.0/24"; "10.0.256.0/24"; "10.0.1.0/33"; "10.0.1.0/"]
  = [None; None; None; None; None; None].
Proof. vm_compute. reflexivity. Qed.
Example find_ex :
  findAvailableIP (MkIPNet [10; 0; 1; 0] [255; 255; 255; 252]) ["10.0.1.1"] = Found "10.0.1.2"
  ∧ findAvailableIP (MkIPNet [10; 0; 1; 0] [255; 255; 255; 252])
      ["10.0.1.1"; "10.0.1.2"; "10.0.1.3"] = Exhausted
  ∧ findAvailableIP (MkIPNet [255; 255; 255; 255] [255; 255; 255; 255]) [] = Exhausted.
Proof. vm_compute. done. Qed.
Example gateway_ex :
  calculateGatewayIP (in16 [10; 0; 1; 0]) (MkIPNet [] []) = "10.0.1.1"
  ∧ calculateGatewayIP (in16 [10; 0; 0; 255]) (MkIPNet [] []) = "10.0.1.0"
  ∧ mask_ones [255; 255; 240; 0] = 20.
Proof. vm_compute. done. Qed.
End examples.

(** ** The value of an address *)

Definition bytes_ok (l : list Z) : Prop := Forall (λ b, 0 ≤ b < 256) l.

Fixpoint le_val (l : list Z) : Z :=
  match l with
  | [] => 0
  | b :: l' => b + 256 * le_val l'
  end.

(** The address as a number. *)
Definition ip_val (ip : list Z) : Z := le_val (reverse ip).

Lemma pow256_pos n : 0 < 256 ^ Z.of_nat n.
Proof. apply Z.pow_pos_nonneg; lia. Qed.

Lemma pow256_S n : 256 ^ Z.of_nat (S n) = 256 * 256 ^ Z.of_nat n.
Proof. rewrite Nat2Z.inj_succ, Z.pow_succ_r; lia. Qed.

Lemma bytes_ok_reverse l : bytes_ok l → bytes_ok (reverse l).
Proof. unfold bytes_ok. intros. by apply Forall_reverse. Qed.

Lemma le_val_bound l : bytes_ok l → 0 ≤ le_val l < 256 ^ Z.of_nat (length l).
Proof.
  induction 1 as [|b l Hb Hl IH]; [simpl; lia|].
  simpl length. rewrite pow256_S. simpl le_val. lia.
Qed.

Lemma ip_val_bound ip : bytes_ok ip → 0 ≤ ip_val ip < 256 ^ Z.of_nat (length ip).
Proof.
  intros H. rewrite <- length_reverse. by apply le_val_bound, bytes_ok_reverse.
Qed.

Lemma le_val_inj l1 l2 :
  bytes_ok l1 → bytes_ok l2 → length l1 = length l2 → le_val l1 = le_val l2 → l1 = l2.
Proof.
  intros H1. revert l2. induction H1 as [|b l Hb Hl IH]; intros [|b2 l2] H2 Hlen Hv; try done.
  inversion_clear H2. simpl in *. f_equal; [lia|]. apply IH; [done|lia|lia].
Qed.

Lemma ip_val_inj a b :
  bytes_ok a → bytes_ok b → length a = length b → ip_val a = ip_val b → a = b.
Proof.
  intros Ha Hb Hl Hv. rewrite <- (reverse_involutive a), <- (reverse_involutive b). f_equal.
  apply le_val_inj; auto using bytes_ok_reverse. by rewrite !length_reverse.
Qed.

Lemma le_val_app l1 l2 : le_val (l1 ++ l2) = le_val l1 + 256 ^ Z.of_nat (length l1) * le_val l2.
Proof.
  induction l1 as [|b l1 IH]; [simpl; lia|].
  simpl length. rewrite pow256_S. simpl. rewrite IH. lia.
Qed.

Lemma ip_val_cons b l : ip_val (b :: l) = b * 256 ^ Z.of_nat (length l) + ip_val l.
Proof.
  unfold ip_val. rewrite reverse_cons, le_val_app, length_reverse. simpl. lia.
Qed.

(** ** Increment *)

Lemma incr_rev_length l : length (incr_rev l) = length l.
Proof. induction l as [|b l IH]; simpl; [done|]. case_match; simpl; lia. Qed.

Lemma incr_rev_ok l : bytes_ok l → bytes_ok (incr_rev l).
Proof.
  induction 1 as [|b l Hb Hl IH]; simpl; [by constructor|].
  pose proof (Z.mod_pos_bound (b + 1) 256). case_match; constructor; auto; lia.
Qed.

Lemma incr_rev_val l :
  bytes_ok l → le_val (incr_rev l) = (le_val l + 1) `mod` 256 ^ Z.of_nat (length l).
Proof.
  induction 1 as [|b l Hb Hl IH]; [done|].
  pose proof (le_val_bound l Hl) as Hbd. simpl length. rewrite pow256_S. simpl incr_rev.
  destruct (decide (b = 255)) as [->|].
  - change ((255 + 1) `mod` 256) with 0. simpl. rewrite IH.
    replace (255 + 256 * le_val l + 1) with (256 * (le_val l + 1)) by lia.
    rewrite Zmult_mod_distr_l. lia.
  - rewrite (Z.mod_small (b + 1)) by lia.
    replace (0 <? b + 1) with true by lia. simpl. rewrite Z.mod_small; lia.
Qed.

Lemma incr_length ip : length (incr ip) = length ip.
Proof. unfold incr. by rewrite length_reverse, incr_rev_length, length_reverse. Qed.

Lemma incr_ok ip : bytes_ok ip → bytes_ok (incr ip).
Proof. intros. unfold incr. auto using bytes_ok_reverse, incr_rev_ok. Qed.

Lemma incr_val ip :
  bytes_ok ip → ip_val (incr ip) = (ip_val ip + 1) `mod` 256 ^ Z.of_nat (length ip).
Proof.
  intros. unfold ip_val, incr. rewrite reverse_involutive, incr_rev_val, length_reverse;
    auto using bytes_ok_reverse.
Qed.

(** The [j]-th address after [ip]. *)
Definition nth_ip (j : nat) (ip : list Z) : list Z := Nat.iter j incr ip.

Lemma nth_ip_S j ip : nth_ip (S j) ip = nth_ip j (incr ip).
Proof. unfold nth_ip. by rewrite Nat.iter_succ_r. Qed.

Lemma nth_ip_length j ip : length (nth_ip j ip) = length ip.
Proof. induction j; simpl; [done|]. by rewrite incr_length. Qed.

Lemma nth_ip_ok j ip : bytes_ok ip → bytes_ok (nth_ip j ip).
Proof. intros. induction j; simpl; auto using incr_ok. Qed.

Lemma nth_ip_val j ip :
  bytes_ok ip → ip_val (nth_ip j ip) = (ip_val ip + Z.of_nat j) `mod` 256 ^ Z.of_nat (length ip).
Proof.
  intros H. pose proof (pow256_pos (length ip)). induction j as [|j IH].
  - simpl nth_ip. rewrite Z.add_0_r, Z.mod_small; [done|]. by apply ip_val_bound.
  - simpl nth_ip. rewrite incr_val by by apply nth_ip_ok.
    rewrite nth_ip_length, IH, Zplus_mod_idemp_l. f_equal. lia.
Qed.

(** ** Prefix masks *)

Lemma byte_mask b k :
  0 ≤ b < 256 → 0 ≤ k < 8 → Z.land b (255 - Z.shiftr 255 k) = b / 2 ^ (8 - k) * 2 ^ (8 - k).
Proof.
  intros Hb Hk.
  assert (forallb (λ b, forallb (λ k,
    Z.land b (255 - Z.shiftr 255 k) =? b / 2 ^ (8 - k) * 2 ^ (8 - k)) (seqZ 0 8)) (seqZ 0 256) = true)
    as Hall by (vm_compute; reflexivity).
  rewrite forallb_forall in Hall. specialize (Hall b).
  rewrite <- list_elem_of_In, elem_of_seqZ, forallb_forall in Hall.
  specialize (Hall ltac:(lia) k). rewrite <- list_elem_of_In, elem_of_seqZ in Hall.
  apply Z.eqb_eq, Hall. lia.
Qed.

Lemma land_255 b : 0 ≤ b < 256 → Z.land b 255 = b.
Proof. intros. change 255 with (Z.ones 8). rewrite Z.land_ones by done. by apply Z.mod_small. Qed.

Lemma mask_bytes_length n len : length (mask_bytes n len) = len.
Proof. revert n. induction len; intros n; simpl; [done|]. case_match; simpl; by rewrite IHlen. Qed.

Lemma mask_zero l : bytes_ok l → ip_val (zip_with Z.land l (mask_bytes 0 (length l))) = 0.
Proof.
  induction 1 as [|b l Hb Hl IH]; [done|].
  simpl. rewrite ip_val_cons, IH. change (255 - Z.shiftr 255 0) with 0.
  rewrite Z.land_0_r. lia.
Qed.

(** Masking with a prefix mask clears the host part. *)
Lemma mask_val l n :
  bytes_ok l → 0 ≤ n ≤ 8 * Z.of_nat (length l) →
  ip_val (zip_with Z.land l (mask_bytes n (length l))) =
  ip_val l / 2 ^ (8 * Z.of_nat (length l) - n) * 2 ^ (8 * Z.of_nat (length l) - n).
Proof.
  intros Hok. revert n. induction Hok as [|b l Hb Hl IH]; intros n Hn.
  { cbn [length] in Hn. simpl. rewrite Z.div_0_l; [done|]. apply Z.pow_nonzero; lia. }
  pose proof (ip_val_bound l Hl) as Hbd.
  assert (256 ^ Z.of_nat (length l) = 2 ^ (8 * Z.of_nat (length l))) as H256.
  { change 256 with (2 ^ 8). rewrite <- Z.pow_mul_r; [done|lia|lia]. }
  simpl mask_bytes. destruct (8 <=? n) eqn:H8.
  - simpl zip_with. rewrite !ip_val_cons, length_zip_with_l_eq by by rewrite mask_bytes_length.
    rewrite (land_255 b) by done.
    rewrite IH by (cbn [length] in *; lia). rewrite H256.
    replace (8 * Z.of_nat (length (b :: l)) - n) with (8 * Z.of_nat (length l) - (n - 8))
      by (cbn [length]; lia).
    set (h := 8 * Z.of_nat (length l) - (n - 8)) in *.
    assert (0 ≤ h ≤ 8 * Z.of_nat (length l)) as Hh by (cbn [length] in *; lia).
    replace (8 * Z.of_nat (length l)) with ((8 * Z.of_nat (length l) - h) + h) by lia.
    rewrite Z.pow_add_r by lia.
    replace (b * (2 ^ (8 * Z.of_nat (length l) - h) * 2 ^ h) + ip_val l)
      with (ip_val l + (b * 2 ^ (8 * Z.of_nat (length l) - h)) * 2 ^ h) by lia.
    rewrite Z.div_add by (apply Z.pow_nonzero; lia). lia.
  - simpl zip_with. rewrite !ip_val_cons, length_zip_with_l_eq by by rewrite mask_bytes_length.
    rewrite mask_zero by done. rewrite byte_mask by lia. rewrite H256 in *.
    replace (8 * Z.of_nat (length (b :: l)) - n) with ((8 - n) + 8 * Z.of_nat (length l))
      by (cbn [length]; lia).
    rewrite Z.pow_add_r by lia. rewrite (Z.mul_comm (2 ^ (8 - n))), <- Z.div_div
      by (try apply Z.pow_nonzero; try apply Z.pow_pos_nonneg; lia).
    rewrite Z.div_add_l by (apply Z.pow_nonzero; lia).
    rewrite (Z.div_small (ip_val l)), !Z.add_0_r by lia. ring.
Qed.

(** ** IPv4 networks *)

(** What [net.ParseCIDR] returns for IPv4 text: the address masked with its prefix. *)
Definition ipv4_net (ip4 : list Z) (ones : Z) : IPNet :=
  let m := mask_bytes ones 4 in MkIPNet (zip_with Z.land ip4 m) m.

Definition ipv4_ok (ip : list Z) : Prop := bytes_ok ip ∧ length ip = 4%nat.

Lemma To4_ipv4 ip : ipv4_ok ip → To4 ip = Some ip.
Proof. intros [_ H]. unfold To4. by rewrite bool_decide_true. Qed.

Lemma masked_ok ip ones : ipv4_ok ip → 0 ≤ ones ≤ 32 → ipv4_ok (zip_with Z.land ip (mask_bytes ones 4)).
Proof.
  intros [Hok Hlen] Hn. split.
  - assert (bytes_ok (mask_bytes ones 4)) as Hm.
    { clear -Hn. assert (forallb (λ n, forallb (λ b, (0 <=? b) && (b <? 256)) (mask_bytes n 4))
        (seqZ 0 33) = true) as H by (vm_compute; reflexivity).
      rewrite forallb_forall in H. specialize (H ones). rewrite <- list_elem_of_In, elem_of_seqZ in H.
      specialize (H ltac:(lia)). apply Forall_forall. intros b Hb.
      rewrite forallb_forall in H. specialize (H b). rewrite <- list_elem_of_In in H.
      specialize (H Hb). lia. }
    clear Hlen. revert Hm. generalize (mask_bytes ones 4). induction Hok as [|b l Hb Hl IH];
      intros [|m ms] Hm; try by constructor.
    inversion_clear Hm. simpl. constructor; [|by apply IH].
    split; [apply Z.land_nonneg; lia|].
    destruct (decide (Z.land b m = 0)) as [->|]; [lia|].
    apply (Z.log2_lt_cancel _ 256). pose proof (Z.log2_land b m).
    pose proof (Z.log2_le_mono b 255). change (Z.log2 255) with 7 in *.
    change (Z.log2 256) with 8. assert (Z.land b m <= 255) by (destruct (Z.le_gt_cases (Z.land b m) 255); [done|]; pose proof (Z.log2_le_mono 256 (Z.land b m)); change (Z.log2 256) with 8 in *; lia). lia.
  - by rewrite length_zip_with_l_eq by by rewrite mask_bytes_length.
Qed.

Lemma ipv4_net_ok ip ones : ipv4_ok ip → 0 ≤ ones ≤ 32 → ipv4_ok (net_IP (ipv4_net ip ones)).
Proof. apply masked_ok. Qed.

Lemma mask_val4 ip ones :
  ipv4_ok ip → 0 ≤ ones ≤ 32 →
  ip_val (zip_with Z.land ip (mask_bytes ones 4)) = ip_val ip / 2 ^ (32 - ones) * 2 ^ (32 - ones).
Proof.
  intros [Hok Hlen] Hn. pose proof (mask_val ip ones Hok) as H. rewrite Hlen in H. by apply H.
Qed.

Lemma land_mask_idem ip m :
  zip_with Z.land (zip_with Z.land ip m) m = zip_with Z.land ip m.
Proof.
  revert m. induction ip as [|b ip IH]; intros [|x m]; simpl; try done.
  rewrite IH. f_equal. by rewrite <- Z.land_assoc, Z.land_diag.
Qed.

(** Membership is equality of the network parts of the two addresses. *)
Lemma Contains_val base ones ip :
  ipv4_ok base → ipv4_ok ip → 0 ≤ ones ≤ 32 →
  Contains (ipv4_net base ones) ip = true ↔
  ip_val ip / 2 ^ (32 - ones) = ip_val base / 2 ^ (32 - ones).
Proof.
  intros Hb Hi Hn. pose proof (ipv4_net_ok base ones Hb Hn) as Hnet.
  unfold Contains, networkNumberAndMask. rewrite !To4_ipv4 by done.
  unfold ipv4_net in *. cbn [net_Mask net_IP] in *. rewrite mask_bytes_length.
  rewrite (bool_decide_false (4%nat = 16%nat)) by done. cbn [from_option]. change (id ip) with ip.
  rewrite land_mask_idem, bool_decide_eq_true.
  assert (0 < 2 ^ (32 - ones)) as Hpow by (apply Z.pow_pos_nonneg; lia).
  pose proof (mask_val4 base ones Hb Hn). pose proof (mask_val4 ip ones Hi Hn).
  pose proof (masked_ok ip ones Hi Hn) as Hmi.
  split.
  - intros [_ Heq]. apply (Z.mul_reg_r _ _ (2 ^ (32 - ones))); [lia|]. congruence.
  - intros Heq. split; [by rewrite (proj2 Hi), (proj2 Hnet)|].
    apply ip_val_inj; [apply Hnet|apply Hmi|by rewrite (proj2 Hnet), (proj2 Hmi)|].
    congruence.
Qed.

(** ** Text of IPv4 addresses *)

Lemma itoa_byte_free b : 0 ≤ b < 256 → str_free "."%char (itoa b) = true.
Proof.
  intros Hb. assert (forallb (λ b, str_free "."%char (itoa b)) (seqZ 0 256) = true) as H
    by (vm_compute; reflexivity).
  rewrite forallb_forall in H. apply H. rewrite <- list_elem_of_In, elem_of_seqZ. lia.
Qed.

Lemma itoa_byte_no_slash b : 0 ≤ b < 256 → str_free "/"%char (itoa b) = true.
Proof.
  intros Hb. assert (forallb (λ b, str_free "/"%char (itoa b)) (seqZ 0 256) = true) as H
    by (vm_compute; reflexivity).
  rewrite forallb_forall in H. apply H. rewrite <- list_elem_of_In, elem_of_seqZ. lia.
Qed.

Lemma join_free c sep l :
  str_free c sep = true → Forall (λ s, str_free c s = true) l → str_free c (join sep l) = true.
Proof.
  intros Hsep. induction 1 as [|x l Hx Hl IH]; [done|].
  destruct l as [|y l]; [done|]. rewrite join_cons by done.
  by rewrite !str_free_app, Hx, Hsep, IH.
Qed.

Lemma dotted_no_slash ip : bytes_ok ip → str_free "/"%char (dotted ip) = true.
Proof.
  intros Hip. apply join_free; [done|]. apply Forall_map. eapply Forall_impl; [exact Hip|].
  intros x ?. by apply itoa_byte_no_slash.
Qed.

Lemma dotted_inj a b : ipv4_ok a → ipv4_ok b → dotted a = dotted b → a = b.
Proof.
  intros [Ha La] [Hb Lb] Heq.
  assert (∀ l, bytes_ok l → length l = 4%nat →
    split_on "."%char (dotted l) = map itoa l) as Hsplit.
  { intros l Hl Hlen. apply split_on_join; [by destruct l|].
    apply Forall_map. eapply Forall_impl; [exact Hl|]. intros x ?. by apply itoa_byte_free. }
  assert (map itoa a = map itoa b) as Hm by (rewrite <- !Hsplit by done; by rewrite Heq).
  apply list_fmap_eq_inj in Hm; [done|]. intros x y. apply pretty_Z_inj.
Qed.

(** ** The address search *)

Section search.
Context `{IPv6Text}.

Lemma IP_String_ipv4_inj a b : ipv4_ok a → ipv4_ok b → IP_String a = IP_String b → a = b.
Proof. intros Ha Hb. unfold IP_String. rewrite !To4_ipv4 by done. by apply dotted_inj. Qed.

(** What the loop has seen when it stops. *)
Lemma find_from_spec fuel n used ip :
  match find_from fuel n used ip with
  | OutOfFuel => ∀ j, (1 ≤ j ≤ fuel)%nat → IP_String (nth_ip j ip) ∈ used
  | Found s => ∃ j, (1 ≤ j ≤ fuel)%nat ∧ s = IP_String (nth_ip j ip) ∧ s ∉ used ∧
                    Contains n (nth_ip j ip) = true ∧
                    ∀ i, (1 ≤ i < j)%nat → IP_String (nth_ip i ip) ∈ used
  | Exhausted => ∃ j, (1 ≤ j ≤ fuel)%nat ∧ Contains n (nth_ip j ip) = false ∧
                    ∀ i, (1 ≤ i < j)%nat → IP_String (nth_ip i ip) ∈ used
  end.
Proof.
  revert ip. induction fuel as [|fuel IH]; intros ip; simpl; [lia|].
  unfold isValidHostIP. destruct (Contains n (incr ip)) eqn:HC; simpl.
  2:{ exists 1%nat. split; [lia|]. split; [done|]. lia. }
  destruct (mem (IP_String (incr ip)) used) eqn:Hm; simpl.
  2:{ exists 1%nat. apply mem_false in Hm. split_and!; [lia|lia|done|done|done|lia]. }
  apply mem_true in Hm. specialize (IH (incr ip)).
  assert (∀ k, (∀ i, (1 ≤ i < k)%nat → IP_String (nth_ip i (incr ip)) ∈ used) →
    ∀ i, (1 ≤ i < S k)%nat → IP_String (nth_ip i ip) ∈ used) as Hstep.
  { intros k Hk [|[|i]] Hi; [lia|done|]. rewrite nth_ip_S. apply Hk. lia. }
  destruct (find_from _ _ _ _).
  - destruct IH as (j & Hj & Hs & Hnot & HCj & Hbefore). exists (S j).
    rewrite nth_ip_S. split_and!; [lia|lia|done|done|done|]. by apply Hstep.
  - destruct IH as (j & Hj & HCj & Hbefore). exists (S j).
    rewrite nth_ip_S. split_and!; [lia|lia|done|]. by apply Hstep.
  - intros j Hj. apply (Hstep (S fuel)); [|lia]. intros i Hi. apply IH. lia.
Qed.

(** Fewer than 2^32 consecutive IPv4 addresses have different texts. *)
Lemma nth_ip_strings_NoDup k ip :
  ipv4_ok ip → Z.of_nat k ≤ 2 ^ 32 → NoDup ((λ j, IP_String (nth_ip j ip)) <$> seq 1 k).
Proof.
  intros [Hok Hlen] Hk. apply NoDup_fmap_2_strong; [|apply NoDup_seq].
  intros i j Hi%elem_of_seq Hj%elem_of_seq Heq.
  apply IP_String_ipv4_inj in Heq;
    [|split; [by apply nth_ip_ok|by rewrite nth_ip_length]..].
  apply (f_equal ip_val) in Heq. rewrite !nth_ip_val, Hlen in Heq by done.
  change (256 ^ Z.of_nat 4) with (2 ^ 32) in Heq.
  pose proof (Z.div_mod (ip_val ip + Z.of_nat i) (2 ^ 32) ltac:(lia)).
  pose proof (Z.div_mod (ip_val ip + Z.of_nat j) (2 ^ 32) ltac:(lia)).
  nia.
Qed.

(** The bound on the loop: it has as many iterations as used addresses, and one more. *)
Lemma find_from_terminates n used ip :
  ipv4_ok ip → Z.of_nat (length used) < 2 ^ 32 → find_from (S (length used)) n used ip ≠ OutOfFuel.
Proof.
  intros Hip Hused Heq. pose proof (find_from_spec (S (length used)) n used ip) as Hs.
  rewrite Heq in Hs.
  assert (S (length used) ≤ length used)%nat; [|lia].
  rewrite <- (length_seq (S (length used)) 1) at 1.
  rewrite <- (length_fmap (λ j, IP_String (nth_ip j ip))).
  apply submseteq_length, NoDup_submseteq; [apply nth_ip_strings_NoDup; [done|lia]|].
  intros s (j & -> & Hj%elem_of_seq)%list_elem_of_fmap. apply Hs. lia.
Qed.

(** C26: [findAvailableIP] on an IPv4 subnet terminates within one iteration more than there
    are used addresses; it returns the first address after the network address, in
    numeric order, that is in the subnet and not used; and it reports exhaustion
    only when every address of the subnet but the network address is used. *)
Theorem findAvailableIP_correct base ones used :
  ipv4_ok base → 0 ≤ ones ≤ 32 → Z.of_nat (length used) < 2 ^ 32 →
  let n := ipv4_net base ones in
  let first := net_IP n in
  match findAvailableIP n used with
  | Found s => ∃ j, (1 ≤ j)%nat ∧ s = IP_String (nth_ip j first) ∧
                    Contains n (nth_ip j first) = true ∧ s ∉ used ∧
                    ∀ i, (1 ≤ i < j)%nat → IP_String (nth_ip i first) ∈ used
  | Exhausted => ∀ ip, ipv4_ok ip → Contains n ip = true → ip ≠ first → IP_String ip ∈ used
  | OutOfFuel => False
  end.
Proof.
  intros Hb Hones Hused n first. assert (ipv4_ok first) as Hnet by by apply ipv4_net_ok.
  unfold findAvailableIP. pose proof (find_from_spec (S (length used)) n used first) as Hs.
  destruct (find_from _ _ _ _) eqn:Hf.
  - destruct Hs as (j & Hj & ? & ? & ? & ?). exists j. split; [lia|]. done.
  - destruct Hs as (j & Hj & HC & Hbefore). intros ip Hip HCip Hne.
    pose proof (ip_val_bound ip (proj1 Hip)) as Hipb. rewrite (proj2 Hip) in Hipb.
    pose proof (ip_val_bound first (proj1 Hnet)) as Hfb. rewrite (proj2 Hnet) in Hfb.
    change (256 ^ Z.of_nat 4) with (2 ^ 32) in *.
    set (P := 2 ^ (32 - ones)). assert (0 < P) as HP by (apply Z.pow_pos_nonneg; lia).
    assert (ip_val first = ip_val base / P * P) as Hfirst by by apply mask_val4.
    apply Contains_val in HCip; [|done..]. fold P in HCip.
    assert (first ≠ ip → ip_val ip ≠ ip_val first) as Hneq.
    { intros Hn Hv. apply Hn. symmetry. apply ip_val_inj; try apply Hip; try apply Hnet; [|done].
      by rewrite (proj2 Hip), (proj2 Hnet). }
    specialize (Hneq (not_eq_sym Hne)).
    pose proof (Z.div_mod (ip_val ip) P ltac:(lia)) as Hdm.
    pose proof (Z.mod_pos_bound (ip_val ip) P HP) as Hmb.
    rewrite HCip in Hdm. set (d := ip_val ip - ip_val first) in *.
    assert (0 < d < P) as Hd by (subst d; nia).
    assert (∀ i, 0 ≤ Z.of_nat i ≤ d → ip_val (nth_ip i first) = ip_val first + Z.of_nat i) as Hv.
    { intros i Hi. rewrite nth_ip_val by apply Hnet. rewrite (proj2 Hnet).
      change (256 ^ Z.of_nat 4) with (2 ^ 32). apply Z.mod_small. lia. }
    assert (ip = nth_ip (Z.to_nat d) first) as Hnth.
    { apply ip_val_inj; [apply Hip|apply nth_ip_ok, Hnet| |].
      - by rewrite nth_ip_length, (proj2 Hip), (proj2 Hnet).
      - rewrite Hv by lia. lia. }
    rewrite Hnth. apply Hbefore. split; [lia|]. destruct (decide (j ≤ Z.to_nat d)%nat) as [Hle|]; [|lia].
    exfalso. apply not_true_iff_false in HC. apply HC.
    apply Contains_val; [done| |done|].
    { split; [apply nth_ip_ok, Hnet|by rewrite nth_ip_length, (proj2 Hnet)]. }
    fold P. rewrite Hv, Hfirst by lia. rewrite Z.add_comm, Z.div_add by lia.
    rewrite Z.div_small by lia. lia.
  - by eapply find_from_terminates in Hf.
Qed.

End search.
