(* ===== verification/World.v ===== *)
(** * The world the services act on

    The control plane keeps its state in PostgreSQL and acts on a compute backend,
    an Open vSwitch backend and a load-balancer proxy.  [World] is the database (one
    field per table) with the history of the calls made to the backends;
    [M] is the monad of Go code over it.  What the code cannot see of its
    environment (clock, random UUIDs, row order, failures of statements, answers of
    the backends, text conversions of PostgreSQL) is a parameter: the class [Env]. *)
From S2P Require Import Prelude GoStd Net Errors Domain DomainData.

(** ** Calls to code outside the control plane *)

(** One constructor per method of [ports.ComputeBackend], [ports.NetworkBackend] and
    [ports.LBProxyAdapter] in use, and the calls to the operating system.
    [AverageCPU] reads [metrics_history], which another process fills.  [HTTPDo] is a
    request of the HTTP client, answered with the status code and the status line. *)
Inductive Call :=
  | CreateInstance (name image : string) (ports : list string) (networkID : string)
      (volumeBinds env cmd : list string)
  | StopInstance (id : string)
  | DeleteInstance (id : string)
  | GetInstanceLogs (id : string)
  | GetInstanceStats (id : string)
  | Ping
  | ReadLogs (id : string)
  | CreateVolume (name : string)
  | DeleteVolume (name : string)
  | CreateBridge (name : string) (vxlanID : Z)
  | DeleteBridge (name : string)
  | AddFlowRule (bridge : string) (rule : FlowRule)
  | CreateVethPair (hostEnd containerEnd : string)
  | AttachVethToBridge (bridge vethEnd : string)
  | SetVethIP (vethEnd ip cidr : string)
  | PingNetwork
  | IPLinkSetUp (dev : string)
  | DeployProxy (lb : LoadBalancer) (targets : list LBTarget)
  | RemoveProxy (lbID : uuid)
  | UpdateProxyConfig (lb : LoadBalancer) (targets : list LBTarget)
  | DialTCP (address : string)
  | AverageCPU (instanceIDs : list uuid) (since : time)
  | GetInstancePort (id internalPort : string)
  | Exec (id : string) (cmd : list string)
  | RunTask (opts : RunTaskOptions)
  | WaitTask (id : string) (timeout : Z)
  | CreateVolumeSnapshot (volumeID destinationPath : string)
  | RestoreVolumeSnapshot (volumeID sourcePath : string)
  | HTTPDo (method url body : string)
  | MkdirAll (path : string)
  | CreateFile (path : string)
  | OpenFile (path : string)
  | RemoveFile (path : string)
  | MkdirTemp (pattern : string)
  | RemoveAll (path : string).

(** The type of the answer beside the error.  [Exec] and [WaitTask] can answer a value with an
    error. *)
Definition resp (c : Call) : Type :=
  match c with
  | CreateInstance _ _ _ _ _ _ _ | ReadLogs _ | DeployProxy _ _ => string
  | RunTask _ | MkdirTemp _ | GetInstanceStats _ => string
  | AverageCPU _ _ => float64
  | GetInstancePort _ _ => Z
  | Exec _ _ => string * option error
  | WaitTask _ _ => Z * option error
  | HTTPDo _ _ _ => Z * string
  | _ => unit
  end.

(** ** The environment *)

Class Env := {
  env_ipv6 :: IPv6Text;
  (** [uuid.UUID.String], [uuid.Parse] *)
  uuid_string : uuid → string;
  uuid_parse : string → option uuid;
  (** [time.Now] and [uuid.New] at the n-th step of the run *)
  env_now : nat → time;
  env_uuid : nat → uuid;
  (** [NOW()] of the database server *)
  env_db_now : nat → time;
  (** the rows other transactions hold locks on, which SKIP LOCKED leaves out *)
  env_locked : nat → uuid → bool;
  (** the error of the statement sent to the database at a step, if it fails *)
  env_fault : nat → option error;
  (** after how many rows the reading of a result breaks off, if it does *)
  env_cut : nat → option nat;
  (** the order of the rows of a query without ORDER BY *)
  env_order : nat → ∀ A : Type, list A → list A;
  (** [NULLIF($1, '')::inet] read back with [::text], and the same for [cidr] *)
  inet_text : string → option string;
  cidr_text : string → option string;
  (** a value stored in a DECIMAL(5,2) column and read back, if it fits *)
  decimal_5_2 : float64 → option float64;
  (** whether the service was built with a network backend *)
  has_network : bool;
  (** the answer to a call, given the calls made before it (latest first) *)
  env_respond : list Call → ∀ c : Call, error + resp c;
}.

(** *** What is documented of the environment *)

Class UUIDLaws `{Env} := {
  uuid_parse_string : ∀ u, uuid_parse (uuid_string u) = Some u;
  uuid_string_nonempty : ∀ u, uuid_string u ≠ "";
}.

Class FreshUUIDs `{Env} := {
  env_uuid_inj : ∀ i j, env_uuid i = env_uuid j → i = j;
  env_uuid_nonnil : ∀ i, env_uuid i ≠ uuid_Nil;
}.

Class OrderLaws `{Env} := {
  env_order_perm : ∀ t A (l : list A), env_order t A l ≡ₚ l;
}.

Class NoFaults `{Env} := {
  no_faults : ∀ t, env_fault t = None;
  no_cuts : ∀ t, env_cut t = None;
}.

(** ** The state *)

Record World := MkWorld {
  w_tick : nat;
  w_calls : list Call;
  t_users : gmap uuid User;
  t_roles : gmap uuid Role;
  t_instances : gmap uuid Instance;
  t_volumes : gmap uuid Volume;
  t_vpcs : gmap uuid VPC;
  t_subnets : gmap uuid Subnet;
  t_lbs : gmap uuid LoadBalancer;
  t_lb_targets : gmap uuid LBTarget;
  t_groups : gmap uuid ScalingGroup;
  t_policies : gmap uuid ScalingPolicy;
  (** keyed by (scaling_group_id, instance_id), the primary key of the table, whose other
      column [joined_at] is never read *)
  t_group_instances : gmap (uuid * uuid) unit;
  t_queues : gmap uuid Queue;
  t_messages : gmap uuid Message;
  t_deployments : gmap uuid Deployment;
  t_containers : gmap uuid DeploymentContainer;
  t_events : list Event;
  t_audit : list AuditLog;
  (** the column list of [security_groups]: [Rules] is empty in the table *)
  t_security_groups : gmap uuid SecurityGroup;
  t_security_rules : gmap uuid SecurityRule;
  (** keyed by (instance_id, group_id) *)
  t_sg_instances : gmap (uuid * uuid) unit;
  t_snapshots : gmap uuid Snapshot;
  t_secrets : gmap uuid Secret;
  t_api_keys : gmap uuid APIKey;
  t_reset_tokens : gmap uuid PasswordResetToken;
  t_objects : gmap uuid Object;
  t_caches : gmap uuid Cache;
  t_databases : gmap uuid Database;
  t_functions : gmap uuid Function;
  t_invocations : gmap uuid Invocation;
  t_cron_jobs : gmap uuid CronJob;
  t_cron_runs : gmap uuid CronJobRun;
  t_routes : gmap uuid GatewayRoute;
  t_topics : gmap uuid Topic;
  t_subscriptions : gmap uuid Subscription;
  t_notify_messages : gmap uuid NotifyMessage;
  t_stacks : gmap uuid StackRow;
  t_stack_resources : gmap uuid StackResource;
  (** the regular files of the control plane's host, by path *)
  w_files : gmap string string;
  (** the maps an [AuthService] and a [GatewayService] keep in memory *)
  m_failedAttempts : gmap string Z;
  m_lockouts : gmap string time;
  m_routes : gmap string GatewayRoute;
  (** the goroutines that have not run yet, the oldest first *)
  w_tasks : list Task;
}.

#[export] Instance eta_World : Eta World := fun x =>
  MkWorld (w_tick x) (w_calls x) (t_users x) (t_roles x) (t_instances x) (t_volumes x)
    (t_vpcs x) (t_subnets x) (t_lbs x) (t_lb_targets x) (t_groups x) (t_policies x)
    (t_group_instances x) (t_queues x) (t_messages x) (t_deployments x) (t_containers x)
    (t_events x) (t_audit x) (t_security_groups x) (t_security_rules x) (t_sg_instances x)
    (t_snapshots x) (t_secrets x) (t_api_keys x) (t_reset_tokens x) (t_objects x) (t_caches x)
    (t_databases x) (t_functions x) (t_invocations x) (t_cron_jobs x) (t_cron_runs x)
    (t_routes x) (t_topics x) (t_subscriptions x) (t_notify_messages x) (t_stacks x)
    (t_stack_resources x) (w_files x) (m_failedAttempts x) (m_lockouts x) (m_routes x)
    (w_tasks x).

Definition empty_world : World :=
  MkWorld 0 [] ∅ ∅ ∅ ∅ ∅ ∅ ∅ ∅ ∅ ∅ ∅ ∅ ∅ ∅ ∅ [] []
    ∅ ∅ ∅ ∅ ∅ ∅ ∅ ∅ ∅ ∅ ∅ ∅ ∅ ∅ ∅ ∅ ∅ ∅ ∅ ∅ ∅ ∅ ∅ ∅ [].

(** ** The monad of Go code *)

(** A Go function that returns [(A, error)], or panics. *)
Inductive res (A : Type) :=
  | Ok (a : A)
  | Err (e : error)
  | Panic (msg : string).
Arguments Ok {A} a. Arguments Err {A} e. Arguments Panic {A} msg.

Definition M (A : Type) : Type := World → res A * World.

#[export] Instance M_ret : MRet M := fun A a w => (Ok a, w).
#[export] Instance M_bind : MBind M := fun A B f m w =>
  match m w with
  | (Ok a, w') => f a w'
  | (Err e, w') => (Err e, w')
  | (Panic p, w') => (Panic p, w')
  end.

Definition fail {A} (e : error) : M A := fun w => (Err e, w).
Definition panic {A} (msg : string) : M A := fun w => (Panic msg, w).

(** The caller looks at the error instead of returning it. *)
Definition attempt {A} (m : M A) : M (error + A) := fun w =>
  match m w with
  | (Ok a, w') => (Ok (inr a), w')
  | (Err e, w') => (Ok (inl e), w')
  | (Panic p, w') => (Panic p, w')
  end.

(** [_ = f()]; [if err := f(); err != nil { log }] *)
Definition ignore {A} (m : M A) : M unit := attempt m ;; mret ().

(** [if err := f(); err != nil { return wrap(err) }] *)
Definition wrap_err {A} (g : error → error) (m : M A) : M A := fun w =>
  match m w with
  | (Err e, w') => (Err (g e), w')
  | r => r
  end.

Definition from_opt {A} (e : error) (o : option A) : M A :=
  match o with
  | Some a => mret a
  | None => fail e
  end.

Definition guard_err (b : bool) (e : error) : M unit := if b then fail e else mret ().

(** Reading and writing the state that is not in the database: files, the maps a service
    keeps in memory, the goroutines to run. *)
Definition gets {T} (p : World → T) : M T := fun w => (Ok (p w), w).
Definition modifies {U} (q : World → U) `{!Field q} (f : U → U) : M unit :=
  fun w => (Ok tt, w <| q ::= f |>).

(** [go f()]: the goroutine is left for later. *)
Definition spawn (t : Task) : M unit := modifies w_tasks (λ l, l ++ [t]).

(** [for _, x := range l { body }] where an error leaves the function *)
Fixpoint foreach {A} (l : list A) (body : A → M unit) : M unit :=
  match l with
  | [] => mret ()
  | x :: l' => body x ;; foreach l' body
  end.

(** The same with a variable the loop updates. *)
Fixpoint foldM {A S} (body : S → A → M S) (s : S) (l : list A) : M S :=
  match l with
  | [] => mret s
  | x :: l' => s' ← body s x; foldM body s' l'
  end.

Section world.
Context `{Env}.

(** ** Environment operations *)

Definition next_tick : M nat := fun w => (Ok (w_tick w), w <| w_tick ::= S |>).
Definition Now : M time := t ← next_tick; mret (env_now t).
Definition uuid_New : M uuid := t ← next_tick; mret (env_uuid t).

Definition perform (c : Call) : M (resp c) := fun w =>
  let w' := w <| w_calls ::= cons c |> in
  match env_respond (w_calls w) c with
  | inr a => (Ok a, w')
  | inl e => (Err e, w')
  end.

(** ** Statements

    A statement either fails with the error of the environment or of a
    constraint, and then changes no table, or has its effect. *)

Definition constraint_violation : error := ExternalError "constraint violation".

Definition db_exec {A} (stmt : World → option (A * World)) : M A := fun w0 =>
  let w := w0 <| w_tick ::= S |> in
  match env_fault (w_tick w0) with
  | Some e => (Err e, w)
  | None => match stmt w with
            | Some (a, w') => (Ok a, w')
            | None => (Err constraint_violation, w)
            end
  end.

(** The rows of a query, in the order the database returns them. *)
Definition db_rows {A} (rows : World → list A) : M (list A) := fun w0 =>
  let w := w0 <| w_tick ::= S |> in
  match env_fault (w_tick w0) with
  | Some e => (Err e, w)
  | None => (Ok (env_order (w_tick w0) A (rows w)), w)
  end.

Definition cut {A} (n : option nat) (l : list A) : list A :=
  match n with Some n => take n l | None => l end.

(** [rows, err := db.Query(...)] and the loop [for rows.Next()].  No repository asks
    [rows.Err()] after the loop: when the reading of the result fails, the rows read so far
    are all there are, and there is no error. *)
Definition db_query {A} (rows : World → list A) : M (list A) := fun w0 =>
  match db_rows rows w0 with
  | (Ok l, w) => (Ok (cut (env_cut (w_tick w0)) l), w)
  | r => r
  end.

(** [QueryRow(...).Scan(...)]: the first row, or [pgx.ErrNoRows].  [Scan] reports an error of
    the reading. *)
Definition db_query_row {A} (rows : World → list A) : M A :=
  l ← db_rows rows;
  match l with
  | r :: _ => mret r
  | [] => fail ErrNoRows
  end.

(** [tx := db.Begin(); defer tx.Rollback(); ...; tx.Commit()]: an error anywhere
    undoes the changes of the statements in between.  [begin_err] wraps the error of
    [Begin]. *)
Definition rollback_to (w0 w : World) : World := w0 <| w_tick := w_tick w |> <| w_calls := w_calls w |>.

Definition transaction_w {A} (begin_err : error → error) (m : M A) : M A := fun w0 =>
  let w1 := w0 <| w_tick ::= S |> in
  match env_fault (w_tick w0) with
  | Some e => (Err (begin_err e), w1)
  | None =>
      match m w1 with
      | (Ok a, w2) =>
          match env_fault (w_tick w2) with
          | None => (Ok a, w2 <| w_tick ::= S |>)
          | Some e => (Err e, rollback_to w1 (w2 <| w_tick ::= S |>))
          end
      | (r, w2) => (r, rollback_to w1 w2)
      end
  end.

Definition transaction {A} : M A → M A := transaction_w (λ e, e).

(** The foreign key of the [user_id] columns. *)
Definition user_fk (u : uuid) (w : World) : bool := bool_decide (is_Some (t_users w !! u)).

(** ** The context: [core/context] *)

Definition Context : Type := option uuid.
Definition WithUserID (ctx : Context) (userID : uuid) : Context := Some userID.
Definition UserIDFromContext (ctx : Context) : uuid := default uuid_Nil ctx.

(** [if userID == uuid.Nil { return fmt.Errorf("unauthorized") }] *)
Definition current_user (ctx : Context) : M uuid :=
  let userID := UserIDFromContext ctx in
  guard_err (bool_decide (userID = uuid_Nil)) (Errorf "unauthorized") ;;
  mret userID.

(** ** Events and audit logs: [EventService.RecordEvent], [AuditService.Log] *)

Definition event_Create (e : Event) : M unit :=
  db_exec (fun w =>
    if bool_decide (ev_ID e ∈ ev_ID <$> t_events w) || negb (user_fk (ev_UserID e) w) then None
    else Some (tt, w <| t_events ::= cons e |>)).

Definition RecordEvent (ctx : Context) (action resourceID resourceType : string)
    (meta : metadata) : M unit :=
  id ← uuid_New;
  created ← Now;
  event_Create (MkEvent id (UserIDFromContext ctx) action resourceID resourceType meta created).

Definition audit_Create (log : AuditLog) : M unit :=
  wrap_err (Wrap Internal "failed to create audit log")
    (db_exec (fun w =>
       if bool_decide (al_ID log ∈ al_ID <$> t_audit w) || negb (user_fk (al_UserID log) w)
       then None
       else Some (tt, w <| t_audit ::= cons log |>))).

Definition Log (userID : uuid) (action resourceType resourceID : string) (details : metadata) : M unit :=
  id ← uuid_New;
  created ← Now;
  audit_Create (MkAuditLog id userID action resourceType resourceID details "" "" created).

End world.
