(* ===== verification/Logic.v ===== *)
(** * Reasoning about programs of [M]

    [Steps R m]: whatever [m] returns, the world it leaves is related by [R] to the
    one it started in.  With [R] the relation [same p] this is a frame property
    ([m] leaves the part [p] of the world alone), with [keeps P] the preservation of
    the invariant [P].  [NoPanic m]: [m] does not panic.  Both are type classes, whose
    instances follow the combinators, so that the property of a service is
    found by resolution from those of the repositories it calls. *)
From S2P Require Import Prelude GoStd Net Errors Domain DomainData World.

Create HintDb world discriminated.

(** ** Running a bind *)

Section run.
Context {A B : Type}.
Implicit Types (m : M A) (f : A → M B).

Lemma bind_Ok_run m f w a w1 : m w = (Ok a, w1) → (m ≫= f) w = f a w1.
Proof. intros H. unfold mbind, M_bind. by rewrite H. Qed.

Lemma bind_Err_run m f w e w1 : m w = (Err e, w1) → (m ≫= f) w = (Err e, w1).
Proof. intros H. unfold mbind, M_bind. by rewrite H. Qed.

Lemma mret_bind (a : A) f : (mret a : M A) ≫= f = f a.
Proof. done. Qed.

Lemma bind_Ok_inv m f w b w2 :
  (m ≫= f) w = (Ok b, w2) → ∃ a w1, m w = (Ok a, w1) ∧ f a w1 = (Ok b, w2).
Proof. unfold mbind, M_bind. destruct (m w) as [[a|e|p] w1]; naive_solver. Qed.

Lemma bind_Err_inv m f w e w2 :
  (m ≫= f) w = (Err e, w2) →
  m w = (Err e, w2) ∨ ∃ a w1, m w = (Ok a, w1) ∧ f a w1 = (Err e, w2).
Proof. unfold mbind, M_bind. destruct (m w) as [[a|e'|p] w1]; naive_solver. Qed.

(** The three ways a sequence ends. *)
Lemma bind_inv m f w r w2 :
  (m ≫= f) w = (r, w2) →
  (∃ a w1, m w = (Ok a, w1) ∧ f a w1 = (r, w2)) ∨
  (∃ e, m w = (Err e, w2) ∧ r = Err e) ∨
  (∃ p, m w = (Panic p, w2) ∧ r = Panic p).
Proof. unfold mbind, M_bind. destruct (m w) as [[a|e|p] w1]; naive_solver. Qed.

Lemma attempt_inv m w r w' :
  attempt m w = (r, w') →
  (∃ a, m w = (Ok a, w') ∧ r = Ok (inr a)) ∨
  (∃ e, m w = (Err e, w') ∧ r = Ok (inl e)) ∨
  (∃ p, m w = (Panic p, w') ∧ r = Panic p).
Proof. unfold attempt. destruct (m w) as [[a|e|p] w1]; naive_solver. Qed.

Lemma ignore_inv m w r w' :
  ignore m w = (r, w') →
  (r = Ok tt ∧ ∃ r0, m w = (r0, w')) ∨ (∃ p, m w = (Panic p, w') ∧ r = Panic p).
Proof.
  unfold ignore, attempt, mbind, M_bind, mret, M_ret. destruct (m w) as [[a|e|p] w1]; naive_solver.
Qed.

Lemma attempt_Ok_run m w a w1 : m w = (Ok a, w1) → attempt m w = (Ok (inr a), w1).
Proof. intros H. unfold attempt. by rewrite H. Qed.

Lemma attempt_Err_run m w e w1 : m w = (Err e, w1) → attempt m w = (Ok (inl e), w1).
Proof. intros H. unfold attempt. by rewrite H. Qed.

Lemma wrap_err_Ok m g w a w1 : wrap_err g m w = (Ok a, w1) ↔ m w = (Ok a, w1).
Proof. unfold wrap_err. destruct (m w) as [[]]; naive_solver. Qed.

Lemma wrap_err_Err m g w e w1 :
  wrap_err g m w = (Err e, w1) → ∃ e0, e = g e0 ∧ m w = (Err e0, w1).
Proof. unfold wrap_err. destruct (m w) as [[]]; naive_solver. Qed.

Lemma wrap_err_Ok_run m g w a w1 : m w = (Ok a, w1) → wrap_err g m w = (Ok a, w1).
Proof. apply wrap_err_Ok. Qed.

Lemma wrap_err_Err_run m g w e w1 : m w = (Err e, w1) → wrap_err g m w = (Err (g e), w1).
Proof. intros H. unfold wrap_err. by rewrite H. Qed.

End run.

(** Decomposes a successful run of a sequence into the runs of its parts. *)
Ltac monad_inv H :=
  lazymatch type of H with
  | (_ ≫= _) _ = (Ok _, _) =>
      let a := fresh "a" in let w := fresh "w" in
      let H1 := fresh H in
      apply bind_Ok_inv in H as (a & w & H1 & H);
      monad_inv H1; monad_inv H
  | mret _ _ = (Ok _, _) => unfold mret, M_ret in H; simplify_eq/=
  | wrap_err _ _ _ = (Ok _, _) => apply wrap_err_Ok in H; monad_inv H
  | _ => idtac
  end.

Lemma guard_err_Ok b e w u w' : guard_err b e w = (Ok u, w') → b = false ∧ w' = w.
Proof. destruct b; cbn; unfold fail, mret, M_ret; naive_solver. Qed.

Lemma from_opt_Ok {A} e (o : option A) w a w' : from_opt e o w = (Ok a, w') → o = Some a ∧ w' = w.
Proof. destruct o; cbn; unfold fail, mret, M_ret; naive_solver. Qed.

(** The first part of a successful sequence. *)
Ltac ok_step H a w :=
  let Hm := fresh "Hrun" in apply bind_Ok_inv in H as (a & w & Hm & H).

(** Splits a run of a sequence on the outcome of its first part. *)
Ltac run_step H a w :=
  let Hm := fresh "Hrun" in let e := fresh "e" in let p := fresh "p" in let Hr := fresh "Hr" in
  apply bind_inv in H as [(a & w & Hm & H)|[(e & Hm & Hr)|(p & Hm & Hr)]];
  [|revert Hr; lazymatch goal with
     | |- ?r = _ → _ => tryif is_var r then intros -> else first [intros [= <-] | intros [=]]
     end..].

Lemma Now_run `{Env} w : Now w = (Ok (env_now (w_tick w)), w <| w_tick ::= S |>).
Proof. done. Qed.

Lemma uuid_New_run `{Env} w : uuid_New w = (Ok (env_uuid (w_tick w)), w <| w_tick ::= S |>).
Proof. done. Qed.

(** ** Independence of a part of the world from a field *)

Class Indep {T U} (p : World → T) (q : World → U) `{!Field q} :=
  indep : ∀ f w, p (w <| q ::= f |>) = p w.

#[export] Hint Extern 0 (Indep _ _) => (intros ??; reflexivity) : typeclass_instances.

(** ** Relations a program stays in *)

Class Steps (R : relation World) {A} (m : M A) := steps : ∀ w, R w (m w).2.
Class TickOk (R : relation World) := tick_ok : ∀ w, R w (w <| w_tick ::= S |>).
Class CallOk (R : relation World) := call_ok : ∀ c w, R w (w <| w_calls ::= cons c |>).
Class StmtOk (R : relation World) {A} (stmt : World → option (A * World)) :=
  stmt_ok : ∀ w a w', stmt w = Some (a, w') → R w w'.
Class RollbackOk (R : relation World) := rollback_ok : ∀ w w', R w w' → R w (rollback_to w w').
#[export] Hint Mode Steps ! - ! : typeclass_instances.

Section steps.
Context `{Env} (R : relation World) `{!PreOrder R}.
Implicit Types A B S : Type.

#[export] Instance steps_ret A (a : A) : Steps R (mret a : M A).
Proof. intros w. simpl. reflexivity. Qed.
#[export] Instance steps_fail A e : Steps R (@fail A e).
Proof. intros w. simpl. reflexivity. Qed.
#[export] Instance steps_panic A e : Steps R (@panic A e).
Proof. intros w. simpl. reflexivity. Qed.

#[export] Instance steps_gets T (p : World → T) : Steps R (gets p).
Proof. intros w. simpl. reflexivity. Qed.

#[export] Instance steps_bind A B (m : M A) (f : A → M B) :
  Steps R m → (∀ a, Steps R (f a)) → Steps R (m ≫= f).
Proof.
  intros Hm Hf w. specialize (Hm w). unfold mbind, M_bind.
  destruct (m w) as [[a|e|p] w1]; simpl in *; [|done|done].
  etransitivity; [exact Hm|apply Hf].
Qed.

#[export] Instance steps_attempt A (m : M A) : Steps R m → Steps R (attempt m).
Proof. intros Hm w. specialize (Hm w). unfold attempt. by destruct (m w) as [[]]. Qed.

#[export] Instance steps_ignore A (m : M A) : Steps R m → Steps R (ignore m).
Proof. intros Hm. unfold ignore. apply _. Qed.

#[export] Instance steps_wrap_err A g (m : M A) : Steps R m → Steps R (wrap_err g m).
Proof. intros Hm w. specialize (Hm w). unfold wrap_err. by destruct (m w) as [[]]. Qed.

#[export] Instance steps_from_opt A e (o : option A) : Steps R (from_opt e o).
Proof. destruct o; apply _. Qed.

#[export] Instance steps_guard_err b e : Steps R (guard_err b e).
Proof. destruct b; apply _. Qed.

#[export] Instance steps_foreach A (l : list A) body :
  (∀ x, Steps R (body x)) → Steps R (foreach l body).
Proof. intros Hb. induction l as [|x l IH]; simpl; apply _. Qed.

#[export] Instance steps_foldM A S body (s : S) (l : list A) :
  (∀ s x, Steps R (body s x)) → Steps R (foldM body s l).
Proof. intros Hb. revert s. induction l as [|x l IH]; intros s; simpl; apply _. Qed.

#[export] Instance steps_next_tick : TickOk R → Steps R next_tick.
Proof. intros Ht w. apply Ht. Qed.
#[export] Instance steps_Now : TickOk R → Steps R Now.
Proof. unfold Now. apply _. Qed.
#[export] Instance steps_uuid_New : TickOk R → Steps R uuid_New.
Proof. unfold uuid_New. apply _. Qed.

#[export] Instance steps_perform c : CallOk R → Steps R (perform c).
Proof. intros Hc w. unfold perform. destruct (env_respond _ _); apply Hc. Qed.

#[export] Instance steps_db_exec A (stmt : World → option (A * World)) :
  TickOk R → StmtOk R stmt → Steps R (db_exec stmt).
Proof.
  intros Ht Hs w. unfold db_exec. destruct (env_fault _); [apply Ht|].
  destruct (stmt _) as [[a w']|] eqn:Hst; [|apply Ht].
  etransitivity; [apply Ht|]. by eapply Hs.
Qed.

#[export] Instance steps_db_rows A (rows : World → list A) : TickOk R → Steps R (db_rows rows).
Proof. intros Ht w. unfold db_rows. destruct (env_fault _); apply Ht. Qed.

#[export] Instance steps_db_query A (rows : World → list A) : TickOk R → Steps R (db_query rows).
Proof. intros Ht w. unfold db_query, db_rows. destruct (env_fault _); apply Ht. Qed.

#[export] Instance steps_transaction_w A g (m : M A) :
  TickOk R → RollbackOk R → Steps R m → Steps R (transaction_w g m).
Proof.
  intros Ht Hr Hm w. unfold transaction_w. destruct (env_fault _); [apply Ht|].
  specialize (Hm (w <| w_tick ::= S |>)). destruct (m _) as [[a|e|p] w2]; simpl in *.
  - destruct (env_fault _); simpl.
    + etransitivity; [apply Ht|]. apply Hr. etransitivity; [exact Hm|apply Ht].
    + etransitivity; [apply Ht|]. etransitivity; [exact Hm|apply Ht].
  - etransitivity; [apply Ht|]. by apply Hr.
  - etransitivity; [apply Ht|]. by apply Hr.
Qed.

#[export] Instance steps_transaction A (m : M A) :
  TickOk R → RollbackOk R → Steps R m → Steps R (transaction m).
Proof. apply steps_transaction_w. Qed.

#[export] Instance steps_db_query_row A (rows : World → list A) :
  TickOk R → Steps R (db_query_row rows).
Proof.
  intros Ht. unfold db_query_row. apply steps_bind; [apply _|]. intros []; apply _.
Qed.

End steps.

(** The type of an answer is known up to computation. *)
#[export] Hint Extern 1 (Steps ?R (perform ?c)) => apply (steps_perform R c) : typeclass_instances.
#[export] Hint Extern 1 (Steps _ (match ?x with _ => _ end)) => destruct x : typeclass_instances.
#[export] Hint Extern 1 (Steps _ (let '(_, _) := ?x in _)) => destruct x : typeclass_instances.

(** *** The part [p] of the world does not change *)

Definition same {T} (p : World → T) : relation World := fun w w' => p w' = p w.

#[export] Instance same_preorder {T} (p : World → T) : PreOrder (same p).
Proof. split; unfold same; intros ?; [done|]. intros ??. by intros -> ->. Qed.
#[export] Instance same_tick {T} (p : World → T) : Indep p w_tick → TickOk (same p).
Proof. intros Hp w. apply Hp. Qed.
#[export] Instance same_call {T} (p : World → T) : Indep p w_calls → CallOk (same p).
Proof. intros Hp c w. apply Hp. Qed.

#[export] Instance same_rollback {T} (p : World → T) :
  Indep p w_tick → Indep p w_calls → RollbackOk (same p).
Proof. intros Ht Hc w w' _. unfold same, rollback_to. by rewrite (Hc _ _), (Ht _ _). Qed.

Notation Frame p m := (Steps (same p) m).

Lemma modifies_frame {T U} (p : World → T) (q : World → U) `{!Field q} f :
  Indep p q → Frame p (modifies q f).
Proof. intros Hp w. apply Hp. Qed.
#[export] Hint Extern 0 (Steps (same _) (modifies _ _)) =>
  (eapply modifies_frame; apply _) : typeclass_instances.
#[export] Instance spawn_frame {T} (p : World → T) t : Indep p w_tasks → Frame p (spawn t).
Proof. intros Hp w. apply Hp. Qed.

Lemma frame_run {A T} (p : World → T) (m : M A) `{!Frame p m} w r w' :
  m w = (r, w') → p w' = p w.
Proof. intros Hm. pose proof (steps (R := same p) (m := m) w) as Hs. by rewrite Hm in Hs. Qed.

(** *** The invariant [P] is preserved *)

Definition keeps (P : World → Prop) : relation World := fun w w' => P w → P w'.

#[export] Instance keeps_preorder P : PreOrder (keeps P).
Proof. split; unfold keeps; [intros ?; tauto|intros ???; tauto]. Qed.

Notation Preserves P m := (Steps (keeps P) m).

Lemma preserves_run {A} (P : World → Prop) (m : M A) `{!Preserves P m} w r w' :
  m w = (r, w') → P w → P w'.
Proof. intros Hm HP. pose proof (steps (R := keeps P) (m := m) w HP) as Hs. by rewrite Hm in Hs. Qed.

(** *** The history of calls grows *)

Definition grows : relation World := λ w w', ∃ l, w_calls w' = l ++ w_calls w.

#[export] Instance grows_preorder : PreOrder grows.
Proof.
  split; [intros w; by exists []|]. intros w1 w2 w3 [l1 H1] [l2 H2]. exists (l2 ++ l1).
  by rewrite H2, H1, <- (assoc_L (++)).
Qed.
#[export] Instance grows_tick : TickOk grows.
Proof. intros w. by exists []. Qed.
#[export] Instance grows_call : CallOk grows.
Proof. intros c w. by exists [c]. Qed.
#[export] Instance grows_rollback : RollbackOk grows.
Proof. intros w w' [l Hl]. by exists l. Qed.
Lemma frame_grows {A} (m : M A) : Frame w_calls m → Steps grows m.
Proof. intros Hm w. exists []. apply Hm. Qed.
#[export] Hint Extern 50 (Steps grows _) => (apply frame_grows; solve [apply _]) : typeclass_instances.

Lemma run_grows {A} (m : M A) w r w' : Steps grows m → m w = (r, w') → grows w w'.
Proof. intros Hs Hm. specialize (Hs w). by rewrite Hm in Hs. Qed.

Lemma grows_run {A} (m : M A) `{!Steps grows m} w r w' c :
  m w = (r, w') → c ∈ w_calls w → c ∈ w_calls w'.
Proof.
  intros Hm Hc. destruct (steps (R := grows) (m := m) w) as [l Hl]. rewrite Hm in Hl. cbn in Hl.
  rewrite Hl. apply elem_of_app. by right.
Qed.

(** A call of a history with its answer, made after the calls of [base]: the answer depends on
    the calls before it. *)
Definition answered `{Env} (base calls : list Call) (c : Call) (a : error + resp c) : Prop :=
  ∃ l1 l2, calls = l1 ++ c :: l2 ++ base ∧ env_respond (l2 ++ base) c = a.

Section answered.
Context `{Env}.

Lemma answered_now base calls c :
  (∃ l, calls = l ++ base) → answered base (c :: calls) c (env_respond calls c).
Proof. intros [l ->]. by exists [], l. Qed.

Lemma answered_app base l calls c a : answered base calls c a → answered base (l ++ calls) c a.
Proof. intros (l1 & l2 & -> & Ha). exists (l ++ l1), l2. by rewrite <- (assoc_L (++)). Qed.

Lemma answered_grows {A} (m : M A) `{!Steps grows m} base w r w' c a :
  m w = (r, w') → answered base (w_calls w) c a → answered base (w_calls w') c a.
Proof.
  intros Hm Ha. destruct (steps (R := grows) (m := m) w) as [l Hl]. rewrite Hm in Hl. cbn in Hl.
  rewrite Hl. by apply answered_app.
Qed.

Lemma answered_base l base calls c a : answered (l ++ base) calls c a → answered base calls c a.
Proof.
  intros (l1 & l2 & -> & Ha). exists l1, (l2 ++ l). rewrite <- (assoc_L (++)). by split.
Qed.

Lemma perform_Ok_answered c w a w' :
  perform c w = (Ok a, w') → answered (w_calls w) (w_calls w') c (inr a).
Proof.
  unfold perform. destruct (env_respond (w_calls w) c) as [e|a'] eqn:Ha; intros [= <- <-].
  rewrite <- Ha. apply answered_now. by exists [].
Qed.

Lemma perform_Err_answered c w e w' :
  perform c w = (Err e, w') → answered (w_calls w) (w_calls w') c (inl e).
Proof.
  unfold perform. destruct (env_respond (w_calls w) c) as [e'|a'] eqn:Ha; intros [= <- <-].
  rewrite <- Ha. apply answered_now. by exists [].
Qed.

(** What ran before the call. *)
Lemma answered_before {A} (m : M A) `{!Steps grows m} w r w' calls c a :
  m w = (r, w') → answered (w_calls w') calls c a → answered (w_calls w) calls c a.
Proof.
  intros Hm Ha. destruct (steps (R := grows) (m := m) w) as [l Hl]. rewrite Hm in Hl. cbn in Hl.
  rewrite Hl in Ha. by eapply answered_base.
Qed.

Lemma answered_in base calls c a : answered base calls c a → c ∈ calls.
Proof. intros (l1 & l2 & -> & _). apply elem_of_app. right. by left. Qed.

End answered.

(** *** Time passes *)

Definition later : relation World := λ w w', (w_tick w ≤ w_tick w')%nat.

#[export] Instance later_preorder : PreOrder later.
Proof. split; unfold later; [intros ?; lia|intros ???; lia]. Qed.
#[export] Instance later_tick : TickOk later.
Proof. intros w. unfold later. cbn. lia. Qed.
#[export] Instance later_call : CallOk later.
Proof. intros c w. unfold later. cbn. lia. Qed.
#[export] Instance later_rollback : RollbackOk later.
Proof. intros w w' Hl. exact Hl. Qed.
Lemma modifies_later {U} (q : World → U) `{!Field q} f :
  Indep w_tick q → Steps later (modifies q f).
Proof. intros Hq w. unfold later, modifies. cbn. by rewrite (Hq f w). Qed.
#[export] Hint Extern 0 (Steps later (modifies _ _)) =>
  (eapply modifies_later; apply _) : typeclass_instances.
#[export] Instance spawn_later t : Steps later (spawn t).
Proof. unfold spawn. apply _. Qed.
Lemma later_run {A} (m : M A) `{!Steps later m} w r w' : m w = (r, w') → (w_tick w ≤ w_tick w')%nat.
Proof. intros Hm. pose proof (steps (R := later) (m := m) w) as Hs. by rewrite Hm in Hs. Qed.

(** *** Nothing but the clock and the history of calls moves *)

Definition reads : relation World := λ w w', w' = rollback_to w w'.

#[export] Instance reads_preorder : PreOrder reads.
Proof. split; [by intros []|]. unfold reads, rollback_to. intros w1 w2 w3 -> ->. done. Qed.
#[export] Instance reads_tick : TickOk reads.
Proof. done. Qed.
#[export] Instance reads_call : CallOk reads.
Proof. done. Qed.
#[export] Instance reads_rollback : RollbackOk reads.
Proof. done. Qed.

(** The relations that such a move stays in. *)
Class ReadsOk (R : relation World) := reads_ok : ∀ w w', reads w w' → R w w'.
#[export] Instance reads_same {T} (p : World → T) : Indep p w_tick → Indep p w_calls → ReadsOk (same p).
Proof. intros Ht Hc w w' ->. unfold same, rollback_to. by rewrite (Hc _ _), (Ht _ _). Qed.

(** *** The part [p] of the world keeps satisfying [Q] *)

Definition holds {T} (p : World → T) (Q : T → Prop) : relation World := keeps (λ w, Q (p w)).

Section holds.
Context {T : Type} (p : World → T) (Q : T → Prop).

#[export] Instance holds_preorder : PreOrder (holds p Q).
Proof. apply keeps_preorder. Qed.
#[export] Instance holds_tick : Indep p w_tick → TickOk (holds p Q).
Proof. intros Hp w. unfold holds, keeps. by rewrite (Hp _ _). Qed.
#[export] Instance holds_call : Indep p w_calls → CallOk (holds p Q).
Proof. intros Hp c w. unfold holds, keeps. by rewrite (Hp _ _). Qed.
#[export] Instance holds_rollback :
  Indep p w_tick → Indep p w_calls → RollbackOk (holds p Q).
Proof. intros Ht Hc w w' _. unfold holds, keeps, rollback_to. by rewrite (Hc _ _), (Ht _ _). Qed.

#[export] Instance reads_holds : Indep p w_tick → Indep p w_calls → ReadsOk (holds p Q).
Proof. intros Ht Hc w w' ->. unfold holds, keeps, rollback_to. by rewrite (Hc _ _), (Ht _ _). Qed.

(** A program that does not touch what the invariant looks at preserves it. *)
Lemma frame_holds {A} (m : M A) : Frame p m → Steps (holds p Q) m.
Proof. intros Hm w. unfold holds, keeps. by rewrite (Hm w). Qed.

Lemma holds_run {A} (m : M A) `{!Steps (holds p Q) m} w r w' : m w = (r, w') → Q (p w) → Q (p w').
Proof. intros Hm HQ. pose proof (steps (R := holds p Q) (m := m) w HQ) as Hs. by rewrite Hm in Hs. Qed.

End holds.
#[export] Hint Extern 50 (Steps (holds _ _) _) => (apply frame_holds; solve [apply _]) : typeclass_instances.

(** ** Absence of panics *)

Definition is_panic {A} (r : res A) : bool := match r with Panic _ => true | _ => false end.
Class NoPanic {A} (m : M A) := no_panic : ∀ w, is_panic (m w).1 = false.
#[export] Hint Mode NoPanic - ! : typeclass_instances.

Section no_panic.
Context `{Env}.
Implicit Types A B S : Type.

#[export] Instance no_panic_ret A (a : A) : NoPanic (mret a : M A).
Proof. done. Qed.
#[export] Instance no_panic_gets T (p : World → T) : NoPanic (gets p).
Proof. done. Qed.
Lemma no_panic_modifies U (q : World → U) `{!Field q} f : NoPanic (modifies q f).
Proof. done. Qed.
#[export] Instance no_panic_spawn t : NoPanic (spawn t).
Proof. done. Qed.
#[export] Instance no_panic_fail A e : NoPanic (@fail A e).
Proof. done. Qed.
#[export] Instance no_panic_bind A B (m : M A) (f : A → M B) :
  NoPanic m → (∀ a, NoPanic (f a)) → NoPanic (m ≫= f).
Proof.
  intros Hm Hf w. specialize (Hm w). unfold mbind, M_bind.
  destruct (m w) as [[a|e|p] w1]; simpl in *; [apply Hf|done|done].
Qed.
#[export] Instance no_panic_attempt A (m : M A) : NoPanic m → NoPanic (attempt m).
Proof. intros Hm w. specialize (Hm w). unfold attempt. by destruct (m w) as [[]]. Qed.
#[export] Instance no_panic_ignore A (m : M A) : NoPanic m → NoPanic (ignore m).
Proof. intros Hm. unfold ignore. apply _. Qed.
#[export] Instance no_panic_wrap_err A g (m : M A) : NoPanic m → NoPanic (wrap_err g m).
Proof. intros Hm w. specialize (Hm w). unfold wrap_err. by destruct (m w) as [[]]. Qed.
#[export] Instance no_panic_from_opt A e (o : option A) : NoPanic (from_opt e o).
Proof. destruct o; apply _. Qed.
#[export] Instance no_panic_guard_err b e : NoPanic (guard_err b e).
Proof. destruct b; apply _. Qed.
#[export] Instance no_panic_foreach A (l : list A) body :
  (∀ x, NoPanic (body x)) → NoPanic (foreach l body).
Proof. intros Hb. induction l as [|x l IH]; simpl; apply _. Qed.
#[export] Instance no_panic_foldM A S body (s : S) (l : list A) :
  (∀ s x, NoPanic (body s x)) → NoPanic (foldM body s l).
Proof. intros Hb. revert s. induction l as [|x l IH]; intros s; simpl; apply _. Qed.
#[export] Instance no_panic_next_tick : NoPanic next_tick.
Proof. done. Qed.
#[export] Instance no_panic_Now : NoPanic Now.
Proof. done. Qed.
#[export] Instance no_panic_uuid_New : NoPanic uuid_New.
Proof. done. Qed.
#[export] Instance no_panic_perform c : NoPanic (perform c).
Proof. intros w. unfold perform. by destruct (env_respond _ _). Qed.
#[export] Instance no_panic_db_exec A (stmt : World → option (A * World)) : NoPanic (db_exec stmt).
Proof. intros w. unfold db_exec. destruct (env_fault _); [done|]. by destruct (stmt _) as [[]|]. Qed.
#[export] Instance no_panic_db_rows A (rows : World → list A) : NoPanic (db_rows rows).
Proof. intros w. unfold db_rows. by destruct (env_fault _). Qed.
#[export] Instance no_panic_db_query A (rows : World → list A) : NoPanic (db_query rows).
Proof. intros w. unfold db_query, db_rows. by destruct (env_fault _). Qed.
#[export] Instance no_panic_db_query_row A (rows : World → list A) : NoPanic (db_query_row rows).
Proof. unfold db_query_row. apply no_panic_bind; [apply _|]. intros []; apply _. Qed.
#[export] Instance no_panic_transaction_w A g (m : M A) : NoPanic m → NoPanic (transaction_w g m).
Proof.
  intros Hm w. unfold transaction_w. destruct (env_fault _); [done|].
  pose proof (Hm (w <| w_tick ::= S |>)). destruct (m _) as [[]]; try done. by destruct (env_fault _).
Qed.
#[export] Instance no_panic_transaction A (m : M A) : NoPanic m → NoPanic (transaction m).
Proof. apply no_panic_transaction_w. Qed.
#[export] Instance no_panic_RecordEvent ctx a i t md : NoPanic (RecordEvent ctx a i t md).
Proof. unfold RecordEvent, event_Create. apply _. Qed.
#[export] Instance no_panic_Log u a i t md : NoPanic (Log u a i t md).
Proof. unfold Log, audit_Create. apply _. Qed.

Lemma ignore_ok {A} (m : M A) `{!NoPanic m} w : (ignore m w).1 = Ok tt.
Proof.
  pose proof (no_panic (m := m) w). unfold ignore, attempt, mbind, M_bind.
  by destruct (m w) as [[]].
Qed.

(** A sequence that goes on after a step whose error is dropped. *)
Lemma ignore_bind_inv {A B} (m : M A) `{!NoPanic m} (f : unit → M B) w r w2 :
  (ignore m ≫= f) w = (r, w2) → ∃ r1 w1, m w = (r1, w1) ∧ f () w1 = (r, w2).
Proof.
  pose proof (no_panic (m := m) w). unfold ignore, attempt, mbind, M_bind, mret, M_ret.
  destruct (m w) as [[]]; naive_solver.
Qed.

Lemma no_panic_run {A} (m : M A) `{!NoPanic m} w p w' : m w ≠ (Panic p, w').
Proof. intros Hm. pose proof (no_panic (m := m) w) as Hn. by rewrite Hm in Hn. Qed.

End no_panic.

#[export] Hint Extern 1 (NoPanic (perform ?c)) => apply (no_panic_perform c) : typeclass_instances.
#[export] Hint Extern 0 (NoPanic (modifies _ _)) => exact (no_panic_modifies _ _ _) : typeclass_instances.
#[export] Hint Extern 1 (NoPanic (match ?x with _ => _ end)) => destruct x : typeclass_instances.

(** ** Programs that always succeed *)

Class Total {A} (m : M A) := total : ∀ w, ∃ a, (m w).1 = Ok a.
#[export] Hint Mode Total - ! : typeclass_instances.

Section total.
Context `{Env}.
#[export] Instance total_ret A (a : A) : Total (mret a : M A).
Proof. intros w. by exists a. Qed.
#[export] Instance total_gets T (p : World → T) : Total (gets p).
Proof. intros w. by eexists. Qed.
Lemma total_modifies U (q : World → U) `{!Field q} f : Total (modifies q f).
Proof. intros w. by exists tt. Qed.
#[export] Instance total_spawn t : Total (spawn t).
Proof. intros w. by exists tt. Qed.
#[export] Instance total_bind A B (m : M A) (f : A → M B) :
  Total m → (∀ a, Total (f a)) → Total (m ≫= f).
Proof.
  intros Hm Hf w. destruct (Hm w) as [a Ha]. unfold mbind, M_bind.
  destruct (m w) as [r w1]; simpl in *; subst. apply Hf.
Qed.
#[export] Instance total_ignore A (m : M A) : NoPanic m → Total (ignore m).
Proof. intros Hm w. exists tt. by apply ignore_ok. Qed.
#[export] Instance total_attempt A (m : M A) : NoPanic m → Total (attempt m).
Proof.
  intros Hm w. pose proof (no_panic (m := m) w). unfold attempt.
  destruct (m w) as [[]]; [by eexists..|done].
Qed.
#[export] Instance total_foreach A (l : list A) body :
  (∀ x, Total (body x)) → Total (foreach l body).
Proof. intros Hb. induction l as [|x l IH]; simpl; apply _. Qed.
#[export] Instance total_Now : Total Now.
Proof. intros w. by eexists. Qed.
#[export] Instance total_uuid_New : Total uuid_New.
Proof. intros w. by eexists. Qed.

#[export] Instance total_no_panic A (m : M A) : Total m → NoPanic m | 60.
Proof. intros Hm w. destruct (Hm w) as [a Ha]. by rewrite Ha. Qed.

Lemma total_run {A} (m : M A) `{!Total m} w r w' : m w = (r, w') → ∃ a, r = Ok a.
Proof. intros Hm. destruct (total (m := m) w) as [a Ha]. rewrite Hm in Ha. by exists a. Qed.

Lemma total_bind_inv {A B} (m : M A) `{!Total m} (f : A → M B) w r w2 :
  (m ≫= f) w = (r, w2) → ∃ a w1, m w = (Ok a, w1) ∧ f a w1 = (r, w2).
Proof.
  destruct (total (m := m) w) as [a Ha]. unfold mbind, M_bind.
  destruct (m w) as [[]]; naive_solver.
Qed.
End total.

#[export] Hint Extern 0 (Total (modifies _ _)) => exact (total_modifies _ _ _) : typeclass_instances.
#[export] Hint Extern 1 (Total (match ?x with _ => _ end)) => destruct x : typeclass_instances.

(** A transaction commits what its body did, or undoes it. *)
Lemma transaction_w_inv `{Env} {A} g (m : M A) w r w' :
  transaction_w g m w = (r, w') →
  (∃ a w2, r = Ok a ∧ m (w <| w_tick ::= S |>) = (Ok a, w2) ∧ w' = w2 <| w_tick ::= S |>) ∨
  ((∀ a, r ≠ Ok a) ∧ ∃ n l, w' = w <| w_tick := n |> <| w_calls := l |>).
Proof.
  unfold transaction_w, rollback_to. destruct (env_fault (w_tick w)) as [e|].
  { intros [= <- <-]. right. split; [done|]. by exists (S (w_tick w)), (w_calls w). }
  destruct (m _) as [[a|e|p] w2] eqn:Hm; [destruct (env_fault (w_tick w2))|..]; intros [= <- <-];
    [right|left; by exists a, w2|right..]; (split; [done|]); cbn; by eexists _, _.
Qed.

(** ** Statements that write one table *)

(** [stmt] writes the field [q] only. *)
Class Writes {U} (q : World → U) `{!Field q} {A} (stmt : World → option (A * World)) :=
  writes : ∀ w a w', stmt w = Some (a, w') → w' = w ∨ ∃ f, w' = w <| q ::= f |>.

(** Reading back a field that was written. *)
Class FieldOk {U} (q : World → U) `{!Field q} :=
  field_get : ∀ f w, q (w <| q ::= f |>) = f (q w).
#[export] Hint Extern 0 (FieldOk _) => (intros ??; reflexivity) : typeclass_instances.

#[export] Instance writes_same {T U A} (p : World → T) (q : World → U) `{!Field q}
    (stmt : World → option (A * World)) :
  Indep p q → Writes q stmt → StmtOk (same p) stmt.
Proof. intros Hp Hw w a w' Hs. destruct (Hw w a w' Hs) as [->|[f ->]]; [done|apply Hp]. Qed.

#[export] Instance later_writes {U A} (q : World → U) `{!Field q}
    (stmt : World → option (A * World)) :
  Writes q stmt → Indep w_tick q → StmtOk later stmt.
Proof.
  intros Hw Hp w a w' Hs. unfold later. destruct (Hw w a w' Hs) as [->|[f ->]]; [done|].
  by rewrite (Hp f w).
Qed.

Section log.
Context `{Env}.

#[export] Instance event_Create_frame {T} (p : World → T) e :
  Indep p w_tick → Indep p t_events → Frame p (event_Create e).
Proof.
  intros. apply steps_db_exec; [apply _..|]. apply (writes_same p t_events); [apply _|].
  intros w a w' Hs. destruct (_ || _); simplify_eq. right. by eexists.
Qed.

#[export] Instance RecordEvent_frame {T} (p : World → T) ctx a i t md :
  Indep p w_tick → Indep p t_events → Frame p (RecordEvent ctx a i t md).
Proof. intros. unfold RecordEvent. apply _. Qed.

#[export] Instance audit_Create_frame {T} (p : World → T) l :
  Indep p w_tick → Indep p t_audit → Frame p (audit_Create l).
Proof.
  intros. apply steps_wrap_err, steps_db_exec; [apply _..|].
  apply (writes_same p t_audit); [apply _|].
  intros w b w' Hs. destruct (_ || _); simplify_eq. right. by eexists.
Qed.

#[export] Instance Log_frame {T} (p : World → T) u a i t md :
  Indep p w_tick → Indep p t_audit → Frame p (Log u a i t md).
Proof. intros. unfold Log. apply _. Qed.

Example log_frame_ex ctx u :
  Frame t_groups (ignore (RecordEvent ctx "" "" "" None) ;; ignore (Log u "" "" "" None)).
Proof. apply _. Qed.

End log.
