(* ===== verification/Sql.v ===== *)
(** * SQL statements over the tables of [World]

    A table is a finite map from its primary key.  The statements of
    [internal/repositories/postgres] are built from these pieces: the rows of a
    query, the row a primary key selects, foreign-key tests, ORDER BY. *)
From S2P Require Import Prelude GoStd Net Errors Domain DomainData World Logic.

(** All rows of a table that satisfy a condition. *)
Definition select {K A} `{Countable K} (P : A → bool) (t : gmap K A) : list A :=
  filter (λ r, P r = true) (map_to_list t).*2.

(** [WHERE id = $1 AND P] *)
Definition by_pk {K A} `{Countable K} (t : gmap K A) (k : K) (P : A → bool) : list A :=
  match t !! k with
  | Some r => if P r then [r] else []
  | None => []
  end.

(** No row of the table satisfies [P]. *)
Definition no_row {K A} `{Countable K} (P : A → bool) (t : gmap K A) : bool :=
  forallb (λ r, negb (P r)) (map_to_list t).*2.

(** A nullable foreign key refers to a row. *)
Definition fk_ok {K A} `{Countable K} (t : gmap K A) (k : option K) : bool :=
  match k with
  | None => true
  | Some k => bool_decide (is_Some (t !! k))
  end.

(** [ORDER BY f DESC] of rows that come in some order. *)
Definition desc {A} (f : A → Z) (a b : A) : Prop := f b ≤ f a.
#[export] Instance desc_dec {A} (f : A → Z) : RelDecision (desc f).
Proof. intros a b. unfold desc. apply _. Defined.
Definition order_desc {A} (f : A → Z) : list A → list A := merge_sort (desc f).

(** The range of the column type INT. *)
Definition int4 (z : Z) : bool := (- 2 ^ 31 <=? z) && (z <? 2 ^ 31).

Definition of_user {A} (user_id : A → uuid) (u : uuid) (r : A) : bool :=
  bool_decide (user_id r = u).

Section stmts.
Context {K A : Type} `{Countable K} (tbl : World → gmap K A) `{!Field tbl}.

(** [INSERT] of a row with a fresh key that satisfies the constraints [ok]. *)
Definition sql_insert (k : K) (row : A) (ok : World → bool) (w : World) : option (unit * World) :=
  match tbl w !! k with
  | Some _ => None
  | None => if ok w then Some (tt, w <| tbl ::= <[k := row]> |>) else None
  end.

(** [UPDATE ... WHERE key = k AND P]: [upd] gives the new row, or the violation of a
    constraint.  The result is the number of rows affected. *)
Definition sql_update (k : K) (P : A → bool) (upd : World → A → option A) (w : World)
    : option (nat * World) :=
  match tbl w !! k with
  | Some r =>
      if P r then
        r' ← upd w r;
        Some (1%nat, w <| tbl ::= <[k := r']> |>)
      else Some (0%nat, w)
  | None => Some (0%nat, w)
  end.

(** [DELETE ... WHERE key = k AND P], with the referential actions [cascade]; [ok] is
    the absence of references without an action. *)
Definition sql_delete (k : K) (P : A → bool) (ok : World → bool) (cascade : World → World)
    (w : World) : option (nat * World) :=
  match tbl w !! k with
  | Some r =>
      if P r then
        if ok w then Some (1%nat, cascade (w <| tbl ::= delete k |>)) else None
      else Some (0%nat, w)
  | None => Some (0%nat, w)
  end.

(** [UPDATE ... WHERE P] and [DELETE ... WHERE P] of any number of rows. *)
Definition sql_update_where (P : A → bool) (upd : A → A) (w : World) : option (nat * World) :=
  Some (size (filter (λ kv, P kv.2 = true) (tbl w)),
        w <| tbl ::= fmap (λ r, if P r then upd r else r) |>).

Definition sql_delete_where (P : A → bool) (w : World) : option (nat * World) :=
  Some (size (filter (λ kv, P kv.2 = true) (tbl w)),
        w <| tbl ::= filter (λ kv, P kv.2 = false) |>).

Lemma sql_update_where_writes P upd : Writes tbl (sql_update_where P upd).
Proof. intros w a w' [= <- <-]. right. by eexists. Qed.

Lemma sql_delete_where_writes P : Writes tbl (sql_delete_where P).
Proof. intros w a w' [= <- <-]. right. by eexists. Qed.

Lemma sql_insert_writes k row ok : Writes tbl (sql_insert k row ok).
Proof.
  intros w a w' Hs. unfold sql_insert in Hs. repeat case_match; simplify_eq. right. by eexists.
Qed.

Lemma sql_update_writes k P upd : Writes tbl (sql_update k P upd).
Proof.
  intros w a w' Hs. unfold sql_update in Hs. repeat case_match; simplify_eq; [|by left..].
  apply bind_Some in Hs as (r' & _ & ?). simplify_eq. right. by eexists.
Qed.

(** A deletion without referential actions. *)
Lemma sql_delete_writes k P ok : Writes tbl (sql_delete k P ok (λ w, w)).
Proof.
  intros w a w' Hs. unfold sql_delete in Hs. repeat case_match; simplify_eq; [|by left..].
  right. by eexists.
Qed.

(** A deletion changes its table and what its referential actions change. *)
Lemma sql_delete_same {T} (p : World → T) k P ok cascade :
  Indep p tbl → (∀ w, p (cascade w) = p w) → StmtOk (same p) (sql_delete k P ok cascade).
Proof.
  intros Hp Hc w a w' Hs. unfold sql_delete in Hs. unfold same.
  repeat case_match; simplify_eq; [|done..]. by rewrite Hc, (indep (p := p) (q := tbl)).
Qed.

End stmts.

#[export] Hint Extern 0 (Writes _ (sql_insert _ _ _ _)) =>
  apply sql_insert_writes : typeclass_instances.
#[export] Hint Extern 0 (Writes _ (sql_update _ _ _ _)) =>
  apply sql_update_writes : typeclass_instances.

#[export] Hint Extern 0 (Writes _ (sql_delete _ _ _ _ (λ w, w))) =>
  apply sql_delete_writes : typeclass_instances.

#[export] Hint Extern 0 (Writes _ (sql_update_where _ _ _)) =>
  apply sql_update_where_writes : typeclass_instances.
#[export] Hint Extern 0 (Writes _ (sql_delete_where _ _)) =>
  apply sql_delete_where_writes : typeclass_instances.

(** ** Running statements without faults *)

Section run.
Context `{Env}.

Lemma db_exec_run {A} (stmt : World → option (A * World)) w :
  env_fault (w_tick w) = None →
  db_exec stmt w = match stmt (w <| w_tick ::= S |>) with
                   | Some (a, w') => (Ok a, w')
                   | None => (Err constraint_violation, w <| w_tick ::= S |>)
                   end.
Proof. intros Hf. unfold db_exec. by rewrite Hf. Qed.

Lemma db_rows_run {A} (rows : World → list A) w :
  env_fault (w_tick w) = None →
  db_rows rows w =
    (Ok (env_order (w_tick w) A (rows (w <| w_tick ::= S |>))), w <| w_tick ::= S |>).
Proof. intros Hf. unfold db_rows. by rewrite Hf. Qed.

Lemma db_query_run `{!NoFaults} {A} (rows : World → list A) w :
  db_query rows w =
    (Ok (env_order (w_tick w) A (rows (w <| w_tick ::= S |>))), w <| w_tick ::= S |>).
Proof. unfold db_query, db_rows. by rewrite no_faults, no_cuts. Qed.

(** The successful runs of a statement. *)
Lemma db_exec_Ok {A} (stmt : World → option (A * World)) w a w' :
  db_exec stmt w = (Ok a, w') → stmt (w <| w_tick ::= S |>) = Some (a, w').
Proof. unfold db_exec. repeat case_match; naive_solver. Qed.

Lemma db_rows_Ok {A} (rows : World → list A) w l w' :
  db_rows rows w = (Ok l, w') →
  w' = w <| w_tick ::= S |> ∧ l = env_order (w_tick w) A (rows w').
Proof. unfold db_rows. repeat case_match; naive_solver. Qed.

Lemma db_query_Ok {A} (rows : World → list A) w l w' :
  db_query rows w = (Ok l, w') →
  w' = w <| w_tick ::= S |> ∧ l = cut (env_cut (w_tick w)) (env_order (w_tick w) A (rows w')).
Proof.
  unfold db_query. destruct (db_rows rows w) as [[l0|e|p] w1] eqn:Hr; [|done|done].
  apply db_rows_Ok in Hr as [-> ->]. by intros [= <- <-].
Qed.

Lemma cut_sublist {A} n (l : list A) : cut n l `sublist_of` l.
Proof. destruct n; [apply sublist_take|done]. Qed.

Lemma elem_of_cut {A} n (l : list A) x : x ∈ cut n l → x ∈ l.
Proof. intros Hx. eapply elem_of_sublist; [exact Hx|apply cut_sublist]. Qed.

(** A failed statement leaves every table as it was. *)
Lemma db_exec_Err {A} (stmt : World → option (A * World)) w e w' :
  db_exec stmt w = (Err e, w') → w' = w <| w_tick ::= S |>.
Proof. unfold db_exec. repeat case_match; naive_solver. Qed.

Context `{!OrderLaws}.

Lemma env_order_elem t A (l : list A) x : x ∈ env_order t A l ↔ x ∈ l.
Proof. by rewrite (env_order_perm t A l). Qed.

Lemma env_order_singleton t A (x : A) : env_order t A [x] = [x].
Proof. apply Permutation_singleton_r, env_order_perm. Qed.

Lemma env_order_nil t A : env_order t A (@nil A) = [].
Proof. apply Permutation_nil_r, env_order_perm. Qed.

(** What a query returns of the rows [L]: all of them in some order, or, when statements can
    fail, some of them. *)
Definition read_rows {A} (l L : list A) : Prop := l ⊆+ L ∧ (NoFaults → l ≡ₚ L).

#[export] Instance read_rows_proper A : Proper ((≡ₚ) ==> (≡ₚ) ==> iff) (@read_rows A).
Proof. intros l l' Hl L L' HL. unfold read_rows. by rewrite Hl, HL. Qed.

Lemma db_query_read {A} (rows : World → list A) w l w' :
  db_query rows w = (Ok l, w') → w' = w <| w_tick ::= S |> ∧ read_rows l (rows w').
Proof.
  intros [-> ->]%db_query_Ok. split; [done|].
  rewrite <- (env_order_perm (w_tick w) A (rows (w <| w_tick ::= S |>))) at 2.
  split; [apply sublist_submseteq, cut_sublist|]. intros Hnf. by rewrite no_cuts.
Qed.

Lemma read_rows_elem {A} (l L : list A) x : read_rows l L → x ∈ l → x ∈ L.
Proof. intros [Hl _] Hx. by eapply elem_of_submseteq. Qed.

(** A primary-key lookup returns the row or [ErrNoRows]. *)
Lemma db_query_row_pk {K A} `{Countable K} (tbl : World → gmap K A) `{!Indep tbl w_tick} k P w :
  env_fault (w_tick w) = None →
  db_query_row (λ w, by_pk (tbl w) k P) w =
    (match tbl w !! k with
     | Some r => if P r then Ok r else Err ErrNoRows
     | None => Err ErrNoRows
     end, w <| w_tick ::= S |>).
Proof.
  intros Hf. unfold db_query_row. erewrite bind_Ok_run by by apply db_rows_run.
  unfold by_pk. rewrite (indep (p := tbl) (q := w_tick)). destruct (tbl w !! k) as [r|]; [destruct (P r)|];
    by rewrite ?env_order_singleton, ?env_order_nil.
Qed.

Lemma db_query_row_pk_Ok {K A} `{Countable K} (tbl : World → gmap K A) `{!Indep tbl w_tick} k P w r w' :
  db_query_row (λ w, by_pk (tbl w) k P) w = (Ok r, w') →
  w' = w <| w_tick ::= S |> ∧ tbl w !! k = Some r ∧ P r = true.
Proof.
  intros Hq. unfold db_query_row in Hq. monad_inv Hq.
  apply db_rows_Ok in Hq0 as [-> ->]. unfold by_pk in Hq. rewrite (indep (p := tbl) (q := w_tick)) in Hq.
  destruct (tbl w !! k) as [r'|] eqn:Hl; [destruct (P r') eqn:HP|];
    rewrite ?env_order_singleton, ?env_order_nil in Hq;
    unfold mret, M_ret, fail in Hq; by simplify_eq.
Qed.

End run.

(** The rows of a table carry their key. *)
Definition keyed {A} (key : A → uuid) (t : gmap uuid A) : Prop :=
  ∀ k r, t !! k = Some r → key r = k.

Lemma keyed_insert {A} (key : A → uuid) t r : keyed key t → keyed key (<[key r := r]> t).
Proof. intros Ht k r' [[<- <-]|[_ Hk]]%lookup_insert_Some; [done|by apply Ht]. Qed.

Lemma elem_of_select {K A} `{Countable K} (P : A → bool) (t : gmap K A) r :
  r ∈ select P t ↔ P r = true ∧ ∃ k, t !! k = Some r.
Proof.
  unfold select. rewrite list_elem_of_filter, list_elem_of_fmap. split.
  - intros [HP ([k x] & -> & Hx)]. split; [done|]. exists k. by apply elem_of_map_to_list.
  - intros [HP [k Hk]]. split; [done|]. exists (k, r). split; [done|].
    by apply elem_of_map_to_list.
Qed.

Lemma elem_of_order_desc {A} (f : A → Z) l x : x ∈ order_desc f l ↔ x ∈ l.
Proof. unfold order_desc. by rewrite (merge_sort_Permutation _ l). Qed.

Lemma no_row_true {K A} `{Countable K} (P : A → bool) (t : gmap K A) :
  no_row P t = true ↔ ∀ k r, t !! k = Some r → P r = false.
Proof.
  unfold no_row. rewrite forallb_forall. split.
  - intros Hall k r Hk. apply negb_true_iff, Hall, list_elem_of_In, list_elem_of_fmap.
    exists (k, r). split; [done|]. by apply elem_of_map_to_list.
  - intros Hall r Hr. apply negb_true_iff. apply list_elem_of_In, list_elem_of_fmap in Hr
      as ([k x] & -> & Hx). eapply Hall. by apply elem_of_map_to_list.
Qed.

Lemma no_row_false {K A} `{Countable K} (P : A → bool) (t : gmap K A) k r :
  t !! k = Some r → P r = true → no_row P t = false.
Proof.
  intros Hk HP. apply not_true_iff_false. rewrite no_row_true. intros Hall.
  specialize (Hall k r Hk). congruence.
Qed.

(** The rows of a query have distinct keys. *)
Lemma select_NoDup {A} (key : A → uuid) (P : A → bool) (t : gmap uuid A) :
  keyed key t → NoDup (key <$> select P t).
Proof.
  intros Hkey. unfold select.
  assert (∀ l : list (uuid * A), NoDup l.*1 → (∀ k r, (k, r) ∈ l → key r = k) →
    NoDup (key <$> filter (λ r, P r = true) l.*2)) as Haux.
  { induction l as [|[k r] l IH]; intros Hnd Hl; [constructor|].
    apply NoDup_cons in Hnd as [Hk Hnd]. rewrite (fmap_cons snd). cbn [snd].
    assert (∀ k r, (k, r) ∈ l → key r = k) as Hl' by (intros; apply Hl; by right).
    specialize (IH Hnd Hl'). rewrite filter_cons. case_decide; [|done].
    rewrite fmap_cons. constructor; [|done]. rewrite list_elem_of_fmap. intros (r' & Heq & Hr').
    apply list_elem_of_filter in Hr' as [_ ([k' r''] & -> & Hin)%list_elem_of_fmap].
    cbn in Heq. rewrite (Hl _ _ (list_elem_of_here _ _)), (Hl' _ _ Hin) in Heq. subst.
    apply Hk, list_elem_of_fmap. by exists (k', r''). }
  apply Haux; [apply NoDup_fst_map_to_list|].
  intros k r Hkr%elem_of_map_to_list. by apply Hkey.
Qed.

Lemma elem_of_select_key {A} (key : A → uuid) (P : A → bool) (t : gmap uuid A) r :
  keyed key t → r ∈ select P t ↔ P r = true ∧ t !! key r = Some r.
Proof.
  intros Hkey. rewrite elem_of_select. split; [|naive_solver].
  intros [HP [k Hk]]. by rewrite (Hkey _ _ Hk).
Qed.

(** The row a query selects, when its condition holds of one row only. *)
Lemma db_query_row_unique `{Env, !OrderLaws} {A} (tbl : World → gmap uuid A) `{!Indep tbl w_tick}
    (P : A → bool) k r w :
  env_fault (w_tick w) = None → tbl w !! k = Some r → P r = true →
  (∀ k' r', tbl w !! k' = Some r' → P r' = true → r' = r) →
  db_query_row (λ w, select P (tbl w)) w = (Ok r, w <| w_tick ::= S |>).
Proof.
  intros Hf Hk HP Huniq. unfold db_query_row.
  rewrite (bind_Ok_run _ _ _ _ _ (db_rows_run _ w Hf)). rewrite (indep (p := tbl) (q := w_tick)).
  assert (∀ x, x ∈ env_order (w_tick w) A (select P (tbl w)) → x = r) as Hall.
  { intros x (HPx & k' & Hk')%env_order_elem%elem_of_select. by eapply Huniq. }
  assert (r ∈ env_order (w_tick w) A (select P (tbl w))) as Hin
    by (apply env_order_elem, elem_of_select; eauto).
  destruct (env_order _ _ _) as [|x l]; [by apply elem_of_nil in Hin|].
  by rewrite (Hall x) by left.
Qed.

(** A query for one row, without and with rows to choose from. *)
Lemma db_query_row_none `{Env, !OrderLaws} {A} (tbl : World → gmap uuid A) `{!Indep tbl w_tick}
    (P : A → bool) w :
  env_fault (w_tick w) = None → (∀ k r, tbl w !! k = Some r → P r = false) →
  db_query_row (λ w, select P (tbl w)) w = (Err ErrNoRows, w <| w_tick ::= S |>).
Proof.
  intros Hf Hnone. unfold db_query_row.
  rewrite (bind_Ok_run _ _ _ _ _ (db_rows_run _ w Hf)). rewrite (indep (p := tbl) (q := w_tick)).
  destruct (env_order _ _ _) as [|x l] eqn:Hl; [done|].
  assert (x ∈ env_order (w_tick w) A (select P (tbl w))) as Hx by (rewrite Hl; left).
  apply env_order_elem, elem_of_select in Hx as [HP [k Hk]]. rewrite (Hnone k x Hk) in HP. done.
Qed.

Lemma db_query_row_some `{Env, !OrderLaws} {A} (tbl : World → gmap uuid A) `{!Indep tbl w_tick}
    (P : A → bool) k r w :
  env_fault (w_tick w) = None → tbl w !! k = Some r → P r = true →
  ∃ k' r', tbl w !! k' = Some r' ∧ P r' = true ∧
    db_query_row (λ w, select P (tbl w)) w = (Ok r', w <| w_tick ::= S |>).
Proof.
  intros Hf Hk HP. unfold db_query_row.
  rewrite (bind_Ok_run _ _ _ _ _ (db_rows_run _ w Hf)). rewrite (indep (p := tbl) (q := w_tick)).
  assert (r ∈ env_order (w_tick w) A (select P (tbl w))) as Hr
    by (apply env_order_elem, elem_of_select; eauto).
  destruct (env_order _ _ _) as [|x l] eqn:Hl; [by apply elem_of_nil in Hr|].
  assert (x ∈ env_order (w_tick w) A (select P (tbl w))) as Hx by (rewrite Hl; left).
  apply env_order_elem, elem_of_select in Hx as [HPx [k' Hk']]. by exists k', x.
Qed.

(** What a successful query for one row returns. *)
Lemma db_query_row_Ok `{Env, !OrderLaws} {A} (tbl : World → gmap uuid A) `{!Indep tbl w_tick}
    (P : A → bool) w r w' :
  db_query_row (λ w, select P (tbl w)) w = (Ok r, w') →
  w' = w <| w_tick ::= S |> ∧ P r = true ∧ ∃ k, tbl w !! k = Some r.
Proof.
  unfold db_query_row. intros Hrun. ok_step Hrun l w1. apply db_rows_Ok in Hrun0 as [-> Hl].
  destruct l as [|x l]; [done|]. unfold mret, M_ret in Hrun. injection Hrun as -> <-.
  assert (r ∈ r :: l) as Hin by left. rewrite Hl in Hin.
  apply env_order_elem, elem_of_select in Hin as [HP [k Hk]].
  rewrite (indep (p := tbl) (q := w_tick)) in Hk. eauto.
Qed.

(** A statement that fails changes no table. *)
Lemma db_exec_outcome `{Env} {A} (stmt : World → option (A * World)) w r w' :
  db_exec stmt w = (r, w') →
  (∃ a, r = Ok a ∧ stmt (w <| w_tick ::= S |>) = Some (a, w')) ∨
  (∃ e, r = Err e ∧ w' = w <| w_tick ::= S |>).
Proof. unfold db_exec. repeat case_match; naive_solver. Qed.

(** *** Keys are kept *)

Section keyed.
Context {A : Type} (tbl : World → gmap uuid A) `{!Field tbl, !FieldOk tbl} (key : A → uuid).

Lemma sql_insert_keyed k row ok :
  key row = k → StmtOk (holds tbl (keyed key)) (sql_insert tbl k row ok).
Proof.
  intros Hk w a w' Hs. unfold holds, keeps. unfold sql_insert in Hs.
  repeat case_match; simplify_eq. rewrite field_get. apply keyed_insert.
Qed.

Lemma sql_update_keyed k P upd :
  (∀ w r r', upd w r = Some r' → key r' = key r) →
  StmtOk (holds tbl (keyed key)) (sql_update tbl k P upd).
Proof.
  intros Hupd w a w' Hs. unfold holds, keeps. unfold sql_update in Hs.
  destruct (tbl w !! k) as [r|] eqn:Hr; [|by simplify_eq]. destruct (P r); [|by simplify_eq].
  apply bind_Some in Hs as (r' & Hu & Hw). injection Hw as _ <-. intros Hkey. rewrite field_get.
  pose proof (Hkey _ _ Hr) as Hkr. rewrite <- Hkr, <- (Hupd _ _ _ Hu). by apply keyed_insert.
Qed.

End keyed.
