(* ===== verification/Concrete.v ===== *)
(** * A concrete environment

    An instance of [Env] whose operations compute, to run the program on concrete
    inputs: the witnesses of the theorems are evaluated in it.  The clock moves a
    second per step, identifiers are numbered from one, rows come in the order of
    the map, and failures and answers of backends are parameters. *)
From S2P Require Import Prelude GoStd Net Errors Domain DomainData World Logic Sql.

(** ** Identifiers as strings of binary digits *)

Fixpoint pos_bits (p : positive) : string :=
  match p with
  | xH => "1"
  | xO p' => "0" +:+ pos_bits p'
  | xI p' => "1" +:+ pos_bits p'
  end.

Fixpoint bits_pos (s : string) : option positive :=
  match s with
  | EmptyString => None
  | String a EmptyString => if bool_decide (a = "1"%char) then Some xH else None
  | String a s' =>
      p ← bits_pos s';
      if bool_decide (a = "1"%char) then Some (xI p)
      else if bool_decide (a = "0"%char) then Some (xO p) else None
  end.

Lemma pos_bits_nonempty p : pos_bits p ≠ "".
Proof. by destruct p. Qed.

Lemma bits_pos_bits p : bits_pos (pos_bits p) = Some p.
Proof.
  induction p as [p IH|p IH|]; [..|done]; cbn;
    pose proof (pos_bits_nonempty p); destruct (pos_bits p); try done; cbn in *; by rewrite IH.
Qed.

(** The last digit is that of the successor, which is positive, after a prefix as long
    as the part the names of containers use. *)
Definition demo_uuid_string (u : uuid) : string := "uuid-" +:+ pos_bits (N.succ_pos u).

Definition demo_uuid_parse (s : string) : option uuid :=
  if bool_decide (str_prefix 5 s = "uuid-") then
    p ← bits_pos (String.substring 5 (String.length s - 5) s); Some (Pos.pred_N p)
  else None.

Lemma substring_all s : String.substring 0 (String.length s) s = s.
Proof. induction s; cbn; congruence. Qed.

Lemma demo_parse_string u : demo_uuid_parse (demo_uuid_string u) = Some u.
Proof.
  unfold demo_uuid_parse, demo_uuid_string, str_prefix. cbn [String.append String.substring].
  rewrite bool_decide_true by (by destruct (pos_bits _)).
  cbn [String.length Nat.sub]. rewrite Nat.sub_0_r, substring_all, bits_pos_bits. cbn.
  by rewrite N.pos_pred_succ.
Qed.

(** ** The environment *)

(** Every backend answers: a container gets the name ["c-"] followed by its own. *)
Definition demo_answer (c : Call) : resp c :=
  match c return resp c with
  | CreateInstance name _ _ _ _ _ _ => "c-" +:+ name
  | ReadLogs _ => "log"
  | GetInstanceStats _ => "{}"
  | DeployProxy _ _ => "proxy"
  | AverageCPU _ _ => float_of_int 50
  | GetInstancePort _ _ => 32768
  | Exec _ _ => ("OK", None)
  | RunTask _ => "task"
  | WaitTask _ _ => (0, None)
  | HTTPDo _ _ _ => (200, "200 OK")
  | MkdirTemp pattern => "/tmp/" +:+ pattern
  | StopInstance _ | DeleteInstance _ | GetInstanceLogs _ | CreateVolume _ | DeleteVolume _
  | CreateBridge _ _ | DeleteBridge _ | AddFlowRule _ _ | CreateVethPair _ _
  | Ping | PingNetwork | AttachVethToBridge _ _ | SetVethIP _ _ _ | IPLinkSetUp _ | RemoveProxy _
  | UpdateProxyConfig _ _ | DialTCP _ | CreateVolumeSnapshot _ _ | RestoreVolumeSnapshot _ _
  | MkdirAll _ | CreateFile _ | OpenFile _ | RemoveFile _ | RemoveAll _ => tt
  end.

Definition demo_env (network : bool) (fault : nat → option error) (refuse : Call → bool) : Env := {|
  env_ipv6 := {| parse_ipv6 _ := None; ipv6_string _ := "" |};
  uuid_string := demo_uuid_string;
  uuid_parse := demo_uuid_parse;
  env_now t := Z.of_nat t * 1000000000;
  env_uuid t := N.of_nat (S t);
  env_db_now t := Z.of_nat t * 1000000000;
  env_locked _ _ := false;
  env_fault := fault;
  env_cut _ := None;
  env_order _ _ l := l;
  inet_text s := Some (s +:+ "/32");
  cidr_text s := Some s;
  decimal_5_2 x := Some x;
  has_network := network;
  env_respond _ c := if refuse c then inl (ExternalError "refused") else inr (demo_answer c);
|}.

(** Nothing fails. *)
Definition demo : Env := demo_env true (λ _, None) (λ _, false).

Section laws.
Context (network : bool) (fault : nat → option error) (refuse : Call → bool).

#[export] Instance demo_uuid_laws : @UUIDLaws (demo_env network fault refuse).
Proof. constructor; [intros u; apply demo_parse_string|done]. Qed.

#[export] Instance demo_fresh : @FreshUUIDs (demo_env network fault refuse).
Proof.
  constructor; cbn [env_uuid demo_env].
  - intros i j Hij. lia.
  - intros i. unfold uuid_Nil. lia.
Qed.

#[export] Instance demo_order : @OrderLaws (demo_env network fault refuse).
Proof. constructor. intros t A l. done. Qed.

End laws.

#[export] Instance demo_no_faults network refuse : @NoFaults (demo_env network (λ _, None) refuse).
Proof. by constructor. Qed.

(** ** A small world *)

Definition alice : uuid := 11%N.
Definition bob : uuid := 12%N.
Definition alice_ctx : Context := WithUserID None alice.
Definition bob_ctx : Context := WithUserID None bob.

Definition user_named (id : uuid) (email role : string) : User := MkUser id email "" email role 0 0.

Definition demo_vpc : VPC := MkVPC 1 alice "net" "10.0.0.0/16" "br-vpc-1" 100 "active" "" 0.
Definition demo_subnet : Subnet :=
  MkSubnet 2 alice 1 "front" "10.0.1.0/24" "az" "10.0.1.1/32" "" "available" 0.
Definition demo_volume : Volume := MkVolume 3 alice "disk" 10 VolumeStatusAvailable None "" 0 0.

(** The users, one network and one volume of [alice]. *)
Definition demo_world : World :=
  empty_world <| w_tick := 100%nat |>
    <| t_users := {[alice := user_named alice "alice" "developer"; bob := user_named bob "bob" "viewer"]} |>
    <| t_vpcs := {[1%N := demo_vpc]} |> <| t_subnets := {[2%N := demo_subnet]} |>
    <| t_volumes := {[3%N := demo_volume]} |>.

(** ** Checks that evaluate *)

Definition is_ok {A} (rw : res A * World) : bool := match rw.1 with Ok _ => true | _ => false end.
Definition is_err {A} (rw : res A * World) : bool := match rw.1 with Err _ => true | _ => false end.

Lemma is_ok_run {A} (rw : res A * World) : is_ok rw = true → ∃ a w', rw = (Ok a, w').
Proof. destruct rw as [[]]; cbn; naive_solver. Qed.

Lemma is_err_run {A} (rw : res A * World) : is_err rw = true → ∃ e w', rw = (Err e, w').
Proof. destruct rw as [[]]; cbn; naive_solver. Qed.

Lemma keyed_check {A} (key : A → uuid) (t : gmap uuid A) :
  bool_decide (map_Forall (λ k r, key r = k) t) = true → keyed key t.
Proof. intros Hall%bool_decide_eq_true k r Hk. exact (Hall k r Hk). Qed.

(** A test of all rows of a concrete table. *)
Lemma rows_check {A} (f : uuid → A → bool) (t : gmap uuid A) :
  forallb (λ kr, f kr.1 kr.2) (map_to_list t) = true → ∀ k r, t !! k = Some r → f k r = true.
Proof.
  rewrite forallb_forall. intros Hall k r Hk. apply (Hall (k, r)), list_elem_of_In.
  by apply elem_of_map_to_list.
Qed.

(** Two rows with equal values of [f] have equal keys. *)
Lemma unique_check {A B} `{EqDecision B} (f : A → B) (P : A → Prop) `{!∀ r, Decision (P r)}
    (t : gmap uuid A) :
  bool_decide (map_Forall (λ k1 r1, map_Forall (λ k2 r2, f r1 = f r2 → P r1 → k1 = k2) t) t) = true →
  ∀ k1 k2 r1 r2, t !! k1 = Some r1 → t !! k2 = Some r2 → f r1 = f r2 → P r1 → k1 = k2.
Proof. intros Hall%bool_decide_eq_true k1 k2 r1 r2 Hk1 Hk2. exact (Hall k1 r1 Hk1 k2 r2 Hk2). Qed.

(** The state after an operation. *)
Definition after {A} (m : M A) (w : World) : World := (m w).2.

Lemma after_run {A} (m : M A) w r w' : m w = (r, w') → after m w = w'.
Proof. unfold after. by intros ->. Qed.

(** Runs a closed computation that succeeds. *)
Ltac run_ok x w H :=
  match goal with
  | |- context [?rw = (Ok _, _)] => destruct (is_ok_run rw) as (x & w & H); [vm_compute; reflexivity|]
  end.
