(* ===== verification/InstanceRepo.v ===== *)
(** * [repositories/postgres/instance_repo.go] and [volume_repo.go]

    The statements on [instances] and [volumes], with the constraints of the
    migrations and the referential actions of a deletion. *)
From S2P Require Import Prelude GoStd Net Errors Domain DomainData World Logic Sql.

Section instance_repo.
Context `{Env}.

(** [NULLIF($1, '')::inet], as [COALESCE(private_ip::text, '')] reads it back. *)
Definition to_inet (s : string) : option string :=
  if bool_decide (s = "") then Some "" else inet_text s.

Definition instance_fks (inst : Instance) (w : World) : bool :=
  fk_ok (t_vpcs w) (inst_VpcID inst) && fk_ok (t_subnets w) (inst_SubnetID inst).

(** [err == pgx.ErrNoRows] gives [nf], any other error is wrapped. *)
Definition norows (nf : error) (msg : string) (e : error) : error :=
  match e with
  | ErrNoRows => nf
  | _ => Wrap Internal msg e
  end.

Definition instance_insert (inst : Instance) (w : World) : option (unit * World) :=
  ip ← to_inet (inst_PrivateIP inst);
  sql_insert t_instances (inst_ID inst) (inst <| inst_PrivateIP := ip |>)
    (λ w, instance_fks inst w && user_fk (inst_UserID inst) w) w.

Definition instance_Create (inst : Instance) : M unit :=
  wrap_err (Wrap Internal "failed to create instance") (db_exec (instance_insert inst)).

Definition instance_GetByID (ctx : Context) (id : uuid) : M Instance :=
  wrap_err (norows (New NotFound ("instance " +:+ uuid_string id +:+ " not found"))
                   "failed to get instance")
    (db_query_row (λ w,
       by_pk (t_instances w) id (of_user inst_UserID (UserIDFromContext ctx)))).

Definition instance_GetByName (ctx : Context) (name : string) : M Instance :=
  wrap_err (norows (New NotFound ("instance name " +:+ name +:+ " not found"))
                   "failed to get instance by name")
    (db_query_row (λ w,
       select (λ r, bool_decide (inst_Name r = name)
                    && of_user inst_UserID (UserIDFromContext ctx) r) (t_instances w))).

Definition instance_List (ctx : Context) : M (list Instance) :=
  l ← wrap_err (Wrap Internal "failed to list instances")
        (db_query (λ w, select (of_user inst_UserID (UserIDFromContext ctx)) (t_instances w)));
  mret (order_desc inst_CreatedAt l).

(** The new row of the UPDATE, by optimistic locking on the version. *)
Definition instance_update_row (inst : Instance) (now : time) (w : World) (r : Instance)
    : option Instance :=
  ip ← to_inet (inst_PrivateIP inst);
  if instance_fks inst w && int4 (inst_Version r + 1) then
    Some (r <| inst_Name := inst_Name inst |> <| inst_Status := inst_Status inst |>
            <| inst_Version ::= (λ v, v + 1) |> <| inst_UpdatedAt := now |>
            <| inst_ContainerID := inst_ContainerID inst |> <| inst_Ports := inst_Ports inst |>
            <| inst_VpcID := inst_VpcID inst |> <| inst_SubnetID := inst_SubnetID inst |>
            <| inst_PrivateIP := ip |> <| inst_OvsPort := inst_OvsPort inst |>)
  else None.

(** Returns the struct the caller holds, with its time and version set. *)
Definition instance_Update (inst : Instance) : M Instance :=
  now ← Now;
  n ← wrap_err (Wrap Internal "failed to update instance")
        (db_exec (sql_update t_instances (inst_ID inst)
           (λ r, bool_decide (inst_Version r = inst_Version inst)
                 && of_user inst_UserID (inst_UserID inst) r)
           (instance_update_row inst now)));
  guard_err (Nat.eqb n 0)
    (New Conflict "update conflict: instance was modified or not found") ;;
  mret (inst <| inst_UpdatedAt := now |> <| inst_Version ::= (λ v, int_add v 1) |>).

Definition instance_ListBySubnet (ctx : Context) (subnetID : uuid) : M (list Instance) :=
  l ← wrap_err (Wrap Internal "failed to list instances by subnet")
        (db_query (λ w,
           select (λ r, bool_decide (inst_SubnetID r = Some subnetID)
                        && of_user inst_UserID (UserIDFromContext ctx) r) (t_instances w)));
  mret (order_desc inst_CreatedAt l).

(** The referential actions on the rows that refer to a deleted instance. *)
Definition instance_cascade (id : uuid) (w : World) : World :=
  w <| t_volumes ::= fmap (λ v, if bool_decide (vol_InstanceID v = Some id)
                                 then v <| vol_InstanceID := None |> else v) |>
    <| t_lb_targets ::= filter (λ kv, tgt_InstanceID kv.2 ≠ id) |>
    <| t_group_instances ::= filter (λ kv, kv.1.2 ≠ id) |>
    <| t_containers ::= filter (λ kv, dc_InstanceID kv.2 ≠ id) |>
    <| t_sg_instances ::= filter (λ kv, kv.1.1 ≠ id) |>.

Definition instance_Delete (ctx : Context) (id : uuid) : M unit :=
  n ← wrap_err (Wrap Internal "failed to delete instance")
        (db_exec (sql_delete t_instances id (of_user inst_UserID (UserIDFromContext ctx))
           (λ _, true) (instance_cascade id)));
  guard_err (Nat.eqb n 0)
    (New NotFound ("instance " +:+ uuid_string id +:+ " not found")).

(** ** Volumes *)

Definition volume_Create (v : Volume) : M unit :=
  db_exec (sql_insert t_volumes (vol_ID v) v (λ w,
    fk_ok (t_instances w) (vol_InstanceID v) && user_fk (vol_UserID v) w && int4 (vol_SizeGB v)
    && no_row (λ r, bool_decide (vol_Name r = vol_Name v)) (t_volumes w))).

Definition volume_GetByID (ctx : Context) (id : uuid) : M Volume :=
  db_query_row (λ w, by_pk (t_volumes w) id (of_user vol_UserID (UserIDFromContext ctx))).

Definition volume_GetByName (ctx : Context) (name : string) : M Volume :=
  db_query_row (λ w,
    select (λ r, bool_decide (vol_Name r = name)
                 && of_user vol_UserID (UserIDFromContext ctx) r) (t_volumes w)).

Definition volume_List (ctx : Context) : M (list Volume) :=
  l ← db_query (λ w, select (of_user vol_UserID (UserIDFromContext ctx)) (t_volumes w));
  mret (order_desc vol_CreatedAt l).

Definition volume_ListByInstanceID (ctx : Context) (instanceID : uuid) : M (list Volume) :=
  db_query (λ w,
    select (λ r, bool_decide (vol_InstanceID r = Some instanceID)
                 && of_user vol_UserID (UserIDFromContext ctx) r) (t_volumes w)).

(** The number of rows affected is not looked at. *)
Definition volume_Update (v : Volume) : M unit :=
  db_exec (sql_update t_volumes (vol_ID v) (of_user vol_UserID (vol_UserID v))
    (λ w r, if fk_ok (t_instances w) (vol_InstanceID v) then
              Some (r <| vol_Status := vol_Status v |> <| vol_InstanceID := vol_InstanceID v |>
                      <| vol_MountPath := vol_MountPath v |> <| vol_UpdatedAt := vol_UpdatedAt v |>)
            else None)) ;;
  mret ().

Definition volume_Delete (ctx : Context) (id : uuid) : M unit :=
  n ← db_exec (sql_delete t_volumes id (of_user vol_UserID (UserIDFromContext ctx))
        (λ _, true) (λ w, w <| t_snapshots ::= filter (λ kv, snap_VolumeID kv.2 ≠ id) |>));
  guard_err (Nat.eqb n 0) (New NotFound "volume not found").

End instance_repo.

Lemma norows_run {A} nf msg (m : M A) w w1 :
  m w = (Err ErrNoRows, w1) → wrap_err (norows nf msg) m w = (Err nf, w1).
Proof. intros Hm. unfold wrap_err. by rewrite Hm. Qed.

(** ** What the operations touch *)

Section frames.
Context `{Env} {T : Type} (p : World → T) `{!Indep p w_tick}.

#[export] Instance instance_Create_frame inst : Indep p t_instances → Frame p (instance_Create inst).
Proof.
  intros. unfold instance_Create. apply steps_wrap_err, steps_db_exec; [apply _..|].
  intros w a w' Hs. unfold instance_insert in Hs.
  destruct (to_inet _) as [ip|]; simplify_eq/=.
  eapply (writes_same p t_instances); [apply _| |exact Hs]. apply _.
Qed.
#[export] Instance instance_GetByID_frame ctx id : Frame p (instance_GetByID ctx id).
Proof. unfold instance_GetByID. apply _. Qed.
#[export] Instance instance_GetByName_frame ctx n : Frame p (instance_GetByName ctx n).
Proof. unfold instance_GetByName. apply _. Qed.
#[export] Instance instance_List_frame ctx : Frame p (instance_List ctx).
Proof. unfold instance_List. apply _. Qed.
#[export] Instance instance_Update_frame inst : Indep p t_instances → Frame p (instance_Update inst).
Proof. intros. unfold instance_Update. apply _. Qed.
#[export] Instance instance_ListBySubnet_frame ctx s : Frame p (instance_ListBySubnet ctx s).
Proof. unfold instance_ListBySubnet. apply _. Qed.
#[export] Instance instance_Delete_frame ctx id :
  Indep p t_instances → Indep p t_volumes → Indep p t_lb_targets →
  Indep p t_group_instances → Indep p t_containers → Indep p t_sg_instances →
  Frame p (instance_Delete ctx id).
Proof.
  intros. unfold instance_Delete. apply steps_bind; [apply _| |apply _].
  apply steps_wrap_err, steps_db_exec; [apply _..|].
  apply sql_delete_same; [apply _|]. intros w. unfold instance_cascade.
  rewrite (indep (p := p) (q := t_sg_instances)), (indep (p := p) (q := t_containers)), (indep (p := p) (q := t_group_instances)),
    (indep (p := p) (q := t_lb_targets)). apply indep.
Qed.
#[export] Instance volume_Create_frame v : Indep p t_volumes → Frame p (volume_Create v).
Proof. intros. unfold volume_Create. apply _. Qed.
#[export] Instance volume_GetByID_frame ctx id : Frame p (volume_GetByID ctx id).
Proof. unfold volume_GetByID. apply _. Qed.
#[export] Instance volume_GetByName_frame ctx n : Frame p (volume_GetByName ctx n).
Proof. unfold volume_GetByName. apply _. Qed.
#[export] Instance volume_List_frame ctx : Frame p (volume_List ctx).
Proof. unfold volume_List. apply _. Qed.
#[export] Instance volume_ListByInstanceID_frame ctx i : Frame p (volume_ListByInstanceID ctx i).
Proof. unfold volume_ListByInstanceID. apply _. Qed.
#[export] Instance volume_Update_frame v : Indep p t_volumes → Frame p (volume_Update v).
Proof. intros. unfold volume_Update. apply _. Qed.
#[export] Instance volume_Delete_frame ctx id :
  Indep p t_volumes → Indep p t_snapshots → Frame p (volume_Delete ctx id).
Proof.
  intros. unfold volume_Delete. apply steps_bind; [apply _| |apply _].
  apply steps_db_exec; [apply _..|]. apply sql_delete_same; [apply _|]. intros w. apply indep.
Qed.
End frames.

Section no_panic.
Context `{Env}.
#[export] Instance instance_Create_no_panic inst : NoPanic (instance_Create inst).
Proof. unfold instance_Create. apply _. Qed.
#[export] Instance instance_GetByID_no_panic ctx id : NoPanic (instance_GetByID ctx id).
Proof. unfold instance_GetByID. apply _. Qed.
#[export] Instance instance_GetByName_no_panic ctx n : NoPanic (instance_GetByName ctx n).
Proof. unfold instance_GetByName. apply _. Qed.
#[export] Instance instance_List_no_panic ctx : NoPanic (instance_List ctx).
Proof. unfold instance_List. apply _. Qed.
#[export] Instance instance_Update_no_panic inst : NoPanic (instance_Update inst).
Proof. unfold instance_Update. apply _. Qed.
#[export] Instance instance_ListBySubnet_no_panic ctx s : NoPanic (instance_ListBySubnet ctx s).
Proof. unfold instance_ListBySubnet. apply _. Qed.
#[export] Instance instance_Delete_no_panic ctx id : NoPanic (instance_Delete ctx id).
Proof. unfold instance_Delete. apply _. Qed.
#[export] Instance volume_Create_no_panic v : NoPanic (volume_Create v).
Proof. unfold volume_Create. apply _. Qed.
#[export] Instance volume_GetByID_no_panic ctx id : NoPanic (volume_GetByID ctx id).
Proof. unfold volume_GetByID. apply _. Qed.
#[export] Instance volume_GetByName_no_panic ctx n : NoPanic (volume_GetByName ctx n).
Proof. unfold volume_GetByName. apply _. Qed.
#[export] Instance volume_List_no_panic ctx : NoPanic (volume_List ctx).
Proof. unfold volume_List. apply _. Qed.
#[export] Instance volume_ListByInstanceID_no_panic ctx i : NoPanic (volume_ListByInstanceID ctx i).
Proof. unfold volume_ListByInstanceID. apply _. Qed.
#[export] Instance volume_Update_no_panic v : NoPanic (volume_Update v).
Proof. unfold volume_Update. apply _. Qed.
#[export] Instance volume_Delete_no_panic ctx id : NoPanic (volume_Delete ctx id).
Proof. unfold volume_Delete. apply _. Qed.
End no_panic.

(** ** Outcomes of the operations *)

Section outcomes.
Context `{Env}.

(** An insertion adds the row under a fresh key, or changes no table. *)
Lemma instance_Create_outcome inst w r w' :
  instance_Create inst w = (r, w') →
  (∃ ip, r = Ok tt ∧ to_inet (inst_PrivateIP inst) = Some ip ∧
         t_instances w !! inst_ID inst = None ∧
         w' = w <| w_tick ::= S |>
                <| t_instances ::= <[inst_ID inst := inst <| inst_PrivateIP := ip |>]> |>) ∨
  (∃ e, r = Err (Wrap Internal "failed to create instance" e) ∧ w' = w <| w_tick ::= S |>).
Proof.
  unfold instance_Create, wrap_err, db_exec, instance_insert, sql_insert. intros Hrun.
  destruct (env_fault _); [right; simplify_eq; eauto|].
  destruct (to_inet _) as [ip|] eqn:Hip; [|right; simplify_eq/=; eauto].
  cbn [mbind option_bind] in Hrun. change (t_instances (w <| w_tick ::= S |>)) with (t_instances w) in Hrun.
  destruct (t_instances w !! inst_ID inst) eqn:Hl; [right; simplify_eq/=; eauto|].
  destruct (_ && _); simplify_eq; [left; eauto 10|right; eauto].
Qed.

(** An update rewrites the row of the same version and owner, or changes no table. *)
Lemma instance_Update_outcome inst w r w' :
  instance_Update inst w = (r, w') →
  (∃ row row' now,
     r = Ok (inst <| inst_UpdatedAt := now |> <| inst_Version ::= (λ v, int_add v 1) |>) ∧
     t_instances w !! inst_ID inst = Some row ∧
     inst_Version row = inst_Version inst ∧ inst_UserID row = inst_UserID inst ∧
     instance_update_row inst now (w <| w_tick ::= S |> <| w_tick ::= S |>) row = Some row' ∧
     w' = w <| w_tick ::= S |> <| w_tick ::= S |>
            <| t_instances ::= <[inst_ID inst := row']> |>) ∨
  (∃ e, r = Err e ∧ w' = w <| w_tick ::= S |> <| w_tick ::= S |>).
Proof.
  unfold instance_Update, Now, next_tick, mbind, M_bind, mret, M_ret, wrap_err, db_exec. cbn.
  intros Hrun. destruct (env_fault _); [right; simplify_eq; eauto|].
  unfold sql_update in Hrun. cbn in Hrun.
  destruct (t_instances w !! inst_ID inst) as [row|] eqn:Hl; [|right; simplify_eq/=; eauto].
  destruct (_ && _) eqn:Hc; [|right; simplify_eq/=; eauto].
  apply andb_true_iff in Hc as [Hv Hu]. unfold of_user in Hu.
  apply bool_decide_eq_true in Hv, Hu.
  destruct (instance_update_row _ _ _ _) as [row'|] eqn:Hrow;
    [|right; simplify_eq/=; eauto].
  left. cbn in Hrun. simplify_eq. exists row, row', (env_now (w_tick w)). by split_and!.
Qed.

Lemma instance_update_row_fields inst now w row row' :
  instance_update_row inst now w row = Some row' →
  ∃ ip, to_inet (inst_PrivateIP inst) = Some ip ∧
  row' = row <| inst_Name := inst_Name inst |> <| inst_Status := inst_Status inst |>
            <| inst_Version ::= (λ v, v + 1) |> <| inst_UpdatedAt := now |>
            <| inst_ContainerID := inst_ContainerID inst |> <| inst_Ports := inst_Ports inst |>
            <| inst_VpcID := inst_VpcID inst |> <| inst_SubnetID := inst_SubnetID inst |>
            <| inst_PrivateIP := ip |> <| inst_OvsPort := inst_OvsPort inst |>.
Proof.
  unfold instance_update_row. destruct (to_inet _) as [ip|]; [|done]. intros Hs.
  cbn in Hs. destruct (_ && _); [|done]. injection Hs as <-. eauto.
Qed.

(** A deletion removes the row of the owner with its references, or changes nothing. *)
Lemma instance_Delete_outcome ctx id w r w' :
  instance_Delete ctx id w = (r, w') →
  (∃ row, r = Ok tt ∧ t_instances w !! id = Some row ∧ inst_UserID row = UserIDFromContext ctx ∧
     w' = instance_cascade id (w <| w_tick ::= S |> <| t_instances ::= delete id |>)) ∨
  (∃ e, r = Err e ∧ w' = w <| w_tick ::= S |>).
Proof.
  unfold instance_Delete, wrap_err, db_exec, mbind, M_bind. intros Hrun.
  destruct (env_fault _); [right; simplify_eq; eauto|].
  unfold sql_delete in Hrun. cbn in Hrun.
  destruct (t_instances w !! id) as [row|] eqn:Hl; [destruct (of_user _ _ _) eqn:Hu|];
    cbn in Hrun; unfold mret, M_ret, fail in Hrun; simplify_eq; [|right; eauto..].
  unfold of_user in Hu. apply bool_decide_eq_true in Hu. left. exists row. by split_and!.
Qed.

Lemma volume_Delete_outcome ctx id w r w' :
  volume_Delete ctx id w = (r, w') →
  (∃ row, r = Ok tt ∧ t_volumes w !! id = Some row ∧ vol_UserID row = UserIDFromContext ctx ∧
     w' = w <| w_tick ::= S |> <| t_volumes ::= delete id |>
            <| t_snapshots ::= filter (λ kv, snap_VolumeID kv.2 ≠ id) |>) ∨
  (∃ e, r = Err e ∧ w' = w <| w_tick ::= S |>).
Proof.
  unfold volume_Delete, db_exec, mbind, M_bind. intros Hrun.
  destruct (env_fault _); [right; simplify_eq; eauto|].
  unfold sql_delete in Hrun. cbn in Hrun.
  destruct (t_volumes w !! id) as [row|] eqn:Hl; [destruct (of_user _ _ _) eqn:Hu|];
    cbn in Hrun; unfold mret, M_ret, fail in Hrun; simplify_eq; [|right; eauto..].
  unfold of_user in Hu. apply bool_decide_eq_true in Hu. left. exists row. by split_and!.
Qed.

(** A volume update rewrites the state columns of the owner's row, or changes nothing. *)
Lemma volume_Update_outcome v w r w' :
  volume_Update v w = (r, w') →
  (∃ row, t_volumes w !! vol_ID v = Some row ∧ vol_UserID row = vol_UserID v ∧
     (∀ i, vol_InstanceID v = Some i → is_Some (t_instances w !! i)) ∧
     w' = w <| w_tick ::= S |> <| t_volumes ::= <[vol_ID v :=
            row <| vol_Status := vol_Status v |> <| vol_InstanceID := vol_InstanceID v |>
                <| vol_MountPath := vol_MountPath v |> <| vol_UpdatedAt := vol_UpdatedAt v |>]> |>) ∨
  w' = w <| w_tick ::= S |>.
Proof.
  unfold volume_Update, db_exec, mbind, M_bind, mret, M_ret. intros Hrun.
  destruct (env_fault _); [right; simplify_eq; eauto|].
  unfold sql_update in Hrun. cbn in Hrun.
  destruct (t_volumes w !! vol_ID v) as [row|] eqn:Hl; [|right; simplify_eq/=; eauto].
  destruct (of_user _ _ _) eqn:Hu; [|right; simplify_eq/=; eauto].
  unfold of_user in Hu. apply bool_decide_eq_true in Hu.
  destruct (fk_ok _ _) eqn:Hfk; [|right; simplify_eq/=; eauto]. left. cbn in Hrun. simplify_eq.
  exists row. split_and!; [done..| |done]. intros i Hi. rewrite Hi in Hfk. cbn in Hfk.
  by apply bool_decide_eq_true in Hfk.
Qed.

Lemma volume_Update_run `{!NoFaults} v row w :
  t_volumes w !! vol_ID v = Some row → vol_UserID row = vol_UserID v →
  (∀ i, vol_InstanceID v = Some i → is_Some (t_instances w !! i)) →
  volume_Update v w = (Ok tt, w <| w_tick ::= S |> <| t_volumes ::= <[vol_ID v :=
    row <| vol_Status := vol_Status v |> <| vol_InstanceID := vol_InstanceID v |>
        <| vol_MountPath := vol_MountPath v |> <| vol_UpdatedAt := vol_UpdatedAt v |>]> |>).
Proof.
  intros Hrow Hu Hfk. unfold volume_Update, mbind, M_bind, db_exec. rewrite no_faults.
  unfold sql_update. cbn. rewrite Hrow. unfold of_user.
  rewrite bool_decide_true by done.
  assert (fk_ok (t_instances w) (vol_InstanceID v) = true) as ->; [|done].
  destruct (vol_InstanceID v); [|done]. cbn. apply bool_decide_eq_true. by apply Hfk.
Qed.

End outcomes.
