(* ===== verification/NetworkRepo.v ===== *)
(** * [repositories/postgres/vpc_repo.go] and [subnet_repo.go] *)
From S2P Require Import Prelude GoStd Net Errors Domain DomainData World Logic Sql InstanceRepo.

Section network_repo.
Context `{Env}.

(** [NULLIF($1, '')::cidr] into a nullable column, read back as text. *)
Definition to_cidr (s : string) : option string :=
  if bool_decide (s = "") then Some "" else cidr_text s.

Definition vpc_insert (vpc : VPC) (w : World) : option (unit * World) :=
  cidr ← to_cidr (vpc_CIDRBlock vpc);
  sql_insert t_vpcs (vpc_ID vpc) (vpc <| vpc_CIDRBlock := cidr |>) (λ w,
    user_fk (vpc_UserID vpc) w && int4 (vpc_VXLANID vpc)
    && no_row (λ r, bool_decide (vpc_Name r = vpc_Name vpc)) (t_vpcs w)) w.

Definition vpc_Create (vpc : VPC) : M unit :=
  wrap_err (Wrap Internal "failed to create vpc") (db_exec (vpc_insert vpc)).

Definition vpc_GetByID (ctx : Context) (id : uuid) : M VPC :=
  wrap_err (norows (New NotFound ("vpc " +:+ uuid_string id +:+ " not found")) "failed to get vpc")
    (db_query_row (λ w, by_pk (t_vpcs w) id (of_user vpc_UserID (UserIDFromContext ctx)))).

Definition vpc_GetByName (ctx : Context) (name : string) : M VPC :=
  wrap_err (norows (New NotFound ("vpc name " +:+ name +:+ " not found")) "failed to get vpc by name")
    (db_query_row (λ w,
       select (λ r, bool_decide (vpc_Name r = name)
                    && of_user vpc_UserID (UserIDFromContext ctx) r) (t_vpcs w))).

Definition vpc_List (ctx : Context) : M (list VPC) :=
  l ← wrap_err (Wrap Internal "failed to list vpcs")
        (db_query (λ w, select (of_user vpc_UserID (UserIDFromContext ctx)) (t_vpcs w)));
  mret (order_desc vpc_CreatedAt l).

(** No row refers to the VPC [id] through a foreign key without a referential action:
    instances, load balancers, scaling groups and caches do, and so does an instance in
    one of its subnets, which would be deleted with it. *)
Definition vpc_unreferenced (id : uuid) (w : World) : bool :=
  no_row (λ i, bool_decide (inst_VpcID i = Some id)) (t_instances w)
  && no_row (λ l, bool_decide (lb_VpcID l = id)) (t_lbs w)
  && no_row (λ g, bool_decide (sg_VpcID g = id)) (t_groups w)
  && no_row (λ c, bool_decide (ca_VpcID c = Some id)) (t_caches w)
  && no_row (λ i, match inst_SubnetID i ≫= λ s, t_subnets w !! s with
                  | Some s => bool_decide (sn_VPCID s = id)
                  | None => false
                  end) (t_instances w).

(** The referential actions on the rows that refer to a deleted VPC: its subnets and
    its security groups go, the latter with their rules and members; a database
    forgets it. *)
Definition vpc_cascade (id : uuid) (w : World) : World :=
  let gone := λ g, match t_security_groups w !! g with
                   | Some s => bool_decide (secg_VPCID s = id)
                   | None => false
                   end in
  w <| t_subnets ::= filter (λ kv, sn_VPCID kv.2 ≠ id) |>
    <| t_security_rules ::= filter (λ kv, gone (rule_GroupID kv.2) = false) |>
    <| t_sg_instances ::= filter (λ kv, gone kv.1.2 = false) |>
    <| t_security_groups ::= filter (λ kv, secg_VPCID kv.2 ≠ id) |>
    <| t_databases ::= fmap (λ d, if bool_decide (db_VpcID d = Some id)
                                  then d <| db_VpcID := None |> else d) |>.

Definition vpc_Delete (ctx : Context) (id : uuid) : M unit :=
  n ← wrap_err (Wrap Internal "failed to delete vpc")
        (db_exec (sql_delete t_vpcs id (of_user vpc_UserID (UserIDFromContext ctx))
           (vpc_unreferenced id)
           (vpc_cascade id)));
  guard_err (Nat.eqb n 0) (New NotFound "vpc not found").

(** ** Subnets *)

Definition subnet_insert (s : Subnet) (w : World) : option (unit * World) :=
  cidr ← cidr_text (sn_CIDRBlock s);
  gw ← to_inet (sn_GatewayIP s);
  sql_insert t_subnets (sn_ID s) (s <| sn_CIDRBlock := cidr |> <| sn_GatewayIP := gw |>) (λ w,
    fk_ok (t_vpcs w) (Some (sn_VPCID s)) && user_fk (sn_UserID s) w
    && no_row (λ r, bool_decide (sn_VPCID r = sn_VPCID s ∧
                      (sn_Name r = sn_Name s ∨ sn_CIDRBlock r = cidr))) (t_subnets w)) w.

Definition subnet_Create (s : Subnet) : M unit :=
  wrap_err (Wrap Internal "failed to create subnet") (db_exec (subnet_insert s)).

Definition subnet_GetByID (ctx : Context) (id : uuid) : M Subnet :=
  wrap_err (norows (New NotFound ("subnet " +:+ uuid_string id +:+ " not found"))
                   "failed to get subnet")
    (db_query_row (λ w, by_pk (t_subnets w) id (of_user sn_UserID (UserIDFromContext ctx)))).

Definition subnet_GetByName (ctx : Context) (vpcID : uuid) (name : string) : M Subnet :=
  wrap_err (norows (New NotFound ("subnet " +:+ name +:+ " not found in vpc " +:+ uuid_string vpcID))
                   "failed to get subnet by name")
    (db_query_row (λ w,
       select (λ r, bool_decide (sn_VPCID r = vpcID) && bool_decide (sn_Name r = name)
                    && of_user sn_UserID (UserIDFromContext ctx) r) (t_subnets w))).

Definition subnet_ListByVPC (ctx : Context) (vpcID : uuid) : M (list Subnet) :=
  l ← wrap_err (Wrap Internal "failed to list subnets")
        (db_query (λ w,
           select (λ r, bool_decide (sn_VPCID r = vpcID)
                        && of_user sn_UserID (UserIDFromContext ctx) r) (t_subnets w)));
  mret (order_desc sn_CreatedAt l).

Definition subnet_Delete (ctx : Context) (id : uuid) : M unit :=
  n ← wrap_err (Wrap Internal "failed to delete subnet")
        (db_exec (sql_delete t_subnets id (of_user sn_UserID (UserIDFromContext ctx))
           (λ w, no_row (λ i, bool_decide (inst_SubnetID i = Some id)) (t_instances w))
           (λ w, w)));
  guard_err (Nat.eqb n 0) (New NotFound "subnet not found").

End network_repo.

Section frames.
Context `{Env} {T : Type} (p : World → T) `{!Indep p w_tick}.

#[export] Instance vpc_Create_frame v : Indep p t_vpcs → Frame p (vpc_Create v).
Proof.
  intros. unfold vpc_Create. apply steps_wrap_err, steps_db_exec; [apply _..|].
  intros w a w' Hs. unfold vpc_insert in Hs. destruct (to_cidr _); simplify_eq/=.
  eapply (writes_same p t_vpcs); [apply _| |exact Hs]. apply _.
Qed.
#[export] Instance vpc_GetByID_frame ctx id : Frame p (vpc_GetByID ctx id).
Proof. unfold vpc_GetByID. apply _. Qed.
#[export] Instance vpc_GetByName_frame ctx n : Frame p (vpc_GetByName ctx n).
Proof. unfold vpc_GetByName. apply _. Qed.
#[export] Instance vpc_List_frame ctx : Frame p (vpc_List ctx).
Proof. unfold vpc_List. apply _. Qed.
#[export] Instance vpc_Delete_frame ctx id :
  Indep p t_vpcs → Indep p t_subnets → Indep p t_security_rules → Indep p t_sg_instances →
  Indep p t_security_groups → Indep p t_databases → Frame p (vpc_Delete ctx id).
Proof.
  intros. unfold vpc_Delete. apply steps_bind; [apply _| |apply _].
  apply steps_wrap_err, steps_db_exec; [apply _..|].
  apply sql_delete_same; [apply _|]. intros w. unfold vpc_cascade. cbn zeta.
  rewrite (indep (p := p) (q := t_databases)), (indep (p := p) (q := t_security_groups)),
    (indep (p := p) (q := t_sg_instances)), (indep (p := p) (q := t_security_rules)). apply indep.
Qed.
#[export] Instance subnet_Create_frame s : Indep p t_subnets → Frame p (subnet_Create s).
Proof.
  intros. unfold subnet_Create. apply steps_wrap_err, steps_db_exec; [apply _..|].
  intros w a w' Hs. unfold subnet_insert in Hs.
  destruct (cidr_text _); simplify_eq/=. destruct (to_inet _); simplify_eq/=.
  eapply (writes_same p t_subnets); [apply _| |exact Hs]. apply _.
Qed.
#[export] Instance subnet_GetByID_frame ctx id : Frame p (subnet_GetByID ctx id).
Proof. unfold subnet_GetByID. apply _. Qed.
#[export] Instance subnet_GetByName_frame ctx v n : Frame p (subnet_GetByName ctx v n).
Proof. unfold subnet_GetByName. apply _. Qed.
#[export] Instance subnet_ListByVPC_frame ctx v : Frame p (subnet_ListByVPC ctx v).
Proof. unfold subnet_ListByVPC. apply _. Qed.
#[export] Instance subnet_Delete_frame ctx id : Indep p t_subnets → Frame p (subnet_Delete ctx id).
Proof.
  intros. unfold subnet_Delete. apply steps_bind; [apply _| |apply _].
  apply steps_wrap_err, steps_db_exec; [apply _..|]. by apply sql_delete_same.
Qed.
End frames.

Section no_panic.
Context `{Env}.
#[export] Instance vpc_Create_no_panic v : NoPanic (vpc_Create v).
Proof. unfold vpc_Create. apply _. Qed.
#[export] Instance vpc_GetByID_no_panic ctx id : NoPanic (vpc_GetByID ctx id).
Proof. unfold vpc_GetByID. apply _. Qed.
#[export] Instance vpc_GetByName_no_panic ctx n : NoPanic (vpc_GetByName ctx n).
Proof. unfold vpc_GetByName. apply _. Qed.
#[export] Instance vpc_List_no_panic ctx : NoPanic (vpc_List ctx).
Proof. unfold vpc_List. apply _. Qed.
#[export] Instance vpc_Delete_no_panic ctx id : NoPanic (vpc_Delete ctx id).
Proof. unfold vpc_Delete. apply _. Qed.
#[export] Instance subnet_Create_no_panic s : NoPanic (subnet_Create s).
Proof. unfold subnet_Create. apply _. Qed.
#[export] Instance subnet_GetByID_no_panic ctx id : NoPanic (subnet_GetByID ctx id).
Proof. unfold subnet_GetByID. apply _. Qed.
#[export] Instance subnet_GetByName_no_panic ctx v n : NoPanic (subnet_GetByName ctx v n).
Proof. unfold subnet_GetByName. apply _. Qed.
#[export] Instance subnet_ListByVPC_no_panic ctx v : NoPanic (subnet_ListByVPC ctx v).
Proof. unfold subnet_ListByVPC. apply _. Qed.
#[export] Instance subnet_Delete_no_panic ctx id : NoPanic (subnet_Delete ctx id).
Proof. unfold subnet_Delete. apply _. Qed.
End no_panic.
