(* ===== verification/InstanceService.v ===== *)
(** * [services/instance.go]: the life of an instance

    The service coordinates the tables [instances], [volumes], [vpcs] and
    [subnets], the compute backend and the Open vSwitch backend. *)
From S2P Require Import Prelude GoStd Net Errors Domain DomainData World Logic Sql InstanceRepo NetworkRepo.
From S2P Require Import Json.

(** ** Port specifications *)

(** [parsePort] *)
Definition parsePort (s : string) : option Z :=
  let s := TrimSpace s in
  if bool_decide (s = "") then None else Atoi s.

Definition port_in_range (p : Z) : bool := (MinPort <=? p) && (p <=? MaxPort).

(** The body of the loop of [parseAndValidatePorts]: the error of one mapping. *)
Definition check_mapping (p : string) : option error :=
  match split_on ":"%char p with
  | [h; c] =>
      match parsePort h with
      | None => Some (New InvalidPortFormat ("invalid host port: " +:+ h))
      | Some hostPort =>
          match parsePort c with
          | None => Some (New InvalidPortFormat ("invalid container port: " +:+ c))
          | Some containerPort =>
              if negb (port_in_range hostPort) then
                Some (New InvalidPortFormat ("host port " +:+ itoa hostPort +:+ " out of range (0-65535)"))
              else if negb (port_in_range containerPort) then
                Some (New InvalidPortFormat
                        ("container port " +:+ itoa containerPort +:+ " out of range (0-65535)"))
              else None
          end
      end
  | _ => Some (New InvalidPortFormat "port format must be host:container")
  end.

Fixpoint check_mappings (l : list string) : option error :=
  match l with
  | [] => None
  | p :: l' => match check_mapping p with Some e => Some e | None => check_mappings l' end
  end.

Definition parseAndValidatePorts (ports : string) : error + list string :=
  if bool_decide (ports = "") then inr []
  else
    let portList := split_on ","%char ports in
    if MaxPortsPerInstance <? Z.of_nat (length portList) then
      inl (New TooManyPorts "max 10 ports allowed")
    else match check_mappings portList with
         | Some e => inl e
         | None => inr portList
         end.

Section instance_service.
Context `{Env}.

Definition from_sum {A} (r : error + A) : M A :=
  match r with inl e => fail e | inr a => mret a end.

Definition formatContainerName (id : uuid) : string := "thecloud-" +:+ str_prefix 8 (uuid_string id).
Definition docker_volume_name (id : uuid) : string := "thecloud-vol-" +:+ str_prefix 8 (uuid_string id).

Definition GetInstance (ctx : Context) (idOrName : string) : M Instance :=
  match uuid_parse idOrName with
  | Some id => instance_GetByID ctx id
  | None => instance_GetByName ctx idOrName
  end.

Definition ListInstances (ctx : Context) : M (list Instance) := instance_List ctx.

(** ** Networking *)

Definition used_ips (instances : list Instance) (subnet : Subnet) : list string :=
  filter (λ s, s ≠ "") (inst_PrivateIP <$> instances) ++ [sn_GatewayIP subnet].

(** [allocateIP].  The third answer of the search never comes: see
    [find_from_terminates]. *)
Definition allocateIP (ctx : Context) (subnet : Subnet) : M string :=
  '(_, ipNet) ← from_opt (Errorf ("invalid CIDR address: " +:+ sn_CIDRBlock subnet))
                  (ParseCIDR (sn_CIDRBlock subnet));
  instances ← instance_ListBySubnet ctx (sn_ID subnet);
  match findAvailableIP ipNet (used_ips instances subnet) with
  | Found ip => mret ip
  | _ => fail (Errorf "no available IPs in subnet")
  end.

(** [resolveNetworkConfig]: the network, the private address and the switch port. *)
Definition resolveNetworkConfig (ctx : Context) (vpcID subnetID : option uuid)
    : M (string * string * string) :=
  networkID ← match vpcID with
              | Some v => vpc ← vpc_GetByID ctx v; mret (vpc_NetworkID vpc)
              | None => mret ""
              end;
  match subnetID, has_network with
  | Some s, true =>
      subnet ← wrap_err (Wrap NotFound "subnet not found") (subnet_GetByID ctx s);
      allocatedIP ← wrap_err (Wrap ResourceLimitExceeded "failed to allocate IP in subnet")
                      (allocateIP ctx subnet);
      u ← uuid_New;
      mret (networkID, allocatedIP, "veth-" +:+ str_prefix 8 (uuid_string u))
  | _, _ => mret (networkID, "", "")
  end.

Definition nil_dereference : string := "invalid memory address or nil pointer dereference".

(** [plumbNetwork].  The errors of the two lookups are dropped, and a nil VPC
    identifier, VPC or network is dereferenced. *)
Definition plumbNetwork (ctx : Context) (inst : Instance) (containerID : string) : M unit :=
  if bool_decide (inst_OvsPort inst = "") || negb has_network then mret ()
  else
    let vethContainer := "eth0-" +:+ str_prefix 8 (uuid_string (inst_ID inst)) in
    perform (CreateVethPair (inst_OvsPort inst) vethContainer) ;;
    match inst_VpcID inst with
    | None => panic nil_dereference
    | Some v =>
        r ← attempt (vpc_GetByID ctx v);
        match r with
        | inl _ => panic nil_dereference
        | inr vpc =>
            perform (AttachVethToBridge (vpc_NetworkID vpc) (inst_OvsPort inst)) ;;
            match inst_SubnetID inst with
            | None => mret ()
            | Some s =>
                r ← attempt (subnet_GetByID ctx s);
                match r with
                | inl _ => mret ()
                | inr subnet =>
                    match ParseCIDR (sn_CIDRBlock subnet) with
                    | None => panic nil_dereference
                    | Some (_, ipNet) =>
                        perform (SetVethIP vethContainer (inst_PrivateIP inst)
                                   (itoa (mask_ones (net_Mask ipNet)))) ;;
                        ignore (perform (IPLinkSetUp vethContainer))
                    end
                end
            end
        end
    end.

(** ** Volumes *)

Definition getVolumeByIDOrName (ctx : Context) (idOrName : string) : M Volume :=
  match uuid_parse idOrName with
  | Some id => volume_GetByID ctx id
  | None => volume_GetByName ctx idOrName
  end.

(** [resolveVolumes]: the binds of the container and the volumes to attach. *)
Definition resolveVolumes (ctx : Context) (volumes : list VolumeAttachment)
    : M (list string * list Volume) :=
  foldM (λ (acc : list string * list Volume) va,
    vol ← wrap_err (Wrap NotFound ("volume " +:+ va_VolumeIDOrName va +:+ " not found"))
            (getVolumeByIDOrName ctx (va_VolumeIDOrName va));
    guard_err (negb (bool_decide (vol_Status vol = VolumeStatusAvailable)))
      (New InvalidInput ("volume " +:+ vol_Name vol +:+ " is not available")) ;;
    mret (acc.1 ++ [docker_volume_name (vol_ID vol) +:+ ":" +:+ va_MountPath va],
          acc.2 ++ [vol]))
    ([], []) volumes.

Definition updateVolumesAfterLaunch (volumes : list Volume) (instanceID : uuid) : M unit :=
  foreach volumes (λ vol,
    now ← Now;
    ignore (volume_Update (vol <| vol_Status := VolumeStatusInUse |>
                              <| vol_InstanceID := Some instanceID |>
                              <| vol_UpdatedAt := now |>))).

Definition released (vol : Volume) (now : time) : Volume :=
  vol <| vol_Status := VolumeStatusAvailable |> <| vol_InstanceID := None |>
      <| vol_MountPath := "" |> <| vol_UpdatedAt := now |>.

Definition releaseAttachedVolumes (ctx : Context) (instanceID : uuid) : M unit :=
  volumes ← volume_ListByInstanceID ctx instanceID;
  foreach volumes (λ vol, now ← Now; ignore (volume_Update (released vol now))).

(** ** The life cycle *)

Definition inst_meta (inst : Instance) : list (string * value) :=
  [("name", VString (inst_Name inst)); ("image", VString (inst_Image inst))].

(** The branch of [LaunchInstance] where the backend refuses the container. *)
Definition launch_failed (ctx : Context) (inst : Instance) (err : error) : M Instance :=
  ignore (instance_Update (inst <| inst_Status := StatusError |>)) ;;
  ignore (RecordEvent ctx "INSTANCE_LAUNCH_FAILED" (uuid_string (inst_ID inst)) "INSTANCE"
            (Some (inst_meta inst ++ [("error", VString (error_text err))]))) ;;
  fail (Wrap Internal "failed to launch container" err).

(** The rest of [LaunchInstance] once the container runs. *)
Definition launch_running (ctx : Context) (inst : Instance) (attachedVolumes : list Volume)
    (containerID : string) : M Instance :=
  ignore (plumbNetwork ctx inst containerID) ;;
  inst ← instance_Update (inst <| inst_Status := StatusRunning |>
                               <| inst_ContainerID := containerID |>);
  ignore (RecordEvent ctx "INSTANCE_LAUNCH" (uuid_string (inst_ID inst)) "INSTANCE"
            (Some (inst_meta inst))) ;;
  ignore (Log (inst_UserID inst) "instance.launch" "instance" (uuid_string (inst_ID inst))
            (Some (inst_meta inst))) ;;
  updateVolumesAfterLaunch attachedVolumes (inst_ID inst) ;;
  mret inst.

Definition launch_container (ctx : Context) (inst : Instance) (portList : list string)
    (networkID : string) (volumeBinds : list string) (attachedVolumes : list Volume) : M Instance :=
  r ← attempt (perform (CreateInstance (formatContainerName (inst_ID inst)) (inst_Image inst)
                          portList networkID volumeBinds [] []));
  match r with
  | inl err => launch_failed ctx inst err
  | inr containerID => launch_running ctx inst attachedVolumes containerID
  end.

(** The part after the row is inserted. *)
Definition launch_resources (ctx : Context) (inst : Instance) (portList : list string)
    (volumes : list VolumeAttachment) : M Instance :=
  '(networkID, allocatedIP, ovsPort) ←
    resolveNetworkConfig ctx (inst_VpcID inst) (inst_SubnetID inst);
  '(volumeBinds, attachedVolumes) ← resolveVolumes ctx volumes;
  launch_container ctx (inst <| inst_PrivateIP := allocatedIP |> <| inst_OvsPort := ovsPort |>)
    portList networkID volumeBinds attachedVolumes.

Definition LaunchInstance (ctx : Context) (name image ports : string) (vpcID subnetID : option uuid)
    (volumes : list VolumeAttachment) : M Instance :=
  portList ← from_sum (parseAndValidatePorts ports);
  id ← uuid_New;
  created ← Now;
  updated ← Now;
  let inst := MkInstance id (UserIDFromContext ctx) name image "" StatusStarting ports vpcID subnetID
                "" "" 1 created updated in
  instance_Create inst ;;
  launch_resources ctx inst portList volumes.

Definition container_target (inst : Instance) : string :=
  if bool_decide (inst_ContainerID inst = "") then formatContainerName (inst_ID inst)
  else inst_ContainerID inst.

Definition Instance_Stop (ctx : Context) (idOrName : string) : M unit :=
  inst ← GetInstance ctx idOrName;
  if bool_decide (inst_Status inst = StatusStopped) then mret ()
  else
    wrap_err (Wrap Internal "failed to stop container")
      (perform (StopInstance (container_target inst))) ;;
    inst ← instance_Update (inst <| inst_Status := StatusStopped |>);
    ignore (Log (inst_UserID inst) "instance.stop" "instance" (uuid_string (inst_ID inst))
              (Some [("name", VString (inst_Name inst))])).

Definition InstanceLogs (ctx : Context) (idOrName : string) : M string :=
  inst ← GetInstance ctx idOrName;
  guard_err (bool_decide (inst_ContainerID inst = ""))
    (New InstanceNotRunning "instance has no active container") ;;
  perform (GetInstanceLogs (inst_ContainerID inst)) ;;
  wrap_err (Wrap Internal "failed to read logs") (perform (ReadLogs (inst_ContainerID inst))).

Definition GetInstanceStats `{JsonText} (ctx : Context) (idOrName : string) : M InstanceStats :=
  inst ← GetInstance ctx idOrName;
  guard_err (bool_decide (inst_ContainerID inst = "")) (New InstanceNotRunning "instance not running") ;;
  stream ← wrap_err (Wrap Internal "failed to get stats stream")
             (perform (World.GetInstanceStats (inst_ContainerID inst)));
  stats ← wrap_err (Wrap Internal "failed to decode stats") (from_sum (read_stats stream));
  mret (instance_stats stats).

Definition removeInstanceContainer (inst : Instance) : M unit :=
  wrap_err (Wrap Internal "failed to remove container")
    (perform (DeleteInstance (container_target inst))).

Definition TerminateInstance (ctx : Context) (idOrName : string) : M unit :=
  inst ← GetInstance ctx idOrName;
  removeInstanceContainer inst ;;
  ignore (releaseAttachedVolumes ctx (inst_ID inst)) ;;
  instance_Delete ctx (inst_ID inst) ;;
  ignore (RecordEvent ctx "INSTANCE_TERMINATE" (uuid_string (inst_ID inst)) "INSTANCE" (Some [])) ;;
  ignore (Log (inst_UserID inst) "instance.terminate" "instance" (uuid_string (inst_ID inst))
            (Some [("name", VString (inst_Name inst))])).

End instance_service.

#[global] Typeclasses Opaque allocateIP resolveNetworkConfig plumbNetwork resolveVolumes released
  updateVolumesAfterLaunch releaseAttachedVolumes launch_failed launch_running launch_container
  launch_resources LaunchInstance Instance_Stop TerminateInstance.

(** ** What the operations touch *)

Section frames.
Context `{Env} {T : Type} (p : World → T) `{!Indep p w_tick}.

#[export] Instance from_sum_frame {A} (r : error + A) : Frame p (from_sum r).
Proof. destruct r; apply _. Qed.
#[export] Instance GetInstance_frame ctx s : Frame p (GetInstance ctx s).
Proof. unfold GetInstance. apply _. Qed.
#[export] Instance allocateIP_frame ctx s : Frame p (allocateIP ctx s).
Proof. unfold allocateIP. apply steps_bind; [apply _..|]. intros []. apply _. Qed.
#[export] Instance resolveNetworkConfig_frame ctx v s : Frame p (resolveNetworkConfig ctx v s).
Proof. unfold resolveNetworkConfig. apply _. Qed.
#[export] Instance plumbNetwork_frame ctx i c : Indep p w_calls → Frame p (plumbNetwork ctx i c).
Proof. intros. unfold plumbNetwork. apply _. Qed.
#[export] Instance getVolumeByIDOrName_frame ctx s : Frame p (getVolumeByIDOrName ctx s).
Proof. unfold getVolumeByIDOrName. apply _. Qed.
#[export] Instance resolveVolumes_frame ctx l : Frame p (resolveVolumes ctx l).
Proof. unfold resolveVolumes. apply _. Qed.
#[export] Instance updateVolumesAfterLaunch_frame l i :
  Indep p t_volumes → Frame p (updateVolumesAfterLaunch l i).
Proof. intros. unfold updateVolumesAfterLaunch. apply _. Qed.
#[export] Instance releaseAttachedVolumes_frame ctx i :
  Indep p t_volumes → Frame p (releaseAttachedVolumes ctx i).
Proof. intros. unfold releaseAttachedVolumes. apply _. Qed.
#[export] Instance removeInstanceContainer_frame i :
  Indep p w_calls → Frame p (removeInstanceContainer i).
Proof. intros. unfold removeInstanceContainer. apply _. Qed.
#[export] Instance launch_running_frame ctx inst l c :
  Indep p w_calls → Indep p t_instances → Indep p t_volumes → Indep p t_events →
  Indep p t_audit → Frame p (launch_running ctx inst l c).
Proof. intros. unfold launch_running. apply _. Qed.
#[export] Instance launch_container_frame ctx inst ps n b l :
  Indep p w_calls → Indep p t_instances → Indep p t_volumes → Indep p t_events →
  Indep p t_audit → Frame p (launch_container ctx inst ps n b l).
Proof. intros. unfold launch_container, launch_failed. apply _. Qed.
#[export] Instance launch_resources_frame ctx inst ps vs :
  Indep p w_calls → Indep p t_instances → Indep p t_volumes → Indep p t_events →
  Indep p t_audit → Frame p (launch_resources ctx inst ps vs).
Proof.
  intros. unfold launch_resources. apply steps_bind; [apply _..|]. intros [[]].
  apply steps_bind; [apply _..|]. intros []. apply _.
Qed.
#[export] Instance LaunchInstance_frame ctx n i ps v s vs :
  Indep p w_calls → Indep p t_instances → Indep p t_volumes → Indep p t_events →
  Indep p t_audit → Frame p (LaunchInstance ctx n i ps v s vs).
Proof. intros. unfold LaunchInstance. apply _. Qed.
#[export] Instance Instance_Stop_frame ctx s :
  Indep p w_calls → Indep p t_instances → Indep p t_audit → Frame p (Instance_Stop ctx s).
Proof. intros. unfold Instance_Stop. apply _. Qed.
#[export] Instance TerminateInstance_frame ctx s :
  Indep p w_calls → Indep p t_instances → Indep p t_volumes → Indep p t_lb_targets →
  Indep p t_group_instances → Indep p t_containers → Indep p t_sg_instances → Indep p t_events →
  Indep p t_audit →
  Frame p (TerminateInstance ctx s).
Proof. intros. unfold TerminateInstance. apply _. Qed.
End frames.

#[export] Instance updateVolumesAfterLaunch_total `{Env} l i : Total (updateVolumesAfterLaunch l i).
Proof. unfold updateVolumesAfterLaunch. apply _. Qed.

#[export] Instance GetInstance_no_panic `{Env} ctx s : NoPanic (GetInstance ctx s).
Proof. unfold GetInstance. apply _. Qed.
#[export] Instance releaseAttachedVolumes_no_panic `{Env} ctx i : NoPanic (releaseAttachedVolumes ctx i).
Proof. unfold releaseAttachedVolumes. apply _. Qed.
#[export] Instance removeInstanceContainer_no_panic `{Env} i : NoPanic (removeInstanceContainer i).
Proof. unfold removeInstanceContainer. apply _. Qed.
#[export] Instance Instance_Stop_no_panic `{Env} ctx s : NoPanic (Instance_Stop ctx s).
Proof. unfold Instance_Stop. apply _. Qed.
#[export] Instance TerminateInstance_no_panic `{Env} ctx s : NoPanic (TerminateInstance ctx s).
Proof. unfold TerminateInstance. apply _. Qed.
#[export] Instance from_sum_no_panic {A} (r : error + A) : NoPanic (from_sum r).
Proof. destruct r; apply _. Qed.
#[export] Instance allocateIP_no_panic `{Env} ctx s : NoPanic (allocateIP ctx s).
Proof. unfold allocateIP. apply no_panic_bind; [apply _|]. intros []. apply _. Qed.
#[export] Instance resolveNetworkConfig_no_panic `{Env} ctx v s : NoPanic (resolveNetworkConfig ctx v s).
Proof. unfold resolveNetworkConfig. apply _. Qed.
#[export] Instance getVolumeByIDOrName_no_panic `{Env} ctx s : NoPanic (getVolumeByIDOrName ctx s).
Proof. unfold getVolumeByIDOrName. apply _. Qed.
#[export] Instance resolveVolumes_no_panic `{Env} ctx l : NoPanic (resolveVolumes ctx l).
Proof. unfold resolveVolumes. apply _. Qed.
