(* ===== verification/VolumeService.v ===== *)
(** * [services/volume.go]: volumes of the storage backend *)
From S2P Require Import Prelude GoStd Net Errors Domain DomainData World Logic Sql InstanceRepo.
From S2P Require Import InstanceService.

Section volume_service.
Context `{Env}.

Definition volume_meta (v : Volume) : metadata :=
  Some [("name", VString (vol_Name v)); ("size_gb", VInt (vol_SizeGB v))].

(** The backend volume is removed again when the row cannot be written. *)
Definition CreateVolume (ctx : Context) (name : string) (sizeGB : Z) : M Volume :=
  id ← uuid_New;
  created ← Now;
  updated ← Now;
  let vol := MkVolume id (UserIDFromContext ctx) name sizeGB VolumeStatusAvailable None ""
               created updated in
  let dockerName := docker_volume_name (vol_ID vol) in
  wrap_err (Wrap Internal "failed to create volume") (perform (World.CreateVolume dockerName)) ;;
  r ← attempt (volume_Create vol);
  match r with
  | inl err => ignore (perform (World.DeleteVolume dockerName)) ;; fail err
  | inr _ =>
      ignore (RecordEvent ctx "VOLUME_CREATE" (uuid_string (vol_ID vol)) "VOLUME" (volume_meta vol)) ;;
      ignore (Log (vol_UserID vol) "volume.create" "volume" (uuid_string (vol_ID vol))
                (volume_meta vol)) ;;
      mret vol
  end.

Definition ListVolumes (ctx : Context) : M (list Volume) := volume_List ctx.

Definition GetVolume (ctx : Context) (idOrName : string) : M Volume :=
  match uuid_parse idOrName with
  | Some id => volume_GetByID ctx id
  | None => volume_GetByName ctx idOrName
  end.

Definition DeleteVolume (ctx : Context) (idOrName : string) : M unit :=
  vol ← GetVolume ctx idOrName;
  guard_err (bool_decide (vol_Status vol = VolumeStatusInUse))
    (New InvalidInput "cannot delete volume that is in use") ;;
  ignore (perform (World.DeleteVolume (docker_volume_name (vol_ID vol)))) ;;
  volume_Delete ctx (vol_ID vol) ;;
  ignore (RecordEvent ctx "VOLUME_DELETE" (uuid_string (vol_ID vol)) "VOLUME" (Some [])) ;;
  ignore (Log (vol_UserID vol) "volume.delete" "volume" (uuid_string (vol_ID vol))
            (Some [("name", VString (vol_Name vol))])).

Definition ReleaseVolumesForInstance (ctx : Context) (instanceID : uuid) : M unit :=
  volumes ← volume_ListByInstanceID ctx instanceID;
  foreach volumes (λ vol, now ← Now; ignore (volume_Update (released vol now))).

End volume_service.

#[global] Typeclasses Opaque CreateVolume GetVolume DeleteVolume ReleaseVolumesForInstance.

(** ** What the operations touch *)

Section frames.
Context `{Env} {T : Type} (p : World → T) `{!Indep p w_tick}.

#[export] Instance CreateVolume_frame ctx n s :
  Indep p w_calls → Indep p t_volumes → Indep p t_events → Indep p t_audit →
  Frame p (CreateVolume ctx n s).
Proof. intros. unfold CreateVolume. apply _. Qed.
#[export] Instance GetVolume_frame ctx s : Frame p (GetVolume ctx s).
Proof. unfold GetVolume. apply _. Qed.
#[export] Instance DeleteVolume_frame ctx s :
  Indep p w_calls → Indep p t_volumes → Indep p t_snapshots → Indep p t_events → Indep p t_audit →
  Frame p (DeleteVolume ctx s).
Proof. intros. unfold DeleteVolume. apply _. Qed.
#[export] Instance ReleaseVolumesForInstance_frame ctx i :
  Indep p t_volumes → Frame p (ReleaseVolumesForInstance ctx i).
Proof. intros. unfold ReleaseVolumesForInstance. apply _. Qed.
End frames.

Section no_panic.
Context `{Env}.
#[export] Instance CreateVolume_no_panic ctx n s : NoPanic (CreateVolume ctx n s).
Proof. unfold CreateVolume. apply _. Qed.
#[export] Instance GetVolume_no_panic ctx s : NoPanic (GetVolume ctx s).
Proof. unfold GetVolume. apply _. Qed.
#[export] Instance DeleteVolume_no_panic ctx s : NoPanic (DeleteVolume ctx s).
Proof. unfold DeleteVolume. apply _. Qed.
End no_panic.
