(* ===== verification/NetworkService.v ===== *)
(** * [services/vpc.go] and [services/subnet.go]: private networks *)
From S2P Require Import Prelude GoStd Net Errors Domain DomainData World Logic Sql InstanceRepo NetworkRepo.

Section network_service.
Context `{Env}.

(** ** VPCs *)

(** The CIDR block of [NewVpcService]: a configured one or the fallback. *)
Definition NewVpcService (defaultCIDR : string) : string :=
  if bool_decide (defaultCIDR = "") then "10.0.0.0/16" else defaultCIDR.

(** [int(vpcID[0]) + 100], from the first of the sixteen bytes. *)
Definition vxlan_id (vpcID : uuid) : Z := Z.of_N (N.shiftr vpcID 120) + 100.

Definition bridge_name (vpcID : uuid) : string := "br-vpc-" +:+ str_prefix 8 (uuid_string vpcID).

Definition CreateVPC (defaultCIDR : string) (ctx : Context) (name cidrBlock : string) : M VPC :=
  let cidrBlock := if bool_decide (cidrBlock = "") then defaultCIDR else cidrBlock in
  let userID := UserIDFromContext ctx in
  vpcID ← uuid_New;
  let bridgeName := bridge_name vpcID in
  wrap_err (Wrap Internal "failed to create OVS bridge")
    (perform (CreateBridge bridgeName (vxlan_id vpcID))) ;;
  let arn := "arn:thecloud:vpc:local:" +:+ uuid_string userID +:+ ":vpc/" +:+ uuid_string vpcID in
  created ← Now;
  let vpc := MkVPC vpcID userID name cidrBlock bridgeName (vxlan_id vpcID) "active" arn created in
  r ← attempt (vpc_Create vpc);
  match r with
  | inl err =>
      ignore (perform (DeleteBridge bridgeName)) ;;
      fail (Wrap Internal "failed to create VPC in database" err)
  | inr _ =>
      ignore (Log (vpc_UserID vpc) "vpc.create" "vpc" (uuid_string (vpc_ID vpc))
                (Some [("name", VString (vpc_Name vpc)); ("cidr_block", VString (vpc_CIDRBlock vpc));
                       ("arn", VString (vpc_ARN vpc))])) ;;
      mret vpc
  end.

Definition GetVPC (ctx : Context) (idOrName : string) : M VPC :=
  match uuid_parse idOrName with
  | Some id => vpc_GetByID ctx id
  | None => vpc_GetByName ctx idOrName
  end.

Definition ListVPCs (ctx : Context) : M (list VPC) := vpc_List ctx.

Definition DeleteVPC (ctx : Context) (idOrName : string) : M unit :=
  vpc ← GetVPC ctx idOrName;
  wrap_err (Wrap Internal "failed to remove OVS bridge")
    (perform (DeleteBridge (vpc_NetworkID vpc))) ;;
  wrap_err (Wrap Internal "failed to delete VPC from database") (vpc_Delete ctx (vpc_ID vpc)) ;;
  ignore (Log (vpc_UserID vpc) "vpc.delete" "vpc" (uuid_string (vpc_ID vpc))
            (Some [("name", VString (vpc_Name vpc))])).

(** ** Subnets *)

Definition CreateSubnet (ctx : Context) (vpcID : uuid) (name cidrBlock az : string) : M Subnet :=
  let userID := UserIDFromContext ctx in
  vpc ← vpc_GetByID ctx vpcID;
  '(_, vpcNet) ← from_opt
      (Wrap Internal "invalid VPC CIDR" (ExternalError ("invalid CIDR address: " +:+ vpc_CIDRBlock vpc)))
      (ParseCIDR (vpc_CIDRBlock vpc));
  '(ip, subnetNet) ← from_opt (New InvalidInput "invalid subnet CIDR block") (ParseCIDR cidrBlock);
  guard_err (negb (Contains vpcNet ip))
    (New InvalidInput "subnet CIDR must be within VPC CIDR range") ;;
  let gatewayIP := calculateGatewayIP ip subnetNet in
  subnetID ← uuid_New;
  let arn := "arn:thecloud:subnet:local:" +:+ uuid_string userID +:+ ":subnet/"
             +:+ uuid_string subnetID in
  created ← Now;
  let subnet := MkSubnet subnetID userID vpcID name cidrBlock az gatewayIP arn "available" created in
  subnet_Create subnet ;;
  ignore (Log userID "subnet.create" "subnet" (uuid_string subnetID)
            (Some [("vpc_id", VString (uuid_string vpcID)); ("name", VString name);
                   ("cidr_block", VString cidrBlock)])) ;;
  mret subnet.

Definition GetSubnet (ctx : Context) (idOrName : string) (vpcID : uuid) : M Subnet :=
  match uuid_parse idOrName with
  | Some id => subnet_GetByID ctx id
  | None => subnet_GetByName ctx vpcID idOrName
  end.

Definition ListSubnets (ctx : Context) (vpcID : uuid) : M (list Subnet) := subnet_ListByVPC ctx vpcID.

Definition DeleteSubnet (ctx : Context) (id : uuid) : M unit :=
  subnet ← subnet_GetByID ctx id;
  subnet_Delete ctx id ;;
  ignore (Log (sn_UserID subnet) "subnet.delete" "subnet" (uuid_string id) None).

End network_service.

#[global] Typeclasses Opaque CreateVPC GetVPC DeleteVPC CreateSubnet DeleteSubnet.

(** ** What the operations touch *)

Section frames.
Context `{Env} {T : Type} (p : World → T) `{!Indep p w_tick}.

#[export] Instance CreateVPC_frame d ctx n c :
  Indep p w_calls → Indep p t_vpcs → Indep p t_audit → Frame p (CreateVPC d ctx n c).
Proof. intros. unfold CreateVPC. apply _. Qed.
#[export] Instance GetVPC_frame ctx s : Frame p (GetVPC ctx s).
Proof. unfold GetVPC. apply _. Qed.
#[export] Instance DeleteVPC_frame ctx s :
  Indep p w_calls → Indep p t_vpcs → Indep p t_subnets → Indep p t_security_rules →
  Indep p t_sg_instances → Indep p t_security_groups → Indep p t_databases → Indep p t_audit →
  Frame p (DeleteVPC ctx s).
Proof. intros. unfold DeleteVPC. apply _. Qed.
#[export] Instance CreateSubnet_frame ctx v n c az :
  Indep p t_subnets → Indep p t_audit → Frame p (CreateSubnet ctx v n c az).
Proof.
  intros. unfold CreateSubnet. apply steps_bind; [apply _..|]. intros vpc.
  apply steps_bind; [apply _..|]. intros [? ?].
  apply steps_bind; [apply _..|]. intros [? ?]. apply _.
Qed.
#[export] Instance DeleteSubnet_frame ctx id :
  Indep p t_subnets → Indep p t_audit → Frame p (DeleteSubnet ctx id).
Proof. intros. unfold DeleteSubnet. apply _. Qed.
End frames.

Section no_panic.
Context `{Env}.
#[export] Instance CreateVPC_no_panic d ctx n c : NoPanic (CreateVPC d ctx n c).
Proof. unfold CreateVPC. apply _. Qed.
#[export] Instance GetVPC_no_panic ctx s : NoPanic (GetVPC ctx s).
Proof. unfold GetVPC. apply _. Qed.
#[export] Instance DeleteVPC_no_panic ctx s : NoPanic (DeleteVPC ctx s).
Proof. unfold DeleteVPC. apply _. Qed.
#[export] Instance CreateSubnet_no_panic ctx v n c az : NoPanic (CreateSubnet ctx v n c az).
Proof.
  unfold CreateSubnet. apply no_panic_bind; [apply _|]. intros vpc.
  apply no_panic_bind; [apply _|]. intros [? ?].
  apply no_panic_bind; [apply _|]. intros [? ?]. apply _.
Qed.
#[export] Instance DeleteSubnet_no_panic ctx id : NoPanic (DeleteSubnet ctx id).
Proof. unfold DeleteSubnet. apply _. Qed.
End no_panic.
