(* ===== verification/LBRepo.v ===== *)
(** * [repositories/postgres/lb_repo.go]: load balancers and their targets *)
From S2P Require Import Prelude GoStd Net Errors Domain DomainData World Logic Sql InstanceRepo.

Section lb_repo.
Context `{Env}.

(** The idempotency key is UNIQUE over all users, the empty one included. *)
Definition lb_Create (lb : LoadBalancer) : M unit :=
  wrap_err (Wrap Internal "failed to create load balancer")
    (db_exec (sql_insert t_lbs (lb_ID lb) lb (λ w,
       fk_ok (t_vpcs w) (Some (lb_VpcID lb)) && user_fk (lb_UserID lb) w && int4 (lb_Port lb)
       && no_row (λ r, bool_decide (lb_IdempotencyKey r = lb_IdempotencyKey lb)) (t_lbs w)))).

Definition lb_GetByID (ctx : Context) (id : uuid) : M LoadBalancer :=
  wrap_err (norows ErrLBNotFound "failed to get load balancer")
    (db_query_row (λ w, by_pk (t_lbs w) id (of_user lb_UserID (UserIDFromContext ctx)))).

Definition lb_GetByIdempotencyKey (ctx : Context) (key : string) : M LoadBalancer :=
  guard_err (bool_decide (key = "")) (New NotFound "idempotency key empty") ;;
  wrap_err (norows (New NotFound "load balancer not found by idempotency key")
                   "failed to get load balancer by idempotency key")
    (db_query_row (λ w,
       select (λ r, bool_decide (lb_IdempotencyKey r = key)
                    && of_user lb_UserID (UserIDFromContext ctx) r) (t_lbs w))).

Definition lb_List (ctx : Context) : M (list LoadBalancer) :=
  l ← wrap_err (Wrap Internal "failed to list load balancers")
        (db_query (λ w, select (of_user lb_UserID (UserIDFromContext ctx)) (t_lbs w)));
  mret (order_desc lb_CreatedAt l).

Definition lb_ListAll : M (list LoadBalancer) :=
  l ← wrap_err (Wrap Internal "failed to list all load balancers")
        (db_query (λ w, select (λ _, true) (t_lbs w)));
  mret (order_desc lb_CreatedAt l).

Definition lb_Update (lb : LoadBalancer) : M LoadBalancer :=
  n ← wrap_err (Wrap Internal "failed to update load balancer")
        (db_exec (sql_update t_lbs (lb_ID lb)
           (λ r, bool_decide (lb_Version r = lb_Version lb) && of_user lb_UserID (lb_UserID lb) r)
           (λ _ r, if int4 (lb_Port lb) && int4 (lb_Version r + 1) then
                     Some (r <| lb_Name := lb_Name lb |> <| lb_Port := lb_Port lb |>
                             <| lb_Algorithm := lb_Algorithm lb |> <| lb_Status := lb_Status lb |>
                             <| lb_Version ::= (λ v, v + 1) |>)
                   else None)));
  guard_err (Nat.eqb n 0)
    (New Conflict "update conflict: load balancer was modified or not found") ;;
  mret (lb <| lb_Version ::= (λ v, int_add v 1) |>).

(** ON DELETE CASCADE of the targets, SET NULL of the scaling groups. *)
Definition lb_cascade (id : uuid) (w : World) : World :=
  w <| t_lb_targets ::= filter (λ kv, tgt_LBID kv.2 ≠ id) |>
    <| t_groups ::= fmap (λ g, if bool_decide (sg_LoadBalancerID g = Some id)
                                then g <| sg_LoadBalancerID := None |> else g) |>.

Definition lb_Delete (ctx : Context) (id : uuid) : M unit :=
  n ← wrap_err (Wrap Internal "failed to delete load balancer")
        (db_exec (sql_delete t_lbs id (of_user lb_UserID (UserIDFromContext ctx))
           (λ _, true) (lb_cascade id)));
  guard_err (Nat.eqb n 0) ErrLBNotFound.

(** ** Targets *)

Definition target_of (lbID instanceID : uuid) (t : LBTarget) : bool :=
  bool_decide (tgt_LBID t = lbID) && bool_decide (tgt_InstanceID t = instanceID).

Definition lb_AddTarget (target : LBTarget) : M unit :=
  wrap_err (Wrap Internal "failed to add load balancer target")
    (db_exec (sql_insert t_lb_targets (tgt_ID target) target (λ w,
       fk_ok (t_lbs w) (Some (tgt_LBID target))
       && fk_ok (t_instances w) (Some (tgt_InstanceID target))
       && int4 (tgt_Port target) && int4 (tgt_Weight target)
       && no_row (target_of (tgt_LBID target) (tgt_InstanceID target)) (t_lb_targets w)))).

Definition lb_RemoveTarget (lbID instanceID : uuid) : M unit :=
  n ← wrap_err (Wrap Internal "failed to remove load balancer target")
        (db_exec (sql_delete_where t_lb_targets (target_of lbID instanceID)));
  guard_err (Nat.eqb n 0) (New NotFound "target not found").

Definition lb_ListTargets (lbID : uuid) : M (list LBTarget) :=
  wrap_err (Wrap Internal "failed to list load balancer targets")
    (db_query (λ w, select (λ t, bool_decide (tgt_LBID t = lbID)) (t_lb_targets w))).

Definition lb_UpdateTargetHealth (lbID instanceID : uuid) (health : string) : M unit :=
  wrap_err (Wrap Internal "failed to update target health")
    (db_exec (sql_update_where t_lb_targets (target_of lbID instanceID)
                (λ t, t <| tgt_Health := health |>))) ;;
  mret ().

Definition lb_GetTargetsForInstance (instanceID : uuid) : M (list LBTarget) :=
  wrap_err (Wrap Internal "failed to get targets for instance")
    (db_query (λ w, select (λ t, bool_decide (tgt_InstanceID t = instanceID)) (t_lb_targets w))).

End lb_repo.

#[global] Typeclasses Opaque lb_Create lb_GetByID lb_GetByIdempotencyKey lb_List lb_ListAll lb_Update
  lb_Delete lb_AddTarget lb_RemoveTarget lb_ListTargets lb_UpdateTargetHealth lb_GetTargetsForInstance.

(** ** What the operations touch *)

Section frames.
Context `{Env} {T : Type} (p : World → T) `{!Indep p w_tick}.

#[export] Instance lb_Create_frame lb : Indep p t_lbs → Frame p (lb_Create lb).
Proof. intros. unfold lb_Create. apply _. Qed.
#[export] Instance lb_GetByID_frame ctx id : Frame p (lb_GetByID ctx id).
Proof. intros. unfold lb_GetByID. apply _. Qed.
#[export] Instance lb_GetByIdempotencyKey_frame ctx k : Frame p (lb_GetByIdempotencyKey ctx k).
Proof. intros. unfold lb_GetByIdempotencyKey. apply _. Qed.
#[export] Instance lb_List_frame ctx : Frame p (lb_List ctx).
Proof. intros. unfold lb_List. apply _. Qed.
#[export] Instance lb_ListAll_frame : Frame p lb_ListAll.
Proof. intros. unfold lb_ListAll. apply _. Qed.
#[export] Instance lb_Update_frame lb : Indep p t_lbs → Frame p (lb_Update lb).
Proof. intros. unfold lb_Update. apply _. Qed.
#[export] Instance lb_AddTarget_frame t : Indep p t_lb_targets → Frame p (lb_AddTarget t).
Proof. intros. unfold lb_AddTarget. apply _. Qed.
#[export] Instance lb_RemoveTarget_frame l i : Indep p t_lb_targets → Frame p (lb_RemoveTarget l i).
Proof. intros. unfold lb_RemoveTarget. apply _. Qed.
#[export] Instance lb_ListTargets_frame l : Frame p (lb_ListTargets l).
Proof. intros. unfold lb_ListTargets. apply _. Qed.
#[export] Instance lb_UpdateTargetHealth_frame l i h : Indep p t_lb_targets → Frame p (lb_UpdateTargetHealth l i h).
Proof. intros. unfold lb_UpdateTargetHealth. apply _. Qed.
#[export] Instance lb_GetTargetsForInstance_frame i : Frame p (lb_GetTargetsForInstance i).
Proof. intros. unfold lb_GetTargetsForInstance. apply _. Qed.
#[export] Instance lb_Delete_frame ctx id :
  Indep p t_lbs → Indep p t_lb_targets → Indep p t_groups → Frame p (lb_Delete ctx id).
Proof.
  intros. unfold lb_Delete. apply steps_bind; [apply _| |apply _].
  apply steps_wrap_err, steps_db_exec; [apply _..|].
  apply sql_delete_same; [apply _|]. intros w. unfold lb_cascade.
  rewrite (indep (p := p) (q := t_groups)). apply indep.
Qed.
End frames.

Section no_panic.
Context `{Env}.

#[export] Instance lb_Create_no_panic lb : NoPanic (lb_Create lb).
Proof. unfold lb_Create. apply _. Qed.
#[export] Instance lb_GetByID_no_panic ctx id : NoPanic (lb_GetByID ctx id).
Proof. unfold lb_GetByID. apply _. Qed.
#[export] Instance lb_GetByIdempotencyKey_no_panic ctx k : NoPanic (lb_GetByIdempotencyKey ctx k).
Proof. unfold lb_GetByIdempotencyKey. apply _. Qed.
#[export] Instance lb_List_no_panic ctx : NoPanic (lb_List ctx).
Proof. unfold lb_List. apply _. Qed.
#[export] Instance lb_ListAll_no_panic : NoPanic lb_ListAll.
Proof. unfold lb_ListAll. apply _. Qed.
#[export] Instance lb_Update_no_panic lb : NoPanic (lb_Update lb).
Proof. unfold lb_Update. apply _. Qed.
#[export] Instance lb_Delete_no_panic ctx id : NoPanic (lb_Delete ctx id).
Proof. unfold lb_Delete. apply _. Qed.
#[export] Instance lb_AddTarget_no_panic t : NoPanic (lb_AddTarget t).
Proof. unfold lb_AddTarget. apply _. Qed.
#[export] Instance lb_RemoveTarget_no_panic l i : NoPanic (lb_RemoveTarget l i).
Proof. unfold lb_RemoveTarget. apply _. Qed.
#[export] Instance lb_ListTargets_no_panic l : NoPanic (lb_ListTargets l).
Proof. unfold lb_ListTargets. apply _. Qed.
#[export] Instance lb_UpdateTargetHealth_no_panic l i h : NoPanic (lb_UpdateTargetHealth l i h).
Proof. unfold lb_UpdateTargetHealth. apply _. Qed.
#[export] Instance lb_GetTargetsForInstance_no_panic i : NoPanic (lb_GetTargetsForInstance i).
Proof. unfold lb_GetTargetsForInstance. apply _. Qed.
End no_panic.
