(* ===== verification/LBService.v ===== *)
(** * [services/loadbalancer.go] and [services/lb_worker.go]

    The service writes the desired state of a load balancer; the worker, every
    five seconds, deploys the ones in CREATING, removes the ones in DELETED and
    refreshes the configuration and the health of the ones in ACTIVE. *)
From S2P Require Import Prelude GoStd Net Errors Domain DomainData World Logic Sql InstanceRepo NetworkRepo.
From S2P Require Import LBRepo.

Section lb_service.
Context `{Env}.

(** ** The service *)

Definition LB_Create (ctx : Context) (name : string) (vpcID : uuid) (port : Z) (algo : string)
    (idempotencyKey : string) : M LoadBalancer :=
  existing ← (if bool_decide (idempotencyKey = "") then mret None
              else r ← attempt (lb_GetByIdempotencyKey ctx idempotencyKey);
                   mret (match r with inr lb => Some lb | inl _ => None end));
  match existing with
  | Some lb => mret lb
  | None =>
      wrap_err (Wrap NotFound "VPC not found") (vpc_GetByID ctx vpcID) ;;
      let algo := if bool_decide (algo = "") then "round-robin" else algo in
      id ← uuid_New;
      created ← Now;
      let lb := MkLoadBalancer id (UserIDFromContext ctx) idempotencyKey name vpcID port algo
                  LBStatusCreating 1 created in
      lb_Create lb ;;
      ignore (Log (lb_UserID lb) "lb.create" "loadbalancer" (uuid_string (lb_ID lb))
                (Some [("name", VString (lb_Name lb))])) ;;
      mret lb
  end.

Definition LB_Get (ctx : Context) (id : uuid) : M LoadBalancer := lb_GetByID ctx id.
Definition LB_List (ctx : Context) : M (list LoadBalancer) := lb_List ctx.

Definition LB_Delete (ctx : Context) (id : uuid) : M unit :=
  lb ← lb_GetByID ctx id;
  lb ← lb_Update (lb <| lb_Status := LBStatusDeleted |>);
  ignore (Log (lb_UserID lb) "lb.delete" "loadbalancer" (uuid_string (lb_ID lb))
            (Some [("name", VString (lb_Name lb))])).

Definition AddTarget (ctx : Context) (lbID instanceID : uuid) (port weight : Z) : M unit :=
  lb ← lb_GetByID ctx lbID;
  inst ← wrap_err (Wrap NotFound "target instance not found") (instance_GetByID ctx instanceID);
  guard_err (negb (bool_decide (inst_VpcID inst = Some (lb_VpcID lb)))) ErrLBCrossVPC ;;
  let weight := if bool_decide (weight = 0) then 1 else weight in
  id ← uuid_New;
  lb_AddTarget (MkLBTarget id lbID instanceID port weight "unknown") ;;
  ignore (Log (lb_UserID lb) "lb.target_add" "loadbalancer" (uuid_string (lb_ID lb))
            (Some [("instance_id", VString (uuid_string instanceID)); ("port", VInt port)])).

Definition RemoveTarget (ctx : Context) (lbID instanceID : uuid) : M unit :=
  lb ← lb_GetByID ctx lbID;
  lb_RemoveTarget lbID instanceID ;;
  ignore (Log (lb_UserID lb) "lb.target_remove" "loadbalancer" (uuid_string (lb_ID lb))
            (Some [("instance_id", VString (uuid_string instanceID))])).

Definition ListTargets (ctx : Context) (lbID : uuid) : M (list LBTarget) := lb_ListTargets lbID.

(** ** The port mappings of a target's instance *)

(** [splitCommas], [splitColons]: a last piece that is empty is left out. *)
Definition split_pieces (c : ascii) (s : string) : list string :=
  let l := split_on c s in
  if bool_decide (last l = Some "") then take (length l - 1) l else l.

(** [parsePorts]: from the host port to the container port. *)
Definition parsePorts (ports : string) : gmap string Z :=
  foldl (λ m p,
    match split_pieces ":"%char p with
    | [h; c] => <[default "" (Sscanf_s h) := default 0 (Sscanf_d c)]> m
    | _ => m
    end) ∅ (split_pieces ","%char ports).

(** ** The worker *)

(** [if lbs, err := ListAll(ctx); err == nil { for _, lb := range lbs { ... } }] *)
Definition for_all_lbs (body : LoadBalancer → M unit) : M unit :=
  r ← attempt lb_ListAll;
  match r with
  | inl _ => mret ()
  | inr lbs => foreach lbs body
  end.

Definition deployLB (lb : LoadBalancer) : M unit :=
  r ← attempt (lb_ListTargets (lb_ID lb));
  match r with
  | inl _ => mret ()
  | inr targets =>
      r ← attempt (perform (DeployProxy lb targets));
      match r with
      | inl _ => mret ()
      | inr _ => ignore (lb_Update (lb <| lb_Status := LBStatusActive |>))
      end
  end.

Definition cleanupLB (ctx : Context) (lb : LoadBalancer) : M unit :=
  ignore (perform (RemoveProxy (lb_ID lb))) ;;
  ignore (lb_Delete ctx (lb_ID lb)).

Definition when_status (st : LBStatus) (body : LoadBalancer → M unit) (lb : LoadBalancer) : M unit :=
  if bool_decide (lb_Status lb = st) then body lb else mret ().

Definition processCreatingLBs : M unit := for_all_lbs (when_status LBStatusCreating deployLB).

Definition processDeletingLBs (ctx : Context) : M unit :=
  for_all_lbs (when_status LBStatusDeleted (λ lb, cleanupLB (WithUserID ctx (lb_UserID lb)) lb)).

Definition updateActiveLB (lb : LoadBalancer) : M unit :=
  r ← attempt (lb_ListTargets (lb_ID lb));
  match r with
  | inl _ => mret ()
  | inr targets => ignore (perform (UpdateProxyConfig lb targets))
  end.

Definition processActiveLBs : M unit := for_all_lbs (when_status LBStatusActive updateActiveLB).

(** The first host port, in the order the map is traversed, mapped to the target's port. *)
Definition host_port (inst : Instance) (t : LBTarget) : M string :=
  tick ← next_tick;
  mret (match filter (λ hc, hc.2 = tgt_Port t)
                (env_order tick _ (map_to_list (parsePorts (inst_Ports inst)))) with
        | (h, _) :: _ => h
        | [] => ""
        end).

Definition probe (hostPort : string) : M string :=
  if bool_decide (hostPort = "") then mret "unhealthy"
  else
    r ← attempt (perform (DialTCP ("localhost:" +:+ hostPort)));
    mret (match r with inr _ => "healthy" | inl _ => "unhealthy" end).

Definition checkTarget (ctx : Context) (lb : LoadBalancer) (t : LBTarget) : M unit :=
  r ← attempt (instance_GetByID ctx (tgt_InstanceID t));
  match r with
  | inl _ => mret ()
  | inr inst =>
      hostPort ← host_port inst t;
      status ← probe hostPort;
      if bool_decide (tgt_Health t = status) then mret ()
      else ignore (lb_UpdateTargetHealth (lb_ID lb) (tgt_InstanceID t) status)
  end.

Definition checkLBHealth (ctx : Context) (lb : LoadBalancer) : M unit :=
  r ← attempt (lb_ListTargets (lb_ID lb));
  match r with
  | inl _ => mret ()
  | inr targets => foreach targets (checkTarget ctx lb)
  end.

Definition processHealthChecks (ctx : Context) : M unit :=
  for_all_lbs (when_status LBStatusActive (λ lb, checkLBHealth (WithUserID ctx (lb_UserID lb)) lb)).

(** One turn of the loop of [Run]. *)
Definition lb_worker_tick (ctx : Context) : M unit :=
  processCreatingLBs ;; processDeletingLBs ctx ;; processActiveLBs ;; processHealthChecks ctx.

End lb_service.

#[global] Typeclasses Opaque LB_Create LB_Delete AddTarget RemoveTarget for_all_lbs deployLB cleanupLB
  when_status processCreatingLBs processDeletingLBs updateActiveLB processActiveLBs host_port probe
  checkTarget checkLBHealth processHealthChecks lb_worker_tick.

(** ** What the operations touch *)

Section frames.
Context `{Env} {T : Type} (p : World → T) `{!Indep p w_tick}.

#[export] Instance LB_Create_frame ctx n v po a k : Indep p t_lbs → Indep p t_audit → Frame p (LB_Create ctx n v po a k).
Proof. intros. unfold LB_Create. apply _. Qed.
#[export] Instance LB_Delete_frame ctx id : Indep p t_lbs → Indep p t_audit → Frame p (LB_Delete ctx id).
Proof. intros. unfold LB_Delete. apply _. Qed.
#[export] Instance AddTarget_frame ctx l i po w : Indep p t_lb_targets → Indep p t_audit → Frame p (AddTarget ctx l i po w).
Proof. intros. unfold AddTarget. apply _. Qed.
#[export] Instance RemoveTarget_frame ctx l i : Indep p t_lb_targets → Indep p t_audit → Frame p (RemoveTarget ctx l i).
Proof. intros. unfold RemoveTarget. apply _. Qed.
#[export] Instance for_all_lbs_frame body : (∀ lb, Frame p (body lb)) → Frame p (for_all_lbs body).
Proof. intros. unfold for_all_lbs. apply _. Qed.
#[export] Instance when_status_frame st body lb : Frame p (body lb) → Frame p (when_status st body lb).
Proof. intros. unfold when_status. apply _. Qed.
#[export] Instance deployLB_frame lb : Indep p w_calls → Indep p t_lbs → Frame p (deployLB lb).
Proof. intros. unfold deployLB. apply _. Qed.
#[export] Instance cleanupLB_frame ctx lb : Indep p w_calls → Indep p t_lbs → Indep p t_lb_targets → Indep p t_groups → Frame p (cleanupLB ctx lb).
Proof. intros. unfold cleanupLB. apply _. Qed.
#[export] Instance updateActiveLB_frame lb : Indep p w_calls → Frame p (updateActiveLB lb).
Proof. intros. unfold updateActiveLB. apply _. Qed.
#[export] Instance host_port_frame i t : Frame p (host_port i t).
Proof. intros. unfold host_port. apply _. Qed.
#[export] Instance probe_frame h : Indep p w_calls → Frame p (probe h).
Proof. intros. unfold probe. apply _. Qed.
#[export] Instance checkTarget_frame ctx l t : Indep p w_calls → Indep p t_lb_targets → Frame p (checkTarget ctx l t).
Proof. intros. unfold checkTarget. apply _. Qed.
#[export] Instance checkLBHealth_frame ctx lb : Indep p w_calls → Indep p t_lb_targets → Frame p (checkLBHealth ctx lb).
Proof. intros. unfold checkLBHealth. apply _. Qed.
#[export] Instance lb_worker_tick_frame ctx :
  Indep p w_calls → Indep p t_lbs → Indep p t_lb_targets → Indep p t_groups →
  Frame p (lb_worker_tick ctx).
Proof.
  intros. unfold lb_worker_tick, processCreatingLBs, processDeletingLBs, processActiveLBs,
    processHealthChecks. apply _.
Qed.
End frames.

Section no_panic.
Context `{Env}.

#[export] Instance LB_Create_no_panic ctx n v po a k : NoPanic (LB_Create ctx n v po a k).
Proof. unfold LB_Create. apply _. Qed.
#[export] Instance LB_Delete_no_panic ctx id : NoPanic (LB_Delete ctx id).
Proof. unfold LB_Delete. apply _. Qed.
#[export] Instance AddTarget_no_panic ctx l i po w : NoPanic (AddTarget ctx l i po w).
Proof. unfold AddTarget. apply _. Qed.
#[export] Instance RemoveTarget_no_panic ctx l i : NoPanic (RemoveTarget ctx l i).
Proof. unfold RemoveTarget. apply _. Qed.
#[export] Instance for_all_lbs_no_panic body : (∀ lb, NoPanic (body lb)) → NoPanic (for_all_lbs body).
Proof. intros. unfold for_all_lbs. apply _. Qed.
#[export] Instance when_status_no_panic st body lb : NoPanic (body lb) → NoPanic (when_status st body lb).
Proof. intros. unfold when_status. apply _. Qed.
#[export] Instance deployLB_no_panic lb : NoPanic (deployLB lb).
Proof. unfold deployLB. apply _. Qed.
#[export] Instance cleanupLB_no_panic ctx lb : NoPanic (cleanupLB ctx lb).
Proof. unfold cleanupLB. apply _. Qed.
#[export] Instance updateActiveLB_no_panic lb : NoPanic (updateActiveLB lb).
Proof. unfold updateActiveLB. apply _. Qed.
#[export] Instance host_port_no_panic i t : NoPanic (host_port i t).
Proof. unfold host_port. apply _. Qed.
#[export] Instance probe_no_panic h : NoPanic (probe h).
Proof. unfold probe. apply _. Qed.
#[export] Instance checkTarget_no_panic ctx l t : NoPanic (checkTarget ctx l t).
Proof. unfold checkTarget. apply _. Qed.
#[export] Instance checkLBHealth_no_panic ctx lb : NoPanic (checkLBHealth ctx lb).
Proof. unfold checkLBHealth. apply _. Qed.
#[export] Instance lb_worker_tick_no_panic ctx : NoPanic (lb_worker_tick ctx).
Proof.
  unfold lb_worker_tick, processCreatingLBs, processDeletingLBs, processActiveLBs,
    processHealthChecks. apply _.
Qed.
End no_panic.

Section total.
Context `{Env}.
#[export] Instance for_all_lbs_total body : (∀ lb, Total (body lb)) → Total (for_all_lbs body).
Proof. intros. unfold for_all_lbs. apply _. Qed.
#[export] Instance when_status_total st body lb : Total (body lb) → Total (when_status st body lb).
Proof. intros. unfold when_status. apply _. Qed.
#[export] Instance deployLB_total lb : Total (deployLB lb).
Proof. unfold deployLB. apply _. Qed.
#[export] Instance cleanupLB_total ctx lb : Total (cleanupLB ctx lb).
Proof. unfold cleanupLB. apply _. Qed.
#[export] Instance updateActiveLB_total lb : Total (updateActiveLB lb).
Proof. unfold updateActiveLB. apply _. Qed.
#[export] Instance host_port_total i t : Total (host_port i t).
Proof. intros w. by eexists. Qed.
#[export] Instance probe_total h : Total (probe h).
Proof. unfold probe. apply _. Qed.
#[export] Instance checkTarget_total ctx l t : Total (checkTarget ctx l t).
Proof. unfold checkTarget. apply _. Qed.
#[export] Instance checkLBHealth_total ctx l : Total (checkLBHealth ctx l).
Proof. unfold checkLBHealth. apply _. Qed.
End total.

Section grows.
Context `{Env}.
#[export] Instance deployLB_grows lb : Steps grows (deployLB lb).
Proof. unfold deployLB. apply _. Qed.
#[export] Instance cleanupLB_grows ctx lb : Steps grows (cleanupLB ctx lb).
Proof. unfold cleanupLB. apply _. Qed.
#[export] Instance updateActiveLB_grows lb : Steps grows (updateActiveLB lb).
Proof. unfold updateActiveLB. apply _. Qed.
#[export] Instance probe_grows h : Steps grows (probe h).
Proof. unfold probe. apply _. Qed.
#[export] Instance checkTarget_grows ctx l t : Steps grows (checkTarget ctx l t).
Proof. unfold checkTarget. apply _. Qed.
#[export] Instance checkLBHealth_grows ctx l : Steps grows (checkLBHealth ctx l).
Proof. unfold checkLBHealth. apply _. Qed.
End grows.
