(* ===== verification/AutoScalingRepo.v ===== *)
(** * [repositories/postgres/autoscaling_repo.go]: scaling groups and policies *)
From S2P Require Import Prelude GoStd Net Errors Domain DomainData World Logic Sql.

Section autoscaling_repo.
Context `{Env}.

(** The CHECK constraints of [scaling_groups]. *)
Definition group_checks (g : ScalingGroup) : bool :=
  (0 <=? sg_MinInstances g) && (sg_MaxInstances g <=? 20)
  && (sg_MinInstances g <=? sg_MaxInstances g)
  && (sg_MinInstances g <=? sg_DesiredCount g) && (sg_DesiredCount g <=? sg_MaxInstances g).

(** The failure columns are not in the INSERT and take their defaults. *)
Definition group_default_failures (g : ScalingGroup) : ScalingGroup :=
  g <| sg_FailureCount := 0 |> <| sg_LastFailureAt := None |>.

(** An empty idempotency key is stored as NULL, which UNIQUE lets repeat. *)
Definition group_insert_ok (g : ScalingGroup) (w : World) : bool :=
  user_fk (sg_UserID g) w && fk_ok (t_vpcs w) (Some (sg_VpcID g))
  && fk_ok (t_lbs w) (sg_LoadBalancerID g) && group_checks g && int4 (sg_Version g)
  && no_row (λ r, bool_decide (sg_Name r = sg_Name g)) (t_groups w)
  && no_row (λ r, bool_decide (sg_IdempotencyKey r = sg_IdempotencyKey g ∧ sg_IdempotencyKey g ≠ ""))
       (t_groups w).

Definition asg_CreateGroup (group : ScalingGroup) : M unit :=
  db_exec (sql_insert t_groups (sg_ID group) (group_default_failures group) (group_insert_ok group)).

(** The columns a SELECT names: the failure columns are not among them, so their
    fields keep Go's zero values. *)
Definition group_scan (r : ScalingGroup) : ScalingGroup := group_default_failures r.

Definition not_found_group (e : error) : error :=
  match e with ErrNoRows => New NotFound "scaling group not found" | _ => e end.

Definition asg_GetGroupByID (ctx : Context) (id : uuid) : M ScalingGroup :=
  r ← wrap_err not_found_group
        (db_query_row (λ w, by_pk (t_groups w) id (of_user sg_UserID (UserIDFromContext ctx))));
  mret (group_scan r).

Definition asg_GetGroupByIdempotencyKey (ctx : Context) (key : string) : M ScalingGroup :=
  r ← wrap_err not_found_group
        (db_query_row (λ w,
           select (λ r, bool_decide (sg_IdempotencyKey r = key) && negb (bool_decide (key = ""))
                        && of_user sg_UserID (UserIDFromContext ctx) r) (t_groups w)));
  mret (group_scan r).

Definition asg_ListGroups (ctx : Context) : M (list ScalingGroup) :=
  l ← db_query (λ w, select (of_user sg_UserID (UserIDFromContext ctx)) (t_groups w));
  mret (group_scan <$> l).

Definition asg_ListAllGroups : M (list ScalingGroup) :=
  l ← db_query (λ w, select (λ _, true) (t_groups w));
  mret (group_scan <$> l).

Definition asg_CountGroupsByVPC (ctx : Context) (vpcID : uuid) : M Z :=
  db_query_row (λ w,
    [Z.of_nat (length (select (λ r, bool_decide (sg_VpcID r = vpcID)
                                    && of_user sg_UserID (UserIDFromContext ctx) r) (t_groups w)))]).

(** The columns of the SET clause: [current_count] and the failure columns are not
    among them. *)
Definition group_update_row (g : ScalingGroup) (w : World) (r : ScalingGroup) : option ScalingGroup :=
  let r' := r <| sg_Name := sg_Name g |> <| sg_MinInstances := sg_MinInstances g |>
              <| sg_MaxInstances := sg_MaxInstances g |> <| sg_DesiredCount := sg_DesiredCount g |>
              <| sg_Status := sg_Status g |> <| sg_UpdatedAt := sg_UpdatedAt g |>
              <| sg_Version ::= (λ v, v + 1) |> in
  if group_checks r' && int4 (sg_Version r')
     && no_row (λ o, bool_decide (sg_Name o = sg_Name g ∧ sg_ID o ≠ sg_ID g)) (t_groups w)
  then Some r' else None.

Definition asg_UpdateGroup (group : ScalingGroup) : M ScalingGroup :=
  n ← db_exec (sql_update t_groups (sg_ID group)
        (λ r, bool_decide (sg_Version r = sg_Version group) && of_user sg_UserID (sg_UserID group) r)
        (group_update_row group));
  guard_err (Nat.eqb n 0) (New Conflict "scaling group update conflict or not found") ;;
  mret (group <| sg_Version ::= (λ v, int_add v 1) |>).

(** ON DELETE CASCADE of the policies and of the memberships. *)
Definition group_cascade (id : uuid) (w : World) : World :=
  w <| t_policies ::= filter (λ kv, pol_ScalingGroupID kv.2 ≠ id) |>
    <| t_group_instances ::= filter (λ kv, kv.1.1 ≠ id) |>.

Definition asg_DeleteGroup (ctx : Context) (id : uuid) : M unit :=
  n ← db_exec (sql_delete t_groups id (of_user sg_UserID (UserIDFromContext ctx))
        (λ _, true) (group_cascade id));
  guard_err (Nat.eqb n 0) (New NotFound "scaling group not found").

(** ** Policies *)

(** The CHECK constraints of [scaling_policies], on the stored target value. *)
Definition policy_checks (p : ScalingPolicy) (target : float64) : bool :=
  mem (pol_MetricType p) ["cpu"; "memory"]
  && float_gt target (float_of_int 0) && negb (float_gt target (float_of_int 100))
  && (0 <? pol_ScaleOutStep p) && (0 <? pol_ScaleInStep p) && (60 <=? pol_CooldownSec p)
  && int4 (pol_ScaleOutStep p) && int4 (pol_ScaleInStep p) && int4 (pol_CooldownSec p).

Definition policy_insert (p : ScalingPolicy) (w : World) : option (unit * World) :=
  target ← decimal_5_2 (pol_TargetValue p);
  sql_insert t_policies (pol_ID p) (p <| pol_TargetValue := target |>) (λ w,
    fk_ok (t_groups w) (Some (pol_ScalingGroupID p)) && policy_checks p target
    && no_row (λ r, bool_decide (pol_ScalingGroupID r = pol_ScalingGroupID p
                                 ∧ pol_Name r = pol_Name p)) (t_policies w)) w.

Definition asg_CreatePolicy (policy : ScalingPolicy) : M unit := db_exec (policy_insert policy).

Definition asg_GetPoliciesForGroup (groupID : uuid) : M (list ScalingPolicy) :=
  db_query (λ w, select (λ p, bool_decide (pol_ScalingGroupID p = groupID)) (t_policies w)).

(** A map from the group to its policies, in the order of the rows. *)
Definition asg_GetAllPolicies (groupIDs : list uuid) : M (uuid → list ScalingPolicy) :=
  if bool_decide (groupIDs = []) then mret (λ _, [])
  else
    l ← db_query (λ w, select (λ p, mem (pol_ScalingGroupID p) groupIDs) (t_policies w));
    mret (λ g, filter (λ p, pol_ScalingGroupID p = g) l).

Definition asg_UpdatePolicyLastScaled (policyID : uuid) (t : time) : M unit :=
  db_exec (sql_update t_policies policyID (λ _, true)
             (λ _ r, Some (r <| pol_LastScaledAt := Some t |>))) ;;
  mret ().

Definition asg_DeletePolicy (id : uuid) : M unit :=
  db_exec (sql_delete t_policies id (λ _, true) (λ _, true) (λ w, w)) ;;
  mret ().

(** ** Group membership *)

Definition asg_AddInstanceToGroup (groupID instanceID : uuid) : M unit :=
  db_exec (sql_insert t_group_instances (groupID, instanceID) () (λ w,
    fk_ok (t_groups w) (Some groupID) && fk_ok (t_instances w) (Some instanceID))).

Definition asg_RemoveInstanceFromGroup (groupID instanceID : uuid) : M unit :=
  db_exec (sql_delete t_group_instances (groupID, instanceID) (λ _, true) (λ _, true) (λ w, w)) ;;
  mret ().

(** The rows of [scaling_group_instances] of some groups. *)
Definition members (P : uuid → bool) (w : World) : list (uuid * uuid) :=
  filter (λ gi, P gi.1 = true) (map_to_list (t_group_instances w)).*1.

Definition asg_GetInstancesInGroup (groupID : uuid) : M (list uuid) :=
  l ← db_query (members (λ g, bool_decide (g = groupID)));
  mret l.*2.

Definition asg_GetAllScalingGroupInstances (groupIDs : list uuid) : M (uuid → list uuid) :=
  if bool_decide (groupIDs = []) then mret (λ _, [])
  else
    l ← db_query (members (λ g, mem g groupIDs));
    mret (λ g, (filter (λ gi, gi.1 = g) l).*2).

Definition asg_GetAverageCPU (instanceIDs : list uuid) (since : time) : M float64 :=
  if bool_decide (instanceIDs = []) then mret (float_of_int 0)
  else perform (AverageCPU instanceIDs since).

End autoscaling_repo.

#[global] Typeclasses Opaque asg_CreateGroup asg_GetGroupByID asg_GetGroupByIdempotencyKey
  asg_ListGroups asg_ListAllGroups asg_CountGroupsByVPC asg_UpdateGroup asg_DeleteGroup asg_CreatePolicy
  asg_GetPoliciesForGroup asg_GetAllPolicies asg_UpdatePolicyLastScaled asg_DeletePolicy
  asg_AddInstanceToGroup asg_RemoveInstanceFromGroup asg_GetInstancesInGroup
  asg_GetAllScalingGroupInstances asg_GetAverageCPU.

(** ** What the operations touch *)

Section frames.
Context `{Env} {T : Type} (p : World → T) `{!Indep p w_tick}.

#[export] Instance asg_CreateGroup_frame g : Indep p t_groups → Frame p (asg_CreateGroup g).
Proof. intros. unfold asg_CreateGroup. apply _. Qed.
#[export] Instance asg_GetGroupByID_frame ctx id : Frame p (asg_GetGroupByID ctx id).
Proof. intros. unfold asg_GetGroupByID. apply _. Qed.
#[export] Instance asg_GetGroupByIdempotencyKey_frame ctx k : Frame p (asg_GetGroupByIdempotencyKey ctx k).
Proof. intros. unfold asg_GetGroupByIdempotencyKey. apply _. Qed.
#[export] Instance asg_ListGroups_frame ctx : Frame p (asg_ListGroups ctx).
Proof. intros. unfold asg_ListGroups. apply _. Qed.
#[export] Instance asg_ListAllGroups_frame : Frame p asg_ListAllGroups.
Proof. intros. unfold asg_ListAllGroups. apply _. Qed.
#[export] Instance asg_CountGroupsByVPC_frame ctx v : Frame p (asg_CountGroupsByVPC ctx v).
Proof. intros. unfold asg_CountGroupsByVPC. apply _. Qed.
#[export] Instance asg_UpdateGroup_frame g : Indep p t_groups → Frame p (asg_UpdateGroup g).
Proof. intros. unfold asg_UpdateGroup. apply _. Qed.
#[export] Instance asg_GetPoliciesForGroup_frame g : Frame p (asg_GetPoliciesForGroup g).
Proof. intros. unfold asg_GetPoliciesForGroup. apply _. Qed.
#[export] Instance asg_GetAllPolicies_frame l : Frame p (asg_GetAllPolicies l).
Proof. intros. unfold asg_GetAllPolicies. apply _. Qed.
#[export] Instance asg_UpdatePolicyLastScaled_frame i t : Indep p t_policies → Frame p (asg_UpdatePolicyLastScaled i t).
Proof. intros. unfold asg_UpdatePolicyLastScaled. apply _. Qed.
#[export] Instance asg_AddInstanceToGroup_frame g i : Indep p t_group_instances → Frame p (asg_AddInstanceToGroup g i).
Proof. intros. unfold asg_AddInstanceToGroup. apply _. Qed.
#[export] Instance asg_GetInstancesInGroup_frame g : Frame p (asg_GetInstancesInGroup g).
Proof. intros. unfold asg_GetInstancesInGroup. apply _. Qed.
#[export] Instance asg_GetAllScalingGroupInstances_frame l : Frame p (asg_GetAllScalingGroupInstances l).
Proof. intros. unfold asg_GetAllScalingGroupInstances. apply _. Qed.
#[export] Instance asg_GetAverageCPU_frame l t : Indep p w_calls → Frame p (asg_GetAverageCPU l t).
Proof.
  intros. unfold asg_GetAverageCPU. case_bool_decide; [apply _|].
  apply (steps_perform _ (AverageCPU l t)). apply _.
Qed.
#[export] Instance asg_CreatePolicy_frame pol : Indep p t_policies → Frame p (asg_CreatePolicy pol).
Proof.
  intros. unfold asg_CreatePolicy. apply steps_db_exec; [apply _..|].
  intros w a w' Hs. unfold policy_insert in Hs. destruct (decimal_5_2 _); simplify_eq/=.
  eapply (writes_same p t_policies); [apply _| |exact Hs]. apply _.
Qed.
#[export] Instance asg_DeletePolicy_frame i : Indep p t_policies → Frame p (asg_DeletePolicy i).
Proof.
  intros. unfold asg_DeletePolicy. apply steps_bind; [apply _| |apply _].
  apply steps_db_exec; [apply _..|]. by apply sql_delete_same.
Qed.
#[export] Instance asg_RemoveInstanceFromGroup_frame g i :
  Indep p t_group_instances → Frame p (asg_RemoveInstanceFromGroup g i).
Proof.
  intros. unfold asg_RemoveInstanceFromGroup. apply steps_bind; [apply _| |apply _].
  apply steps_db_exec; [apply _..|]. by apply sql_delete_same.
Qed.
#[export] Instance asg_DeleteGroup_frame ctx id :
  Indep p t_groups → Indep p t_policies → Indep p t_group_instances → Frame p (asg_DeleteGroup ctx id).
Proof.
  intros. unfold asg_DeleteGroup. apply steps_bind; [apply _| |apply _].
  apply steps_db_exec; [apply _..|].
  apply sql_delete_same; [apply _|]. intros w. unfold group_cascade.
  rewrite (indep (p := p) (q := t_group_instances)). apply indep.
Qed.
End frames.

Section no_panic.
Context `{Env}.

#[export] Instance asg_CreateGroup_no_panic g : NoPanic (asg_CreateGroup g).
Proof. unfold asg_CreateGroup. apply _. Qed.
#[export] Instance asg_GetGroupByID_no_panic ctx id : NoPanic (asg_GetGroupByID ctx id).
Proof. unfold asg_GetGroupByID. apply _. Qed.
#[export] Instance asg_GetGroupByIdempotencyKey_no_panic ctx k : NoPanic (asg_GetGroupByIdempotencyKey ctx k).
Proof. unfold asg_GetGroupByIdempotencyKey. apply _. Qed.
#[export] Instance asg_ListGroups_no_panic ctx : NoPanic (asg_ListGroups ctx).
Proof. unfold asg_ListGroups. apply _. Qed.
#[export] Instance asg_ListAllGroups_no_panic : NoPanic asg_ListAllGroups.
Proof. unfold asg_ListAllGroups. apply _. Qed.
#[export] Instance asg_CountGroupsByVPC_no_panic ctx v : NoPanic (asg_CountGroupsByVPC ctx v).
Proof. unfold asg_CountGroupsByVPC. apply _. Qed.
#[export] Instance asg_UpdateGroup_no_panic g : NoPanic (asg_UpdateGroup g).
Proof. unfold asg_UpdateGroup. apply _. Qed.
#[export] Instance asg_DeleteGroup_no_panic ctx id : NoPanic (asg_DeleteGroup ctx id).
Proof. unfold asg_DeleteGroup. apply _. Qed.
#[export] Instance asg_CreatePolicy_no_panic pol : NoPanic (asg_CreatePolicy pol).
Proof. unfold asg_CreatePolicy. apply _. Qed.
#[export] Instance asg_GetPoliciesForGroup_no_panic g : NoPanic (asg_GetPoliciesForGroup g).
Proof. unfold asg_GetPoliciesForGroup. apply _. Qed.
#[export] Instance asg_GetAllPolicies_no_panic l : NoPanic (asg_GetAllPolicies l).
Proof. unfold asg_GetAllPolicies. apply _. Qed.
#[export] Instance asg_UpdatePolicyLastScaled_no_panic i t : NoPanic (asg_UpdatePolicyLastScaled i t).
Proof. unfold asg_UpdatePolicyLastScaled. apply _. Qed.
#[export] Instance asg_DeletePolicy_no_panic i : NoPanic (asg_DeletePolicy i).
Proof. unfold asg_DeletePolicy. apply _. Qed.
#[export] Instance asg_AddInstanceToGroup_no_panic g i : NoPanic (asg_AddInstanceToGroup g i).
Proof. unfold asg_AddInstanceToGroup. apply _. Qed.
#[export] Instance asg_RemoveInstanceFromGroup_no_panic g i : NoPanic (asg_RemoveInstanceFromGroup g i).
Proof. unfold asg_RemoveInstanceFromGroup. apply _. Qed.
#[export] Instance asg_GetInstancesInGroup_no_panic g : NoPanic (asg_GetInstancesInGroup g).
Proof. unfold asg_GetInstancesInGroup. apply _. Qed.
#[export] Instance asg_GetAllScalingGroupInstances_no_panic l : NoPanic (asg_GetAllScalingGroupInstances l).
Proof. unfold asg_GetAllScalingGroupInstances. apply _. Qed.
#[export] Instance asg_GetAverageCPU_no_panic l t : NoPanic (asg_GetAverageCPU l t).
Proof.
  unfold asg_GetAverageCPU. case_bool_decide; [apply _|].
  apply (no_panic_perform (AverageCPU l t)).
Qed.
End no_panic.
