(* ===== verification/Ports.v ===== *)
(** * [core/ports]: the service interfaces other components program against

    The workers call the instance and load-balancer services through the
    interfaces of [internal/core/ports].  A class gives the operations a client
    uses, and a second class what the client may rely on; the services are shown
    to be instances after their components. *)
From S2P Require Import Prelude GoStd Net Errors Domain DomainData World Logic Sql InstanceRepo NetworkRepo.
From S2P Require Import InstanceService LBRepo LBService.

(** [ports.InstanceService], the operations of the workers. *)
Class InstanceServicePort := {
  svc_LaunchInstance : Context → string → string → string → option uuid → option uuid →
                       list VolumeAttachment → M Instance;
  svc_TerminateInstance : Context → string → M unit;
}.

(** [ports.LBService], the operations of the auto-scaling worker. *)
Class LBServicePort := {
  svc_AddTarget : Context → uuid → uuid → Z → Z → M unit;
  svc_RemoveTarget : Context → uuid → uuid → M unit;
}.

(** What auto-scaling and orchestration rely on: a launch outside a subnet does not
    panic, leaves scaling groups and deployments alone and creates the row of the
    instance it returns; a termination by identifier removes at most the memberships of
    that instance. *)
Class LawfulInstanceService `{Env, InstanceServicePort} := {
  launch_no_panic ctx n i p v : NoPanic (svc_LaunchInstance ctx n i p v None []);
  launch_groups ctx n i p v s vs : Frame t_groups (svc_LaunchInstance ctx n i p v s vs);
  launch_policies ctx n i p v s vs : Frame t_policies (svc_LaunchInstance ctx n i p v s vs);
  launch_members ctx n i p v s vs : Frame t_group_instances (svc_LaunchInstance ctx n i p v s vs);
  launch_containers ctx n i p v s vs : Frame t_containers (svc_LaunchInstance ctx n i p v s vs);
  launch_fresh ctx n i p v s vs w inst w' :
    svc_LaunchInstance ctx n i p v s vs w = (Ok inst, w') →
    t_instances w !! inst_ID inst = None ∧ is_Some (t_instances w' !! inst_ID inst);
  terminate_no_panic ctx s : NoPanic (svc_TerminateInstance ctx s);
  terminate_groups ctx s : Frame t_groups (svc_TerminateInstance ctx s);
  terminate_policies ctx s : Frame t_policies (svc_TerminateInstance ctx s);
  launch_keyed ctx n i p v s vs :
    Steps (holds t_instances (keyed inst_ID)) (svc_LaunchInstance ctx n i p v s vs);
  terminate_keyed ctx s : Steps (holds t_instances (keyed inst_ID)) (svc_TerminateInstance ctx s);
  terminate_members ctx id w r w' :
    keyed inst_ID (t_instances w) → svc_TerminateInstance ctx (uuid_string id) w = (r, w') →
    t_group_instances w' = t_group_instances w ∨
    t_group_instances w' = filter (λ kv, kv.1.2 ≠ id) (t_group_instances w);
}.

Class LawfulLBService `{Env, LBServicePort} := {
  add_target_instances ctx l i p wt : Frame t_instances (svc_AddTarget ctx l i p wt);
  remove_target_instances ctx l i : Frame t_instances (svc_RemoveTarget ctx l i);
  add_target_no_panic ctx l i p wt : NoPanic (svc_AddTarget ctx l i p wt);
  add_target_groups ctx l i p wt : Frame t_groups (svc_AddTarget ctx l i p wt);
  add_target_policies ctx l i p wt : Frame t_policies (svc_AddTarget ctx l i p wt);
  add_target_members ctx l i p wt : Frame t_group_instances (svc_AddTarget ctx l i p wt);
  remove_target_no_panic ctx l i : NoPanic (svc_RemoveTarget ctx l i);
  remove_target_groups ctx l i : Frame t_groups (svc_RemoveTarget ctx l i);
  remove_target_policies ctx l i : Frame t_policies (svc_RemoveTarget ctx l i);
  remove_target_members ctx l i : Frame t_group_instances (svc_RemoveTarget ctx l i);
}.

#[export] Existing Instances launch_no_panic launch_groups launch_policies launch_members
  launch_containers terminate_no_panic terminate_groups terminate_policies launch_keyed terminate_keyed
  add_target_no_panic
  add_target_groups add_target_policies add_target_members remove_target_no_panic
  remove_target_groups remove_target_policies remove_target_members add_target_instances
  remove_target_instances.

(** ** The services implement the interfaces *)

Section implementation.
Context `{Env}.

#[export] Instance instance_service_port : InstanceServicePort := {|
  svc_LaunchInstance := LaunchInstance;
  svc_TerminateInstance := TerminateInstance;
|}.

#[export] Instance lb_service_port : LBServicePort := {|
  svc_AddTarget := AddTarget;
  svc_RemoveTarget := RemoveTarget;
|}.

End implementation.
