(* ===== verification/AutoScalingService.v ===== *)
(** * [services/autoscaling.go]: the API of scaling groups and policies *)
From S2P Require Import Prelude GoStd Net Errors Domain DomainData World Logic Sql InstanceRepo NetworkRepo.
From S2P Require Import AutoScalingRepo.

(** [ports.CreateScalingGroupParams], [ports.CreateScalingPolicyParams] *)
Record CreateScalingGroupParams := MkCreateScalingGroupParams {
  gp_Name : string;
  gp_VpcID : uuid;
  gp_Image : string;
  gp_Ports : string;
  gp_MinInstances : Z;
  gp_MaxInstances : Z;
  gp_DesiredCount : Z;
  gp_LoadBalancerID : option uuid;
  gp_IdempotencyKey : string
}.

Record CreateScalingPolicyParams := MkCreateScalingPolicyParams {
  pp_GroupID : uuid;
  pp_Name : string;
  pp_MetricType : string;
  pp_TargetValue : float64;
  pp_ScaleOut : Z;
  pp_ScaleIn : Z;
  pp_CooldownSec : Z
}.

(** The validation of [CreateGroup], in the order of the source. *)
Definition validate_group (params : CreateScalingGroupParams) : option error :=
  if MaxInstancesHardLimit <? gp_MaxInstances params then
    Some (New InvalidInput ("max_instances cannot exceed " +:+ itoa MaxInstancesHardLimit))
  else if gp_MinInstances params <? 0 then
    Some (New InvalidInput "min_instances cannot be negative")
  else if gp_MaxInstances params <? gp_MinInstances params then
    Some (New InvalidInput "min_instances cannot be greater than max_instances")
  else if (gp_DesiredCount params <? gp_MinInstances params)
          || (gp_MaxInstances params <? gp_DesiredCount params) then
    Some (New InvalidInput "desired_count must be between min and max instances")
  else None.

Section autoscaling_service.
Context `{Env}.

Definition new_group (ctx : Context) (params : CreateScalingGroupParams) (id : uuid)
    (created updated : time) : ScalingGroup :=
  MkScalingGroup id (UserIDFromContext ctx) (gp_IdempotencyKey params) (gp_Name params)
    (gp_VpcID params) (gp_LoadBalancerID params) (gp_Image params) (gp_Ports params)
    (gp_MinInstances params) (gp_MaxInstances params) (gp_DesiredCount params) 0
    ScalingGroupStatusActive 0 None 1 created updated.

Definition CreateGroup (ctx : Context) (params : CreateScalingGroupParams) : M ScalingGroup :=
  existing ← (if bool_decide (gp_IdempotencyKey params = "") then mret None
              else r ← attempt (asg_GetGroupByIdempotencyKey ctx (gp_IdempotencyKey params));
                   mret (match r with inr g => Some g | inl _ => None end));
  match existing with
  | Some g => mret g
  | None =>
      match validate_group params with
      | Some e => fail e
      | None =>
          vpc_GetByID ctx (gp_VpcID params) ;;
          count ← asg_CountGroupsByVPC ctx (gp_VpcID params);
          guard_err (MaxScalingGroupsPerVPC <=? count)
            (New ResourceLimitExceeded ("VPC already has " +:+ itoa count +:+ " scaling groups (max: "
                                        +:+ itoa MaxScalingGroupsPerVPC +:+ ")")) ;;
          id ← uuid_New;
          created ← Now;
          updated ← Now;
          let group := new_group ctx params id created updated in
          asg_CreateGroup group ;;
          ignore (Log (sg_UserID group) "asg.group_create" "scaling_group" (uuid_string (sg_ID group))
                    (Some [("name", VString (sg_Name group))])) ;;
          mret group
      end
  end.

Definition GetGroup (ctx : Context) (id : uuid) : M ScalingGroup := asg_GetGroupByID ctx id.
Definition ListGroups (ctx : Context) : M (list ScalingGroup) := asg_ListGroups ctx.

(** The worker removes the instances and the row of a group in DELETING. *)
Definition DeleteGroup (ctx : Context) (id : uuid) : M unit :=
  group ← asg_GetGroupByID ctx id;
  group ← asg_UpdateGroup (group <| sg_Status := ScalingGroupStatusDeleting |>
                                 <| sg_MinInstances := 0 |> <| sg_DesiredCount := 0 |>);
  ignore (Log (sg_UserID group) "asg.group_delete" "scaling_group" (uuid_string (sg_ID group))
            (Some [("name", VString (sg_Name group))])).

Definition SetDesiredCapacity (ctx : Context) (groupID : uuid) (desired : Z) : M unit :=
  group ← asg_GetGroupByID ctx groupID;
  guard_err ((desired <? sg_MinInstances group) || (sg_MaxInstances group <? desired))
    (New InvalidInput ("desired must be between " +:+ itoa (sg_MinInstances group) +:+ " and "
                       +:+ itoa (sg_MaxInstances group))) ;;
  asg_UpdateGroup (group <| sg_DesiredCount := desired |>) ;;
  mret ().

Definition CreatePolicy (ctx : Context) (params : CreateScalingPolicyParams) : M ScalingPolicy :=
  asg_GetGroupByID ctx (pp_GroupID params) ;;
  guard_err (pp_CooldownSec params <? MinCooldownSeconds)
    (New InvalidInput ("cooldown must be at least " +:+ itoa MinCooldownSeconds +:+ " seconds")) ;;
  id ← uuid_New;
  let policy := MkScalingPolicy id (pp_GroupID params) (pp_Name params) (pp_MetricType params)
                  (pp_TargetValue params) (pp_ScaleOut params) (pp_ScaleIn params)
                  (pp_CooldownSec params) None in
  asg_CreatePolicy policy ;;
  mret policy.

Definition DeletePolicy (ctx : Context) (id : uuid) : M unit := asg_DeletePolicy id.

End autoscaling_service.

#[global] Typeclasses Opaque CreateGroup DeleteGroup SetDesiredCapacity CreatePolicy DeletePolicy.

(** ** What the operations touch *)

Section frames.
Context `{Env} {T : Type} (p : World → T) `{!Indep p w_tick}.

#[export] Instance CreateGroup_frame ctx ps : Indep p t_groups → Indep p t_audit → Frame p (CreateGroup ctx ps).
Proof. intros. unfold CreateGroup. apply _. Qed.
#[export] Instance DeleteGroup_frame ctx id : Indep p t_groups → Indep p t_audit → Frame p (DeleteGroup ctx id).
Proof. intros. unfold DeleteGroup. apply _. Qed.
#[export] Instance SetDesiredCapacity_frame ctx id d : Indep p t_groups → Frame p (SetDesiredCapacity ctx id d).
Proof. intros. unfold SetDesiredCapacity. apply _. Qed.
#[export] Instance CreatePolicy_frame ctx ps : Indep p t_policies → Frame p (CreatePolicy ctx ps).
Proof. intros. unfold CreatePolicy. apply _. Qed.
#[export] Instance DeletePolicy_frame ctx id : Indep p t_policies → Frame p (DeletePolicy ctx id).
Proof. intros. unfold DeletePolicy. apply _. Qed.
End frames.

Section no_panic.
Context `{Env}.

#[export] Instance CreateGroup_no_panic ctx ps : NoPanic (CreateGroup ctx ps).
Proof. unfold CreateGroup. apply _. Qed.
#[export] Instance DeleteGroup_no_panic ctx id : NoPanic (DeleteGroup ctx id).
Proof. unfold DeleteGroup. apply _. Qed.
#[export] Instance SetDesiredCapacity_no_panic ctx id d : NoPanic (SetDesiredCapacity ctx id d).
Proof. unfold SetDesiredCapacity. apply _. Qed.
#[export] Instance CreatePolicy_no_panic ctx ps : NoPanic (CreatePolicy ctx ps).
Proof. unfold CreatePolicy. apply _. Qed.
#[export] Instance DeletePolicy_no_panic ctx id : NoPanic (DeletePolicy ctx id).
Proof. unfold DeletePolicy. apply _. Qed.
End no_panic.
