(* ===== verification/AutoScalingWorker.v ===== *)
(** * [services/autoscaling_worker.go]: the reconciliation of scaling groups

    Every ten seconds the worker compares the membership of each group with its
    desired count, launches or terminates the difference, and lets the policies
    choose the desired count of the next turn.  The worker mutates the group struct
    it holds, so the functions return it. *)
From S2P Require Import Prelude GoStd Net Errors Domain DomainData World Logic Sql InstanceRepo NetworkRepo.
From S2P Require Import InstanceService AutoScalingRepo LBRepo LBService Ports.

Definition nanos_per_second : Z := 1000000000.
Definition maxFailureCount : Z := 5.
Definition failureBackoffMinutes : Z := 5.

(** [t.Sub(u)] saturates at the range of [time.Duration]. *)
Definition time_sub (t u : time) : Z := Z.max (- 2 ^ 63) (Z.min (2 ^ 63 - 1) (t - u)).

(** [toDynamicPorts] *)
Definition dynamic_port (p : string) : string :=
  match split_on ":"%char p with
  | [_; c] => "0:" +:+ c
  | _ => p
  end.

Definition toDynamicPorts (ports : string) : string :=
  if bool_decide (ports = "") then "" else join "," (dynamic_port <$> split_on ","%char ports).

Definition index_out_of_range : string := "index out of range".

Section autoscaling_worker.
Context `{Env, !InstanceServicePort, !LBServicePort}.

(** [_ = repo.UpdateGroup(ctx, group)]: the version of the struct moves on success. *)
Definition update_group (group : ScalingGroup) : M ScalingGroup :=
  r ← attempt (asg_UpdateGroup group);
  mret (match r with inr g => g | inl _ => group end).

Definition shouldSkipDueToFailures (group : ScalingGroup) : M bool :=
  if sg_FailureCount group <? maxFailureCount then mret false
  else match sg_LastFailureAt group with
       | None => mret false
       | Some t => now ← Now; mret (now <? t + failureBackoffMinutes * 60 * nanos_per_second)
       end.

Definition recordFailure (group : ScalingGroup) : M ScalingGroup :=
  now ← Now;
  update_group (group <| sg_FailureCount ::= (λ n, int_add n 1) |> <| sg_LastFailureAt := Some now |>).

Definition resetFailures (group : ScalingGroup) : M ScalingGroup :=
  if 0 <? sg_FailureCount group then
    update_group (group <| sg_FailureCount := 0 |> <| sg_LastFailureAt := None |>)
  else mret group.

(** The metadata of the scaling events. *)
Definition scaling_meta (instanceID : uuid) : metadata :=
  Some [("instance_id", VString (uuid_string instanceID)); ("trigger", VString "reconciliation")].

Definition scaleOut (ctx : Context) (group : ScalingGroup) : M unit :=
  now ← Now;
  let name := sg_Name group +:+ "-" +:+ itoa now in
  inst ← svc_LaunchInstance ctx name (sg_Image group) (toDynamicPorts (sg_Ports group))
           (Some (sg_VpcID group)) None [];
  asg_AddInstanceToGroup (sg_ID group) (inst_ID inst) ;;
  match sg_LoadBalancerID group with
  | Some lb => ignore (svc_AddTarget ctx lb (inst_ID inst) 80 1)
  | None => mret ()
  end ;;
  ignore (RecordEvent ctx "AUTOSCALING_SCALE_OUT" (uuid_string (sg_ID group)) "SCALING_GROUP"
            (scaling_meta (inst_ID inst))).

Definition scaleIn (ctx : Context) (group : ScalingGroup) (instanceID : uuid) : M unit :=
  match sg_LoadBalancerID group with
  | Some lb => ignore (svc_RemoveTarget ctx lb instanceID)
  | None => mret ()
  end ;;
  asg_RemoveInstanceFromGroup (sg_ID group) instanceID ;;
  ignore (svc_TerminateInstance ctx (uuid_string instanceID)) ;;
  ignore (RecordEvent ctx "AUTOSCALING_SCALE_IN" (uuid_string (sg_ID group)) "SCALING_GROUP"
            (scaling_meta instanceID)).

(** The loop that launches [needed] instances and stops at the first failure. *)
Fixpoint scale_out_loop (ctx : Context) (group : ScalingGroup) (needed : nat) : M ScalingGroup :=
  match needed with
  | O => mret group
  | S needed' =>
      r ← attempt (scaleOut ctx group);
      match r with
      | inl _ => recordFailure group
      | inr _ => group ← resetFailures group; scale_out_loop ctx group needed'
      end
  end.

(** The loop over [instanceIDs[len(instanceIDs)-1-i]], [i < excess]; [targets] is
    the reversed list. *)
Fixpoint scale_in_loop (ctx : Context) (group : ScalingGroup) (targets : list uuid) (excess : nat)
    : M unit :=
  match excess with
  | O => mret ()
  | S excess' =>
      match targets with
      | [] => panic index_out_of_range
      | t :: targets' =>
          r ← attempt (scaleIn ctx group t);
          match r with
          | inl _ => mret ()
          | inr _ => scale_in_loop ctx group targets' excess'
          end
      end
  end.

Definition force_bounds (group : ScalingGroup) : M ScalingGroup :=
  group ← (if sg_DesiredCount group <? sg_MinInstances group then
             update_group (group <| sg_DesiredCount := sg_MinInstances group |>)
           else mret group);
  if sg_MaxInstances group <? sg_DesiredCount group then
    update_group (group <| sg_DesiredCount := sg_MaxInstances group |>)
  else mret group.

Definition reconcileInstances (ctx : Context) (group : ScalingGroup) (instanceIDs : list uuid)
    : M ScalingGroup :=
  let current := Z.of_nat (length instanceIDs) in
  group ← force_bounds group;
  if current <? sg_DesiredCount group then
    skip ← shouldSkipDueToFailures group;
    if skip : bool then mret group
    else scale_out_loop ctx group (Z.to_nat (int_sub (sg_DesiredCount group) current))
  else if sg_DesiredCount group <? current then
    scale_in_loop ctx group (reverse instanceIDs)
      (Z.to_nat (int_sub current (sg_DesiredCount group))) ;;
    mret group
  else mret group.

(** ** Policies *)

(** Less than the cooldown has passed since the policy last scaled. *)
Definition in_cooldown (policy : ScalingPolicy) : M bool :=
  match pol_LastScaledAt policy with
  | None => mret false
  | Some t =>
      now ← Now;
      mret (time_sub now t <? wrap64 (pol_CooldownSec policy * nanos_per_second))
  end.

(** The desired count a policy asks for, if it triggers. *)
Definition scaling_decision (group : ScalingGroup) (avgCPU : float64) (policy : ScalingPolicy)
    : option Z :=
  if negb (bool_decide (pol_MetricType policy = "cpu")) then None
  else if float_gt avgCPU (pol_TargetValue policy) then
    if sg_CurrentCount group <? sg_MaxInstances group then
      let newDesired := int_add (sg_CurrentCount group) (pol_ScaleOutStep policy) in
      Some (if sg_MaxInstances group <? newDesired then sg_MaxInstances group else newDesired)
    else None
  else if float_lt avgCPU (float_sub (pol_TargetValue policy) (float_of_int 10)) then
    if sg_MinInstances group <? sg_CurrentCount group then
      let newDesired := int_sub (sg_CurrentCount group) (pol_ScaleInStep policy) in
      Some (if newDesired <? sg_MinInstances group then sg_MinInstances group else newDesired)
    else None
  else None.

(** The loop over the policies: the first one that triggers ends it. *)
Fixpoint evaluate_policies_loop (group : ScalingGroup) (avgCPU : float64)
    (policies : list ScalingPolicy) : M unit :=
  match policies with
  | [] => mret ()
  | policy :: policies' =>
      skip ← in_cooldown policy;
      if skip : bool then evaluate_policies_loop group avgCPU policies'
      else match scaling_decision group avgCPU policy with
           | Some newDesired =>
               update_group (group <| sg_DesiredCount := newDesired |>) ;;
               now ← Now;
               ignore (asg_UpdatePolicyLastScaled (pol_ID policy) now)
           | None => evaluate_policies_loop group avgCPU policies'
           end
  end.

Definition evaluatePolicies (group : ScalingGroup) (instanceIDs : list uuid)
    (policies : list ScalingPolicy) : M unit :=
  if bool_decide (policies = []) then mret ()
  else
    now ← Now;
    r ← attempt (asg_GetAverageCPU instanceIDs (now - 60 * nanos_per_second));
    match r with
    | inl _ => mret ()
    | inr avgCPU => evaluate_policies_loop group avgCPU policies
    end.

(** ** One turn of the worker *)

Definition cleanupGroup (ctx : Context) (group : ScalingGroup) (instanceIDs : list uuid) : M unit :=
  match instanceIDs with
  | [] => ignore (asg_DeleteGroup ctx (sg_ID group))
  | _ => foreach instanceIDs (λ instID,
           ignore (scaleIn ctx (group <| sg_DesiredCount := 0 |>) instID))
  end.

Definition sync_count (group : ScalingGroup) (instances : list uuid) : M ScalingGroup :=
  let n := Z.of_nat (length instances) in
  if bool_decide (n = sg_CurrentCount group) then mret group
  else update_group (group <| sg_CurrentCount := n |>).

Definition evaluate_group (ctx : Context) (instances : uuid → list uuid)
    (policies : uuid → list ScalingPolicy) (group : ScalingGroup) : M unit :=
  let gCtx := WithUserID ctx (sg_UserID group) in
  let ids := instances (sg_ID group) in
  if bool_decide (sg_Status group = ScalingGroupStatusDeleting) then cleanupGroup gCtx group ids
  else
    group ← sync_count group ids;
    group ← reconcileInstances gCtx group ids;
    evaluatePolicies group ids (policies (sg_ID group)).

Definition Evaluate (ctx : Context) : M unit :=
  r ← attempt asg_ListAllGroups;
  match r with
  | inl _ => mret ()
  | inr groups =>
      let groupIDs := sg_ID <$> groups in
      r ← attempt (asg_GetAllScalingGroupInstances groupIDs);
      match r with
      | inl _ => mret ()
      | inr instances =>
          r ← attempt (asg_GetAllPolicies groupIDs);
          match r with
          | inl _ => mret ()
          | inr policies => foreach groups (evaluate_group ctx instances policies)
          end
      end
  end.

End autoscaling_worker.

#[global] Typeclasses Opaque update_group shouldSkipDueToFailures recordFailure resetFailures scaleOut
  scaleIn force_bounds reconcileInstances in_cooldown evaluatePolicies cleanupGroup sync_count
  evaluate_group Evaluate.
