(* ===== verification/Secret.v ===== *)
(** * Cryptography and the stored secrets

    [pkg/crypto] and [pkg/util] over the cryptography of the standard library, which is a
    parameter; then [secret_repo.go] and [services/secret.go]. *)
From S2P Require Import Prelude GoStd Encoding Net Errors Domain DomainData World Logic Sql.

(** * [pkg/crypto], [pkg/util] and the cryptography of the standard library they use

    Random bytes, HKDF, AES-GCM, SHA-256 and bcrypt are parameters; their classes of laws
    hold what is documented of them.  Bytes are numbers below 256, a string is its bytes. *)

Class Crypto := {
  (** [n] bytes of [crypto/rand] at a step of the run; reading them never fails *)
  env_rand : nat → nat → list N;
  (** [rand.Int(rand.Reader, max)]: the i-th number drawn at a step, below [max] *)
  env_rand_int : nat → nat → N → N;
  (** [n] bytes of HKDF over SHA-256, of a secret, a salt and an info string *)
  hkdf_sha256 : list N → list N → list N → nat → list N;
  (** AES-256-GCM: [Seal] without the nonce in front, and [Open] *)
  gcm_seal : list N → list N → list N → list N;
  gcm_open : list N → list N → list N → option (list N);
  sha256 : list N → list N;
  (** [bcrypt.GenerateFromPassword] with the default cost, with the salt drawn at a step,
      for at most 72 bytes, and [bcrypt.CompareHashAndPassword] *)
  bcrypt_hash : nat → string → string;
  bcrypt_compare : string → string → bool;
  (** [passwordvalidator.Validate] with the minimal entropy 50 *)
  password_weak : string → option error;
}.

Class CryptoLaws `{Crypto} := {
  env_rand_length : ∀ t n, length (env_rand t n) = n;
  env_rand_bytes : ∀ t n, Forall byte_ok (env_rand t n);
  env_rand_int_lt : ∀ t i n, (0 < n)%N → (env_rand_int t i n < n)%N;
  hkdf_length : ∀ secret salt info n, length (hkdf_sha256 secret salt info n) = n;
  gcm_seal_bytes : ∀ k n p, Forall byte_ok (gcm_seal k n p);
  gcm_open_seal : ∀ k n p, gcm_open k n (gcm_seal k n p) = Some p;
  bcrypt_compare_hash : ∀ t p, (String.length p ≤ 72)%nat → bcrypt_compare (bcrypt_hash t p) p = true;
}.

Definition std_error (msg : string) : error := ExternalError msg.

Section crypto.
Context `{Env, Crypto}.

(** The bytes of a [uuid.UUID], most significant first. *)
Definition uuid_bytes (u : uuid) : list N :=
  map (λ i, (u / 256 ^ (15 - N.of_nat i)) mod 256)%N (seq 0 16).

Definition rand_Read (n : nat) : M (list N) := t ← next_tick; mret (env_rand t n).

(** ** [pkg/crypto] *)

Definition kdf_info : list N := str_bytes "thecloud-secrets-manager".

Definition DeriveKey (masterKey salt : list N) : list N := hkdf_sha256 masterKey salt kdf_info 32.

Definition gcm_nonce_size : nat := 12.

(** [aes.NewCipher] takes keys of 16, 24 or 32 bytes. *)
Definition NewCipher (key : list N) : M unit :=
  guard_err (negb (bool_decide (length key ∈ [16; 24; 32]%nat))) (std_error "crypto/aes: invalid key size").

Definition Encrypt (plaintext key : list N) : M string :=
  NewCipher key ;;
  nonce ← rand_Read gcm_nonce_size;
  mret (EncodeToString (nonce ++ gcm_seal key nonce plaintext)).

Definition Decrypt (encodedCiphertext : string) (key : list N) : M (list N) :=
  ciphertext ← from_opt (std_error "illegal base64 data") (DecodeString encodedCiphertext);
  NewCipher key ;;
  guard_err (Nat.ltb (length ciphertext) gcm_nonce_size) (Errorf "ciphertext too short") ;;
  let nonce := take gcm_nonce_size ciphertext in
  let encryptedData := drop gcm_nonce_size ciphertext in
  from_opt (std_error "cipher: message authentication failed") (gcm_open key nonce encryptedData).

(** ** [pkg/util] *)

Definition passwordChars : list ascii := list_ascii_of_string
  "abcdefghijklmnopqrstuvwxyzABCDEFGHIJKLMNOPQRSTUVWXYZ0123456789!@#$%^&*()-_=+".

Definition password_char (t i : nat) : ascii :=
  nth (N.to_nat (env_rand_int t i (N.of_nat (length passwordChars)))) passwordChars "a"%char.

Definition GenerateRandomPassword (n : nat) : M string :=
  t ← next_tick;
  mret (string_of_list_ascii (map (password_char t) (seq 0 n))).

(** ** bcrypt *)

Definition GenerateFromPassword (password : string) : M string :=
  t ← next_tick;
  if Nat.ltb 72 (String.length password) then
    fail (std_error "bcrypt: password length exceeds 72 bytes")
  else mret (bcrypt_hash t password).

End crypto.

Section crypto_lemmas.
Context `{Env, Crypto} {T : Type} (p : World → T) `{!Indep p w_tick}.

#[export] Instance rand_Read_frame n : Frame p (rand_Read n).
Proof. unfold rand_Read. apply _. Qed.
#[export] Instance NewCipher_frame k : Frame p (NewCipher k).
Proof. unfold NewCipher. apply _. Qed.
#[export] Instance Encrypt_frame x k : Frame p (Encrypt x k).
Proof. unfold Encrypt. apply _. Qed.
#[export] Instance Decrypt_frame x k : Frame p (Decrypt x k).
Proof. unfold Decrypt. apply _. Qed.
#[export] Instance GenerateRandomPassword_frame n : Frame p (GenerateRandomPassword n).
Proof. unfold GenerateRandomPassword. apply _. Qed.
#[export] Instance GenerateFromPassword_frame x : Frame p (GenerateFromPassword x).
Proof. unfold GenerateFromPassword. apply _. Qed.

#[export] Instance rand_Read_total n : Total (rand_Read n).
Proof. intros w. by eexists. Qed.
#[export] Instance GenerateRandomPassword_total n : Total (GenerateRandomPassword n).
Proof. intros w. by eexists. Qed.
#[export] Instance NewCipher_no_panic k : NoPanic (NewCipher k).
Proof. unfold NewCipher. apply _. Qed.
#[export] Instance Encrypt_no_panic x k : NoPanic (Encrypt x k).
Proof. unfold Encrypt. apply _. Qed.
#[export] Instance Decrypt_no_panic x k : NoPanic (Decrypt x k).
Proof. unfold Decrypt. apply _. Qed.
#[export] Instance GenerateFromPassword_no_panic x : NoPanic (GenerateFromPassword x).
Proof. unfold GenerateFromPassword. apply _. Qed.
End crypto_lemmas.

Section crypto_laws.
Context `{Env, Crypto, !CryptoLaws}.

(** An encrypted value: the encoding of a nonce and what is sealed under it. *)
Definition sealed (key plaintext : list N) (encoded : string) : Prop :=
  ∃ nonce, length nonce = gcm_nonce_size ∧ Forall byte_ok nonce ∧
    encoded = EncodeToString (nonce ++ gcm_seal key nonce plaintext).

Lemma Encrypt_Ok plaintext key w s w1 : Encrypt plaintext key w = (Ok s, w1) → sealed key plaintext s.
Proof.
  unfold Encrypt. intros Hrun. ok_step Hrun u w2. ok_step Hrun n w3. unfold mret, M_ret in Hrun.
  injection Hrun as <- <-. unfold rand_Read in Hrun1. ok_step Hrun1 t w4. unfold mret, M_ret in Hrun1.
  injection Hrun1 as <- <-. eexists. split_and!; [apply env_rand_length|apply env_rand_bytes|done].
Qed.

Lemma Encrypt_succeeds plaintext key w :
  length key = 32%nat → ∃ s, Encrypt plaintext key w = (Ok s, w <| w_tick ::= S |>).
Proof.
  intros Hk. unfold Encrypt, NewCipher. rewrite Hk. by eexists.
Qed.

(** Decryption under the same key gives the plaintext back. *)
Lemma Decrypt_sealed key plaintext s w :
  length key = 32%nat → sealed key plaintext s → Decrypt s key w = (Ok plaintext, w).
Proof.
  intros Hk (nonce & Hlen & Hb & ->). unfold Decrypt.
  rewrite DecodeString_EncodeToString by (apply Forall_app; split; [done|apply gcm_seal_bytes]).
  cbn [from_opt]. rewrite mret_bind. unfold NewCipher. rewrite Hk.
  change (guard_err (negb (bool_decide (32%nat ∈ [16; 24; 32]%nat))) _) with (mret () : M unit).
  rewrite mret_bind, length_app, Hlen. unfold gcm_nonce_size.
  assert ((12 + length (gcm_seal key nonce plaintext) <? 12)%nat = false) as ->
    by (apply Nat.ltb_ge; lia).
  change (guard_err false _) with (mret () : M unit). rewrite mret_bind.
  rewrite take_app_length', drop_app_length' by done. by rewrite gcm_open_seal.
Qed.

Lemma DeriveKey_length m s : length (DeriveKey m s) = 32%nat.
Proof. apply hkdf_length. Qed.

Lemma string_of_list_length l : String.length (string_of_list_ascii l) = length l.
Proof. induction l as [|a l IH]; [done|]. cbn. by rewrite IH. Qed.

Lemma nth_elem {A} (l : list A) d m : (m < length l)%nat → nth m l d ∈ l.
Proof. intros Hm. by apply list_elem_of_In, nth_In. Qed.

Lemma password_char_ok t i : password_char t i ∈ passwordChars.
Proof.
  unfold password_char. apply nth_elem.
  pose proof (env_rand_int_lt t i (N.of_nat (length passwordChars))) as Hlt.
  assert (0 < N.of_nat (length passwordChars))%N as Hpos by (vm_compute; done).
  specialize (Hlt Hpos). lia.
Qed.

(** A generated password has the length asked for and only characters of the alphabet. *)
Lemma GenerateRandomPassword_spec n w s w1 :
  GenerateRandomPassword n w = (Ok s, w1) →
  String.length s = n ∧ Forall (λ a, a ∈ passwordChars) (list_ascii_of_string s).
Proof.
  unfold GenerateRandomPassword. intros Hrun. ok_step Hrun t w2. unfold mret, M_ret in Hrun.
  injection Hrun as <- <-. split.
  - by rewrite string_of_list_length, length_map, length_seq.
  - rewrite string_list_inv. apply Forall_forall. intros a Ha. apply list_elem_of_In, in_map_iff in Ha.
    destruct Ha as (i & <- & _). apply password_char_ok.
Qed.

End crypto_laws.

(** * [repositories/postgres/secret_repo.go] and [services/secret.go]: secrets

    A secret is stored encrypted under a key derived from the master key and its owner. *)

Section secret.
Context `{Env, Crypto}.

(** ** The repository *)

Definition secret_Create (s : Secret) : M unit :=
  wrap_err (Errorf_w "failed to create secret")
    (db_exec (sql_insert t_secrets (sec_ID s) (s <| sec_LastAccessedAt := None |>) (λ w,
       user_fk (sec_UserID s) w
       && no_row (λ r, bool_decide (sec_Name r = sec_Name s ∧ sec_UserID r = sec_UserID s))
            (t_secrets w)))).

(** [err == pgx.ErrNoRows] gives a NOT_FOUND, any other error a prefix. *)
Definition secret_error (msg : string) (e : error) : error :=
  match e with
  | ErrNoRows => New NotFound "secret not found"
  | _ => Errorf_w msg e
  end.

Definition secret_GetByID (ctx : Context) (id : uuid) : M Secret :=
  wrap_err (secret_error "failed to get secret")
    (db_query_row (λ w, by_pk (t_secrets w) id (of_user sec_UserID (UserIDFromContext ctx)))).

Definition secret_GetByName (ctx : Context) (name : string) : M Secret :=
  wrap_err (secret_error "failed to get secret by name")
    (db_query_row (λ w, select (λ r, bool_decide (sec_Name r = name)
                                     && of_user sec_UserID (UserIDFromContext ctx) r) (t_secrets w))).

(** The names of a query's rows are distinct, and their order is the collation's. *)
Definition secret_List (ctx : Context) : M (list Secret) :=
  wrap_err (Errorf_w "failed to list secrets")
    (db_query (λ w, select (of_user sec_UserID (UserIDFromContext ctx)) (t_secrets w))).

Definition secret_Update (s : Secret) : M unit :=
  now ← Now;
  wrap_err (Errorf_w "failed to update secret")
    (db_exec (sql_update t_secrets (sec_ID s) (of_user sec_UserID (sec_UserID s)) (λ _ r,
       Some (r <| sec_EncryptedValue := sec_EncryptedValue s |>
               <| sec_Description := sec_Description s |> <| sec_UpdatedAt := now |>
               <| sec_LastAccessedAt := sec_LastAccessedAt s |>)))) ;;
  mret ().

Definition secret_Delete (ctx : Context) (id : uuid) : M unit :=
  wrap_err (Errorf_w "failed to delete secret")
    (db_exec (sql_delete t_secrets id (of_user sec_UserID (UserIDFromContext ctx))
       (λ _, true) (λ w, w))) ;;
  mret ().

(** ** The service *)

(** The key [NewSecretService] keeps; [None] is [os.Exit(1)]. *)
Definition master_key (masterKey environment : string) : option string :=
  if bool_decide (masterKey = "") then
    if bool_decide (environment = "production") then None
    else Some "default-thecloud-development-key-32chars"
  else Some masterKey.

Context (masterKey : list N).

Definition getDerivedKey (userID : uuid) : list N := DeriveKey masterKey (uuid_bytes userID).

Definition secret_event (ctx : Context) (action : string) (audit : string) (userID : uuid) (id : uuid)
    (name : string) : M unit :=
  ignore (RecordEvent ctx action (uuid_string id) "SECRET" (Some [("name", VString name)])) ;;
  ignore (Log userID audit "secret" (uuid_string id) (Some [("name", VString name)])).

Definition CreateSecret (ctx : Context) (name value description : string) : M Secret :=
  let userID := UserIDFromContext ctx in
  encrypted ← wrap_err (Wrap Internal "failed to encrypt secret")
                (Encrypt (str_bytes value) (getDerivedKey userID));
  id ← uuid_New;
  created ← Now;
  updated ← Now;
  let secret := MkSecret id userID name encrypted description created updated None in
  secret_Create secret ;;
  secret_event ctx "SECRET_CREATE" "secret.create" userID (sec_ID secret) name ;;
  mret secret.

(** The part of [GetSecret] and [GetSecretByName] after the row is read: the decryption
    and the access time are recorded before the struct's field is reused for the plaintext. *)
Definition open_secret (ctx : Context) (secret : Secret) : M Secret :=
  decrypted ← wrap_err (Wrap Internal "failed to decrypt secret")
                (Decrypt (sec_EncryptedValue secret) (getDerivedKey (sec_UserID secret)));
  now ← Now;
  let secret := secret <| sec_LastAccessedAt := Some now |> in
  ignore (secret_Update secret) ;;
  secret_event ctx "SECRET_ACCESS" "secret.access" (sec_UserID secret) (sec_ID secret) (sec_Name secret) ;;
  mret (secret <| sec_EncryptedValue := bytes_str decrypted |>).

Definition GetSecret (ctx : Context) (id : uuid) : M Secret :=
  secret ← secret_GetByID ctx id; open_secret ctx secret.

Definition GetSecretByName (ctx : Context) (name : string) : M Secret :=
  secret ← secret_GetByName ctx name; open_secret ctx secret.

Definition ListSecrets (ctx : Context) : M (list Secret) :=
  secrets ← secret_List ctx;
  mret ((λ s, s <| sec_EncryptedValue := "[REDACTED]" |>) <$> secrets).

Definition DeleteSecret (ctx : Context) (id : uuid) : M unit :=
  secret ← secret_GetByID ctx id;
  secret_Delete ctx id ;;
  secret_event ctx "SECRET_DELETE" "secret.delete" (sec_UserID secret) id (sec_Name secret).

End secret.

#[global] Typeclasses Opaque CreateSecret open_secret GetSecret GetSecretByName DeleteSecret.

(** ** What the operations touch *)

Section frames.
Context `{Env, Crypto} {T : Type} (p : World → T) `{!Indep p w_tick}.

#[export] Instance secret_Create_frame s : Indep p t_secrets → Frame p (secret_Create s).
Proof. intros. unfold secret_Create. apply _. Qed.
#[export] Instance secret_GetByID_frame ctx i : Frame p (secret_GetByID ctx i).
Proof. intros. unfold secret_GetByID. apply _. Qed.
#[export] Instance secret_GetByName_frame ctx n : Frame p (secret_GetByName ctx n).
Proof. intros. unfold secret_GetByName. apply _. Qed.
#[export] Instance secret_List_frame ctx : Frame p (secret_List ctx).
Proof. intros. unfold secret_List. apply _. Qed.
#[export] Instance secret_Update_frame s : Indep p t_secrets → Frame p (secret_Update s).
Proof. intros. unfold secret_Update. apply _. Qed.
#[export] Instance secret_event_frame ctx a b u i n : Indep p t_events → Indep p t_audit → Frame p (secret_event ctx a b u i n).
Proof. intros. unfold secret_event. apply _. Qed.
#[export] Instance secret_Delete_frame ctx i : Indep p t_secrets → Frame p (secret_Delete ctx i).
Proof. intros. unfold secret_Delete. apply _. Qed.
#[export] Instance CreateSecret_frame mk ctx n v d : Indep p t_secrets → Indep p t_events → Indep p t_audit → Frame p (CreateSecret mk ctx n v d).
Proof. intros. unfold CreateSecret. apply _. Qed.
#[export] Instance open_secret_frame mk ctx s : Indep p t_secrets → Indep p t_events → Indep p t_audit → Frame p (open_secret mk ctx s).
Proof. intros. unfold open_secret. apply _. Qed.
#[export] Instance GetSecret_frame mk ctx i : Indep p t_secrets → Indep p t_events → Indep p t_audit → Frame p (GetSecret mk ctx i).
Proof. intros. unfold GetSecret. apply _. Qed.
#[export] Instance GetSecretByName_frame mk ctx n : Indep p t_secrets → Indep p t_events → Indep p t_audit → Frame p (GetSecretByName mk ctx n).
Proof. intros. unfold GetSecretByName. apply _. Qed.
#[export] Instance DeleteSecret_frame ctx i : Indep p t_secrets → Indep p t_events → Indep p t_audit → Frame p (DeleteSecret ctx i).
Proof. intros. unfold DeleteSecret. apply _. Qed.
End frames.

Section no_panic.
Context `{Env, Crypto}.

#[export] Instance secret_Create_no_panic s : NoPanic (secret_Create s).
Proof. unfold secret_Create. apply _. Qed.
#[export] Instance secret_GetByID_no_panic ctx i : NoPanic (secret_GetByID ctx i).
Proof. unfold secret_GetByID. apply _. Qed.
#[export] Instance secret_GetByName_no_panic ctx n : NoPanic (secret_GetByName ctx n).
Proof. unfold secret_GetByName. apply _. Qed.
#[export] Instance secret_List_no_panic ctx : NoPanic (secret_List ctx).
Proof. unfold secret_List. apply _. Qed.
#[export] Instance secret_Update_no_panic s : NoPanic (secret_Update s).
Proof. unfold secret_Update. apply _. Qed.
#[export] Instance secret_event_no_panic ctx a b u i n : NoPanic (secret_event ctx a b u i n).
Proof. unfold secret_event. apply _. Qed.
#[export] Instance secret_Delete_no_panic ctx i : NoPanic (secret_Delete ctx i).
Proof. unfold secret_Delete. apply _. Qed.
#[export] Instance CreateSecret_no_panic mk ctx n v d : NoPanic (CreateSecret mk ctx n v d).
Proof. unfold CreateSecret. apply _. Qed.
#[export] Instance open_secret_no_panic mk ctx s : NoPanic (open_secret mk ctx s).
Proof. unfold open_secret. apply _. Qed.
#[export] Instance GetSecret_no_panic mk ctx i : NoPanic (GetSecret mk ctx i).
Proof. unfold GetSecret. apply _. Qed.
#[export] Instance GetSecretByName_no_panic mk ctx n : NoPanic (GetSecretByName mk ctx n).
Proof. unfold GetSecretByName. apply _. Qed.
#[export] Instance DeleteSecret_no_panic ctx i : NoPanic (DeleteSecret ctx i).
Proof. unfold DeleteSecret. apply _. Qed.
End no_panic.
