(* ===== verification/Queue.v ===== *)
(** * [repositories/postgres/queue_repo.go] and [services/queue.go]: message queues

    A received message stays in its queue, hidden until a time, under a receipt handle
    that the consumer presents to delete it. *)
From S2P Require Import Prelude GoStd Net Errors Domain DomainData World Logic Sql.

Section queue.
Context `{Env}.

(** ** The repository *)

Definition queue_Create (q : Queue) : M unit :=
  db_exec (sql_insert t_queues (q_ID q) q (λ w,
    user_fk (q_UserID q) w && int4 (q_VisibilityTimeout q) && int4 (q_RetentionDays q)
    && int4 (q_MaxMessageSize q)
    && no_row (λ r, bool_decide (q_UserID r = q_UserID q ∧ q_Name r = q_Name q)) (t_queues w))).

(** No row is the answer [(nil, nil)]. *)
Definition row_or_nil {A} (m : M A) : M (option A) :=
  r ← attempt m;
  match r with
  | inr a => mret (Some a)
  | inl ErrNoRows => mret None
  | inl e => fail e
  end.

Definition queue_GetByID (id userID : uuid) : M (option Queue) :=
  row_or_nil (db_query_row (λ w, by_pk (t_queues w) id (of_user q_UserID userID))).

Definition queue_GetByName (name : string) (userID : uuid) : M (option Queue) :=
  row_or_nil (db_query_row (λ w,
    select (λ q, bool_decide (q_Name q = name) && of_user q_UserID userID q) (t_queues w))).

Definition queue_List (userID : uuid) : M (list Queue) :=
  db_query (λ w, select (of_user q_UserID userID) (t_queues w)).

Definition queue_Delete (id : uuid) : M unit :=
  n ← db_exec (sql_delete t_queues id (λ _, true) (λ _, true)
        (λ w, w <| t_messages ::= filter (λ kv, msg_QueueID kv.2 ≠ id) |>));
  guard_err (Nat.eqb n 0) (New NotFound "queue not found").

(** The row holds the time of the database when the two clocks agree to the second. *)
Definition queue_SendMessage (queueID : uuid) (body : string) : M Message :=
  id ← uuid_New;
  visible ← Now;
  created ← Now;
  let m := MkMessage id queueID body "" visible 0 created in
  now1 ← Now;
  use_db_now ← (if now1 - visible <? 1000000000 then
                  now2 ← Now; mret (visible - now2 <? 1000000000)
                else mret false);
  t ← next_tick;
  let row := if use_db_now : bool then
               m <| msg_VisibleAt := env_db_now t |> <| msg_CreatedAt := env_db_now t |>
             else m in
  db_exec (sql_insert t_messages id row (λ w, fk_ok (t_queues w) (Some queueID))) ;;
  mret m.

Definition visible_in (queueID : uuid) (now : time) (locked : uuid → bool) (m : Message) : bool :=
  bool_decide (msg_QueueID m = queueID) && (msg_VisibleAt m <=? now) && negb (locked (msg_ID m)).

(** One message of the batch: a fresh handle, hidden until [now + timeout]. *)
Definition receive_one (now : time) (visibilityTimeout : Z) (m : Message) : M Message :=
  u ← uuid_New;
  mret (m <| msg_ReceiptHandle := uuid_string u |>
          <| msg_VisibleAt := now + wrap64 (visibilityTimeout * 1000000000) |>
          <| msg_ReceivedCount ::= (λ n, int_add n 1) |>).

Definition mark_received (m : Message) : M unit :=
  db_exec (sql_update t_messages (msg_ID m) (λ _, true) (λ _ r,
    if int4 (msg_ReceivedCount r + 1) then
      Some (r <| msg_ReceiptHandle := msg_ReceiptHandle m |> <| msg_VisibleAt := msg_VisibleAt m |>
              <| msg_ReceivedCount ::= (λ n, n + 1) |>)
    else None)) ;;
  mret ().

Definition queue_ReceiveMessages (queueID : uuid) (maxMessages visibilityTimeout : Z)
    : M (list Message) :=
  transaction (
    t ← next_tick;
    rows ← db_query (λ w, select (visible_in queueID (env_db_now t) (env_locked t)) (t_messages w));
    let rows := take (Z.to_nat maxMessages) rows in
    now ← Now;
    messages ← foldM (λ acc m, m' ← receive_one now visibilityTimeout m; mret (acc ++ [m'])) [] rows;
    foreach messages mark_received ;;
    mret messages).

(** A handle that was never given out is NULL in the table and equals nothing. *)
Definition has_handle (queueID : uuid) (receiptHandle : string) (m : Message) : bool :=
  bool_decide (msg_QueueID m = queueID) && bool_decide (msg_ReceiptHandle m = receiptHandle)
  && negb (bool_decide (msg_ReceiptHandle m = "")).

Definition queue_DeleteMessage (queueID : uuid) (receiptHandle : string) : M unit :=
  n ← db_exec (sql_delete_where t_messages (has_handle queueID receiptHandle));
  guard_err (Nat.eqb n 0) (New NotFound "message not found or receipt handle expired").

Definition queue_PurgeMessages (queueID : uuid) : M Z :=
  n ← db_exec (sql_delete_where t_messages (λ m, bool_decide (msg_QueueID m = queueID)));
  mret (Z.of_nat n).

(** The messages that are visible and the ones in flight. *)
Definition queue_GetQueueStats (queueID : uuid) : M (Z * Z) :=
  t ← next_tick;
  db_query_row (λ w,
    let count P := Z.of_nat (length (select (λ m, bool_decide (msg_QueueID m = queueID) && P m)
                                       (t_messages w))) in
    [(count (λ m, msg_VisibleAt m <=? env_db_now t), count (λ m, env_db_now t <? msg_VisibleAt m))]).

(** ** The service *)

Record CreateQueueOptions := MkCreateQueueOptions {
  qo_VisibilityTimeout : option Z;
  qo_RetentionDays : option Z;
  qo_MaxMessageSize : option Z
}.

Definition new_queue (userID id : uuid) (name : string) (opts : option CreateQueueOptions)
    (created updated : time) : Queue :=
  let opt f d := default d (opts ≫= f) in
  MkQueue id userID name
    ("arn:thecloud:queue:local:" +:+ uuid_string userID +:+ ":queue/" +:+ uuid_string id)
    (opt qo_VisibilityTimeout 30) (opt qo_RetentionDays 4) (opt qo_MaxMessageSize 262144)
    QueueStatusActive created updated.

Definition CreateQueue (ctx : Context) (name : string) (opts : option CreateQueueOptions) : M Queue :=
  userID ← current_user ctx;
  existing ← queue_GetByName name userID;
  match existing with
  | Some _ => fail (Errorf ("queue with name " +:+ name +:+ " already exists"))
  | None =>
      id ← uuid_New;
      created ← Now;
      updated ← Now;
      let q := new_queue userID id name opts created updated in
      queue_Create q ;;
      ignore (RecordEvent ctx "QUEUE_CREATED" (uuid_string id) "QUEUE" None) ;;
      ignore (Log (q_UserID q) "queue.create" "queue" (uuid_string id)
                (Some [("name", VString (q_Name q))])) ;;
      mret q
  end.

Definition GetQueue (ctx : Context) (id : uuid) : M Queue :=
  userID ← current_user ctx;
  q ← queue_GetByID id userID;
  from_opt (Errorf "queue not found") q.

Definition ListQueues (ctx : Context) : M (list Queue) :=
  userID ← current_user ctx;
  queue_List userID.

Definition DeleteQueue (ctx : Context) (id : uuid) : M unit :=
  q ← GetQueue ctx id;
  queue_Delete (q_ID q) ;;
  ignore (RecordEvent ctx "QUEUE_DELETED" (uuid_string (q_ID q)) "QUEUE" None) ;;
  ignore (Log (q_UserID q) "queue.delete" "queue" (uuid_string (q_ID q))
            (Some [("name", VString (q_Name q))])).

Definition queue_meta (q : Queue) : metadata := Some [("queue_id", VUUID (q_ID q))].

Definition SendMessage (ctx : Context) (queueID : uuid) (body : string) : M Message :=
  q ← GetQueue ctx queueID;
  guard_err (q_MaxMessageSize q <? Z.of_nat (String.length body))
    (Errorf ("message size exceeds limit of " +:+ itoa (q_MaxMessageSize q) +:+ " bytes")) ;;
  m ← queue_SendMessage (q_ID q) body;
  ignore (RecordEvent ctx "MESSAGE_SENT" (uuid_string (msg_ID m)) "MESSAGE" (queue_meta q)) ;;
  mret m.

(** One message at least, ten at most. *)
Definition batch_size (maxMessages : Z) : Z :=
  let n := if maxMessages <=? 0 then 1 else maxMessages in
  if 10 <? n then 10 else n.

Definition ReceiveMessages (ctx : Context) (queueID : uuid) (maxMessages : Z) : M (list Message) :=
  q ← GetQueue ctx queueID;
  msgs ← queue_ReceiveMessages (q_ID q) (batch_size maxMessages) (q_VisibilityTimeout q);
  foreach msgs (λ m,
    ignore (RecordEvent ctx "MESSAGE_RECEIVED" (uuid_string (msg_ID m)) "MESSAGE" (queue_meta q))) ;;
  mret msgs.

Definition DeleteMessage (ctx : Context) (queueID : uuid) (receiptHandle : string) : M unit :=
  q ← GetQueue ctx queueID;
  queue_DeleteMessage (q_ID q) receiptHandle ;;
  ignore (RecordEvent ctx "MESSAGE_DELETED" receiptHandle "MESSAGE" (queue_meta q)).

Definition PurgeQueue (ctx : Context) (queueID : uuid) : M unit :=
  q ← GetQueue ctx queueID;
  queue_PurgeMessages (q_ID q) ;;
  ignore (RecordEvent ctx "QUEUE_PURGED" (uuid_string (q_ID q)) "QUEUE" None) ;;
  ignore (Log (q_UserID q) "queue.purge" "queue" (uuid_string (q_ID q)) (Some [])).

End queue.

#[global] Typeclasses Opaque queue_Create row_or_nil queue_GetByID queue_GetByName queue_List
  queue_Delete queue_SendMessage receive_one mark_received queue_ReceiveMessages queue_DeleteMessage
  queue_PurgeMessages queue_GetQueueStats current_user CreateQueue GetQueue ListQueues DeleteQueue
  SendMessage ReceiveMessages DeleteMessage PurgeQueue.

(** ** What the operations touch *)

Section frames.
Context `{Env} {T : Type} (p : World → T) `{!Indep p w_tick}.

#[export] Instance queue_Create_frame q : Indep p t_queues → Frame p (queue_Create q).
Proof. intros. unfold queue_Create. apply _. Qed.
#[export] Instance row_or_nil_frame {A} (m : M A) : Frame p m → Frame p (row_or_nil m).
Proof. intros. unfold row_or_nil. apply _. Qed.
#[export] Instance queue_GetByID_frame i u : Frame p (queue_GetByID i u).
Proof. intros. unfold queue_GetByID. apply _. Qed.
#[export] Instance queue_GetByName_frame n u : Frame p (queue_GetByName n u).
Proof. intros. unfold queue_GetByName. apply _. Qed.
#[export] Instance queue_List_frame u : Frame p (queue_List u).
Proof. intros. unfold queue_List. apply _. Qed.
#[export] Instance queue_Delete_frame i : Indep p t_queues → Indep p t_messages → Frame p (queue_Delete i).
Proof.
  intros. unfold queue_Delete. apply steps_bind; [apply _| |apply _].
  apply steps_db_exec; [apply _..|]. apply sql_delete_same; [apply _|]. intros w. apply indep.
Qed.
#[export] Instance queue_SendMessage_frame q b : Indep p t_messages → Frame p (queue_SendMessage q b).
Proof. intros. unfold queue_SendMessage. apply _. Qed.
#[export] Instance receive_one_frame n v m : Frame p (receive_one n v m).
Proof. intros. unfold receive_one. apply _. Qed.
#[export] Instance mark_received_frame m : Indep p t_messages → Frame p (mark_received m).
Proof. intros. unfold mark_received. apply _. Qed.
#[export] Instance queue_ReceiveMessages_frame q n v : Indep p w_calls → Indep p t_messages → Frame p (queue_ReceiveMessages q n v).
Proof. intros. unfold queue_ReceiveMessages. apply _. Qed.
#[export] Instance queue_DeleteMessage_frame q h : Indep p t_messages → Frame p (queue_DeleteMessage q h).
Proof. intros. unfold queue_DeleteMessage. apply _. Qed.
#[export] Instance queue_PurgeMessages_frame q : Indep p t_messages → Frame p (queue_PurgeMessages q).
Proof. intros. unfold queue_PurgeMessages. apply _. Qed.
#[export] Instance queue_GetQueueStats_frame q : Frame p (queue_GetQueueStats q).
Proof. intros. unfold queue_GetQueueStats. apply _. Qed.
#[export] Instance current_user_frame c : Frame p (current_user c).
Proof. intros. unfold current_user. apply _. Qed.
#[export] Instance CreateQueue_frame c n o : Indep p t_queues → Indep p t_events → Indep p t_audit → Frame p (CreateQueue c n o).
Proof. intros. unfold CreateQueue. apply _. Qed.
#[export] Instance GetQueue_frame c i : Frame p (GetQueue c i).
Proof. intros. unfold GetQueue. apply _. Qed.
#[export] Instance ListQueues_frame c : Frame p (ListQueues c).
Proof. intros. unfold ListQueues. apply _. Qed.
#[export] Instance DeleteQueue_frame c i : Indep p t_queues → Indep p t_messages → Indep p t_events → Indep p t_audit → Frame p (DeleteQueue c i).
Proof. intros. unfold DeleteQueue. apply _. Qed.
#[export] Instance SendMessage_frame c q b : Indep p t_messages → Indep p t_events → Frame p (SendMessage c q b).
Proof. intros. unfold SendMessage. apply _. Qed.
#[export] Instance ReceiveMessages_frame c q n : Indep p w_calls → Indep p t_messages → Indep p t_events → Frame p (ReceiveMessages c q n).
Proof. intros. unfold ReceiveMessages. apply _. Qed.
#[export] Instance DeleteMessage_frame c q h : Indep p t_messages → Indep p t_events → Frame p (DeleteMessage c q h).
Proof. intros. unfold DeleteMessage. apply _. Qed.
#[export] Instance PurgeQueue_frame c q : Indep p t_messages → Indep p t_events → Indep p t_audit → Frame p (PurgeQueue c q).
Proof. intros. unfold PurgeQueue. apply _. Qed.
End frames.

Section no_panic.
Context `{Env}.

#[export] Instance queue_Create_no_panic q : NoPanic (queue_Create q).
Proof. unfold queue_Create. apply _. Qed.
#[export] Instance row_or_nil_no_panic {A} (m : M A) : NoPanic m → NoPanic (row_or_nil m).
Proof. intros. unfold row_or_nil. apply _. Qed.
#[export] Instance queue_GetByID_no_panic i u : NoPanic (queue_GetByID i u).
Proof. unfold queue_GetByID. apply _. Qed.
#[export] Instance queue_GetByName_no_panic n u : NoPanic (queue_GetByName n u).
Proof. unfold queue_GetByName. apply _. Qed.
#[export] Instance queue_List_no_panic u : NoPanic (queue_List u).
Proof. unfold queue_List. apply _. Qed.
#[export] Instance queue_Delete_no_panic i : NoPanic (queue_Delete i).
Proof. unfold queue_Delete. apply _. Qed.
#[export] Instance queue_SendMessage_no_panic q b : NoPanic (queue_SendMessage q b).
Proof. unfold queue_SendMessage. apply _. Qed.
#[export] Instance receive_one_no_panic n v m : NoPanic (receive_one n v m).
Proof. unfold receive_one. apply _. Qed.
#[export] Instance mark_received_no_panic m : NoPanic (mark_received m).
Proof. unfold mark_received. apply _. Qed.
#[export] Instance queue_ReceiveMessages_no_panic q n v : NoPanic (queue_ReceiveMessages q n v).
Proof. unfold queue_ReceiveMessages. apply _. Qed.
#[export] Instance queue_DeleteMessage_no_panic q h : NoPanic (queue_DeleteMessage q h).
Proof. unfold queue_DeleteMessage. apply _. Qed.
#[export] Instance queue_PurgeMessages_no_panic q : NoPanic (queue_PurgeMessages q).
Proof. unfold queue_PurgeMessages. apply _. Qed.
#[export] Instance queue_GetQueueStats_no_panic q : NoPanic (queue_GetQueueStats q).
Proof. unfold queue_GetQueueStats. apply _. Qed.
#[export] Instance current_user_no_panic c : NoPanic (current_user c).
Proof. unfold current_user. apply _. Qed.
#[export] Instance CreateQueue_no_panic c n o : NoPanic (CreateQueue c n o).
Proof. unfold CreateQueue. apply _. Qed.
#[export] Instance GetQueue_no_panic c i : NoPanic (GetQueue c i).
Proof. unfold GetQueue. apply _. Qed.
#[export] Instance ListQueues_no_panic c : NoPanic (ListQueues c).
Proof. unfold ListQueues. apply _. Qed.
#[export] Instance DeleteQueue_no_panic c i : NoPanic (DeleteQueue c i).
Proof. unfold DeleteQueue. apply _. Qed.
#[export] Instance SendMessage_no_panic c q b : NoPanic (SendMessage c q b).
Proof. unfold SendMessage. apply _. Qed.
#[export] Instance ReceiveMessages_no_panic c q n : NoPanic (ReceiveMessages c q n).
Proof. unfold ReceiveMessages. apply _. Qed.
#[export] Instance DeleteMessage_no_panic c q h : NoPanic (DeleteMessage c q h).
Proof. unfold DeleteMessage. apply _. Qed.
#[export] Instance PurgeQueue_no_panic c q : NoPanic (PurgeQueue c q).
Proof. unfold PurgeQueue. apply _. Qed.
End no_panic.
