(* ===== verification/Storage.v ===== *)
(** * [services/storage.go], [repositories/postgres/storage_repo.go] and
    [repositories/filesystem/adapter.go]: the object store

    The content of an object is a file below a base directory, its metadata a row of
    [objects].  [w_files] holds the regular files by the path they are opened under. *)
From S2P Require Import Prelude GoStd Encoding Net Errors Domain DomainData World Logic Sql InstanceRepo.

(** ** The file store *)

(** An [io.Reader]: what it gives before it ends, and the error that ends a copy from it
    early, if any. *)
Record Reader := MkReader { rd_data : string; rd_err : option error }.

Section file_store.
Context `{Env} (basePath : string).

Definition object_path (bucket key : string) : string := Join [basePath; Clean bucket; Clean key].

Definition check_path (filePath : string) : M unit :=
  guard_err (negb (HasPrefix filePath (Clean basePath)))
    (New InvalidInput "invalid path: traversal detected").

(** The directory of the bucket and the file are joined in two steps. *)
Definition store_Write (bucket key : string) (r : Reader) : M Z :=
  let bucketPath := Join [basePath; Clean bucket] in
  let filePath := Join [bucketPath; Clean key] in
  check_path filePath ;;
  wrap_err (Wrap Internal "failed to create directories") (perform (MkdirAll (Dir filePath))) ;;
  wrap_err (Wrap Internal "failed to create file") (perform (CreateFile filePath)) ;;
  modifies w_files <[filePath := rd_data r]> ;;
  match rd_err r with
  | Some err => fail (Wrap Internal "failed to write file" err)
  | None => mret (Z.of_nat (String.length (rd_data r)))
  end.

Definition store_Read (bucket key : string) : M string :=
  let filePath := object_path bucket key in
  check_path filePath ;;
  file ← gets (λ w, w_files w !! filePath);
  content ← from_opt (New ObjectNotFound "object not found on disk") file;
  wrap_err (Wrap Internal "failed to open file") (perform (OpenFile filePath)) ;;
  mret content.

(** A file that is not there is deleted already. *)
Definition store_Delete (bucket key : string) : M unit :=
  let filePath := object_path bucket key in
  check_path filePath ;;
  file ← gets (λ w, w_files w !! filePath);
  match file with
  | None => mret ()
  | Some _ =>
      wrap_err (Wrap Internal "failed to delete file") (perform (RemoveFile filePath)) ;;
      modifies w_files (delete filePath)
  end.

End file_store.

Section storage.
Context `{Env}.

(** ** The repository *)

Definition same_object (bucket key : string) (r : Object) : bool :=
  bool_decide (obj_Bucket r = bucket) && bool_decide (obj_Key r = key).

(** [INSERT ... ON CONFLICT (bucket, key) DO UPDATE]: the row of the same bucket and key
    gets the new values and the new owner, whoever owned it. *)
Definition save_meta (obj : Object) (w : World) : option (unit * World) :=
  if user_fk (obj_UserID obj) w then
    if no_row (same_object (obj_Bucket obj) (obj_Key obj)) (t_objects w) then
      sql_insert t_objects (obj_ID obj) obj
        (λ w, no_row (λ r, bool_decide (obj_ARN r = obj_ARN obj)) (t_objects w)) w
    else
      Some (tt, w <| t_objects ::= fmap (λ r,
        if same_object (obj_Bucket obj) (obj_Key obj) r then
          r <| obj_SizeBytes := obj_SizeBytes obj |> <| obj_ContentType := obj_ContentType obj |>
            <| obj_CreatedAt := obj_CreatedAt obj |> <| obj_DeletedAt := None |>
            <| obj_UserID := obj_UserID obj |>
        else r) |>)
  else None.

Definition SaveMeta (obj : Object) : M unit :=
  wrap_err (Wrap Internal "failed to save object metadata") (db_exec (save_meta obj)).

(** The condition of the queries: not deleted, owned by the user. *)
Definition live_of (userID : uuid) (r : Object) : bool :=
  bool_decide (obj_DeletedAt r = None) && of_user obj_UserID userID r.

Definition GetMeta (ctx : Context) (bucket key : string) : M Object :=
  wrap_err (norows (New ObjectNotFound "object metadata not found") "failed to get object metadata")
    (db_query_row (λ w,
       select (λ r, same_object bucket key r && live_of (UserIDFromContext ctx) r) (t_objects w))).

Definition object_List (ctx : Context) (bucket : string) : M (list Object) :=
  l ← wrap_err (Wrap Internal "failed to list objects")
        (db_query (λ w, select (λ r, bool_decide (obj_Bucket r = bucket)
                                     && live_of (UserIDFromContext ctx) r) (t_objects w)));
  mret (order_desc obj_CreatedAt l).

Definition SoftDelete (ctx : Context) (bucket key : string) : M unit :=
  now ← Now;
  n ← wrap_err (Wrap Internal "failed to soft delete object")
        (db_exec (sql_update_where t_objects
           (λ r, same_object bucket key r && live_of (UserIDFromContext ctx) r)
           (λ r, r <| obj_DeletedAt := Some now |>)));
  guard_err (Nat.eqb n 0) (New ObjectNotFound "object not found or already deleted").

(** ** The service *)

Context (basePath : string).

Definition Upload (ctx : Context) (bucket key : string) (r : Reader) : M Object :=
  size ← store_Write basePath bucket key r;
  id ← uuid_New;
  created ← Now;
  let obj := MkObject id (UserIDFromContext ctx)
               ("arn:thecloud:storage:local:default:object/" +:+ bucket +:+ "/" +:+ key)
               bucket key size "application/octet-stream" created None in
  saved ← attempt (SaveMeta obj);
  match saved with
  | inl err => ignore (store_Delete basePath bucket key) ;; fail err
  | inr _ =>
      ignore (Log (obj_UserID obj) "storage.object_upload" "storage" (uuid_string (obj_ID obj))
                (Some [("bucket", VString (obj_Bucket obj)); ("key", VString (obj_Key obj))])) ;;
      mret obj
  end.

Definition Download (ctx : Context) (bucket key : string) : M (string * Object) :=
  obj ← GetMeta ctx bucket key;
  content ← store_Read basePath bucket key;
  mret (content, obj).

Definition ListObjects (ctx : Context) (bucket : string) : M (list Object) := object_List ctx bucket.

Definition DeleteObject (ctx : Context) (bucket key : string) : M unit :=
  SoftDelete ctx bucket key ;;
  ignore (Log (UserIDFromContext ctx) "storage.object_delete" "storage" (bucket +:+ "/" +:+ key)
            (Some [("bucket", VString bucket); ("key", VString key)])).

End storage.

#[global] Typeclasses Opaque store_Write store_Read store_Delete SaveMeta Upload Download DeleteObject.

(** ** What the operations touch *)

Section frames.
Context `{Env} {T : Type} (p : World → T) `{!Indep p w_tick}.

#[export] Instance SaveMeta_frame o : Indep p t_objects → Frame p (SaveMeta o).
Proof.
  intros. apply steps_wrap_err, steps_db_exec; [apply _..|]. intros w a w' Hs.
  unfold save_meta in Hs. destruct (user_fk _ _); [|done]. destruct (no_row _ _).
  - eapply (writes_same p t_objects); [apply _| |exact Hs]. apply _.
  - injection Hs as _ <-. apply indep.
Qed.
#[export] Instance check_path_frame b s : Frame p (check_path b s).
Proof. intros. unfold check_path. apply _. Qed.
#[export] Instance store_Write_frame b bk k r : Indep p w_calls → Indep p w_files → Frame p (store_Write b bk k r).
Proof. intros. unfold store_Write. apply _. Qed.
#[export] Instance store_Read_frame b bk k : Indep p w_calls → Frame p (store_Read b bk k).
Proof. intros. unfold store_Read. apply _. Qed.
#[export] Instance store_Delete_frame b bk k : Indep p w_calls → Indep p w_files → Frame p (store_Delete b bk k).
Proof. intros. unfold store_Delete. apply _. Qed.
#[export] Instance GetMeta_frame ctx b k : Frame p (GetMeta ctx b k).
Proof. intros. unfold GetMeta. apply _. Qed.
#[export] Instance object_List_frame ctx b : Frame p (object_List ctx b).
Proof. intros. unfold object_List. apply _. Qed.
#[export] Instance SoftDelete_frame ctx b k : Indep p t_objects → Frame p (SoftDelete ctx b k).
Proof. intros. unfold SoftDelete. apply _. Qed.
#[export] Instance Upload_frame bp ctx b k r : Indep p w_calls → Indep p w_files → Indep p t_objects → Indep p t_audit → Frame p (Upload bp ctx b k r).
Proof. intros. unfold Upload. apply _. Qed.
#[export] Instance Download_frame bp ctx b k : Indep p w_calls → Frame p (Download bp ctx b k).
Proof. intros. unfold Download. apply _. Qed.
#[export] Instance DeleteObject_frame ctx b k : Indep p t_objects → Indep p t_audit → Frame p (DeleteObject ctx b k).
Proof. intros. unfold DeleteObject. apply _. Qed.
End frames.

Section no_panic.
Context `{Env}.

#[export] Instance check_path_no_panic b s : NoPanic (check_path b s).
Proof. unfold check_path. apply _. Qed.
#[export] Instance store_Write_no_panic b bk k r : NoPanic (store_Write b bk k r).
Proof. unfold store_Write. apply _. Qed.
#[export] Instance store_Read_no_panic b bk k : NoPanic (store_Read b bk k).
Proof. unfold store_Read. apply _. Qed.
#[export] Instance store_Delete_no_panic b bk k : NoPanic (store_Delete b bk k).
Proof. unfold store_Delete. apply _. Qed.
#[export] Instance SaveMeta_no_panic o : NoPanic (SaveMeta o).
Proof. unfold SaveMeta. apply _. Qed.
#[export] Instance GetMeta_no_panic ctx b k : NoPanic (GetMeta ctx b k).
Proof. unfold GetMeta. apply _. Qed.
#[export] Instance object_List_no_panic ctx b : NoPanic (object_List ctx b).
Proof. unfold object_List. apply _. Qed.
#[export] Instance SoftDelete_no_panic ctx b k : NoPanic (SoftDelete ctx b k).
Proof. unfold SoftDelete. apply _. Qed.
#[export] Instance Upload_no_panic bp ctx b k r : NoPanic (Upload bp ctx b k r).
Proof. unfold Upload. apply _. Qed.
#[export] Instance Download_no_panic bp ctx b k : NoPanic (Download bp ctx b k).
Proof. unfold Download. apply _. Qed.
#[export] Instance DeleteObject_no_panic ctx b k : NoPanic (DeleteObject ctx b k).
Proof. unfold DeleteObject. apply _. Qed.
End no_panic.
