(* ===== verification/Rbac.v ===== *)
(** * [repositories/postgres/user_repo.go], [rbac_repo.go] and [services/rbac.go]

    Users, roles and the authorisation of every API call. *)
From S2P Require Import Prelude GoStd Net Errors Domain DomainData World Logic Sql.

(** ** Permissions *)

Definition PermissionInstanceLaunch := "instance:launch".
Definition PermissionInstanceRead := "instance:read".
Definition PermissionVpcRead := "vpc:read".
Definition PermissionVolumeRead := "volume:read".
Definition PermissionFullAccess := "*".

Definition RoleAdmin := "admin".
Definition RoleDeveloper := "developer".
Definition RoleViewer := "viewer".

Section rbac.
Context `{Env}.

(** ** Users *)

Definition user_Create (user : User) : M unit :=
  wrap_err (Errorf_w "failed to create user")
    (db_exec (sql_insert t_users (user_ID user) user
       (λ w, no_row (λ r, bool_decide (user_Email r = user_Email user)) (t_users w)))).

Definition user_GetByEmail (email : string) : M User :=
  wrap_err (Errorf_w "failed to get user by email")
    (db_query_row (λ w, select (λ u, bool_decide (user_Email u = email)) (t_users w))).

Definition user_GetByID (id : uuid) : M User :=
  wrap_err (Errorf_w "failed to get user by ID")
    (db_query_row (λ w, by_pk (t_users w) id (λ _, true))).

(** The number of rows affected is not looked at. *)
Definition user_Update (user : User) : M unit :=
  wrap_err (Errorf_w "failed to update user")
    (db_exec (sql_update t_users (user_ID user) (λ _, true) (λ w r,
       if no_row (λ o, bool_decide (user_Email o = user_Email user ∧ user_ID o ≠ user_ID user))
            (t_users w)
       then Some (r <| user_Email := user_Email user |>
                    <| user_PasswordHash := user_PasswordHash user |>
                    <| user_Name := user_Name user |> <| user_Role := user_Role user |>
                    <| user_UpdatedAt := user_UpdatedAt user |>)
       else None))) ;;
  mret ().

Definition user_List : M (list User) :=
  l ← wrap_err (Errorf_w "failed to list users") (db_query (λ w, select (λ _, true) (t_users w)));
  mret (order_desc user_CreatedAt l).

(** ** Roles

    A row of [roles] with its rows of [role_permissions], which are without
    duplicates by their primary key. *)

Definition insert_permission (roleID : uuid) (p : string) (w : World) : option (nat * World) :=
  match t_roles w !! roleID with
  | Some r => if mem p (role_Permissions r) then None
              else sql_update t_roles roleID (λ _, true)
                     (λ _ r, Some (r <| role_Permissions ::= cons p |>)) w
  | None => None
  end.

Definition role_CreateRole (role : Role) : M unit :=
  transaction (
    db_exec (sql_insert t_roles (role_ID role) (role <| role_Permissions := [] |>)
      (λ w, no_row (λ r, bool_decide (role_Name r = role_Name role)) (t_roles w))) ;;
    foreach (role_Permissions role) (λ p, db_exec (insert_permission (role_ID role) p) ;; mret ())).

Definition role_GetPermissionsForRole (roleID : uuid) : M (list string) :=
  db_query (λ w, match t_roles w !! roleID with Some r => role_Permissions r | None => [] end).

Definition role_GetRoleByID (id : uuid) : M Role :=
  role ← db_query_row (λ w, by_pk (t_roles w) id (λ _, true));
  perms ← role_GetPermissionsForRole id;
  mret (role <| role_Permissions := perms |>).

Definition role_GetRoleByName (name : string) : M Role :=
  role ← db_query_row (λ w, select (λ r, bool_decide (role_Name r = name)) (t_roles w));
  perms ← role_GetPermissionsForRole (role_ID role);
  mret (role <| role_Permissions := perms |>).

Definition role_ListRoles : M (list Role) :=
  roles ← db_query (λ w, select (λ _, true) (t_roles w));
  foldM (λ acc r, perms ← role_GetPermissionsForRole (role_ID r);
                  mret (acc ++ [r <| role_Permissions := perms |>])) [] roles.

Definition role_UpdateRole (role : Role) : M unit :=
  transaction (
    db_exec (sql_update t_roles (role_ID role) (λ _, true) (λ w r,
      if no_row (λ o, bool_decide (role_Name o = role_Name role ∧ role_ID o ≠ role_ID role)) (t_roles w)
      then Some (r <| role_Name := role_Name role |> <| role_Description := role_Description role |>)
      else None)) ;;
    db_exec (sql_update t_roles (role_ID role) (λ _, true)
      (λ _ r, Some (r <| role_Permissions := [] |>))) ;;
    foreach (role_Permissions role) (λ p, db_exec (insert_permission (role_ID role) p) ;; mret ())).

Definition role_DeleteRole (id : uuid) : M unit :=
  db_exec (sql_delete t_roles id (λ _, true) (λ _, true) (λ w, w)) ;; mret ().

(** [ON CONFLICT DO NOTHING] *)
Definition role_AddPermissionToRole (roleID : uuid) (p : string) : M unit :=
  db_exec (λ w, match t_roles w !! roleID with
                | Some r => if mem p (role_Permissions r) then Some (0%nat, w)
                            else insert_permission roleID p w
                | None => None
                end) ;;
  mret ().

Definition role_RemovePermissionFromRole (roleID : uuid) (p : string) : M unit :=
  db_exec (sql_update t_roles roleID (λ _, true)
    (λ _ r, Some (r <| role_Permissions ::= filter (λ q, q ≠ p) |>))) ;;
  mret ().

(** ** The service *)

Definition hasDefaultPermission (roleName permission : string) : bool :=
  if bool_decide (roleName = RoleAdmin) then true
  else if bool_decide (roleName = RoleViewer) then
    mem permission [PermissionInstanceRead; PermissionVolumeRead; PermissionVpcRead]
  else if bool_decide (roleName = RoleDeveloper) then
    negb (bool_decide (permission = PermissionFullAccess))
  else false.

(** The loop over the permissions of a role. *)
Definition role_grants (perms : list string) (permission : string) : bool :=
  existsb (λ p, bool_decide (p = PermissionFullAccess) || bool_decide (p = permission)) perms.

(** Any failure to read the role falls back to the defaults of its name. *)
Definition HasPermission (userID : uuid) (permission : string) : M bool :=
  user ← wrap_err (Errorf_w "failed to get user") (user_GetByID userID);
  r ← attempt (role_GetRoleByName (user_Role user));
  match r with
  | inl _ => mret (hasDefaultPermission (user_Role user) permission)
  | inr role => mret (role_grants (role_Permissions role) permission)
  end.

Definition Authorize (userID : uuid) (permission : string) : M unit :=
  allowed ← HasPermission userID permission;
  guard_err (negb allowed) (New Forbidden ("permission denied: " +:+ permission)).

Definition CreateRole (role : Role) : M unit :=
  role ← (if bool_decide (role_ID role = uuid_Nil) then
            id ← uuid_New; mret (role <| role_ID := id |>)
          else mret role);
  role_CreateRole role.

Definition GetRoleByID (id : uuid) : M Role := role_GetRoleByID id.
Definition GetRoleByName (name : string) : M Role := role_GetRoleByName name.
Definition ListRoles : M (list Role) := role_ListRoles.
Definition UpdateRole (role : Role) : M unit := role_UpdateRole role.
Definition DeleteRole (id : uuid) : M unit := role_DeleteRole id.
Definition AddPermissionToRole (roleID : uuid) (p : string) : M unit := role_AddPermissionToRole roleID p.
Definition RemovePermissionFromRole (roleID : uuid) (p : string) : M unit :=
  role_RemovePermissionFromRole roleID p.

Definition BindRole (userIdentifier roleName : string) : M unit :=
  wrap_err (Errorf_w ("role " +:+ roleName +:+ " does not exist")) (role_GetRoleByName roleName) ;;
  user ← wrap_err (Errorf_w "user not found")
           (match uuid_parse userIdentifier with
            | Some userID => user_GetByID userID
            | None => user_GetByEmail userIdentifier
            end);
  user_Update (user <| user_Role := roleName |>).

Definition ListRoleBindings : M (list User) := user_List.

End rbac.

Section frames.
Context `{Env} {T : Type} (p : World → T) `{!Indep p w_tick}.

#[export] Instance Authorize_frame u x : Frame p (Authorize u x).
Proof. unfold Authorize. apply _. Qed.
#[export] Instance user_Create_frame u : Indep p t_users → Frame p (user_Create u).
Proof. intros. unfold user_Create. apply _. Qed.
#[export] Instance user_GetByEmail_frame e : Frame p (user_GetByEmail e).
Proof. unfold user_GetByEmail. apply _. Qed.
#[export] Instance user_GetByID_frame i : Frame p (user_GetByID i).
Proof. unfold user_GetByID. apply _. Qed.
#[export] Instance user_Update_frame u : Indep p t_users → Frame p (user_Update u).
Proof. intros. unfold user_Update. apply _. Qed.
#[export] Instance insert_permission_writes i x : Writes t_roles (insert_permission i x).
Proof.
  intros w a w' Hs. unfold insert_permission in Hs. destruct (t_roles w !! i); [|done].
  destruct (mem _ _); [done|]. eapply sql_update_writes, Hs.
Qed.
#[export] Instance role_CreateRole_frame r : Indep p t_roles → Indep p w_calls → Frame p (role_CreateRole r).
Proof. intros. unfold role_CreateRole. apply _. Qed.
#[export] Instance role_UpdateRole_frame r : Indep p t_roles → Indep p w_calls → Frame p (role_UpdateRole r).
Proof. intros. unfold role_UpdateRole. apply _. Qed.
#[export] Instance role_AddPermissionToRole_frame i x : Indep p t_roles → Frame p (role_AddPermissionToRole i x).
Proof.
  intros. unfold role_AddPermissionToRole. apply steps_bind; [apply _| |apply _]. apply steps_db_exec; [apply _..|].
  apply (writes_same p t_roles); [apply _|]. intros w a w' Hs. destruct (t_roles w !! i); [|done].
  destruct (mem _ _); [injection Hs as _ <-; by left|]. eapply insert_permission_writes, Hs.
Qed.
#[export] Instance role_GetPermissionsForRole_frame i : Frame p (role_GetPermissionsForRole i).
Proof. intros. unfold role_GetPermissionsForRole. apply _. Qed.
#[export] Instance role_GetRoleByID_frame i : Frame p (role_GetRoleByID i).
Proof. intros. unfold role_GetRoleByID. apply _. Qed.
#[export] Instance role_GetRoleByName_frame n : Frame p (role_GetRoleByName n).
Proof. intros. unfold role_GetRoleByName. apply _. Qed.
#[export] Instance role_DeleteRole_frame i : Indep p t_roles → Frame p (role_DeleteRole i).
Proof. intros. unfold role_DeleteRole. apply _. Qed.
#[export] Instance role_RemovePermissionFromRole_frame i x : Indep p t_roles → Frame p (role_RemovePermissionFromRole i x).
Proof. intros. unfold role_RemovePermissionFromRole. apply _. Qed.
#[export] Instance HasPermission_frame u x : Frame p (HasPermission u x).
Proof. intros. unfold HasPermission. apply _. Qed.
#[export] Instance CreateRole_frame r : Indep p t_roles → Indep p w_calls → Frame p (CreateRole r).
Proof. intros. unfold CreateRole. apply _. Qed.
#[export] Instance BindRole_frame u n : Indep p t_users → Frame p (BindRole u n).
Proof. intros. unfold BindRole. apply _. Qed.
End frames.

Section no_panic.
Context `{Env}.
#[export] Instance user_Create_no_panic u : NoPanic (user_Create u).
Proof. unfold user_Create. apply _. Qed.
#[export] Instance user_GetByEmail_no_panic e : NoPanic (user_GetByEmail e).
Proof. unfold user_GetByEmail. apply _. Qed.
#[export] Instance user_GetByID_no_panic i : NoPanic (user_GetByID i).
Proof. unfold user_GetByID. apply _. Qed.
#[export] Instance user_Update_no_panic u : NoPanic (user_Update u).
Proof. unfold user_Update. apply _. Qed.
#[export] Instance role_CreateRole_no_panic r : NoPanic (role_CreateRole r).
Proof. unfold role_CreateRole. apply _. Qed.
#[export] Instance role_GetPermissionsForRole_no_panic i : NoPanic (role_GetPermissionsForRole i).
Proof. unfold role_GetPermissionsForRole. apply _. Qed.
#[export] Instance role_GetRoleByID_no_panic i : NoPanic (role_GetRoleByID i).
Proof. unfold role_GetRoleByID. apply _. Qed.
#[export] Instance role_GetRoleByName_no_panic n : NoPanic (role_GetRoleByName n).
Proof. unfold role_GetRoleByName. apply _. Qed.
#[export] Instance role_UpdateRole_no_panic r : NoPanic (role_UpdateRole r).
Proof. unfold role_UpdateRole. apply _. Qed.
#[export] Instance role_DeleteRole_no_panic i : NoPanic (role_DeleteRole i).
Proof. unfold role_DeleteRole. apply _. Qed.
#[export] Instance role_AddPermissionToRole_no_panic i x : NoPanic (role_AddPermissionToRole i x).
Proof. unfold role_AddPermissionToRole. apply _. Qed.
#[export] Instance role_RemovePermissionFromRole_no_panic i x : NoPanic (role_RemovePermissionFromRole i x).
Proof. unfold role_RemovePermissionFromRole. apply _. Qed.
#[export] Instance HasPermission_no_panic u x : NoPanic (HasPermission u x).
Proof. unfold HasPermission. apply _. Qed.
#[export] Instance CreateRole_no_panic r : NoPanic (CreateRole r).
Proof. unfold CreateRole. apply _. Qed.
#[export] Instance BindRole_no_panic u n : NoPanic (BindRole u n).
Proof. unfold BindRole. apply _. Qed.
#[export] Instance Authorize_no_panic u x : NoPanic (Authorize u x).
Proof.
  unfold Authorize, HasPermission, role_GetRoleByName, role_GetPermissionsForRole. apply _.
Qed.
End no_panic.
