(* ===== verification/Auth.v ===== *)
(** * API keys, the gate of the protected requests, and accounts

    The repository and the service of the keys with the two middlewares of
    [pkg/httputil/auth.go]; then registration, login and the reset of a password. *)
From S2P Require Import Prelude GoStd Encoding Net Errors Domain DomainData World Logic Sql InstanceRepo Rbac.
From S2P Require Import Secret.

(** * [repositories/postgres/identity_repo.go], [services/identity.go] and
    [pkg/httputil/auth.go]: API keys and the gate every protected request passes *)

Section identity.
Context `{Env}.

(** ** The repository *)

Definition CreateAPIKey (key : APIKey) : M unit :=
  wrap_err (Wrap Internal "failed to create api key")
    (db_exec (sql_insert t_api_keys (ak_ID key) (key <| ak_LastUsed := time_zero |>) (λ w,
       user_fk (ak_UserID key) w
       && no_row (λ r, bool_decide (ak_Key r = ak_Key key)) (t_api_keys w)))).

Definition GetAPIKeyByKey (keyStr : string) : M APIKey :=
  wrap_err (norows (New Unauthorized "invalid api key") "failed to get api key")
    (db_query_row (λ w, select (λ r, bool_decide (ak_Key r = keyStr)) (t_api_keys w))).

Definition GetAPIKeyByID (id : uuid) : M APIKey :=
  wrap_err (norows (New ObjectNotFound "api key not found") "failed to get api key")
    (db_query_row (λ w, by_pk (t_api_keys w) id (λ _, true))).

Definition ListAPIKeysByUserID (userID : uuid) : M (list APIKey) :=
  wrap_err (Wrap Internal "failed to list api keys")
    (db_query (λ w, select (of_user ak_UserID userID) (t_api_keys w))).

Definition DeleteAPIKey (id : uuid) : M unit :=
  wrap_err (Wrap Internal "failed to delete api key")
    (db_exec (sql_delete t_api_keys id (λ _, true) (λ _, true) (λ w, w))) ;;
  mret ().

(** ** The service *)

Definition ValidateAPIKey (key : string) : M APIKey := GetAPIKeyByKey key.
Definition ListKeys (userID : uuid) : M (list APIKey) := ListAPIKeysByUserID userID.

Definition RevokeKey (userID id : uuid) : M unit :=
  key ← GetAPIKeyByID id;
  guard_err (negb (bool_decide (ak_UserID key = userID)))
    (New Forbidden "cannot revoke key owned by another user") ;;
  DeleteAPIKey id ;;
  ignore (Log userID "api_key.revoke" "api_key" (uuid_string id)
            (Some [("name", VString (ak_Name key))])).

Context `{Crypto}.

Definition key_prefix : string := "thecloud_".

Definition CreateKey (userID : uuid) (name : string) : M APIKey :=
  b ← rand_Read 16;
  id ← uuid_New;
  created ← Now;
  let key := MkAPIKey id userID (key_prefix +:+ hex_encode b) name created time_zero in
  CreateAPIKey key ;;
  ignore (Log userID "api_key.create" "api_key" (uuid_string (ak_ID key))
            (Some [("name", VString name)])) ;;
  mret key.

(** The new key is returned even when the old one could not be deleted. *)
Definition RotateKey (userID id : uuid) : M APIKey :=
  key ← GetAPIKeyByID id;
  guard_err (negb (bool_decide (ak_UserID key = userID)))
    (New Forbidden "cannot rotate key owned by another user") ;;
  newKey ← CreateKey userID (ak_Name key +:+ " (rotated)");
  r ← attempt (DeleteAPIKey id);
  match r with
  | inl _ => mret newKey
  | inr _ =>
      ignore (Log userID "api_key.rotate" "api_key" (uuid_string id)
                (Some [("name", VString (ak_Name key)); ("new_id", VString (uuid_string (ak_ID newKey)))])) ;;
      mret newKey
  end.

(** ** The middlewares *)

(** [Auth]: the context of the request, with the owner of the key in its header. *)
Definition Auth (apiKey : string) (ctx : Context) : M Context :=
  guard_err (bool_decide (apiKey = "")) (New Unauthorized "API key required") ;;
  apiKeyObj ← wrap_err (λ _, New Unauthorized "invalid API key") (ValidateAPIKey apiKey);
  mret (WithUserID ctx (ak_UserID apiKeyObj)).

(** [Permission]: the user that [Auth] put in the context of the request. *)
Definition Permission (ctx : Context) (permission : string) : M unit :=
  let userID := UserIDFromContext ctx in
  guard_err (bool_decide (userID = uuid_Nil)) (New Unauthorized "authentication required") ;;
  Authorize userID permission.

End identity.

#[global] Typeclasses Opaque CreateKey RotateKey RevokeKey Auth Permission.

(** ** What the operations touch *)

Section frames.
Context `{Env, Crypto} {T : Type} (p : World → T) `{!Indep p w_tick}.

#[export] Instance CreateAPIKey_frame k : Indep p t_api_keys → Frame p (CreateAPIKey k).
Proof. intros. unfold CreateAPIKey. apply _. Qed.
#[export] Instance GetAPIKeyByKey_frame k : Frame p (GetAPIKeyByKey k).
Proof. intros. unfold GetAPIKeyByKey. apply _. Qed.
#[export] Instance GetAPIKeyByID_frame i : Frame p (GetAPIKeyByID i).
Proof. intros. unfold GetAPIKeyByID. apply _. Qed.
#[export] Instance ListAPIKeysByUserID_frame u : Frame p (ListAPIKeysByUserID u).
Proof. intros. unfold ListAPIKeysByUserID. apply _. Qed.
#[export] Instance DeleteAPIKey_frame i : Indep p t_api_keys → Frame p (DeleteAPIKey i).
Proof. intros. unfold DeleteAPIKey. apply _. Qed.
#[export] Instance RevokeKey_frame u i : Indep p t_api_keys → Indep p t_audit → Frame p (RevokeKey u i).
Proof. intros. unfold RevokeKey. apply _. Qed.
#[export] Instance CreateKey_frame u n : Indep p t_api_keys → Indep p t_audit → Frame p (CreateKey u n).
Proof. intros. unfold CreateKey. apply _. Qed.
#[export] Instance RotateKey_frame u i : Indep p t_api_keys → Indep p t_audit → Frame p (RotateKey u i).
Proof. intros. unfold RotateKey. apply _. Qed.
#[export] Instance Auth_frame k ctx : Frame p (Auth k ctx).
Proof. unfold Auth, ValidateAPIKey. apply _. Qed.
End frames.

Section no_panic.
Context `{Env, Crypto}.

#[export] Instance CreateAPIKey_no_panic k : NoPanic (CreateAPIKey k).
Proof. unfold CreateAPIKey. apply _. Qed.
#[export] Instance GetAPIKeyByKey_no_panic k : NoPanic (GetAPIKeyByKey k).
Proof. unfold GetAPIKeyByKey. apply _. Qed.
#[export] Instance GetAPIKeyByID_no_panic i : NoPanic (GetAPIKeyByID i).
Proof. unfold GetAPIKeyByID. apply _. Qed.
#[export] Instance ListAPIKeysByUserID_no_panic u : NoPanic (ListAPIKeysByUserID u).
Proof. unfold ListAPIKeysByUserID. apply _. Qed.
#[export] Instance DeleteAPIKey_no_panic i : NoPanic (DeleteAPIKey i).
Proof. unfold DeleteAPIKey. apply _. Qed.
#[export] Instance RevokeKey_no_panic u i : NoPanic (RevokeKey u i).
Proof. unfold RevokeKey. apply _. Qed.
#[export] Instance CreateKey_no_panic u n : NoPanic (CreateKey u n).
Proof. unfold CreateKey. apply _. Qed.
#[export] Instance RotateKey_no_panic u i : NoPanic (RotateKey u i).
Proof. unfold RotateKey. apply _. Qed.
#[export] Instance Auth_no_panic k ctx : NoPanic (Auth k ctx).
Proof. unfold Auth, ValidateAPIKey. apply _. Qed.
End no_panic.

Section permission.
Context `{Env} {T : Type} (p : World → T) `{!Indep p w_tick}.
#[export] Instance Permission_frame ctx x : Frame p (Permission ctx x).
Proof. unfold Permission. apply _. Qed.
#[export] Instance Permission_no_panic ctx x : NoPanic (Permission ctx x).
Proof. unfold Permission. apply _. Qed.
End permission.

(** * [services/auth.go], [services/password_reset.go] and
    [repositories/postgres/password_reset.go]: registration, login with its lockout, and
    the reset of a password

    The counters of failed attempts and the lockouts are maps of the [AuthService] in
    memory, which the code accesses under a mutex. *)

Section auth.
Context `{Env, Crypto}.

Definition maxFailedAttempts : Z := 5.
Definition lockoutDuration : Z := 15 * 60 * 1000000000.

Definition Register (ctx : Context) (email password name : string) : M User :=
  match password_weak password with
  | Some err => fail (New InvalidInput ("password is too weak: " +:+ error_text err))
  | None => mret ()
  end ;;
  existing ← attempt (user_GetByEmail email);
  match existing with
  | inr _ => fail (New InvalidInput "user with this email already exists")
  | inl _ => mret ()
  end ;;
  hashedPassword ← wrap_err (Errorf_w "failed to hash password") (GenerateFromPassword password);
  id ← uuid_New;
  created ← Now;
  updated ← Now;
  let user := MkUser id email hashedPassword name "user" created updated in
  user_Create user ;;
  ignore (Log (user_ID user) "user.register" "user" (uuid_string (user_ID user))
            (Some [("email", VString email)])) ;;
  mret user.

Definition failures (email : string) (w : World) : Z := default 0 (m_failedAttempts w !! email).

Definition incrementFailure (email : string) : M unit :=
  n ← gets (failures email);
  modifies m_failedAttempts <[email := int_add n 1]> ;;
  n ← gets (failures email);
  if maxFailedAttempts <=? n then
    now ← Now; modifies m_lockouts <[email := now + lockoutDuration]>
  else mret ().

(** A lockout that is over is forgotten with the failures that led to it. *)
Definition check_lockout (email : string) : M unit :=
  lockout ← gets (λ w, m_lockouts w !! email);
  match lockout with
  | Some lockoutTime =>
      now ← Now;
      if now <? lockoutTime then
        fail (New Unauthorized "account is locked due to too many failed attempts")
      else
        modifies m_lockouts (delete email) ;;
        modifies m_failedAttempts (delete email)
  | None => mret ()
  end.

Definition bad_credentials : error := New Unauthorized "invalid email or password".

Definition clear_failures (email : string) : M unit := modifies m_failedAttempts (delete email).

(** What a login does once it has read the lockout. *)
Definition login_checked (ctx : Context) (email password : string) : M (User * string) :=
  found ← attempt (user_GetByEmail email);
  match found with
  | inl _ => incrementFailure email ;; fail bad_credentials
  | inr user =>
      if bcrypt_compare (user_PasswordHash user) password then
        clear_failures email ;;
        key ← wrap_err (Errorf_w "failed to create initial API key")
                (CreateKey (user_ID user) "Default Key");
        ignore (Log (user_ID user) "user.login" "user" (uuid_string (user_ID user)) (Some [])) ;;
        mret (user, ak_Key key)
      else incrementFailure email ;; fail bad_credentials
  end.

(** The code holds the mutex of the maps in [check_lockout], in [incrementFailure] and in
    [clear_failures], and lets it go between them: [System] interleaves the sections of
    logins that run at once. *)
Definition Login (ctx : Context) (email password : string) : M (User * string) :=
  check_lockout email ;; login_checked ctx email password.

Definition ValidateUser (userID : uuid) : M User := user_GetByID userID.

(** ** Password reset *)

Definition reset_Create (token : PasswordResetToken) : M unit :=
  db_exec (sql_insert t_reset_tokens (prt_ID token) token (λ w,
    user_fk (prt_UserID token) w
    && no_row (λ r, bool_decide (prt_TokenHash r = prt_TokenHash token)) (t_reset_tokens w))).

Definition GetByTokenHash (hash : string) : M PasswordResetToken :=
  wrap_err (λ e, match e with ErrNoRows => Errorf "token not found" | _ => e end)
    (db_query_row (λ w, select (λ t, bool_decide (prt_TokenHash t = hash)) (t_reset_tokens w))).

(** The identifier is a text that the database reads as a UUID. *)
Definition MarkAsUsed (tokenID : string) : M unit :=
  db_exec (λ w,
    id ← uuid_parse tokenID;
    sql_update t_reset_tokens id (λ _, true) (λ _ t, Some (t <| prt_Used := true |>)) w) ;;
  mret ().

Definition DeleteExpired : M unit :=
  now ← Now;
  db_exec (sql_delete_where t_reset_tokens (λ t, prt_ExpiresAt t <? now)) ;;
  mret ().

Definition tokenDuration : Z := 60 * 60 * 1000000000.

Definition token_hash (token : string) : string := hex_encode (sha256 (str_bytes token)).

(** The token is written to the debug log only; an unknown address is no error. *)
Definition RequestReset (email : string) : M unit :=
  found ← attempt (user_GetByEmail email);
  match found with
  | inl _ => mret ()
  | inr user =>
      tokenBytes ← rand_Read 32;
      let token := hex_encode tokenBytes in
      id ← uuid_New;
      expires ← Now;
      created ← Now;
      reset_Create (MkPasswordResetToken id (user_ID user) (token_hash token)
                      (expires + tokenDuration) false created)
  end.

Definition ResetPassword (token newPassword : string) : M unit :=
  resetToken ← wrap_err (λ _, Errorf "invalid or expired token") (GetByTokenHash (token_hash token));
  guard_err (prt_Used resetToken) (Errorf "token already used") ;;
  now ← Now;
  guard_err (prt_ExpiresAt resetToken <? now) (Errorf "token expired") ;;
  hashedPassword ← GenerateFromPassword newPassword;
  user ← user_GetByID (prt_UserID resetToken);
  user_Update (user <| user_PasswordHash := hashedPassword |>) ;;
  MarkAsUsed (uuid_string (prt_ID resetToken)).

End auth.

#[global] Typeclasses Opaque Register Login login_checked clear_failures incrementFailure check_lockout.
#[global] Typeclasses Opaque RequestReset ResetPassword.

(** ** What the operations touch *)

Section frames.
Context `{Env, Crypto} {T : Type} (p : World → T) `{!Indep p w_tick}.

#[export] Instance Register_frame ctx e x n : Indep p t_users → Indep p t_audit → Frame p (Register ctx e x n).
Proof. intros. unfold Register. apply _. Qed.
#[export] Instance incrementFailure_frame e : Indep p m_failedAttempts → Indep p m_lockouts → Frame p (incrementFailure e).
Proof. intros. unfold incrementFailure. apply _. Qed.
#[export] Instance check_lockout_frame e : Indep p m_failedAttempts → Indep p m_lockouts → Frame p (check_lockout e).
Proof. intros. unfold check_lockout. apply _. Qed.
#[export] Instance clear_failures_frame e : Indep p m_failedAttempts → Frame p (clear_failures e).
Proof. intros. unfold clear_failures. apply _. Qed.
#[export] Instance login_checked_frame ctx e x : Indep p m_failedAttempts → Indep p m_lockouts → Indep p t_api_keys → Indep p t_audit → Frame p (login_checked ctx e x).
Proof. intros. unfold login_checked. apply _. Qed.
#[export] Instance Login_frame ctx e x : Indep p m_failedAttempts → Indep p m_lockouts → Indep p t_api_keys → Indep p t_audit → Frame p (Login ctx e x).
Proof. intros. unfold Login. apply _. Qed.
#[export] Instance reset_Create_frame t : Indep p t_reset_tokens → Frame p (reset_Create t).
Proof. intros. unfold reset_Create. apply _. Qed.
#[export] Instance GetByTokenHash_frame h : Frame p (GetByTokenHash h).
Proof. intros. unfold GetByTokenHash. apply _. Qed.
#[export] Instance MarkAsUsed_frame i : Indep p t_reset_tokens → Frame p (MarkAsUsed i).
Proof.
  intros. unfold MarkAsUsed. apply steps_bind; [apply _| |apply _]. apply steps_db_exec; [apply _..|].
  intros w a w' Hs. destruct (uuid_parse i); [|done].
  eapply (writes_same p t_reset_tokens); [apply _| |exact Hs]. apply _.
Qed.
#[export] Instance DeleteExpired_frame : Indep p t_reset_tokens → Frame p DeleteExpired.
Proof. intros. unfold DeleteExpired. apply _. Qed.
#[export] Instance RequestReset_frame e : Indep p t_reset_tokens → Frame p (RequestReset e).
Proof. intros. unfold RequestReset. apply _. Qed.
#[export] Instance ResetPassword_frame t x : Indep p t_users → Indep p t_reset_tokens → Frame p (ResetPassword t x).
Proof. intros. unfold ResetPassword. apply _. Qed.
End frames.

Section no_panic.
Context `{Env, Crypto}.

#[export] Instance Register_no_panic ctx e x n : NoPanic (Register ctx e x n).
Proof. unfold Register. apply _. Qed.
#[export] Instance incrementFailure_no_panic e : NoPanic (incrementFailure e).
Proof. unfold incrementFailure. apply _. Qed.
#[export] Instance check_lockout_no_panic e : NoPanic (check_lockout e).
Proof. unfold check_lockout. apply _. Qed.
#[export] Instance clear_failures_no_panic e : NoPanic (clear_failures e).
Proof. unfold clear_failures. apply _. Qed.
#[export] Instance login_checked_no_panic ctx e x : NoPanic (login_checked ctx e x).
Proof. unfold login_checked. apply _. Qed.
#[export] Instance Login_no_panic ctx e x : NoPanic (Login ctx e x).
Proof. unfold Login. apply _. Qed.
#[export] Instance reset_Create_no_panic t : NoPanic (reset_Create t).
Proof. unfold reset_Create. apply _. Qed.
#[export] Instance GetByTokenHash_no_panic h : NoPanic (GetByTokenHash h).
Proof. unfold GetByTokenHash. apply _. Qed.
#[export] Instance MarkAsUsed_no_panic i : NoPanic (MarkAsUsed i).
Proof. unfold MarkAsUsed. apply _. Qed.
#[export] Instance DeleteExpired_no_panic : NoPanic DeleteExpired.
Proof. unfold DeleteExpired. apply _. Qed.
#[export] Instance RequestReset_no_panic e : NoPanic (RequestReset e).
Proof. unfold RequestReset. apply _. Qed.
#[export] Instance ResetPassword_no_panic t x : NoPanic (ResetPassword t x).
Proof. unfold ResetPassword. apply _. Qed.
End no_panic.
