(* ===== verification/SecurityGroup.v ===== *)
(** * [services/security_group.go] and [repositories/postgres/security_group_repo.go]

    Security groups, their rules, the instances they apply to, and the flows of the
    virtual switch that a group is translated to. *)
From S2P Require Import Prelude GoStd Encoding Net Errors Domain DomainData World Logic Sql InstanceRepo.
From S2P Require Import NetworkRepo.

Section security_group.
Context `{Env}.

(** ** The repository *)

Definition secg_Create (sg : SecurityGroup) : M unit :=
  wrap_err (Wrap Internal "failed to create security group")
    (db_exec (sql_insert t_security_groups (secg_ID sg) (sg <| secg_Rules := [] |>) (λ w,
       user_fk (secg_UserID sg) w && fk_ok (t_vpcs w) (Some (secg_VPCID sg))
       && no_row (λ r, bool_decide (secg_VPCID r = secg_VPCID sg ∧ secg_Name r = secg_Name sg))
            (t_security_groups w)))).

Definition getRulesForGroup (groupID : uuid) : M (list SecurityRule) :=
  l ← db_query (λ w, select (λ r, bool_decide (rule_GroupID r = groupID)) (t_security_rules w));
  mret (order_desc rule_Priority l).

Definition secg_GetByID (ctx : Context) (id : uuid) : M SecurityGroup :=
  sg ← wrap_err (norows (New NotFound "security group not found") "failed to get security group")
         (db_query_row (λ w,
            by_pk (t_security_groups w) id (of_user secg_UserID (UserIDFromContext ctx))));
  rules ← getRulesForGroup (secg_ID sg);
  mret (sg <| secg_Rules := rules |>).

Definition secg_GetByName (ctx : Context) (vpcID : uuid) (name : string) : M SecurityGroup :=
  sg ← wrap_err (norows (New NotFound "security group not found") "failed to get security group by name")
         (db_query_row (λ w, select (λ r, bool_decide (secg_VPCID r = vpcID)
                                          && bool_decide (secg_Name r = name)
                                          && of_user secg_UserID (UserIDFromContext ctx) r)
                               (t_security_groups w)));
  rules ← getRulesForGroup (secg_ID sg);
  mret (sg <| secg_Rules := rules |>).

(** The groups of a listing come without their rules. *)
Definition secg_ListByVPC (ctx : Context) (vpcID : uuid) : M (list SecurityGroup) :=
  l ← wrap_err (Wrap Internal "failed to list security groups")
        (db_query (λ w, select (λ r, bool_decide (secg_VPCID r = vpcID)
                                     && of_user secg_UserID (UserIDFromContext ctx) r)
                          (t_security_groups w)));
  mret (order_desc secg_CreatedAt l).

Definition secg_AddRule (rule : SecurityRule) : M unit :=
  wrap_err (Wrap Internal "failed to add security rule")
    (db_exec (sql_insert t_security_rules (rule_ID rule) rule (λ w,
       fk_ok (t_security_groups w) (Some (rule_GroupID rule))
       && mem (rule_Direction rule) ["ingress"; "egress"]
       && int4 (rule_PortMin rule) && int4 (rule_PortMax rule) && int4 (rule_Priority rule)))).

Definition secg_DeleteRule (ruleID : uuid) : M unit :=
  db_exec (sql_delete t_security_rules ruleID (λ _, true) (λ _, true) (λ w, w)) ;; mret ().

(** The rules of a deleted group and its memberships go with it. *)
Definition secg_cascade (id : uuid) (w : World) : World :=
  w <| t_security_rules ::= filter (λ kv, rule_GroupID kv.2 ≠ id) |>
    <| t_sg_instances ::= filter (λ kv, kv.1.2 ≠ id) |>.

(** The number of rows affected is not looked at. *)
Definition secg_Delete (ctx : Context) (id : uuid) : M unit :=
  db_exec (sql_delete t_security_groups id (of_user secg_UserID (UserIDFromContext ctx))
             (λ _, true) (secg_cascade id)) ;;
  mret ().

(** The owner of an instance, and of a group, read and checked in a transaction. *)
Definition check_instance_owner (userID instanceID : uuid) : M unit :=
  inst ← wrap_err (norows (New NotFound "instance not found") "failed to verify instance ownership")
           (db_query_row (λ w, by_pk (t_instances w) instanceID (λ _, true)));
  guard_err (negb (bool_decide (inst_UserID inst = userID))) (New Forbidden "you do not own this instance").

Definition check_group_owner (userID groupID : uuid) : M unit :=
  sg ← wrap_err (norows (New NotFound "security group not found") "failed to verify security group ownership")
         (db_query_row (λ w, by_pk (t_security_groups w) groupID (λ _, true)));
  guard_err (negb (bool_decide (secg_UserID sg = userID))) (New Forbidden "you do not own this security group").

(** [INSERT ... ON CONFLICT DO NOTHING] *)
Definition member_insert (instanceID groupID : uuid) (w : World) : option (unit * World) :=
  match t_sg_instances w !! (instanceID, groupID) with
  | Some _ => Some (tt, w)
  | None => sql_insert t_sg_instances (instanceID, groupID) tt (λ w,
              fk_ok (t_instances w) (Some instanceID) && fk_ok (t_security_groups w) (Some groupID)) w
  end.

Definition AddInstanceToGroup (ctx : Context) (instanceID groupID : uuid) : M unit :=
  let userID := UserIDFromContext ctx in
  transaction_w (Wrap Internal "failed to start transaction") (
    check_instance_owner userID instanceID ;;
    check_group_owner userID groupID ;;
    wrap_err (Wrap Internal "failed to add instance to group")
      (db_exec (member_insert instanceID groupID))).

Definition RemoveInstanceFromGroup (ctx : Context) (instanceID groupID : uuid) : M unit :=
  let userID := UserIDFromContext ctx in
  transaction_w (Wrap Internal "failed to start transaction") (
    check_instance_owner userID instanceID ;;
    check_group_owner userID groupID ;;
    wrap_err (Wrap Internal "failed to remove instance from group")
      (db_exec (sql_delete t_sg_instances (instanceID, groupID) (λ _, true) (λ _, true) (λ w, w))) ;;
    mret ()).

(** The groups of an instance, without their rules, whoever owns them. *)
Definition ListInstanceGroups (instanceID : uuid) : M (list SecurityGroup) :=
  db_query (λ w, omap (λ k, if bool_decide (k.1 = instanceID) then t_security_groups w !! k.2 else None)
                   (map_to_list (t_sg_instances w)).*1).

(** ** The service *)

Definition RuleIngress : string := "ingress".
Definition RuleEgress : string := "egress".

Definition secg_arn (userID sgID : uuid) : string :=
  "arn:thecloud:vpc:local:" +:+ uuid_string userID +:+ ":security-group/" +:+ uuid_string sgID.

Definition secg_CreateGroup (ctx : Context) (vpcID : uuid) (name description : string) : M SecurityGroup :=
  let userID := UserIDFromContext ctx in
  sgID ← uuid_New;
  created ← Now;
  let sg := MkSecurityGroup sgID userID vpcID name description (secg_arn userID sgID) [] created in
  wrap_err (Wrap Internal "failed to create security group") (secg_Create sg) ;;
  ignore (Log userID "security_group.create" "security_group" (uuid_string sgID)
            (Some [("name", VString name); ("vpc_id", VUUID vpcID)])) ;;
  mret sg.

Definition secg_GetGroup (ctx : Context) (idOrName : string) (vpcID : uuid) : M SecurityGroup :=
  match uuid_parse idOrName with
  | Some id => secg_GetByID ctx id
  | None => secg_GetByName ctx vpcID idOrName
  end.

Definition secg_ListGroups (ctx : Context) (vpcID : uuid) : M (list SecurityGroup) := secg_ListByVPC ctx vpcID.

Definition secg_DeleteGroup (ctx : Context) (id : uuid) : M unit :=
  wrap_err (Wrap Internal "failed to delete security group") (secg_Delete ctx id) ;;
  ignore (Log (UserIDFromContext ctx) "security_group.delete" "security_group" (uuid_string id) None).

Definition match_proto (rule : SecurityRule) : list string :=
  if mem (rule_Protocol rule) ["tcp"; "udp"; "icmp"] then [rule_Protocol rule] else [].

Definition match_cidr (rule : SecurityRule) : list string :=
  if negb (bool_decide (rule_CIDR rule = "")) && negb (bool_decide (rule_CIDR rule = "0.0.0.0/0")) then
    if bool_decide (rule_Direction rule = RuleIngress) then ["nw_src=" +:+ rule_CIDR rule]
    else ["nw_dst=" +:+ rule_CIDR rule]
  else [].

(** A range of ports becomes its first port, whatever the protocol. *)
Definition match_port (rule : SecurityRule) : list string :=
  if 0 <? rule_PortMin rule then
    if rule_PortMin rule =? rule_PortMax rule then
      if mem (rule_Protocol rule) ["tcp"; "udp"] then ["tp_dst=" +:+ itoa (rule_PortMin rule)] else []
    else if rule_PortMin rule <? rule_PortMax rule then ["tp_dst=" +:+ itoa (rule_PortMin rule)]
    else []
  else [].

Definition translateToFlow (rule : SecurityRule) : FlowRule :=
  MkFlowRule "" (rule_Priority rule)
    (join "," (match_proto rule ++ match_cidr rule ++ match_port rule)) "allow".

Definition syncGroupFlows (ctx : Context) (sg : SecurityGroup) : M unit :=
  vpc ← vpc_GetByID ctx (secg_VPCID sg);
  foreach (secg_Rules sg) (λ rule, perform (AddFlowRule (vpc_NetworkID vpc) (translateToFlow rule)) ;; mret ()).

(** The group was read before the rule was added: the flows are those of the rules it had
    then.  The error of the flows is only logged. *)
Definition AddRule (ctx : Context) (groupID : uuid) (rule : SecurityRule) : M SecurityRule :=
  sg ← secg_GetByID ctx groupID;
  id ← uuid_New;
  created ← Now;
  let rule := rule <| rule_ID := id |> <| rule_GroupID := groupID |> <| rule_CreatedAt := created |> in
  wrap_err (Wrap Internal "failed to add security rule") (secg_AddRule rule) ;;
  ignore (syncGroupFlows ctx sg) ;;
  ignore (Log (secg_UserID sg) "security_group.add_rule" "security_group" (uuid_string groupID)
            (Some [("rule_id", VString (uuid_string (rule_ID rule)))])) ;;
  mret rule.

Definition RemoveRule (ctx : Context) (ruleID : uuid) : M unit := mret ().

Definition AttachToInstance (ctx : Context) (instanceID groupID : uuid) : M unit :=
  AddInstanceToGroup ctx instanceID groupID ;;
  sg ← secg_GetByID ctx groupID;
  syncGroupFlows ctx sg.

Definition DetachFromInstance (ctx : Context) (instanceID groupID : uuid) : M unit :=
  RemoveInstanceFromGroup ctx instanceID groupID.

End security_group.

#[global] Typeclasses Opaque secg_CreateGroup secg_GetGroup secg_DeleteGroup AddRule AttachToInstance DetachFromInstance
  AddInstanceToGroup RemoveInstanceFromGroup secg_GetByID secg_GetByName.
(** ** What the operations touch *)

Section frames.
Context `{Env} {T : Type} (p : World → T) `{!Indep p w_tick}.

#[export] Instance secg_Create_frame g : Indep p t_security_groups → Frame p (secg_Create g).
Proof. intros. unfold secg_Create. apply _. Qed.
#[export] Instance getRulesForGroup_frame i : Frame p (getRulesForGroup i).
Proof. intros. unfold getRulesForGroup. apply _. Qed.
#[export] Instance secg_GetByID_frame c i : Frame p (secg_GetByID c i).
Proof. intros. unfold secg_GetByID. apply _. Qed.
#[export] Instance secg_GetByName_frame c v n : Frame p (secg_GetByName c v n).
Proof. intros. unfold secg_GetByName. apply _. Qed.
#[export] Instance secg_ListByVPC_frame c v : Frame p (secg_ListByVPC c v).
Proof. intros. unfold secg_ListByVPC. apply _. Qed.
#[export] Instance secg_AddRule_frame r : Indep p t_security_rules → Frame p (secg_AddRule r).
Proof. intros. unfold secg_AddRule. apply _. Qed.
#[export] Instance secg_DeleteRule_frame i : Indep p t_security_rules → Frame p (secg_DeleteRule i).
Proof. intros. unfold secg_DeleteRule. apply _. Qed.
#[export] Instance secg_Delete_frame c i : Indep p t_security_groups → Indep p t_security_rules → Indep p t_sg_instances → Frame p (secg_Delete c i).
Proof.
  intros. unfold secg_Delete. apply steps_bind; [apply _| |apply _]. apply steps_db_exec; [apply _..|].
  apply sql_delete_same; [apply _|]. intros w. unfold secg_cascade.
  rewrite (indep (p := p) (q := t_sg_instances)). apply indep.
Qed.
#[export] Instance check_instance_owner_frame u i : Frame p (check_instance_owner u i).
Proof. intros. unfold check_instance_owner. apply _. Qed.
#[export] Instance check_group_owner_frame u i : Frame p (check_group_owner u i).
Proof. intros. unfold check_group_owner. apply _. Qed.
#[export] Instance member_insert_frame i g : Indep p t_sg_instances → Frame p (db_exec (member_insert i g)).
Proof.
  intros. apply steps_db_exec; [apply _..|]. intros w a w' Hs. unfold member_insert in Hs.
  destruct (_ !! _); [by injection Hs as _ <-|]. eapply (writes_same p t_sg_instances); [apply _| |exact Hs]. apply _.
Qed.
#[export] Instance AddInstanceToGroup_frame c i g : Indep p w_calls → Indep p t_sg_instances → Frame p (AddInstanceToGroup c i g).
Proof. intros. unfold AddInstanceToGroup. apply _. Qed.
#[export] Instance RemoveInstanceFromGroup_frame c i g : Indep p w_calls → Indep p t_sg_instances → Frame p (RemoveInstanceFromGroup c i g).
Proof. intros. unfold RemoveInstanceFromGroup. apply _. Qed.
#[export] Instance secg_CreateGroup_frame c v n d : Indep p t_security_groups → Indep p t_audit → Frame p (secg_CreateGroup c v n d).
Proof. intros. unfold secg_CreateGroup. apply _. Qed.
#[export] Instance secg_GetGroup_frame c s v : Frame p (secg_GetGroup c s v).
Proof. intros. unfold secg_GetGroup. apply _. Qed.
#[export] Instance secg_DeleteGroup_frame c i : Indep p t_security_groups → Indep p t_security_rules → Indep p t_sg_instances → Indep p t_audit → Frame p (secg_DeleteGroup c i).
Proof. intros. unfold secg_DeleteGroup. apply _. Qed.
#[export] Instance syncGroupFlows_frame c g : Indep p w_calls → Frame p (syncGroupFlows c g).
Proof. intros. unfold syncGroupFlows. apply _. Qed.
#[export] Instance AddRule_frame c g r : Indep p t_security_rules → Indep p t_audit → Indep p w_calls → Frame p (AddRule c g r).
Proof. intros. unfold AddRule. apply _. Qed.
#[export] Instance AttachToInstance_frame c i g : Indep p t_sg_instances → Indep p w_calls → Frame p (AttachToInstance c i g).
Proof. intros. unfold AttachToInstance. apply _. Qed.
#[export] Instance DetachFromInstance_frame c i g : Indep p t_sg_instances → Indep p w_calls → Frame p (DetachFromInstance c i g).
Proof. intros. unfold DetachFromInstance. apply _. Qed.
End frames.

Section no_panic.
Context `{Env}.

#[export] Instance secg_Create_no_panic g : NoPanic (secg_Create g).
Proof. unfold secg_Create. apply _. Qed.
#[export] Instance getRulesForGroup_no_panic i : NoPanic (getRulesForGroup i).
Proof. unfold getRulesForGroup. apply _. Qed.
#[export] Instance secg_GetByID_no_panic c i : NoPanic (secg_GetByID c i).
Proof. unfold secg_GetByID. apply _. Qed.
#[export] Instance secg_GetByName_no_panic c v n : NoPanic (secg_GetByName c v n).
Proof. unfold secg_GetByName. apply _. Qed.
#[export] Instance secg_ListByVPC_no_panic c v : NoPanic (secg_ListByVPC c v).
Proof. unfold secg_ListByVPC. apply _. Qed.
#[export] Instance secg_AddRule_no_panic r : NoPanic (secg_AddRule r).
Proof. unfold secg_AddRule. apply _. Qed.
#[export] Instance secg_DeleteRule_no_panic i : NoPanic (secg_DeleteRule i).
Proof. unfold secg_DeleteRule. apply _. Qed.
#[export] Instance secg_Delete_no_panic c i : NoPanic (secg_Delete c i).
Proof. unfold secg_Delete. apply _. Qed.
#[export] Instance check_instance_owner_no_panic u i : NoPanic (check_instance_owner u i).
Proof. unfold check_instance_owner. apply _. Qed.
#[export] Instance check_group_owner_no_panic u i : NoPanic (check_group_owner u i).
Proof. unfold check_group_owner. apply _. Qed.
#[export] Instance AddInstanceToGroup_no_panic c i g : NoPanic (AddInstanceToGroup c i g).
Proof. unfold AddInstanceToGroup. apply _. Qed.
#[export] Instance RemoveInstanceFromGroup_no_panic c i g : NoPanic (RemoveInstanceFromGroup c i g).
Proof. unfold RemoveInstanceFromGroup. apply _. Qed.
#[export] Instance secg_CreateGroup_no_panic c v n d : NoPanic (secg_CreateGroup c v n d).
Proof. unfold secg_CreateGroup. apply _. Qed.
#[export] Instance GetGroup_no_panic c s v : NoPanic (secg_GetGroup c s v).
Proof. unfold secg_GetGroup. apply _. Qed.
#[export] Instance secg_DeleteGroup_no_panic c i : NoPanic (secg_DeleteGroup c i).
Proof. unfold secg_DeleteGroup. apply _. Qed.
#[export] Instance syncGroupFlows_no_panic c g : NoPanic (syncGroupFlows c g).
Proof. unfold syncGroupFlows. apply _. Qed.
#[export] Instance AddRule_no_panic c g r : NoPanic (AddRule c g r).
Proof. unfold AddRule. apply _. Qed.
#[export] Instance AttachToInstance_no_panic c i g : NoPanic (AttachToInstance c i g).
Proof. unfold AttachToInstance. apply _. Qed.
#[export] Instance DetachFromInstance_no_panic c i g : NoPanic (DetachFromInstance c i g).
Proof. unfold DetachFromInstance. apply _. Qed.
End no_panic.
