(* ===== verification/Snapshot.v ===== *)
(** * [services/snapshot.go] and [repositories/postgres/snapshot_repo.go]

    The content of a snapshot is an archive the compute backend writes; the goroutine that
    takes it is a [SnapshotTask]. *)
From S2P Require Import Prelude GoStd Encoding Net Errors Domain DomainData World Logic Sql InstanceRepo.
From S2P Require Import InstanceService VolumeService.

Section snapshot.
Context `{Env}.

(** ** The repository *)

Definition snap_Create (s : Snapshot) : M unit :=
  db_exec (sql_insert t_snapshots (snap_ID s) s (λ w,
    user_fk (snap_UserID s) w && fk_ok (t_volumes w) (Some (snap_VolumeID s)) && int4 (snap_SizeGB s))).

Definition snap_GetByID (ctx : Context) (id : uuid) : M Snapshot :=
  db_query_row (λ w, by_pk (t_snapshots w) id (of_user snap_UserID (UserIDFromContext ctx))).

Definition snap_ListByVolumeID (ctx : Context) (volumeID : uuid) : M (list Snapshot) :=
  l ← db_query (λ w, select (λ s, bool_decide (snap_VolumeID s = volumeID)
                                  && of_user snap_UserID (UserIDFromContext ctx) s) (t_snapshots w));
  mret (order_desc snap_CreatedAt l).

Definition snap_ListByUserID (userID : uuid) : M (list Snapshot) :=
  l ← db_query (λ w, select (of_user snap_UserID userID) (t_snapshots w));
  mret (order_desc snap_CreatedAt l).

Definition snap_Update (s : Snapshot) : M unit :=
  db_exec (sql_update t_snapshots (snap_ID s) (of_user snap_UserID (snap_UserID s)) (λ _ r,
    Some (r <| snap_Status := snap_Status s |> <| snap_Description := snap_Description s |>))) ;;
  mret ().

Definition snap_Delete (ctx : Context) (id : uuid) : M unit :=
  n ← db_exec (sql_delete t_snapshots id (of_user snap_UserID (UserIDFromContext ctx))
                 (λ _, true) (λ w, w));
  guard_err (Nat.eqb n 0) (New NotFound "snapshot not found").

(** ** The service *)

(** The working directory of the process, when it can be told. *)
Context (getwd : option string).

(** [filepath.Abs], whose error the code drops: the path is empty then. *)
Definition Abs (path : string) : string :=
  if HasPrefix path "/" then Clean path
  else match getwd with
       | Some wd => Join [wd; path]
       | None => ""
       end.

Definition snapshot_baseDir : string := "./thecloud-data/snapshots".

Definition snapshot_path (id : uuid) : string := Join [snapshot_baseDir; uuid_string id +:+ ".tar.gz"].

Definition CreateSnapshot (ctx : Context) (volumeID : uuid) (description : string) : M Snapshot :=
  vol ← volume_GetByID ctx volumeID;
  id ← uuid_New;
  created ← Now;
  let snapshot := MkSnapshot id (UserIDFromContext ctx) volumeID (vol_Name vol) (vol_SizeGB vol)
                    SnapshotStatusCreating description created in
  snap_Create snapshot ;;
  spawn (SnapshotTask vol snapshot) ;;
  ignore (RecordEvent ctx "SNAPSHOT_CREATE" (uuid_string id) "SNAPSHOT"
            (Some [("volume_id", VString (uuid_string volumeID))])) ;;
  ignore (Log (snap_UserID snapshot) "snapshot.create" "snapshot" (uuid_string id)
            (Some [("volume_id", VString (uuid_string volumeID))])) ;;
  mret snapshot.

Definition performSnapshot (vol : Volume) (snapshot : Snapshot) : M unit :=
  let snapshotPath := Abs (snapshot_path (snap_ID snapshot)) in
  ignore (perform (MkdirAll (Dir snapshotPath))) ;;
  wrap_err (Errorf_w "failed to create volume snapshot")
    (perform (CreateVolumeSnapshot (docker_volume_name (vol_ID vol)) snapshotPath)).

(** The body of the goroutine. *)
Definition snapshot_task (vol : Volume) (snapshot : Snapshot) : M unit :=
  r ← attempt (performSnapshot vol snapshot);
  let status := match r with
                | inl _ => SnapshotStatusError
                | inr _ => SnapshotStatusAvailable
                end in
  ignore (snap_Update (snapshot <| snap_Status := status |>)).

Definition ListSnapshots (ctx : Context) : M (list Snapshot) :=
  snap_ListByUserID (UserIDFromContext ctx).

Definition GetSnapshot (ctx : Context) (id : uuid) : M Snapshot := snap_GetByID ctx id.

Definition DeleteSnapshot (ctx : Context) (id : uuid) : M unit :=
  snapshot ← snap_GetByID ctx id;
  ignore (perform (RemoveFile (snapshot_path (snap_ID snapshot)))) ;;
  snap_Delete ctx id ;;
  ignore (RecordEvent ctx "SNAPSHOT_DELETE" (uuid_string id) "SNAPSHOT" (Some [])) ;;
  ignore (Log (snap_UserID snapshot) "snapshot.delete" "snapshot" (uuid_string id) (Some [])).

Definition RestoreSnapshot (ctx : Context) (snapshotID : uuid) (newVolumeName : string) : M Volume :=
  snapshot ← snap_GetByID ctx snapshotID;
  guard_err (negb (bool_decide (snap_Status snapshot = SnapshotStatusAvailable)))
    (New InvalidInput "cannot restore from snapshot that is not available") ;;
  id ← uuid_New;
  created ← Now;
  updated ← Now;
  let vol := MkVolume id (snap_UserID snapshot) newVolumeName (snap_SizeGB snapshot)
               VolumeStatusAvailable None "" created updated in
  let dockerVolName := docker_volume_name (vol_ID vol) in
  wrap_err (Wrap Internal "failed to create docker volume for restore")
    (perform (World.CreateVolume dockerVolName)) ;;
  restored ← attempt (perform (RestoreVolumeSnapshot dockerVolName (Abs (snapshot_path (snap_ID snapshot)))));
  match restored with
  | inl err => ignore (perform (World.DeleteVolume dockerVolName)) ;;
               fail (Errorf_w "failed to restore volume snapshot" err)
  | inr _ =>
      saved ← attempt (volume_Create vol);
      match saved with
      | inl err => ignore (perform (World.DeleteVolume dockerVolName)) ;; fail err
      | inr _ =>
          ignore (RecordEvent ctx "VOLUME_RESTORE" (uuid_string (vol_ID vol)) "VOLUME"
                    (Some [("snapshot_id", VString (uuid_string snapshotID))])) ;;
          ignore (Log (vol_UserID vol) "volume.restore" "volume" (uuid_string (vol_ID vol))
                    (Some [("snapshot_id", VString (uuid_string snapshotID))])) ;;
          mret vol
      end
  end.

End snapshot.

#[global] Typeclasses Opaque CreateSnapshot performSnapshot snapshot_task DeleteSnapshot RestoreSnapshot.

(** ** What the operations touch *)

Section frames.
Context `{Env} {T : Type} (p : World → T) `{!Indep p w_tick}.

#[export] Instance snap_Create_frame s : Indep p t_snapshots → Frame p (snap_Create s).
Proof. intros. unfold snap_Create. apply _. Qed.
#[export] Instance snap_GetByID_frame c i : Frame p (snap_GetByID c i).
Proof. intros. unfold snap_GetByID. apply _. Qed.
#[export] Instance snap_ListByVolumeID_frame c i : Frame p (snap_ListByVolumeID c i).
Proof. intros. unfold snap_ListByVolumeID. apply _. Qed.
#[export] Instance snap_ListByUserID_frame i : Frame p (snap_ListByUserID i).
Proof. intros. unfold snap_ListByUserID. apply _. Qed.
#[export] Instance snap_Update_frame s : Indep p t_snapshots → Frame p (snap_Update s).
Proof. intros. unfold snap_Update. apply _. Qed.
#[export] Instance snap_Delete_frame c i : Indep p t_snapshots → Frame p (snap_Delete c i).
Proof. intros. unfold snap_Delete. apply _. Qed.
#[export] Instance CreateSnapshot_frame c v d : Indep p t_snapshots → Indep p w_tasks → Indep p t_events → Indep p t_audit → Frame p (CreateSnapshot c v d).
Proof. intros. unfold CreateSnapshot. apply _. Qed.
#[export] Instance performSnapshot_frame wd v s : Indep p w_calls → Frame p (performSnapshot wd v s).
Proof. intros. unfold performSnapshot. apply _. Qed.
#[export] Instance snapshot_task_frame wd v s : Indep p w_calls → Indep p t_snapshots → Frame p (snapshot_task wd v s).
Proof. intros. unfold snapshot_task. apply _. Qed.
#[export] Instance DeleteSnapshot_frame c i : Indep p w_calls → Indep p t_snapshots → Indep p t_events → Indep p t_audit → Frame p (DeleteSnapshot c i).
Proof. intros. unfold DeleteSnapshot. apply _. Qed.
#[export] Instance RestoreSnapshot_frame wd c i n : Indep p w_calls → Indep p t_volumes → Indep p t_events → Indep p t_audit → Frame p (RestoreSnapshot wd c i n).
Proof. intros. unfold RestoreSnapshot. apply _. Qed.
End frames.

Section no_panic.
Context `{Env}.

#[export] Instance snap_Create_no_panic s : NoPanic (snap_Create s).
Proof. unfold snap_Create. apply _. Qed.
#[export] Instance snap_GetByID_no_panic c i : NoPanic (snap_GetByID c i).
Proof. unfold snap_GetByID. apply _. Qed.
#[export] Instance snap_ListByVolumeID_no_panic c i : NoPanic (snap_ListByVolumeID c i).
Proof. unfold snap_ListByVolumeID. apply _. Qed.
#[export] Instance snap_ListByUserID_no_panic i : NoPanic (snap_ListByUserID i).
Proof. unfold snap_ListByUserID. apply _. Qed.
#[export] Instance snap_Update_no_panic s : NoPanic (snap_Update s).
Proof. unfold snap_Update. apply _. Qed.
#[export] Instance snap_Delete_no_panic c i : NoPanic (snap_Delete c i).
Proof. unfold snap_Delete. apply _. Qed.
#[export] Instance CreateSnapshot_no_panic c v d : NoPanic (CreateSnapshot c v d).
Proof. unfold CreateSnapshot. apply _. Qed.
#[export] Instance performSnapshot_no_panic wd v s : NoPanic (performSnapshot wd v s).
Proof. unfold performSnapshot. apply _. Qed.
#[export] Instance snapshot_task_no_panic wd v s : NoPanic (snapshot_task wd v s).
Proof. unfold snapshot_task. apply _. Qed.
#[export] Instance DeleteSnapshot_no_panic c i : NoPanic (DeleteSnapshot c i).
Proof. unfold DeleteSnapshot. apply _. Qed.
#[export] Instance RestoreSnapshot_no_panic wd c i n : NoPanic (RestoreSnapshot wd c i n).
Proof. unfold RestoreSnapshot. apply _. Qed.
End no_panic.
