(* ===== verification/Http.v ===== *)
(** * What the services use of [net/http] and [net/url]

    Parsing a URL and quoting a string for a message are parameters; a request that is sent
    is the call [HTTPDo]. *)
From S2P Require Import Prelude GoStd Encoding Net Errors Domain DomainData World Logic.

(** [url.URL], without the parts no code here looks at. *)
Record URL := MkURL {
  url_Scheme : string;
  url_Host : string;
  url_Path : string;
  url_RawQuery : string
}.

Class HttpEnv := {
  url_Parse : string → error + URL;
  (** the [%q] verb *)
  quote : string → string;
}.

Section http.
Context `{Env, HttpEnv}.

(** The bytes of a token of RFC 7230. *)
Definition token_bytes : list ascii := list_ascii_of_string
  "!#$%&'*+-.^_`|~0123456789ABCDEFGHIJKLMNOPQRSTUVWXYZabcdefghijklmnopqrstuvwxyz".

Fixpoint validMethod_bytes (s : string) : bool :=
  match s with
  | EmptyString => true
  | String a s' => mem a token_bytes && validMethod_bytes s'
  end.

(** [http.NewRequestWithContext], as far as it can fail: the method of the request.  The
    empty method means GET. *)
Definition NewRequest (method url : string) : error + string :=
  let method := if bool_decide (method = "") then "GET" else method in
  if validMethod_bytes method then
    match url_Parse url with
    | inl err => inl err
    | inr _ => inr method
    end
  else inl (Errorf ("net/http: invalid method " +:+ quote method)).

(** [client.Do]: the status code and the status line of the answer. *)
Definition http_Do (method url body : string) : M (Z * string) := perform (HTTPDo method url body).

(** [singleJoiningSlash] of [httputil], by which a reverse proxy joins the path of its
    target and the path of a request. *)
Definition HasSuffix_slash (s : string) : bool :=
  match rev (list_ascii_of_string s) with
  | c :: _ => bool_decide (c = "/"%char)
  | [] => false
  end.

Definition singleJoiningSlash (a b : string) : string :=
  if HasSuffix_slash a && HasPrefix b "/" then a +:+ str_drop 1 b
  else if negb (HasSuffix_slash a) && negb (HasPrefix b "/") then a +:+ "/" +:+ b
  else a +:+ b.

End http.

Section http_lemmas.
Context `{Env} {T : Type} (p : World → T) `{!Indep p w_tick}.
#[export] Instance http_Do_frame m u b : Indep p w_calls → Frame p (http_Do m u b).
Proof. intros. unfold http_Do. apply _. Qed.
#[export] Instance http_Do_no_panic m u b : NoPanic (http_Do m u b).
Proof. unfold http_Do. apply _. Qed.
End http_lemmas.
