(* ===== verification/Cron.v ===== *)
(** * [services/cron.go], [services/cron_worker.go] and [repositories/postgres/cron_repo.go]

    Jobs that call a URL on a schedule.  A run of a job is a goroutine of the worker: a
    [CronTask].  The parser of schedules is a parameter. *)
From S2P Require Import Prelude GoStd Encoding Net Errors Domain DomainData World Logic Sql Http.

(** [cron.Parser]: of the five fields of a schedule, with or without the descriptors such as
    "@daily"; a schedule tells the next time after a time. *)
Class CronParser := {
  cron_Parse : bool → string → error + (time → time);
}.

Section cron.
Context `{Env, HttpEnv, CronParser}.

(** ** The repository *)

Definition cron_CreateJob (job : CronJob) : M unit :=
  db_exec (sql_insert t_cron_jobs (cj_ID job) (job <| cj_LastRunAt := None |>) (λ w,
    user_fk (cj_UserID job) w
    && no_row (λ r, bool_decide (cj_UserID r = cj_UserID job ∧ cj_Name r = cj_Name job)) (t_cron_jobs w))).

Definition cron_GetJobByID (id userID : uuid) : M CronJob :=
  db_query_row (λ w, by_pk (t_cron_jobs w) id (of_user cj_UserID userID)).

Definition cron_ListJobs (userID : uuid) : M (list CronJob) :=
  l ← db_query (λ w, select (of_user cj_UserID userID) (t_cron_jobs w));
  mret (order_desc cj_CreatedAt l).

(** The row may be another user's, and may be gone. *)
Definition cron_UpdateJob (job : CronJob) : M unit :=
  t ← next_tick;
  db_exec (sql_update t_cron_jobs (cj_ID job) (λ _, true) (λ _ r,
    Some (r <| cj_Status := cj_Status job |> <| cj_LastRunAt := cj_LastRunAt job |>
            <| cj_NextRunAt := cj_NextRunAt job |> <| cj_UpdatedAt := env_db_now t |>))) ;;
  mret ().

Definition cron_repo_DeleteJob (id : uuid) : M unit :=
  db_exec (sql_delete t_cron_jobs id (λ _, true) (λ _, true)
             (λ w, w <| t_cron_runs ::= filter (λ kv, cr_JobID kv.2 ≠ id) |>)) ;;
  mret ().

(** [status = 'ACTIVE' AND next_run_at <= NOW() FOR UPDATE SKIP LOCKED], outside any
    transaction. *)
Definition job_due (now : time) (locked : uuid → bool) (j : CronJob) : bool :=
  bool_decide (cj_Status j = CronStatusActive)
  && match cj_NextRunAt j with Some t => t <=? now | None => false end
  && negb (locked (cj_ID j)).

Definition GetNextJobsToRun : M (list CronJob) :=
  t ← next_tick;
  db_query (λ w, select (job_due (env_db_now t) (env_locked t)) (t_cron_jobs w)).

Definition SaveJobRun (run : CronJobRun) : M unit :=
  db_exec (sql_insert t_cron_runs (cr_ID run) run (λ w,
    fk_ok (t_cron_jobs w) (Some (cr_JobID run)) && int4 (cr_StatusCode run))).

(** ** The service: its parser knows the descriptors *)

Definition CreateJob (ctx : Context) (name schedule targetURL targetMethod targetPayload : string)
    : M CronJob :=
  userID ← current_user ctx;
  match cron_Parse true schedule with
  | inl err => fail (Errorf_w "invalid cron schedule" err)
  | inr Next =>
      now ← Now;
      id ← uuid_New;
      created ← Now;
      updated ← Now;
      let job := MkCronJob id userID name schedule targetURL targetMethod targetPayload
                   CronStatusActive None (Some (Next now)) created updated in
      cron_CreateJob job ;;
      ignore (RecordEvent ctx "CRON_JOB_CREATED" (uuid_string (cj_ID job)) "CRON_JOB" None) ;;
      ignore (Log (cj_UserID job) "cron.job_create" "cron_job" (uuid_string (cj_ID job))
                (Some [("name", VString (cj_Name job)); ("schedule", VString (cj_Schedule job))])) ;;
      mret job
  end.

Definition ListJobs (ctx : Context) : M (list CronJob) :=
  userID ← current_user ctx;
  cron_ListJobs userID.

Definition GetJob (ctx : Context) (id : uuid) : M CronJob :=
  userID ← current_user ctx;
  cron_GetJobByID id userID.

Definition PauseJob (ctx : Context) (id : uuid) : M unit :=
  job ← cron_GetJobByID id (UserIDFromContext ctx);
  cron_UpdateJob (job <| cj_Status := CronStatusPaused |> <| cj_NextRunAt := None |>).

Definition ResumeJob (ctx : Context) (id : uuid) : M unit :=
  job ← cron_GetJobByID id (UserIDFromContext ctx);
  match cron_Parse true (cj_Schedule job) with
  | inl err => fail (Errorf_w "invalid schedule in job" err)
  | inr Next =>
      now ← Now;
      cron_UpdateJob (job <| cj_Status := CronStatusActive |> <| cj_NextRunAt := Some (Next now) |>)
  end.

Definition cron_DeleteJob (ctx : Context) (id : uuid) : M unit :=
  let userID := UserIDFromContext ctx in
  cron_GetJobByID id userID ;;
  cron_repo_DeleteJob id ;;
  ignore (Log userID "cron.job_delete" "cron_job" (uuid_string id) (Some [])).

(** ** The worker: its parser does not know the descriptors *)

(** One tick of the worker. *)
Definition ProcessJobs : M unit :=
  r ← attempt GetNextJobsToRun;
  match r with
  | inl _ => mret ()
  | inr jobs => foreach jobs (λ job, spawn (CronTask job))
  end.

(** The schedule of a failed [Parse] is nil, which the code calls a method of.  The job is
    written back as it was read when the run began. *)
Definition recordRun (job : CronJob) (status : string) (code : Z) (response : string)
    (duration : Z) : M unit :=
  id ← uuid_New;
  now ← Now;
  ignore (SaveJobRun (MkCronJobRun id (cj_ID job) status code response (Z.quot duration 1000000)
                        (now - duration))) ;;
  match cron_Parse false (cj_Schedule job) with
  | inl _ => panic "invalid memory address or nil pointer dereference"
  | inr Next =>
      now ← Now;
      ignore (cron_UpdateJob (job <| cj_LastRunAt := Some now |> <| cj_NextRunAt := Some (Next now) |>))
  end.

Definition runJob (job : CronJob) : M unit :=
  start ← Now;
  match NewRequest (cj_TargetMethod job) (cj_TargetURL job) with
  | inl err =>
      now ← Now;
      recordRun job "FAILED" 0 (error_text err) (now - start)
  | inr method =>
      r ← attempt (http_Do method (cj_TargetURL job) (cj_TargetPayload job));
      now ← Now;
      let duration := now - start in
      match r with
      | inl err => recordRun job "FAILED" 0 (error_text err) duration
      | inr (code, line) =>
          recordRun job (if 400 <=? code then "FAILED" else "SUCCESS") code line duration
      end
  end.

End cron.

#[global] Typeclasses Opaque CreateJob PauseJob ResumeJob cron_DeleteJob ProcessJobs recordRun runJob.

(** ** What the operations touch *)

Section frames.
Context `{Env, HttpEnv, CronParser} {T : Type} (p : World → T) `{!Indep p w_tick}.

#[export] Instance cron_CreateJob_frame j : Indep p t_cron_jobs → Frame p (cron_CreateJob j).
Proof. intros. unfold cron_CreateJob. apply _. Qed.
#[export] Instance cron_GetJobByID_frame i u : Frame p (cron_GetJobByID i u).
Proof. intros. unfold cron_GetJobByID. apply _. Qed.
#[export] Instance cron_ListJobs_frame u : Frame p (cron_ListJobs u).
Proof. intros. unfold cron_ListJobs. apply _. Qed.
#[export] Instance cron_UpdateJob_frame j : Indep p t_cron_jobs → Frame p (cron_UpdateJob j).
Proof. intros. unfold cron_UpdateJob. apply _. Qed.
#[export] Instance cron_repo_DeleteJob_frame i : Indep p t_cron_jobs → Indep p t_cron_runs → Frame p (cron_repo_DeleteJob i).
Proof.
  intros. unfold cron_repo_DeleteJob. apply steps_bind; [apply _| |apply _]. apply steps_db_exec; [apply _..|].
  apply sql_delete_same; [apply _|]. intros w. apply indep.
Qed.
#[export] Instance GetNextJobsToRun_frame : Frame p GetNextJobsToRun.
Proof. intros. unfold GetNextJobsToRun. apply _. Qed.
#[export] Instance SaveJobRun_frame r : Indep p t_cron_runs → Frame p (SaveJobRun r).
Proof. intros. unfold SaveJobRun. apply _. Qed.
#[export] Instance CreateJob_frame c n s u m b : Indep p t_cron_jobs → Indep p t_events → Indep p t_audit → Frame p (CreateJob c n s u m b).
Proof. intros. unfold CreateJob. apply _. Qed.
#[export] Instance PauseJob_frame c i : Indep p t_cron_jobs → Frame p (PauseJob c i).
Proof. intros. unfold PauseJob. apply _. Qed.
#[export] Instance ResumeJob_frame c i : Indep p t_cron_jobs → Frame p (ResumeJob c i).
Proof. intros. unfold ResumeJob. apply _. Qed.
#[export] Instance cron_DeleteJob_frame c i : Indep p t_cron_jobs → Indep p t_cron_runs → Indep p t_audit → Frame p (cron_DeleteJob c i).
Proof. intros. unfold cron_DeleteJob. apply _. Qed.
#[export] Instance ProcessJobs_frame : Indep p w_tasks → Frame p ProcessJobs.
Proof. intros. unfold ProcessJobs. apply _. Qed.
#[export] Instance recordRun_frame j s c r d : Indep p t_cron_jobs → Indep p t_cron_runs → Frame p (recordRun j s c r d).
Proof. intros. unfold recordRun. apply _. Qed.
#[export] Instance runJob_frame j : Indep p t_cron_jobs → Indep p t_cron_runs → Indep p w_calls → Frame p (runJob j).
Proof. intros. unfold runJob. apply _. Qed.
End frames.

Section no_panic.
Context `{Env, HttpEnv, CronParser}.

#[export] Instance cron_CreateJob_no_panic j : NoPanic (cron_CreateJob j).
Proof. unfold cron_CreateJob. apply _. Qed.
#[export] Instance cron_GetJobByID_no_panic i u : NoPanic (cron_GetJobByID i u).
Proof. unfold cron_GetJobByID. apply _. Qed.
#[export] Instance cron_ListJobs_no_panic u : NoPanic (cron_ListJobs u).
Proof. unfold cron_ListJobs. apply _. Qed.
#[export] Instance cron_UpdateJob_no_panic j : NoPanic (cron_UpdateJob j).
Proof. unfold cron_UpdateJob. apply _. Qed.
#[export] Instance cron_repo_DeleteJob_no_panic i : NoPanic (cron_repo_DeleteJob i).
Proof. unfold cron_repo_DeleteJob. apply _. Qed.
#[export] Instance GetNextJobsToRun_no_panic : NoPanic GetNextJobsToRun.
Proof. unfold GetNextJobsToRun. apply _. Qed.
#[export] Instance SaveJobRun_no_panic r : NoPanic (SaveJobRun r).
Proof. unfold SaveJobRun. apply _. Qed.
#[export] Instance CreateJob_no_panic c n s u m b : NoPanic (CreateJob c n s u m b).
Proof. unfold CreateJob. apply _. Qed.
#[export] Instance PauseJob_no_panic c i : NoPanic (PauseJob c i).
Proof. unfold PauseJob. apply _. Qed.
#[export] Instance ResumeJob_no_panic c i : NoPanic (ResumeJob c i).
Proof. unfold ResumeJob. apply _. Qed.
#[export] Instance cron_DeleteJob_no_panic c i : NoPanic (cron_DeleteJob c i).
Proof. unfold cron_DeleteJob. apply _. Qed.
#[export] Instance ProcessJobs_no_panic : NoPanic ProcessJobs.
Proof. unfold ProcessJobs. apply _. Qed.
End no_panic.
