(* ===== verification/Gateway.v ===== *)
(** * [services/gateway.go], [repositories/postgres/gateway_repo.go] and the proxy of
    [handlers/gateway_handler.go]: the API gateway

    The service keeps the routes in memory, by their prefix, each with the reverse proxy
    made from its target.  The proxies are closures over the route and its parsed target:
    the map [m_routes] holds the route. *)
From S2P Require Import Prelude GoStd Encoding Net Errors Domain DomainData World Logic Sql Http.

Section gateway.
Context `{Env, HttpEnv}.

(** ** The repository *)

Definition gw_CreateRoute (route : GatewayRoute) : M unit :=
  db_exec (sql_insert t_routes (rt_ID route) route (λ w,
    user_fk (rt_UserID route) w && int4 (rt_RateLimit route)
    && no_row (λ r, bool_decide ((rt_UserID r = rt_UserID route ∧ rt_Name r = rt_Name route)
                                 ∨ rt_PathPrefix r = rt_PathPrefix route)) (t_routes w))).

Definition gw_GetRouteByID (id userID : uuid) : M GatewayRoute :=
  db_query_row (λ w, by_pk (t_routes w) id (of_user rt_UserID userID)).

Definition gw_ListRoutes (userID : uuid) : M (list GatewayRoute) :=
  l ← db_query (λ w, select (of_user rt_UserID userID) (t_routes w));
  mret (order_desc rt_CreatedAt l).

Definition gw_DeleteRoute (id : uuid) : M unit :=
  db_exec (sql_delete t_routes id (λ _, true) (λ _, true) (λ w, w)) ;; mret ().

Definition GetAllActiveRoutes : M (list GatewayRoute) :=
  db_query (λ w, select (λ _, true) (t_routes w)).

(** ** The service *)

Definition parses (url : string) : bool :=
  match url_Parse url with inl _ => false | inr _ => true end.

(** The maps a refresh builds: a route whose target is no URL is left out. *)
Definition route_map (routes : list GatewayRoute) : gmap string GatewayRoute :=
  foldl (λ m r, if parses (rt_TargetURL r) then <[rt_PathPrefix r := r]> m else m) ∅ routes.

Definition RefreshRoutes : M unit :=
  routes ← GetAllActiveRoutes;
  modifies m_routes (λ _, route_map routes).

Definition CreateRoute (ctx : Context) (name prefix target : string) (strip : bool) (rateLimit : Z)
    : M GatewayRoute :=
  userID ← current_user ctx;
  id ← uuid_New;
  created ← Now;
  updated ← Now;
  let route := MkGatewayRoute id userID name prefix target strip rateLimit created updated in
  gw_CreateRoute route ;;
  ignore (Log (rt_UserID route) "gateway.route_create" "gateway" (uuid_string (rt_ID route))
            (Some [("name", VString (rt_Name route)); ("prefix", VString (rt_PathPrefix route))])) ;;
  ignore RefreshRoutes ;;
  mret route.

Definition ListRoutes (ctx : Context) : M (list GatewayRoute) :=
  userID ← current_user ctx;
  gw_ListRoutes userID.

Definition DeleteRoute (ctx : Context) (id : uuid) : M unit :=
  route ← gw_GetRouteByID id (UserIDFromContext ctx);
  gw_DeleteRoute id ;;
  ignore (Log (rt_UserID route) "gateway.route_delete" "gateway" (uuid_string (rt_ID route))
            (Some [("name", VString (rt_Name route))])) ;;
  RefreshRoutes.

(** The path a request leaves the gateway with: the proxy of the standard library puts the
    path of the target in front first. *)
Definition director (r : GatewayRoute) (target : URL) (path : string) : string :=
  let path := singleJoiningSlash (url_Path target) path in
  if rt_StripPrefix r then
    let path := TrimPrefix path ("/gw" +:+ rt_PathPrefix r) in
    if HasPrefix path "/" then path else "/" +:+ path
  else path.

(** The first of the prefixes that match, in the order the runtime walks the map. *)
Definition GetProxy (path : string) : M (option GatewayRoute) :=
  routes ← gets m_routes;
  t ← next_tick;
  mret (snd <$> find (λ kv, HasPrefix path kv.1) (env_order t (string * GatewayRoute) (map_to_list routes))).

(** [GatewayHandler.Proxy] for the path after "/gw": the host a request goes to and the path
    it asks for, or no route. *)
Definition gw_Proxy (param : string) : M (option (string * string)) :=
  let path := if HasPrefix param "/" then param else "/" +:+ param in
  proxy ← GetProxy path;
  mret (route ← proxy;
        match url_Parse (rt_TargetURL route) with
        | inl _ => None
        | inr target => Some (url_Host target, director route target ("/gw" +:+ param))
        end).

End gateway.

#[global] Typeclasses Opaque CreateRoute DeleteRoute RefreshRoutes GetProxy gw_Proxy.

(** ** What the operations touch *)

Section frames.
Context `{Env, HttpEnv} {T : Type} (p : World → T) `{!Indep p w_tick}.

#[export] Instance gw_CreateRoute_frame r : Indep p t_routes → Frame p (gw_CreateRoute r).
Proof. intros. unfold gw_CreateRoute. apply _. Qed.
#[export] Instance gw_GetRouteByID_frame i u : Frame p (gw_GetRouteByID i u).
Proof. intros. unfold gw_GetRouteByID. apply _. Qed.
#[export] Instance gw_ListRoutes_frame u : Frame p (gw_ListRoutes u).
Proof. intros. unfold gw_ListRoutes. apply _. Qed.
#[export] Instance gw_DeleteRoute_frame i : Indep p t_routes → Frame p (gw_DeleteRoute i).
Proof. intros. unfold gw_DeleteRoute. apply _. Qed.
#[export] Instance GetAllActiveRoutes_frame : Frame p GetAllActiveRoutes.
Proof. intros. unfold GetAllActiveRoutes. apply _. Qed.
#[export] Instance RefreshRoutes_frame : Indep p m_routes → Frame p RefreshRoutes.
Proof. intros. unfold RefreshRoutes. apply _. Qed.
#[export] Instance CreateRoute_frame c n f t s l : Indep p t_routes → Indep p t_audit → Indep p m_routes → Frame p (CreateRoute c n f t s l).
Proof. intros. unfold CreateRoute. apply _. Qed.
#[export] Instance DeleteRoute_frame c i : Indep p t_routes → Indep p t_audit → Indep p m_routes → Frame p (DeleteRoute c i).
Proof. intros. unfold DeleteRoute. apply _. Qed.
#[export] Instance GetProxy_frame s : Frame p (GetProxy s).
Proof. intros. unfold GetProxy. apply _. Qed.
#[export] Instance gw_Proxy_frame s : Frame p (gw_Proxy s).
Proof. intros. unfold gw_Proxy. apply _. Qed.
End frames.

Section no_panic.
Context `{Env, HttpEnv}.

#[export] Instance gw_CreateRoute_no_panic r : NoPanic (gw_CreateRoute r).
Proof. unfold gw_CreateRoute. apply _. Qed.
#[export] Instance gw_GetRouteByID_no_panic i u : NoPanic (gw_GetRouteByID i u).
Proof. unfold gw_GetRouteByID. apply _. Qed.
#[export] Instance gw_ListRoutes_no_panic u : NoPanic (gw_ListRoutes u).
Proof. unfold gw_ListRoutes. apply _. Qed.
#[export] Instance gw_DeleteRoute_no_panic i : NoPanic (gw_DeleteRoute i).
Proof. unfold gw_DeleteRoute. apply _. Qed.
#[export] Instance GetAllActiveRoutes_no_panic : NoPanic GetAllActiveRoutes.
Proof. unfold GetAllActiveRoutes. apply _. Qed.
#[export] Instance RefreshRoutes_no_panic : NoPanic RefreshRoutes.
Proof. unfold RefreshRoutes. apply _. Qed.
#[export] Instance CreateRoute_no_panic c n f t s l : NoPanic (CreateRoute c n f t s l).
Proof. unfold CreateRoute. apply _. Qed.
#[export] Instance DeleteRoute_no_panic c i : NoPanic (DeleteRoute c i).
Proof. unfold DeleteRoute. apply _. Qed.
#[export] Instance GetProxy_no_panic s : NoPanic (GetProxy s).
Proof. unfold GetProxy. apply _. Qed.
#[export] Instance gw_Proxy_no_panic s : NoPanic (gw_Proxy s).
Proof. unfold gw_Proxy. apply _. Qed.
End no_panic.
