(* ===== verification/Notify.v ===== *)
(** * [services/notify.go] and [repositories/postgres/notify_repo.go]: topics and
    subscriptions

    A delivery is a goroutine: a [DeliverTask]. *)
From S2P Require Import Prelude GoStd Encoding Net Errors Domain DomainData World Logic Sql Queue Http.

Section notify.
Context `{Env, HttpEnv}.

(** ** The repository *)

Definition topic_Create (topic : Topic) : M unit :=
  db_exec (sql_insert t_topics (top_ID topic) topic (λ w,
    user_fk (top_UserID topic) w
    && no_row (λ r, bool_decide (top_UserID r = top_UserID topic ∧ top_Name r = top_Name topic)) (t_topics w))).

Definition GetTopicByID (id userID : uuid) : M Topic :=
  db_query_row (λ w, by_pk (t_topics w) id (of_user top_UserID userID)).

Definition GetTopicByName (name : string) (userID : uuid) : M Topic :=
  db_query_row (λ w, select (λ t, bool_decide (top_Name t = name) && of_user top_UserID userID t) (t_topics w)).

Definition topic_List (userID : uuid) : M (list Topic) :=
  l ← db_query (λ w, select (of_user top_UserID userID) (t_topics w));
  mret (order_desc top_CreatedAt l).

(** The subscriptions and messages of a deleted topic go with it. *)
Definition topic_cascade (id : uuid) (w : World) : World :=
  w <| t_subscriptions ::= filter (λ kv, sub_TopicID kv.2 ≠ id) |>
    <| t_notify_messages ::= filter (λ kv, nm_TopicID kv.2 ≠ id) |>.

Definition topic_Delete (id : uuid) : M unit :=
  db_exec (sql_delete t_topics id (λ _, true) (λ _, true) (topic_cascade id)) ;; mret ().

Definition CreateSubscription (sub : Subscription) : M unit :=
  db_exec (sql_insert t_subscriptions (sub_ID sub) sub (λ w,
    user_fk (sub_UserID sub) w && fk_ok (t_topics w) (Some (sub_TopicID sub))
    && no_row (λ r, bool_decide (sub_TopicID r = sub_TopicID sub ∧ sub_Protocol r = sub_Protocol sub
                                 ∧ sub_Endpoint r = sub_Endpoint sub)) (t_subscriptions w))).

Definition GetSubscriptionByID (id userID : uuid) : M Subscription :=
  db_query_row (λ w, by_pk (t_subscriptions w) id (of_user sub_UserID userID)).

Definition sub_List (topicID : uuid) : M (list Subscription) :=
  l ← db_query (λ w, select (λ s, bool_decide (sub_TopicID s = topicID)) (t_subscriptions w));
  mret (order_desc sub_CreatedAt l).

Definition DeleteSubscription (id : uuid) : M unit :=
  db_exec (sql_delete t_subscriptions id (λ _, true) (λ _, true) (λ w, w)) ;; mret ().

Definition SaveMessage (msg : NotifyMessage) : M unit :=
  db_exec (sql_insert t_notify_messages (nm_ID msg) msg (λ w, fk_ok (t_topics w) (Some (nm_TopicID msg)))).

(** ** The service *)

Definition topic_arn (userID : uuid) (name : string) : string :=
  "arn:thecloud:notify:local:" +:+ uuid_string userID +:+ ":topic/" +:+ name.

Definition CreateTopic (ctx : Context) (name : string) : M Topic :=
  userID ← current_user ctx;
  existing ← attempt (GetTopicByName name userID);
  match existing with
  | inr _ => fail (Errorf ("topic with name " +:+ name +:+ " already exists"))
  | inl _ =>
      id ← uuid_New;
      created ← Now;
      updated ← Now;
      let topic := MkTopic id userID name (topic_arn userID name) created updated in
      topic_Create topic ;;
      ignore (RecordEvent ctx "TOPIC_CREATED" (uuid_string (top_ID topic)) "TOPIC" None) ;;
      ignore (Log (top_UserID topic) "notify.topic_create" "topic" (uuid_string (top_ID topic))
                (Some [("name", VString (top_Name topic))])) ;;
      mret topic
  end.

Definition ListTopics (ctx : Context) : M (list Topic) :=
  userID ← current_user ctx;
  topic_List userID.

Definition DeleteTopic (ctx : Context) (id : uuid) : M unit :=
  userID ← current_user ctx;
  topic ← GetTopicByID id userID;
  topic_Delete id ;;
  ignore (RecordEvent ctx "TOPIC_DELETED" (uuid_string id) "TOPIC" None) ;;
  ignore (Log (top_UserID topic) "notify.topic_delete" "topic" (uuid_string (top_ID topic))
            (Some [("name", VString (top_Name topic))])).

Definition Subscribe (ctx : Context) (topicID : uuid) (protocol endpoint : string) : M Subscription :=
  userID ← current_user ctx;
  topic ← GetTopicByID topicID userID;
  id ← uuid_New;
  created ← Now;
  updated ← Now;
  let sub := MkSubscription id userID (top_ID topic) protocol endpoint created updated in
  CreateSubscription sub ;;
  ignore (RecordEvent ctx "SUBSCRIPTION_CREATED" (uuid_string (sub_ID sub)) "SUBSCRIPTION"
            (Some [("topic_id", VUUID topicID)])) ;;
  ignore (Log (sub_UserID sub) "notify.subscribe" "subscription" (uuid_string (sub_ID sub))
            (Some [("topic_id", VString (uuid_string topicID)); ("protocol", VString protocol);
                   ("endpoint", VString endpoint)])) ;;
  mret sub.

Definition ListSubscriptions (ctx : Context) (topicID : uuid) : M (list Subscription) :=
  userID ← current_user ctx;
  GetTopicByID topicID userID ;;
  sub_List topicID.

Definition Unsubscribe (ctx : Context) (id : uuid) : M unit :=
  userID ← current_user ctx;
  sub ← GetSubscriptionByID id userID;
  DeleteSubscription (sub_ID sub) ;;
  ignore (RecordEvent ctx "SUBSCRIPTION_DELETED" (uuid_string id) "SUBSCRIPTION" None) ;;
  ignore (Log (sub_UserID sub) "notify.unsubscribe" "subscription" (uuid_string (sub_ID sub))
            (Some [("topic_id", VString (uuid_string (sub_TopicID sub)))])).

Definition Publish (ctx : Context) (topicID : uuid) (body : string) : M unit :=
  userID ← current_user ctx;
  topic ← GetTopicByID topicID userID;
  id ← uuid_New;
  created ← Now;
  let msg := MkNotifyMessage id (top_ID topic) body created in
  SaveMessage msg ;;
  subs ← sub_List topicID;
  foreach subs (λ sub, spawn (DeliverTask sub body)) ;;
  ignore (RecordEvent ctx "TOPIC_PUBLISHED" (uuid_string (top_ID topic)) "TOPIC"
            (Some [("message_id", VUUID (nm_ID msg))])) ;;
  ignore (Log (top_UserID topic) "notify.publish" "topic" (uuid_string (top_ID topic))
            (Some [("message_id", VString (uuid_string (nm_ID msg)))])).

Definition ProtocolQueue : string := "queue".
Definition ProtocolWebhook : string := "webhook".

(** A queue gets the message in the name of the owner of the subscription.  The error of a
    request that cannot be made is dropped, and the header of the nil request set. *)
Definition deliver (ctx : Context) (sub : Subscription) (body : string) : M unit :=
  if bool_decide (sub_Protocol sub = ProtocolQueue) then
    match uuid_parse (sub_Endpoint sub) with
    | None => mret ()
    | Some qID => ignore (SendMessage (WithUserID ctx (sub_UserID sub)) qID body)
    end
  else if bool_decide (sub_Protocol sub = ProtocolWebhook) then
    match NewRequest "POST" (sub_Endpoint sub) with
    | inl _ => panic "invalid memory address or nil pointer dereference"
    | inr method => ignore (http_Do method (sub_Endpoint sub) body)
    end
  else mret ().

End notify.

#[global] Typeclasses Opaque CreateTopic DeleteTopic Subscribe Unsubscribe Publish deliver.

(** ** What the operations touch *)

Section frames.
Context `{Env, HttpEnv} {T : Type} (p : World → T) `{!Indep p w_tick}.

#[export] Instance topic_Create_frame t : Indep p t_topics → Frame p (topic_Create t).
Proof. intros. unfold topic_Create. apply _. Qed.
#[export] Instance GetTopicByID_frame i u : Frame p (GetTopicByID i u).
Proof. intros. unfold GetTopicByID. apply _. Qed.
#[export] Instance GetTopicByName_frame n u : Frame p (GetTopicByName n u).
Proof. intros. unfold GetTopicByName. apply _. Qed.
#[export] Instance topic_List_frame u : Frame p (topic_List u).
Proof. intros. unfold topic_List. apply _. Qed.
#[export] Instance topic_Delete_frame i : Indep p t_topics → Indep p t_subscriptions → Indep p t_notify_messages → Frame p (topic_Delete i).
Proof.
  intros. unfold topic_Delete. apply steps_bind; [apply _| |apply _]. apply steps_db_exec; [apply _..|].
  apply sql_delete_same; [apply _|]. intros w. unfold topic_cascade.
  rewrite (indep (p := p) (q := t_notify_messages)). apply indep.
Qed.
#[export] Instance CreateSubscription_frame s : Indep p t_subscriptions → Frame p (CreateSubscription s).
Proof. intros. unfold CreateSubscription. apply _. Qed.
#[export] Instance GetSubscriptionByID_frame i u : Frame p (GetSubscriptionByID i u).
Proof. intros. unfold GetSubscriptionByID. apply _. Qed.
#[export] Instance sub_List_frame t : Frame p (sub_List t).
Proof. intros. unfold sub_List. apply _. Qed.
#[export] Instance DeleteSubscription_frame i : Indep p t_subscriptions → Frame p (DeleteSubscription i).
Proof. intros. unfold DeleteSubscription. apply _. Qed.
#[export] Instance SaveMessage_frame m : Indep p t_notify_messages → Frame p (SaveMessage m).
Proof. intros. unfold SaveMessage. apply _. Qed.
#[export] Instance CreateTopic_frame c n : Indep p t_topics → Indep p t_events → Indep p t_audit → Frame p (CreateTopic c n).
Proof. intros. unfold CreateTopic. apply _. Qed.
#[export] Instance DeleteTopic_frame c i : Indep p t_topics → Indep p t_subscriptions → Indep p t_notify_messages → Indep p t_events → Indep p t_audit → Frame p (DeleteTopic c i).
Proof. intros. unfold DeleteTopic. apply _. Qed.
#[export] Instance Subscribe_frame c t x e : Indep p t_subscriptions → Indep p t_events → Indep p t_audit → Frame p (Subscribe c t x e).
Proof. intros. unfold Subscribe. apply _. Qed.
#[export] Instance Unsubscribe_frame c i : Indep p t_subscriptions → Indep p t_events → Indep p t_audit → Frame p (Unsubscribe c i).
Proof. intros. unfold Unsubscribe. apply _. Qed.
#[export] Instance Publish_frame c t b : Indep p t_notify_messages → Indep p w_tasks → Indep p t_events → Indep p t_audit → Frame p (Publish c t b).
Proof. intros. unfold Publish. apply _. Qed.
#[export] Instance deliver_frame c s b : Indep p w_calls → Indep p t_messages → Indep p t_events → Indep p t_audit → Frame p (deliver c s b).
Proof. intros. unfold deliver. apply _. Qed.
End frames.

Section no_panic.
Context `{Env, HttpEnv}.

#[export] Instance topic_Create_no_panic t : NoPanic (topic_Create t).
Proof. unfold topic_Create. apply _. Qed.
#[export] Instance GetTopicByID_no_panic i u : NoPanic (GetTopicByID i u).
Proof. unfold GetTopicByID. apply _. Qed.
#[export] Instance GetTopicByName_no_panic n u : NoPanic (GetTopicByName n u).
Proof. unfold GetTopicByName. apply _. Qed.
#[export] Instance topic_List_no_panic u : NoPanic (topic_List u).
Proof. unfold topic_List. apply _. Qed.
#[export] Instance topic_Delete_no_panic i : NoPanic (topic_Delete i).
Proof. unfold topic_Delete. apply _. Qed.
#[export] Instance CreateSubscription_no_panic s : NoPanic (CreateSubscription s).
Proof. unfold CreateSubscription. apply _. Qed.
#[export] Instance GetSubscriptionByID_no_panic i u : NoPanic (GetSubscriptionByID i u).
Proof. unfold GetSubscriptionByID. apply _. Qed.
#[export] Instance sub_List_no_panic t : NoPanic (sub_List t).
Proof. unfold sub_List. apply _. Qed.
#[export] Instance DeleteSubscription_no_panic i : NoPanic (DeleteSubscription i).
Proof. unfold DeleteSubscription. apply _. Qed.
#[export] Instance SaveMessage_no_panic m : NoPanic (SaveMessage m).
Proof. unfold SaveMessage. apply _. Qed.
#[export] Instance CreateTopic_no_panic c n : NoPanic (CreateTopic c n).
Proof. unfold CreateTopic. apply _. Qed.
#[export] Instance DeleteTopic_no_panic c i : NoPanic (DeleteTopic c i).
Proof. unfold DeleteTopic. apply _. Qed.
#[export] Instance Subscribe_no_panic c t x e : NoPanic (Subscribe c t x e).
Proof. unfold Subscribe. apply _. Qed.
#[export] Instance Unsubscribe_no_panic c i : NoPanic (Unsubscribe c i).
Proof. unfold Unsubscribe. apply _. Qed.
#[export] Instance Publish_no_panic c t b : NoPanic (Publish c t b).
Proof. unfold Publish. apply _. Qed.
End no_panic.
