(* ===== verification/Cache.v ===== *)
(** * [services/cache.go] and [repositories/postgres/cache_repo.go]: caches *)
From S2P Require Import Prelude GoStd Encoding Net Errors Domain DomainData World Logic Sql Secret.
From S2P Require Import InstanceRepo NetworkRepo Json InstanceService.

(** ** Reading the answer of [INFO] *)

(** [strings.Split(s, "\r\n")] *)
Fixpoint split_crlf (s : string) : list string :=
  match s with
  | EmptyString => [EmptyString]
  | String a s' =>
      match s' with
      | String b s'' =>
          if bool_decide (a = "013"%char ∧ b = "010"%char) then EmptyString :: split_crlf s''
          else match split_crlf s' with
               | h :: t => String a h :: t
               | [] => [String a EmptyString]
               end
      | EmptyString => [String a EmptyString]
      end
  end.

(** The value [strconv.ParseInt] gives beside its error, which the callers drop: 0 for a
    malformed number, the nearest bound for one out of range. *)
Fixpoint uint_scan (acc : Z) (s : string) : option Z :=
  match s with
  | EmptyString => Some acc
  | String a s' =>
      d ← digit_val a;
      if 2 ^ 64 <=? acc * 10 + d then Some (2 ^ 64 - 1) else uint_scan (acc * 10 + d) s'
  end.

Definition ParseUint_value (s : string) : option Z :=
  if bool_decide (s = "") then None else uint_scan 0 s.

Definition ParseInt_value (s : string) : Z :=
  match s with
  | EmptyString => 0
  | String a s' =>
      if bool_decide (a = "-"%char) then default 0 ((λ u, Z.max (- 2 ^ 63) (- u)) <$> ParseUint_value s')
      else if bool_decide (a = "+"%char) then default 0 (Z.min (2 ^ 63 - 1) <$> ParseUint_value s')
      else default 0 (Z.min (2 ^ 63 - 1) <$> ParseUint_value s)
  end.

Definition parseRedisClients (info : string) : Z :=
  let client line :=
    if HasPrefix line "connected_clients:" then
      match split_on ":" line with
      | [_; n] => Some (ParseInt_value n)
      | _ => None
      end
    else None in
  default 0 (head (omap client (split_crlf info))).

(** [strings.Contains(s, substr)] *)
Fixpoint str_contains (s substr : string) : bool :=
  HasPrefix s substr ||
  match s with
  | EmptyString => false
  | String _ s' => str_contains s' substr
  end.

(** The counts of the pairs [keys=n] of a line of a database. *)
Definition keys_of_pair (pair : string) : Z :=
  if HasPrefix pair "keys=" then
    match split_on "=" pair with
    | [_; n] => ParseInt_value n
    | _ => 0
    end
  else 0.

Definition parseRedisKeys (info : string) : Z :=
  foldl (λ total line,
    if HasPrefix line "db" && str_contains line "keys=" then
      match split_on ":" line with
      | _ :: stats :: _ => foldl (λ n pair, int_add n (keys_of_pair pair)) total (split_on "," stats)
      | _ => total
      end
    else total) 0 (split_crlf info).

Section cache.
Context `{Env, Crypto}.

(** ** The repository *)

Definition cache_Create (cache : Cache) : M unit :=
  wrap_err (Wrap Internal "failed to create cache")
    (db_exec (sql_insert t_caches (ca_ID cache) cache (λ w,
       user_fk (ca_UserID cache) w && fk_ok (t_vpcs w) (ca_VpcID cache)
       && int4 (ca_Port cache) && int4 (ca_MemoryMB cache)
       && no_row (λ r, bool_decide (ca_UserID r = ca_UserID cache ∧ ca_Name r = ca_Name cache)) (t_caches w)))).

(** The condition does not name the user. *)
Definition cache_GetByID (id : uuid) : M Cache :=
  wrap_err (norows (New NotFound "cache not found") "failed to get cache")
    (db_query_row (λ w, by_pk (t_caches w) id (λ _, true))).

Definition cache_GetByName (userID : uuid) (name : string) : M Cache :=
  wrap_err (norows (New NotFound "cache not found") "failed to get cache by name")
    (db_query_row (λ w, select (λ c, of_user ca_UserID userID c && bool_decide (ca_Name c = name)) (t_caches w))).

Definition cache_List (userID : uuid) : M (list Cache) :=
  l ← wrap_err (Wrap Internal "failed to list caches")
        (db_query (λ w, select (of_user ca_UserID userID) (t_caches w)));
  mret (order_desc ca_CreatedAt l).

Definition cache_Update (cache : Cache) : M unit :=
  wrap_err (Wrap Internal "failed to update cache")
    (db_exec (sql_update t_caches (ca_ID cache) (λ _, true) (λ _ r,
       if int4 (ca_Port cache) then
         Some (r <| ca_Status := ca_Status cache |> <| ca_ContainerID := ca_ContainerID cache |>
                 <| ca_Port := ca_Port cache |> <| ca_UpdatedAt := ca_UpdatedAt cache |>)
       else None))) ;;
  mret ().

Definition cache_Delete (id : uuid) : M unit :=
  wrap_err (Wrap Internal "failed to delete cache")
    (db_exec (sql_delete t_caches id (λ _, true) (λ _, true) (λ w, w))) ;;
  mret ().

(** ** The service *)

Definition EngineRedis : string := "redis".

Definition redis_cmd (password : string) (memoryMB : Z) : list string :=
  ["redis-server"; "--appendonly"; "yes"; "--save"; ""; "--requirepass"; password;
   "--maxmemory"; itoa memoryMB +:+ "mb"; "--maxmemory-policy"; "allkeys-lru";
   "--tcp-keepalive"; "300"].

Definition cache_name (id : uuid) : string := "thecloud-cache-" +:+ str_prefix 8 (uuid_string id).

(** The network of a VPC of the user, or none. *)
Definition cache_network (ctx : Context) (vpcID : option uuid) : M string :=
  match vpcID with
  | Some id => vpc ← vpc_GetByID ctx id; mret (vpc_NetworkID vpc)
  | None => mret ""
  end.

(** The row is written before the VPC is looked up. *)
Definition CreateCache (ctx : Context) (name version : string) (memoryMB : Z) (vpcID : option uuid)
    : M Cache :=
  password ← GenerateRandomPassword 16;
  cacheID ← uuid_New;
  created ← Now;
  updated ← Now;
  let cache := MkCache cacheID (UserIDFromContext ctx) name EngineRedis version CacheStatusCreating
                 vpcID "" 0 password memoryMB created updated in
  cache_Create cache ;;
  networkID ← cache_network ctx vpcID;
  launched ← attempt (perform (CreateInstance (cache_name (ca_ID cache))
                                 ("redis:" +:+ version +:+ "-alpine") ["0:6379"] networkID [] []
                                 (redis_cmd password memoryMB)));
  match launched with
  | inl err =>
      ignore (cache_Delete (ca_ID cache)) ;;
      fail (Wrap Internal "failed to launch cache container" err)
  | inr containerID =>
      r ← attempt (perform (GetInstancePort containerID "6379"));
      let port := match r with inl _ => 0 | inr port => port end in
      let cache := cache <| ca_Status := CacheStatusRunning |> <| ca_ContainerID := containerID |>
                         <| ca_Port := port |> in
      ignore (cache_Update cache) ;;
      ignore (RecordEvent ctx "CACHE_CREATE" (uuid_string (ca_ID cache)) "CACHE"
                (Some [("name", VString (ca_Name cache)); ("version", VString (ca_Version cache));
                       ("memory", VInt (ca_MemoryMB cache))])) ;;
      ignore (Log (ca_UserID cache) "cache.create" "cache" (uuid_string (ca_ID cache))
                (Some [("name", VString name)])) ;;
      mret cache
  end.

Definition getCacheByIDOrName (ctx : Context) (idOrName : string) : M Cache :=
  match uuid_parse idOrName with
  | Some id => cache_GetByID id
  | None => cache_GetByName (UserIDFromContext ctx) idOrName
  end.

Definition GetCache (ctx : Context) (idOrName : string) : M Cache := getCacheByIDOrName ctx idOrName.

Definition ListCaches (ctx : Context) : M (list Cache) := cache_List (UserIDFromContext ctx).

Definition DeleteCache (ctx : Context) (idOrName : string) : M unit :=
  cache ← getCacheByIDOrName ctx idOrName;
  (if bool_decide (ca_ContainerID cache = "") then mret ()
   else ignore (perform (StopInstance (ca_ContainerID cache))) ;;
        ignore (perform (DeleteInstance (ca_ContainerID cache)))) ;;
  cache_Delete (ca_ID cache) ;;
  ignore (RecordEvent ctx "CACHE_DELETE" (uuid_string (ca_ID cache)) "CACHE" None) ;;
  ignore (Log (ca_UserID cache) "cache.delete" "cache" (uuid_string (ca_ID cache))
            (Some [("name", VString (ca_Name cache))])).

Definition cache_GetConnectionString (ctx : Context) (idOrName : string) : M string :=
  cache ← getCacheByIDOrName ctx idOrName;
  mret ("redis://:" +:+ ca_Password cache +:+ "@localhost:" +:+ itoa (ca_Port cache)).

Definition redis_cli (cache : Cache) (command : string) : list string :=
  ["redis-cli"] ++ (if bool_decide (ca_Password cache = "") then [] else ["-a"; ca_Password cache])
  ++ [command].

Definition FlushCache (ctx : Context) (idOrName : string) : M unit :=
  cache ← getCacheByIDOrName ctx idOrName;
  guard_err (negb (bool_decide (ca_Status cache = CacheStatusRunning)))
    (New InstanceNotRunning "cache is not running") ;;
  r ← attempt (perform (Exec (ca_ContainerID cache) (redis_cli cache "FLUSHALL")));
  match r with
  | inl err => fail (Wrap Internal "failed to flush cache: " err)
  | inr (output, Some err) => fail (Wrap Internal ("failed to flush cache: " +:+ output) err)
  | inr (_, None) =>
      ignore (Log (ca_UserID cache) "cache.flush" "cache" (uuid_string (ca_ID cache)) (Some []))
  end.

(** [ports.CacheStats] *)
Record CacheStats := MkCacheStats {
  cs_UsedMemoryBytes : Z;
  cs_MaxMemoryBytes : Z;
  cs_ConnectedClients : Z;
  cs_TotalKeys : Z
}.

(** An [int64] conversion wraps.  What Redis does not tell is left zero. *)
Definition GetCacheStats `{JsonText} (ctx : Context) (idOrName : string) : M CacheStats :=
  cache ← getCacheByIDOrName ctx idOrName;
  guard_err (negb (bool_decide (ca_Status cache = CacheStatusRunning)))
    (New InstanceNotRunning "cache is not running") ;;
  stream ← perform (World.GetInstanceStats (ca_ContainerID cache));
  memory ← wrap_err (Wrap Internal "failed to decode stats") (from_sum (read_memory_stats stream));
  r ← attempt (perform (Exec (ca_ContainerID cache) (redis_cli cache "INFO")));
  let '(clients, keys) := match r with
                          | inr (output, None) => (parseRedisClients output, parseRedisKeys output)
                          | _ => (0, 0)
                          end in
  mret (MkCacheStats (wrap64 (mem_Usage memory)) (wrap64 (mem_Limit memory)) clients keys).

End cache.

#[global] Typeclasses Opaque CreateCache getCacheByIDOrName DeleteCache cache_GetConnectionString FlushCache.

(** ** What the operations touch *)

Section frames.
Context `{Env, Crypto} {T : Type} (p : World → T) `{!Indep p w_tick}.

#[export] Instance cache_Create_frame c : Indep p t_caches → Frame p (cache_Create c).
Proof. intros. unfold cache_Create. apply _. Qed.
#[export] Instance cache_GetByID_frame i : Frame p (cache_GetByID i).
Proof. intros. unfold cache_GetByID. apply _. Qed.
#[export] Instance cache_GetByName_frame u n : Frame p (cache_GetByName u n).
Proof. intros. unfold cache_GetByName. apply _. Qed.
#[export] Instance cache_List_frame u : Frame p (cache_List u).
Proof. intros. unfold cache_List. apply _. Qed.
#[export] Instance cache_Update_frame c : Indep p t_caches → Frame p (cache_Update c).
Proof. intros. unfold cache_Update. apply _. Qed.
#[export] Instance cache_Delete_frame i : Indep p t_caches → Frame p (cache_Delete i).
Proof. intros. unfold cache_Delete. apply _. Qed.
#[export] Instance cache_network_frame c v : Frame p (cache_network c v).
Proof. intros. unfold cache_network. apply _. Qed.
#[export] Instance CreateCache_frame c n v m i : Indep p t_caches → Indep p w_calls → Indep p t_events → Indep p t_audit → Frame p (CreateCache c n v m i).
Proof. intros. unfold CreateCache. apply _. Qed.
#[export] Instance getCacheByIDOrName_frame c s : Frame p (getCacheByIDOrName c s).
Proof. intros. unfold getCacheByIDOrName. apply _. Qed.
#[export] Instance DeleteCache_frame c s : Indep p t_caches → Indep p w_calls → Indep p t_events → Indep p t_audit → Frame p (DeleteCache c s).
Proof. intros. unfold DeleteCache. apply _. Qed.
#[export] Instance cache_GetConnectionString_frame c s : Frame p (cache_GetConnectionString c s).
Proof. intros. unfold cache_GetConnectionString. apply _. Qed.
#[export] Instance FlushCache_frame c s : Indep p w_calls → Indep p t_audit → Frame p (FlushCache c s).
Proof. intros. unfold FlushCache. apply _. Qed.
End frames.

Section no_panic.
Context `{Env, Crypto}.

#[export] Instance cache_Create_no_panic c : NoPanic (cache_Create c).
Proof. unfold cache_Create. apply _. Qed.
#[export] Instance cache_GetByID_no_panic i : NoPanic (cache_GetByID i).
Proof. unfold cache_GetByID. apply _. Qed.
#[export] Instance cache_GetByName_no_panic u n : NoPanic (cache_GetByName u n).
Proof. unfold cache_GetByName. apply _. Qed.
#[export] Instance cache_List_no_panic u : NoPanic (cache_List u).
Proof. unfold cache_List. apply _. Qed.
#[export] Instance cache_Update_no_panic c : NoPanic (cache_Update c).
Proof. unfold cache_Update. apply _. Qed.
#[export] Instance cache_Delete_no_panic i : NoPanic (cache_Delete i).
Proof. unfold cache_Delete. apply _. Qed.
#[export] Instance cache_network_no_panic c v : NoPanic (cache_network c v).
Proof. unfold cache_network. apply _. Qed.
#[export] Instance CreateCache_no_panic c n v m i : NoPanic (CreateCache c n v m i).
Proof. unfold CreateCache. apply _. Qed.
#[export] Instance getCacheByIDOrName_no_panic c s : NoPanic (getCacheByIDOrName c s).
Proof. unfold getCacheByIDOrName. apply _. Qed.
#[export] Instance DeleteCache_no_panic c s : NoPanic (DeleteCache c s).
Proof. unfold DeleteCache. apply _. Qed.
#[export] Instance cache_GetConnectionString_no_panic c s : NoPanic (cache_GetConnectionString c s).
Proof. unfold cache_GetConnectionString. apply _. Qed.
#[export] Instance FlushCache_no_panic c s : NoPanic (FlushCache c s).
Proof. unfold FlushCache. apply _. Qed.
End no_panic.
