(* ===== verification/Database.v ===== *)
(** * [services/database.go] and [repositories/postgres/database_repo.go]: managed databases *)
From S2P Require Import Prelude GoStd Encoding Net Errors Domain DomainData World Logic Sql Secret.
From S2P Require Import InstanceRepo NetworkRepo Cache.

Section database.
Context `{Env, Crypto}.

(** ** The repository *)

Definition database_Create (db : Database) : M unit :=
  wrap_err (Wrap Internal "failed to create database")
    (db_exec (sql_insert t_databases (db_ID db) db (λ w,
       user_fk (db_UserID db) w && fk_ok (t_vpcs w) (db_VpcID db) && int4 (db_Port db)
       && no_row (λ r, bool_decide (db_Name r = db_Name db ∧ db_UserID r = db_UserID db)) (t_databases w)))).

Definition database_GetByID (ctx : Context) (id : uuid) : M Database :=
  wrap_err (norows (New NotFound ("database " +:+ uuid_string id +:+ " not found")) "failed to get database")
    (db_query_row (λ w, by_pk (t_databases w) id (of_user db_UserID (UserIDFromContext ctx)))).

Definition database_List (ctx : Context) : M (list Database) :=
  l ← wrap_err (Wrap Internal "failed to list databases")
        (db_query (λ w, select (of_user db_UserID (UserIDFromContext ctx)) (t_databases w)));
  mret (order_desc db_CreatedAt l).

Definition database_Update (db : Database) : M unit :=
  now ← Now;
  n ← wrap_err (Wrap Internal "failed to update database")
        (db_exec (sql_update t_databases (db_ID db) (of_user db_UserID (db_UserID db)) (λ w r,
           if int4 (db_Port db)
              && no_row (λ o, bool_decide (db_Name o = db_Name db ∧ db_UserID o = db_UserID db ∧ db_ID o ≠ db_ID db))
                   (t_databases w)
           then Some (r <| db_Name := db_Name db |> <| db_Status := db_Status db |>
                        <| db_ContainerID := db_ContainerID db |> <| db_Port := db_Port db |>
                        <| db_UpdatedAt := now |>)
           else None)));
  guard_err (Nat.eqb n 0) (New NotFound "database not found").

Definition database_Delete (ctx : Context) (id : uuid) : M unit :=
  n ← wrap_err (Wrap Internal "failed to delete database")
        (db_exec (sql_delete t_databases id (of_user db_UserID (UserIDFromContext ctx)) (λ _, true) (λ w, w)));
  guard_err (Nat.eqb n 0) (New NotFound ("database " +:+ uuid_string id +:+ " not found")).

(** ** The service *)

Definition EnginePostgres : string := "postgres".
Definition EngineMySQL : string := "mysql".

(** The image, the environment and the port of an engine. *)
Definition engine_config (engine version name username password : string)
    : string * list string * string :=
  if bool_decide (engine = EnginePostgres) then
    ("postgres:" +:+ version +:+ "-alpine",
     ["POSTGRES_USER=" +:+ username; "POSTGRES_PASSWORD=" +:+ password; "POSTGRES_DB=" +:+ name], "5432")
  else if bool_decide (engine = EngineMySQL) then
    ("mysql:" +:+ version, ["MYSQL_ROOT_PASSWORD=" +:+ password; "MYSQL_DATABASE=" +:+ name], "3306")
  else ("", [], "").

Definition database_name (name : string) (id : uuid) : string :=
  "cloud-db-" +:+ name +:+ "-" +:+ str_prefix 8 (uuid_string id).

Definition CreateDatabase (ctx : Context) (name engine version : string) (vpcID : option uuid)
    : M Database :=
  let userID := UserIDFromContext ctx in
  guard_err (negb (mem engine [EnginePostgres; EngineMySQL]))
    (New InvalidInput "unsupported database engine") ;;
  password ← GenerateRandomPassword 16;
  let username := if bool_decide (engine = EngineMySQL) then "root" else "cloud_user" in
  id ← uuid_New;
  created ← Now;
  updated ← Now;
  let db := MkDatabase id userID name engine version DatabaseStatusCreating vpcID "" 0
              username password created updated in
  let '(imageName, env, defaultPort) := engine_config engine version name username password in
  networkID ← wrap_err (Wrap NotFound "vpc not found") (cache_network ctx vpcID);
  containerID ← wrap_err (Wrap Internal "failed to launch database container")
                  (perform (CreateInstance (database_name name (db_ID db)) imageName
                              ["0:" +:+ defaultPort] networkID [] env []));
  r ← attempt (perform (GetInstancePort containerID defaultPort));
  let hostPort := match r with inl _ => 0 | inr port => port end in
  let db := db <| db_ContainerID := containerID |> <| db_Port := hostPort |>
               <| db_Status := DatabaseStatusRunning |> in
  saved ← attempt (database_Create db);
  match saved with
  | inl err => ignore (perform (DeleteInstance containerID)) ;; fail err
  | inr _ =>
      ignore (RecordEvent ctx "DATABASE_CREATE" (uuid_string (db_ID db)) "DATABASE"
                (Some [("name", VString (db_Name db)); ("engine", VString (db_Engine db))])) ;;
      ignore (Log userID "database.create" "database" (uuid_string (db_ID db))
                (Some [("name", VString name); ("engine", VString engine)])) ;;
      mret db
  end.

Definition GetDatabase (ctx : Context) (id : uuid) : M Database := database_GetByID ctx id.

Definition ListDatabases (ctx : Context) : M (list Database) := database_List ctx.

Definition DeleteDatabase (ctx : Context) (id : uuid) : M unit :=
  db ← database_GetByID ctx id;
  (if bool_decide (db_ContainerID db = "") then mret ()
   else ignore (perform (DeleteInstance (db_ContainerID db)))) ;;
  database_Delete ctx id ;;
  ignore (RecordEvent ctx "DATABASE_DELETE" (uuid_string id) "DATABASE" None) ;;
  ignore (Log (db_UserID db) "database.delete" "database" (uuid_string (db_ID db))
            (Some [("name", VString (db_Name db))])).

Definition database_GetConnectionString (ctx : Context) (id : uuid) : M string :=
  db ← database_GetByID ctx id;
  if bool_decide (db_Engine db = EnginePostgres) then
    mret ("postgres://" +:+ db_Username db +:+ ":" +:+ db_Password db +:+ "@localhost:"
            +:+ itoa (db_Port db) +:+ "/" +:+ db_Name db)
  else if bool_decide (db_Engine db = EngineMySQL) then
    mret (db_Username db +:+ ":" +:+ db_Password db +:+ "@tcp(localhost:"
            +:+ itoa (db_Port db) +:+ ")/" +:+ db_Name db)
  else fail (New Internal "unknown engine").

End database.

#[global] Typeclasses Opaque CreateDatabase DeleteDatabase database_GetConnectionString engine_config.

(** ** What the operations touch *)

Section frames.
Context `{Env, Crypto} {T : Type} (p : World → T) `{!Indep p w_tick}.

#[export] Instance database_Create_frame d : Indep p t_databases → Frame p (database_Create d).
Proof. intros. unfold database_Create. apply _. Qed.
#[export] Instance database_GetByID_frame c i : Frame p (database_GetByID c i).
Proof. intros. unfold database_GetByID. apply _. Qed.
#[export] Instance database_List_frame c : Frame p (database_List c).
Proof. intros. unfold database_List. apply _. Qed.
#[export] Instance database_Update_frame d : Indep p t_databases → Frame p (database_Update d).
Proof. intros. unfold database_Update. apply _. Qed.
#[export] Instance database_Delete_frame c i : Indep p t_databases → Frame p (database_Delete c i).
Proof. intros. unfold database_Delete. apply _. Qed.
#[export] Instance CreateDatabase_frame c n e v i : Indep p t_databases → Indep p w_calls → Indep p t_events → Indep p t_audit → Frame p (CreateDatabase c n e v i).
Proof. intros. unfold CreateDatabase. apply _. Qed.
#[export] Instance DeleteDatabase_frame c i : Indep p t_databases → Indep p w_calls → Indep p t_events → Indep p t_audit → Frame p (DeleteDatabase c i).
Proof. intros. unfold DeleteDatabase. apply _. Qed.
#[export] Instance database_GetConnectionString_frame c i : Frame p (database_GetConnectionString c i).
Proof. intros. unfold database_GetConnectionString. apply _. Qed.
End frames.

Section no_panic.
Context `{Env, Crypto}.

#[export] Instance database_Create_no_panic d : NoPanic (database_Create d).
Proof. unfold database_Create. apply _. Qed.
#[export] Instance database_GetByID_no_panic c i : NoPanic (database_GetByID c i).
Proof. unfold database_GetByID. apply _. Qed.
#[export] Instance database_List_no_panic c : NoPanic (database_List c).
Proof. unfold database_List. apply _. Qed.
#[export] Instance database_Update_no_panic d : NoPanic (database_Update d).
Proof. unfold database_Update. apply _. Qed.
#[export] Instance database_Delete_no_panic c i : NoPanic (database_Delete c i).
Proof. unfold database_Delete. apply _. Qed.
#[export] Instance CreateDatabase_no_panic c n e v i : NoPanic (CreateDatabase c n e v i).
Proof. unfold CreateDatabase. apply _. Qed.
#[export] Instance DeleteDatabase_no_panic c i : NoPanic (DeleteDatabase c i).
Proof. unfold DeleteDatabase. apply _. Qed.
#[export] Instance database_GetConnectionString_no_panic c i : NoPanic (database_GetConnectionString c i).
Proof. unfold database_GetConnectionString. apply _. Qed.
End no_panic.
