(* ===== verification/Function.v ===== *)
(** * [services/function.go] and [repositories/postgres/function_repo.go]: functions

    The code of a function is a zip archive in the file store; an invocation unpacks it
    into a fresh directory that a task of the compute backend mounts.  Reading the archive
    is a parameter; an asynchronous invocation is an [InvocationTask]. *)
From S2P Require Import Prelude GoStd Encoding Net Errors Domain DomainData World Logic Sql InstanceRepo.
From S2P Require Import Storage.

(** An entry of an archive: its content is what its reader gives, and the error it ends
    with, or the error of opening it. *)
Record ZipFile := MkZipFile {
  zf_Name : string;
  zf_IsDir : bool;
  zf_content : error + Reader
}.

Class ZipReader := {
  zip_NewReader : string → error + list ZipFile;
}.

Record RuntimeConfig := MkRuntimeConfig {
  rc_Image : string;
  rc_Entrypoint : list string;
  rc_Extension : string
}.

Definition runtimes : gmap string RuntimeConfig := list_to_map [
  ("nodejs20", MkRuntimeConfig "node:20-alpine" ["node"] ".js");
  ("python312", MkRuntimeConfig "python:3.12-alpine" ["python"] ".py");
  ("go122", MkRuntimeConfig "golang:1.22-alpine" ["go"; "run"] ".go");
  ("ruby33", MkRuntimeConfig "ruby:3.3-alpine" ["ruby"] ".rb");
  ("java21", MkRuntimeConfig "eclipse-temurin:21-alpine" ["java"; "-jar"] ".jar")].

(** The value a map lookup gives for a key it does not have. *)
Definition no_runtime : RuntimeConfig := MkRuntimeConfig "" [] "".

(** [err == context.DeadlineExceeded] *)
Definition DeadlineExceeded : error := ExternalError "context deadline exceeded".

Definition is_deadline (e : error) : bool :=
  match e with
  | ExternalError msg => bool_decide (msg = error_text DeadlineExceeded)
  | _ => false
  end.

Section function.
Context `{Env, ZipReader}.

(** ** The repository *)

Definition function_Create (f : Function) : M unit :=
  wrap_err (Wrap Internal "failed to create function")
    (db_exec (sql_insert t_functions (fn_ID f) f (λ w,
       user_fk (fn_UserID f) w && int4 (fn_Timeout f) && int4 (fn_MemoryMB f)
       && no_row (λ r, bool_decide (fn_UserID r = fn_UserID f ∧ fn_Name r = fn_Name f)) (t_functions w)))).

(** The condition does not name the user; every error is a NOT_FOUND. *)
Definition function_GetByID (id : uuid) : M Function :=
  wrap_err (Wrap NotFound "function not found")
    (db_query_row (λ w, by_pk (t_functions w) id (λ _, true))).

Definition function_GetByName (userID : uuid) (name : string) : M Function :=
  wrap_err (Wrap NotFound "function not found")
    (db_query_row (λ w, select (λ f, of_user fn_UserID userID f && bool_decide (fn_Name f = name))
                          (t_functions w))).

Definition function_List (userID : uuid) : M (list Function) :=
  l ← wrap_err (Wrap Internal "failed to list functions")
        (db_query (λ w, select (of_user fn_UserID userID) (t_functions w)));
  mret (order_desc fn_CreatedAt l).

Definition function_Delete (id : uuid) : M unit :=
  wrap_err (Wrap Internal "failed to delete function")
    (db_exec (sql_delete t_functions id (λ _, true) (λ _, true)
       (λ w, w <| t_invocations ::= filter (λ kv, iv_FunctionID kv.2 ≠ id) |>))) ;;
  mret ().

Definition CreateInvocation (i : Invocation) : M unit :=
  wrap_err (Wrap Internal "failed to create invocation")
    (db_exec (sql_insert t_invocations (iv_ID i) i (λ w,
       fk_ok (t_functions w) (Some (iv_FunctionID i)) && int4 (iv_DurationMs i) && int4 (iv_StatusCode i)))).

Definition GetInvocations (functionID : uuid) (limit : Z) : M (list Invocation) :=
  wrap_err (Wrap Internal "failed to get invocations") (
    guard_err (limit <? 0) (ExternalError "LIMIT must not be negative") ;;
    l ← db_query (λ w, select (λ i, bool_decide (iv_FunctionID i = functionID)) (t_invocations w));
    mret (take (Z.to_nat limit) (order_desc iv_StartedAt l))).

(** ** The service *)

Context (basePath : string).

Definition code_key (userID id : uuid) : string := uuid_string userID +:+ "/" +:+ uuid_string id +:+ "/code.zip".

Definition authenticated (ctx : Context) : M uuid :=
  let userID := UserIDFromContext ctx in
  guard_err (bool_decide (userID = uuid_Nil)) (New Unauthorized "user not authenticated") ;;
  mret userID.

Definition CreateFunction (ctx : Context) (name runtime handler code : string) : M Function :=
  userID ← authenticated ctx;
  guard_err (negb (bool_decide (is_Some (runtimes !! runtime))))
    (New InvalidInput ("unsupported runtime: " +:+ runtime)) ;;
  id ← uuid_New;
  let codeKey := code_key userID id in
  wrap_err (Wrap Internal "failed to store function code")
    (store_Write basePath "functions" codeKey (MkReader code None)) ;;
  created ← Now;
  updated ← Now;
  let f := MkFunction id userID name runtime handler codeKey 30 128 "ACTIVE" created updated in
  function_Create f ;;
  ignore (Log (fn_UserID f) "function.create" "function" (uuid_string (fn_ID f))
            (Some [("name", VString (fn_Name f)); ("runtime", VString (fn_Runtime f))])) ;;
  mret f.

Definition GetFunction (ctx : Context) (id : uuid) : M Function := function_GetByID id.

Definition ListFunctions (ctx : Context) : M (list Function) :=
  userID ← authenticated ctx;
  function_List userID.

Definition DeleteFunction (ctx : Context) (id : uuid) : M unit :=
  f ← function_GetByID id;
  function_Delete id ;;
  spawn (RemoveCodeTask (fn_CodePath f)) ;;
  ignore (Log (fn_UserID f) "function.delete" "function" (uuid_string (fn_ID f))
            (Some [("name", VString (fn_Name f))])).

(** The body of the goroutine of [DeleteFunction]. *)
Definition remove_code_task (path : string) : M unit :=
  ignore (store_Delete basePath "functions" path).

Definition GetFunctionLogs (ctx : Context) (id : uuid) (limit : Z) : M (list Invocation) :=
  GetInvocations id limit.

(** ** Running a function *)

(** Is the path below the directory? *)
Definition inside (dir path : string) : bool := HasPrefix path (Clean dir +:+ "/").

(** One entry of the archive. *)
Definition extract (tmpDir : string) (file : ZipFile) : M unit :=
  let path := Join [tmpDir; zf_Name file] in
  guard_err (negb (inside tmpDir path)) (Errorf ("invalid file path in zip: " +:+ zf_Name file)) ;;
  if zf_IsDir file then perform (MkdirAll path) ;; mret ()
  else
    perform (MkdirAll (Dir path)) ;;
    perform (CreateFile path) ;;
    modifies w_files <[path := ""]> ;;
    match zf_content file with
    | inl err => fail err
    | inr src =>
        modifies w_files <[path := rd_data src]> ;;
        match rd_err src with
        | Some err => fail err
        | None => mret ()
        end
    end.

(** An error after the directory is made leaves it behind. *)
Definition prepareCode (f : Function) : M string :=
  code ← store_Read basePath "functions" (fn_CodePath f);
  tmpDir ← perform (MkdirTemp ("fn-" +:+ uuid_string (fn_ID f)));
  match zip_NewReader code with
  | inl err => fail err
  | inr files => foreach files (extract tmpDir) ;; mret tmpDir
  end.

(** [os.RemoveAll]: the files below the directory go. *)
Definition remove_all (dir : string) : M unit :=
  perform (RemoveAll dir) ;;
  modifies w_files (filter (λ kv, negb (inside dir kv.1) = true)).

Definition half : float64 := binary_normalize 53 1024 1 (-1) false.

Definition task_options (f : Function) (payload tmpDir : string) : RunTaskOptions :=
  let config := default no_runtime (runtimes !! fn_Runtime f) in
  MkRunTaskOptions (rc_Image config) (rc_Entrypoint config ++ [fn_Handler f])
    ["PAYLOAD=" +:+ payload] (fn_MemoryMB f) half true true (Some 50) "/var/task"
    [tmpDir +:+ ":/var/task:ro"].

(** What the logs of the container give before they end, if there are any. *)
Definition read_task_logs (containerID : string) : M (option string) :=
  r ← attempt (perform (GetInstanceLogs containerID));
  match r with
  | inl _ => mret None
  | inr _ =>
      r ← attempt (perform (ReadLogs containerID));
      mret (Some (match r with inl _ => "" | inr logs => logs end))
  end.

(** The state of the invocation after the task has ended or was given up. *)
Definition finished (i : Invocation) (statusCode : Z) (err : option error) : Invocation :=
  match err with
  | Some e =>
      i <| iv_Status := "FAILED" |>
        <| iv_Logs ::= (λ l, l +:+ if is_deadline e
                                   then "
Error: Execution timed out"
                                   else "
Error: " +:+ error_text e) |>
  | None => i <| iv_Status := if bool_decide (statusCode = 0) then "SUCCESS" else "FAILED" |>
  end.

(** From the container to the recorded result. *)
Definition run_container (f : Function) (i : Invocation) (containerID : string) : M Invocation :=
  waited ← attempt (perform (WaitTask containerID (wrap64 (fn_Timeout f * 1000000000))));
  let '(statusCode, err) := match waited with
                            | inl e => (0, Some e)
                            | inr r => r
                            end in
  logs ← read_task_logs containerID;
  now ← Now;
  let i := i <| iv_Logs ::= (λ l, default l logs) |> <| iv_EndedAt := Some now |>
             <| iv_DurationMs := Z.quot (now - iv_StartedAt i) 1000000 |>
             <| iv_StatusCode := statusCode |> in
  let i := finished i statusCode err in
  ignore (CreateInvocation i) ;;
  ignore (perform (DeleteInstance containerID)) ;;
  mret i.

(** The invocation is returned with the error of a step that failed. *)
Definition record_failure (i : Invocation) (what : string) (err : error) : M Invocation :=
  ignore (CreateInvocation (i <| iv_Status := "FAILED" |> <| iv_Logs := what +:+ error_text err |>)) ;;
  fail err.

Definition runInvocation (f : Function) (i : Invocation) (payload : string) : M Invocation :=
  let i := i <| iv_Status := "RUNNING" |> in
  prepared ← attempt (prepareCode f);
  match prepared with
  | inl err => record_failure i "Error preparing code: " err
  | inr tmpDir =>
      r ← attempt (
        started ← attempt (perform (RunTask (task_options f payload tmpDir)));
        match started with
        | inl err => record_failure i "Error running task: " err
        | inr containerID => run_container f i containerID
        end);
      ignore (remove_all tmpDir) ;;
      match r with
      | inl err => fail err
      | inr i => mret i
      end
  end.

Definition InvokeFunction (ctx : Context) (id : uuid) (payload : string) (async : bool) : M Invocation :=
  f ← function_GetByID id;
  ivID ← uuid_New;
  started ← Now;
  let invocation := MkInvocation ivID (fn_ID f) "PENDING" started None 0 0 "" in
  if async then
    ignore (Log (fn_UserID f) "function.invoke_async" "function" (uuid_string (fn_ID f)) (Some [])) ;;
    spawn (InvocationTask f invocation payload) ;;
    mret invocation
  else
    ignore (Log (fn_UserID f) "function.invoke" "function" (uuid_string (fn_ID f)) (Some [])) ;;
    runInvocation f invocation payload.

End function.

#[global] Typeclasses Opaque CreateFunction DeleteFunction extract prepareCode remove_all read_task_logs
  run_container record_failure runInvocation InvokeFunction remove_code_task.

(** ** What the operations touch *)

Section frames.
Context `{Env, ZipReader} {T : Type} (p : World → T) `{!Indep p w_tick}.

#[export] Instance function_Create_frame f : Indep p t_functions → Frame p (function_Create f).
Proof. intros. unfold function_Create. apply _. Qed.
#[export] Instance function_GetByID_frame i : Frame p (function_GetByID i).
Proof. intros. unfold function_GetByID. apply _. Qed.
#[export] Instance function_GetByName_frame u n : Frame p (function_GetByName u n).
Proof. intros. unfold function_GetByName. apply _. Qed.
#[export] Instance function_List_frame u : Frame p (function_List u).
Proof. intros. unfold function_List. apply _. Qed.
#[export] Instance function_Delete_frame i : Indep p t_functions → Indep p t_invocations → Frame p (function_Delete i).
Proof.
  intros. unfold function_Delete. apply steps_bind; [apply _| |apply _]. apply steps_wrap_err, steps_db_exec; [apply _..|].
  apply sql_delete_same; [apply _|]. intros w. apply indep.
Qed.
#[export] Instance CreateInvocation_frame i : Indep p t_invocations → Frame p (CreateInvocation i).
Proof. intros. unfold CreateInvocation. apply _. Qed.
#[export] Instance GetInvocations_frame i l : Frame p (GetInvocations i l).
Proof. intros. unfold GetInvocations. apply _. Qed.
#[export] Instance authenticated_frame c : Frame p (authenticated c).
Proof. intros. unfold authenticated. apply _. Qed.
#[export] Instance CreateFunction_frame b c n r h x : Indep p t_functions → Indep p w_calls → Indep p w_files → Indep p t_audit → Frame p (CreateFunction b c n r h x).
Proof. intros. unfold CreateFunction. apply _. Qed.
#[export] Instance DeleteFunction_frame c i : Indep p t_functions → Indep p t_invocations → Indep p w_tasks → Indep p t_audit → Frame p (DeleteFunction c i).
Proof. intros. unfold DeleteFunction. apply _. Qed.
#[export] Instance remove_code_task_frame b s : Indep p w_calls → Indep p w_files → Frame p (remove_code_task b s).
Proof. intros. unfold remove_code_task. apply _. Qed.
#[export] Instance extract_frame d f : Indep p w_calls → Indep p w_files → Frame p (extract d f).
Proof. intros. unfold extract. apply _. Qed.
#[export] Instance prepareCode_frame b f : Indep p w_calls → Indep p w_files → Frame p (prepareCode b f).
Proof. intros. unfold prepareCode. apply _. Qed.
#[export] Instance remove_all_frame d : Indep p w_calls → Indep p w_files → Frame p (remove_all d).
Proof. intros. unfold remove_all. apply _. Qed.
#[export] Instance read_task_logs_frame i : Indep p w_calls → Frame p (read_task_logs i).
Proof. intros. unfold read_task_logs. apply _. Qed.
#[export] Instance run_container_frame f i c : Indep p w_calls → Indep p t_invocations → Frame p (run_container f i c).
Proof. intros. unfold run_container. apply _. Qed.
#[export] Instance record_failure_frame i x e : Indep p t_invocations → Frame p (record_failure i x e).
Proof. intros. unfold record_failure. apply _. Qed.
#[export] Instance runInvocation_frame b f i x : Indep p w_calls → Indep p w_files → Indep p t_invocations → Frame p (runInvocation b f i x).
Proof. intros. unfold runInvocation. apply _. Qed.
#[export] Instance InvokeFunction_frame b c i x a : Indep p w_calls → Indep p w_files → Indep p t_invocations → Indep p w_tasks → Indep p t_audit → Frame p (InvokeFunction b c i x a).
Proof. intros. unfold InvokeFunction. apply _. Qed.
End frames.

Section no_panic.
Context `{Env, ZipReader}.

#[export] Instance function_Create_no_panic f : NoPanic (function_Create f).
Proof. unfold function_Create. apply _. Qed.
#[export] Instance function_GetByID_no_panic i : NoPanic (function_GetByID i).
Proof. unfold function_GetByID. apply _. Qed.
#[export] Instance function_GetByName_no_panic u n : NoPanic (function_GetByName u n).
Proof. unfold function_GetByName. apply _. Qed.
#[export] Instance function_List_no_panic u : NoPanic (function_List u).
Proof. unfold function_List. apply _. Qed.
#[export] Instance function_Delete_no_panic i : NoPanic (function_Delete i).
Proof. unfold function_Delete. apply _. Qed.
#[export] Instance CreateInvocation_no_panic i : NoPanic (CreateInvocation i).
Proof. unfold CreateInvocation. apply _. Qed.
#[export] Instance GetInvocations_no_panic i l : NoPanic (GetInvocations i l).
Proof. unfold GetInvocations. apply _. Qed.
#[export] Instance authenticated_no_panic c : NoPanic (authenticated c).
Proof. unfold authenticated. apply _. Qed.
#[export] Instance CreateFunction_no_panic b c n r h x : NoPanic (CreateFunction b c n r h x).
Proof. unfold CreateFunction. apply _. Qed.
#[export] Instance DeleteFunction_no_panic c i : NoPanic (DeleteFunction c i).
Proof. unfold DeleteFunction. apply _. Qed.
#[export] Instance remove_code_task_no_panic b s : NoPanic (remove_code_task b s).
Proof. unfold remove_code_task. apply _. Qed.
#[export] Instance extract_no_panic d f : NoPanic (extract d f).
Proof. unfold extract. apply _. Qed.
#[export] Instance prepareCode_no_panic b f : NoPanic (prepareCode b f).
Proof. unfold prepareCode. apply _. Qed.
#[export] Instance remove_all_no_panic d : NoPanic (remove_all d).
Proof. unfold remove_all. apply _. Qed.
#[export] Instance read_task_logs_no_panic i : NoPanic (read_task_logs i).
Proof. unfold read_task_logs. apply _. Qed.
#[export] Instance run_container_no_panic f i c : NoPanic (run_container f i c).
Proof. unfold run_container. apply _. Qed.
#[export] Instance record_failure_no_panic i x e : NoPanic (record_failure i x e).
Proof. unfold record_failure. apply _. Qed.
#[export] Instance runInvocation_no_panic b f i x : NoPanic (runInvocation b f i x).
Proof. unfold runInvocation. apply _. Qed.
#[export] Instance InvokeFunction_no_panic b c i x a : NoPanic (InvokeFunction b c i x a).
Proof. unfold InvokeFunction. apply _. Qed.
End no_panic.
