(* ===== verification/Stack.v ===== *)
(** * [services/stack.go] and [repositories/postgres/stack_repo.go]: stacks

    A template names resources of four types; the goroutine of a new stack (a
    [ProcessStackTask]) creates them through the services of the other components and rolls
    back when one fails.  The YAML parser and the encoding of the parameters as JSON are
    parameters. *)
From S2P Require Import Prelude GoStd Encoding Net Errors Domain DomainData World Logic Sql InstanceRepo.
From S2P Require Import InstanceService VolumeService NetworkService Snapshot.

(** A value of a property ([interface{}]): what the YAML parser gives, and the identifiers
    that references are replaced with. *)
Inductive yaml_value :=
  | YString (s : string)
  | YInt (z : Z)
  | YMap (m : list (string * yaml_value))
  | YUUID (u : uuid)
  | YOther.

Record ResourceDefinition := MkResourceDefinition {
  rd_Type : string;
  rd_Properties : gmap string yaml_value
}.

Record Template := MkTemplate { tpl_Resources : gmap string ResourceDefinition }.

Class Formats := {
  yaml_Unmarshal : string → error + Template;
  (** [json.Marshal] of the parameters, read back from the column of type JSONB *)
  json_params : gmap string string → string;
}.

Section stack.
Context `{Env, Formats}.

(** ** The repository *)

Definition stack_Create (s : Stack) : M unit :=
  db_exec (sql_insert t_stacks (stk_ID s) (MkStackRow (s <| stk_Resources := [] |>) None) (λ w,
    user_fk (stk_UserID s) w
    && no_row (λ r, bool_decide (stk_UserID (row_stack r) = stk_UserID s ∧ stk_Name (row_stack r) = stk_Name s))
         (t_stacks w))).

(** A NULL reason cannot be scanned into a string. *)
Definition scan_stack (r : StackRow) : M Stack :=
  match row_status_reason r with
  | Some reason => mret (row_stack r <| stk_StatusReason := reason |>)
  | None => fail (ExternalError "cannot scan NULL into *string")
  end.

Definition stack_ListResources (stackID : uuid) : M (list StackResource) :=
  db_query (λ w, select (λ r, bool_decide (sr_StackID r = stackID)) (t_stack_resources w)).

(** The condition does not name the user. *)
Definition stack_GetByID (id : uuid) : M Stack :=
  row ← db_query_row (λ w, by_pk (t_stacks w) id (λ _, true));
  s ← scan_stack row;
  resources ← attempt (stack_ListResources id);
  mret (match resources with
        | inl _ => s
        | inr l => s <| stk_Resources := l |>
        end).

Definition stack_GetByName (userID : uuid) (name : string) : M Stack :=
  row ← db_query_row (λ w, select (λ r, of_user stk_UserID userID (row_stack r)
                                        && bool_decide (stk_Name (row_stack r) = name)) (t_stacks w));
  scan_stack row.

Definition stack_ListByUserID (userID : uuid) : M (list Stack) :=
  rows ← db_query (λ w, select (λ r, of_user stk_UserID userID (row_stack r)) (t_stacks w));
  foldM (λ acc r, s ← scan_stack r; mret (acc ++ [s])) []
    (order_desc (λ r, stk_CreatedAt (row_stack r)) rows).

Definition stack_Update (s : Stack) : M unit :=
  db_exec (sql_update t_stacks (stk_ID s) (λ _, true) (λ _ r,
    Some (r <| row_stack ::= (λ x, x <| stk_Status := stk_Status s |> <| stk_UpdatedAt := stk_UpdatedAt s |>) |>
            <| row_status_reason := Some (stk_StatusReason s) |>))) ;;
  mret ().

Definition stack_Delete (id : uuid) : M unit :=
  db_exec (sql_delete t_stacks id (λ _, true) (λ _, true)
             (λ w, w <| t_stack_resources ::= filter (λ kv, sr_StackID kv.2 ≠ id) |>)) ;;
  mret ().

Definition AddResource (res : StackResource) : M unit :=
  db_exec (sql_insert t_stack_resources (sr_ID res) res (λ w,
    fk_ok (t_stacks w) (Some (sr_StackID res))
    && no_row (λ r, bool_decide (sr_StackID r = sr_StackID res ∧ sr_LogicalID r = sr_LogicalID res))
         (t_stack_resources w))).

Definition DeleteResources (stackID : uuid) : M unit :=
  db_exec (sql_delete_where t_stack_resources (λ r, bool_decide (sr_StackID r = stackID))) ;;
  mret ().

(** ** The service *)

Context (defaultCIDR : string).

Definition CreateStack (ctx : Context) (name templateStr : string) (parameters : gmap string string)
    : M Stack :=
  id ← uuid_New;
  created ← Now;
  updated ← Now;
  let stack := MkStack id (UserIDFromContext ctx) name templateStr (json_params parameters)
                 StackStatusCreateInProgress "" [] created updated in
  stack_Create stack ;;
  spawn (ProcessStackTask stack) ;;
  mret stack.

Definition updateStackStatus (stack : Stack) (status : StackStatus) (reason : string) : M unit :=
  now ← Now;
  ignore (stack_Update (stack <| stk_Status := status |> <| stk_StatusReason := reason |>
                              <| stk_UpdatedAt := now |>)).

(** [props[key].(string)], the empty string when it is no string; the same for the other
    types. *)
Definition prop_string (props : gmap string yaml_value) (key : string) : string :=
  match props !! key with Some (YString s) => s | _ => "" end.
Definition prop_int (props : gmap string yaml_value) (key : string) : Z :=
  match props !! key with Some (YInt z) => z | _ => 0 end.
Definition prop_uuid (props : gmap string yaml_value) (key : string) : option uuid :=
  match props !! key with Some (YUUID u) => Some u | _ => None end.

Fixpoint assoc (key : string) (l : list (string * yaml_value)) : option yaml_value :=
  match l with
  | [] => None
  | (k, v) :: l' => if bool_decide (k = key) then Some v else assoc key l'
  end.

Definition resolve_value (refs : gmap string uuid) (v : yaml_value) : yaml_value :=
  match v with
  | YMap m =>
      match assoc "Ref" m with
      | Some (YString refID) =>
          match refs !! refID with
          | Some physicalID => YUUID physicalID
          | None => v
          end
      | _ => v
      end
  | _ => v
  end.

Definition resolveRefs (props : gmap string yaml_value) (refs : gmap string uuid)
    : gmap string yaml_value := resolve_value refs <$> props.

(** The name of a property, or one made from the logical name. *)
Definition resource_name (stackID : uuid) (logicalID : string) (props : gmap string yaml_value) : string :=
  let name := prop_string props "Name" in
  if bool_decide (name = "") then logicalID +:+ "-" +:+ str_prefix 8 (uuid_string stackID) else name.

Definition add_resource (stackID : uuid) (logicalID : string) (physicalID : uuid) (type status : string)
    : M unit :=
  id ← uuid_New;
  created ← Now;
  ignore (AddResource (MkStackResource id stackID logicalID (uuid_string physicalID) type status created)).

Definition stack_createVPC (ctx : Context) (stackID : uuid) (logicalID : string)
    (props : gmap string yaml_value) : M uuid :=
  vpc ← CreateVPC defaultCIDR ctx (resource_name stackID logicalID props) (prop_string props "CIDRBlock");
  add_resource stackID logicalID (vpc_ID vpc) "VPC" "CREATE_COMPLETE" ;;
  mret (vpc_ID vpc).

Definition stack_createVolume (ctx : Context) (stackID : uuid) (logicalID : string)
    (props : gmap string yaml_value) : M uuid :=
  let size := if prop_int props "Size" =? 0 then 10 else prop_int props "Size" in
  vol ← CreateVolume ctx (resource_name stackID logicalID props) size;
  add_resource stackID logicalID (vol_ID vol) "Volume" "CREATE_COMPLETE" ;;
  mret (vol_ID vol).

Definition stack_createSnapshot (ctx : Context) (stackID : uuid) (logicalID : string)
    (props : gmap string yaml_value) : M uuid :=
  volumeID ← from_opt (Errorf "VolumeID is required for Snapshot") (prop_uuid props "VolumeID");
  snap ← CreateSnapshot ctx volumeID (resource_name stackID logicalID props);
  add_resource stackID logicalID (snap_ID snap) "Snapshot" "CREATE_IN_PROGRESS" ;;
  mret (snap_ID snap).

Definition stack_createInstance (ctx : Context) (stackID : uuid) (logicalID : string)
    (props : gmap string yaml_value) : M uuid :=
  let vpcID := match prop_uuid props "VpcID" with
               | Some u => if bool_decide (u = uuid_Nil) then None else Some u
               | None => None
               end in
  inst ← LaunchInstance ctx (resource_name stackID logicalID props) (prop_string props "Image") "80"
           vpcID None [];
  add_resource stackID logicalID (inst_ID inst) "Instance" "CREATE_COMPLETE" ;;
  mret (inst_ID inst).

(** [for logicalID, res := range t.Resources]: the runtime picks the order of each loop.
    The error of the loop is the reason of the rollback. *)
Definition create_pass (t : Template) (type : string)
    (create : string → gmap string yaml_value → M uuid) (refs : gmap string uuid)
    (resolve : bool) (record : bool) : M (gmap string uuid) :=
  tick ← next_tick;
  foldM (λ (refs : gmap string uuid) '(logicalID, res),
    if bool_decide (rd_Type res = type) then
      let props := if resolve then resolveRefs (rd_Properties res) refs else rd_Properties res in
      id ← wrap_err (Errorf_w ("Failed to create " +:+ type +:+ " " +:+ logicalID)) (create logicalID props);
      mret (if record then <[logicalID := id]> refs else refs)
    else mret refs)
    refs (env_order tick (string * ResourceDefinition) (map_to_list (tpl_Resources t))).

Definition create_resources (ctx : Context) (stackID : uuid) (t : Template) : M unit :=
  refs ← create_pass t "VPC" (stack_createVPC ctx stackID) ∅ false true;
  refs ← create_pass t "Volume" (stack_createVolume ctx stackID) refs false true;
  refs ← create_pass t "Instance" (stack_createInstance ctx stackID) refs true true;
  create_pass t "Snapshot" (stack_createSnapshot ctx stackID) refs true false ;;
  mret ().

Definition deletePhysicalResource (ctx : Context) (resourceType physicalID : string) : M unit :=
  if bool_decide (resourceType = "Instance") then ignore (TerminateInstance ctx physicalID)
  else if bool_decide (resourceType = "VPC") then ignore (DeleteVPC ctx physicalID)
  else if bool_decide (resourceType = "Volume") then ignore (DeleteVolume ctx physicalID)
  else if bool_decide (resourceType = "Snapshot") then
    match uuid_parse physicalID with
    | Some physID => ignore (DeleteSnapshot ctx physID)
    | None => mret ()
    end
  else mret ().

(** From the last row of the query to the first. *)
Definition delete_resources (ctx : Context) (resources : list StackResource) : M unit :=
  foreach (rev resources) (λ res, deletePhysicalResource ctx (sr_ResourceType res) (sr_PhysicalID res)).

Definition rollbackStack (ctx : Context) (stackID : uuid) : M unit :=
  resources ← stack_ListResources stackID;
  delete_resources ctx resources ;;
  DeleteResources stackID.

Definition startRollback (ctx : Context) (stack : Stack) (reason : string) : M unit :=
  updateStackStatus stack StackStatusRollbackInProgress reason ;;
  r ← attempt (rollbackStack ctx (stk_ID stack));
  match r with
  | inl err => updateStackStatus stack StackStatusRollbackFailed ("Rollback failed: " +:+ error_text err)
  | inr _ => updateStackStatus stack StackStatusRollbackComplete reason
  end.

Definition processStack (stack : Stack) : M unit :=
  let ctx := WithUserID None (stk_UserID stack) in
  match yaml_Unmarshal (stk_Template stack) with
  | inl _ => updateStackStatus stack StackStatusCreateFailed "Invalid template YAML"
  | inr t =>
      r ← attempt (create_resources ctx (stk_ID stack) t);
      match r with
      | inl err => startRollback ctx stack (error_text err)
      | inr _ => updateStackStatus stack StackStatusCreateComplete ""
      end
  end.

Definition GetStack (ctx : Context) (id : uuid) : M Stack := stack_GetByID id.

Definition ListStacks (ctx : Context) : M (list Stack) := stack_ListByUserID (UserIDFromContext ctx).

Definition DeleteStack (ctx : Context) (id : uuid) : M unit :=
  stack ← stack_GetByID id;
  spawn (DeleteStackTask id (stk_UserID stack)).

(** The body of its goroutine, in the name of the owner of the stack: an error of the
    listing leaves no resource to delete. *)
Definition delete_stack_task (id userID : uuid) : M unit :=
  let ctx := WithUserID None userID in
  r ← attempt (stack_ListResources id);
  delete_resources ctx (match r with inl _ => [] | inr l => l end) ;;
  ignore (stack_Delete id).

Definition ValidateTemplate (template : string) : bool * list string :=
  match yaml_Unmarshal template with
  | inl err => (false, ["YAML parse error: " +:+ error_text err])
  | inr t =>
      if bool_decide (tpl_Resources t = ∅) then
        (false, ["Template must contain at least one resource"])
      else (true, [])
  end.

End stack.

#[global] Typeclasses Opaque CreateStack create_resources deletePhysicalResource delete_resources
  rollbackStack startRollback processStack DeleteStack delete_stack_task stack_createVPC
  stack_createVolume stack_createSnapshot stack_createInstance create_pass.

(** ** What the operations touch *)

Section frames.
Context `{Env, Formats} {T : Type} (p : World → T) `{!Indep p w_tick}.

#[export] Instance stack_Create_frame s : Indep p t_stacks → Frame p (stack_Create s).
Proof. intros. unfold stack_Create. apply _. Qed.
#[export] Instance scan_stack_frame r : Frame p (scan_stack r).
Proof. intros. unfold scan_stack. apply _. Qed.
#[export] Instance stack_ListResources_frame i : Frame p (stack_ListResources i).
Proof. intros. unfold stack_ListResources. apply _. Qed.
#[export] Instance stack_GetByID_frame i : Frame p (stack_GetByID i).
Proof. intros. unfold stack_GetByID. apply _. Qed.
#[export] Instance stack_ListByUserID_frame i : Frame p (stack_ListByUserID i).
Proof. intros. unfold stack_ListByUserID. apply _. Qed.
#[export] Instance stack_Update_frame s : Indep p t_stacks → Frame p (stack_Update s).
Proof. intros. unfold stack_Update. apply _. Qed.
#[export] Instance stack_Delete_frame i : Indep p t_stacks → Indep p t_stack_resources → Frame p (stack_Delete i).
Proof.
  intros. unfold stack_Delete. apply steps_bind; [apply _| |apply _]. apply steps_db_exec; [apply _..|].
  apply sql_delete_same; [apply _|]. intros w. apply indep.
Qed.
#[export] Instance AddResource_frame r : Indep p t_stack_resources → Frame p (AddResource r).
Proof. intros. unfold AddResource. apply _. Qed.
#[export] Instance DeleteResources_frame i : Indep p t_stack_resources → Frame p (DeleteResources i).
Proof. intros. unfold DeleteResources. apply _. Qed.
#[export] Instance CreateStack_frame c n x ps : Indep p t_stacks → Indep p w_tasks → Frame p (CreateStack c n x ps).
Proof. intros. unfold CreateStack. apply _. Qed.
#[export] Instance updateStackStatus_frame s st r : Indep p t_stacks → Frame p (updateStackStatus s st r).
Proof. intros. unfold updateStackStatus. apply _. Qed.
#[export] Instance add_resource_frame s l i t st : Indep p t_stack_resources → Frame p (add_resource s l i t st).
Proof. intros. unfold add_resource. apply _. Qed.
#[export] Instance stack_createVPC_frame d c s l ps : Indep p w_calls → Indep p t_vpcs → Indep p t_stack_resources → Indep p t_audit → Frame p (stack_createVPC d c s l ps).
Proof. intros. unfold stack_createVPC. apply _. Qed.
#[export] Instance stack_createVolume_frame c s l ps : Indep p w_calls → Indep p t_volumes → Indep p t_stack_resources → Indep p t_events → Indep p t_audit → Frame p (stack_createVolume c s l ps).
Proof. intros. unfold stack_createVolume. apply _. Qed.
#[export] Instance stack_createSnapshot_frame c s l ps : Indep p w_tasks → Indep p t_snapshots → Indep p t_stack_resources → Indep p t_events → Indep p t_audit → Frame p (stack_createSnapshot c s l ps).
Proof. intros. unfold stack_createSnapshot. apply _. Qed.
#[export] Instance stack_createInstance_frame c s l ps : Indep p w_calls → Indep p t_instances → Indep p t_volumes → Indep p t_stack_resources → Indep p t_events → Indep p t_audit → Frame p (stack_createInstance c s l ps).
Proof. intros. unfold stack_createInstance. apply _. Qed.
#[export] Instance create_pass_frame t ty (create : string → gmap string yaml_value → M uuid) refs b1 b2 :
  (∀ l ps, Frame p (create l ps)) → Frame p (create_pass t ty create refs b1 b2).
Proof. intros. unfold create_pass. apply _. Qed.
#[export] Instance create_resources_frame d c s t : Indep p w_calls → Indep p t_instances → Indep p t_volumes → Indep p t_vpcs → Indep p t_snapshots → Indep p t_stack_resources → Indep p t_events → Indep p t_audit → Indep p w_tasks → Frame p (create_resources d c s t).
Proof. intros. unfold create_resources. apply _. Qed.
#[export] Instance deletePhysicalResource_frame c t i : Indep p w_calls → Indep p t_instances → Indep p t_volumes → Indep p t_vpcs → Indep p t_snapshots → Indep p t_lb_targets → Indep p t_group_instances → Indep p t_containers → Indep p t_sg_instances → Indep p t_subnets → Indep p t_security_rules → Indep p t_security_groups → Indep p t_databases → Indep p t_events → Indep p t_audit → Frame p (deletePhysicalResource c t i).
Proof. intros. unfold deletePhysicalResource. apply _. Qed.
#[export] Instance delete_resources_frame c l : Indep p w_calls → Indep p t_instances → Indep p t_volumes → Indep p t_vpcs → Indep p t_snapshots → Indep p t_lb_targets → Indep p t_group_instances → Indep p t_containers → Indep p t_sg_instances → Indep p t_subnets → Indep p t_security_rules → Indep p t_security_groups → Indep p t_databases → Indep p t_events → Indep p t_audit → Frame p (delete_resources c l).
Proof. intros. unfold delete_resources. apply _. Qed.
#[export] Instance rollbackStack_frame c i : Indep p w_calls → Indep p t_instances → Indep p t_volumes → Indep p t_vpcs → Indep p t_snapshots → Indep p t_lb_targets → Indep p t_group_instances → Indep p t_containers → Indep p t_sg_instances → Indep p t_subnets → Indep p t_security_rules → Indep p t_security_groups → Indep p t_databases → Indep p t_events → Indep p t_audit → Indep p t_stack_resources → Frame p (rollbackStack c i).
Proof. intros. unfold rollbackStack. apply _. Qed.
#[export] Instance startRollback_frame c s r : Indep p w_calls → Indep p t_instances → Indep p t_volumes → Indep p t_vpcs → Indep p t_snapshots → Indep p t_lb_targets → Indep p t_group_instances → Indep p t_containers → Indep p t_sg_instances → Indep p t_subnets → Indep p t_security_rules → Indep p t_security_groups → Indep p t_databases → Indep p t_events → Indep p t_audit → Indep p t_stack_resources → Indep p t_stacks → Frame p (startRollback c s r).
Proof. intros. unfold startRollback. apply _. Qed.
#[export] Instance processStack_frame d s : Indep p w_calls → Indep p t_instances → Indep p t_volumes → Indep p t_vpcs → Indep p t_snapshots → Indep p t_lb_targets → Indep p t_group_instances → Indep p t_containers → Indep p t_sg_instances → Indep p t_subnets → Indep p t_security_rules → Indep p t_security_groups → Indep p t_databases → Indep p t_events → Indep p t_audit → Indep p t_stack_resources → Indep p t_stacks → Indep p w_tasks → Frame p (processStack d s).
Proof. intros. unfold processStack. apply _. Qed.
#[export] Instance DeleteStack_frame c i : Indep p w_tasks → Frame p (DeleteStack c i).
Proof. intros. unfold DeleteStack. apply _. Qed.
#[export] Instance delete_stack_task_frame i u : Indep p w_calls → Indep p t_instances → Indep p t_volumes → Indep p t_vpcs → Indep p t_snapshots → Indep p t_lb_targets → Indep p t_group_instances → Indep p t_containers → Indep p t_sg_instances → Indep p t_subnets → Indep p t_security_rules → Indep p t_security_groups → Indep p t_databases → Indep p t_events → Indep p t_audit → Indep p t_stack_resources → Indep p t_stacks → Frame p (delete_stack_task i u).
Proof. intros. unfold delete_stack_task. apply _. Qed.
End frames.

Section no_panic.
Context `{Env, Formats}.

#[export] Instance stack_Create_no_panic s : NoPanic (stack_Create s).
Proof. unfold stack_Create. apply _. Qed.
#[export] Instance scan_stack_no_panic r : NoPanic (scan_stack r).
Proof. unfold scan_stack. apply _. Qed.
#[export] Instance stack_ListResources_no_panic i : NoPanic (stack_ListResources i).
Proof. unfold stack_ListResources. apply _. Qed.
#[export] Instance stack_GetByID_no_panic i : NoPanic (stack_GetByID i).
Proof. unfold stack_GetByID. apply _. Qed.
#[export] Instance stack_ListByUserID_no_panic i : NoPanic (stack_ListByUserID i).
Proof. unfold stack_ListByUserID. apply _. Qed.
#[export] Instance stack_Update_no_panic s : NoPanic (stack_Update s).
Proof. unfold stack_Update. apply _. Qed.
#[export] Instance stack_Delete_no_panic i : NoPanic (stack_Delete i).
Proof. unfold stack_Delete. apply _. Qed.
#[export] Instance AddResource_no_panic r : NoPanic (AddResource r).
Proof. unfold AddResource. apply _. Qed.
#[export] Instance DeleteResources_no_panic i : NoPanic (DeleteResources i).
Proof. unfold DeleteResources. apply _. Qed.
#[export] Instance CreateStack_no_panic c n x ps : NoPanic (CreateStack c n x ps).
Proof. unfold CreateStack. apply _. Qed.
#[export] Instance updateStackStatus_no_panic s st r : NoPanic (updateStackStatus s st r).
Proof. unfold updateStackStatus. apply _. Qed.
#[export] Instance add_resource_no_panic s l i t st : NoPanic (add_resource s l i t st).
Proof. unfold add_resource. apply _. Qed.
#[export] Instance stack_createVPC_no_panic d c s l ps : NoPanic (stack_createVPC d c s l ps).
Proof. unfold stack_createVPC. apply _. Qed.
#[export] Instance stack_createVolume_no_panic c s l ps : NoPanic (stack_createVolume c s l ps).
Proof. unfold stack_createVolume. apply _. Qed.
#[export] Instance stack_createSnapshot_no_panic c s l ps : NoPanic (stack_createSnapshot c s l ps).
Proof. unfold stack_createSnapshot. apply _. Qed.
#[export] Instance deletePhysicalResource_no_panic c t i : NoPanic (deletePhysicalResource c t i).
Proof. unfold deletePhysicalResource. apply _. Qed.
#[export] Instance delete_resources_no_panic c l : NoPanic (delete_resources c l).
Proof. unfold delete_resources. apply _. Qed.
#[export] Instance rollbackStack_no_panic c i : NoPanic (rollbackStack c i).
Proof. unfold rollbackStack. apply _. Qed.
#[export] Instance startRollback_no_panic c s r : NoPanic (startRollback c s r).
Proof. unfold startRollback. apply _. Qed.
#[export] Instance DeleteStack_no_panic c i : NoPanic (DeleteStack c i).
Proof. unfold DeleteStack. apply _. Qed.
#[export] Instance delete_stack_task_no_panic i u : NoPanic (delete_stack_task i u).
Proof. unfold delete_stack_task. apply _. Qed.
End no_panic.
