(* ===== verification/Dashboard.v ===== *)
(** * [services/dashboard.go], [services/event.go], [services/audit.go] and the listings of
    [event_repo.go] and [audit_repo.go]: what a user is shown of his resources; and [services/health.go] *)
From S2P Require Import Prelude GoStd Encoding Net Errors Domain DomainData World Logic Sql InstanceRepo.
From S2P Require Import NetworkRepo.

Record ResourceSummary := MkResourceSummary {
  TotalInstances : Z;
  RunningInstances : Z;
  StoppedInstances : Z;
  TotalVolumes : Z;
  AttachedVolumes : Z;
  TotalVPCs : Z;
  TotalStorageMB : Z
}.

#[export] Instance eta_ResourceSummary : Eta ResourceSummary := fun x =>
  MkResourceSummary (TotalInstances x) (RunningInstances x) (StoppedInstances x) (TotalVolumes x)
    (AttachedVolumes x) (TotalVPCs x) (TotalStorageMB x).

(** The histories of the CPU and the memory are always empty. *)
Record DashboardStats := MkDashboardStats {
  Summary : ResourceSummary;
  RecentEvents : list Event
}.

Section dashboard.
Context `{Env}.

(** ** Events and audit logs *)

(** PostgreSQL refuses a negative LIMIT. *)
Definition limited {A} (limit : Z) (created : A → Z) (rows : World → list A) : M (list A) :=
  guard_err (limit <? 0) constraint_violation ;;
  l ← db_query rows;
  mret (take (Z.to_nat limit) (order_desc created l)).

Definition event_List (ctx : Context) (limit : Z) : M (list Event) :=
  limited limit ev_CreatedAt
    (λ w, filter (λ e, of_user ev_UserID (UserIDFromContext ctx) e = true) (t_events w)).

Definition ListEvents (ctx : Context) (limit : Z) : M (list Event) :=
  event_List ctx (if limit <=? 0 then 50 else limit).

Definition audit_ListByUserID (userID : uuid) (limit : Z) : M (list AuditLog) :=
  wrap_err (Wrap Internal "failed to list audit logs")
    (limited limit al_CreatedAt (λ w, filter (λ l, of_user al_UserID userID l = true) (t_audit w))).

Definition ListLogs (userID : uuid) (limit : Z) : M (list AuditLog) :=
  audit_ListByUserID userID (if limit <=? 0 then 50 else limit).

(** ** The dashboard *)

(** The loop over the instances and the loop over the volumes. *)
Definition count_instance (s : ResourceSummary) (i : Instance) : ResourceSummary :=
  match inst_Status i with
  | StatusRunning => s <| RunningInstances ::= (λ n, int_add n 1) |>
  | StatusStopped => s <| StoppedInstances ::= (λ n, int_add n 1) |>
  | _ => s
  end.

Definition count_volume (s : ResourceSummary) (v : Volume) : ResourceSummary :=
  let s1 := s <| TotalStorageMB ::= (λ n, int_add n (wrap64 (vol_SizeGB v * 1024))) |> in
  match vol_InstanceID v with
  | Some _ => s1 <| AttachedVolumes ::= (λ n, int_add n 1) |>
  | None => s1
  end.

Definition GetSummary (ctx : Context) : M ResourceSummary :=
  instances ← instance_List ctx;
  let s1 := MkResourceSummary (Z.of_nat (length instances)) 0 0 0 0 0 0 in
  let s2 := foldl count_instance s1 instances in
  volumes ← volume_List ctx;
  let s3 := foldl count_volume (s2 <| TotalVolumes := Z.of_nat (length volumes) |>) volumes in
  vpcs ← vpc_List ctx;
  mret (s3 <| TotalVPCs := Z.of_nat (length vpcs) |>).

Definition GetRecentEvents (ctx : Context) (limit : Z) : M (list Event) := event_List ctx limit.

Definition GetStats (ctx : Context) : M DashboardStats :=
  summary ← GetSummary ctx;
  events ← GetRecentEvents ctx 10;
  mret (MkDashboardStats summary events).

End dashboard.

(** ** The counts are those of the rows of the user *)

(** How many rows of a table belong to the user and satisfy [P], and a sum over them. *)
Definition rows_of {A} (t : gmap uuid A) (owner : A → uuid) (u : uuid) : list A :=
  select (of_user owner u) t.

Definition count_of {A} (P : A → bool) (l : list A) : Z := Z.of_nat (length (filter (λ r, P r = true) l)).
Definition sum_of {A} (f : A → Z) (l : list A) : Z := foldr (λ r n, f r + n) 0 l.

#[export] Instance count_of_proper {A} (P : A → bool) : Proper ((≡ₚ) ==> eq) (count_of P).
Proof. intros l l' Hp. unfold count_of. by rewrite Hp. Qed.
#[export] Instance sum_of_proper {A} (f : A → Z) : Proper ((≡ₚ) ==> eq) (sum_of f).
Proof. intros l l' Hp. unfold sum_of. induction Hp; cbn; lia. Qed.

Lemma count_of_cons {A} (P : A → bool) r l : count_of P (r :: l) = (if P r then 1 else 0) + count_of P l.
Proof. unfold count_of. rewrite filter_cons. destruct (P r); case_decide; try done; cbn [length]; lia. Qed.
Lemma count_of_bounds {A} (P : A → bool) l : 0 ≤ count_of P l ≤ Z.of_nat (length l).
Proof. unfold count_of. pose proof (length_filter (λ r, P r = true) l). lia. Qed.

Lemma wrap64_add_l a b : wrap64 (wrap64 a + b) = wrap64 (a + b).
Proof.
  unfold wrap64. f_equal.
  replace ((a + 2 ^ 63) `mod` 2 ^ 64 - 2 ^ 63 + b + 2 ^ 63) with ((a + 2 ^ 63) `mod` 2 ^ 64 + b) by lia.
  rewrite Zplus_mod_idemp_l. f_equal. lia.
Qed.
Lemma wrap64_add_r a b : wrap64 (a + wrap64 b) = wrap64 (a + b).
Proof. by rewrite Z.add_comm, wrap64_add_l, Z.add_comm. Qed.

Definition is_running (i : Instance) : bool :=
  match inst_Status i with StatusRunning => true | _ => false end.
Definition is_stopped (i : Instance) : bool :=
  match inst_Status i with StatusStopped => true | _ => false end.
Definition is_attached (v : Volume) : bool :=
  match vol_InstanceID v with Some _ => true | None => false end.

Ltac wrapped := unfold int_add; rewrite ?wrap64_add_r, ?wrap64_add_l; f_equal; lia.

Lemma count_instance_fold l s :
  int64_range (RunningInstances s) → int64_range (StoppedInstances s) →
  foldl count_instance s l
  = s <| RunningInstances := wrap64 (RunningInstances s + count_of is_running l) |>
      <| StoppedInstances := wrap64 (StoppedInstances s + count_of is_stopped l) |>.
Proof.
  revert s. induction l as [|i l IH]; intros s Hr Hs.
  { change (count_of is_running []) with 0. change (count_of is_stopped []) with 0.
    rewrite !Z.add_0_r, !wrap64_id by done. by destruct s. }
  cbn [foldl]. rewrite !count_of_cons. unfold count_instance at 2, is_running at 1, is_stopped at 1.
  rewrite IH by (destruct (inst_Status i); cbn; try apply wrap64_range; done).
  destruct (inst_Status i); unfold modify; cbn; destruct s; cbn in *; f_equal; wrapped.
Qed.

Lemma count_volume_fold l s :
  int64_range (TotalStorageMB s) → int64_range (AttachedVolumes s) →
  foldl count_volume s l
  = s <| TotalStorageMB := wrap64 (TotalStorageMB s + sum_of (λ v, vol_SizeGB v * 1024) l) |>
      <| AttachedVolumes := wrap64 (AttachedVolumes s + count_of is_attached l) |>.
Proof.
  revert s. induction l as [|v l IH]; intros s Hr Hs.
  { change (sum_of _ []) with 0. change (count_of is_attached []) with 0.
    rewrite !Z.add_0_r, !wrap64_id by done. by destruct s. }
  cbn [foldl]. rewrite count_of_cons. cbn [sum_of foldr]. fold (sum_of (λ v, vol_SizeGB v * 1024) l).
  unfold count_volume at 2, is_attached at 1.
  rewrite IH by (destruct (vol_InstanceID v); cbn; try apply wrap64_range; done).
  destruct (vol_InstanceID v); unfold modify; cbn; destruct s; cbn in *; f_equal; wrapped.
Qed.

Section counts.
Context `{Env} `{!OrderLaws, !NoFaults}.

(** The listings return the rows of the user, in some order, and change nothing. *)
Lemma listed {A} (rows : World → list A) (f : A → Z) w l w' :
  (l ← db_query rows; mret (order_desc f l)) w = (Ok l, w') →
  l ≡ₚ rows (w <| w_tick ::= S |>) ∧ w' = w <| w_tick ::= S |>.
Proof.
  intros Hrun. ok_step Hrun l0 w1. apply db_query_Ok in Hrun0 as [-> ->]. rewrite no_cuts in Hrun.
  unfold mret, M_ret in Hrun. injection Hrun as <- <-. split; [|done].
  unfold order_desc. rewrite merge_sort_Permutation. apply env_order_perm.
Qed.

Lemma listed_wrap {A} (g : error → error) (rows : World → list A) (f : A → Z) w l w' :
  (l ← wrap_err g (db_query rows); mret (order_desc f l)) w = (Ok l, w') →
  l ≡ₚ rows (w <| w_tick ::= S |>) ∧ w' = w <| w_tick ::= S |>.
Proof.
  intros Hrun. apply (listed rows f). ok_step Hrun l0 w1. apply wrap_err_Ok in Hrun0.
  by erewrite bind_Ok_run by exact Hrun0.
Qed.

(** The dashboard counts the rows of the user and nothing else: his instances by status,
    his volumes, those attached, their size in megabytes as a 64-bit sum, his VPCs; nothing
    of the database changes. *)
Theorem GetSummary_counts ctx w s w' :
  GetSummary ctx w = (Ok s, w') →
  let u := UserIDFromContext ctx in
  let instances := rows_of (t_instances w) inst_UserID u in
  let volumes := rows_of (t_volumes w) vol_UserID u in
  TotalInstances s = Z.of_nat (length instances) ∧
  RunningInstances s = wrap64 (count_of is_running instances) ∧
  StoppedInstances s = wrap64 (count_of is_stopped instances) ∧
  TotalVolumes s = Z.of_nat (length volumes) ∧
  AttachedVolumes s = wrap64 (count_of is_attached volumes) ∧
  TotalStorageMB s = wrap64 (1024 * sum_of vol_SizeGB volumes) ∧
  TotalVPCs s = Z.of_nat (length (rows_of (t_vpcs w) vpc_UserID u)) ∧
  w' = w <| w_tick := w_tick w' |>.
Proof.
  unfold GetSummary, instance_List, volume_List, vpc_List. intros Hrun. cbn zeta.
  ok_step Hrun li w1. apply listed_wrap in Hrun0 as [Hli ->].
  ok_step Hrun lv w2. apply listed in Hrun0 as [Hlv ->].
  ok_step Hrun lp w3. apply listed_wrap in Hrun0 as [Hlp ->].
  cbn in Hli, Hlv, Hlp. unfold mret, M_ret in Hrun. injection Hrun as <- <-.
  fold (rows_of (t_instances w) inst_UserID (UserIDFromContext ctx)) in Hli.
  fold (rows_of (t_volumes w) vol_UserID (UserIDFromContext ctx)) in Hlv.
  fold (rows_of (t_vpcs w) vpc_UserID (UserIDFromContext ctx)) in Hlp.
  rewrite count_instance_fold, count_volume_fold by (cbn; unfold int64_range; lia). cbn.
  rewrite <- Hli, <- Hlv, <- Hlp.
  repeat split. f_equal. clear. induction lv as [|v lv IH]; [done|]. unfold sum_of in *. cbn [foldr]. lia.
Qed.

End counts.

(** * [services/health.go]: whether the database and the compute backend answer *)

Record HealthCheckResult := MkHealthCheckResult {
  hc_Status : string;
  hc_Checks : list (string * string);
  hc_Time : time
}.

Section health.
Context `{Env}.

(** A ping of the pool is a statement that changes nothing. *)
Definition db_Ping : M unit := db_exec (λ w, Some (tt, w)).

Definition check_of (r : error + unit) : string :=
  match r with
  | inl err => "DISCONNECTED: " +:+ error_text err
  | inr _ => "CONNECTED"
  end.

Definition Check : M HealthCheckResult :=
  db ← attempt db_Ping;
  docker ← attempt (perform Ping);
  now ← Now;
  let overall := match db, docker with inr _, inr _ => "UP" | _, _ => "DEGRADED" end in
  mret (MkHealthCheckResult overall [("database", check_of db); ("docker", check_of docker)] now).

#[export] Instance db_Ping_steps R : PreOrder R → TickOk R → Steps R db_Ping.
Proof. intros HR Ht. apply steps_db_exec; [done..|]. intros w a w' [= <- <-]. reflexivity. Qed.
#[export] Instance Check_steps R : PreOrder R → TickOk R → CallOk R → Steps R Check.
Proof. intros. unfold Check. apply _. Qed.

End health.
