(* ===== verification/Router.v ===== *)
(** * In front of the handlers: the limiter of requests and the table of endpoints

    [pkg/ratelimit/limiter.go], [internal/api/setup/router.go] and the permissions of
    [internal/core/domain/rbac.go]. *)
From S2P Require Import Prelude GoStd Encoding Net Errors Domain DomainData World Logic Sql InstanceRepo Rbac.
From S2P Require Import Secret Auth.

(** * [pkg/ratelimit/limiter.go]: the limiter in front of every request

    A limiter of [golang.org/x/time/rate] is a parameter: its state, the fresh one for the
    rate and the burst of the [IPRateLimiter], and [Allow], which answers at a time and
    moves the state. *)

Section ratelimit.
Context {Limiter : Type} (NewLimiter : Limiter) (Allow : Limiter → time → bool * Limiter).

(** The map of an [IPRateLimiter]. *)
Notation ips := (gmap string Limiter).

(** The key of a request: the header [X-API-Key], masked, or the address of the client. *)
Definition limit_key (apiKey clientIP : string) : string :=
  if bool_decide (apiKey = "") then clientIP
  else if Nat.ltb 5 (String.length apiKey) then "apikey:" +:+ str_prefix 5 apiKey
  else apiKey.

Definition GetLimiter (m : ips) (key : string) : Limiter * ips :=
  match m !! key with
  | Some l => (l, m)
  | None => (NewLimiter, <[key := NewLimiter]> m)
  end.

(** Whether the request passes.  A limiter is shared by pointer: [Allow] changes the one in
    the map. *)
Definition Middleware (m : ips) (now : time) (apiKey clientIP : string) : bool * ips :=
  let key := limit_key apiKey clientIP in
  let '(l, m1) := GetLimiter m key in
  let '(ok, l') := Allow l now in
  (ok, <[key := l']> m1).

(** A pass of [cleanupLoop]. *)
Definition cleanup (m : ips) : ips := ∅.

(** Requests in a row: the time, the header and the address of each. *)
Fixpoint serve (m : ips) (reqs : list (time * string * string)) : list bool * ips :=
  match reqs with
  | [] => ([], m)
  | (now, apiKey, clientIP) :: reqs' =>
      let '(ok, m1) := Middleware m now apiKey clientIP in
      let '(oks, m2) := serve m1 reqs' in
      (ok :: oks, m2)
  end.

(** The limiter of a key after a request: moved if the request has that key, and there. *)
Definition limiter_of (m : ips) (key : string) : Limiter := default NewLimiter (m !! key).

Lemma Middleware_spec m now apiKey clientIP :
  let key := limit_key apiKey clientIP in
  Middleware m now apiKey clientIP
  = ((Allow (limiter_of m key) now).1, <[key := (Allow (limiter_of m key) now).2]> m).
Proof.
  cbn. unfold Middleware, GetLimiter, limiter_of. destruct (m !! _) as [l|] eqn:Hm; cbn.
  - by destruct (Allow l now).
  - destruct (Allow NewLimiter now). by rewrite insert_insert_eq.
Qed.

(** Requests of other keys do not count against a key. *)
Lemma Middleware_others m now apiKey clientIP key :
  limit_key apiKey clientIP ≠ key →
  (Middleware m now apiKey clientIP).2 !! key = m !! key.
Proof. intros Hne. rewrite Middleware_spec; cbn. by rewrite lookup_insert_ne. Qed.

End ratelimit.

Section shared.
Context `{Env, Crypto}.

(** Every key the platform issues has the same key at the limiter. *)
Lemma issued_key userID name w k w' ip :
  CreateKey userID name w = (Ok k, w') → limit_key (ak_Key k) ip = "apikey:thecl".
Proof.
  unfold CreateKey. intros Hrun. ok_step Hrun b w1. ok_step Hrun kid w2. ok_step Hrun cr w3.
  cbn zeta in Hrun. ok_step Hrun row w4. ok_step Hrun r w5. unfold mret, M_ret in Hrun.
  injection Hrun as <- _. cbn [ak_Key]. unfold limit_key, key_prefix.
  rewrite bool_decide_false by done.
  cbn. by destruct (hex_encode b).
Qed.

Context {Limiter : Type} (NewLimiter : Limiter) (Allow : Limiter → time → bool * Limiter).

Lemma serve_same_keys m reqs reqs' :
  Forall2 (λ r r', r.1.1 = r'.1.1 ∧ limit_key r.1.2 r.2 = limit_key r'.1.2 r'.2) reqs reqs' →
  serve NewLimiter Allow m reqs = serve NewLimiter Allow m reqs'.
Proof.
  intros Hreqs. revert m. induction Hreqs as [|[[t k] ip] [[t' k'] ip'] l l' [Ht Hk] _ IH]; intros m; [done|].
  cbn in Ht, Hk. subst t'. cbn [serve]. rewrite !Middleware_spec. cbn. rewrite Hk. by rewrite IH.
Qed.

(** The limiter does not tell the users of the platform apart: a key masked to its first
    five bytes is ["thecl"] for every key [CreateKey] issues, so the requests of one user
    are answered as if any other user had made them, whatever the addresses, and all of
    them use up one limiter. *)
Theorem issued_keys_share_limiter userID1 name1 w1 k1 w1' userID2 name2 w2 k2 w2' m times ip1 ip2 :
  CreateKey userID1 name1 w1 = (Ok k1, w1') → CreateKey userID2 name2 w2 = (Ok k2, w2') →
  serve NewLimiter Allow m ((λ t, (t, ak_Key k1, ip1)) <$> times)
  = serve NewLimiter Allow m ((λ t, (t, ak_Key k2, ip2)) <$> times)
  ∧ ∀ key, key ≠ "apikey:thecl" →
      (serve NewLimiter Allow m ((λ t, (t, ak_Key k1, ip1)) <$> times)).2 !! key = m !! key.
Proof.
  intros Hk1%(issued_key _ _ _ _ _ ip1) Hk2%(issued_key _ _ _ _ _ ip2). split.
  - apply serve_same_keys. induction times as [|t l IH]; constructor; [|done]. cbn. split; [done|congruence].
  - intros key Hkey. revert m. induction times as [|t l IH]; intros m; [done|].
    rewrite fmap_cons. cbn [serve]. rewrite Middleware_spec. cbn. rewrite Hk1.
    destruct (serve _ _ _ _) as [oks m2] eqn:Hs. cbn.
    change m2 with (oks, m2).2. rewrite <- Hs, IH. by rewrite lookup_insert_ne.
Qed.

End shared.

(** * [internal/api/setup/router.go] and the permissions of [internal/core/domain/rbac.go]:
    the table of the HTTP endpoints and what guards each of them

    An endpoint is a line of [SetupRouter]: its method and path, whether its group uses the
    middleware [httputil.Auth], the permission [httputil.Permission] asks for, and the name
    of the handler.  The matching of a request's path is the web framework's. *)

(** ** Permissions *)

Definition PermissionInstanceTerminate := "instance:terminate".
Definition PermissionInstanceUpdate := "instance:update".
Definition PermissionVpcCreate := "vpc:create".
Definition PermissionVpcDelete := "vpc:delete".
Definition PermissionVpcUpdate := "vpc:update".
Definition PermissionVolumeCreate := "volume:create".
Definition PermissionVolumeDelete := "volume:delete".
Definition PermissionSnapshotCreate := "snapshot:create".
Definition PermissionSnapshotDelete := "snapshot:delete".
Definition PermissionSnapshotRead := "snapshot:read".
Definition PermissionSnapshotRestore := "snapshot:restore".
Definition PermissionLbCreate := "lb:create".
Definition PermissionLbDelete := "lb:delete".
Definition PermissionLbRead := "lb:read".
Definition PermissionLbUpdate := "lb:update".
Definition PermissionDBCreate := "db:create".
Definition PermissionDBDelete := "db:delete".
Definition PermissionDBRead := "db:read".
Definition PermissionSecretCreate := "secret:create".
Definition PermissionSecretDelete := "secret:delete".
Definition PermissionSecretRead := "secret:read".
Definition PermissionFunctionInvoke := "function:invoke".
Definition PermissionFunctionCreate := "function:create".
Definition PermissionFunctionDelete := "function:delete".
Definition PermissionFunctionRead := "function:read".
Definition PermissionCacheCreate := "cache:create".
Definition PermissionCacheDelete := "cache:delete".
Definition PermissionCacheRead := "cache:read".
Definition PermissionCacheUpdate := "cache:update".
Definition PermissionQueueCreate := "queue:create".
Definition PermissionQueueDelete := "queue:delete".
Definition PermissionQueueRead := "queue:read".
Definition PermissionQueueWrite := "queue:write".
Definition PermissionNotifyCreate := "notify:create".
Definition PermissionNotifyDelete := "notify:delete".
Definition PermissionNotifyRead := "notify:read".
Definition PermissionNotifyWrite := "notify:publish".
Definition PermissionCronCreate := "cron:create".
Definition PermissionCronDelete := "cron:delete".
Definition PermissionCronRead := "cron:read".
Definition PermissionCronUpdate := "cron:update".
Definition PermissionGatewayCreate := "gateway:create".
Definition PermissionGatewayDelete := "gateway:delete".
Definition PermissionGatewayRead := "gateway:read".
Definition PermissionStackCreate := "stack:create".
Definition PermissionStackDelete := "stack:delete".
Definition PermissionStackRead := "stack:read".
Definition PermissionAsCreate := "as:create".
Definition PermissionAsDelete := "as:delete".
Definition PermissionAsRead := "as:read".
Definition PermissionAsUpdate := "as:update".
Definition PermissionContainerCreate := "container:create".
Definition PermissionContainerDelete := "container:delete".
Definition PermissionContainerRead := "container:read".
Definition PermissionContainerUpdate := "container:scale".

(** ** Endpoints *)

Record Endpoint := MkEndpoint {
  ep_Method : string;
  ep_Path : string;
  ep_Auth : bool;
  ep_Permission : option string;
  ep_Handler : string
}.

(** A route of a group with [httputil.Auth], with and without [httputil.Permission]. *)
Definition guarded (m p perm h : string) : Endpoint := MkEndpoint m p true (Some perm) h.
Definition authenticated (m p h : string) : Endpoint := MkEndpoint m p true None h.
Definition public (m p h : string) : Endpoint := MkEndpoint m p false None h.

Definition key_routes : list Endpoint := [
  authenticated "POST" "/auth/keys" "Identity.CreateKey";
  authenticated "GET" "/auth/keys" "Identity.ListKeys";
  authenticated "DELETE" "/auth/keys/:id" "Identity.RevokeKey";
  authenticated "POST" "/auth/keys/:id/rotate" "Identity.RotateKey";
  authenticated "POST" "/auth/keys/:id/regenerate" "Identity.RegenerateKey"
].

Definition instance_routes : list Endpoint := [
  guarded "POST" "/instances" PermissionInstanceLaunch "Instance.Launch";
  guarded "GET" "/instances" PermissionInstanceRead "Instance.List";
  guarded "GET" "/instances/:id" PermissionInstanceRead "Instance.Get";
  guarded "POST" "/instances/:id/stop" PermissionInstanceUpdate "Instance.Stop";
  guarded "GET" "/instances/:id/logs" PermissionInstanceRead "Instance.GetLogs";
  guarded "GET" "/instances/:id/stats" PermissionInstanceRead "Instance.GetStats";
  guarded "DELETE" "/instances/:id" PermissionInstanceTerminate "Instance.Terminate"
].

Definition vpc_routes : list Endpoint := [
  guarded "POST" "/vpcs" PermissionVpcCreate "Vpc.Create";
  guarded "GET" "/vpcs" PermissionVpcRead "Vpc.List";
  guarded "GET" "/vpcs/:id" PermissionVpcRead "Vpc.Get";
  guarded "DELETE" "/vpcs/:id" PermissionVpcDelete "Vpc.Delete";
  guarded "POST" "/vpcs/:id/subnets" PermissionVpcUpdate "Subnet.Create";
  guarded "GET" "/vpcs/:id/subnets" PermissionVpcRead "Subnet.List"
].

Definition subnet_routes : list Endpoint := [
  guarded "GET" "/subnets/:id" PermissionVpcRead "Subnet.Get";
  guarded "DELETE" "/subnets/:id" PermissionVpcUpdate "Subnet.Delete"
].

Definition security_group_routes : list Endpoint := [
  authenticated "POST" "/security-groups" "SecurityGroup.Create";
  authenticated "GET" "/security-groups" "SecurityGroup.List";
  authenticated "GET" "/security-groups/:id" "SecurityGroup.Get";
  authenticated "DELETE" "/security-groups/:id" "SecurityGroup.Delete";
  authenticated "POST" "/security-groups/:id/rules" "SecurityGroup.AddRule";
  authenticated "POST" "/security-groups/attach" "SecurityGroup.Attach"
].

Definition storage_routes : list Endpoint := [
  authenticated "PUT" "/storage/:bucket/:key" "Storage.Upload";
  authenticated "GET" "/storage/:bucket/:key" "Storage.Download";
  authenticated "GET" "/storage/:bucket" "Storage.List";
  authenticated "DELETE" "/storage/:bucket/:key" "Storage.Delete"
].

Definition event_routes : list Endpoint := [
  authenticated "GET" "/events" "Event.List"
].

Definition audit_routes : list Endpoint := [
  authenticated "GET" "/audit" "Audit.ListLogs"
].

Definition rbac_routes : list Endpoint := [
  guarded "POST" "/rbac/roles" PermissionFullAccess "RBAC.CreateRole";
  guarded "GET" "/rbac/roles" PermissionFullAccess "RBAC.ListRoles";
  guarded "GET" "/rbac/roles/:id" PermissionFullAccess "RBAC.GetRole";
  guarded "PUT" "/rbac/roles/:id" PermissionFullAccess "RBAC.UpdateRole";
  guarded "DELETE" "/rbac/roles/:id" PermissionFullAccess "RBAC.DeleteRole";
  guarded "POST" "/rbac/roles/:id/permissions" PermissionFullAccess "RBAC.AddPermission";
  guarded "DELETE" "/rbac/roles/:id/permissions/:permission" PermissionFullAccess "RBAC.RemovePermission";
  guarded "POST" "/rbac/bindings" PermissionFullAccess "RBAC.BindRole";
  guarded "GET" "/rbac/bindings" PermissionFullAccess "RBAC.ListRoleBindings"
].

Definition volume_routes : list Endpoint := [
  guarded "POST" "/volumes" PermissionVolumeCreate "Volume.Create";
  guarded "GET" "/volumes" PermissionVolumeRead "Volume.List";
  guarded "GET" "/volumes/:id" PermissionVolumeRead "Volume.Get";
  guarded "DELETE" "/volumes/:id" PermissionVolumeDelete "Volume.Delete"
].

Definition dashboard_routes : list Endpoint := [
  authenticated "GET" "/api/dashboard/summary" "Dashboard.GetSummary";
  authenticated "GET" "/api/dashboard/events" "Dashboard.GetRecentEvents";
  authenticated "GET" "/api/dashboard/stats" "Dashboard.GetStats";
  authenticated "GET" "/api/dashboard/stream" "Dashboard.StreamEvents"
].

Definition snapshot_routes : list Endpoint := [
  guarded "POST" "/snapshots" PermissionSnapshotCreate "Snapshot.Create";
  guarded "GET" "/snapshots" PermissionSnapshotRead "Snapshot.List";
  guarded "GET" "/snapshots/:id" PermissionSnapshotRead "Snapshot.Get";
  guarded "DELETE" "/snapshots/:id" PermissionSnapshotDelete "Snapshot.Delete";
  guarded "POST" "/snapshots/:id/restore" PermissionSnapshotRestore "Snapshot.Restore"
].

Definition lb_routes : list Endpoint := [
  guarded "POST" "/lb" PermissionLbCreate "LB.Create";
  guarded "GET" "/lb" PermissionLbRead "LB.List";
  guarded "GET" "/lb/:id" PermissionLbRead "LB.Get";
  guarded "DELETE" "/lb/:id" PermissionLbDelete "LB.Delete";
  guarded "POST" "/lb/:id/targets" PermissionLbUpdate "LB.AddTarget";
  guarded "GET" "/lb/:id/targets" PermissionLbRead "LB.ListTargets";
  guarded "DELETE" "/lb/:id/targets/:instanceId" PermissionLbUpdate "LB.RemoveTarget"
].

Definition database_routes : list Endpoint := [
  guarded "POST" "/databases" PermissionDBCreate "Database.Create";
  guarded "GET" "/databases" PermissionDBRead "Database.List";
  guarded "GET" "/databases/:id" PermissionDBRead "Database.Get";
  guarded "DELETE" "/databases/:id" PermissionDBDelete "Database.Delete";
  guarded "GET" "/databases/:id/connection" PermissionDBRead "Database.GetConnectionString"
].

Definition secret_routes : list Endpoint := [
  guarded "POST" "/secrets" PermissionSecretCreate "Secret.Create";
  guarded "GET" "/secrets" PermissionSecretRead "Secret.List";
  guarded "GET" "/secrets/:id" PermissionSecretRead "Secret.Get";
  guarded "DELETE" "/secrets/:id" PermissionSecretDelete "Secret.Delete"
].

Definition function_routes : list Endpoint := [
  guarded "POST" "/functions" PermissionFunctionCreate "Function.Create";
  guarded "GET" "/functions" PermissionFunctionRead "Function.List";
  guarded "GET" "/functions/:id" PermissionFunctionRead "Function.Get";
  guarded "DELETE" "/functions/:id" PermissionFunctionDelete "Function.Delete";
  guarded "POST" "/functions/:id/invoke" PermissionFunctionInvoke "Function.Invoke";
  guarded "GET" "/functions/:id/logs" PermissionFunctionRead "Function.GetLogs"
].

Definition cache_routes : list Endpoint := [
  guarded "POST" "/caches" PermissionCacheCreate "Cache.Create";
  guarded "GET" "/caches" PermissionCacheRead "Cache.List";
  guarded "GET" "/caches/:id" PermissionCacheRead "Cache.Get";
  guarded "DELETE" "/caches/:id" PermissionCacheDelete "Cache.Delete";
  guarded "GET" "/caches/:id/connection" PermissionCacheRead "Cache.GetConnectionString";
  guarded "POST" "/caches/:id/flush" PermissionCacheUpdate "Cache.Flush";
  guarded "GET" "/caches/:id/stats" PermissionCacheRead "Cache.GetStats"
].

Definition queue_routes : list Endpoint := [
  guarded "POST" "/queues" PermissionQueueCreate "Queue.Create";
  guarded "GET" "/queues" PermissionQueueRead "Queue.List";
  guarded "GET" "/queues/:id" PermissionQueueRead "Queue.Get";
  guarded "DELETE" "/queues/:id" PermissionQueueDelete "Queue.Delete";
  guarded "POST" "/queues/:id/messages" PermissionQueueWrite "Queue.SendMessage";
  guarded "GET" "/queues/:id/messages" PermissionQueueRead "Queue.ReceiveMessages";
  guarded "DELETE" "/queues/:id/messages/:handle" PermissionQueueWrite "Queue.DeleteMessage";
  guarded "POST" "/queues/:id/purge" PermissionQueueWrite "Queue.Purge"
].

Definition notify_routes : list Endpoint := [
  guarded "POST" "/notify/topics" PermissionNotifyCreate "Notify.CreateTopic";
  guarded "GET" "/notify/topics" PermissionNotifyRead "Notify.ListTopics";
  guarded "DELETE" "/notify/topics/:id" PermissionNotifyDelete "Notify.DeleteTopic";
  guarded "POST" "/notify/topics/:id/subscriptions" PermissionNotifyWrite "Notify.Subscribe";
  guarded "GET" "/notify/topics/:id/subscriptions" PermissionNotifyRead "Notify.ListSubscriptions";
  guarded "DELETE" "/notify/subscriptions/:id" PermissionNotifyDelete "Notify.Unsubscribe";
  guarded "POST" "/notify/topics/:id/publish" PermissionNotifyWrite "Notify.Publish"
].

Definition cron_routes : list Endpoint := [
  guarded "POST" "/cron/jobs" PermissionCronCreate "Cron.CreateJob";
  guarded "GET" "/cron/jobs" PermissionCronRead "Cron.ListJobs";
  guarded "GET" "/cron/jobs/:id" PermissionCronRead "Cron.GetJob";
  guarded "DELETE" "/cron/jobs/:id" PermissionCronDelete "Cron.DeleteJob";
  guarded "POST" "/cron/jobs/:id/pause" PermissionCronUpdate "Cron.PauseJob";
  guarded "POST" "/cron/jobs/:id/resume" PermissionCronUpdate "Cron.ResumeJob"
].

Definition gateway_routes : list Endpoint := [
  guarded "POST" "/gateway/routes" PermissionGatewayCreate "Gateway.CreateRoute";
  guarded "GET" "/gateway/routes" PermissionGatewayRead "Gateway.ListRoutes";
  guarded "DELETE" "/gateway/routes/:id" PermissionGatewayDelete "Gateway.DeleteRoute"
].

Definition container_routes : list Endpoint := [
  guarded "POST" "/containers/deployments" PermissionContainerCreate "Container.CreateDeployment";
  guarded "GET" "/containers/deployments" PermissionContainerRead "Container.ListDeployments";
  guarded "GET" "/containers/deployments/:id" PermissionContainerRead "Container.GetDeployment";
  guarded "POST" "/containers/deployments/:id/scale" PermissionContainerUpdate "Container.ScaleDeployment";
  guarded "DELETE" "/containers/deployments/:id" PermissionContainerDelete "Container.DeleteDeployment"
].

Definition autoscaling_routes : list Endpoint := [
  guarded "POST" "/autoscaling/groups" PermissionAsCreate "AutoScaling.CreateGroup";
  guarded "GET" "/autoscaling/groups" PermissionAsRead "AutoScaling.ListGroups";
  guarded "GET" "/autoscaling/groups/:id" PermissionAsRead "AutoScaling.GetGroup";
  guarded "DELETE" "/autoscaling/groups/:id" PermissionAsDelete "AutoScaling.DeleteGroup";
  guarded "POST" "/autoscaling/groups/:id/policies" PermissionAsUpdate "AutoScaling.CreatePolicy";
  guarded "DELETE" "/autoscaling/policies/:id" PermissionAsDelete "AutoScaling.DeletePolicy"
].

Definition stack_routes : list Endpoint := [
  guarded "POST" "/iac/stacks" PermissionStackCreate "Stack.Create";
  guarded "GET" "/iac/stacks" PermissionStackRead "Stack.List";
  guarded "GET" "/iac/stacks/:id" PermissionStackRead "Stack.Get";
  guarded "DELETE" "/iac/stacks/:id" PermissionStackDelete "Stack.Delete";
  guarded "POST" "/iac/validate" PermissionStackRead "Stack.Validate"
].

(** The routes outside the groups: health, metrics, documentation, the endpoints that hand
    out and restore credentials, and the gateway's proxy. *)
Definition public_routes : list Endpoint := [
  public "GET" "/health/live" "Health.Live";
  public "GET" "/health/ready" "Health.Ready";
  public "GET" "/health" "Health.Ready";
  public "GET" "/health/ovs" "";
  public "GET" "/metrics" "promhttp";
  public "GET" "/swagger/*any" "ginSwagger";
  public "POST" "/auth/register" "Auth.Register";
  public "POST" "/auth/login" "Auth.Login";
  public "POST" "/auth/forgot-password" "Auth.ForgotPassword";
  public "POST" "/auth/reset-password" "Auth.ResetPassword";
  public "ANY" "/gw/*proxy" "Gateway.Proxy"
].

Definition endpoints : list Endpoint :=   public_routes ++ key_routes ++ instance_routes
  ++ vpc_routes ++ subnet_routes ++ security_group_routes ++ storage_routes ++ event_routes
  ++ audit_routes ++ rbac_routes ++ volume_routes ++ dashboard_routes ++ snapshot_routes ++
  lb_routes ++ database_routes ++ secret_routes ++ function_routes ++ cache_routes ++
  queue_routes ++ notify_routes ++ cron_routes ++ gateway_routes ++ container_routes ++
  autoscaling_routes ++ stack_routes.

Section gate.
Context `{Env}.

(** The middlewares a request to an endpoint passes before its handler: the context the
    handler gets, or the error of the response. *)
Definition gate (e : Endpoint) (apiKey : string) : M Context :=
  if ep_Auth e then
    ctx ← Auth apiKey None;
    match ep_Permission e with
    | Some p => Permission ctx p
    | None => mret ()
    end ;;
    mret ctx
  else mret None.

End gate.
