(* ===== verification/Container.v ===== *)
(** * [repositories/postgres/container_repo.go], [services/container.go] and
    [services/container_worker.go]: deployments of replicated containers *)
From S2P Require Import Prelude GoStd Net Errors Domain DomainData World Logic Sql InstanceRepo NetworkRepo.
From S2P Require Import InstanceService LBRepo LBService Ports AutoScalingWorker Queue.

Section container.
Context `{Env}.

(** ** The repository *)

Definition dep_CreateDeployment (d : Deployment) : M unit :=
  db_exec (sql_insert t_deployments (dep_ID d) d (λ w,
    user_fk (dep_UserID d) w && int4 (dep_Replicas d) && int4 (dep_CurrentCount d)
    && no_row (λ r, bool_decide (dep_UserID r = dep_UserID d ∧ dep_Name r = dep_Name d))
         (t_deployments w))).

Definition dep_GetDeploymentByID (id userID : uuid) : M Deployment :=
  db_query_row (λ w, by_pk (t_deployments w) id (of_user dep_UserID userID)).

Definition dep_ListDeployments (userID : uuid) : M (list Deployment) :=
  l ← db_query (λ w, select (of_user dep_UserID userID) (t_deployments w));
  mret (order_desc dep_CreatedAt l).

(** No version and no owner in the WHERE clause. *)
Definition dep_UpdateDeployment (d : Deployment) : M unit :=
  t ← next_tick;
  db_exec (sql_update t_deployments (dep_ID d) (λ _, true) (λ _ r,
    if int4 (dep_Replicas d) && int4 (dep_CurrentCount d) then
      Some (r <| dep_Replicas := dep_Replicas d |> <| dep_CurrentCount := dep_CurrentCount d |>
              <| dep_Status := dep_Status d |> <| dep_UpdatedAt := env_db_now t |>)
    else None)) ;;
  mret ().

Definition dep_DeleteDeployment (id : uuid) : M unit :=
  db_exec (sql_delete t_deployments id (λ _, true) (λ _, true)
             (λ w, w <| t_containers ::= filter (λ kv, dc_DeploymentID kv.2 ≠ id) |>)) ;;
  mret ().

(** The row's own identifier is the database's choice. *)
Definition dep_AddContainer (deploymentID instanceID : uuid) : M unit :=
  id ← uuid_New;
  db_exec (sql_insert t_containers id (MkDeploymentContainer id deploymentID instanceID) (λ w,
    fk_ok (t_deployments w) (Some deploymentID) && fk_ok (t_instances w) (Some instanceID)
    && no_row (λ r, bool_decide (dc_InstanceID r = instanceID)) (t_containers w))).

Definition container_of (deploymentID instanceID : uuid) (c : DeploymentContainer) : bool :=
  bool_decide (dc_DeploymentID c = deploymentID) && bool_decide (dc_InstanceID c = instanceID).

Definition dep_RemoveContainer (deploymentID instanceID : uuid) : M unit :=
  db_exec (sql_delete_where t_containers (container_of deploymentID instanceID)) ;;
  mret ().

Definition dep_GetContainers (deploymentID : uuid) : M (list uuid) :=
  l ← db_query (λ w, select (λ c, bool_decide (dc_DeploymentID c = deploymentID)) (t_containers w));
  mret (dc_InstanceID <$> l).

Definition dep_ListAllDeployments : M (list Deployment) :=
  db_query (λ w, select (λ _, true) (t_deployments w)).

(** ** The service *)

Definition CreateDeployment (ctx : Context) (name image : string) (replicas : Z) (ports : string)
    : M Deployment :=
  userID ← current_user ctx;
  id ← uuid_New;
  created ← Now;
  updated ← Now;
  let dep := MkDeployment id userID name image replicas 0 ports DeploymentStatusScaling created updated in
  dep_CreateDeployment dep ;;
  ignore (RecordEvent ctx "DEPLOYMENT_CREATED" (uuid_string id) "DEPLOYMENT" None) ;;
  ignore (Log userID "container.deployment_create" "deployment" (uuid_string id)
            (Some [("name", VString name); ("image", VString image)])) ;;
  mret dep.

Definition ListDeployments (ctx : Context) : M (list Deployment) :=
  userID ← current_user ctx; dep_ListDeployments userID.

Definition GetDeployment (ctx : Context) (id : uuid) : M Deployment :=
  userID ← current_user ctx; dep_GetDeploymentByID id userID.

Definition ScaleDeployment (ctx : Context) (id : uuid) (replicas : Z) : M unit :=
  let userID := UserIDFromContext ctx in
  dep ← dep_GetDeploymentByID id userID;
  dep_UpdateDeployment (dep <| dep_Replicas := replicas |> <| dep_Status := DeploymentStatusScaling |>) ;;
  ignore (Log userID "container.deployment_scale" "deployment" (uuid_string id)
            (Some [("replicas", VInt replicas)])).

Definition DeleteDeployment (ctx : Context) (id : uuid) : M unit :=
  let userID := UserIDFromContext ctx in
  dep ← dep_GetDeploymentByID id userID;
  dep_UpdateDeployment (dep <| dep_Status := DeploymentStatusDeleting |>) ;;
  ignore (Log userID "container.deployment_delete" "deployment" (uuid_string id) (Some [])).

(** ** The worker *)

Context `{!InstanceServicePort}.

Definition launchContainer (ctx : Context) (dep : Deployment) : M unit :=
  now ← Now;
  inst ← svc_LaunchInstance ctx ("dep-" +:+ dep_Name dep +:+ "-" +:+ itoa now) (dep_Image dep)
           (dep_Ports dep) None None [];
  r ← attempt (dep_AddContainer (dep_ID dep) (inst_ID inst));
  match r with
  | inl err => ignore (svc_TerminateInstance ctx (uuid_string (inst_ID inst))) ;; fail err
  | inr _ => mret ()
  end.

Definition terminateContainer (ctx : Context) (dep : Deployment) (instanceID : uuid) : M unit :=
  dep_RemoveContainer (dep_ID dep) instanceID ;;
  svc_TerminateInstance ctx (uuid_string instanceID).

(** [for i := 0; i < needed; i++] up to the first failure. *)
Fixpoint launch_loop (ctx : Context) (dep : Deployment) (needed : nat) : M unit :=
  match needed with
  | O => mret ()
  | S needed' =>
      r ← attempt (launchContainer ctx dep);
      match r with inl _ => mret () | inr _ => launch_loop ctx dep needed' end
  end.

(** [for i := 0; i < excess; i++] over [containerIDs[i]] up to the first failure. *)
Fixpoint terminate_loop (ctx : Context) (dep : Deployment) (ids : list uuid) (excess : nat) : M unit :=
  match excess with
  | O => mret ()
  | S excess' =>
      match ids with
      | [] => panic index_out_of_range
      | id :: ids' =>
          r ← attempt (terminateContainer ctx dep id);
          match r with inl _ => mret () | inr _ => terminate_loop ctx dep ids' excess' end
      end
  end.

Definition scale_deployment (ctx : Context) (dep : Deployment) (ids : list uuid) : M unit :=
  let current := Z.of_nat (length ids) in
  if current <? dep_Replicas dep then
    launch_loop ctx dep (Z.to_nat (int_sub (dep_Replicas dep) current))
  else if dep_Replicas dep <? current then
    terminate_loop ctx dep ids (Z.to_nat (int_sub current (dep_Replicas dep)))
  else mret ().

(** The status from the containers counted before scaling. *)
Definition update_status (dep : Deployment) (ids : list uuid) : M unit :=
  let n := Z.of_nat (length ids) in
  let newStatus := if bool_decide (n = dep_Replicas dep) then DeploymentStatusReady
                   else DeploymentStatusScaling in
  if negb (bool_decide (dep_Status dep = newStatus)) || negb (bool_decide (dep_CurrentCount dep = n))
  then ignore (dep_UpdateDeployment (dep <| dep_Status := newStatus |> <| dep_CurrentCount := n |>))
  else mret ().

Definition reconcileDeployment (ctx : Context) (dep : Deployment) : M unit :=
  let uCtx := WithUserID ctx (dep_UserID dep) in
  r ← attempt (dep_GetContainers (dep_ID dep));
  match r with
  | inl _ => mret ()
  | inr ids =>
      if bool_decide (dep_Status dep = DeploymentStatusDeleting) then
        if bool_decide (ids = []) then ignore (dep_DeleteDeployment (dep_ID dep))
        else foreach ids (λ id, ignore (terminateContainer uCtx dep id))
      else
        scale_deployment uCtx dep ids ;;
        update_status dep ids
  end.

Definition Reconcile (ctx : Context) : M unit :=
  r ← attempt dep_ListAllDeployments;
  match r with
  | inl _ => mret ()
  | inr deployments => foreach deployments (reconcileDeployment ctx)
  end.

End container.

#[global] Typeclasses Opaque dep_CreateDeployment dep_GetDeploymentByID dep_ListDeployments
  dep_UpdateDeployment dep_DeleteDeployment dep_AddContainer dep_RemoveContainer dep_GetContainers
  dep_ListAllDeployments CreateDeployment ScaleDeployment DeleteDeployment launchContainer
  terminateContainer scale_deployment update_status reconcileDeployment Reconcile.

(** ** What the operations touch *)

Section frames.
Context `{Env} {T : Type} (p : World → T) `{!Indep p w_tick}.

#[export] Instance dep_CreateDeployment_frame d : Indep p t_deployments → Frame p (dep_CreateDeployment d).
Proof. intros. unfold dep_CreateDeployment. apply _. Qed.
#[export] Instance dep_GetDeploymentByID_frame i u : Frame p (dep_GetDeploymentByID i u).
Proof. intros. unfold dep_GetDeploymentByID. apply _. Qed.
#[export] Instance dep_ListDeployments_frame u : Frame p (dep_ListDeployments u).
Proof. intros. unfold dep_ListDeployments. apply _. Qed.
#[export] Instance dep_UpdateDeployment_frame d : Indep p t_deployments → Frame p (dep_UpdateDeployment d).
Proof. intros. unfold dep_UpdateDeployment. apply _. Qed.
#[export] Instance dep_DeleteDeployment_frame d :
  Indep p t_deployments → Indep p t_containers → Frame p (dep_DeleteDeployment d).
Proof.
  intros. unfold dep_DeleteDeployment. apply steps_bind; [apply _| |apply _].
  apply steps_db_exec; [apply _..|]. apply sql_delete_same; [apply _|]. intros w. apply indep.
Qed.
#[export] Instance dep_AddContainer_frame d i : Indep p t_containers → Frame p (dep_AddContainer d i).
Proof. intros. unfold dep_AddContainer. apply _. Qed.
#[export] Instance dep_RemoveContainer_frame d i : Indep p t_containers → Frame p (dep_RemoveContainer d i).
Proof. intros. unfold dep_RemoveContainer. apply _. Qed.
#[export] Instance dep_GetContainers_frame d : Frame p (dep_GetContainers d).
Proof. intros. unfold dep_GetContainers. apply _. Qed.
#[export] Instance dep_ListAllDeployments_frame : Frame p dep_ListAllDeployments.
Proof. intros. unfold dep_ListAllDeployments. apply _. Qed.
#[export] Instance CreateDeployment_frame c n i r po : Indep p t_deployments → Indep p t_events → Indep p t_audit → Frame p (CreateDeployment c n i r po).
Proof. intros. unfold CreateDeployment. apply _. Qed.
#[export] Instance ListDeployments_frame c : Frame p (ListDeployments c).
Proof. intros. unfold ListDeployments. apply _. Qed.
#[export] Instance ScaleDeployment_frame c d r : Indep p t_deployments → Indep p t_audit → Frame p (ScaleDeployment c d r).
Proof. intros. unfold ScaleDeployment. apply _. Qed.
#[export] Instance DeleteDeployment_frame c d : Indep p t_deployments → Indep p t_audit → Frame p (DeleteDeployment c d).
Proof. intros. unfold DeleteDeployment. apply _. Qed.
End frames.

Section no_panic.
Context `{Env}.

#[export] Instance dep_CreateDeployment_no_panic d : NoPanic (dep_CreateDeployment d).
Proof. unfold dep_CreateDeployment. apply _. Qed.
#[export] Instance dep_GetDeploymentByID_no_panic i u : NoPanic (dep_GetDeploymentByID i u).
Proof. unfold dep_GetDeploymentByID. apply _. Qed.
#[export] Instance dep_ListDeployments_no_panic u : NoPanic (dep_ListDeployments u).
Proof. unfold dep_ListDeployments. apply _. Qed.
#[export] Instance dep_UpdateDeployment_no_panic d : NoPanic (dep_UpdateDeployment d).
Proof. unfold dep_UpdateDeployment. apply _. Qed.
#[export] Instance dep_DeleteDeployment_no_panic d : NoPanic (dep_DeleteDeployment d).
Proof. unfold dep_DeleteDeployment. apply _. Qed.
#[export] Instance dep_AddContainer_no_panic d i : NoPanic (dep_AddContainer d i).
Proof. unfold dep_AddContainer. apply _. Qed.
#[export] Instance dep_RemoveContainer_no_panic d i : NoPanic (dep_RemoveContainer d i).
Proof. unfold dep_RemoveContainer. apply _. Qed.
#[export] Instance dep_GetContainers_no_panic d : NoPanic (dep_GetContainers d).
Proof. unfold dep_GetContainers. apply _. Qed.
#[export] Instance dep_ListAllDeployments_no_panic : NoPanic dep_ListAllDeployments.
Proof. unfold dep_ListAllDeployments. apply _. Qed.
#[export] Instance CreateDeployment_no_panic c n i r po : NoPanic (CreateDeployment c n i r po).
Proof. unfold CreateDeployment. apply _. Qed.
#[export] Instance ListDeployments_no_panic c : NoPanic (ListDeployments c).
Proof. unfold ListDeployments. apply _. Qed.
#[export] Instance ScaleDeployment_no_panic c d r : NoPanic (ScaleDeployment c d r).
Proof. unfold ScaleDeployment. apply _. Qed.
#[export] Instance DeleteDeployment_no_panic c d : NoPanic (DeleteDeployment c d).
Proof. unfold DeleteDeployment. apply _. Qed.
End no_panic.
