(* ===== verification/Gin.v ===== *)
(** * Requests, their binding, and responses: what the handlers use of the web framework

    The framework is third-party code: the text of a body as JSON, the fields and files of a form,
    the rules of the tags of a struct and the text of their errors are parameters.  The
    functions of [pkg/httputil] that write a response are written out. *)
From S2P Require Import Prelude GoStd Encoding Errors Json Net Domain DomainData World Logic Sql.
From S2P Require Import InstanceService Storage Dashboard Cache.

(** ** Requests *)

(** The header fields, the parameters of the path, the query and the body; the address of the
    client. *)
Record Request := MkRequest {
  rq_Method : string;
  rq_Headers : gmap string string;
  rq_Params : gmap string string;
  rq_Query : gmap string string;
  rq_Body : Reader;
  rq_ClientIP : string
}.

(** [c.GetHeader], [c.Param], [c.Query], [c.DefaultQuery] *)
Definition GetHeader (rq : Request) (name : string) : string := default "" (rq_Headers rq !! name).
Definition Param (rq : Request) (name : string) : string := default "" (rq_Params rq !! name).
Definition Query (rq : Request) (name : string) : string := default "" (rq_Query rq !! name).
Definition DefaultQuery (rq : Request) (name d : string) : string := default d (rq_Query rq !! name).

(** [io.ReadAll] *)
Definition ReadAll (r : Reader) : error + string :=
  match rd_err r with None => inr (rd_data r) | Some err => inl err end.

(** ** Binding *)

(** A field of a struct that has rules in its tag, and the rules. *)
Inductive FieldValue := FString (s : string) | FInt (n : Z) | FFloat (x : float64) | FUUID (u : uuid).
Inductive Rule := Required | Email | Min (n : Z) | Max (n : Z).

Class Gin := {
  gin_json :: JsonText;
  (** [json.NewDecoder(body).Decode]: the first value of the body *)
  body_Decode : Reader → error + json;
  (** whether a field satisfies a rule, and the error of a struct that breaks one *)
  rule_holds : Rule → FieldValue → bool;
  validation_error : list (string * FieldValue * list Rule) → error;
  (** [c.ShouldBind] of a form, with the fields that it has *)
  form_fields : Request → error + gmap string string;
  (** [c.FormFile]; opening the file; reading all of it *)
  form_file : Request → string → error + (error + (error + string));
  (** the error of [uuid.Parse], and the identifier it answers with it *)
  uuid_error : string → error;
  uuid_partial : string → uuid;
  (** how often the ticker of a stream fires before the client is gone *)
  stream_ticks : Request → nat;
}.

(** What is documented of the rules. *)
Class RuleLaws `{Gin} := {
  required_string s : rule_holds Required (FString s) = negb (bool_decide (s = ""));
  required_int n : rule_holds Required (FInt n) = negb (bool_decide (n = 0));
  required_uuid u : rule_holds Required (FUUID u) = negb (bool_decide (u = uuid_Nil));
  min_int m n : rule_holds (Min m) (FInt n) = (m <=? n);
  max_int m n : rule_holds (Max m) (FInt n) = (n <=? m);
}.

(** A struct that is bound: its zero value, its fields and their rules. *)
Class Bindable `{Gin} (T : Type) := {
  bind_zero : T;
  bind_decoder : Decoder T;
  bind_rules : T → list (string * FieldValue * list Rule);
}.

Definition field_ok `{Gin} (f : string * FieldValue * list Rule) : bool :=
  forallb (λ r, rule_holds r f.1.2) f.2.

Definition validate `{Bindable T} (req : T) : error + T :=
  if forallb field_ok (bind_rules req) then inr req else inl (validation_error (bind_rules req)).

Definition ShouldBindJSON `{Bindable T} (rq : Request) : error + T :=
  match body_Decode (rq_Body rq) with
  | inl err => inl err
  | inr j => match bind_decoder j bind_zero with
             | inl err => inl err
             | inr req => validate req
             end
  end.

(** ** Responses *)

(** What a handler gives to [c.JSON]: an object of the domain or of the services, a list of
    them, or a map literal [gin.H] of strings. *)
Inductive Payload :=
  | PNull | PMap (l : list (string * string))
  | PUser (u : User) | PUsers (l : list User) | PLogin (u : User) (api_key : string)
  | PKey (k : APIKey) | PKeys (l : list APIKey) | PRole (r : Role) | PRoles (l : list Role)
  | PInstance (i : Instance) | PInstances (l : list Instance) | PInstanceStats (s : InstanceStats)
  | PVolume (v : Volume) | PVolumes (l : list Volume)
  | PSnapshot (s : Snapshot) | PSnapshots (l : list Snapshot)
  | PVPC (v : VPC) | PVPCs (l : list VPC) | PSubnet (s : Subnet) | PSubnets (l : list Subnet)
  | PSecurityGroup (g : SecurityGroup) | PSecurityGroups (l : list SecurityGroup)
  | PSecurityRule (r : SecurityRule)
  | PLoadBalancer (lb : LoadBalancer) | PLoadBalancers (l : list LoadBalancer) | PTargets (l : list LBTarget)
  | PGroup (g : ScalingGroup) | PGroups (l : list ScalingGroup) | PPolicy (p : ScalingPolicy)
  | PDeployment (d : Deployment) | PDeployments (l : list Deployment)
  | PStack (s : Stack) | PStacks (l : list Stack) | PValidation (valid : bool) (errors : list string)
  | PSecret (s : Secret) | PSecrets (l : list Secret)
  | PObject (o : Object) | PObjects (l : list Object)
  | PCache (c : Cache) | PCaches (l : list Cache) | PCacheStats (s : CacheStats)
  | PDatabase (d : Database) | PDatabases (l : list Database)
  | PQueue (q : Queue) | PQueues (l : list Queue) | PMessage (m : Message) | PMessages (l : list Message)
  | PTopic (t : Topic) | PTopics (l : list Topic)
  | PSubscription (s : Subscription) | PSubscriptions (l : list Subscription)
  | PJob (j : CronJob) | PJobs (l : list CronJob)
  | PRoute (r : GatewayRoute) | PRoutes (l : list GatewayRoute)
  | PFunction (f : Function) | PFunctions (l : list Function)
  | PInvocation (i : Invocation) | PInvocations (l : list Invocation)
  | PEvents (l : list Event) | PLogs (l : list AuditLog)
  | PSummary (s : ResourceSummary) | PStats (s : DashboardStats) | PHealth (h : HealthCheckResult).

(** [httputil.Meta], without the request identifier. *)
Definition Meta : Type := time.

(** The body: the envelope of [httputil.Success] or of [httputil.Error], a payload as it is, a
    text, a file with its headers, a stream of summaries, what another server answered. *)
Inductive Body :=
  | BData (data : Payload) (meta : Meta)
  | BError (e : ErrorBody) (meta : Meta)
  | BJSON (data : Payload)
  | BText (s : string)
  | BFile (name contentType : string) (size : Z) (content : string)
  | BStream (summaries : list ResourceSummary)
  | BProxied (path target : string)
  | BEmpty.

Record Response := MkResponse { resp_Status : Z; resp_Body : Body }.

(** A status that allows no body has none. *)
Definition render (status : Z) (body : Body) : Response :=
  MkResponse status (if bool_decide (status = 204 ∨ status = 304 ∨ 100 ≤ status ≤ 199) then BEmpty else body).

Section respond.
Context `{Env}.

Definition Success (status : Z) (data : Payload) : M Response :=
  now ← Now;
  mret (render status (BData data now)).

Definition Error (err : error) : M Response :=
  let '(status, body) := http_error err in
  now ← Now;
  mret (render status (BError body now)).

Definition c_JSON (status : Z) (data : Payload) : M Response := mret (render status (BJSON data)).
Definition c_Status (status : Z) : M Response := mret (MkResponse status BEmpty).
Definition message (s : string) : Payload := PMap [("message", s)].
Definition error_object (s : string) : Payload := PMap [("error", s)].

(** [if err := ...; err != nil { httputil.Error(c, err); return }] *)
Definition respond {A} (m : M A) (ok : A → M Response) : M Response :=
  r ← attempt m;
  match r with
  | inl err => Error err
  | inr a => ok a
  end.

Definition bind_body {T} `{Bindable T} (rq : Request) (bad : error → M Response) (ok : T → M Response)
    : M Response :=
  match ShouldBindJSON rq with
  | inl err => bad err
  | inr req => ok req
  end.

Definition Parse `{Gin} (s : string) : error + uuid :=
  match uuid_parse s with Some id => inr id | None => inl (uuid_error s) end.

(** [id, err := uuid.Parse(c.Param(name))] *)
Definition param_uuid `{Gin} (rq : Request) (name : string) (bad : error → M Response) (ok : uuid → M Response)
    : M Response :=
  match Parse (Param rq name) with
  | inl err => bad err
  | inr id => ok id
  end.

(** The ways the handlers answer a request they cannot read. *)
Definition invalid (msg : string) (err : error) : M Response := Error (New InvalidInput msg).
Definition invalid_text (err : error) : M Response := Error (New InvalidInput (error_text err)).
Definition bad_request (msg : string) (err : error) : M Response := c_JSON 400 (error_object msg).
Definition bad_request_text (err : error) : M Response := c_JSON 400 (error_object (error_text err)).

End respond.

(** A handler, with the context that the middlewares leave. *)
Definition Handler : Type := Context → Request → M Response.
