(* ===== verification/ComputeHandlers.v ===== *)
(** * The handlers of instances, volumes, snapshots and networks

    [internal/handlers/instance_handler.go], [volume_handler.go], [snapshot_handler.go],
    [vpc_handler.go], [subnet_handler.go], [security_group_handler.go]. *)
From S2P Require Import Prelude GoStd Encoding Errors Json Net Domain DomainData World Logic Sql.
From S2P Require Import InstanceService VolumeService NetworkService SecurityGroup Snapshot Storage Gin.

(** ** Characters *)

(** A continuation byte, and a byte in a range. *)
Definition between (lo hi b : N) : bool := (lo <=? b)%N && (b <=? hi)%N.
Definition cont (b : N) : bool := between 0x80 0xBF b.

Definition rune2 (a b : N) : Z := Z.of_N ((a - 0xC0) * 64 + (b - 0x80)).
Definition rune3 (a b c : N) : Z := Z.of_N ((a - 0xE0) * 4096 + (b - 0x80) * 64 + (c - 0x80)).
Definition rune4 (a b c d : N) : Z :=
  Z.of_N ((a - 0xF0) * 262144 + (b - 0x80) * 4096 + (c - 0x80) * 64 + (d - 0x80)).

(** The first bytes of a character of three and of four bytes. *)
Definition head3 (a b : N) : bool :=
  (between 0xE1 0xEF a && negb (a =? 0xED)%N && cont b)
  || ((a =? 0xE0)%N && between 0xA0 0xBF b) || ((a =? 0xED)%N && between 0x80 0x9F b).
Definition head4 (a b : N) : bool :=
  (between 0xF1 0xF3 a && cont b) || ((a =? 0xF0)%N && between 0x90 0xBF b)
  || ((a =? 0xF4)%N && between 0x80 0x8F b).

(** [for _, r := range s]: a byte that starts no character is U+FFFD. *)
Fixpoint runes (l : list N) : list Z :=
  match l with
  | [] => []
  | a :: l1 =>
      if (a <? 0x80)%N then Z.of_N a :: runes l1
      else match l1 with
           | b :: l2 =>
               if between 0xC2 0xDF a && cont b then rune2 a b :: runes l2
               else match l2 with
                    | c :: l3 =>
                        if head3 a b && cont c then rune3 a b c :: runes l3
                        else match l3 with
                             | d :: l4 => if head4 a b && cont c && cont d then rune4 a b c d :: runes l4
                                          else 0xFFFD :: runes l1
                             | [] => 0xFFFD :: runes l1
                             end
                    | [] => 0xFFFD :: runes l1
                    end
           | [] => 0xFFFD :: runes l1
           end
  end.

(** The tables of [unicode]. *)
Class UnicodeTables := { IsLetter : Z → bool; IsDigit : Z → bool }.

(** ** Requests *)

Record VolumeAttachmentRequest := MkVolumeAttachmentRequest { var_VolumeID : string; var_MountPath : string }.
#[export] Instance eta_VolumeAttachmentRequest : Eta VolumeAttachmentRequest := fun x =>
  MkVolumeAttachmentRequest (var_VolumeID x) (var_MountPath x).

Record LaunchRequest := MkLaunchRequest {
  lr_Name : string; lr_Image : string; lr_Ports : string; lr_VpcID : string; lr_SubnetID : string;
  lr_Volumes : list VolumeAttachmentRequest
}.
#[export] Instance eta_LaunchRequest : Eta LaunchRequest := fun x =>
  MkLaunchRequest (lr_Name x) (lr_Image x) (lr_Ports x) (lr_VpcID x) (lr_SubnetID x) (lr_Volumes x).

Record CreateVolumeRequest := MkCreateVolumeRequest { cvr_Name : string; cvr_SizeGB : Z }.
#[export] Instance eta_CreateVolumeRequest : Eta CreateVolumeRequest := fun x =>
  MkCreateVolumeRequest (cvr_Name x) (cvr_SizeGB x).

Record CreateSnapshotRequest := MkCreateSnapshotRequest { csr_VolumeID : uuid; csr_Description : string }.
#[export] Instance eta_CreateSnapshotRequest : Eta CreateSnapshotRequest := fun x =>
  MkCreateSnapshotRequest (csr_VolumeID x) (csr_Description x).

Record RestoreSnapshotRequest := MkRestoreSnapshotRequest { rsr_NewVolumeName : string }.
#[export] Instance eta_RestoreSnapshotRequest : Eta RestoreSnapshotRequest := fun x =>
  MkRestoreSnapshotRequest (rsr_NewVolumeName x).

Record CreateVpcRequest := MkCreateVpcRequest { vpr_Name : string; vpr_CIDRBlock : string }.
#[export] Instance eta_CreateVpcRequest : Eta CreateVpcRequest := fun x =>
  MkCreateVpcRequest (vpr_Name x) (vpr_CIDRBlock x).

Record CreateSubnetRequest := MkCreateSubnetRequest {
  snr_Name : string; snr_CIDRBlock : string; snr_AvailabilityZone : string
}.
#[export] Instance eta_CreateSubnetRequest : Eta CreateSubnetRequest := fun x =>
  MkCreateSubnetRequest (snr_Name x) (snr_CIDRBlock x) (snr_AvailabilityZone x).

Record CreateSecurityGroupRequest := MkCreateSecurityGroupRequest {
  sgr_VPCID : uuid; sgr_Name : string; sgr_Description : string
}.
#[export] Instance eta_CreateSecurityGroupRequest : Eta CreateSecurityGroupRequest := fun x =>
  MkCreateSecurityGroupRequest (sgr_VPCID x) (sgr_Name x) (sgr_Description x).

Record AttachRequest := MkAttachRequest { atr_InstanceID : uuid; atr_GroupID : uuid }.
#[export] Instance eta_AttachRequest : Eta AttachRequest := fun x =>
  MkAttachRequest (atr_InstanceID x) (atr_GroupID x).

Section bindings.
Context `{Gin}.

#[export] Instance bind_LaunchRequest : Bindable LaunchRequest := {|
  bind_zero := MkLaunchRequest "" "" "" "" "" [];
  bind_decoder := decode_struct [
    field "name" lr_Name decode_string; field "image" lr_Image decode_string;
    field "ports" lr_Ports decode_string; field "vpc_id" lr_VpcID decode_string;
    field "subnet_id" lr_SubnetID decode_string;
    field "volumes" lr_Volumes (decode_slice (MkVolumeAttachmentRequest "" "") (decode_struct [
      field "volume_id" var_VolumeID decode_string; field "mount_path" var_MountPath decode_string]))];
  bind_rules r := [("Name", FString (lr_Name r), [Required]); ("Image", FString (lr_Image r), [Required])];
|}.

#[export] Instance bind_CreateVolumeRequest : Bindable CreateVolumeRequest := {|
  bind_zero := MkCreateVolumeRequest "" 0;
  bind_decoder := decode_struct [field "name" cvr_Name decode_string; field "size_gb" cvr_SizeGB decode_int];
  bind_rules r := [("Name", FString (cvr_Name r), [Required; Min 3; Max 64]);
                   ("SizeGB", FInt (cvr_SizeGB r), [Required; Min 1; Max 16000])];
|}.

#[export] Instance bind_CreateSnapshotRequest : Bindable CreateSnapshotRequest := {|
  bind_zero := MkCreateSnapshotRequest uuid_Nil "";
  bind_decoder := decode_struct [field "volume_id" csr_VolumeID decode_uuid;
                                 field "description" csr_Description decode_string];
  bind_rules r := [("VolumeID", FUUID (csr_VolumeID r), [Required])];
|}.

#[export] Instance bind_RestoreSnapshotRequest : Bindable RestoreSnapshotRequest := {|
  bind_zero := MkRestoreSnapshotRequest "";
  bind_decoder := decode_struct [field "new_volume_name" rsr_NewVolumeName decode_string];
  bind_rules r := [("NewVolumeName", FString (rsr_NewVolumeName r), [Required; Min 3; Max 64])];
|}.

#[export] Instance bind_CreateVpcRequest : Bindable CreateVpcRequest := {|
  bind_zero := MkCreateVpcRequest "" "";
  bind_decoder := decode_struct [field "name" vpr_Name decode_string;
                                 field "cidr_block" vpr_CIDRBlock decode_string];
  bind_rules r := [("Name", FString (vpr_Name r), [Required])];
|}.

#[export] Instance bind_CreateSubnetRequest : Bindable CreateSubnetRequest := {|
  bind_zero := MkCreateSubnetRequest "" "" "";
  bind_decoder := decode_struct [field "name" snr_Name decode_string;
    field "cidr_block" snr_CIDRBlock decode_string;
    field "availability_zone" snr_AvailabilityZone decode_string];
  bind_rules r := [("Name", FString (snr_Name r), [Required]);
                   ("CIDRBlock", FString (snr_CIDRBlock r), [Required])];
|}.

#[export] Instance bind_CreateSecurityGroupRequest : Bindable CreateSecurityGroupRequest := {|
  bind_zero := MkCreateSecurityGroupRequest uuid_Nil "" "";
  bind_decoder := decode_struct [field "vpc_id" sgr_VPCID decode_uuid;
    field "name" sgr_Name decode_string; field "description" sgr_Description decode_string];
  bind_rules r := [("VPCID", FUUID (sgr_VPCID r), [Required]); ("Name", FString (sgr_Name r), [Required])];
|}.

#[export] Instance bind_AttachRequest : Bindable AttachRequest := {|
  bind_zero := MkAttachRequest uuid_Nil uuid_Nil;
  bind_decoder := decode_struct [field "instance_id" atr_InstanceID decode_uuid;
                                 field "group_id" atr_GroupID decode_uuid];
  bind_rules r := [("InstanceID", FUUID (atr_InstanceID r), [Required]);
                   ("GroupID", FUUID (atr_GroupID r), [Required])];
|}.

(** A rule is bound as it is; no field of it has rules.  The zero time is the start of year 1. *)
Definition time_zero : time := -62135596800 * 1000000000.
#[export] Instance bind_SecurityRule : Bindable SecurityRule := {|
  bind_zero := MkSecurityRule uuid_Nil uuid_Nil "" "" 0 0 "" 0 time_zero;
  bind_decoder := decode_struct [
    field "id" rule_ID decode_uuid; field "group_id" rule_GroupID decode_uuid;
    field "direction" rule_Direction decode_string; field "protocol" rule_Protocol decode_string;
    field "port_min" rule_PortMin decode_int; field "port_max" rule_PortMax decode_int;
    field "cidr" rule_CIDR decode_string; field "priority" rule_Priority decode_int;
    field "created_at" rule_CreatedAt decode_time];
  bind_rules _ := [];
|}.

End bindings.

(** ** Instances *)

Definition maxNameLength : nat := 64.
Definition minNameLength : nat := 1.
Definition maxImageLength : nat := 256.

Section handlers.
Context `{Env, UnicodeTables, Gin} (getwd : option string) (defaultCIDR : string).

Definition isValidResourceName (name : string) : bool :=
  forallb (λ r, IsLetter r || IsDigit r || (r =? 45) || (r =? 95)) (runes (str_bytes name)).

(** The checks of the attachments, in their order, with the trimmed values. *)
Fixpoint validate_volumes (l : list VolumeAttachmentRequest) : error + list VolumeAttachmentRequest :=
  match l with
  | [] => inr []
  | v :: l' =>
      if bool_decide (TrimSpace (var_VolumeID v) = "")
      then inl (New InvalidInput "volume_id is required for volume attachment")
      else if bool_decide (TrimSpace (var_MountPath v) = "")
      then inl (New InvalidInput "mount_path is required for volume attachment")
      else if negb (HasPrefix (var_MountPath v) "/")
      then inl (New InvalidInput "mount_path must be an absolute path starting with /")
      else match validate_volumes l' with
           | inl err => inl err
           | inr vs => inr (MkVolumeAttachmentRequest (TrimSpace (var_VolumeID v)) (TrimSpace (var_MountPath v)) :: vs)
           end
  end.

(** The request is changed in place: the result is the request the handler goes on with. *)
Definition validateLaunchRequest (req : LaunchRequest) : error + LaunchRequest :=
  let name := TrimSpace (lr_Name req) in
  let image := TrimSpace (lr_Image req) in
  if (String.length name <? minNameLength)%nat || (maxNameLength <? String.length name)%nat
  then inl (New InvalidInput "name must be between 1 and 64 characters")
  else if negb (isValidResourceName name)
  then inl (New InvalidInput "name must contain only alphanumeric characters, hyphens, and underscores")
  else if bool_decide (image = "") then inl (New InvalidInput "image is required")
  else if (maxImageLength <? String.length image)%nat
  then inl (New InvalidInput "image name too long (max 256 characters)")
  else match validate_volumes (lr_Volumes req) with
       | inl err => inl err
       | inr volumes => inr (req <| lr_Name := name |> <| lr_Image := image |> <| lr_Volumes := volumes |>)
       end.

(** A [subnet_id] that is no identifier is dropped. *)
Definition InstanceHandler_Launch : Handler := λ ctx rq,
  bind_body (T := LaunchRequest) rq (invalid "invalid request body") (λ req,
  match validateLaunchRequest req with
  | inl err => Error err
  | inr req =>
      let launch vpcUUID :=
        let volumes := (λ v, MkVolumeAttachment (var_VolumeID v) (var_MountPath v)) <$> lr_Volumes req in
        let subnetUUID := if bool_decide (lr_SubnetID req = "") then None else uuid_parse (lr_SubnetID req) in
        respond (LaunchInstance ctx (lr_Name req) (lr_Image req) (lr_Ports req) vpcUUID subnetUUID volumes)
          (λ inst, Success 201 (PInstance inst)) in
      if bool_decide (lr_VpcID req = "") then launch None
      else match Parse (lr_VpcID req) with
           | inl _ => c_JSON 400 (error_object "invalid vpc_id format")
           | inr id => launch (Some id)
           end
  end).

Definition InstanceHandler_List : Handler := λ ctx rq,
  respond (ListInstances ctx) (λ instances, Success 200 (PInstances instances)).

Definition InstanceHandler_Stop : Handler := λ ctx rq,
  respond (Instance_Stop ctx (Param rq "id")) (λ _, Success 200 (message "instance stop initiated")).

Definition InstanceHandler_GetLogs : Handler := λ ctx rq,
  respond (InstanceLogs ctx (Param rq "id")) (λ logs, mret (MkResponse 200 (BText logs))).

Definition InstanceHandler_Get : Handler := λ ctx rq,
  respond (GetInstance ctx (Param rq "id")) (λ inst, Success 200 (PInstance inst)).

Definition InstanceHandler_Terminate : Handler := λ ctx rq,
  respond (TerminateInstance ctx (Param rq "id")) (λ _, Success 200 (message "instance terminated")).

Definition InstanceHandler_GetStats : Handler := λ ctx rq,
  respond (GetInstanceStats ctx (Param rq "id")) (λ stats, Success 200 (PInstanceStats stats)).

(** ** Volumes: the error of the binding is given to [httputil.Error] as it is *)

Definition VolumeHandler_Create : Handler := λ ctx rq,
  bind_body (T := CreateVolumeRequest) rq Error (λ req,
  respond (CreateVolume ctx (cvr_Name req) (cvr_SizeGB req)) (λ vol, Success 201 (PVolume vol))).

Definition VolumeHandler_List : Handler := λ ctx rq,
  respond (ListVolumes ctx) (λ volumes, Success 200 (PVolumes volumes)).

Definition VolumeHandler_Get : Handler := λ ctx rq,
  respond (GetVolume ctx (Param rq "id")) (λ vol, Success 200 (PVolume vol)).

Definition VolumeHandler_Delete : Handler := λ ctx rq,
  respond (DeleteVolume ctx (Param rq "id")) (λ _, Success 200 (message "volume deleted")).

(** ** Snapshots *)

Definition SnapshotHandler_Create : Handler := λ ctx rq,
  bind_body (T := CreateSnapshotRequest) rq Error (λ req,
  respond (CreateSnapshot ctx (csr_VolumeID req) (csr_Description req)) (λ snapshot,
  Success 201 (PSnapshot snapshot))).

Definition SnapshotHandler_List : Handler := λ ctx rq,
  respond (ListSnapshots ctx) (λ snapshots, Success 200 (PSnapshots snapshots)).

Definition SnapshotHandler_Get : Handler := λ ctx rq,
  param_uuid rq "id" Error (λ id,
  respond (GetSnapshot ctx id) (λ snapshot, Success 200 (PSnapshot snapshot))).

Definition SnapshotHandler_Delete : Handler := λ ctx rq,
  param_uuid rq "id" Error (λ id,
  respond (DeleteSnapshot ctx id) (λ _, Success 200 (message "snapshot deleted"))).

Definition SnapshotHandler_Restore : Handler := λ ctx rq,
  param_uuid rq "id" Error (λ id,
  bind_body (T := RestoreSnapshotRequest) rq Error (λ req,
  respond (RestoreSnapshot getwd ctx id (rsr_NewVolumeName req)) (λ vol, Success 201 (PVolume vol)))).

(** ** VPCs *)

Definition VpcHandler_Create : Handler := λ ctx rq,
  bind_body (T := CreateVpcRequest) rq bad_request_text (λ req,
  respond (CreateVPC defaultCIDR ctx (vpr_Name req) (vpr_CIDRBlock req)) (λ vpc, Success 201 (PVPC vpc))).

Definition VpcHandler_List : Handler := λ ctx rq,
  respond (ListVPCs ctx) (λ vpcs, Success 200 (PVPCs vpcs)).

Definition VpcHandler_Get : Handler := λ ctx rq,
  respond (GetVPC ctx (Param rq "id")) (λ vpc, Success 200 (PVPC vpc)).

Definition VpcHandler_Delete : Handler := λ ctx rq,
  respond (DeleteVPC ctx (Param rq "id")) (λ _, Success 200 (message "vpc deleted")).

(** ** Subnets *)

(** The VPC of the path: the parameter [vpc_id], or else [id]. *)
Definition subnet_vpc (rq : Request) (ok : uuid → M Response) : M Response :=
  let s := if bool_decide (Param rq "vpc_id" = "") then Param rq "id" else Param rq "vpc_id" in
  match Parse s with
  | inl err => bad_request "invalid vpc_id" err
  | inr id => ok id
  end.

Definition SubnetHandler_Create : Handler := λ ctx rq,
  subnet_vpc rq (λ vpcID,
  bind_body (T := CreateSubnetRequest) rq bad_request_text (λ req,
  respond (CreateSubnet ctx vpcID (snr_Name req) (snr_CIDRBlock req) (snr_AvailabilityZone req)) (λ subnet,
  Success 201 (PSubnet subnet)))).

Definition SubnetHandler_List : Handler := λ ctx rq,
  subnet_vpc rq (λ vpcID,
  respond (ListSubnets ctx vpcID) (λ subnets, Success 200 (PSubnets subnets))).

Definition SubnetHandler_Get : Handler := λ ctx rq,
  respond (GetSubnet ctx (Param rq "id") uuid_Nil) (λ subnet, Success 200 (PSubnet subnet)).

Definition SubnetHandler_Delete : Handler := λ ctx rq,
  param_uuid rq "id" (bad_request "invalid id") (λ id,
  respond (DeleteSubnet ctx id) (λ _, Success 200 (message "subnet deleted"))).

(** ** Security groups *)

Definition SecurityGroupHandler_Create : Handler := λ ctx rq,
  bind_body (T := CreateSecurityGroupRequest) rq bad_request_text (λ req,
  respond (secg_CreateGroup ctx (sgr_VPCID req) (sgr_Name req) (sgr_Description req)) (λ sg,
  Success 201 (PSecurityGroup sg))).

Definition SecurityGroupHandler_List : Handler := λ ctx rq,
  if bool_decide (Query rq "vpc_id" = "") then c_JSON 400 (error_object "vpc_id is required")
  else match Parse (Query rq "vpc_id") with
       | inl err => bad_request "invalid vpc_id" err
       | inr vpcID => respond (secg_ListGroups ctx vpcID) (λ groups, Success 200 (PSecurityGroups groups))
       end.

(** The error of [uuid.Parse] is dropped, and what it answers with it is used. *)
Definition SecurityGroupHandler_Get : Handler := λ ctx rq,
  let vpcID := if bool_decide (Query rq "vpc_id" = "") then uuid_Nil
               else default (uuid_partial (Query rq "vpc_id")) (uuid_parse (Query rq "vpc_id")) in
  respond (secg_GetGroup ctx (Param rq "id") vpcID) (λ sg, Success 200 (PSecurityGroup sg)).

Definition SecurityGroupHandler_Delete : Handler := λ ctx rq,
  param_uuid rq "id" (bad_request "invalid id") (λ id,
  respond (secg_DeleteGroup ctx id) (λ _, Success 200 (message "security group deleted"))).

Definition SecurityGroupHandler_AddRule : Handler := λ ctx rq,
  param_uuid rq "id" (bad_request "invalid group_id") (λ groupID,
  bind_body (T := SecurityRule) rq bad_request_text (λ req,
  respond (AddRule ctx groupID req) (λ rule, Success 201 (PSecurityRule rule)))).

Definition SecurityGroupHandler_Attach : Handler := λ ctx rq,
  bind_body (T := AttachRequest) rq bad_request_text (λ req,
  respond (AttachToInstance ctx (atr_InstanceID req) (atr_GroupID req)) (λ _,
  Success 200 (message "security group attached"))).

End handlers.
