(* ===== verification/OrchestrationHandlers.v ===== *)
(** * The handlers of load balancers, scaling groups, deployments and stacks

    [internal/handlers/lb_handler.go], [autoscaling_handler.go], [container_handler.go],
    [stack_handler.go]. *)
From S2P Require Import Prelude GoStd Encoding Errors Json Net Domain DomainData World Logic Sql LBService.
From S2P Require Import AutoScalingService Container Stack Storage Gin.

(** ** Requests *)

Record CreateLBRequest := MkCreateLBRequest {
  clr_Name : string; clr_VpcID : string; clr_Port : Z; clr_Algorithm : string
}.
#[export] Instance eta_CreateLBRequest : Eta CreateLBRequest := fun x =>
  MkCreateLBRequest (clr_Name x) (clr_VpcID x) (clr_Port x) (clr_Algorithm x).

Record AddTargetRequest := MkAddTargetRequest { adr_InstanceID : string; adr_Port : Z; adr_Weight : Z }.
#[export] Instance eta_AddTargetRequest : Eta AddTargetRequest := fun x =>
  MkAddTargetRequest (adr_InstanceID x) (adr_Port x) (adr_Weight x).

Record CreateGroupRequest := MkCreateGroupRequest {
  cgr_Name : string; cgr_VpcID : uuid; cgr_LoadBalancerID : option uuid; cgr_Image : string; cgr_Ports : string;
  cgr_MinInstances : Z; cgr_MaxInstances : Z; cgr_DesiredCount : Z
}.
#[export] Instance eta_CreateGroupRequest : Eta CreateGroupRequest := fun x =>
  MkCreateGroupRequest (cgr_Name x) (cgr_VpcID x) (cgr_LoadBalancerID x) (cgr_Image x) (cgr_Ports x)
    (cgr_MinInstances x) (cgr_MaxInstances x) (cgr_DesiredCount x).

Record CreateASPolicyRequest := MkCreateASPolicyRequest {
  apr_Name : string; apr_MetricType : string; apr_TargetValue : float64; apr_ScaleOut : Z; apr_ScaleIn : Z;
  apr_CooldownSec : Z
}.
#[export] Instance eta_CreateASPolicyRequest : Eta CreateASPolicyRequest := fun x =>
  MkCreateASPolicyRequest (apr_Name x) (apr_MetricType x) (apr_TargetValue x) (apr_ScaleOut x) (apr_ScaleIn x)
    (apr_CooldownSec x).

Record CreateDeploymentRequest := MkCreateDeploymentRequest {
  cdr_Name : string; cdr_Image : string; cdr_Replicas : Z; cdr_Ports : string
}.
#[export] Instance eta_CreateDeploymentRequest : Eta CreateDeploymentRequest := fun x =>
  MkCreateDeploymentRequest (cdr_Name x) (cdr_Image x) (cdr_Replicas x) (cdr_Ports x).

Record ScaleRequest := MkScaleRequest { scr_Replicas : Z }.
#[export] Instance eta_ScaleRequest : Eta ScaleRequest := fun x => MkScaleRequest (scr_Replicas x).

Record CreateStackRequest := MkCreateStackRequest {
  skr_Name : string; skr_Template : string; skr_Parameters : gmap string string
}.
#[export] Instance eta_CreateStackRequest : Eta CreateStackRequest := fun x =>
  MkCreateStackRequest (skr_Name x) (skr_Template x) (skr_Parameters x).

Record ValidateRequest := MkValidateRequest { vlr_Template : string }.
#[export] Instance eta_ValidateRequest : Eta ValidateRequest := fun x => MkValidateRequest (vlr_Template x).

Section bindings.
Context `{Gin}.

#[export] Instance bind_CreateLBRequest : Bindable CreateLBRequest := {|
  bind_zero := MkCreateLBRequest "" "" 0 "";
  bind_decoder := decode_struct [
    field "name" clr_Name decode_string; field "vpc_id" clr_VpcID decode_string;
    field "port" clr_Port decode_int; field "algorithm" clr_Algorithm decode_string];
  bind_rules r := [("Name", FString (clr_Name r), [Required]); ("VpcID", FString (clr_VpcID r), [Required]);
                   ("Port", FInt (clr_Port r), [Required])];
|}.

#[export] Instance bind_AddTargetRequest : Bindable AddTargetRequest := {|
  bind_zero := MkAddTargetRequest "" 0 0;
  bind_decoder := decode_struct [
    field "instance_id" adr_InstanceID decode_string; field "port" adr_Port decode_int;
    field "weight" adr_Weight decode_int];
  bind_rules r := [("InstanceID", FString (adr_InstanceID r), [Required]); ("Port", FInt (adr_Port r), [Required])];
|}.

#[export] Instance bind_CreateGroupRequest : Bindable CreateGroupRequest := {|
  bind_zero := MkCreateGroupRequest "" uuid_Nil None "" "" 0 0 0;
  bind_decoder := decode_struct [
    field "name" cgr_Name decode_string; field "vpc_id" cgr_VpcID decode_uuid;
    field "load_balancer_id" cgr_LoadBalancerID (decode_ptr uuid_Nil decode_uuid);
    field "image" cgr_Image decode_string; field "ports" cgr_Ports decode_string;
    field "min_instances" cgr_MinInstances decode_int; field "max_instances" cgr_MaxInstances decode_int;
    field "desired_count" cgr_DesiredCount decode_int];
  bind_rules r := [("Name", FString (cgr_Name r), [Required]); ("VpcID", FUUID (cgr_VpcID r), [Required]);
                   ("Image", FString (cgr_Image r), [Required]);
                   ("MaxInstances", FInt (cgr_MaxInstances r), [Required]);
                   ("DesiredCount", FInt (cgr_DesiredCount r), [Required])];
|}.

#[export] Instance bind_CreateASPolicyRequest : Bindable CreateASPolicyRequest := {|
  bind_zero := MkCreateASPolicyRequest "" "" (float_of_int 0) 0 0 0;
  bind_decoder := decode_struct [
    field "name" apr_Name decode_string; field "metric_type" apr_MetricType decode_string;
    field "target_value" apr_TargetValue decode_float64; field "scale_out_step" apr_ScaleOut decode_int;
    field "scale_in_step" apr_ScaleIn decode_int; field "cooldown_sec" apr_CooldownSec decode_int];
  bind_rules r := [("Name", FString (apr_Name r), [Required]);
                   ("MetricType", FString (apr_MetricType r), [Required]);
                   ("TargetValue", FFloat (apr_TargetValue r), [Required]);
                   ("ScaleOut", FInt (apr_ScaleOut r), [Required]); ("ScaleIn", FInt (apr_ScaleIn r), [Required]);
                   ("CooldownSec", FInt (apr_CooldownSec r), [Required])];
|}.

#[export] Instance bind_CreateDeploymentRequest : Bindable CreateDeploymentRequest := {|
  bind_zero := MkCreateDeploymentRequest "" "" 0 "";
  bind_decoder := decode_struct [
    field "name" cdr_Name decode_string; field "image" cdr_Image decode_string;
    field "replicas" cdr_Replicas decode_int; field "ports" cdr_Ports decode_string];
  bind_rules r := [("Name", FString (cdr_Name r), [Required]); ("Image", FString (cdr_Image r), [Required]);
                   ("Replicas", FInt (cdr_Replicas r), [Required])];
|}.

#[export] Instance bind_ScaleRequest : Bindable ScaleRequest := {|
  bind_zero := MkScaleRequest 0;
  bind_decoder := decode_struct [field "replicas" scr_Replicas decode_int];
  bind_rules r := [("Replicas", FInt (scr_Replicas r), [Required])];
|}.

#[export] Instance bind_CreateStackRequest : Bindable CreateStackRequest := {|
  bind_zero := MkCreateStackRequest "" "" ∅;
  bind_decoder := decode_struct [
    field "name" skr_Name decode_string; field "template" skr_Template decode_string;
    field "parameters" skr_Parameters decode_map];
  bind_rules r := [("Name", FString (skr_Name r), [Required]); ("Template", FString (skr_Template r), [Required])];
|}.

#[export] Instance bind_ValidateRequest : Bindable ValidateRequest := {|
  bind_zero := MkValidateRequest "";
  bind_decoder := decode_struct [field "template" vlr_Template decode_string];
  bind_rules r := [("Template", FString (vlr_Template r), [Required])];
|}.

End bindings.

Section handlers.
Context `{Env, Formats, Gin}.

(** ** Load balancers *)

Definition LBHandler_Create : Handler := λ ctx rq,
  bind_body (T := CreateLBRequest) rq (invalid "invalid request body") (λ req,
  match Parse (clr_VpcID req) with
  | inl err => invalid "invalid vpc_id format" err
  | inr vpcID =>
      let idempotencyKey := GetHeader rq "Idempotency-Key" in
      respond (LB_Create ctx (clr_Name req) vpcID (clr_Port req) (clr_Algorithm req) idempotencyKey)
        (λ lb, Success 202 (PLoadBalancer lb))
  end).

Definition LBHandler_List : Handler := λ ctx rq,
  respond (LB_List ctx) (λ lbs, Success 200 (PLoadBalancers lbs)).

Definition LBHandler_Get : Handler := λ ctx rq,
  param_uuid rq "id" (invalid "invalid id format") (λ id,
  respond (LB_Get ctx id) (λ lb, Success 200 (PLoadBalancer lb))).

Definition LBHandler_Delete : Handler := λ ctx rq,
  param_uuid rq "id" (invalid "invalid id format") (λ id,
  respond (LB_Delete ctx id) (λ _, Success 200 (message "load balancer deletion initiated"))).

Definition LBHandler_AddTarget : Handler := λ ctx rq,
  param_uuid rq "id" (invalid "invalid lb_id format") (λ lbID,
  bind_body (T := AddTargetRequest) rq (invalid "invalid request body") (λ req,
  match Parse (adr_InstanceID req) with
  | inl err => invalid "invalid instance_id format" err
  | inr instID =>
      respond (AddTarget ctx lbID instID (adr_Port req) (adr_Weight req)) (λ _,
      Success 201 (message "target added"))
  end)).

Definition LBHandler_RemoveTarget : Handler := λ ctx rq,
  param_uuid rq "id" (invalid "invalid lb_id format") (λ lbID,
  param_uuid rq "instanceId" (invalid "invalid instance_id format") (λ instID,
  respond (RemoveTarget ctx lbID instID) (λ _, Success 200 (message "target removed")))).

Definition LBHandler_ListTargets : Handler := λ ctx rq,
  param_uuid rq "id" (invalid "invalid lb_id format") (λ lbID,
  respond (ListTargets ctx lbID) (λ targets, Success 200 (PTargets targets))).

(** ** Scaling groups *)

Definition errInvalidGroupID : string := "invalid group id".

Definition AutoScalingHandler_CreateGroup : Handler := λ ctx rq,
  bind_body (T := CreateGroupRequest) rq invalid_text (λ req,
  let key := GetHeader rq "Idempotency-Key" in
  let params := MkCreateScalingGroupParams (cgr_Name req) (cgr_VpcID req) (cgr_Image req) (cgr_Ports req)
                  (cgr_MinInstances req) (cgr_MaxInstances req) (cgr_DesiredCount req)
                  (cgr_LoadBalancerID req) key in
  respond (CreateGroup ctx params) (λ group, Success 201 (PGroup group))).

Definition AutoScalingHandler_ListGroups : Handler := λ ctx rq,
  respond (ListGroups ctx) (λ groups, Success 200 (PGroups groups)).

Definition AutoScalingHandler_GetGroup : Handler := λ ctx rq,
  param_uuid rq "id" (invalid errInvalidGroupID) (λ id,
  respond (GetGroup ctx id) (λ group, Success 200 (PGroup group))).

Definition AutoScalingHandler_DeleteGroup : Handler := λ ctx rq,
  param_uuid rq "id" (invalid errInvalidGroupID) (λ id,
  respond (DeleteGroup ctx id) (λ _, Success 204 PNull)).

Definition AutoScalingHandler_CreatePolicy : Handler := λ ctx rq,
  param_uuid rq "id" (invalid errInvalidGroupID) (λ id,
  bind_body (T := CreateASPolicyRequest) rq invalid_text (λ req,
  let params := MkCreateScalingPolicyParams id (apr_Name req) (apr_MetricType req) (apr_TargetValue req)
                  (apr_ScaleOut req) (apr_ScaleIn req) (apr_CooldownSec req) in
  respond (CreatePolicy ctx params) (λ policy, Success 201 (PPolicy policy)))).

Definition AutoScalingHandler_DeletePolicy : Handler := λ ctx rq,
  param_uuid rq "id" (invalid "invalid policy id") (λ id,
  respond (DeletePolicy ctx id) (λ _, Success 204 PNull)).

(** ** Deployments *)

Definition ContainerHandler_CreateDeployment : Handler := λ ctx rq,
  bind_body (T := CreateDeploymentRequest) rq (invalid "Invalid request body") (λ req,
  respond (CreateDeployment ctx (cdr_Name req) (cdr_Image req) (cdr_Replicas req) (cdr_Ports req))
    (λ dep, Success 201 (PDeployment dep))).

Definition ContainerHandler_ListDeployments : Handler := λ ctx rq,
  respond (ListDeployments ctx) (λ deps, Success 200 (PDeployments deps)).

Definition ContainerHandler_GetDeployment : Handler := λ ctx rq,
  param_uuid rq "id" (invalid "Invalid deployment ID") (λ id,
  respond (GetDeployment ctx id) (λ dep, Success 200 (PDeployment dep))).

Definition ContainerHandler_ScaleDeployment : Handler := λ ctx rq,
  param_uuid rq "id" (invalid "Invalid deployment ID") (λ id,
  bind_body (T := ScaleRequest) rq (invalid "Invalid request body") (λ req,
  respond (ScaleDeployment ctx id (scr_Replicas req)) (λ _,
  Success 200 (message "Deployment scaling initiated")))).

Definition ContainerHandler_DeleteDeployment : Handler := λ ctx rq,
  param_uuid rq "id" (invalid "Invalid deployment ID") (λ id,
  respond (DeleteDeployment ctx id) (λ _, Success 200 (message "Deployment deletion initiated"))).

(** ** Stacks: answered without the envelope *)

Definition StackHandler_Create : Handler := λ ctx rq,
  bind_body (T := CreateStackRequest) rq Error (λ req,
  respond (CreateStack ctx (skr_Name req) (skr_Template req) (skr_Parameters req))
    (λ stack, c_JSON 201 (PStack stack))).

Definition StackHandler_List : Handler := λ ctx rq,
  respond (ListStacks ctx) (λ stacks, c_JSON 200 (PStacks stacks)).

Definition StackHandler_Get : Handler := λ ctx rq,
  param_uuid rq "id" Error (λ id,
  respond (GetStack ctx id) (λ stack, c_JSON 200 (PStack stack))).

Definition StackHandler_Delete : Handler := λ ctx rq,
  param_uuid rq "id" Error (λ id,
  respond (DeleteStack ctx id) (λ _, Success 200 (message "stack deleted"))).

Definition StackHandler_Validate : Handler := λ ctx rq,
  bind_body (T := ValidateRequest) rq Error (λ req,
  let '(valid, errors) := ValidateTemplate (vlr_Template req) in
  c_JSON 200 (PValidation valid errors)).

End handlers.
