(* ===== verification/DataHandlers.v ===== *)
(** * The handlers of data, messages, schedules, routes and functions

    [internal/handlers/secret_handler.go], [storage_handler.go], [cache_handler.go],
    [database_handler.go], [queue_handler.go], [notify_handler.go], [cron_handler.go],
    [gateway_handler.go], [function_handler.go]. *)
From S2P Require Import Prelude GoStd Encoding Errors Json Net Domain DomainData World Logic Sql Secret.
From S2P Require Import Storage Cache Database Queue Http Notify Cron Gateway Function Gin.

(** ** Requests *)

Record CreateSecretRequest := MkCreateSecretRequest {
  ser_Name : string; ser_Value : string; ser_Description : string
}.
#[export] Instance eta_CreateSecretRequest : Eta CreateSecretRequest := fun x =>
  MkCreateSecretRequest (ser_Name x) (ser_Value x) (ser_Description x).

Record CreateCacheRequest := MkCreateCacheRequest {
  car_Name : string; car_Version : string; car_MemoryMB : Z; car_VpcID : option uuid
}.
#[export] Instance eta_CreateCacheRequest : Eta CreateCacheRequest := fun x =>
  MkCreateCacheRequest (car_Name x) (car_Version x) (car_MemoryMB x) (car_VpcID x).

Record CreateDatabaseRequest := MkCreateDatabaseRequest {
  dar_Name : string; dar_Engine : string; dar_Version : string; dar_VpcID : option uuid
}.
#[export] Instance eta_CreateDatabaseRequest : Eta CreateDatabaseRequest := fun x =>
  MkCreateDatabaseRequest (dar_Name x) (dar_Engine x) (dar_Version x) (dar_VpcID x).

Record CreateQueueRequest := MkCreateQueueRequest {
  qur_Name : string; qur_VisibilityTimeout : option Z; qur_RetentionDays : option Z; qur_MaxMessageSize : option Z
}.
#[export] Instance eta_CreateQueueRequest : Eta CreateQueueRequest := fun x =>
  MkCreateQueueRequest (qur_Name x) (qur_VisibilityTimeout x) (qur_RetentionDays x) (qur_MaxMessageSize x).

Record SendMessageRequest := MkSendMessageRequest { smr_Body : string }.
#[export] Instance eta_SendMessageRequest : Eta SendMessageRequest := fun x => MkSendMessageRequest (smr_Body x).

Record CreateTopicRequest := MkCreateTopicRequest { ctr_Name : string }.
#[export] Instance eta_CreateTopicRequest : Eta CreateTopicRequest := fun x => MkCreateTopicRequest (ctr_Name x).

Record SubscribeRequest := MkSubscribeRequest { sbr_Protocol : string; sbr_Endpoint : string }.
#[export] Instance eta_SubscribeRequest : Eta SubscribeRequest := fun x =>
  MkSubscribeRequest (sbr_Protocol x) (sbr_Endpoint x).

Record PublishRequest := MkPublishRequest { pbr_Message : string }.
#[export] Instance eta_PublishRequest : Eta PublishRequest := fun x => MkPublishRequest (pbr_Message x).

Record CreateJobRequest := MkCreateJobRequest {
  cjr_Name : string; cjr_Schedule : string; cjr_TargetURL : string; cjr_TargetMethod : string;
  cjr_TargetPayload : string
}.
#[export] Instance eta_CreateJobRequest : Eta CreateJobRequest := fun x =>
  MkCreateJobRequest (cjr_Name x) (cjr_Schedule x) (cjr_TargetURL x) (cjr_TargetMethod x) (cjr_TargetPayload x).

Record CreateRouteRequest := MkCreateRouteRequest {
  crr_Name : string; crr_PathPrefix : string; crr_TargetURL : string; crr_StripPrefix : bool; crr_RateLimit : Z
}.
#[export] Instance eta_CreateRouteRequest : Eta CreateRouteRequest := fun x =>
  MkCreateRouteRequest (crr_Name x) (crr_PathPrefix x) (crr_TargetURL x) (crr_StripPrefix x) (crr_RateLimit x).

Record CreateFunctionRequest := MkCreateFunctionRequest {
  cfr_Name : string; cfr_Runtime : string; cfr_Handler : string
}.

Section bindings.
Context `{Gin}.

#[export] Instance bind_CreateSecretRequest : Bindable CreateSecretRequest := {|
  bind_zero := MkCreateSecretRequest "" "" "";
  bind_decoder := decode_struct [
    field "name" ser_Name decode_string; field "value" ser_Value decode_string;
    field "description" ser_Description decode_string];
  bind_rules r := [("Name", FString (ser_Name r), [Required]); ("Value", FString (ser_Value r), [Required])];
|}.

#[export] Instance bind_CreateCacheRequest : Bindable CreateCacheRequest := {|
  bind_zero := MkCreateCacheRequest "" "" 0 None;
  bind_decoder := decode_struct [
    field "name" car_Name decode_string; field "version" car_Version decode_string;
    field "memory_mb" car_MemoryMB decode_int; field "vpc_id" car_VpcID (decode_ptr uuid_Nil decode_uuid)];
  bind_rules r := [("Name", FString (car_Name r), [Required]); ("Version", FString (car_Version r), [Required]);
                   ("MemoryMB", FInt (car_MemoryMB r), [Required])];
|}.

#[export] Instance bind_CreateDatabaseRequest : Bindable CreateDatabaseRequest := {|
  bind_zero := MkCreateDatabaseRequest "" "" "" None;
  bind_decoder := decode_struct [
    field "name" dar_Name decode_string; field "engine" dar_Engine decode_string;
    field "version" dar_Version decode_string; field "vpc_id" dar_VpcID (decode_ptr uuid_Nil decode_uuid)];
  bind_rules r := [("Name", FString (dar_Name r), [Required]); ("Engine", FString (dar_Engine r), [Required]);
                   ("Version", FString (dar_Version r), [Required])];
|}.

#[export] Instance bind_CreateQueueRequest : Bindable CreateQueueRequest := {|
  bind_zero := MkCreateQueueRequest "" None None None;
  bind_decoder := decode_struct [
    field "name" qur_Name decode_string;
    field "visibility_timeout" qur_VisibilityTimeout (decode_ptr 0 decode_int);
    field "retention_days" qur_RetentionDays (decode_ptr 0 decode_int);
    field "max_message_size" qur_MaxMessageSize (decode_ptr 0 decode_int)];
  bind_rules r := [("Name", FString (qur_Name r), [Required])];
|}.

#[export] Instance bind_SendMessageRequest : Bindable SendMessageRequest := {|
  bind_zero := MkSendMessageRequest "";
  bind_decoder := decode_struct [field "body" smr_Body decode_string];
  bind_rules r := [("Body", FString (smr_Body r), [Required])];
|}.

#[export] Instance bind_CreateTopicRequest : Bindable CreateTopicRequest := {|
  bind_zero := MkCreateTopicRequest "";
  bind_decoder := decode_struct [field "name" ctr_Name decode_string];
  bind_rules r := [("Name", FString (ctr_Name r), [Required])];
|}.

#[export] Instance bind_SubscribeRequest : Bindable SubscribeRequest := {|
  bind_zero := MkSubscribeRequest "" "";
  bind_decoder := decode_struct [
    field "protocol" sbr_Protocol decode_string; field "endpoint" sbr_Endpoint decode_string];
  bind_rules r := [("Protocol", FString (sbr_Protocol r), [Required]);
                   ("Endpoint", FString (sbr_Endpoint r), [Required])];
|}.

#[export] Instance bind_PublishRequest : Bindable PublishRequest := {|
  bind_zero := MkPublishRequest "";
  bind_decoder := decode_struct [field "message" pbr_Message decode_string];
  bind_rules r := [("Message", FString (pbr_Message r), [Required])];
|}.

#[export] Instance bind_CreateJobRequest : Bindable CreateJobRequest := {|
  bind_zero := MkCreateJobRequest "" "" "" "" "";
  bind_decoder := decode_struct [
    field "name" cjr_Name decode_string; field "schedule" cjr_Schedule decode_string;
    field "target_url" cjr_TargetURL decode_string; field "target_method" cjr_TargetMethod decode_string;
    field "target_payload" cjr_TargetPayload decode_string];
  bind_rules r := [("Name", FString (cjr_Name r), [Required]); ("Schedule", FString (cjr_Schedule r), [Required]);
                   ("TargetURL", FString (cjr_TargetURL r), [Required])];
|}.

#[export] Instance bind_CreateRouteRequest : Bindable CreateRouteRequest := {|
  bind_zero := MkCreateRouteRequest "" "" "" false 0;
  bind_decoder := decode_struct [
    field "name" crr_Name decode_string; field "path_prefix" crr_PathPrefix decode_string;
    field "target_url" crr_TargetURL decode_string; field "strip_prefix" crr_StripPrefix decode_bool;
    field "rate_limit" crr_RateLimit decode_int];
  bind_rules r := [("Name", FString (crr_Name r), [Required]);
                   ("PathPrefix", FString (crr_PathPrefix r), [Required]);
                   ("TargetURL", FString (crr_TargetURL r), [Required])];
|}.

(** [c.ShouldBind] of the form. *)
Definition bind_form (rq : Request) : error + CreateFunctionRequest :=
  match form_fields rq with
  | inl err => inl err
  | inr m =>
      let get name := default "" (m !! name) in
      let rules := [("Name", FString (get "name"), [Required]); ("Runtime", FString (get "runtime"), [Required]);
                    ("Handler", FString (get "handler"), [Required])] in
      if forallb field_ok rules then inr (MkCreateFunctionRequest (get "name") (get "runtime") (get "handler"))
      else inl (validation_error rules)
  end.

End bindings.

Section handlers.
Context `{Env, Crypto, HttpEnv, CronParser, ZipReader, Gin} (masterKey : list N) (basePath : string).

(** ** Secrets: the path names a secret by its identifier or by its name *)

Definition SecretHandler_Create : Handler := λ ctx rq,
  bind_body (T := CreateSecretRequest) rq invalid_text (λ req,
  respond (CreateSecret masterKey ctx (ser_Name req) (ser_Value req) (ser_Description req)) (λ secret,
  Success 201 (PSecret secret))).

Definition SecretHandler_List : Handler := λ ctx rq,
  respond (ListSecrets ctx) (λ secrets, Success 200 (PSecrets secrets)).

Definition SecretHandler_Get : Handler := λ ctx rq,
  match Parse (Param rq "id") with
  | inl _ => respond (GetSecretByName masterKey ctx (Param rq "id")) (λ secret, Success 200 (PSecret secret))
  | inr id => respond (GetSecret masterKey ctx id) (λ secret, Success 200 (PSecret secret))
  end.

Definition SecretHandler_Delete : Handler := λ ctx rq,
  let delete id := respond (DeleteSecret ctx id) (λ _, Success 200 (message "secret deleted")) in
  match Parse (Param rq "id") with
  | inl _ => respond (GetSecretByName masterKey ctx (Param rq "id")) (λ secret, delete (sec_ID secret))
  | inr id => delete id
  end.

(** ** Objects *)

Definition StorageHandler_Upload : Handler := λ ctx rq,
  let bucket := Param rq "bucket" in
  let key := Param rq "key" in
  if bool_decide (bucket = "") || bool_decide (key = "")
  then Error (New InvalidInput "bucket and key are required")
  else respond (Upload basePath ctx bucket key (rq_Body rq)) (λ obj, Success 201 (PObject obj)).

Definition StorageHandler_Download : Handler := λ ctx rq,
  respond (Download basePath ctx (Param rq "bucket") (Param rq "key")) (λ r,
  let '(content, obj) := r in
  mret (MkResponse 200 (BFile (Param rq "key") (obj_ContentType obj) (obj_SizeBytes obj) content))).

Definition StorageHandler_List : Handler := λ ctx rq,
  respond (ListObjects ctx (Param rq "bucket")) (λ objects, Success 200 (PObjects objects)).

Definition StorageHandler_Delete : Handler := λ ctx rq,
  respond (DeleteObject ctx (Param rq "bucket") (Param rq "key")) (λ _, Success 204 PNull).

(** ** Caches *)

Definition CacheHandler_Create : Handler := λ ctx rq,
  bind_body (T := CreateCacheRequest) rq invalid_text (λ req,
  respond (CreateCache ctx (car_Name req) (car_Version req) (car_MemoryMB req) (car_VpcID req)) (λ cache,
  Success 201 (PCache cache))).

Definition CacheHandler_List : Handler := λ ctx rq,
  respond (ListCaches ctx) (λ caches, Success 200 (PCaches caches)).

Definition CacheHandler_Get : Handler := λ ctx rq,
  respond (GetCache ctx (Param rq "id")) (λ cache, Success 200 (PCache cache)).

Definition CacheHandler_Delete : Handler := λ ctx rq,
  respond (DeleteCache ctx (Param rq "id")) (λ _, Success 200 (message "cache deleted")).

Definition connection (s : string) : Payload := PMap [("connection_string", s)].

Definition CacheHandler_GetConnectionString : Handler := λ ctx rq,
  respond (cache_GetConnectionString ctx (Param rq "id")) (λ connStr, Success 200 (connection connStr)).

Definition CacheHandler_Flush : Handler := λ ctx rq,
  respond (FlushCache ctx (Param rq "id")) (λ _, Success 200 (message "cache flushed")).

Definition CacheHandler_GetStats : Handler := λ ctx rq,
  respond (GetCacheStats ctx (Param rq "id")) (λ stats, Success 200 (PCacheStats stats)).

(** ** Databases *)

Definition database_id (rq : Request) : (uuid → M Response) → M Response :=
  param_uuid rq "id" (invalid "invalid database id").

Definition DatabaseHandler_Create : Handler := λ ctx rq,
  bind_body (T := CreateDatabaseRequest) rq invalid_text (λ req,
  respond (CreateDatabase ctx (dar_Name req) (dar_Engine req) (dar_Version req) (dar_VpcID req)) (λ db,
  Success 201 (PDatabase db))).

Definition DatabaseHandler_List : Handler := λ ctx rq,
  respond (ListDatabases ctx) (λ dbs, Success 200 (PDatabases dbs)).

Definition DatabaseHandler_Get : Handler := λ ctx rq,
  database_id rq (λ id, respond (GetDatabase ctx id) (λ db, Success 200 (PDatabase db))).

Definition DatabaseHandler_Delete : Handler := λ ctx rq,
  database_id rq (λ id, respond (DeleteDatabase ctx id) (λ _, Success 200 (message "database deleted"))).

Definition DatabaseHandler_GetConnectionString : Handler := λ ctx rq,
  database_id rq (λ id,
  respond (database_GetConnectionString ctx id) (λ connStr, Success 200 (connection connStr))).

(** ** Queues *)

Definition QueueHandler_Create : Handler := λ ctx rq,
  bind_body (T := CreateQueueRequest) rq Error (λ req,
  let opts := MkCreateQueueOptions (qur_VisibilityTimeout req) (qur_RetentionDays req) (qur_MaxMessageSize req) in
  respond (CreateQueue ctx (qur_Name req) (Some opts)) (λ q, Success 201 (PQueue q))).

Definition QueueHandler_List : Handler := λ ctx rq,
  respond (ListQueues ctx) (λ queues, Success 200 (PQueues queues)).

Definition QueueHandler_Get : Handler := λ ctx rq,
  param_uuid rq "id" Error (λ id, respond (GetQueue ctx id) (λ q, Success 200 (PQueue q))).

Definition QueueHandler_Delete : Handler := λ ctx rq,
  param_uuid rq "id" Error (λ id, respond (DeleteQueue ctx id) (λ _, Success 204 PNull)).

Definition QueueHandler_SendMessage : Handler := λ ctx rq,
  param_uuid rq "id" Error (λ id,
  bind_body (T := SendMessageRequest) rq Error (λ req,
  respond (SendMessage ctx id (smr_Body req)) (λ msg, Success 201 (PMessage msg)))).

Definition QueueHandler_ReceiveMessages : Handler := λ ctx rq,
  param_uuid rq "id" Error (λ id,
  let max := default 1 (Sscanf_d (DefaultQuery rq "max_messages" "1")) in
  respond (ReceiveMessages ctx id max) (λ msgs, Success 200 (PMessages msgs))).

Definition QueueHandler_DeleteMessage : Handler := λ ctx rq,
  param_uuid rq "id" Error (λ id,
  let handle := Param rq "handle" in
  if bool_decide (handle = "") then Error (Errorf "receipt handle is required")
  else respond (DeleteMessage ctx id handle) (λ _, Success 204 PNull)).

Definition QueueHandler_Purge : Handler := λ ctx rq,
  param_uuid rq "id" Error (λ id, respond (PurgeQueue ctx id) (λ _, Success 204 PNull)).

(** ** Notifications *)

Definition topic_id (rq : Request) : (uuid → M Response) → M Response :=
  param_uuid rq "id" (invalid "Invalid topic ID").

Definition NotifyHandler_CreateTopic : Handler := λ ctx rq,
  bind_body (T := CreateTopicRequest) rq (invalid "Invalid request body") (λ req,
  respond (CreateTopic ctx (ctr_Name req)) (λ topic, Success 201 (PTopic topic))).

Definition NotifyHandler_ListTopics : Handler := λ ctx rq,
  respond (ListTopics ctx) (λ topics, Success 200 (PTopics topics)).

Definition NotifyHandler_DeleteTopic : Handler := λ ctx rq,
  topic_id rq (λ id, respond (DeleteTopic ctx id) (λ _, Success 200 (message "Topic deleted"))).

Definition NotifyHandler_Subscribe : Handler := λ ctx rq,
  topic_id rq (λ topicID,
  bind_body (T := SubscribeRequest) rq (invalid "Invalid request body") (λ req,
  respond (Subscribe ctx topicID (sbr_Protocol req) (sbr_Endpoint req)) (λ sub,
  Success 201 (PSubscription sub)))).

Definition NotifyHandler_ListSubscriptions : Handler := λ ctx rq,
  topic_id rq (λ topicID,
  respond (ListSubscriptions ctx topicID) (λ subs, Success 200 (PSubscriptions subs))).

Definition NotifyHandler_Unsubscribe : Handler := λ ctx rq,
  param_uuid rq "id" (invalid "Invalid subscription ID") (λ id,
  respond (Unsubscribe ctx id) (λ _, Success 200 (message "Unsubscribed"))).

Definition NotifyHandler_Publish : Handler := λ ctx rq,
  topic_id rq (λ topicID,
  bind_body (T := PublishRequest) rq (invalid "Invalid request body") (λ req,
  respond (Publish ctx topicID (pbr_Message req)) (λ _, Success 200 (message "Message published")))).

(** ** Schedules *)

Definition job_id (rq : Request) : (uuid → M Response) → M Response :=
  param_uuid rq "id" (invalid "Invalid job ID").

Definition CronHandler_CreateJob : Handler := λ ctx rq,
  bind_body (T := CreateJobRequest) rq (invalid "Invalid request body") (λ req,
  let method := if bool_decide (cjr_TargetMethod req = "") then "POST" else cjr_TargetMethod req in
  respond (CreateJob ctx (cjr_Name req) (cjr_Schedule req) (cjr_TargetURL req) method (cjr_TargetPayload req))
    (λ job, Success 201 (PJob job))).

Definition CronHandler_ListJobs : Handler := λ ctx rq,
  respond (ListJobs ctx) (λ jobs, Success 200 (PJobs jobs)).

Definition CronHandler_GetJob : Handler := λ ctx rq,
  job_id rq (λ id, respond (GetJob ctx id) (λ job, Success 200 (PJob job))).

Definition CronHandler_PauseJob : Handler := λ ctx rq,
  job_id rq (λ id, respond (PauseJob ctx id) (λ _, Success 200 (message "Job paused"))).

Definition CronHandler_ResumeJob : Handler := λ ctx rq,
  job_id rq (λ id, respond (ResumeJob ctx id) (λ _, Success 200 (message "Job resumed"))).

Definition CronHandler_DeleteJob : Handler := λ ctx rq,
  job_id rq (λ id, respond (cron_DeleteJob ctx id) (λ _, Success 200 (message "Job deleted"))).

(** ** The gateway *)

Definition GatewayHandler_CreateRoute : Handler := λ ctx rq,
  bind_body (T := CreateRouteRequest) rq (invalid "Invalid request body") (λ req,
  let rateLimit := if bool_decide (crr_RateLimit req = 0) then 100 else crr_RateLimit req in
  respond (CreateRoute ctx (crr_Name req) (crr_PathPrefix req) (crr_TargetURL req) (crr_StripPrefix req) rateLimit)
    (λ route, Success 201 (PRoute route))).

Definition GatewayHandler_ListRoutes : Handler := λ ctx rq,
  respond (ListRoutes ctx) (λ routes, Success 200 (PRoutes routes)).

Definition GatewayHandler_DeleteRoute : Handler := λ ctx rq,
  param_uuid rq "id" (invalid "Invalid route ID") (λ id,
  respond (DeleteRoute ctx id) (λ _, Success 200 (message "Route deleted"))).

(** The answer is that of the server behind the route, which is not modelled: its status is
    written 0. *)
Definition GatewayHandler_Proxy : Handler := λ ctx rq,
  let param := Param rq "proxy" in
  respond (gw_Proxy param) (λ proxy,
  match proxy with
  | None =>
      let path := if HasPrefix param "/" then param else "/" +:+ param in
      c_JSON 404 (error_object ("No route found for " +:+ path))
  | Some (host, path) => mret (MkResponse 0 (BProxied path host))
  end).

(** ** Functions *)

Definition function_id (rq : Request) : (uuid → M Response) → M Response :=
  param_uuid rq "id" (invalid "invalid function id").

Definition FunctionHandler_Create : Handler := λ ctx rq,
  match bind_form rq with
  | inl err => Error (Wrap InvalidInput "invalid request" err)
  | inr req =>
      match form_file rq "code" with
      | inl err => Error (Wrap InvalidInput "code file is required" err)
      | inr (inl err) => Error (Wrap Internal "failed to open code file" err)
      | inr (inr (inl err)) => Error (Wrap Internal "failed to read code file" err)
      | inr (inr (inr code)) =>
          respond (CreateFunction basePath ctx (cfr_Name req) (cfr_Runtime req) (cfr_Handler req) code) (λ function,
          Success 201 (PFunction function))
      end
  end.

Definition FunctionHandler_List : Handler := λ ctx rq,
  respond (ListFunctions ctx) (λ functions, Success 200 (PFunctions functions)).

Definition FunctionHandler_Get : Handler := λ ctx rq,
  function_id rq (λ id, respond (GetFunction ctx id) (λ function, Success 200 (PFunction function))).

Definition FunctionHandler_Delete : Handler := λ ctx rq,
  function_id rq (λ id, respond (DeleteFunction ctx id) (λ _, Success 200 (message "function deleted"))).

Definition FunctionHandler_Invoke : Handler := λ ctx rq,
  function_id rq (λ id,
  match ReadAll (rq_Body rq) with
  | inl err => Error (Wrap InvalidInput "failed to read payload" err)
  | inr payload =>
      let async := bool_decide (Query rq "async" = "true") in
      respond (InvokeFunction basePath ctx id payload async) (λ invocation,
      Success (if async then 202 else 200) (PInvocation invocation))
  end).

Definition FunctionHandler_GetLogs : Handler := λ ctx rq,
  function_id rq (λ id, respond (GetFunctionLogs ctx id 100) (λ logs, Success 200 (PInvocations logs))).

End handlers.
