(* ===== verification/IdentityHandlers.v ===== *)
(** * The handlers of accounts, keys, roles, logs and health

    [internal/handlers/auth_handler.go], [identity_handler.go], [rbac_handler.go],
    [audit_handler.go], [event_handler.go], [dashboard_handler.go], [health_handler.go],
    [ws/handler.go]. *)
From S2P Require Import Prelude GoStd Encoding Errors Json Net Domain DomainData World Logic Sql InstanceRepo.
From S2P Require Import Rbac Secret Auth Dashboard Storage Cache Gin.

(** ** Requests *)

Record RegisterRequest := MkRegisterRequest { rgr_Email : string; rgr_Password : string; rgr_Name : string }.
#[export] Instance eta_RegisterRequest : Eta RegisterRequest := fun x =>
  MkRegisterRequest (rgr_Email x) (rgr_Password x) (rgr_Name x).

Record LoginRequest := MkLoginRequest { lgr_Email : string; lgr_Password : string }.
#[export] Instance eta_LoginRequest : Eta LoginRequest := fun x => MkLoginRequest (lgr_Email x) (lgr_Password x).

Record ForgotPasswordRequest := MkForgotPasswordRequest { fpr_Email : string }.
#[export] Instance eta_ForgotPasswordRequest : Eta ForgotPasswordRequest := fun x =>
  MkForgotPasswordRequest (fpr_Email x).

Record ResetPasswordRequest := MkResetPasswordRequest { rpr_Token : string; rpr_NewPassword : string }.
#[export] Instance eta_ResetPasswordRequest : Eta ResetPasswordRequest := fun x =>
  MkResetPasswordRequest (rpr_Token x) (rpr_NewPassword x).

Record CreateKeyRequest := MkCreateKeyRequest { ckr_Name : string }.
#[export] Instance eta_CreateKeyRequest : Eta CreateKeyRequest := fun x => MkCreateKeyRequest (ckr_Name x).

Record CreateRoleRequest := MkCreateRoleRequest {
  ror_Name : string; ror_Description : string; ror_Permissions : list string
}.
#[export] Instance eta_CreateRoleRequest : Eta CreateRoleRequest := fun x =>
  MkCreateRoleRequest (ror_Name x) (ror_Description x) (ror_Permissions x).

Record AddPermissionRequest := MkAddPermissionRequest { per_Permission : string }.
#[export] Instance eta_AddPermissionRequest : Eta AddPermissionRequest := fun x =>
  MkAddPermissionRequest (per_Permission x).

Record BindRoleRequest := MkBindRoleRequest { brr_UserIdentifier : string; brr_RoleName : string }.
#[export] Instance eta_BindRoleRequest : Eta BindRoleRequest := fun x =>
  MkBindRoleRequest (brr_UserIdentifier x) (brr_RoleName x).

Section bindings.
Context `{Gin}.

#[export] Instance bind_RegisterRequest : Bindable RegisterRequest := {|
  bind_zero := MkRegisterRequest "" "" "";
  bind_decoder := decode_struct [
    field "email" rgr_Email decode_string; field "password" rgr_Password decode_string;
    field "name" rgr_Name decode_string];
  bind_rules r := [("Email", FString (rgr_Email r), [Required; Email; Max 255]);
                   ("Password", FString (rgr_Password r), [Required; Min 8; Max 72]);
                   ("Name", FString (rgr_Name r), [Required; Min 2; Max 100])];
|}.

#[export] Instance bind_LoginRequest : Bindable LoginRequest := {|
  bind_zero := MkLoginRequest "" "";
  bind_decoder := decode_struct [
    field "email" lgr_Email decode_string; field "password" lgr_Password decode_string];
  bind_rules r := [("Email", FString (lgr_Email r), [Required; Email; Max 255]);
                   ("Password", FString (lgr_Password r), [Required; Max 72])];
|}.

#[export] Instance bind_ForgotPasswordRequest : Bindable ForgotPasswordRequest := {|
  bind_zero := MkForgotPasswordRequest "";
  bind_decoder := decode_struct [field "email" fpr_Email decode_string];
  bind_rules r := [("Email", FString (fpr_Email r), [Required; Email])];
|}.

#[export] Instance bind_ResetPasswordRequest : Bindable ResetPasswordRequest := {|
  bind_zero := MkResetPasswordRequest "" "";
  bind_decoder := decode_struct [
    field "token" rpr_Token decode_string; field "new_password" rpr_NewPassword decode_string];
  bind_rules r := [("Token", FString (rpr_Token r), [Required]);
                   ("NewPassword", FString (rpr_NewPassword r), [Required; Min 8; Max 72])];
|}.

#[export] Instance bind_CreateKeyRequest : Bindable CreateKeyRequest := {|
  bind_zero := MkCreateKeyRequest "";
  bind_decoder := decode_struct [field "name" ckr_Name decode_string];
  bind_rules r := [("Name", FString (ckr_Name r), [Required])];
|}.

#[export] Instance bind_CreateRoleRequest : Bindable CreateRoleRequest := {|
  bind_zero := MkCreateRoleRequest "" "" [];
  bind_decoder := decode_struct [
    field "name" ror_Name decode_string; field "description" ror_Description decode_string;
    field "permissions" ror_Permissions (decode_slice "" decode_string)];
  bind_rules r := [("Name", FString (ror_Name r), [Required])];
|}.

#[export] Instance bind_AddPermissionRequest : Bindable AddPermissionRequest := {|
  bind_zero := MkAddPermissionRequest "";
  bind_decoder := decode_struct [field "permission" per_Permission decode_string];
  bind_rules r := [("Permission", FString (per_Permission r), [Required])];
|}.

#[export] Instance bind_BindRoleRequest : Bindable BindRoleRequest := {|
  bind_zero := MkBindRoleRequest "" "";
  bind_decoder := decode_struct [
    field "user_identifier" brr_UserIdentifier decode_string; field "role_name" brr_RoleName decode_string];
  bind_rules r := [("UserIdentifier", FString (brr_UserIdentifier r), [Required]);
                   ("RoleName", FString (brr_RoleName r), [Required])];
|}.

End bindings.

Section handlers.
Context `{Env, Crypto, Gin}.

(** [httputil.GetUserID]: the middleware puts the same user into both contexts. *)
Definition GetUserID (ctx : Context) : uuid := UserIDFromContext ctx.

(** ** Accounts *)

Definition AuthHandler_Register : Handler := λ ctx rq,
  bind_body (T := RegisterRequest) rq invalid_text (λ req,
  respond (Register ctx (rgr_Email req) (rgr_Password req) (rgr_Name req)) (λ user, Success 201 (PUser user))).

Definition AuthHandler_Login : Handler := λ ctx rq,
  bind_body (T := LoginRequest) rq invalid_text (λ req,
  respond (Login ctx (lgr_Email req) (lgr_Password req)) (λ r, Success 200 (PLogin r.1 r.2))).

(** The error is dropped, so that nobody learns which accounts exist. *)
Definition AuthHandler_ForgotPassword : Handler := λ ctx rq,
  bind_body (T := ForgotPasswordRequest) rq invalid_text (λ req,
  ignore (RequestReset (fpr_Email req)) ;;
  Success 200 (message "If the email exists, a reset token has been sent.")).

Definition AuthHandler_ResetPassword : Handler := λ ctx rq,
  bind_body (T := ResetPasswordRequest) rq invalid_text (λ req,
  respond (ResetPassword (rpr_Token req) (rpr_NewPassword req)) (λ _,
  Success 200 (message "password updated successfully"))).

(** ** Keys *)

Definition IdentityHandler_CreateKey : Handler := λ ctx rq,
  bind_body (T := CreateKeyRequest) rq Error (λ req,
  respond (CreateKey (GetUserID ctx) (ckr_Name req)) (λ key, Success 201 (PKey key))).

Definition IdentityHandler_ListKeys : Handler := λ ctx rq,
  respond (ListKeys (GetUserID ctx)) (λ keys, Success 200 (PKeys keys)).

Definition IdentityHandler_RevokeKey : Handler := λ ctx rq,
  param_uuid rq "id" Error (λ id, respond (RevokeKey (GetUserID ctx) id) (λ _, c_Status 204)).

Definition IdentityHandler_RotateKey : Handler := λ ctx rq,
  param_uuid rq "id" Error (λ id, respond (RotateKey (GetUserID ctx) id) (λ newKey, Success 200 (PKey newKey))).

Definition IdentityHandler_RegenerateKey : Handler := IdentityHandler_RotateKey.

(** ** Roles: answered without the envelope *)

(** [CreateRole] of the service with the role it leaves in the variable of the handler. *)
Definition created_role (role : Role) : M Role :=
  role ← (if bool_decide (role_ID role = uuid_Nil) then
            id ← uuid_New; mret (role <| role_ID := id |>)
          else mret role);
  role_CreateRole role ;;
  mret role.

Definition RBACHandler_CreateRole : Handler := λ ctx rq,
  bind_body (T := CreateRoleRequest) rq Error (λ req,
  let role := MkRole uuid_Nil (ror_Name req) (ror_Description req) (ror_Permissions req) in
  respond (created_role role) (λ role, c_JSON 201 (PRole role))).

Definition RBACHandler_ListRoles : Handler := λ ctx rq,
  respond ListRoles (λ roles, c_JSON 200 (PRoles roles)).

Definition RBACHandler_GetRole : Handler := λ ctx rq,
  match Parse (Param rq "id") with
  | inr id => respond (GetRoleByID id) (λ role, c_JSON 200 (PRole role))
  | inl _ => respond (GetRoleByName (Param rq "id")) (λ role, c_JSON 200 (PRole role))
  end.

Definition RBACHandler_UpdateRole : Handler := λ ctx rq,
  param_uuid rq "id" Error (λ id,
  bind_body (T := CreateRoleRequest) rq Error (λ req,
  let role := MkRole id (ror_Name req) (ror_Description req) (ror_Permissions req) in
  respond (UpdateRole role) (λ _, c_JSON 200 (PRole role)))).

Definition RBACHandler_DeleteRole : Handler := λ ctx rq,
  param_uuid rq "id" Error (λ id, respond (DeleteRole id) (λ _, c_Status 204)).

Definition RBACHandler_AddPermission : Handler := λ ctx rq,
  param_uuid rq "id" Error (λ id,
  bind_body (T := AddPermissionRequest) rq Error (λ req,
  respond (AddPermissionToRole id (per_Permission req)) (λ _, c_Status 204))).

Definition RBACHandler_RemovePermission : Handler := λ ctx rq,
  param_uuid rq "id" Error (λ id,
  respond (RemovePermissionFromRole id (Param rq "permission")) (λ _, c_Status 204)).

Definition RBACHandler_BindRole : Handler := λ ctx rq,
  bind_body (T := BindRoleRequest) rq Error (λ req,
  respond (BindRole (brr_UserIdentifier req) (brr_RoleName req)) (λ _, c_Status 204)).

Definition RBACHandler_ListRoleBindings : Handler := λ ctx rq,
  respond ListRoleBindings (λ bindings, c_JSON 200 (PUsers bindings)).

(** ** Logs, events and the dashboard *)

(** The error of [strconv.Atoi] is dropped. *)
Definition AuditHandler_ListLogs : Handler := λ ctx rq,
  let limit := ParseInt_value (DefaultQuery rq "limit" "50") in
  respond (ListLogs (GetUserID ctx) limit) (λ logs, Success 200 (PLogs logs)).

Definition EventHandler_List : Handler := λ ctx rq,
  let limit := ParseInt_value (DefaultQuery rq "limit" "50") in
  respond (ListEvents ctx limit) (λ events, Success 200 (PEvents events)).

Definition DashboardHandler_GetSummary : Handler := λ ctx rq,
  respond (GetSummary ctx) (λ summary, Success 200 (PSummary summary)).

(** At most 100 events; a limit that is no positive number is 10. *)
Definition events_limit (s : string) : Z :=
  let limit := match Atoi s with
               | Some n => if n <=? 0 then 10 else n
               | None => 10
               end in
  if 100 <? limit then 100 else limit.

Definition DashboardHandler_GetRecentEvents : Handler := λ ctx rq,
  let limit := events_limit (DefaultQuery rq "limit" "10") in
  respond (GetRecentEvents ctx limit) (λ events, Success 200 (PEvents events)).

Definition DashboardHandler_GetStats : Handler := λ ctx rq,
  respond (GetStats ctx) (λ stats, Success 200 (PStats stats)).

(** The summaries of a stream, one at once and one per tick; one that fails is left out. *)
Fixpoint stream_summaries (ctx : Context) (ticks : nat) : M (list ResourceSummary) :=
  r ← attempt (GetSummary ctx);
  let now := match r with inl _ => [] | inr summary => [summary] end in
  match ticks with
  | O => mret now
  | S ticks' => rest ← stream_summaries ctx ticks'; mret (now ++ rest)
  end.

Definition DashboardHandler_StreamEvents : Handler := λ ctx rq,
  summaries ← stream_summaries ctx (stream_ticks rq);
  mret (MkResponse 200 (BStream summaries)).

(** ** Health *)

Definition HealthHandler_Live : Handler := λ ctx rq, c_JSON 200 (PMap [("status", "ok")]).

Definition HealthHandler_Ready : Handler := λ ctx rq,
  result ← Check;
  let status := if mem (hc_Status result) ["DEGRADED"; "DOWN"] then 503 else 200 in
  c_JSON status (PHealth result).

(** [/health/ovs] of the router, for a backend other than the no-op one. *)
Definition health_ovs : Handler := λ ctx rq,
  if has_network then
    r ← attempt (perform PingNetwork);
    match r with
    | inl err => c_JSON 503 (PMap [("status", "unhealthy"); ("error", error_text err)])
    | inr _ => c_JSON 200 (PMap [("status", "healthy")])
    end
  else c_JSON 503 (PMap [("status", "unavailable"); ("error", "network backend not initialized")]).

End handlers.

(** ** The handshake of a WebSocket: [handlers/ws/handler.go] *)

Section ws.
Context `{Env, Gin}.

(** Upgrading a connection is done by a library: whether it succeeds is a parameter. *)
Context (upgrade : Request → bool).

(** What a handshake ends with: a response of the handler, one of the library, or a client of
    the hub with its [userID], which then registers ([Hub.step_register]) and starts its pumps. *)
Inductive Handshake :=
  | Answered (resp : Response)
  | UpgradeFailed
  | Connected (userID : string).

Definition ServeWS (rq : Request) : M Handshake :=
  let apiKey := Query rq "api_key" in
  if bool_decide (apiKey = "") then resp ← c_JSON 401 (error_object "api_key required"); mret (Answered resp)
  else
    r ← attempt (ValidateAPIKey apiKey);
    match r with
    | inl err => resp ← c_JSON 401 (error_object "invalid api_key"); mret (Answered resp)
    | inr _ => mret (if upgrade rq then Connected apiKey else UpgradeFailed)
    end.

End ws.
