(* ===== verification/Host.v ===== *)
(** * What the adapters of the backends act on

    [internal/repositories/docker], [libvirt] and [ovs] run commands and call the clients of
    Docker and libvirt.  A [Host] is the history of those calls, with the state a
    [LibvirtAdapter] keeps in memory and the database an adapter may read; [H] is the monad
    of Go code over it.  What a call answers is a parameter: the class [HostEnv].  The program
    logic of [H] follows. *)
From S2P Require Import Prelude GoStd Encoding Net Errors Domain DomainData World Logic.

(** ** Calls *)

(** [container.Config], [container.HostConfig]: the fields the adapters set. *)
Record ContainerConfig := MkContainerConfig {
  cc_Image : string;
  cc_Cmd : list string;
  cc_Env : list string;
  cc_WorkingDir : string;
  cc_NetworkDisabled : bool;
  cc_ExposedPorts : gset string
}.

Record HostConfig := MkHostConfig {
  hc_Binds : list string;
  (** the address and the port of the host, by port and protocol of the container *)
  hc_PortBindings : gmap string (list (string * string));
  hc_Memory : Z;
  hc_NanoCPUs : Z;
  hc_ReadonlyRootfs : bool;
  hc_SecurityOpt : list string;
  hc_PidsLimit : option Z
}.

(** What [ContainerInspect] tells: the host ports of each port, and the addresses of the
    networks in the order the runtime walks the map. *)
Record Inspection := MkInspection {
  in_Ports : gmap string (list string);
  in_IPAddresses : list string
}.

(** What a wait ends with: an error or nil on one channel, a status on the other, or the end
    of the context. *)
Inductive WaitResult :=
  | WaitErr (e : option error)
  | WaitStatus (code : Z)
  | WaitDone (e : error).

(** A storage pool, a volume, a domain and a network of libvirt are named by a string. *)
Inductive HostCall :=
  (* os/exec *)
  | Run (argv : list string)
  | Output (argv : list string)
  | LookPath (file : string)
  (* os *)
  | OsRemove (path : string)
  | OsRemoveAll (path : string)
  | OsMkdirAll (path : string)
  | OsMkdirTemp (pattern : string)
  | OsWriteFile (path content : string)
  | OsOpen (path : string)
  | OsReadDir (path : string)
  | OsStat (path : string)
  (* github.com/digitalocean/go-libvirt *)
  | StoragePoolLookupByName (name : string)
  | StoragePoolRefresh (pool : string)
  | StorageVolCreateXML (pool xml : string)
  | StorageVolLookupByName (pool name : string)
  | StorageVolGetPath (vol : string)
  | StorageVolDelete (vol : string)
  | DomainDefineXML (xml : string)
  | DomainCreate (dom : string)
  | DomainUndefine (dom : string)
  | DomainDestroy (dom : string)
  | DomainLookupByName (name : string)
  | DomainGetState (dom : string)
  | DomainGetXMLDesc (dom : string)
  | DomainMemoryStats (dom : string)
  | NetworkLookupByName (name : string)
  | NetworkGetDhcpLeases (net : string)
  | NetworkDefineXML (xml : string)
  | NetworkCreate (net : string)
  | NetworkDestroy (net : string)
  | NetworkUndefine (net : string)
  (* github.com/docker/docker/client *)
  | ImagePull (image : string)
  | ContainerCreate (config : ContainerConfig) (host : HostConfig) (networks : list string) (name : string)
  | ContainerStart (id : string)
  | ContainerStop (id : string)
  | ContainerRemove (id : string)
  | ContainerLogs (id : string)
  | ContainerStats (id : string)
  | ContainerInspect (id : string)
  | ContainerWait (id : string)
  | ContainerExecCreate (id : string) (cmd : list string)
  | ContainerExecStart (exec : string)
  | ContainerExecAttach (exec : string)
  | ContainerExecInspect (exec : string)
  | DockerNetworkCreate (name driver : string)
  | DockerNetworkRemove (id : string)
  | DockerVolumeCreate (name : string)
  | DockerVolumeRemove (name : string)
  (* the next tick of a [time.Ticker], or the end of the context *)
  | Tick.

Definition host_resp (c : HostCall) : Type :=
  match c with
  | Output _ | LookPath _ | OsMkdirTemp _ | OsOpen _ => string
  | OsReadDir _ => list string
  | StoragePoolLookupByName _ | StorageVolCreateXML _ _ | StorageVolLookupByName _ _
  | StorageVolGetPath _ | DomainDefineXML _ | DomainLookupByName _ | DomainGetXMLDesc _
  | NetworkLookupByName _ | NetworkDefineXML _ => string
  | DomainGetState _ => Z
  | DomainMemoryStats _ => list (Z * Z)
  | NetworkGetDhcpLeases _ => list (list string * string)
  | ContainerCreate _ _ _ _ | ContainerExecCreate _ _ | DockerNetworkCreate _ _ => string
  | ContainerLogs _ | ContainerStats _ => string
  | ContainerInspect _ => Inspection
  | ContainerWait _ => WaitResult
  (* the output copied so far, and the error of copying it *)
  | ContainerExecAttach _ => string * option error
  | ContainerExecInspect _ => Z
  | _ => unit
  end.

Class HostEnv := {
  host_respond : list HostCall → ∀ c, error + host_resp c;
  (** [errdefs.IsNotFound] *)
  is_not_found : error → bool;
  (** [os.TempDir] *)
  TempDir : string;
}.

(** ** State *)

Record Host := MkHost {
  h_db : World;
  (** the latest first *)
  h_calls : list HostCall;
  (** [LibvirtAdapter.portMappings]: the host port by instance and internal port *)
  h_portMappings : gmap string (gmap string Z);
  (** [LibvirtAdapter.networkCounter] *)
  h_networkCounter : Z;
  (** the goroutines of [setupPortForwarding] that have not run yet: a domain and its ports *)
  h_forwards : list (string * list string)
}.

#[export] Instance eta_Host : Eta Host := fun x =>
  MkHost (h_db x) (h_calls x) (h_portMappings x) (h_networkCounter x) (h_forwards x).

(** ** The monad *)

Definition H (A : Type) : Type := Host → res A * Host.

#[export] Instance H_ret : MRet H := fun A a h => (Ok a, h).
#[export] Instance H_bind : MBind H := fun A B f m h =>
  match m h with
  | (Ok a, h') => f a h'
  | (Err e, h') => (Err e, h')
  | (Panic p, h') => (Panic p, h')
  end.

Definition h_fail {A} (e : error) : H A := fun h => (Err e, h).
Definition h_panic {A} (msg : string) : H A := fun h => (Panic msg, h).

Definition h_attempt {A} (m : H A) : H (error + A) := fun h =>
  match m h with
  | (Ok a, h') => (Ok (inr a), h')
  | (Err e, h') => (Ok (inl e), h')
  | (Panic p, h') => (Panic p, h')
  end.
Definition h_ignore {A} (m : H A) : H unit := h_attempt m ;; mret ().

Definition h_wrap {A} (g : error → error) (m : H A) : H A := fun h =>
  match m h with
  | (Err e, h') => (Err (g e), h')
  | r => r
  end.

Definition h_guard (b : bool) (e : error) : H unit := if b then h_fail e else mret ().

Definition h_gets {T} (p : Host → T) : H T := fun h => (Ok (p h), h).
Definition h_modifies {U} (q : Host → U) `{!Field q} (f : U → U) : H unit :=
  fun h => (Ok tt, h <| q ::= f |>).

(** [defer cleanup()]: the cleanup runs however the function ends. *)
Definition deferred {A} (cleanup : H unit) (m : H A) : H A := fun h =>
  let '(r, h1) := m h in (r, (cleanup h1).2).

Fixpoint h_foreach {A} (l : list A) (body : A → H unit) : H unit :=
  match l with
  | [] => mret ()
  | x :: l' => body x ;; h_foreach l' body
  end.

Fixpoint h_fold {A S} (body : S → A → H S) (s : S) (l : list A) : H S :=
  match l with
  | [] => mret s
  | x :: l' => s' ← body s x; h_fold body s' l'
  end.

(** What reads the database or the environment of the services. *)
Definition on_db {A} (m : M A) : H A := fun h =>
  let '(r, w) := m (h_db h) in (r, h <| h_db := w |>).

Section calls.
Context `{HostEnv}.

Definition call (c : HostCall) : H (host_resp c) := fun h =>
  let h' := h <| h_calls ::= cons c |> in
  match host_respond (h_calls h) c with
  | inr a => (Ok a, h')
  | inl e => (Err e, h')
  end.

End calls.

(** * Reasoning about programs of [H]

    [Emits P m]: every call [m] makes satisfies [P].  [HNoPanic] and [HTotal]: an operation
    that does not panic, one that always returns.  All are resolved by type classes along the
    code; [call_inv] turns a run of one call into its effect on the history. *)

(** ** The calls of an operation *)

(** Every call [m] makes satisfies [P]. *)
Class Emits (P : HostCall → Prop) {A} (m : H A) :=
  emits : ∀ h, ∃ l, h_calls (m h).2 = l ++ h_calls h ∧ Forall P l.

Section emits.
Context `{HostEnv} (P : HostCall → Prop).

#[export] Instance emits_ret A (a : A) : Emits P (mret a : H A).
Proof. intros h. by exists []. Qed.
#[export] Instance emits_fail A e : Emits P (h_fail e : H A).
Proof. intros h. by exists []. Qed.
#[export] Instance emits_gets T (p : Host → T) : Emits P (h_gets p).
Proof. intros h. by exists []. Qed.
#[export] Instance emits_on_db A (m : M A) : Emits P (on_db m).
Proof. intros h. exists []. unfold on_db. by destruct (m _). Qed.
#[export] Instance emits_ports f : Emits P (h_modifies h_portMappings f).
Proof. intros h. by exists []. Qed.
#[export] Instance emits_counter f : Emits P (h_modifies h_networkCounter f).
Proof. intros h. by exists []. Qed.
#[export] Instance emits_forwards f : Emits P (h_modifies h_forwards f).
Proof. intros h. by exists []. Qed.

#[export] Instance emits_bind A B (m : H A) (f : A → H B) :
  Emits P m → (∀ a, Emits P (f a)) → Emits P (m ≫= f).
Proof.
  intros Hm Hf h. unfold mbind, H_bind. destruct (Hm h) as (l & Hl & Hall).
  destruct (m h) as [[a|e|p] h1]; cbn in Hl; [|by exists l..].
  destruct (Hf a h1) as (l' & Hl' & Hall'). exists (l' ++ l). split; [by rewrite Hl', Hl, (assoc_L (++))|].
  by apply Forall_app.
Qed.

#[export] Instance emits_attempt A (m : H A) : Emits P m → Emits P (h_attempt m).
Proof. intros Hm h. unfold h_attempt. specialize (Hm h). by destruct (m h) as [[]]. Qed.
#[export] Instance emits_ignore A (m : H A) : Emits P m → Emits P (h_ignore m).
Proof. intros. unfold h_ignore. apply _. Qed.
#[export] Instance emits_wrap A g (m : H A) : Emits P m → Emits P (h_wrap g m).
Proof. intros Hm h. unfold h_wrap. specialize (Hm h). by destruct (m h) as [[]]. Qed.
#[export] Instance emits_guard b e : Emits P (h_guard b e).
Proof. destruct b; apply _. Qed.

#[export] Instance emits_deferred A cleanup (m : H A) : Emits P cleanup → Emits P m → Emits P (deferred cleanup m).
Proof.
  intros Hc Hm h. unfold deferred. destruct (Hm h) as (l & Hl & Hall). destruct (m h) as [r h1]. cbn in *.
  destruct (Hc h1) as (l' & Hl' & Hall'). exists (l' ++ l). split; [by rewrite Hl', Hl, (assoc_L (++))|].
  by apply Forall_app.
Qed.

#[export] Instance emits_foreach A (l : list A) body : (∀ x, Emits P (body x)) → Emits P (h_foreach l body).
Proof. intros. induction l; cbn; apply _. Qed.
#[export] Instance emits_fold A S (body : S → A → H S) l :
  (∀ s x, Emits P (body s x)) → ∀ s, Emits P (h_fold body s l).
Proof. intros Hb. induction l; intros s; cbn; apply _. Qed.

Lemma emits_call c : P c → Emits P (call c).
Proof.
  intros Hc h. exists [c]. unfold call. by destruct (host_respond _ _); cbn; split; [|apply Forall_singleton| |apply Forall_singleton].
Qed.

#[export] Instance emits_if A (b : bool) (m1 m2 : H A) : Emits P m1 → Emits P m2 → Emits P (if b then m1 else m2).
Proof. by destruct b. Qed.
#[export] Instance emits_option A B (o : option A) (f : A → H B) (m : H B) :
  (∀ a, Emits P (f a)) → Emits P m → Emits P (match o with Some a => f a | None => m end).
Proof. by destruct o. Qed.
#[export] Instance emits_sum A B C (s : A + B) (f : A → H C) (g : B → H C) :
  (∀ a, Emits P (f a)) → (∀ b, Emits P (g b)) → Emits P (match s with inl a => f a | inr b => g b end).
Proof. by destruct s. Qed.
#[export] Instance emits_pair A B C (p : A * B) (f : A → B → H C) :
  (∀ a b, Emits P (f a b)) → Emits P (let '(a, b) := p in f a b).
Proof. by destruct p. Qed.

End emits.

(** ** Operations that do not panic, and operations that always return *)

Class HNoPanic {A} (m : H A) := h_no_panic : ∀ h p, (m h).1 ≠ Panic p.
Class HTotal {A} (m : H A) := h_total : ∀ h, ∃ a, (m h).1 = Ok a.

Section outcomes.
Context `{HostEnv}.

#[export] Instance hnp_ret A (a : A) : HNoPanic (mret a : H A).
Proof. done. Qed.
#[export] Instance hnp_fail A e : HNoPanic (h_fail e : H A).
Proof. done. Qed.
#[export] Instance hnp_uuid `{Env} : HNoPanic (on_db uuid_New).
Proof. done. Qed.
Lemma hnp_call c : HNoPanic (call c).
Proof. intros h p. unfold call. by destruct (host_respond _ _). Qed.
#[export] Instance hnp_bind A B (m : H A) (f : A → H B) : HNoPanic m → (∀ a, HNoPanic (f a)) → HNoPanic (m ≫= f).
Proof.
  intros Hm Hf h p. specialize (Hm h p). unfold mbind, H_bind. destruct (m h) as [[a|e|q] h1]; [apply Hf|done|].
  intros [= ->]. by apply Hm.
Qed.
#[export] Instance hnp_attempt A (m : H A) : HNoPanic m → HNoPanic (h_attempt m).
Proof. intros Hm h p. specialize (Hm h p). unfold h_attempt. destruct (m h) as [[a|e|q] h1]; naive_solver congruence. Qed.
#[export] Instance hnp_ignore A (m : H A) : HNoPanic m → HNoPanic (h_ignore m).
Proof. intros. unfold h_ignore. apply _. Qed.
#[export] Instance hnp_wrap A g (m : H A) : HNoPanic m → HNoPanic (h_wrap g m).
Proof. intros Hm h p. specialize (Hm h p). unfold h_wrap. by destruct (m h) as [[a|e|q] h1]. Qed.
#[export] Instance hnp_deferred A c (m : H A) : HNoPanic m → HNoPanic (deferred c m).
Proof. intros Hm h p. specialize (Hm h p). unfold deferred. by destruct (m h) as [[a|e|q] h1]. Qed.
#[export] Instance hnp_if A (b : bool) (m1 m2 : H A) : HNoPanic m1 → HNoPanic m2 → HNoPanic (if b then m1 else m2).
Proof. by destruct b. Qed.
#[export] Instance hnp_sum A B C (s : A + B) (f : A → H C) (g : B → H C) :
  (∀ a, HNoPanic (f a)) → (∀ b, HNoPanic (g b)) → HNoPanic (match s with inl a => f a | inr b => g b end).
Proof. by destruct s. Qed.

#[export] Instance ht_ret A (a : A) : HTotal (mret a : H A).
Proof. intros h. by eexists. Qed.
#[export] Instance ht_attempt A (m : H A) : HNoPanic m → HTotal (h_attempt m).
Proof.
  intros Hm h. unfold h_attempt. specialize (Hm h). destruct (m h) as [[a|e|q] h1]; [by eexists..|].
  by destruct (Hm q).
Qed.
#[export] Instance ht_bind A B (m : H A) (f : A → H B) : HTotal m → (∀ a, HTotal (f a)) → HTotal (m ≫= f).
Proof.
  intros Hm Hf h. destruct (Hm h) as [a Ha]. unfold mbind, H_bind.
  destruct (m h) as [r h1]. cbn in Ha. subst r. apply Hf.
Qed.
#[export] Instance ht_if A (b : bool) (m1 m2 : H A) : HTotal m1 → HTotal m2 → HTotal (if b then m1 else m2).
Proof. by destruct b. Qed.
#[export] Instance ht_sum A B C (s : A + B) (f : A → H C) (g : B → H C) :
  (∀ a, HTotal (f a)) → (∀ b, HTotal (g b)) → HTotal (match s with inl a => f a | inr b => g b end).
Proof. by destruct s. Qed.
#[export] Instance ht_fold A S (body : S → A → H S) l : (∀ s x, HTotal (body s x)) → ∀ s, HTotal (h_fold body s l).
Proof. intros Hb. induction l; intros s; cbn; apply _. Qed.

Lemma h_total_run {A} (m : H A) h r h' : HTotal m → m h = (r, h') → ∃ a, r = Ok a.
Proof. intros Hm Hrun. specialize (Hm h). by rewrite Hrun in Hm. Qed.

End outcomes.

#[export] Hint Extern 5 (HNoPanic (call ?c)) => exact (hnp_call c) : typeclass_instances.

(** A call is allowed when the predicate computes to [True] or follows from what is known. *)
#[export] Hint Extern 5 (Emits ?P (call ?c)) =>
  refine (emits_call P c _); cbn; solve [done | tauto] : typeclass_instances.

(** ** Runs *)

Section runs.
Context `{HostEnv}.

(** One call of the history. *)
Lemma call_run c h r h' :
  call c h = (r, h') →
  h' = h <| h_calls ::= cons c |> ∧
  match host_respond (h_calls h) c with inr a => r = Ok a | inl e => r = Err e end.
Proof. unfold call. destruct (host_respond _ _); by intros [= <- <-]. Qed.

Lemma ignored_call c h r h' : h_ignore (call c) h = (r, h') → r = Ok tt ∧ h' = h <| h_calls ::= cons c |>.
Proof.
  unfold h_ignore, h_attempt, mbind, H_bind, call. destruct (host_respond _ _); by intros [= <- <-].
Qed.

Lemma ignored_calls c h : h_calls (h_ignore (call c) h).2 = c :: h_calls h.
Proof. destruct (h_ignore (call c) h) as [r h'] eqn:Hrun. by apply ignored_call in Hrun as [_ ->]. Qed.

Lemma h_bind_inv {A B} (m : H A) (f : A → H B) h r h' :
  (m ≫= f) h = (r, h') →
  (∃ a h1, m h = (Ok a, h1) ∧ f a h1 = (r, h')) ∨
  (∃ e, m h = (Err e, h') ∧ r = Err e) ∨ (∃ p, m h = (Panic p, h') ∧ r = Panic p).
Proof.
  unfold mbind, H_bind. destruct (m h) as [[a|e|p] h1]; [eauto|..]; intros [= <- <-]; eauto.
Qed.

Lemma h_attempt_inv {A} (m : H A) h (r : res (error + A)) h' :
  h_attempt m h = (r, h') →
  (∃ a, m h = (Ok a, h') ∧ r = Ok (inr a)) ∨ (∃ e, m h = (Err e, h') ∧ r = Ok (inl e)) ∨
  (∃ p, m h = (Panic p, h') ∧ r = Panic p).
Proof. unfold h_attempt. destruct (m h) as [[a|e|p] h1]; intros [= <- <-]; eauto. Qed.

(** A wrapped call: the answer on success; an error, and nothing else, otherwise. *)
Lemma wrapped_call g c h r h' :
  h_wrap g (call c) h = (r, h') →
  h' = h <| h_calls ::= cons c |> ∧
  ((∃ a, host_respond (h_calls h) c = inr a ∧ r = Ok a) ∨ (∃ e, host_respond (h_calls h) c = inl e ∧ r = Err (g e))).
Proof. unfold h_wrap, call. destruct (host_respond _ _); intros [= <- <-]; eauto. Qed.

End runs.

Ltac call_inv H :=
  match type of H with
  | h_wrap _ (call ?c) _ = _ => apply (wrapped_call _ c) in H
  | h_ignore (call ?c) _ = _ => apply (ignored_call c) in H
  | call ?c _ = _ => apply (call_run c) in H
  end.
