(* ===== verification/Ovs.v ===== *)
(** * [repositories/ovs/adapter.go]: the Open vSwitch backend

    Every operation runs commands of the host: [ovs-vsctl], [ovs-ofctl] and [ip]. *)
From S2P Require Import Prelude GoStd Encoding Net Errors Domain DomainData World Logic Host.

Section ovs.
Context `{HostEnv}.

(** The bytes of [bridgeNameRegex], which is anchored at both ends and needs one byte. *)
Definition bridge_char (a : ascii) : bool :=
  let n := N_of_ascii a in
  ((97 <=? n) && (n <=? 122) || (65 <=? n) && (n <=? 90) || (48 <=? n) && (n <=? 57) || (n =? 45))%N.

Definition bridge_name_ok (s : string) : bool :=
  negb (bool_decide (s = "")) && forallb bridge_char (list_ascii_of_string s).

(** [exec.LookPath] of the two programs when the adapter is made. *)
Record OvsAdapter := MkOvsAdapter { ovsPath : string; ofctlPath : string }.

Definition NewOvsAdapter : H OvsAdapter :=
  ovsctl ← h_wrap (Errorf_w "ovs-vsctl not found") (call (LookPath "ovs-vsctl"));
  ofctl ← h_wrap (Errorf_w "ovs-ofctl not found") (call (LookPath "ovs-ofctl"));
  mret (MkOvsAdapter ovsctl ofctl).

Definition run_or (msg : string) (argv : list string) : H unit :=
  h_wrap (Wrap Internal msg) (call (Run argv)).

Definition bad_bridge : error := New InvalidInput "invalid bridge name".
Definition bad_port : error := New InvalidInput "invalid bridge or port name".

Context (a : OvsAdapter).

Definition ovs_Ping : H unit := call (Run [ovsPath a; "show"]).

Definition ovs_CreateBridge (name : string) (vxlanID : Z) : H unit :=
  h_guard (negb (bridge_name_ok name)) bad_bridge ;;
  run_or "failed to add bridge" [ovsPath a; "add-br"; name].

Definition ovs_DeleteBridge (name : string) : H unit :=
  h_guard (negb (bridge_name_ok name)) bad_bridge ;;
  run_or "failed to delete bridge" [ovsPath a; "del-br"; name].

Definition ovs_ListBridges : H (list string) :=
  output ← h_wrap (Wrap Internal "failed to list bridges") (call (Output [ovsPath a; "list-br"]));
  let bridges := split_on "010" (TrimSpace output) in
  mret (if bool_decide (bridges = [""]) then [] else bridges).

Definition ovs_AddPort (bridge portName : string) : H unit :=
  h_guard (negb (bridge_name_ok bridge) || negb (bridge_name_ok portName)) bad_port ;;
  run_or "failed to add port" [ovsPath a; "add-port"; bridge; portName].

Definition ovs_DeletePort (bridge portName : string) : H unit :=
  h_guard (negb (bridge_name_ok bridge) || negb (bridge_name_ok portName)) bad_port ;;
  run_or "failed to delete port" [ovsPath a; "del-port"; bridge; portName].

(** [strings.ReplaceAll(remoteIP, ".", "-")] *)
Definition tunnel_name (remoteIP : string) : string := "vxlan-" +:+ join "-" (split_on "." remoteIP).

Definition ovs_CreateVXLANTunnel (bridge : string) (vni : Z) (remoteIP : string) : H unit :=
  h_guard (negb (bridge_name_ok bridge)) bad_bridge ;;
  run_or "failed to create vxlan tunnel"
    [ovsPath a; "add-port"; bridge; tunnel_name remoteIP; "--"; "set"; "interface"; tunnel_name remoteIP;
     "type=vxlan"; "options:remote_ip=" +:+ remoteIP; "options:key=" +:+ itoa vni].

Definition ovs_DeleteVXLANTunnel (bridge remoteIP : string) : H unit :=
  ovs_DeletePort bridge (tunnel_name remoteIP).

Definition flow_spec (rule : FlowRule) : string :=
  "priority=" +:+ itoa (flow_Priority rule) +:+ "," +:+ flow_Match rule +:+ ",actions=" +:+ flow_Actions rule.

Definition ovs_AddFlowRule (bridge : string) (rule : FlowRule) : H unit :=
  h_guard (negb (bridge_name_ok bridge)) bad_bridge ;;
  run_or "failed to add flow rule" [ofctlPath a; "add-flow"; bridge; flow_spec rule].

Definition ovs_DeleteFlowRule (bridge matched : string) : H unit :=
  h_guard (negb (bridge_name_ok bridge)) bad_bridge ;;
  run_or "failed to delete flow rule" [ofctlPath a; "del-flows"; bridge; matched].

Definition ovs_ListFlowRules (bridge : string) : H (list FlowRule) := mret [].

Definition ovs_CreateVethPair (hostEnd containerEnd : string) : H unit :=
  run_or "failed to create veth pair"
    ["ip"; "link"; "add"; hostEnd; "type"; "veth"; "peer"; "name"; containerEnd].

Definition ovs_AttachVethToBridge (bridge vethEnd : string) : H unit :=
  ovs_AddPort bridge vethEnd ;;
  run_or "failed to set veth up" ["ip"; "link"; "set"; vethEnd; "up"].

Definition ovs_DeleteVethPair (hostEnd : string) : H unit :=
  run_or "failed to delete veth pair" ["ip"; "link"; "del"; hostEnd].

Definition ovs_SetVethIP (vethEnd ip cidr : string) : H unit :=
  run_or "failed to set veth ip" ["ip"; "addr"; "add"; ip +:+ "/" +:+ cidr; "dev"; vethEnd] ;;
  run_or "failed to bring veth up" ["ip"; "link"; "set"; vethEnd; "up"].

End ovs.
