(* ===== verification/Libvirt.v ===== *)
(** * [repositories/libvirt/adapter.go], [templates.go] and [lb_proxy.go]: the libvirt backend

    Virtual machines (domains), their disks and networks, the forwarding of ports with
    iptables, and a load balancer that runs nginx on the host. *)
From S2P Require Import Prelude GoStd Encoding Net Errors Domain DomainData World Logic Host Http Ovs.

(** ** Templates *)

Definition dq : string := String "034" EmptyString.

Definition generateVolumeXML (name : string) (sizeGB : Z) : string := "
<volume>
  <name>" +:+ name +:+ "</name>
  <capacity unit=" +:+ dq +:+ "G" +:+ dq +:+ ">" +:+ itoa sizeGB +:+ "</capacity>
  <target>
    <format type='qcow2'/>
  </target>
</volume>".

(** The [%c] verb, for the code points below 0x10000 that a count of disks reaches. *)
Definition byte_char (n : Z) : string := String (ascii_of_N (Z.to_N n)) EmptyString.
Definition rune_char (r : Z) : string :=
  if r <? 0x80 then byte_char r
  else if r <? 0x800 then byte_char (0xC0 + r / 64) +:+ byte_char (0x80 + r mod 64)
  else byte_char (0xE0 + r / 4096) +:+ byte_char (0x80 + r / 64 mod 64) +:+ byte_char (0x80 + r mod 64).

Definition iso_xml (isoPath : string) : string :=
  if bool_decide (isoPath = "") then "" else "
    <disk type='file' device='cdrom'>
      <driver name='qemu' type='raw'/>
      <source file='" +:+ isoPath +:+ "'/>
      <target dev='sda' bus='sata'/>
      <readonly/>
    </disk>".

Definition disk_xml (i : nat) (path : string) : string := "
    <disk type='file' device='disk'>
      <driver name='qemu' type='qcow2'/>
      <source file='" +:+ path +:+ "'/>
      <target dev='vd" +:+ rune_char (98 + Z.of_nat i) +:+ "' bus='virtio'/>
    </disk>".

Definition generateDomainXML (name diskPath networkID isoPath : string) (memoryMB vcpu : Z)
    (additionalDisks : list string) : string :=
  let networkID := if bool_decide (networkID = "") then "default" else networkID in
  let memoryKB := wrap64 (memoryMB * 1024) in "
<domain type='kvm'>
  <name>" +:+ name +:+ "</name>
  <memory unit='KiB'>" +:+ itoa memoryKB +:+ "</memory>
  <vcpu placement='static'>" +:+ itoa vcpu +:+ "</vcpu>
  <os>
    <type arch='x86_64' machine='pc-q35-4.2'>hvm</type>
    <boot dev='hd'/>
  </os>
  <devices>
    <disk type='file' device='disk'>
      <driver name='qemu' type='qcow2'/>
      <source file='" +:+ diskPath +:+ "'/>
      <target dev='vda' bus='virtio'/>
    </disk>" +:+ iso_xml isoPath +:+ join "" (imap disk_xml additionalDisks) +:+ "
    <interface type='network'>
      <source network='" +:+ networkID +:+ "'/>
      <model type='virtio'/>
    </interface>
    <serial type='pty'>
      <target port='0'/>
    </serial>
    <console type='pty'>
      <target type='serial' port='0'/>
    </console>
  </devices>
</domain>".

Definition generateNetworkXML (name bridgeName gatewayIP rangeStart rangeEnd : string) : string := "
<network>
  <name>" +:+ name +:+ "</name>
  <forward mode='nat'/>
  <bridge name='" +:+ bridgeName +:+ "' stp='on' delay='0'/>
  <ip address='" +:+ gatewayIP +:+ "' netmask='255.255.255.0'>
    <dhcp>
      <range start='" +:+ rangeStart +:+ "' end='" +:+ rangeEnd +:+ "'/>
    </dhcp>
  </ip>
</network>".

(** ** Strings *)

(** [strings.Index] *)
Fixpoint Index (s substr : string) : option nat :=
  if HasPrefix s substr then Some 0%nat
  else match s with
       | EmptyString => None
       | String _ s' => S <$> Index s' substr
       end.

Definition contains (s substr : string) : bool := bool_decide (is_Some (Index s substr)).

(** [ReplaceAllString(name, "")] for [[^a-zA-Z0-9-]]: every other byte is dropped. *)
Definition sanitize (s : string) : string :=
  string_of_list_ascii (List.filter bridge_char (list_ascii_of_string s)).

Definition validateID (id : string) : option error :=
  if contains id ".." || contains id "/" || contains id (String "092" EmptyString)
  then Some (Errorf "invalid id: contains path traversal characters") else None.

(** ** Networks *)

(** The bytes of [net.ParseIP("192.168.100.0")]. *)
Definition poolStart : list Z := in16 [192; 168; 100; 0].
Definition poolEnd : list Z := in16 [192; 168; 200; 255].

(** The loop that adds an offset, from the last byte, while there is a carry. *)
Fixpoint add_offset_rev (l : list Z) (offset : Z) : list Z :=
  match l with
  | [] => []
  | b :: l' =>
      if 0 <? offset then (b + offset) mod 256 :: add_offset_rev l' ((b + offset) / 256)
      else l
  end.

Definition base_ip (counter : Z) : list Z :=
  reverse (add_offset_rev (reverse poolStart) (wrap64 (counter * 256))).

(** The last byte replaced. *)
Definition with_last (ip : list Z) (b : Z) : list Z := take (length ip - 1) ip ++ [b].

Section libvirt.
Context `{Env, HttpEnv, HostEnv}.

Definition getNextNetworkRange : H (string * string * string) :=
  n ← h_gets h_networkCounter;
  h_modifies h_networkCounter (λ n, int_add n 1) ;;
  let base := base_ip n in
  mret (IP_String (with_last base 1), IP_String (with_last base 2), IP_String (with_last base 254)).

Definition libvirt_CreateNetwork (name : string) : H string :=
  '(gateway, rangeStart, rangeEnd) ← getNextNetworkRange;
  let xml := generateNetworkXML name ("virbr-" +:+ name) gateway rangeStart rangeEnd in
  net ← h_wrap (Errorf_w "failed to define network") (call (NetworkDefineXML xml));
  h_wrap (Errorf_w "failed to start network") (call (NetworkCreate net)) ;;
  mret net.

Definition libvirt_DeleteNetwork (id : string) : H unit :=
  found ← h_attempt (call (NetworkLookupByName id));
  match found with
  | inl _ => mret ()
  | inr net =>
      h_ignore (call (NetworkDestroy net)) ;;
      h_wrap (Errorf_w "failed to undefine network") (call (NetworkUndefine net))
  end.

(** ** Disks *)

Definition defaultPoolName : string := "default".

Definition prepareRootVolume (name : string) : H (string * string) :=
  pool ← h_wrap (Errorf_w "default pool not found") (call (StoragePoolLookupByName defaultPoolName));
  vol ← h_wrap (Errorf_w "failed to create root volume")
          (call (StorageVolCreateXML pool (generateVolumeXML (name +:+ "-root") 10)));
  path ← h_attempt (call (StorageVolGetPath vol));
  match path with
  | inl err => h_ignore (call (StorageVolDelete vol)) ;;
               h_fail (Errorf_w "failed to get volume path" err)
  | inr diskPath => mret (diskPath, vol)
  end.

(** The paths of the volumes that are found; the name of a volume is the whole of the
    bind, with the path it is mounted at. *)
Definition resolve_bind (pool : string) (disks : list string) (volName : string) : H (list string) :=
  v ← h_attempt (call (StorageVolLookupByName pool volName));
  match v with
  | inl _ => mret disks
  | inr v =>
      path ← h_attempt (call (StorageVolGetPath v));
      mret (match path with inl _ => disks | inr path => disks ++ [path] end)
  end.

Definition resolveBinds (volumeBinds : list string) : H (list string) :=
  if bool_decide (volumeBinds = []) then mret []
  else
    pool ← h_attempt (call (StoragePoolLookupByName defaultPoolName));
    match pool with
    | inl _ => mret []
    | inr pool => h_fold (resolve_bind pool) [] volumeBinds
    end.

Definition libvirt_CreateVolume (name : string) : H unit :=
  pool ← h_wrap (Errorf_w "failed to find default storage pool") (call (StoragePoolLookupByName defaultPoolName));
  h_ignore (call (StoragePoolRefresh pool)) ;;
  h_wrap (Errorf_w "failed to create volume xml")
    (call (StorageVolCreateXML pool (generateVolumeXML name 10))) ;;
  mret ().

Definition libvirt_DeleteVolume (name : string) : H unit :=
  pool ← h_wrap (Errorf_w "failed to find default storage pool") (call (StoragePoolLookupByName defaultPoolName));
  found ← h_attempt (call (StorageVolLookupByName pool name));
  match found with
  | inl _ => mret ()
  | inr vol => h_wrap (Errorf_w "failed to delete volume") (call (StorageVolDelete vol))
  end.

Definition volume_path (volumeID : string) : H string :=
  pool ← h_wrap (Errorf_w "failed to find default storage pool") (call (StoragePoolLookupByName defaultPoolName));
  vol ← h_wrap (Errorf_w "failed to find volume") (call (StorageVolLookupByName pool volumeID));
  h_wrap (Errorf_w "failed to get volume path") (call (StorageVolGetPath vol)).

(** [filepath.Base]: the part after the last slash, without trailing slashes. *)
Definition Base (p : string) : string :=
  let l := filter (λ e, e ≠ "") (split_on slash p) in
  match last l with
  | Some e => e
  | None => if bool_decide (p = "") then "." else "/"
  end.

Definition libvirt_CreateVolumeSnapshot (volumeID destinationPath : string) : H unit :=
  volPath ← volume_path volumeID;
  let tmpQcow2 := destinationPath +:+ ".qcow2" in
  h_wrap (Errorf_w "qemu-img convert failed")
    (call (Run ["qemu-img"; "convert"; "-O"; "qcow2"; volPath; tmpQcow2])) ;;
  deferred (h_ignore (call (OsRemove tmpQcow2)))
    (h_wrap (Errorf_w "tar archive failed")
       (call (Run ["tar"; "czf"; destinationPath; "-C"; Dir tmpQcow2; Base tmpQcow2]))).

Definition libvirt_RestoreVolumeSnapshot (volumeID sourcePath : string) : H unit :=
  volPath ← volume_path volumeID;
  tmpDir ← call (OsMkdirTemp "restore-");
  deferred (h_ignore (call (OsRemoveAll tmpDir))) (
    h_wrap (Errorf_w "untar failed") (call (Run ["tar"; "xzf"; sourcePath; "-C"; tmpDir])) ;;
    files ← h_attempt (call (OsReadDir tmpDir));
    match files with
    | inr (file :: _) =>
        h_wrap (Errorf_w "qemu-img restore failed")
          (call (Run ["qemu-img"; "convert"; "-O"; "qcow2"; Join [tmpDir; file]; volPath]))
    | _ => h_fail (Errorf "empty snapshot archive")
    end).

(** ** Cloud-init *)

Definition user_data (env cmd : list string) : string := "#cloud-config
" +:+ (if bool_decide (env = []) then "" else "write_files:
  - path: /etc/profile.d/cloud-env.sh
    content: |
" +:+ join "" (map (λ e, "      export " +:+ e +:+ "
") env)) +:+ (if bool_decide (cmd = []) then "" else "runcmd:
" +:+ join "" (map (λ c, "  - [ sh, -c, " +:+ quote c +:+ " ]
") cmd)).

Definition meta_data (name : string) : string :=
  "instance-id: " +:+ name +:+ "
local-hostname: " +:+ name +:+ "
".

Definition iso_path (name : string) : string := Join [TempDir; "cloud-init-" +:+ name +:+ ".iso"].

Definition iso_argv (program isoPath tmpDir : string) : list string :=
  [program; "-output"; isoPath; "-volid"; "config-2"; "-joliet"; "-rock";
   Join [tmpDir; "user-data"]; Join [tmpDir; "meta-data"]].

(** A name without any byte to keep is replaced with the first eight of a new UUID. *)
Definition safe_name (name : string) : H string :=
  let s := sanitize name in
  if bool_decide (s = "") then id ← on_db uuid_New; mret (str_prefix 8 (uuid_string id)) else mret s.

Definition generateCloudInitISO (name : string) (env cmd : list string) : H string :=
  safeName ← safe_name name;
  tmpDir ← call (OsMkdirTemp ("cloud-init-" +:+ safeName));
  deferred (h_ignore (call (OsRemoveAll tmpDir))) (
    call (OsWriteFile (Join [tmpDir; "meta-data"]) (meta_data name)) ;;
    call (OsWriteFile (Join [tmpDir; "user-data"]) (user_data env cmd)) ;;
    let isoPath := iso_path safeName in
    r ← h_attempt (call (Output (iso_argv "genisoimage" isoPath tmpDir)));
    match r with
    | inr _ => mret isoPath
    | inl _ =>
        h_wrap (Errorf_w "failed to generate iso (genisoimage/mkisofs)")
          (call (Output (iso_argv "mkisofs" isoPath tmpDir))) ;;
        mret isoPath
    end).

(** ** Addresses and ports *)

Definition GetInstanceIP (id : string) : H string :=
  dom ← h_wrap (Errorf_w "domain not found") (call (DomainLookupByName id));
  xmlDesc ← h_wrap (Errorf_w "failed to get domain xml") (call (DomainGetXMLDesc dom));
  let opening := "<mac address='" in
  match Index xmlDesc opening with
  | None => h_fail (Errorf "no mac address found in xml")
  | Some start =>
      let rest := str_drop (start + String.length opening) xmlDesc in
      match Index rest "'/>" with
      | None => h_fail (Errorf "malformed xml mac address")
      | Some stop =>
          let mac := str_prefix stop rest in
          net ← h_wrap (Errorf_w "default network not found") (call (NetworkLookupByName "default"));
          leases ← h_wrap (Errorf_w "failed to get leases") (call (NetworkGetDhcpLeases net));
          match find (λ lease, bool_decide (head lease.1 = Some mac)) leases with
          | Some lease => mret lease.2
          | None => h_fail (Errorf ("no ip lease found for " +:+ id +:+ " (" +:+ mac +:+ ")"))
          end
      end
  end.

(** The ticks that fall before the context ends; after them it has. *)
Fixpoint waitInitialIP (ticks : nat) (id : string) : H string :=
  match ticks with
  | O => h_fail (ExternalError "context deadline exceeded")
  | S ticks' =>
      call Tick ;;
      ip ← h_attempt (GetInstanceIP id);
      match ip with
      | inr ip => if bool_decide (ip = "") then waitInitialIP ticks' id else mret ip
      | inl _ => waitInitialIP ticks' id
      end
  end.

(** The host port, zero for one to be chosen, and the container port. *)
Definition libvirt_parseAndValidatePort (p : string) : H (Z * Z) :=
  let parts := split_on ":" p in
  match (match parts with
         | [h; c] => Some (h, c)
         | [c] => Some ("0", c)
         | _ => None
         end) with
  | None => h_fail (Errorf "invalid port format: too many colons")
  | Some (hostPort, containerPort) =>
      match Sscanf_d containerPort with
      | None => h_fail (Errorf "invalid port format")
      | Some cP =>
          if bool_decide (hostPort = "0") then
            id ← on_db uuid_New;
            mret (30000 + Z.of_N (id / 2 ^ 96) mod 10000, cP)
          else
            match Sscanf_d hostPort with
            | None => h_fail (Errorf "invalid port format")
            | Some hP => mret (hP, cP)
            end
      end
  end.

Definition iptables (flag : string) (rest : list string) : list string :=
  ["sudo"; "iptables"; "-t"; "nat"; flag; "PREROUTING"; "-p"; "tcp"] ++ rest.

Definition configureIptables (name ip containerPort : string) (hPort cP : Z) : H unit :=
  h_modifies h_portMappings (λ m, <[name := <[containerPort := hPort]> (default ∅ (m !! name))]> m) ;;
  path ← h_attempt (call (LookPath "iptables"));
  match path with
  | inl _ => mret ()
  | inr path =>
      if bool_decide (path = "") then mret ()
      else h_ignore (call (Run (iptables "-A" ["--dport"; itoa hPort; "-j"; "DNAT"; "--to";
                                               ip +:+ ":" +:+ itoa cP])))
  end.

(** The two minutes hold 24 ticks of five seconds.  An address that does not parse ends the
    loop over the ports. *)
Fixpoint forward_ports (name ip : string) (ports : list string) : H unit :=
  match ports with
  | [] => mret ()
  | p :: ports' =>
      r ← h_attempt (libvirt_parseAndValidatePort p);
      match r with
      | inl _ => forward_ports name ip ports'
      | inr (hPort, cP) =>
          match ParseAddr_scan ip ip with
          | None => mret ()
          | Some _ =>
              (if 0 <? hPort then configureIptables name ip (itoa cP) hPort cP else mret ()) ;;
              forward_ports name ip ports'
          end
      end
  end.

Definition setupPortForwarding (name : string) (ports : list string) : H unit :=
  ip ← h_attempt (waitInitialIP 24 name);
  match ip with
  | inl _ => mret ()
  | inr ip => forward_ports name ip ports
  end.

Definition libvirt_GetInstancePort (id internalPort : string) : H Z :=
  m ← h_gets h_portMappings;
  match m !! id ≫= lookup internalPort with
  | Some hostPort => mret hostPort
  | None => h_fail (Errorf ("no host port mapping found for instance " +:+ id +:+ " port " +:+ internalPort))
  end.

(** ** Instances *)

(** [DomainDefineXML] and [DomainCreate], undone when one fails; the cleanup of a failed
    definition may do more. *)
Definition start_domain (xml vol : string) (undo : H unit) : H unit :=
  r ← h_attempt (call (DomainDefineXML xml));
  match r with
  | inl err => h_ignore (call (StorageVolDelete vol)) ;; undo ;;
               h_fail (Errorf_w "failed to define domain" err)
  | inr dom =>
      r ← h_attempt (call (DomainCreate dom));
      match r with
      | inl err => h_ignore (call (DomainUndefine dom)) ;; h_ignore (call (StorageVolDelete vol)) ;;
                   h_fail (Errorf_w "failed to start domain" err)
      | inr _ => mret ()
      end
  end.

Definition libvirt_CreateInstance (name imageName : string) (ports : list string) (networkID : string)
    (volumeBinds env cmd : list string) : H string :=
  name ← safe_name name;
  '(diskPath, vol) ← prepareRootVolume name;
  isoPath ← (if bool_decide (env = []) && bool_decide (cmd = []) then mret ""
             else r ← h_attempt (generateCloudInitISO name env cmd);
                  mret (match r with inl _ => "" | inr path => path end));
  additionalDisks ← resolveBinds volumeBinds;
  let networkID := if bool_decide (networkID = "") then "default" else networkID in
  start_domain (generateDomainXML name diskPath networkID isoPath 512 1 additionalDisks) vol
    (if bool_decide (isoPath = "") then mret () else h_ignore (call (OsRemove isoPath))) ;;
  (if bool_decide (ports = []) then mret ()
   else h_modifies h_forwards (λ l, l ++ [(name, ports)])) ;;
  mret name.

Definition libvirt_StopInstance (id : string) : H unit :=
  dom ← h_wrap (Errorf_w "domain not found") (call (DomainLookupByName id));
  h_wrap (Errorf_w "failed to destroy domain") (call (DomainDestroy dom)).

(** The rules and the mappings of the ports of a domain. *)
Definition forget_ports (id : string) : H unit :=
  m ← h_gets h_portMappings;
  match m !! id with
  | None => mret ()
  | Some mappings =>
      t ← on_db next_tick;
      h_foreach (env_order t (string * Z) (map_to_list mappings)) (λ kv,
        h_ignore (call (Run (iptables "-D" ["--dport"; itoa kv.2; "-j"; "DNAT"])))) ;;
      h_modifies h_portMappings (delete id)
  end.

Definition delete_root_volume (id : string) : H unit :=
  pool ← h_attempt (call (StoragePoolLookupByName defaultPoolName));
  match pool with
  | inl _ => mret ()
  | inr pool =>
      vol ← h_attempt (call (StorageVolLookupByName pool (id +:+ "-root")));
      match vol with
      | inl _ => mret ()
      | inr vol => h_ignore (call (StorageVolDelete vol))
      end
  end.

Definition libvirt_DeleteInstance (id : string) : H unit :=
  dom ← h_attempt (call (DomainLookupByName id));
  match dom with
  | inl _ => mret ()
  | inr dom =>
      state ← h_attempt (call (DomainGetState dom));
      (match state with
       | inr 1 => h_ignore (call (DomainDestroy dom))
       | _ => mret ()
       end) ;;
      h_wrap (Errorf_w "failed to undefine domain") (call (DomainUndefine dom)) ;;
      forget_ports id ;;
      match validateID id with
      | Some _ => mret ()
      | None => h_ignore (call (OsRemove (iso_path id))) ;; delete_root_volume id
      end
  end.

Definition libvirt_GetInstanceLogs (id : string) : H string :=
  match validateID id with
  | Some err => h_fail err
  | None => h_wrap (Errorf_w "failed to open log file")
              (call (OsOpen ("/var/log/libvirt/qemu/" +:+ id +:+ ".log")))
  end.

(** The last value of a tag, in bytes, as a [uint64]. *)
Definition mem_stat (tag : Z) (stats : list (Z * Z)) : Z :=
  foldl (λ v s, if s.1 =? tag then s.2 * 1024 mod 2 ^ 64 else v) 0 stats.

Definition libvirt_GetInstanceStats (id : string) : H string :=
  dom ← h_wrap (Errorf_w "domain not found") (call (DomainLookupByName id));
  memStats ← call (DomainMemoryStats dom);
  mret ("{" +:+ dq +:+ "memory_stats" +:+ dq +:+ ":{" +:+ dq +:+ "usage" +:+ dq +:+ ":" +:+ itoa (mem_stat 6 memStats)
        +:+ "," +:+ dq +:+ "limit" +:+ dq +:+ ":" +:+ itoa (mem_stat 5 memStats) +:+ "}}").

Definition libvirt_Exec (id : string) (cmd : list string) : H string :=
  h_fail (Errorf "exec not supported in libvirt adapter").

(** Of the options of a task, the command and the memory. *)
Definition libvirt_RunTask (opts : RunTaskOptions) : H string :=
  id ← on_db uuid_New;
  let name := "task-" +:+ str_prefix 8 (uuid_string id) in
  pool ← h_wrap (Errorf_w "failed to find default pool") (call (StoragePoolLookupByName defaultPoolName));
  vol ← h_wrap (Errorf_w "failed to create root volume")
          (call (StorageVolCreateXML pool (generateVolumeXML (name +:+ "-root") 1)));
  path ← h_attempt (call (StorageVolGetPath vol));
  match path with
  | inl err => h_ignore (call (StorageVolDelete vol)) ;; h_fail (Errorf_w "failed to get volume path" err)
  | inr diskPath =>
      iso ← h_attempt (generateCloudInitISO name [] (rto_Command opts));
      let isoPath := match iso with inl _ => "" | inr path => path end in
      start_domain (generateDomainXML name diskPath "default" isoPath (rto_MemoryMB opts) 1 []) vol (mret ()) ;;
      mret name
  end.

(** The ticks that fall before the context ends. *)
Fixpoint libvirt_WaitTask (ticks : nat) (ctx_err : error) (id : string) : H (Z * option error) :=
  match ticks with
  | O => mret (-1, Some ctx_err)
  | S ticks' =>
      call Tick ;;
      dom ← h_attempt (call (DomainLookupByName id));
      match dom with
      | inl err => mret (-1, Some (Errorf_w "domain not found" err))
      | inr dom =>
          state ← h_attempt (call (DomainGetState dom));
          match state with
          | inr 5 => mret (0, None)
          | _ => libvirt_WaitTask ticks' ctx_err id
          end
      end
  end.

(** ** The proxy of a load balancer: [lb_proxy.go] *)

Record TargetInfo := MkTargetInfo { ti_Host : string; ti_Port : Z; ti_Weight : Z }.

(** The template of the configuration. *)
Definition nginx_server (t : TargetInfo) : string := "
        server " +:+ ti_Host t +:+ ":" +:+ itoa (ti_Port t) +:+ " weight=" +:+ itoa (ti_Weight t) +:+ ";
        ".

Definition nginx_config (port : Z) (leastConn : bool) (targets : list TargetInfo) : string :=
  let some := negb (bool_decide (length targets = 0%nat)) in "
user root;
events {
    worker_connections 1024;
}

http {
    " +:+ (if some then "
    upstream backend {
        " +:+ join "" (map nginx_server targets) +:+ "
        " +:+ (if leastConn then "least_conn;" else "") +:+ "
    }
    " else "") +:+ "

    server {
        listen " +:+ itoa port +:+ ";
        location / {
            " +:+ (if some then "
            proxy_pass http://backend;
            proxy_set_header Host $host;
            proxy_set_header X-Real-IP $remote_addr;
            " else "
            return 503 " +:+ dq +:+ "No targets available" +:+ dq +:+ ";
            ") +:+ "
        }
    }
}
".

(** The targets whose address is found. *)
Definition target_info (infos : list TargetInfo) (t : LBTarget) : H (list TargetInfo) :=
  ip ← h_attempt (GetInstanceIP (uuid_string (tgt_InstanceID t)));
  mret (match ip with
        | inl _ => infos
        | inr ip => infos ++ [MkTargetInfo ip (tgt_Port t) (tgt_Weight t)]
        end).

Definition libvirt_generateNginxConfig (lb : LoadBalancer) (targets : list LBTarget) : H string :=
  infos ← h_fold target_info [] targets;
  mret (nginx_config (lb_Port lb) (bool_decide (lb_Algorithm lb = "least-conn")) infos).

Definition config_dir (lbID : uuid) : string := Join ["/tmp"; "thecloud"; "lb"; uuid_string lbID].
Definition config_path (lbID : uuid) : string := Join [config_dir lbID; "nginx.conf"].
Definition pid_path (lbID : uuid) : string := Join [config_dir lbID; "nginx.pid"].

Definition libvirt_DeployProxy (lb : LoadBalancer) (targets : list LBTarget) : H string :=
  config ← libvirt_generateNginxConfig lb targets;
  call (OsMkdirAll (config_dir (lb_ID lb))) ;;
  call (OsWriteFile (config_path (lb_ID lb)) config) ;;
  h_wrap (Errorf_w "failed to start nginx")
    (call (Run ["nginx"; "-c"; config_path (lb_ID lb); "-g";
                "pid " +:+ pid_path (lb_ID lb) +:+ "; daemon on;"])) ;;
  mret (uuid_string (lb_ID lb)).

Definition nginx_signal (lbID : uuid) (signal : string) : HostCall :=
  Run ["nginx"; "-c"; config_path lbID; "-g"; "pid " +:+ pid_path lbID +:+ ";"; "-s"; signal].

Definition libvirt_RemoveProxy (lbID : uuid) : H unit :=
  running ← h_attempt (call (OsStat (pid_path lbID)));
  (match running with
   | inl _ => mret ()
   | inr _ => h_ignore (call (nginx_signal lbID "stop"))
   end) ;;
  h_ignore (call (OsRemoveAll (config_dir lbID))).

Definition libvirt_UpdateProxyConfig (lb : LoadBalancer) (targets : list LBTarget) : H unit :=
  config ← libvirt_generateNginxConfig lb targets;
  call (OsWriteFile (config_path (lb_ID lb)) config) ;;
  (call (nginx_signal (lb_ID lb) "reload") : H unit).

End libvirt.
