(* ===== verification/Docker.v ===== *)
(** * [repositories/docker/adapter.go] and [loadbalancer.go]: the Docker backend

    Containers, volumes and networks of the Docker daemon, and a load balancer that runs
    nginx in a container.  The client is behind the calls of [Host]: what the daemon streams
    of the pull of an image is discarded, the output of a container is its text after
    [stdcopy]. *)
From Stdlib Require Import SpecFloat.
From S2P Require Import Prelude GoStd Encoding Net Errors Domain DomainData World Logic InstanceRepo.
From S2P Require Import NetworkRepo Host InstanceService Http Ovs Libvirt.

(** [int64(x)] of a [float64]: toward zero; what does not fit gives the least integer, as on
    amd64. *)
Definition float_mul (x y : float64) : float64 := SFmul 53 1024 x y.
Definition int_of_float (x : float64) : Z :=
  match x with
  | S754_zero _ => 0
  | S754_finite s m e =>
      let v := if 0 <=? e then Z.pos m * 2 ^ e else Z.pos m / 2 ^ (- e) in
      let z := if s then - v else v in
      default (- 2 ^ 63) (in_int64 z)
  | _ => - 2 ^ 63
  end.

Definition no_config : ContainerConfig := MkContainerConfig "" [] [] "" false ∅.
Definition no_host : HostConfig := MkHostConfig [] ∅ 0 0 false [] None.

#[export] Instance eta_ContainerConfig : Eta ContainerConfig := fun x =>
  MkContainerConfig (cc_Image x) (cc_Cmd x) (cc_Env x) (cc_WorkingDir x) (cc_NetworkDisabled x)
    (cc_ExposedPorts x).
#[export] Instance eta_HostConfig : Eta HostConfig := fun x =>
  MkHostConfig (hc_Binds x) (hc_PortBindings x) (hc_Memory x) (hc_NanoCPUs x) (hc_ReadonlyRootfs x)
    (hc_SecurityOpt x) (hc_PidsLimit x).

Section docker.
Context `{Env, HostEnv}.

(** ** Containers *)

(** The binding of one port specification; one that is not two parts is left out. *)
Definition bind_port (s : gset string * gmap string (list (string * string))) (p : string)
    : gset string * gmap string (list (string * string)) :=
  match split_on ":" p with
  | [hostPort; containerPort] =>
      let cPort := containerPort +:+ "/tcp" in
      ({[cPort]} ∪ s.1, <[cPort := [("0.0.0.0", hostPort)]]> s.2)
  | _ => s
  end.

Definition docker_CreateInstance (name imageName : string) (ports : list string) (networkID : string)
    (volumeBinds env cmd : list string) : H string :=
  h_wrap (Errorf_w "failed to pull image") (call (ImagePull imageName)) ;;
  let '(exposed, bindings) := foldl bind_port (∅, ∅) ports in
  let config := no_config <| cc_Image := imageName |> <| cc_Env := env |> <| cc_Cmd := cmd |>
                          <| cc_ExposedPorts := exposed |> in
  let hostConfig := no_host <| hc_PortBindings := bindings |> <| hc_Binds := volumeBinds |> in
  let networks := if bool_decide (networkID = "") then [] else [networkID] in
  id ← h_wrap (Errorf_w "failed to create container") (call (ContainerCreate config hostConfig networks name));
  h_wrap (Errorf_w "failed to start container") (call (ContainerStart id)) ;;
  mret id.

Definition docker_StopInstance (name : string) : H unit :=
  h_wrap (Errorf_w ("failed to stop container " +:+ name)) (call (ContainerStop name)).

Definition docker_DeleteInstance (containerID : string) : H unit :=
  r ← h_attempt (call (ContainerRemove containerID));
  match r with
  | inr _ => mret ()
  | inl err => if is_not_found err then mret ()
               else h_fail (Errorf_w ("failed to remove container " +:+ containerID) err)
  end.

Definition docker_GetInstanceLogs (containerID : string) : H string :=
  h_wrap (Errorf_w "failed to get container logs") (call (ContainerLogs containerID)).

Definition docker_GetInstanceStats (containerID : string) : H string := call (ContainerStats containerID).

Definition docker_GetInstancePort (containerID containerPort : string) : H Z :=
  inspect ← h_wrap (Errorf_w "failed to inspect container") (call (ContainerInspect containerID));
  match in_Ports inspect !! (containerPort +:+ "/tcp") with
  | Some (hostPort :: _) =>
      match Sscanf_d hostPort with
      | Some port => mret port
      | None => h_fail (Errorf "failed to parse host port")
      end
  | _ => h_fail (Errorf ("no port binding found for " +:+ containerPort))
  end.

Definition docker_GetInstanceIP (id : string) : H string :=
  inspect ← h_wrap (Errorf_w "failed to inspect container") (call (ContainerInspect id));
  match find (λ ip, negb (bool_decide (ip = ""))) (in_IPAddresses inspect) with
  | Some ip => mret ip
  | None => h_fail (Errorf ("no IP address found for container " +:+ id))
  end.

(** The output beside the error, as far as there is one. *)
Definition docker_Exec (containerID : string) (cmd : list string) : H (string * option error) :=
  exec ← h_attempt (call (ContainerExecCreate containerID cmd));
  match exec with
  | inl err => mret ("", Some (Errorf_w "failed to create exec" err))
  | inr exec =>
      out ← h_attempt (call (ContainerExecAttach exec));
      match out with
      | inl err => mret ("", Some (Errorf_w "failed to attach exec" err))
      | inr (_, Some err) => mret ("", Some (Errorf_w "failed to read exec output" err))
      | inr (text, None) =>
          code ← h_attempt (call (ContainerExecInspect exec));
          match code with
          | inl err => mret (text, Some (Errorf_w "failed to inspect exec result" err))
          | inr code =>
              mret (text, if code =? 0 then None
                          else Some (Errorf ("command execution failed with exit code " +:+ itoa code
                                             +:+ ": " +:+ text)))
          end
      end
  end.

(** ** Networks and volumes *)

Definition docker_CreateNetwork (name : string) : H string :=
  h_wrap (Errorf_w ("failed to create network " +:+ name)) (call (DockerNetworkCreate name "bridge")).

Definition docker_DeleteNetwork (networkID : string) : H unit :=
  h_wrap (Errorf_w ("failed to remove network " +:+ networkID)) (call (DockerNetworkRemove networkID)).

Definition docker_CreateVolume (name : string) : H unit :=
  h_wrap (Errorf_w ("failed to create volume " +:+ name)) (call (DockerVolumeCreate name)).

Definition docker_DeleteVolume (name : string) : H unit :=
  h_wrap (Errorf_w ("failed to delete volume " +:+ name)) (call (DockerVolumeRemove name)).

(** A helper container that is removed however its task ends; [task] names it in errors. *)
Definition helper_container (task : string) (cmd binds : list string) : H unit :=
  h_wrap (Errorf_w "failed to pull alpine") (call (ImagePull "alpine")) ;;
  id ← h_wrap (Errorf_w ("failed to create " +:+ task +:+ " task"))
         (call (ContainerCreate (no_config <| cc_Image := "alpine" |> <| cc_Cmd := cmd |>)
                  (no_host <| hc_Binds := binds |>) [] ""));
  deferred (h_ignore (call (ContainerRemove id))) (
    h_wrap (Errorf_w ("failed to start " +:+ task +:+ " task")) (call (ContainerStart id)) ;;
    r ← call (ContainerWait id);
    match r with
    | WaitErr (Some err) => h_fail (Errorf_w ("error waiting for " +:+ task +:+ " task") err)
    | WaitErr None => mret ()
    | WaitStatus code =>
        h_guard (negb (code =? 0)) (Errorf (task +:+ " task failed with exit code " +:+ itoa code))
    | WaitDone err => h_fail err
    end).

Definition docker_CreateVolumeSnapshot (volumeID destinationPath : string) : H unit :=
  helper_container "snapshot"
    ["tar"; "czf"; "/snapshot/" +:+ Base destinationPath; "-C"; "/data"; "."]
    [volumeID +:+ ":/data:ro"; Dir destinationPath +:+ ":/snapshot"].

Definition docker_RestoreVolumeSnapshot (volumeID sourcePath : string) : H unit :=
  helper_container "restore"
    ["tar"; "xzf"; "/snapshot/" +:+ Base sourcePath; "-C"; "/data"]
    [volumeID +:+ ":/data"; Dir sourcePath +:+ ":/snapshot:ro"].

(** ** Tasks *)

Definition task_config (opts : RunTaskOptions) : ContainerConfig :=
  MkContainerConfig (rto_Image opts) (rto_Command opts) (rto_Env opts) (rto_WorkingDir opts)
    (rto_NetworkDisabled opts) ∅.

Definition task_host (opts : RunTaskOptions) : HostConfig :=
  MkHostConfig (rto_Binds opts) ∅ (wrap64 (wrap64 (rto_MemoryMB opts * 1024) * 1024))
    (int_of_float (float_mul (rto_CPUs opts) (float_of_int 1000000000)))
    (rto_ReadOnlyRootfs opts) ["no-new-privileges:true"] (rto_PidsLimit opts).

Definition docker_RunTask (opts : RunTaskOptions) : H string :=
  h_wrap (Errorf_w "failed to pull image") (call (ImagePull (rto_Image opts))) ;;
  id ← h_wrap (Errorf_w "failed to create task container")
         (call (ContainerCreate (task_config opts) (task_host opts) [] ""));
  h_wrap (Errorf_w "failed to start task container") (call (ContainerStart id)) ;;
  mret id.

Definition docker_WaitTask (containerID : string) : H (Z * option error) :=
  r ← call (ContainerWait containerID);
  mret (match r with
        | WaitErr (Some err) => (0, Some (Errorf_w "error waiting for container" err))
        | WaitErr None => (0, None)
        | WaitStatus code => (code, None)
        | WaitDone err => (0, Some err)
        end).

(** ** The proxy of a load balancer: [loadbalancer.go] *)

Definition NginxImage : string := "nginx:alpine".

(** The container of the instance, by the name the instance service gives it. *)
Definition docker_target (ctx : Context) (infos : list TargetInfo) (t : LBTarget) : H (list TargetInfo) :=
  inst ← h_attempt (on_db (instance_GetByID ctx (tgt_InstanceID t)));
  mret (match inst with
        | inl _ => infos
        | inr inst => infos ++ [MkTargetInfo ("thecloud-" +:+ str_prefix 8 (uuid_string (inst_ID inst)))
                                  (tgt_Port t) (tgt_Weight t)]
        end).

Definition docker_generateNginxConfig (ctx : Context) (lb : LoadBalancer) (targets : list LBTarget) : H string :=
  infos ← h_fold (docker_target ctx) [] targets;
  mret (nginx_config (lb_Port lb) (bool_decide (lb_Algorithm lb = "least-conn")) infos).

Definition lb_container (lbID : uuid) : string := "lb-" +:+ uuid_string lbID.

Definition lb_port (lb : LoadBalancer) : string := itoa (lb_Port lb) +:+ "/tcp".

Definition docker_DeployProxy (ctx : Context) (lb : LoadBalancer) (targets : list LBTarget) : H string :=
  call (ImagePull NginxImage) ;;
  config ← docker_generateNginxConfig ctx lb targets;
  call (OsMkdirAll (config_dir (lb_ID lb))) ;;
  call (OsWriteFile (config_path (lb_ID lb)) config) ;;
  h_ignore (call (ContainerRemove (lb_container (lb_ID lb)))) ;;
  vpc ← on_db (vpc_GetByID ctx (lb_VpcID lb));
  id ← call (ContainerCreate
               (no_config <| cc_Image := NginxImage |> <| cc_ExposedPorts := {[lb_port lb]} |>)
               (no_host <| hc_Binds := [config_path (lb_ID lb) +:+ ":/etc/nginx/nginx.conf:ro"] |>
                        <| hc_PortBindings := {[lb_port lb := [("0.0.0.0", itoa (lb_Port lb))]]} |>)
               [vpc_NetworkID vpc] (lb_container (lb_ID lb)));
  call (ContainerStart id) ;;
  mret id.

Definition docker_RemoveProxy (lbID : uuid) : H unit :=
  h_ignore (call (ContainerRemove (lb_container lbID))) ;;
  h_ignore (call (OsRemoveAll (config_dir lbID))).

Definition docker_UpdateProxyConfig (ctx : Context) (lb : LoadBalancer) (targets : list LBTarget) : H unit :=
  config ← docker_generateNginxConfig ctx lb targets;
  call (OsWriteFile (config_path (lb_ID lb)) config) ;;
  h_ignore (call (ContainerStart (lb_container (lb_ID lb)))) ;;
  exec ← call (ContainerExecCreate (lb_container (lb_ID lb)) ["nginx"; "-s"; "reload"]);
  (call (ContainerExecStart exec) : H unit).

End docker.
