(* ===== verification/Hub.v ===== *)
(** * [handlers/ws/hub.go] and [client.go]: the broadcast of events over WebSockets

    The hub, a goroutine, owns the map of clients and takes turns between registrations,
    unregistrations and messages; two goroutines per client write to and read from its
    connection.  A step of the transition system is one turn, one delivery to one client, or one
    step of a pump; channels are buffers with their capacity.  A send on a closed channel and
    a second close panic: such a step has no result. *)
From S2P Require Import Prelude.

(** The capacity of [Hub.broadcast] and of [Client.send]. *)
Definition channel_capacity : nat := 256.

(** [ReadPump] and [WritePump] *)
Inductive Pump := NotStarted | Running | Ended.
#[export] Instance Pump_eq_dec : EqDecision Pump.
Proof. solve_decision. Defined.

(** [Client]: the buffer of [send] and whether it is closed, its pumps, and what was written to
    the connection.  The last two fields are for the proofs: the messages taken out of the
    channel, and how many messages the hub had broadcast when the client registered. *)
Record Client := MkClient {
  cl_buffer : list string;
  cl_closed : bool;
  cl_writer : Pump;
  cl_reader : Pump;
  cl_frames : list (list string);
  cl_taken : list string;
  cl_since : nat
}.

#[export] Instance eta_Client : Eta Client := fun x =>
  MkClient (cl_buffer x) (cl_closed x) (cl_writer x) (cl_reader x) (cl_frames x) (cl_taken x) (cl_since x).

(** Where the loop of [Run] is: at its [select], or in the loop over the clients that are
    left to get a message. *)
Inductive Turn := Select | Sending (message : string) (todo : list nat).

(** The hub, every client that ever connected, and, for the proofs, the messages it took. *)
Record Hub := MkHub {
  hub_clients : gset nat;
  hub_broadcast : list string;
  hub_turn : Turn;
  hub_state : gmap nat Client;
  hub_log : list string
}.

#[export] Instance eta_Hub : Eta Hub := fun x =>
  MkHub (hub_clients x) (hub_broadcast x) (hub_turn x) (hub_state x) (hub_log x).

Definition NewHub : Hub := MkHub ∅ [] Select ∅ [].

Definition NewClient (since : nat) : Client := MkClient [] false NotStarted NotStarted [] [] since.

(** [close(client.send)], with the removal of the client. *)
Definition close_client (c : nat) (h : Hub) : option Hub :=
  match hub_state h !! c with
  | Some s => if cl_closed s then None
              else Some (h <| hub_state ::= <[c := s <| cl_closed := true |>]> |>
                           <| hub_clients ::= (λ l, l ∖ {[c]}) |>)
  | None => None
  end.

Definition unregister (c : nat) (h : Hub) : option Hub :=
  if decide (c ∈ hub_clients h) then close_client c h else Some h.

(** One turn of the loop over the clients: a client whose buffer is full is dropped. *)
Definition deliver_to (message : string) (c : nat) (h : Hub) : option Hub :=
  match hub_state h !! c with
  | Some s =>
      if cl_closed s then None
      else if (length (cl_buffer s) <? channel_capacity)%nat
           then Some (h <| hub_state ::= <[c := s <| cl_buffer ::= (λ l, l ++ [message]) |>]> |>)
           else close_client c h
  | None => None
  end.

(** A client that changes nothing of the hub. *)
Definition set_client (c : nat) (s : Client) (h : Hub) : Hub := h <| hub_state ::= <[c := s]> |>.

(** [message, ok := <-c.send] and the messages queued behind it, in one frame. *)
Definition write_frame (message : string) (queued : list string) (s : Client) : Client :=
  s <| cl_buffer := [] |> <| cl_taken ::= (λ l, l ++ message :: queued) |>
    <| cl_frames ::= (λ l, l ++ [message :: queued]) |>.

(** Making or closing the writer of the frame fails: the messages taken are gone, the ones left
    stay in the channel, and the pump ends. *)
Definition lose_messages (taken left : list string) (s : Client) : Client :=
  s <| cl_buffer := left |> <| cl_taken ::= (λ l, l ++ taken) |> <| cl_writer := Ended |>.

Inductive hub_step (h : Hub) : option Hub → Prop :=
  | step_register c :
      hub_turn h = Select → hub_state h !! c = None →
      hub_step h (Some (h <| hub_state ::= <[c := NewClient (length (hub_log h))]> |>
                          <| hub_clients ::= (λ l, {[c]} ∪ l) |>))
  | step_start_writer c s :
      hub_state h !! c = Some s → cl_writer s = NotStarted →
      hub_step h (Some (set_client c (s <| cl_writer := Running |>) h))
  | step_start_reader c s :
      hub_state h !! c = Some s → cl_reader s = NotStarted →
      hub_step h (Some (set_client c (s <| cl_reader := Running |>) h))
  | step_unregister c s :
      hub_turn h = Select → hub_state h !! c = Some s → cl_reader s = Running →
      hub_step h (unregister c (set_client c (s <| cl_reader := Ended |>) h))
  | step_publish message :
      (length (hub_broadcast h) < channel_capacity)%nat →
      hub_step h (Some (h <| hub_broadcast ::= (λ l, l ++ [message]) |>))
  | step_take message rest todo :
      hub_turn h = Select → hub_broadcast h = message :: rest → todo ≡ₚ elements (hub_clients h) →
      hub_step h (Some (h <| hub_broadcast := rest |> <| hub_turn := Sending message todo |>
                          <| hub_log ::= (λ l, l ++ [message]) |>))
  | step_deliver message c todo :
      hub_turn h = Sending message (c :: todo) →
      hub_step h (deliver_to message c (h <| hub_turn := Sending message todo |>))
  | step_delivered message :
      hub_turn h = Sending message [] →
      hub_step h (Some (h <| hub_turn := Select |>))
  | step_write c s message queued :
      hub_state h !! c = Some s → cl_writer s = Running → cl_buffer s = message :: queued →
      hub_step h (Some (set_client c (write_frame message queued s) h))
  | step_lose c s taken left :
      hub_state h !! c = Some s → cl_writer s = Running → cl_buffer s = taken ++ left →
      hub_step h (Some (set_client c (lose_messages taken left s) h))
  | step_writer_ends c s :
      hub_state h !! c = Some s → cl_writer s = Running →
      hub_step h (Some (set_client c (s <| cl_writer := Ended |>) h)).

(** From a new hub, by steps that do not panic. *)
Inductive hub_reachable : Hub → Prop :=
  | hub_init : hub_reachable NewHub
  | hub_more h h' : hub_reachable h → hub_step h (Some h') → hub_reachable h'.

(** ** The invariant *)

(** What a client still has to be given in the turn that runs. *)
Definition pending (h : Hub) (c : nat) : list string :=
  match hub_turn h with
  | Sending message todo => if decide (c ∈ todo) then [message] else []
  | Select => []
  end.

(** The messages the hub took since the client registered. *)
Definition since (h : Hub) (s : Client) : list string := drop (cl_since s) (hub_log h).

Definition client_ok (h : Hub) (c : nat) (s : Client) : Prop :=
  (cl_since s ≤ length (hub_log h))%nat ∧
  (cl_closed s = false ↔ c ∈ hub_clients h) ∧
  (cl_closed s = false → cl_taken s ++ cl_buffer s ++ pending h c = since h s) ∧
  (cl_closed s = true → cl_taken s ++ cl_buffer s `prefix_of` since h s) ∧
  concat (cl_frames s) `prefix_of` cl_taken s ∧
  (cl_writer s ≠ Ended → concat (cl_frames s) = cl_taken s).

Definition turn_ok (h : Hub) : Prop :=
  match hub_turn h with
  | Sending _ todo => NoDup todo ∧ ∀ c, c ∈ todo → c ∈ hub_clients h
  | Select => True
  end.

Definition hub_ok (h : Hub) : Prop :=
  turn_ok h ∧ (∀ c, c ∈ hub_clients h → is_Some (hub_state h !! c)) ∧
  ∀ c s, hub_state h !! c = Some s → client_ok h c s.

Lemma NewHub_ok : hub_ok NewHub.
Proof. split_and!; [done|set_solver|]. intros c s Hc. cbn in Hc. by rewrite lookup_empty in Hc. Qed.

(** A step of a pump changes one client and nothing of the hub. *)
Lemma set_client_ok c s s' h :
  hub_ok h → hub_state h !! c = Some s → (client_ok h c s → client_ok h c s') →
  hub_ok (set_client c s' h).
Proof.
  intros (Ht & Hin & Hall) Hc Hs. split_and!; [exact Ht| |].
  - intros d Hd. cbn. rewrite lookup_insert_is_Some'. right. by apply Hin.
  - intros d x. cbn. rewrite lookup_insert_Some. intros [[<- <-]|[_ Hd]].
    + by apply Hs, Hall.
    + by apply Hall.
Qed.

Lemma register_ok c h :
  hub_ok h → hub_turn h = Select → hub_state h !! c = None →
  hub_ok (h <| hub_state ::= <[c := NewClient (length (hub_log h))]> |>
            <| hub_clients ::= (λ l, {[c]} ∪ l) |>).
Proof.
  intros (_ & Hin & Hall) Ht Hc. split_and!.
  - unfold turn_ok. cbn. by rewrite Ht.
  - intros d. cbn. rewrite elem_of_union, elem_of_singleton, lookup_insert_is_Some'.
    intros [->|Hd]; [by left|right; by apply Hin].
  - intros d x. cbn. rewrite lookup_insert_Some. unfold client_ok, pending, since. cbn. rewrite Ht.
    intros [[<- <-]|[Hd Hx]]; cbn.
    + split_and!; [done|set_solver| |done|done|done]. intros _. by rewrite drop_all.
    + destruct (Hall d x Hx) as (Hs & Hcl & Hrest). unfold pending, since in Hrest. rewrite Ht in Hrest.
      split_and!; [done| |apply Hrest..]. rewrite Hcl. set_solver.
Qed.

(** The hub drops a client of its map that has no message to come in this turn. *)
Lemma close_client_ok c s h :
  c ∈ hub_clients h → hub_state h !! c = Some s → cl_closed s = false → turn_ok h →
  (∀ m todo, hub_turn h = Sending m todo → c ∉ todo) →
  (∀ d, d ∈ hub_clients h → is_Some (hub_state h !! d)) →
  (∀ d x, d ≠ c → hub_state h !! d = Some x → client_ok h d x) →
  (cl_since s ≤ length (hub_log h))%nat → cl_taken s ++ cl_buffer s `prefix_of` since h s →
  concat (cl_frames s) `prefix_of` cl_taken s → (cl_writer s ≠ Ended → concat (cl_frames s) = cl_taken s) →
  ∃ h', close_client c h = Some h' ∧ hub_ok h'.
Proof.
  intros Hc Hs Hopen Ht Hnot Hin Hall Hsince Hpre Hframes Hwriter.
  unfold close_client. rewrite Hs, Hopen. eexists. split; [reflexivity|]. split_and!.
  - unfold turn_ok in *. cbn. destruct (hub_turn h) as [|m todo] eqn:Hturn; [done|].
    destruct Ht as [Hnd Hsub]. split; [done|]. intros d Hd. specialize (Hnot m todo eq_refl).
    apply elem_of_difference. split; [by apply Hsub|]. rewrite elem_of_singleton. by intros ->.
  - intros d. cbn. rewrite elem_of_difference, lookup_insert_is_Some'. intros [Hd _]. right. by apply Hin.
  - intros d x. cbn. rewrite lookup_insert_Some. intros [[<- <-]|[Hd Hx]].
    + unfold client_ok, since in *. cbn. split_and!; [done| |done|done|done|done].
      split; [done|]. rewrite elem_of_difference, elem_of_singleton. by intros [_ ?].
    + destruct (Hall d x (not_eq_sym Hd) Hx) as (? & Hcl & Hrest).
      unfold client_ok. split_and!; [done| |apply Hrest..].
      rewrite Hcl. cbn. rewrite elem_of_difference, elem_of_singleton. naive_solver.
Qed.

Lemma unregister_ok c h :
  hub_ok h → hub_turn h = Select → ∃ h', unregister c h = Some h' ∧ hub_ok h'.
Proof.
  intros Hok Ht. unfold unregister. destruct (decide _) as [Hc|]; [|by exists h].
  destruct Hok as (Hturn & Hin & Hall). destruct (Hin c Hc) as [s Hs].
  destruct (Hall c s Hs) as (Hsince & Hcl & Hopen & _ & Hframes & Hwriter).
  assert (cl_closed s = false) as Hno by (by apply Hcl). specialize (Hopen Hno).
  unfold pending in Hopen. rewrite Ht, app_nil_r in Hopen.
  apply (close_client_ok c s); try done.
  - intros m todo Hm. by rewrite Ht in Hm.
  - intros d x _. apply Hall.
  - by rewrite Hopen.
Qed.

Lemma take_ok message rest todo h :
  hub_ok h → hub_turn h = Select → todo ≡ₚ elements (hub_clients h) →
  hub_ok (h <| hub_broadcast := rest |> <| hub_turn := Sending message todo |>
            <| hub_log ::= (λ l, l ++ [message]) |>).
Proof.
  intros (_ & Hin & Hall) Ht Htodo.
  assert (∀ d, d ∈ todo ↔ d ∈ hub_clients h) as Hmem by (intros d; by rewrite Htodo, elem_of_elements).
  split_and!; [|exact Hin|].
  - unfold turn_ok. cbn. split; [rewrite Htodo; apply NoDup_elements|]. intros d. by rewrite Hmem.
  - intros d x Hx. destruct (Hall d x Hx) as (Hsince & Hcl & Hopen & Hclosed & Hrest).
    unfold client_ok, pending, since in *. cbn in *. rewrite Ht, app_nil_r in Hopen.
    rewrite drop_app_le by done. split_and!; [rewrite length_app; lia|done| | |apply Hrest..].
    + intros Hno. rewrite decide_True by (rewrite Hmem; by apply Hcl). rewrite <- (Hopen Hno). by rewrite (assoc_L (++)).
    + intros Hyes. by apply prefix_app_r, (Hclosed Hyes).
Qed.

(** The client at the head of the turn gets its message or is dropped; the rest have theirs
    to come or have got it. *)
Lemma deliver_ok message c todo h :
  hub_ok h → hub_turn h = Sending message (c :: todo) →
  ∃ h', deliver_to message c (h <| hub_turn := Sending message todo |>) = Some h' ∧ hub_ok h'.
Proof.
  intros (Hturn & Hin & Hall) Ht. unfold turn_ok in Hturn. rewrite Ht in Hturn.
  destruct Hturn as [[Hc Hnd]%NoDup_cons Hsub].
  assert (c ∈ hub_clients h) as Hclient by (apply Hsub; by left).
  destruct (Hin c Hclient) as [s Hs].
  destruct (Hall c s Hs) as (Hsince & Hcl & Hopen & _ & Hframes & Hwriter).
  assert (cl_closed s = false) as Hno by (by apply Hcl). specialize (Hopen Hno).
  unfold pending in Hopen. rewrite Ht, decide_True in Hopen by (by left).
  assert (∀ d x, d ≠ c → hub_state h !! d = Some x →
    client_ok (h <| hub_turn := Sending message todo |>) d x) as Hothers.
  { intros d x Hd Hx. destruct (Hall d x Hx) as (? & ? & Hopen' & Hrest).
    unfold client_ok, pending, since in *. cbn. rewrite Ht in Hopen'. split_and!; [done|done| |apply Hrest..].
    intros Hx'. rewrite <- (Hopen' Hx'). f_equal. f_equal.
    destruct (decide (d ∈ todo)); [rewrite decide_True by (by right)|rewrite decide_False by set_solver]; done. }
  unfold deliver_to. change (hub_state (h <| hub_turn := Sending message todo |>)) with (hub_state h). rewrite Hs, Hno. destruct (length (cl_buffer s) <? channel_capacity)%nat.
  - eexists. split; [reflexivity|]. split_and!.
    + unfold turn_ok. cbn. split; [done|]. intros d Hd. apply Hsub. by right.
    + intros d. cbn. rewrite lookup_insert_is_Some'. right. by apply Hin.
    + intros d x. cbn. rewrite lookup_insert_Some. intros [[<- <-]|[Hd Hx]].
      * unfold client_ok, pending, since in *. cbn. rewrite decide_False by done. rewrite app_nil_r.
        split_and!; [done|done| |congruence|done|done]. done.
      * apply (Hothers d x (not_eq_sym Hd) Hx).
  - apply (close_client_ok c s); try done.
    + split; [done|]. intros d Hd. apply Hsub. by right.
    + intros m t [= <- <-]. done.
    + unfold since in *. cbn. rewrite <- Hopen, (assoc_L (++)). by apply prefix_app_r.
Qed.

(** Every step has a result, and the invariant holds again. *)
Lemma hub_step_ok h o : hub_ok h → hub_step h o → ∃ h', o = Some h' ∧ hub_ok h'.
Proof.
  intros Hok Hstep.
  destruct Hstep as [c Ht Hc|c s Hs Hw|c s Hs Hr|c s Ht Hs Hr|m _|m rest todo Ht _ Htodo|m c todo Ht|m Ht
    |c s m queued Hs Hw Hb|c s taken left Hs Hw Hb|c s Hs Hw].
  - eexists. split; [reflexivity|]. by apply register_ok.
  - eexists. split; [reflexivity|]. eapply set_client_ok; [done..|].
    intros (? & ? & ? & ? & ? & Hwr). unfold client_ok, since in *. cbn. split_and!; try done.
    intros _. apply Hwr. congruence.
  - eexists. split; [reflexivity|]. eapply set_client_ok; [done..|]. by intros (? & ? & ? & ? & ? & Hwr).
  - apply unregister_ok; [|done]. eapply set_client_ok; [done..|]. by intros (? & ? & ? & ? & ? & Hwr).
  - eexists. split; [reflexivity|]. exact Hok.
  - eexists. split; [reflexivity|]. by apply take_ok.
  - by apply deliver_ok.
  - eexists. split; [reflexivity|]. destruct Hok as (Hturn & Hin & Hall). split_and!; [done|done|].
    intros d x Hx. destruct (Hall d x Hx) as (? & ? & Hopen & Hrest).
    unfold client_ok, pending, since in *. cbn. split_and!; [done|done| |apply Hrest..].
    rewrite Ht in Hopen. rewrite decide_False in Hopen by (by apply not_elem_of_nil). done.
  - eexists. split; [reflexivity|]. eapply set_client_ok; [done..|].
    intros (? & ? & Hopen & Hclosed & Hpre & Hwr). unfold client_ok, since in *. cbn.
    specialize (Hwr ltac:(congruence)). rewrite Hb in Hopen, Hclosed. split_and!; [done|done| | | |].
    + intros Hno. rewrite <- (Hopen Hno). by rewrite <- (assoc_L (++)).
    + intros Hyes. rewrite app_nil_r. by apply Hclosed.
    + rewrite concat_app, Hwr. cbn. by rewrite app_nil_r.
    + intros _. rewrite concat_app, Hwr. cbn. by rewrite app_nil_r.
  - eexists. split; [reflexivity|]. eapply set_client_ok; [done..|].
    intros (? & ? & Hopen & Hclosed & Hpre & Hwr). unfold client_ok, since in *. cbn.
    rewrite Hb in Hopen, Hclosed. split_and!; [done|done| | | |done].
    + intros Hno. rewrite <- (Hopen Hno). by rewrite <- !(assoc_L (++)).
    + intros Hyes. rewrite <- (assoc_L (++)). by apply Hclosed.
    + by apply prefix_app_r.
  - eexists. split; [reflexivity|]. eapply set_client_ok; [done..|].
    intros (? & ? & ? & ? & ? & Hwr). unfold client_ok, since in *. cbn. split_and!; try done.
Qed.

Lemma hub_reachable_ok h : hub_reachable h → hub_ok h.
Proof.
  induction 1 as [|h h' _ IH Hstep]; [apply NewHub_ok|].
  by apply (hub_step_ok h) in Hstep as (h1 & [= <-] & ?).
Qed.

(** C20: Whatever the clients and the publishers do, and however the goroutines interleave, the
    hub never sends on a closed channel and never closes one twice; what a client has been
    sent is, message by message, a beginning of what was broadcast since it registered, and
    while it is in the map and its writer runs nothing between is missing. *)
Theorem hub_correct h o :
  hub_reachable h → hub_step h o →
  is_Some o ∧
  ∀ c s, hub_state h !! c = Some s →
    concat (cl_frames s) `prefix_of` since h s ∧
    (c ∈ hub_clients h → cl_writer s ≠ Ended →
       concat (cl_frames s) ++ cl_buffer s ++ pending h c = since h s).
Proof.
  intros Hreach Hstep. apply hub_reachable_ok in Hreach as Hok.
  split; [apply (hub_step_ok h) in Hstep as (h1 & -> & _); [by eexists|done]|].
  destruct Hok as (_ & _ & Hall). intros c s Hs.
  destruct (Hall c s Hs) as (_ & Hcl & Hopen & Hclosed & Hpre & Hwr). split.
  - destruct (cl_closed s).
    + etransitivity; [exact Hpre|]. etransitivity; [|by apply Hclosed]. by apply prefix_app_r.
    + rewrite <- Hopen by done. by apply prefix_app_r.
  - intros Hc Hw. rewrite (Hwr Hw). apply Hopen. by apply Hcl.
Qed.
