(* ===== verification/InstanceProofs.v ===== *)
(** * What [services/instance.go] guarantees

    The theorems about port specifications, launching, stopping and terminating an
    instance, the attachment of volumes and the choice of private addresses. *)
From S2P Require Import Prelude GoStd Net Errors Domain DomainData World Logic Sql InstanceRepo NetworkRepo.
From S2P Require Import InstanceService.

(** ** Port specifications *)

(** *** Decimal numbers *)

Definition decimal_digit (a : ascii) : Prop := (48 ≤ N_of_ascii a ≤ 57)%N.

Definition decimal_value (l : list ascii) : Z := foldl (λ n a, n * 10 + (Z.of_N (N_of_ascii a) - 48)) 0 l.

(** At least one decimal digit, of value [n]. *)
Definition decimal (s : string) (n : Z) : Prop :=
  let l := String.list_ascii_of_string s in l ≠ [] ∧ Forall decimal_digit l ∧ n = decimal_value l.

(** The text of a port: spaces around a decimal number, which may have a sign. *)
Definition port_text (s : string) (n : Z) : Prop :=
  let t := TrimSpace s in
  decimal t n ∨ (∃ u, t = String "+" u ∧ decimal u n) ∨ (∃ u, t = String "-" u ∧ decimal u (- n)).

(** What a port mapping has to be: two such numbers of the port range. *)
Definition valid_mapping (p : string) : Prop :=
  ∃ h c a b, split_on ":"%char p = [h; c] ∧ port_text h a ∧ port_text c b ∧
    0 ≤ a ≤ 65535 ∧ 0 ≤ b ≤ 65535.

Lemma digit_val_spec a d : digit_val a = Some d ↔ decimal_digit a ∧ d = Z.of_N (N_of_ascii a) - 48.
Proof.
  unfold digit_val, decimal_digit. rewrite <- !N.leb_le.
  destruct (48 <=? N_of_ascii a)%N, (N_of_ascii a <=? 57)%N; naive_solver.
Qed.

Lemma digits_val_spec s acc n :
  digits_val acc s = Some n ↔
  Forall decimal_digit (String.list_ascii_of_string s) ∧
  n = foldl (λ n a, n * 10 + (Z.of_N (N_of_ascii a) - 48)) acc (String.list_ascii_of_string s).
Proof.
  revert acc. induction s as [|a s IH]; intros acc; cbn; [naive_solver constructor|].
  rewrite bind_Some, Forall_cons. split.
  - intros (d & [Hd ->]%digit_val_spec & Hs%IH). naive_solver.
  - intros [[Hd Hs] ->]. eexists. split; [by apply digit_val_spec|]. by apply IH.
Qed.

Lemma parse_uint_spec s n : parse_uint s = Some n ↔ decimal s n.
Proof.
  unfold decimal, decimal_value. destruct s as [|a s]; [cbn; split; [done|by intros (? & _)]|].
  change (parse_uint (String a s)) with (digits_val 0 (String a s)). rewrite digits_val_spec.
  cbn. naive_solver.
Qed.

Lemma decimal_no_sign a s n : decimal (String a s) n → a ≠ "+"%char ∧ a ≠ "-"%char.
Proof. intros (_ & [Ha _]%Forall_cons & _). split; intros ->; cbv in Ha; destruct Ha as [? ?]; congruence. Qed.

Lemma Atoi_spec s n : int64_range n →
  Atoi s = Some n ↔
  decimal s n ∨ (∃ u, s = String "+" u ∧ decimal u n) ∨ (∃ u, s = String "-" u ∧ decimal u (- n)).
Proof.
  intros Hr. destruct s as [|a s]; cbn [Atoi]; [unfold decimal; naive_solver|].
  assert (∀ v, decimal (String a s) v → a ≠ "+"%char ∧ a ≠ "-"%char) as Hsign by apply decimal_no_sign.
  case_bool_decide as Hm; [|case_bool_decide as Hp]; rewrite bind_Some; setoid_rewrite in_int64_Some;
    setoid_rewrite parse_uint_spec; split.
  - intros (u & Hu & Heq & _). right. right. exists s. subst. by rewrite Z.opp_involutive.
  - intros [Hd|[(u & Heq & Hd)|(u & Heq & Hd)]]; [naive_solver|simplify_eq|].
    injection Heq as _ ->. exists (- n). by rewrite Z.opp_involutive.
  - intros (u & Hu & Heq & _). right. left. exists s. by subst.
  - intros [Hd|[(u & Heq & Hd)|(u & Heq & Hd)]]; [naive_solver| |simplify_eq].
    injection Heq as _ ->. by exists n.
  - intros (u & Hu & Heq & _). left. by subst.
  - intros [Hd|[(u & Heq & Hd)|(u & Heq & Hd)]]; [by exists n|simplify_eq..].
Qed.

Lemma parsePort_spec s n : 0 ≤ n ≤ 65535 → parsePort s = Some n ↔ port_text s n.
Proof.
  intros Hn. unfold parsePort, port_text. case_bool_decide as He.
  - rewrite He. unfold decimal. naive_solver.
  - apply Atoi_spec. unfold int64_range. lia.
Qed.

Lemma port_in_range_spec a : port_in_range a = true ↔ 0 ≤ a ≤ 65535.
Proof. unfold port_in_range, MinPort, MaxPort. rewrite andb_true_iff, !Z.leb_le. lia. Qed.

Lemma check_mapping_None p : check_mapping p = None ↔ valid_mapping p.
Proof.
  unfold check_mapping, valid_mapping. split.
  - destruct (split_on ":" p) as [|h [|c []]]; try done.
    destruct (parsePort h) as [a|] eqn:Ha, (parsePort c) as [b|] eqn:Hb; try done.
    destruct (port_in_range a) eqn:Hra, (port_in_range b) eqn:Hrb; try done.
    apply port_in_range_spec in Hra, Hrb. intros _. exists h, c, a, b.
    by rewrite <- !parsePort_spec.
  - intros (h & c & a & b & -> & Hh & Hc & Ha & Hb). apply parsePort_spec in Hh as ->, Hc as ->; [|done..].
    apply port_in_range_spec in Ha, Hb. by rewrite Ha, Hb.
Qed.

Lemma check_mapping_Some p e : check_mapping p = Some e → Is e InvalidPortFormat = true.
Proof. unfold check_mapping. intros Hc. crush_match. Qed.

Lemma check_mappings_None l : check_mappings l = None ↔ Forall valid_mapping l.
Proof.
  induction l as [|p l IH]; cbn; [done|]. rewrite Forall_cons, <- IH, <- check_mapping_None.
  destruct (check_mapping p); naive_solver.
Qed.

Lemma check_mappings_Some l e : check_mappings l = Some e → Is e InvalidPortFormat = true.
Proof.
  induction l as [|p l IH]; cbn; [done|].
  destruct (check_mapping p) eqn:Hp; [|done]. intros [= <-]. by eapply check_mapping_Some.
Qed.

(** C37: The port specifications accepted are exactly the empty one and the lists of at most
    ten mappings [host:container] of two decimal numbers from 0 to 65535, each with spaces
    around it and a sign before it if one likes; the list returned joins back to the
    specification; a longer list is refused as TOO_MANY_PORTS, any other as
    INVALID_PORT_FORMAT. *)
Theorem parseAndValidatePorts_spec ports :
  match parseAndValidatePorts ports with
  | inr l => join "," l = ports ∧ (length l ≤ 10)%nat ∧ Forall valid_mapping l
  | inl e =>
      let l := split_on ","%char ports in
      ports ≠ "" ∧
      if decide (10 < length l)%nat then Is e TooManyPorts = true
      else Is e InvalidPortFormat = true ∧ ¬ Forall valid_mapping l
  end.
Proof.
  unfold parseAndValidatePorts. case_bool_decide as Hp.
  { subst. split_and!; [done|cbn; lia|constructor]. }
  destruct (Z.ltb_spec MaxPortsPerInstance (Z.of_nat (length (split_on "," ports)))) as [Hm|Hm];
    unfold MaxPortsPerInstance in Hm.
  { split; [done|]. rewrite decide_True by lia. done. }
  destruct (check_mappings _) as [e|] eqn:Hc.
  - split; [done|]. rewrite decide_False by lia. split; [by eapply check_mappings_Some|].
    rewrite <- check_mappings_None. congruence.
  - split_and!; [apply join_split_on|lia|by apply check_mappings_None].
Qed.

(** ** Launching *)

Section launch.
Context `{Env}.

Lemma perform_same {T} (p : World → T) `{!Indep p w_calls} c w r w' :
  perform c w = (r, w') → p w' = p w.
Proof. apply frame_run. apply _. Qed.

(** The parts of a row that a launch takes from its request. *)
Definition requested (ctx : Context) (name image ports : string) (vpcID subnetID : option uuid)
    (row : Instance) : Prop :=
  inst_UserID row = UserIDFromContext ctx ∧ inst_Name row = name ∧ inst_Image row = image ∧
  inst_Ports row = ports ∧ inst_VpcID row = vpcID ∧ inst_SubnetID row = subnetID.

(** The same parts of two rows are the same. *)
Definition alike (i j : Instance) : Prop :=
  inst_ID i = inst_ID j ∧ inst_UserID i = inst_UserID j ∧ inst_Name i = inst_Name j ∧
  inst_Image i = inst_Image j ∧ inst_Ports i = inst_Ports j ∧ inst_VpcID i = inst_VpcID j ∧
  inst_SubnetID i = inst_SubnetID j.

(** The row [inst] of an instance being launched, as the service still holds it. *)
Definition launching (inst : Instance) (w : World) : Prop :=
  ∃ row, t_instances w !! inst_ID inst = Some row ∧ alike row inst ∧
    inst_Status row = StatusStarting ∧ inst_Version row = 1 ∧ inst_Version inst = 1.

(** What the end of a launch leaves of the row. *)
Definition launched (inst : Instance) (r : res Instance) (t t' : gmap uuid Instance) : Prop :=
  ∃ row, t' = <[inst_ID inst := row]> t ∧ alike row inst ∧
    match r with
    | Ok i => inst_ID i = inst_ID inst ∧ inst_Status row = StatusRunning ∧ inst_Version row = 2 ∧
              inst_Version i = 2 ∧ inst_ContainerID row = inst_ContainerID i
    | Err _ => inst_Status row = StatusStarting ∨ inst_Status row = StatusError
    | Panic _ => inst_Status row = StatusStarting
    end.

(** The container of the instance is the one the backend answered with. *)
Definition container_created (w w' : World) (inst : Instance) (ps : list string) (containerID : string) : Prop :=
  ∃ net binds, answered (w_calls w) (w_calls w')
    (CreateInstance (formatContainerName (inst_ID inst)) (inst_Image inst) ps net binds [] []) (inr containerID).

Lemma launched_same inst r w : launching inst w →
  (match r with Ok _ => False | _ => True end) →
  launched inst r (t_instances w) (t_instances w).
Proof.
  intros (row & Hrow & ? & ? & ? & ?) Hr. exists row. rewrite insert_id by done.
  destruct r; naive_solver.
Qed.

Lemma launch_update inst st cid w r w' :
  launching inst w →
  instance_Update (inst <| inst_Status := st |> <| inst_ContainerID := cid |>) w = (r, w') →
  (∃ i row, r = Ok i ∧ t_instances w' = <[inst_ID inst := row]> (t_instances w) ∧
     alike row inst ∧ inst_Status row = st ∧ inst_Version row = 2 ∧
     inst_ID i = inst_ID inst ∧ inst_Version i = 2 ∧ inst_ContainerID row = cid ∧
     inst_ContainerID i = cid) ∨
  (∃ e, r = Err e ∧ t_instances w' = t_instances w).
Proof.
  intros (row & Hrow & Hu & Hst & Hv & Hvi) Hrun.
  apply instance_Update_outcome in Hrun
    as [(row0 & row' & now & -> & Hl & _ & _ & Hup & ->)|(e & -> & ->)]; [|by right; eauto].
  left. change (inst_ID _) with (inst_ID inst) in Hl.
  rewrite Hrow in Hl. injection Hl as <-.
  apply instance_update_row_fields in Hup as (ip & _ & ->).
  eexists _, _. split; [done|]. split; [done|]. unfold alike in *. cbn. rewrite Hv, Hvi. naive_solver.
Qed.

Lemma launch_failed_Err ctx inst err w r w' : launch_failed ctx inst err w = (r, w') → ∃ e, r = Err e.
Proof.
  unfold launch_failed. intros Hrun.
  apply ignore_bind_inv in Hrun as (r1 & w1 & _ & Hrun); [|apply _].
  apply ignore_bind_inv in Hrun as (r2 & w2 & _ & Hrun); [|apply _].
  unfold fail in Hrun. simplify_eq. eauto.
Qed.

Lemma launch_failed_effect ctx inst err w r w' :
  launching inst w → launch_failed ctx inst err w = (r, w') →
  launched inst r (t_instances w) (t_instances w') ∧ t_volumes w' = t_volumes w.
Proof.
  intros Hl Hrun. split; [|revert Hrun; apply frame_run; unfold launch_failed; apply _].
  unfold launch_failed in Hrun.
  apply ignore_bind_inv in Hrun as (r1 & w1 & Hup & Hrun); [|apply _].
  apply ignore_bind_inv in Hrun as (r2 & w2 & Hev & Hrun); [|apply _].
  unfold fail in Hrun. simplify_eq.
  apply (frame_run t_instances) in Hev; [|apply _]. rewrite Hev. pose proof Hl as Hl'.
  apply (launch_update inst StatusError (inst_ContainerID inst) w) in Hup
    as [(i & row & _ & -> & ? & ? & _)|(? & _ & ->)]; [|by apply launched_same|done].
  exists row. naive_solver.
Qed.

Lemma launch_running_effect ctx inst vols cid w r w' :
  launching inst w → launch_running ctx inst vols cid w = (r, w') →
  launched inst r (t_instances w) (t_instances w') ∧
  (match r with Ok i => inst_ContainerID i = cid | _ => t_volumes w' = t_volumes w end).
Proof.
  intros Hl Hrun. unfold launch_running in Hrun. pose proof Hl as Hl'.
  assert (∀ w1 r1, plumbNetwork ctx inst cid w = (r1, w1) →
            t_instances w1 = t_instances w ∧ t_volumes w1 = t_volumes w) as Hplumb.
  { intros w1 r1 Hp. split; revert Hp; apply frame_run; apply _. }
  run_step Hrun u w1.
  3:{ apply ignore_inv in Hrun0 as [[? _]|(p' & Hp & _)]; [done|].
      apply Hplumb in Hp as [-> ->]. split; [by apply launched_same|done]. }
  2:{ apply ignore_inv in Hrun0 as [[? _]|(? & _ & ?)]; done. }
  assert (t_instances w1 = t_instances w ∧ t_volumes w1 = t_volumes w) as [Ht Hv].
  { apply ignore_inv in Hrun0 as [[_ [r0 Hp]]|(p' & _ & ?)]; [by apply Hplumb in Hp|done]. }
  clear Hrun0 Hplumb.
  assert (launching inst w1) as Hl1 by (unfold launching; by rewrite Ht).
  rewrite <- Ht, <- Hv. clear Hl Hl' Ht Hv.
  run_step Hrun i w2; [|split; [|revert Hrun0; apply frame_run; apply _]..].
  - eapply launch_update in Hrun0 as [(i' & row & [= <-] & Ht & ? & ? & ? & ? & ? & ? & ?)|(e & ? & _)];
      [|done..].
    apply ignore_bind_inv in Hrun as (r1 & w3 & Hev & Hrun); [|apply _].
    apply ignore_bind_inv in Hrun as (r2 & w4 & Hlog & Hrun); [|apply _].
    apply (frame_run t_instances) in Hev, Hlog; [|apply _..].
    apply total_bind_inv in Hrun as (v & w5 & Hv & Hrun); [|apply _].
    apply (frame_run t_instances) in Hv; [|apply _].
    unfold mret, M_ret in Hrun. simplify_eq. split; [|congruence]. exists row. split_and!; congruence.
  - eapply launch_update in Hrun0 as [(? & ? & ? & _)|(e' & -> & ->)]; [done| |done]. by apply launched_same.
  - destruct (no_panic_run _ _ _ _ Hrun0).
Qed.

Lemma launch_resources_effect ctx inst ps vas w r w' :
  launching inst w → launch_resources ctx inst ps vas w = (r, w') →
  launched inst r (t_instances w) (t_instances w') ∧
  (match r with Ok i => container_created w w' inst ps (inst_ContainerID i) | _ => t_volumes w' = t_volumes w end).
Proof.
  intros Hl Hrun. unfold launch_resources in Hrun.
  assert (∀ w1, t_instances w1 = t_instances w → launching inst w1) as Hw
    by (intros w1 Hw1; unfold launching; by rewrite Hw1).
  run_step Hrun x w1; apply (frame_run t_instances) in Hrun0 as Ht; try apply _;
    apply (frame_run t_volumes) in Hrun0 as Hv; try apply _;
    [|by rewrite Ht; split; [apply launched_same|]..].
  apply run_grows in Hrun0 as Hg1; [|apply _]. destruct x as [[net ip] port].
  run_step Hrun y w2; apply (frame_run t_instances) in Hrun1 as Ht2; try apply _;
    apply (frame_run t_volumes) in Hrun1 as Hv2; try apply _; rewrite Ht in Ht2; rewrite Hv in Hv2;
    [|by rewrite Ht2; split; [apply launched_same|]..].
  apply run_grows in Hrun1 as Hg2; [|apply _].
  destruct y as [binds vols]. rewrite <- Ht2, <- Hv2. apply Hw in Ht2.
  set (i := inst <| inst_PrivateIP := ip |> <| inst_OvsPort := port |>) in *.
  assert (launching i w2) as Hi by done. change (launched inst) with (launched i).
  change (container_created w w' inst) with (container_created w w' i). clearbody i. unfold launch_container in Hrun.
  apply total_bind_inv in Hrun as (a & w3 & Hp & Hrun); [|apply _].
  apply (frame_run t_instances) in Hp as Hp1; [|apply _].
  apply (frame_run t_volumes) in Hp as Hp2; [|apply _].
  rewrite <- Hp1, <- Hp2. assert (launching i w3) by (unfold launching; by rewrite Hp1).
  destruct a as [err|cid].
  - apply launch_failed_Err in Hrun as Hr. destruct Hr as [e ->].
    by apply launch_failed_effect in Hrun.
  - assert (Steps grows (launch_running ctx i vols cid)) as Hg by (unfold launch_running, plumbNetwork; apply _).
    apply run_grows in Hrun as Hg3; [|done].
    apply launch_running_effect in Hrun as [Hl' Hr]; [|done]. split; [done|]. destruct r as [j|e|p]; try done.
    rewrite Hr. exists net, binds. destruct Hg3 as [l ->]. apply answered_app.
    destruct Hg1 as [l1 Hg1], Hg2 as [l2 Hg2]. apply (answered_base l1). rewrite <- Hg1.
    apply (answered_base l2). rewrite <- Hg2.
    apply attempt_inv in Hp as [(a & Hp & [= <-])|[(? & _ & ?)|(? & _ & ?)]]; [|done..].
    by apply perform_Ok_answered.
Qed.

(** A launch either fails before it writes a row, or inserts one and goes on. *)
Lemma launch_decompose ctx name image ports vpcID subnetID vas w r w' :
  LaunchInstance ctx name image ports vpcID subnetID vas w = (r, w') →
  (t_instances w' = t_instances w ∧ t_volumes w' = t_volumes w ∧ ∃ e, r = Err e) ∨
  ∃ ps inst row w0, parseAndValidatePorts ports = inr ps ∧ t_instances w !! inst_ID inst = None ∧
    requested ctx name image ports vpcID subnetID inst ∧
    t_instances w0 = <[inst_ID inst := row]> (t_instances w) ∧ t_volumes w0 = t_volumes w ∧
    w_calls w0 = w_calls w ∧ launching inst w0 ∧ launch_resources ctx inst ps vas w0 = (r, w').
Proof.
  unfold LaunchInstance. intros Hrun.
  destruct (parseAndValidatePorts ports) as [e|portList] eqn:Hps; [injection Hrun as <- <-; left; eauto|].
  cbn [from_sum] in Hrun. rewrite mret_bind in Hrun.
  apply total_bind_inv in Hrun as (id & w1 & Hid & Hrun); [|apply _].
  apply total_bind_inv in Hrun as (created & w2 & Hc & Hrun); [|apply _].
  apply total_bind_inv in Hrun as (updated & w3 & Hu & Hrun); [|apply _].
  assert (t_instances w3 = t_instances w ∧ t_volumes w3 = t_volumes w ∧ w_calls w3 = w_calls w) as (<- & <- & <-).
  { unfold uuid_New, Now, next_tick, mbind, M_bind, mret, M_ret in *. by simplify_eq. }
  cbn zeta in Hrun. set (inst := MkInstance id _ _ _ _ _ _ _ _ _ _ _ _ _) in Hrun.
  run_step Hrun u w4; apply instance_Create_outcome in Hrun0
    as [(ip & Hr0 & _ & Hfresh & Hw4)|(e0 & Hr0 & Hw4)]; try done;
    [|rewrite Hw4; left; eauto].
  right. exists portList, inst, (inst <| inst_PrivateIP := ip |>), w4. rewrite Hw4.
  split_and!; try done; [|by rewrite <- Hw4].
  eexists. cbn. by rewrite lookup_insert_eq.
Qed.

(** C3: A launch touches at most one row of [instances]: the row of a fresh identifier, owned by
    the caller, with the name, image, ports and network asked for.  It succeeds only with that
    row RUNNING at version 2 under the container the backend created in this call for the
    image and the ports; a failure leaves no row or one in STARTING or ERROR, and then no
    volume is changed.  This is so whatever fails: statements, the compute backend or the
    switch. *)
Theorem LaunchInstance_effect ctx name image ports vpcID subnetID vas w r w' :
  LaunchInstance ctx name image ports vpcID subnetID vas w = (r, w') →
  (t_instances w' = t_instances w ∧ (∃ e, r = Err e) ∨
   ∃ id row, t_instances w !! id = None ∧ t_instances w' = <[id := row]> (t_instances w) ∧
     requested ctx name image ports vpcID subnetID row ∧ inst_ID row = id ∧
     match r with
     | Ok i => inst_ID i = id ∧ inst_Status row = StatusRunning ∧ inst_Version row = 2 ∧
               inst_Version i = 2 ∧ inst_ContainerID row = inst_ContainerID i ∧
               ∃ ps, parseAndValidatePorts ports = inr ps ∧
                 container_created w w' row ps (inst_ContainerID row)
     | Err _ => inst_Status row = StatusStarting ∨ inst_Status row = StatusError
     | Panic _ => inst_Status row = StatusStarting
     end) ∧
  (match r with Ok _ => True | _ => t_volumes w' = t_volumes w end).
Proof.
  intros [(Hi & Hv & e & ->)|(ps & inst & row0 & w0 & Hps & Hfresh & Hreq & Hi & Hv & Hc & Hl & Hrun)]
    %launch_decompose; [split; [left; eauto|done]|].
  apply launch_resources_effect in Hrun as [(row & Ht & Ha & Hr) Hv']; [|done].
  rewrite Hv in Hv'. split; [right; exists (inst_ID inst), row|by destruct r].
  unfold alike, requested, container_created in *. rewrite Hc in Hv'.
  destruct Ha as (Hid & Hau & Han & Hai & Hap & Havp & Has). destruct Hreq as (? & ? & ? & ? & ? & ?).
  split_and!; [done| |congruence..|].
  - by rewrite Ht, Hi, insert_insert_eq.
  - destruct r as [i|e|p]; [|done..]. destruct Hr as (? & ? & ? & ? & Hci). split_and!; [done..|].
    exists ps. split; [done|]. by rewrite Hid, Hai, Hci.
Qed.

(** What a client of the service may rely on of the rows. *)
Lemma launch_rows ctx name image ports vpcID subnetID vas w r w' :
  LaunchInstance ctx name image ports vpcID subnetID vas w = (r, w') →
  t_instances w' = t_instances w ∨
  ∃ id row, t_instances w !! id = None ∧ t_instances w' = <[id := row]> (t_instances w) ∧
    match r with Ok i => inst_ID i = id | _ => True end.
Proof.
  intros [(Hi & _)|(ps & inst & row0 & w0 & _ & Hfresh & _ & Hi & _ & _ & Hl & Hrun)]
    %launch_decompose; [by left|right].
  apply launch_resources_effect in Hrun as [(row & Ht & Ho & Hr) _]; [|done].
  exists (inst_ID inst), row. rewrite Ht, Hi, insert_insert_eq. destruct r; naive_solver.
Qed.

End launch.

(** ** Stopping *)

Section stop.
Context `{Env, !OrderLaws, !NoFaults}.

Lemma instance_GetByID_row ctx id w :
  ∃ r, instance_GetByID ctx id w = (r, w <| w_tick ::= S |>) ∧
  match r with
  | Ok inst => t_instances w !! id = Some inst ∧ inst_UserID inst = UserIDFromContext ctx
  | Err e => Is e NotFound = true ∧
      (∀ inst, t_instances w !! id = Some inst → inst_UserID inst ≠ UserIDFromContext ctx)
  | Panic _ => False
  end.
Proof.
  unfold instance_GetByID, wrap_err. rewrite (db_query_row_pk t_instances id _ w (no_faults _)).
  destruct (t_instances w !! id) as [inst|] eqn:Hi; [|eexists; split; [done|]; by split].
  unfold of_user. case_bool_decide; eexists; (split; [done|]); [done|].
  split; [done|]. by intros ? [= <-].
Qed.

(** Stopping is idempotent: once an instance was stopped through its identifier, stopping
    it again succeeds, calls no backend and leaves every table as it is. *)
Theorem Stop_idempotent ctx s id w w1 :
  uuid_parse s = Some id → keyed inst_ID (t_instances w) →
  Instance_Stop ctx s w = (Ok tt, w1) →
  Instance_Stop ctx s w1 = (Ok tt, w1 <| w_tick ::= S |>).
Proof.
  intros Hs Hkey Hrun. unfold Instance_Stop, GetInstance in *. rewrite Hs in *.
  destruct (instance_GetByID_row ctx id w) as (r & Hget & Hr).
  ok_step Hrun i0 w2. rewrite Hget in Hrun0. injection Hrun0 as -> <-.
  destruct Hr as [Hi Hu]. pose proof (Hkey _ _ Hi) as Hid.
  assert (∃ row, t_instances w1 !! id = Some row ∧ inst_UserID row = inst_UserID i0 ∧
            inst_Status row = StatusStopped) as (row & Hrow & Hu' & Hst).
  { case_bool_decide as Hst.
    { unfold mret, M_ret in Hrun. injection Hrun as <-. by exists i0. }
    ok_step Hrun u w3.
    apply wrap_err_Ok, (frame_run t_instances) in Hrun0; [|apply _].
    ok_step Hrun i' w4.
    apply instance_Update_outcome in Hrun1 as [(row & row' & now & [= ->] & Hl & Hv & Hou & Hup & Hw4)|(e & ? & ?)]; [|done].
    apply (frame_run t_instances) in Hrun; [|apply _].
    apply instance_update_row_fields in Hup as (ip & _ & ->).
    rewrite Hrun, Hw4. cbn. rewrite Hid, lookup_insert_eq. eexists. split; [done|]. by cbn. }
  destruct (instance_GetByID_row ctx id w1) as (r & Hget1 & Hr).
  destruct r as [i|e|]; [|destruct Hr as [_ Hr]; destruct (Hr _ Hrow); congruence|done].
  rewrite (bind_Ok_run _ _ _ _ _ Hget1). destruct Hr as [Hi' _].
  rewrite Hrow in Hi'. injection Hi' as <-. by rewrite bool_decide_true.
Qed.

End stop.

(** ** Terminating *)

Section terminate.
Context `{Env}.

(** The part of the world a termination rewrites row by row. *)
Definition instance_refs (w : World) :=
  (t_instances w, t_lb_targets w, t_group_instances w, t_containers w).

Lemma terminate_run ctx s w r w' :
  TerminateInstance ctx s w = (r, w') →
  (instance_refs w' = instance_refs w ∧ t_volumes w' = t_volumes w ∧ ∃ e, r = Err e) ∨
  ∃ inst w1 w2, GetInstance ctx s w = (Ok inst, w1) ∧
    answered (w_calls w) (w_calls w') (DeleteInstance (container_target inst)) (inr tt) ∧
    instance_refs w2 = instance_refs w ∧
    ignore (releaseAttachedVolumes ctx (inst_ID inst)) (w1 <| w_calls ::= cons (DeleteInstance (container_target inst)) |>) = (Ok tt, w2) ∧
    ((∃ e, r = Err e) ∧ instance_refs w' = instance_refs w ∧ t_volumes w' = t_volumes w2 ∨
     r = Ok tt ∧
     instance_refs w' = instance_refs (instance_cascade (inst_ID inst) (w2 <| t_instances ::= delete (inst_ID inst) |>)) ∧
     t_volumes w' = t_volumes (instance_cascade (inst_ID inst) w2)).
Proof.
  unfold TerminateInstance. intros Hrun.
  run_step Hrun i w1; apply (frame_run instance_refs) in Hrun0 as Hr1; try apply _;
    apply (frame_run t_volumes) in Hrun0 as Hv1; try apply _;
    [|left; eauto|destruct (no_panic_run _ _ _ _ Hrun0)].
  apply (frame_run w_calls) in Hrun0 as Hc1; [|apply _].
  run_step Hrun u w2; [|left; apply (frame_run instance_refs) in Hrun1 as Hr2; [|apply _];
    apply (frame_run t_volumes) in Hrun1 as Hv2; [|apply _]; rewrite Hr2, Hv2; eauto
    |destruct (no_panic_run _ _ _ _ Hrun1)].
  right. exists i, w1. apply total_bind_inv in Hrun as ([] & w3 & Hrel & Hrun); [|apply _].
  exists w3. apply (frame_run instance_refs) in Hrun1 as Hr2; [|apply _].
  apply (frame_run instance_refs) in Hrel as Hr3; [|apply _].
  apply (frame_run w_calls) in Hrel as Hc3; [|apply _].
  unfold removeInstanceContainer in Hrun1. apply wrap_err_Ok in Hrun1. destruct u.
  pose proof (perform_Ok_answered (DeleteInstance (container_target i)) _ _ _ Hrun1) as Ha.
  assert (w2 = w1 <| w_calls ::= cons (DeleteInstance (container_target i)) |>) as ->.
  { unfold perform in Hrun1. by destruct (env_respond _ _); simplify_eq. }
  rewrite Hc1 in Ha.
  run_step Hrun v w4; apply instance_Delete_outcome in Hrun2
    as [(row & Hr0 & Hrow & Hown & Hw4)|(e0 & Hr0 & Hw4)]; try done.
  - assert (r = Ok tt) as ->.
    { apply total_run in Hrun as [[] ->]; [done|apply _]. }
    apply (frame_run instance_refs) in Hrun as Hf1; [|apply _].
    apply (frame_run t_volumes) in Hrun as Hf2; [|apply _].
    apply (frame_run w_calls) in Hrun as Hf3; [|apply _].
    split_and!; [done| |by rewrite Hr3, Hr2|done|right].
    + rewrite Hf3, Hw4. cbn. by rewrite Hc3.
    + split_and!; [done|by rewrite Hf1, Hw4|by rewrite Hf2, Hw4].
  - rewrite Hw4. cbn. split_and!; [done|by rewrite Hc3|by rewrite Hr3, Hr2|done|left].
    split_and!; [eauto|by rewrite <- Hr1, <- Hr2, <- Hr3|done].
Qed.

(** *** The volumes of a terminated instance *)

(** What a termination may make of a volume before the row goes. *)
Definition release_step (ctx : Context) (id : uuid) (o o' : option Volume) : Prop :=
  o' = o ∨ ∃ v now, o = Some v ∧ vol_InstanceID v = Some id ∧ vol_UserID v = UserIDFromContext ctx ∧
    o' = Some (released v now).

Lemma released_twice v n now : released (released v n) now = released v now.
Proof. by destruct v. Qed.

Lemma volume_Update_released v now t0 w r w' :
  (t_volumes w !! vol_ID v = Some v ∨ ∃ n, t_volumes w !! vol_ID v = Some (released v n)) →
  volume_Update (released v now) w = (r, w') → t0 = t_volumes w →
  t_volumes w' = t0 ∨ t_volumes w' = <[vol_ID v := released v now]> t0.
Proof.
  intros Hv Hrun ->.
  apply volume_Update_outcome in Hrun as [(row & Hrow & _ & _ & ->)| ->]; [right|by left]. cbn in *.
  destruct Hv as [Hv|[n Hv]]; rewrite Hv in Hrow; injection Hrow as <-; by destruct v.
Qed.

Lemma release_volumes `{!OrderLaws} ctx id w r w' :
  keyed vol_ID (t_volumes w) → releaseAttachedVolumes ctx id w = (r, w') →
  ∀ k, release_step ctx id (t_volumes w !! k) (t_volumes w' !! k).
Proof.
  intros Hkey Hrun. unfold releaseAttachedVolumes in Hrun.
  run_step Hrun vols w1; [|apply (frame_run t_volumes) in Hrun0 as ->; [by left|apply _]
    |destruct (no_panic_run _ _ _ _ Hrun0)].
  apply (frame_run t_volumes) in Hrun0 as Hv1; [|apply _].
  assert (∀ v, v ∈ vols → t_volumes w !! vol_ID v = Some v ∧ vol_InstanceID v = Some id ∧
    vol_UserID v = UserIDFromContext ctx) as Hvols.
  { unfold volume_ListByInstanceID in Hrun0. apply db_query_Ok in Hrun0 as [-> ->]. intros v Hv%elem_of_cut.
    apply env_order_elem in Hv. cbn in Hv. rewrite (elem_of_select_key vol_ID) in Hv by exact Hkey. destruct Hv as [HP Hv].
    apply andb_true_iff in HP as [HP Hu]. unfold of_user in Hu. apply bool_decide_eq_true in HP, Hu. done. }
  assert (∀ k, release_step ctx id (t_volumes w !! k) (t_volumes w1 !! k)) as Hstep by (intros k; left; by rewrite Hv1).
  clear Hrun0 Hv1. revert w1 Hstep Hrun. induction vols as [|v vols IH]; intros w1 Hstep Hrun.
  { cbn in Hrun. unfold mret, M_ret in Hrun. by injection Hrun as _ <-. }
  cbn in Hrun. apply total_bind_inv in Hrun as ([] & w2 & Hone & Hrun); [|apply _].
  eapply (IH ltac:(intros v' Hv'; apply Hvols; by right) w2); [|exact Hrun]. clear IH Hrun.
  apply total_bind_inv in Hone as (now & w0 & Hnow & Hone); [|apply _].
  apply (frame_run t_volumes) in Hnow as Hw0; [|apply _].
  apply ignore_inv in Hone as [[_ [r0 Hup]]|(? & Hp & _)]; [|destruct (no_panic_run _ _ _ _ Hp)].
  destruct (Hvols v (list_elem_of_here _ _)) as (Hv & Hid & Hu).
  apply (volume_Update_released v now (t_volumes w1)) in Hup; [| |done].
  2:{ rewrite Hw0. destruct (Hstep (vol_ID v)) as [->|(v0 & n & Hv0 & _ & _ & ->)]; [by left|right].
      rewrite Hv in Hv0. injection Hv0 as <-. by exists n. }
  intros k. destruct Hup as [->| ->]; [done|].
  destruct (decide (k = vol_ID v)) as [->|Hne]; [|by rewrite lookup_insert_ne].
  rewrite lookup_insert_eq. right. exists v, now. done.
Qed.

Lemma GetInstance_row `{!OrderLaws} ctx s id w i w1 :
  uuid_parse s = Some id → keyed inst_ID (t_instances w) → GetInstance ctx s w = (Ok i, w1) →
  w1 = w <| w_tick ::= S |> ∧ t_instances w !! id = Some i ∧ inst_ID i = id ∧
  inst_UserID i = UserIDFromContext ctx.
Proof.
  unfold GetInstance. intros -> Hkey Hrun. apply wrap_err_Ok in Hrun.
  apply (db_query_row_pk_Ok t_instances) in Hrun as (-> & Hi & Hu).
  unfold of_user in Hu. apply bool_decide_eq_true in Hu. split_and!; try done. by apply Hkey.
Qed.

(** C12: A termination by identifier, whatever fails.  When it succeeds the backend answered that
    the container is removed, the row, the load-balancer targets, the group memberships and the
    deployment containers of the instance are gone and no other row of these tables, and no
    volume refers to the instance.  When it fails these tables are as they were; of the volumes
    only those of the owner attached to the instance may be released already, and only if the
    container was removed. *)
Theorem TerminateInstance_effect `{!OrderLaws} ctx s id w r w' :
  uuid_parse s = Some id → keyed inst_ID (t_instances w) → keyed vol_ID (t_volumes w) →
  TerminateInstance ctx s w = (r, w') →
  match r with
  | Ok _ =>
      ∃ inst, t_instances w !! id = Some inst ∧ inst_UserID inst = UserIDFromContext ctx ∧
        answered (w_calls w) (w_calls w') (DeleteInstance (container_target inst)) (inr tt) ∧
        t_instances w' = delete id (t_instances w) ∧
        t_lb_targets w' = filter (λ kv, tgt_InstanceID kv.2 ≠ id) (t_lb_targets w) ∧
        t_group_instances w' = filter (λ kv, kv.1.2 ≠ id) (t_group_instances w) ∧
        t_containers w' = filter (λ kv, dc_InstanceID kv.2 ≠ id) (t_containers w) ∧
        ∀ k, (∀ v, t_volumes w' !! k = Some v → vol_InstanceID v ≠ Some id) ∧
          (release_step ctx id (t_volumes w !! k) (t_volumes w' !! k) ∨
           ∃ v, t_volumes w !! k = Some v ∧ vol_InstanceID v = Some id ∧
             t_volumes w' !! k = Some (v <| vol_InstanceID := None |>))
  | Err _ =>
      instance_refs w' = instance_refs w ∧
      (∀ k, release_step ctx id (t_volumes w !! k) (t_volumes w' !! k)) ∧
      (t_volumes w' = t_volumes w ∨
       ∃ inst, t_instances w !! id = Some inst ∧
         answered (w_calls w) (w_calls w') (DeleteInstance (container_target inst)) (inr tt))
  | Panic _ => False
  end.
Proof.
  intros Hs Hkey Hvkey [(Hrefs & Hv & e & ->)|(i & w1 & w2 & Hget & Ha & Hrefs & Hrel & Hend)]
    %terminate_run; [split_and!; [done|intros k; left; by rewrite Hv|by left]|].
  apply (GetInstance_row ctx s id) in Hget as (-> & Hi & Hid & Hu); [|done..]. rewrite Hid in *.
  apply ignore_inv in Hrel as [[_ [r0 Hrel]]|(? & ? & ?)]; [|done].
  set (w0 := w <| w_tick ::= S |> <| w_calls ::= _ |>) in Hrel.
  assert (∀ k, release_step ctx id (t_volumes w !! k) (t_volumes w2 !! k)) as Hst
    by exact (release_volumes ctx id w0 _ _ Hvkey Hrel).
  clear Hrel. rename Hst into Hrel.
  destruct Hend as [[[e ->] [Hrefs' Hvol]]|(-> & Hrefs' & Hvol)].
  { rewrite Hvol. split_and!; [done|done|right; eauto]. }
  exists i. unfold instance_refs in Hrefs, Hrefs'. cbn in Hrefs'. injection Hrefs as Hra Hrb Hrc Hrd.
  injection Hrefs' as Ha' Hb' Hc' Hd'. split_and!; [done|done|done|congruence..|].
  intros k. rewrite Hvol. cbn. rewrite lookup_fmap. split.
  { intros v (v0 & Hv0 & ->)%fmap_Some. by case_bool_decide. }
  destruct (Hrel k) as [->|(v & now & Hk & Hat & Hou & ->)].
  - destruct (t_volumes w !! k) as [v|]; [|by left; left]. cbn.
    case_bool_decide as Hd; [right; by exists v|by left; left].
  - left. right. exists v, now. cbn. split_and!; [done..|]. by rewrite bool_decide_false.
Qed.

Lemma release_loop `{!NoFaults} vols w r w' :
  foreach vols (λ vol, now ← Now; ignore (volume_Update (released vol now))) w = (r, w') →
  (∀ v, v ∈ vols → t_volumes w !! vol_ID v = Some v) → NoDup (vol_ID <$> vols) →
  ∀ k, (k ∉ vol_ID <$> vols → t_volumes w' !! k = t_volumes w !! k) ∧
       (∀ v, v ∈ vols → vol_ID v = k → ∃ now, t_volumes w' !! k = Some (released v now)).
Proof.
  revert w. induction vols as [|v vols IH]; intros w Hrun Hrows Hnd k.
  { unfold foreach, mret, M_ret in Hrun. simplify_eq. split; [done|]. by intros ? ?%elem_of_nil. }
  cbn in Hrun. apply total_bind_inv in Hrun as ([] & w1 & Hstep & Hrun); [|apply _].
  cbn in Hnd. apply NoDup_cons in Hnd as [Hv Hnd].
  apply total_bind_inv in Hstep as (now & w0 & Hnow & Hstep); [|apply _].
  assert (t_volumes w0 = t_volumes w) as Hw0.
  { eapply (frame_run t_volumes) in Hnow; [done|apply _]. }
  pose proof (Hrows v (list_elem_of_here _ _)) as Hrow.
  assert (t_volumes w1 = <[vol_ID v := released v now]> (t_volumes w)) as Hw1.
  { unfold ignore, attempt, mbind, M_bind, mret, M_ret in Hstep.
    rewrite (volume_Update_run (released v now) v) in Hstep; [|by rewrite Hw0|done|done].
    injection Hstep as <-. cbn. rewrite Hw0. by destruct v. }
  assert (∀ v', v' ∈ vols → t_volumes w1 !! vol_ID v' = Some v') as Hrows1.
  { intros v' Hv'. rewrite Hw1, lookup_insert_ne; [apply Hrows; by right|].
    intros Heq. apply Hv. rewrite Heq. by apply list_elem_of_fmap_2. }
  destruct (IH w1 Hrun Hrows1 Hnd k) as [IH1 IH2]. split.
  - cbn. intros [Hk Hk']%not_elem_of_cons. rewrite IH1 by done. rewrite Hw1. by rewrite lookup_insert_ne.
  - intros v' [->|Hv']%elem_of_cons Hid; [|by apply IH2]. exists now. subst.
    rewrite IH1 by done. rewrite Hw1. by rewrite lookup_insert_eq.
Qed.

(** Without database failures, a termination that succeeds makes every volume of the owner
    that was attached to the instance available again. *)
Theorem TerminateInstance_releases_volumes `{!OrderLaws, !NoFaults} ctx s id w w' :
  uuid_parse s = Some id → keyed inst_ID (t_instances w) → keyed vol_ID (t_volumes w) →
  TerminateInstance ctx s w = (Ok tt, w') →
  ∀ k v, t_volumes w !! k = Some v → vol_InstanceID v = Some id →
    vol_UserID v = UserIDFromContext ctx → ∃ now, t_volumes w' !! k = Some (released v now).
Proof.
  intros Hs Hkey Hvkey [(_ & _ & e & ?)|(i & w1 & w2 & Hget & _ & _ & Hrel & [[[e ?] _]|(_ & _ & Hvol)])]
    %terminate_run k v Hk Hid Hu; [done..|].
  apply (GetInstance_row ctx s id) in Hget as (-> & Hi & Hid' & _); [|done..]. rewrite Hid' in *.
  apply ignore_inv in Hrel as [[_ [r0 Hrel]]|(? & ? & ?)]; [|done].
  unfold releaseAttachedVolumes, volume_ListByInstanceID in Hrel.
  set (wc := w <| w_tick ::= S |> <| w_calls ::= _ |>) in Hrel.
  rewrite (bind_Ok_run _ _ _ _ _ (db_query_run _ wc)) in Hrel.
  set (P := λ r, _) in Hrel. change (t_volumes (wc <| w_tick ::= S |>)) with (t_volumes w) in Hrel.
  assert (∃ now, t_volumes w2 !! k = Some (released v now)) as [now Hw2].
  { eapply release_loop with (k := k) in Hrel as [_ Hin].
    - eapply Hin; [|by apply Hvkey]. apply env_order_elem, elem_of_select. split; [|eauto].
      unfold P, of_user. by rewrite !bool_decide_true.
    - intros v' Hv'%env_order_elem. by apply (elem_of_select_key vol_ID) in Hv' as [_ ?].
    - rewrite env_order_perm. by apply select_NoDup. }
  exists now. rewrite Hvol. cbn. rewrite lookup_fmap, Hw2. cbn. by rewrite bool_decide_false.
Qed.

End terminate.

(** ** Networking *)

Section networking.
Context `{Env}.

Lemma resolve_subnet ctx s w net ip port w' :
  has_network = true → resolveNetworkConfig ctx None (Some s) w = (Ok (net, ip, port), w') → port ≠ "".
Proof.
  intros Hnet Hrun. unfold resolveNetworkConfig in Hrun. rewrite Hnet in Hrun.
  ok_step Hrun n w1. ok_step Hrun sub w2. ok_step Hrun a w3. ok_step Hrun u w4.
  unfold mret, M_ret in Hrun. by simplify_eq.
Qed.

(** An instance in a subnet but in no VPC is never launched when the service has a network
    backend that works: the dereference of the missing VPC identifier panics, after
    the container was created. *)
Theorem launch_in_subnet_without_vpc_fails ctx name image ports s vas w r w' :
  has_network = true → (∀ l c, ∃ a, env_respond l c = inr a) →
  LaunchInstance ctx name image ports None (Some s) vas w = (r, w') →
  match r with
  | Ok _ => False
  | Err _ => True
  | Panic p => p = nil_dereference
  end.
Proof.
  intros Hnet Hok [(_ & _ & e & ->)|(ps & inst & row & w0 & _ & _ & (_ & _ & _ & _ & Hvpc & Hsub) & _ & _ & _ & _ & Hrun)]
    %launch_decompose; [done|].
  unfold launch_resources in Hrun. rewrite Hvpc, Hsub in Hrun.
  run_step Hrun x w1; [|done|destruct (no_panic_run _ _ _ _ Hrun0)]. destruct x as [[net ip] port].
  apply resolve_subnet in Hrun0 as Hport; [|done].
  run_step Hrun y w2; [|done|destruct (no_panic_run _ _ _ _ Hrun1)]. destruct y as [binds vols].
  unfold launch_container in Hrun.
  apply total_bind_inv in Hrun as (a & w3 & Hc & Hrun); [|apply _].
  destruct a as [err|cid].
  { unfold attempt, perform in Hc.
    match type of Hc with context [env_respond ?l ?c] => destruct (Hok l c) as [a Ha] end.
    by rewrite Ha in Hc. }
  assert (∀ i c w', inst_OvsPort i ≠ "" → inst_VpcID i = None →
    ∃ w'', plumbNetwork ctx i c w' = (Panic nil_dereference, w'')) as Hpanic.
  { intros i c w'' Hp Hv. unfold plumbNetwork. rewrite bool_decide_false by done. rewrite Hnet. cbn.
    set (v := CreateVethPair _ _). destruct (Hok (w_calls w'') v) as [a Ha].
    unfold mbind, M_bind, perform. rewrite Ha. rewrite Hv. by eexists. }
  edestruct (Hpanic (inst <| inst_PrivateIP := ip |> <| inst_OvsPort := port |>) cid w3)
    as [w'' Hp]; [done..|].
  unfold launch_running, ignore, attempt, mbind, M_bind in Hrun.
  rewrite Hp in Hrun. by simplify_eq.
Qed.

(** An INET column reads back as text with the length of its prefix. *)
Definition pg_inet (s : string) : Prop := s = "" ∨ ∃ ip, ipv4_ok ip ∧ s = dotted ip +:+ "/32".

Lemma pg_inet_not_dotted s ip : ipv4_ok ip → pg_inet s → s ≠ "" → s ≠ dotted ip.
Proof.
  intros Hip [->|(ip' & _ & ->)] Hne Heq; [done|].
  pose proof (dotted_no_slash ip (proj1 Hip)) as Hfree.
  rewrite <- Heq, str_free_app in Hfree. by rewrite andb_false_r in Hfree.
Qed.

(** With the text PostgreSQL gives for stored addresses, the addresses already in use are
    never recognised: every allocation in an IPv4 subnet gives the address after the
    network address, whichever instances the subnet has and whatever its gateway is. *)
Theorem allocateIP_ignores_used_addresses `{!OrderLaws, !NoFaults} ctx subnet a base ones w :
  ParseCIDR (sn_CIDRBlock subnet) = Some (a, ipv4_net base ones) →
  ipv4_ok base → 0 ≤ ones ≤ 31 →
  (∃ gw, ipv4_ok gw ∧ sn_GatewayIP subnet = dotted gw +:+ "/32") →
  (∀ k i, t_instances w !! k = Some i → pg_inet (inst_PrivateIP i)) →
  allocateIP ctx subnet w =
    (Ok (IP_String (incr (net_IP (ipv4_net base ones)))), w <| w_tick ::= S |>).
Proof.
  intros Hparse Hb Hones (gw & Hgw & Hgate) Hinst. unfold allocateIP. rewrite Hparse. cbn [from_opt].
  rewrite mret_bind. unfold instance_ListBySubnet.
  set (first := net_IP (ipv4_net base ones)).
  assert (ipv4_ok first) as Hfirst by (apply ipv4_net_ok; [done|lia]).
  assert (ipv4_ok (incr first)) as Hnext
    by (split; [apply incr_ok, Hfirst|by rewrite incr_length, (proj2 Hfirst)]).
  set (P := λ r, bool_decide (inst_SubnetID r = Some (sn_ID subnet)) && _).
  assert (Contains (ipv4_net base ones) (incr first) = true) as Hin.
  { apply Contains_val; [done|done|lia|].
    pose proof (mask_val4 base ones Hb ltac:(lia)) as Hm.
    change (zip_with _ _ _) with first in Hm. rewrite incr_val by apply Hfirst.
    rewrite (proj2 Hfirst). change (256 ^ Z.of_nat 4) with (2 ^ 32).
    pose proof (ip_val_bound base (proj1 Hb)) as Hbb. rewrite (proj2 Hb) in Hbb.
    change (256 ^ Z.of_nat 4) with (2 ^ 32) in Hbb.
    assert (2 ^ 32 = 2 ^ ones * 2 ^ (32 - ones)) as Hpow by (rewrite <- Z.pow_add_r by lia; f_equal; lia).
    assert (2 ^ (32 - ones) = 2 * 2 ^ (31 - ones)) as Hpow2
      by (rewrite <- Z.pow_succ_r by lia; f_equal; lia).
    assert (0 < 2 ^ (31 - ones)) by (apply Z.pow_pos_nonneg; lia).
    assert (0 < 2 ^ ones) by (apply Z.pow_pos_nonneg; lia).
    fold first. rewrite Hm. set (q := ip_val base / 2 ^ (32 - ones)) in *.
    assert (0 ≤ q < 2 ^ ones) as Hq.
    { subst q. split; [apply Z.div_pos; lia|]. apply Z.div_lt_upper_bound; nia. }
    rewrite Z.mod_small by nia. rewrite Z.add_comm, Z.div_add by lia.
    rewrite Z.div_small by lia. lia. }
  assert (∀ l, (∀ i, i ∈ l → pg_inet (inst_PrivateIP i)) →
    findAvailableIP (ipv4_net base ones) (used_ips l subnet) = Found (IP_String (incr first))) as Hfind.
  { intros l Hl. unfold findAvailableIP. cbn [find_from]. fold first. rewrite Hin.
    unfold isValidHostIP. rewrite Hin. cbn [negb andb].
    assert (mem (IP_String (incr first)) (used_ips l subnet) = false) as ->; [|done].
    apply mem_false. unfold used_ips, IP_String. rewrite (To4_ipv4 _ Hnext).
    rewrite elem_of_app, list_elem_of_filter, list_elem_of_singleton, Hgate.
    intros [[Hne (i & Heq & Hi)%list_elem_of_fmap]|Heq].
    - apply (pg_inet_not_dotted (inst_PrivateIP i) (incr first)); [done|by apply Hl| |done].
      by rewrite <- Heq.
    - apply (pg_inet_not_dotted (dotted gw +:+ "/32") (incr first)); [done| | |done].
      + right. by exists gw.
      + by destruct (dotted gw). }
  unfold wrap_err. erewrite bind_Ok_run; [|
    erewrite bind_Ok_run; [reflexivity|]; by rewrite (db_query_run _ w)].
  cbn beta. rewrite Hfind; [done|]. intros i Hi.
  apply elem_of_order_desc, env_order_elem, elem_of_select in Hi as [_ [k Hk]]. by eapply Hinst.
Qed.

End networking.

(** ** The volumes of a launch *)

Section attach.
Context `{Env}.

(** What the launch makes of the row of a volume it attaches: the mount path of the
    request is not part of it. *)
Definition attached (v : Volume) (instanceID : uuid) (now : time) : Volume :=
  v <| vol_Status := VolumeStatusInUse |> <| vol_InstanceID := Some instanceID |>
    <| vol_UpdatedAt := now |>.

Definition is_attached (id : uuid) (v : Volume) (w : World) : Prop :=
  ∃ now, t_volumes w !! vol_ID v = Some (attached v id now).

Definition attachable (t : gmap uuid Volume) (id : uuid) (v : Volume) (w : World) : Prop :=
  t !! vol_ID v = Some v ∧ (t_volumes w !! vol_ID v = Some v ∨ is_attached id v w).

Lemma attach_loop `{!NoFaults} t id vols w r w' :
  is_Some (t_instances w !! id) →
  updateVolumesAfterLaunch vols id w = (r, w') →
  (∀ v, v ∈ vols → attachable t id v w) →
  ∀ v, attachable t id v w →
    attachable t id v w' ∧ (v ∈ vols ∨ is_attached id v w → is_attached id v w').
Proof.
  unfold updateVolumesAfterLaunch. revert w.
  induction vols as [|v0 vols IH]; intros w Hid Hrun Hall v Hv.
  { cbn in Hrun. unfold mret, M_ret in Hrun. simplify_eq. split; [done|]. by intros [?%elem_of_nil|?]. }
  cbn in Hrun. apply total_bind_inv in Hrun as ([] & w1 & Hstep & Hrun); [|apply _].
  apply (frame_run t_instances) in Hstep as Hi1; [|apply _].
  apply total_bind_inv in Hstep as (now & w0 & Hnow & Hstep); [|apply _].
  apply (frame_run t_volumes) in Hnow as Hw0; [|apply _].
  apply (frame_run t_instances) in Hnow as Hi0; [|apply _].
  assert (t_volumes w1 = <[vol_ID v0 := attached v0 id now]> (t_volumes w)) as Hw1.
  { destruct (Hall v0 (list_elem_of_here _ _)) as [_ Hrow].
    unfold ignore, attempt, mbind, M_bind, mret, M_ret in Hstep.
    set (v1 := v0 <| vol_Status := _ |> <| vol_InstanceID := _ |> <| vol_UpdatedAt := _ |>) in Hstep.
    assert (∃ row, t_volumes w0 !! vol_ID v1 = Some row ∧ vol_UserID row = vol_UserID v1 ∧
      row <| vol_Status := vol_Status v1 |> <| vol_InstanceID := vol_InstanceID v1 |>
          <| vol_MountPath := vol_MountPath v1 |> <| vol_UpdatedAt := vol_UpdatedAt v1 |>
      = attached v0 id now) as (row & Hr & Hu & Heq).
    { change (vol_ID v1) with (vol_ID v0). rewrite Hw0. destruct Hrow as [->|[now' ->]];
        (eexists; split; [done|]); split; try done; by destruct v0. }
    rewrite (volume_Update_run v1 row w0 Hr Hu) in Hstep.
    - injection Hstep as <-. cbn. by rewrite Hw0, <- Heq.
    - intros i [= <-]. by rewrite Hi0. }
  assert (∀ v', t !! vol_ID v' = Some v' → vol_ID v' = vol_ID v0 → v' = v0) as Huniq.
  { destruct (Hall v0 (list_elem_of_here _ _)) as [Ht0 _]. intros v' Ht' Heq. congruence. }
  assert (∀ v', t !! vol_ID v' = Some v' → is_attached id v' w ∨ v' = v0 → is_attached id v' w1) as Hdone.
  { intros v' Ht' Hv'. unfold is_attached. rewrite Hw1.
    destruct (decide (vol_ID v' = vol_ID v0)) as [Heq|Hne].
    - rewrite (Huniq v' Ht' Heq), lookup_insert_eq. eauto.
    - rewrite lookup_insert_ne by done. destruct Hv' as [?| ->]; done. }
  assert (∀ v', attachable t id v' w → attachable t id v' w1) as Hpres.
  { intros v' [Ht [Hv'|Hv']]; (split; [done|]); [|right; by apply Hdone; [|left]].
    destruct (decide (vol_ID v' = vol_ID v0)) as [Heq|Hne].
    - right. apply Hdone; [done|right]. by apply Huniq.
    - left. by rewrite Hw1, lookup_insert_ne. }
  edestruct (IH w1) as [IH1 IH2]; [by rewrite Hi1|done| |by apply Hpres|].
  { intros v' Hv'. apply Hpres, Hall. by right. }
  split; [done|]. intros [[->|Hin]%elem_of_cons|Hat]; apply IH2; [right|by left|right];
    apply Hdone; auto; apply Hv.
Qed.

(** A volume the launch may use. *)
Definition usable (ctx : Context) (t : gmap uuid Volume) (v : Volume) : Prop :=
  vol_Status v = VolumeStatusAvailable ∧ vol_UserID v = UserIDFromContext ctx ∧
  ∃ k, t !! k = Some v.

Lemma getVolume_row `{!OrderLaws} ctx s w v w' :
  getVolumeByIDOrName ctx s w = (Ok v, w') →
  t_volumes w' = t_volumes w ∧ vol_UserID v = UserIDFromContext ctx ∧
  (∃ k, t_volumes w !! k = Some v) ∧
  (∀ vid, uuid_parse s = Some vid → t_volumes w !! vid = Some v).
Proof.
  intros Hrun. apply (frame_run t_volumes) in Hrun as Hf; [|apply _].
  unfold getVolumeByIDOrName in Hrun. destruct (uuid_parse s) as [id|].
  - apply (db_query_row_pk_Ok t_volumes) in Hrun as (_ & Hk & Hu).
    unfold of_user in Hu. apply bool_decide_eq_true in Hu. naive_solver.
  - unfold volume_GetByName, db_query_row in Hrun. ok_step Hrun l w1.
    apply db_rows_Ok in Hrun0 as [-> Hl]. destruct l as [|v' l]; [done|].
    unfold mret, M_ret in Hrun. simplify_eq.
    assert (v ∈ v :: l) as Hv by left. rewrite Hl in Hv.
    apply env_order_elem, elem_of_select in Hv as [HP [k Hk]].
    apply andb_true_iff in HP as [_ HP]. unfold of_user in HP.
    apply bool_decide_eq_true in HP. naive_solver.
Qed.

Lemma resolveVolumes_spec `{!OrderLaws} ctx vas w binds vols w' :
  resolveVolumes ctx vas w = (Ok (binds, vols), w') →
  (∀ v, v ∈ vols → usable ctx (t_volumes w) v) ∧
  (∀ va vid, va ∈ vas → uuid_parse (va_VolumeIDOrName va) = Some vid →
     ∃ v, v ∈ vols ∧ t_volumes w !! vid = Some v).
Proof.
  unfold resolveVolumes.
  assert (∀ acc acc' w, foldM (λ (acc : list string * list Volume) va,
      vol ← wrap_err (Wrap NotFound ("volume " +:+ va_VolumeIDOrName va +:+ " not found"))
              (getVolumeByIDOrName ctx (va_VolumeIDOrName va));
      guard_err (negb (bool_decide (vol_Status vol = VolumeStatusAvailable)))
        (New InvalidInput ("volume " +:+ vol_Name vol +:+ " is not available")) ;;
      mret (acc.1 ++ [docker_volume_name (vol_ID vol) +:+ ":" +:+ va_MountPath va],
            acc.2 ++ [vol])) acc vas w = (Ok acc', w') →
    (∀ v, v ∈ acc.2 → v ∈ acc'.2) ∧ (∀ v, v ∈ acc'.2 → v ∈ acc.2 ∨ usable ctx (t_volumes w) v) ∧
    (∀ va vid, va ∈ vas → uuid_parse (va_VolumeIDOrName va) = Some vid →
       ∃ v, v ∈ acc'.2 ∧ t_volumes w !! vid = Some v)) as Haux.
  { induction vas as [|va vas IH]; intros acc acc' w0 Hrun; cbn in Hrun.
    { unfold mret, M_ret in Hrun. simplify_eq. split_and!; auto. by intros ?? ?%elem_of_nil. }
    ok_step Hrun acc1 w2. ok_step Hrun0 v w1. apply wrap_err_Ok in Hrun1.
    apply getVolume_row in Hrun1 as (Ht & Hu & Hk & Hid). ok_step Hrun0 u w3.
    case_bool_decide as Hst; cbn in Hrun1; [|done]. unfold mret, M_ret in Hrun0, Hrun1.
    injection Hrun1 as _ ->. injection Hrun0 as <- <-.
    apply IH in Hrun as (H1 & H2 & H3). rewrite Ht in H2, H3. cbn in *. split_and!.
    - intros v' Hv'. apply H1, elem_of_app. by left.
    - intros v' Hv'. destruct (H2 v' Hv') as [[?|Heq%list_elem_of_singleton]%elem_of_app|?]; [by left| |by right].
      right. subst. done.
    - intros va' vid [->|Hva']%elem_of_cons Hvid; [|by eapply H3].
      exists v. split; [|by apply Hid]. apply H1, elem_of_app. right. by left. }
  intros Hrun. apply Haux in Hrun as (_ & H2 & H3). split; [|done].
  intros v Hv. by destruct (H2 v Hv) as [?%elem_of_nil|?].
Qed.

Lemma launch_running_Ok ctx inst vols cid w i w' :
  launching inst w → launch_running ctx inst vols cid w = (Ok i, w') →
  ∃ w1, t_volumes w1 = t_volumes w ∧ is_Some (t_instances w1 !! inst_ID inst) ∧
    inst_ID i = inst_ID inst ∧ updateVolumesAfterLaunch vols (inst_ID inst) w1 = (Ok tt, w').
Proof.
  intros Hl Hrun. unfold launch_running in Hrun. ok_step Hrun u w1.
  apply ignore_inv in Hrun0 as [[_ [r0 Hp]]|(? & _ & ?)]; [|done].
  apply (frame_run t_instances) in Hp as Hi1; [|apply _].
  apply (frame_run t_volumes) in Hp as Hv1; [|apply _].
  ok_step Hrun i' w2.
  apply (frame_run t_volumes) in Hrun0 as Hv2; [|apply _].
  apply launch_update in Hrun0 as [(? & row & [= <-] & Hi2 & _ & _ & _ & Hid & _)|(? & ? & _)];
    [|done|by unfold launching; rewrite Hi1].
  apply ignore_bind_inv in Hrun as (r1 & w3 & Hev & Hrun); [|apply _].
  apply ignore_bind_inv in Hrun as (r2 & w4 & Hlog & Hrun); [|apply _].
  apply (frame_run t_instances) in Hev as Hi3; [|apply _].
  apply (frame_run t_volumes) in Hev as Hv3; [|apply _].
  apply (frame_run t_instances) in Hlog as Hi4; [|apply _].
  apply (frame_run t_volumes) in Hlog as Hv4; [|apply _].
  ok_step Hrun v w5. unfold mret, M_ret in Hrun. simplify_eq. exists w4. rewrite Hid in Hrun0.
  destruct v. split_and!; [congruence| |done|done].
  rewrite Hi4, Hi3, Hi2, lookup_insert_eq. eauto.
Qed.

(** C6: When no statement fails, a launch that succeeds has attached every volume the request names by
    identifier: the volume was available and the caller's, and its row is now IN-USE by the
    instance. The mount path of the request is not recorded in it. *)
Theorem LaunchInstance_attaches_volumes `{!OrderLaws, !NoFaults}
    ctx name image ports vpcID subnetID vas w i w' :
  keyed vol_ID (t_volumes w) →
  LaunchInstance ctx name image ports vpcID subnetID vas w = (Ok i, w') →
  ∀ va vid, va ∈ vas → uuid_parse (va_VolumeIDOrName va) = Some vid →
  ∃ v now, t_volumes w !! vid = Some v ∧ vol_Status v = VolumeStatusAvailable ∧
    vol_UserID v = UserIDFromContext ctx ∧ t_volumes w' !! vid = Some (attached v (inst_ID i) now) ∧
    vol_MountPath (attached v (inst_ID i) now) = vol_MountPath v.
Proof.
  intros Hkey [(_ & _ & e & ?)|(ps & inst & row & w0 & _ & _ & _ & _ & Hv0 & _ & Hl & Hrun)]
    %launch_decompose va vid Hva Hvid; [done|].
  unfold launch_resources in Hrun. ok_step Hrun x w1. destruct x as [[net ip] port].
  apply (frame_run t_volumes) in Hrun0 as Hv1; [|apply _].
  apply (frame_run t_instances) in Hrun0 as Hi1; [|apply _].
  ok_step Hrun y w2. destruct y as [binds vols].
  apply (frame_run t_volumes) in Hrun1 as Hv2; [|apply _].
  apply (frame_run t_instances) in Hrun1 as Hi2; [|apply _].
  apply resolveVolumes_spec in Hrun1 as [Hus Hin]. rewrite Hv1, Hv0 in Hus, Hin.
  destruct (Hin va vid Hva Hvid) as (v & Hvv & Hrow).
  destruct (Hus v Hvv) as (Hst & Hu & _). pose proof (Hkey _ _ Hrow) as Hvkey.
  set (i0 := inst <| inst_PrivateIP := ip |> <| inst_OvsPort := port |>) in *.
  unfold launch_container in Hrun. ok_step Hrun a w3.
  apply (frame_run t_volumes) in Hrun1 as Hv3; [|apply _].
  apply (frame_run t_instances) in Hrun1 as Hi3; [|apply _].
  destruct a as [err|cid]; [by apply launch_failed_Err in Hrun as [? ?]|].
  apply launch_running_Ok in Hrun as (w4 & Hv4 & Hi4 & Hid & Hup);
    [|unfold launching; by rewrite Hi3, Hi2, Hi1].
  change (inst_ID i0) with (inst_ID inst) in *. rewrite Hid.
  assert (t_volumes w4 = t_volumes w) as Hv4' by congruence.
  assert (∀ v, v ∈ vols → attachable (t_volumes w) (inst_ID inst) v w4) as Hall.
  { intros v' Hv'. destruct (Hus v' Hv') as (_ & _ & k & Hk). unfold attachable.
    rewrite Hv4', (Hkey _ _ Hk). auto. }
  eapply attach_loop in Hup as [_ Hat]; [|done|done|by apply Hall].
  destruct Hat as [now Hat]; [by left|]. rewrite Hvkey in Hat.
  exists v, now. by split_and!.
Qed.

End attach.
