(* ===== verification/NetworkProofs.v ===== *)
(** * What [services/volume.go], [vpc.go] and [subnet.go] guarantee *)
From S2P Require Import Prelude GoStd Net Errors Domain DomainData World Logic Sql InstanceRepo NetworkRepo.
From S2P Require Import InstanceService VolumeService NetworkService.

Section network_proofs.
Context `{Env}.

(** The calls of a sequence whose other parts call no backend. *)
Lemma perform_run c w r w' :
  perform c w = (r, w') → w' = w <| w_calls ::= cons c |> ∧
  match r with
  | Ok a => env_respond (w_calls w) c = inr a
  | Err e => env_respond (w_calls w) c = inl e
  | Panic _ => False
  end.
Proof. unfold perform. destruct (env_respond _ _) eqn:Hr; intros [= <- <-]; by rewrite ?Hr. Qed.

(** ** Volumes *)

(** Creating a volume leaves no backend volume behind without its row: on success there is one
    new row, AVAILABLE and unattached, and one call that created the backend volume; on
    failure no row changed and either the backend refused or its volume was removed
    again.  Whatever fails. *)
Theorem CreateVolume_compensates ctx name sizeGB w r w' :
  CreateVolume ctx name sizeGB w = (r, w') →
  match r with
  | Ok v =>
      t_volumes w !! vol_ID v = None ∧ t_volumes w' = <[vol_ID v := v]> (t_volumes w) ∧
      vol_Status v = VolumeStatusAvailable ∧ vol_InstanceID v = None ∧
      vol_UserID v = UserIDFromContext ctx ∧
      w_calls w' = World.CreateVolume (docker_volume_name (vol_ID v)) :: w_calls w
  | Err _ =>
      t_volumes w' = t_volumes w ∧
      ∃ name, w_calls w' = World.DeleteVolume name :: World.CreateVolume name :: w_calls w ∨
              w_calls w' = World.CreateVolume name :: w_calls w ∧
              ∃ e, env_respond (w_calls w) (World.CreateVolume name) = inl e
  | Panic _ => False
  end.
Proof.
  intros Hrun. destruct r as [v|e|p]; [..|destruct (no_panic_run _ _ _ _ Hrun)];
    unfold CreateVolume in Hrun;
    apply total_bind_inv in Hrun as (id & w1 & Hid & Hrun); try apply _;
    apply total_bind_inv in Hrun as (created & w2 & Hc & Hrun); try apply _;
    apply total_bind_inv in Hrun as (updated & w3 & Hu & Hrun); try apply _;
    (assert (t_volumes w3 = t_volumes w ∧ w_calls w3 = w_calls w) as [Hv3 Hc3] by
      (unfold uuid_New, Now, next_tick, mbind, M_bind, mret, M_ret in *; by simplify_eq));
    clear Hid Hc Hu; cbn zeta in Hrun; set (vol := MkVolume _ _ _ _ _ _ _ _ _) in Hrun.
  - ok_step Hrun u w4. apply wrap_err_Ok, perform_run in Hrun0 as [-> _].
    ok_step Hrun ra w5. unfold attempt in Hrun0.
    destruct (volume_Create vol _) as [r5 w5'] eqn:Hcr.
    apply db_exec_outcome in Hcr as [(a & -> & Hst)|(e & -> & ->)]; injection Hrun0 as <- <-.
    2:{ apply ignore_bind_inv in Hrun as (? & ? & _ & ?); [|apply _]. unfold fail in *. by simplify_eq. }
    unfold sql_insert in Hst. cbn in Hst. rewrite Hv3 in Hst.
    destruct (t_volumes w !! id) eqn:Hl; [done|]. destruct (_ && _); [|done].
    injection Hst as _ <-.
    apply ignore_bind_inv in Hrun as (r1 & w6 & Hev & Hrun); [|apply _].
    apply ignore_bind_inv in Hrun as (r2 & w7 & Hlog & Hrun); [|apply _].
    unfold mret, M_ret in Hrun. injection Hrun as <- <-.
    apply (frame_run t_volumes) in Hev as Ha1, Hlog as Ha2; [|apply _..].
    apply (frame_run w_calls) in Hev as Hb1, Hlog as Hb2; [|apply _..].
    rewrite Ha2, Ha1, Hb2, Hb1. cbn. by rewrite Hv3, Hc3.
  - run_step Hrun u w4.
    + apply wrap_err_Ok, perform_run in Hrun0 as [-> _].
      apply total_bind_inv in Hrun as (ra & w5 & Hcr & Hrun); [|apply _].
      unfold attempt in Hcr. destruct (volume_Create vol _) as [r5 w5'] eqn:Hst.
      apply db_exec_outcome in Hst as [(a & -> & Hst)|(e' & -> & ->)]; injection Hcr as <- <-.
      { apply ignore_bind_inv in Hrun as (r1 & w6 & Hev & Hrun); [|apply _].
        apply ignore_bind_inv in Hrun as (r2 & w7 & Hlog & Hrun); [|apply _]. done. }
      apply ignore_bind_inv in Hrun as (r1 & w6 & Hp & Hrun); [|apply _].
      apply perform_run in Hp as [-> _]. unfold fail in Hrun. injection Hrun as _ <-. cbn.
      rewrite Hv3, Hc3. eauto.
    + unfold wrap_err in Hrun0. destruct (perform _ _) as [r4 w4'] eqn:Hp.
      apply perform_run in Hp as [-> Hresp]. destruct r4; [done| |done].
      injection Hrun0 as _ <-. cbn. rewrite Hv3, Hc3. rewrite Hc3 in Hresp. split; [done|]. eauto 10.
Qed.

(** An attached volume is never deleted: the row of a volume in use is as it was after any
    deletion request, for this volume or another, whatever fails. *)
Theorem DeleteVolume_keeps_attached `{!OrderLaws} ctx s w r w' k v :
  keyed vol_ID (t_volumes w) → DeleteVolume ctx s w = (r, w') →
  t_volumes w !! k = Some v → vol_Status v = VolumeStatusInUse → t_volumes w' !! k = Some v.
Proof.
  intros Hkey Hrun Hk Hst. unfold DeleteVolume in Hrun.
  run_step Hrun i w1; apply (frame_run t_volumes) in Hrun0 as Hf; try apply _; try congruence.
  assert (t_volumes w !! vol_ID i = Some i) as Hi.
  { unfold GetVolume in Hrun0. destruct (uuid_parse s) as [id|].
    - apply (db_query_row_pk_Ok t_volumes) in Hrun0 as (_ & Hi & _). by rewrite (Hkey _ _ Hi).
    - unfold volume_GetByName, db_query_row in Hrun0. ok_step Hrun0 l w2.
      apply db_rows_Ok in Hrun1 as [-> Hl]. destruct l as [|v' l]; [done|].
      unfold mret, M_ret in Hrun0. simplify_eq.
      assert (i ∈ i :: l) as Hv by left. rewrite Hl in Hv.
      by apply env_order_elem, (elem_of_select_key vol_ID) in Hv as [_ ?]. }
  case_bool_decide as Hin; [unfold guard_err, fail, mbind, M_bind in Hrun; injection Hrun as _ <-; congruence|].
  cbn [guard_err] in Hrun. rewrite mret_bind in Hrun.
  apply ignore_bind_inv in Hrun as (r1 & w2 & Hp & Hrun); [|apply _].
  apply (frame_run t_volumes) in Hp as Hf2; [|apply _].
  assert (∀ r0 w3, volume_Delete ctx (vol_ID i) w2 = (r0, w3) → t_volumes w3 !! k = Some v) as Hdel.
  { intros r0 w3 Hd. apply volume_Delete_outcome in Hd as [(row & _ & Hrow & _ & ->)|(e' & _ & ->)];
      cbn; rewrite Hf2, Hf; [|done].
    rewrite lookup_delete_ne; [done|]. intros Heq. rewrite Heq in Hi. congruence. }
  run_step Hrun u w3; try (by eapply Hdel).
  apply (frame_run t_volumes) in Hrun as Hf3; [|apply _]. rewrite Hf3. by eapply Hdel.
Qed.

(** ** VPCs *)

Lemma vpc_Create_outcome vpc w r w' :
  vpc_Create vpc w = (r, w') →
  (∃ cidr, r = Ok tt ∧ to_cidr (vpc_CIDRBlock vpc) = Some cidr ∧ t_vpcs w !! vpc_ID vpc = None ∧
     (∀ k o, t_vpcs w !! k = Some o → vpc_Name o ≠ vpc_Name vpc) ∧
     w' = w <| w_tick ::= S |> <| t_vpcs ::= <[vpc_ID vpc := vpc <| vpc_CIDRBlock := cidr |>]> |>) ∨
  (∃ e, r = Err e ∧ w' = w <| w_tick ::= S |>).
Proof.
  unfold vpc_Create, wrap_err. destruct (db_exec _ _) as [r0 w0] eqn:Hex.
  apply db_exec_outcome in Hex as [(a & -> & Hst)|(e & -> & ->)]; intros [= <- <-]; [|eauto].
  unfold vpc_insert in Hst. destruct (to_cidr _) as [cidr|]; [|done]. cbn in Hst.
  unfold sql_insert in Hst. cbn in Hst.
  destruct (t_vpcs w !! vpc_ID vpc) eqn:Hl; [done|].
  destruct (_ && _) eqn:Hok; [|done]. injection Hst as <- <-. left. exists cidr.
  split_and!; [done..| |done]. intros k o Ho. apply andb_true_iff in Hok as [_ Hok].
  rewrite no_row_true in Hok. specialize (Hok k o Ho). by apply bool_decide_eq_false in Hok.
Qed.

(** Creating a VPC and its bridge is all or nothing up to the answer of the switch: on
    success there is one new row, under the name of the bridge that was created, with a
    name no other VPC of any user has; on failure no row changed and either the switch
    refused the bridge or the bridge was removed again (if the switch lets it). *)
Theorem CreateVPC_compensates defaultCIDR ctx name cidr w r w' :
  CreateVPC defaultCIDR ctx name cidr w = (r, w') →
  match r with
  | Ok v =>
      t_vpcs w !! vpc_ID v = None ∧ dom (t_vpcs w') = {[vpc_ID v]} ∪ dom (t_vpcs w) ∧
      (∀ k o, t_vpcs w !! k = Some o → t_vpcs w' !! k = Some o ∧ vpc_Name o ≠ name) ∧
      vpc_UserID v = UserIDFromContext ctx ∧
      w_calls w' = CreateBridge (vpc_NetworkID v) (vpc_VXLANID v) :: w_calls w
  | Err _ =>
      t_vpcs w' = t_vpcs w ∧
      ∃ br id, w_calls w' = DeleteBridge br :: CreateBridge br id :: w_calls w ∨
               w_calls w' = CreateBridge br id :: w_calls w ∧
               ∃ e, env_respond (w_calls w) (CreateBridge br id) = inl e
  | Panic _ => False
  end.
Proof.
  intros Hrun. destruct r as [v|e|p]; [..|destruct (no_panic_run _ _ _ _ Hrun)];
    unfold CreateVPC in Hrun; cbn zeta in Hrun; set (c := if bool_decide (cidr = "") then _ else _) in Hrun;
    apply total_bind_inv in Hrun as (id & w1 & Hid & Hrun); try apply _;
    (assert (t_vpcs w1 = t_vpcs w ∧ w_calls w1 = w_calls w) as [Hv1 Hc1] by
      (unfold uuid_New, next_tick, mbind, M_bind, mret, M_ret in *; by simplify_eq)); clear Hid.
  - ok_step Hrun u w2. apply wrap_err_Ok, perform_run in Hrun0 as [-> _].
    apply total_bind_inv in Hrun as (created & w3 & Hnow & Hrun); [|apply _].
    apply (frame_run t_vpcs) in Hnow as Hv3; [|apply _].
    apply (frame_run w_calls) in Hnow as Hc3; [|apply _]. cbn in Hv3, Hc3.
    set (vpc := MkVPC _ _ _ _ _ _ _ _ _) in Hrun.
    ok_step Hrun ra w5. unfold attempt in Hrun0. destruct (vpc_Create vpc w3) as [r5 w5'] eqn:Hcr.
    apply vpc_Create_outcome in Hcr as [(cd & -> & _ & Hfresh & Huniq & Hw5)|(e & -> & Hw5)];
      injection Hrun0 as <- <-.
    2:{ apply ignore_bind_inv in Hrun as (? & ? & _ & ?); [|apply _]. unfold fail in *. by simplify_eq. }
    apply ignore_bind_inv in Hrun as (r1 & w6 & Hlog & Hrun); [|apply _].
    unfold mret, M_ret in Hrun. injection Hrun as <- <-.
    apply (frame_run t_vpcs) in Hlog as Ha; [|apply _].
    apply (frame_run w_calls) in Hlog as Hb; [|apply _].
    rewrite Ha, Hb, Hw5. cbn. rewrite Hv3, Hv1 in *. rewrite Hc3, Hc1. split_and!; [done| | |done|done].
    + by rewrite dom_insert_L.
    + intros k o Ho. split; [|by eapply Huniq]. rewrite lookup_insert_ne; [done|].
      intros Heq. cbn in Hfresh. congruence.
  - run_step Hrun u w2.
    + apply wrap_err_Ok, perform_run in Hrun0 as [-> _].
      apply total_bind_inv in Hrun as (created & w3 & Hnow & Hrun); [|apply _].
      apply (frame_run t_vpcs) in Hnow as Hv3; [|apply _].
      apply (frame_run w_calls) in Hnow as Hc3; [|apply _]. cbn in Hv3, Hc3.
      set (vpc := MkVPC _ _ _ _ _ _ _ _ _) in Hrun.
      apply total_bind_inv in Hrun as (ra & w5 & Hcr & Hrun); [|apply _].
      unfold attempt in Hcr. destruct (vpc_Create vpc w3) as [r5 w5'] eqn:Hst.
      apply vpc_Create_outcome in Hst as [(cd & -> & _)|(e' & -> & Hw5)]; injection Hcr as <- <-.
      { by apply ignore_bind_inv in Hrun as (r1 & w6 & Hev & Hrun); [|apply _]. }
      apply ignore_bind_inv in Hrun as (r1 & w6 & Hp & Hrun); [|apply _].
      apply perform_run in Hp as [-> _]. unfold fail in Hrun. injection Hrun as _ <-.
      rewrite Hw5. cbn. rewrite Hv3, Hv1, Hc3, Hc1. eauto.
    + unfold wrap_err in Hrun0. destruct (perform _ _) as [r4 w4'] eqn:Hp.
      apply perform_run in Hp as [-> Hresp]. destruct r4; [done| |done].
      injection Hrun0 as _ <-. cbn. rewrite Hv1, Hc1. rewrite Hc1 in Hresp. split; [done|]. eauto 10.
Qed.

(** Deleting a VPC that instances still refer to destroys its bridge and then fails: the
    row stays, naming a bridge that is gone. *)
Theorem DeleteVPC_in_use_loses_bridge `{!OrderLaws, !NoFaults} ctx s id vpc k inst w :
  uuid_parse s = Some id → t_vpcs w !! id = Some vpc → vpc_ID vpc = id →
  vpc_UserID vpc = UserIDFromContext ctx →
  t_instances w !! k = Some inst → inst_VpcID inst = Some id →
  env_respond (w_calls w) (DeleteBridge (vpc_NetworkID vpc)) = inr tt →
  ∃ e w', DeleteVPC ctx s w = (Err e, w') ∧ t_vpcs w' = t_vpcs w ∧
    w_calls w' = DeleteBridge (vpc_NetworkID vpc) :: w_calls w.
Proof.
  intros Hs Hv Hid Hu Hk Hi Hresp. unfold DeleteVPC, GetVPC. rewrite Hs.
  assert (vpc_GetByID ctx id w = (Ok vpc, w <| w_tick ::= S |>)) as Hget.
  { unfold vpc_GetByID, wrap_err. rewrite (db_query_row_pk t_vpcs id _ w (no_faults _)), Hv.
    unfold of_user. by rewrite bool_decide_true. }
  rewrite (bind_Ok_run _ _ _ _ _ Hget). unfold mbind, M_bind, wrap_err, perform. cbn.
  rewrite Hresp. cbn. unfold vpc_Delete, mbind, M_bind, wrap_err, db_exec. cbn. rewrite no_faults.
  unfold sql_delete. cbn. rewrite Hid, Hv. unfold of_user. rewrite bool_decide_true by done.
  assert (∀ w1, t_instances w1 = t_instances w → vpc_unreferenced id w1 = false) as Hun;
    [|rewrite Hun by done; eexists _, _; by split_and!].
  intros w1 Hw1. unfold vpc_unreferenced. rewrite Hw1.
  rewrite (no_row_false _ (t_instances w) k inst Hk); [done|]. by apply bool_decide_eq_true.
Qed.

(** ** Subnets *)

(** A subnet that is created belongs to an existing VPC of the caller, its address lies in the
    VPC's network, its gateway is the address after the one in the request, and no other
    row of [subnets] changed; a failure changes none. *)
Theorem CreateSubnet_effect `{!OrderLaws} ctx vpcID name cidr az w r w' :
  CreateSubnet ctx vpcID name cidr az w = (r, w') →
  match r with
  | Ok s =>
      ∃ vpc a vnet ip snet, t_vpcs w !! vpcID = Some vpc ∧ vpc_UserID vpc = UserIDFromContext ctx ∧
        ParseCIDR (vpc_CIDRBlock vpc) = Some (a, vnet) ∧ ParseCIDR cidr = Some (ip, snet) ∧
        Contains vnet ip = true ∧ sn_GatewayIP s = IP_String (incr ip) ∧ sn_VPCID s = vpcID ∧
        t_subnets w !! sn_ID s = None ∧
        ∃ row, t_subnets w' = <[sn_ID s := row]> (t_subnets w) ∧ sn_VPCID row = vpcID ∧
          sn_UserID row = UserIDFromContext ctx
  | Err _ => t_subnets w' = t_subnets w
  | Panic _ => False
  end.
Proof.
  intros Hrun. destruct r as [s|e|p]; [| |destruct (no_panic_run _ _ _ _ Hrun)]; unfold CreateSubnet in Hrun.
  - ok_step Hrun vpc w1. apply wrap_err_Ok, (db_query_row_pk_Ok t_vpcs) in Hrun0 as (-> & Hv & Hu).
    unfold of_user in Hu. apply bool_decide_eq_true in Hu.
    ok_step Hrun x w2. destruct (ParseCIDR (vpc_CIDRBlock vpc)) as [[a vnet]|] eqn:Hp1; [|done].
    injection Hrun0 as <- <-.
    ok_step Hrun y w3. destruct (ParseCIDR cidr) as [[ip snet]|] eqn:Hp2; [|done].
    injection Hrun0 as <- <-.
    ok_step Hrun u w4. destruct (Contains vnet ip) eqn:Hin; [|done]. injection Hrun0 as <- <-.
    apply total_bind_inv in Hrun as (id & w5 & Hid & Hrun); [|apply _].
    apply total_bind_inv in Hrun as (now & w6 & Hnow & Hrun); [|apply _].
    apply (frame_run t_subnets) in Hid as Hf1; [|apply _].
    apply (frame_run t_subnets) in Hnow as Hf2; [|apply _].
    cbn zeta in Hrun. set (sn := MkSubnet _ _ _ _ _ _ _ _ _ _) in Hrun.
    ok_step Hrun u w7. apply wrap_err_Ok, db_exec_Ok in Hrun0.
    unfold subnet_insert in Hrun0. destruct (cidr_text _) as [cd|]; [|done]. cbn in Hrun0.
    destruct (to_inet _) as [gw|]; [|done]. cbn in Hrun0. unfold sql_insert in Hrun0. cbn in Hrun0.
    rewrite Hf2, Hf1 in Hrun0. cbn in Hrun0.
    destruct (t_subnets w !! id) eqn:Hl; [done|]. destruct (_ && _); [|done]. injection Hrun0 as _ Hw7.
    apply ignore_bind_inv in Hrun as (r1 & w8 & Hlog & Hrun); [|apply _].
    apply (frame_run t_subnets) in Hlog as Hf3; [|apply _].
    unfold mret, M_ret in Hrun. injection Hrun as <- <-.
    exists vpc, a, vnet, ip, snet. split_and!; try done.
    eexists. rewrite Hf3, <- Hw7. cbn. rewrite Hf2, Hf1. by split_and!.
  - run_step Hrun vpc w1; [|revert Hrun0; apply frame_run; apply _].
    apply (frame_run t_subnets) in Hrun0 as Hf; [|apply _].
    run_step Hrun x w2; [|apply (frame_run t_subnets) in Hrun1; [congruence|apply _]].
    apply (frame_run t_subnets) in Hrun1 as Hf1; [|apply _]. destruct x as [a vnet].
    run_step Hrun y w3; [|apply (frame_run t_subnets) in Hrun2; [congruence|apply _]].
    apply (frame_run t_subnets) in Hrun2 as Hf2; [|apply _]. destruct y as [ip snet].
    run_step Hrun u w4; [|apply (frame_run t_subnets) in Hrun3; [congruence|apply _]].
    apply (frame_run t_subnets) in Hrun3 as Hf3; [|apply _].
    apply total_bind_inv in Hrun as (id & w5 & Hid & Hrun); [|apply _].
    apply total_bind_inv in Hrun as (now & w6 & Hnow & Hrun); [|apply _].
    apply (frame_run t_subnets) in Hid as Hf4; [|apply _].
    apply (frame_run t_subnets) in Hnow as Hf5; [|apply _].
    run_step Hrun v w7.
    { apply ignore_bind_inv in Hrun as (r1 & w8 & Hlog & Hrun); [|apply _]. done. }
    unfold subnet_Create, wrap_err in Hrun4. destruct (db_exec _ _) as [r9 w9] eqn:Hex.
    apply db_exec_outcome in Hex as [(z & -> & _)|(e' & -> & ->)]; [done|].
    injection Hrun4 as _ <-. cbn. congruence.
Qed.

End network_proofs.
