(* ===== verification/LBProofs.v ===== *)
(** * What [services/loadbalancer.go] and [lb_worker.go] guarantee *)
From S2P Require Import Prelude GoStd Net Errors Domain DomainData World Logic Sql InstanceRepo NetworkRepo.
From S2P Require Import LBRepo LBService.

Section lb_proofs.
Context `{Env}.

(** ** Outcomes of the repository *)

Lemma lb_Create_outcome lb w r w' :
  lb_Create lb w = (r, w') →
  (r = Ok tt ∧ t_lbs w !! lb_ID lb = None ∧
   (∀ k o, t_lbs w !! k = Some o → lb_IdempotencyKey o ≠ lb_IdempotencyKey lb) ∧
   w' = w <| w_tick ::= S |> <| t_lbs ::= <[lb_ID lb := lb]> |>) ∨
  (∃ e, r = Err e ∧ w' = w <| w_tick ::= S |>).
Proof.
  unfold lb_Create, wrap_err. destruct (db_exec _ _) as [r0 w0] eqn:Hex.
  apply db_exec_outcome in Hex as [(a & -> & Hst)|(e & -> & ->)]; intros [= <- <-]; [|eauto].
  unfold sql_insert in Hst. cbn in Hst. destruct (t_lbs w !! lb_ID lb) eqn:Hl; [done|].
  destruct (_ && _) eqn:Hok; [|done]. injection Hst as <- <-. left. split_and!; [done..| |done].
  intros k o Ho. apply andb_true_iff in Hok as [_ Hok]. rewrite no_row_true in Hok.
  specialize (Hok k o Ho). by apply bool_decide_eq_false in Hok.
Qed.

(** An update rewrites the row of the same version and owner, or changes no table. *)
Lemma lb_Update_outcome lb w r w' :
  lb_Update lb w = (r, w') →
  (∃ row, r = Ok (lb <| lb_Version ::= (λ v, int_add v 1) |>) ∧ t_lbs w !! lb_ID lb = Some row ∧
     lb_Version row = lb_Version lb ∧ lb_UserID row = lb_UserID lb ∧
     w' = w <| w_tick ::= S |> <| t_lbs ::= <[lb_ID lb :=
            row <| lb_Name := lb_Name lb |> <| lb_Port := lb_Port lb |>
                <| lb_Algorithm := lb_Algorithm lb |> <| lb_Status := lb_Status lb |>
                <| lb_Version ::= (λ v, v + 1) |>]> |>) ∨
  (∃ e, r = Err e ∧ w' = w <| w_tick ::= S |>).
Proof.
  unfold lb_Update, wrap_err, db_exec, mbind, M_bind. intros Hrun.
  destruct (env_fault _); [right; simplify_eq; eauto|].
  unfold sql_update in Hrun. cbn in Hrun.
  destruct (t_lbs w !! lb_ID lb) as [row|] eqn:Hl; [destruct (_ && _) eqn:Hc|];
    [|cbn in Hrun; unfold fail in Hrun; simplify_eq; right; eauto..].
  apply andb_true_iff in Hc as [Hv Hu]. unfold of_user in Hu. apply bool_decide_eq_true in Hv, Hu.
  destruct (int4 _ && _); cbn in Hrun; unfold mret, M_ret in Hrun; simplify_eq; [left|right; eauto].
  exists row. by split_and!.
Qed.

(** ** Creation *)

Definition lb_keys_unique (w : World) : Prop :=
  ∀ k1 k2 a b, t_lbs w !! k1 = Some a → t_lbs w !! k2 = Some b →
    lb_IdempotencyKey a = lb_IdempotencyKey b → k1 = k2.

Lemma by_key_run `{!OrderLaws, !NoFaults} ctx k id lb w :
  k ≠ "" → t_lbs w !! id = Some lb → lb_IdempotencyKey lb = k → lb_UserID lb = UserIDFromContext ctx →
  (∀ k' o, t_lbs w !! k' = Some o → lb_IdempotencyKey o = k → o = lb) →
  lb_GetByIdempotencyKey ctx k w = (Ok lb, w <| w_tick ::= S |>).
Proof.
  intros Hk Hid Hkey Hu Huniq. unfold lb_GetByIdempotencyKey. rewrite bool_decide_false by done.
  cbn [guard_err]. rewrite mret_bind. unfold wrap_err.
  erewrite (db_query_row_unique t_lbs); [done|apply no_faults|exact Hid| |].
  - unfold of_user. by rewrite !bool_decide_true.
  - intros k' o Ho [HP _]%andb_true_iff. apply bool_decide_eq_true in HP. by eapply Huniq.
Qed.

(** C38: When no statement fails, creation is idempotent under a key: after it succeeded, the same
    user's requests with the key return the same load balancer, whatever else they ask for, and
    change no table. *)
Theorem LB_Create_idempotent `{!OrderLaws, !NoFaults}
    ctx name vpcID port algo key w lb w1 name' vpcID' port' algo' :
  lb_keys_unique w → key ≠ "" →
  LB_Create ctx name vpcID port algo key w = (Ok lb, w1) →
  LB_Create ctx name' vpcID' port' algo' key w1 = (Ok lb, w1 <| w_tick ::= S |>).
Proof.
  intros Huniq Hkey Hrun.
  assert (∃ id, t_lbs w1 !! id = Some lb ∧ lb_IdempotencyKey lb = key ∧
    lb_UserID lb = UserIDFromContext ctx ∧
    ∀ k' o, t_lbs w1 !! k' = Some o → lb_IdempotencyKey o = key → o = lb) as (id & Hid & Hk & Hu & Hone).
  { unfold LB_Create in Hrun. rewrite (bool_decide_false (key = "")) in Hrun by done.
    ok_step Hrun eo w2. ok_step Hrun0 a w3. unfold mret, M_ret in Hrun0. injection Hrun0 as <- <-.
    apply attempt_inv in Hrun1 as [(lb' & Hget & Ha)|[(e & Hget & Ha)|(? & _ & ?)]]; [..|done];
      injection Ha as ->; apply (frame_run t_lbs) in Hget as Hf; try apply _.
    - unfold mret, M_ret in Hrun. injection Hrun as -> <-. rewrite Hf.
      unfold lb_GetByIdempotencyKey in Hget. rewrite bool_decide_false in Hget by done.
      cbn [guard_err] in Hget. rewrite mret_bind in Hget. apply wrap_err_Ok in Hget.
      apply (db_query_row_Ok t_lbs) in Hget as (_ & HP & id & Hid).
      apply andb_true_iff in HP as [HP1 HP2]. unfold of_user in HP2.
      apply bool_decide_eq_true in HP1, HP2. exists id. split_and!; [done..|].
      intros k' o Ho Hok. rewrite ?Hf in Ho. assert (k' = id) as -> by (eapply Huniq; [done..|congruence]). congruence.
    - ok_step Hrun v w4. apply (frame_run t_lbs) in Hrun0 as Hf1; [|apply _].
      apply total_bind_inv in Hrun as (id & w5 & Hid & Hrun); [|apply _].
      apply total_bind_inv in Hrun as (now & w6 & Hnow & Hrun); [|apply _].
      apply (frame_run t_lbs) in Hid as Hf2; [|apply _].
      apply (frame_run t_lbs) in Hnow as Hf3; [|apply _].
      cbn zeta in Hrun. set (lb0 := MkLoadBalancer _ _ _ _ _ _ _ _ _ _) in Hrun.
      ok_step Hrun u w7. apply lb_Create_outcome in Hrun1 as [(_ & Hfresh & Hno & Hw7)|(? & ? & _)]; [|done].
      apply ignore_bind_inv in Hrun as (r1 & w8 & Hlog & Hrun); [|apply _].
      apply (frame_run t_lbs) in Hlog as Hf4; [|apply _].
      unfold mret, M_ret in Hrun. injection Hrun as <- <-.
      exists id. rewrite Hf4, Hw7. cbn. rewrite lookup_insert_eq. split_and!; [done..|].
      intros k' o [[<- <-]|[_ Ho]]%lookup_insert_Some Hok; [done|]. by destruct (Hno k' o Ho). }
  unfold LB_Create. rewrite (bool_decide_false (key = "")) by done.
  erewrite (bind_Ok_run _ _ _ (Some lb)); [reflexivity|].
  erewrite (bind_Ok_run _ _ _ (inr lb)); [reflexivity|].
  apply attempt_Ok_run. by eapply by_key_run.
Qed.

(** Once a load balancer without an idempotency key exists, of any user, no other load
    balancer can be created without one. *)
Theorem LB_Create_second_keyless_fails ctx name vpcID port algo w r w' id lb :
  t_lbs w !! id = Some lb → lb_IdempotencyKey lb = "" →
  LB_Create ctx name vpcID port algo "" w = (r, w') →
  (∃ e, r = Err e) ∧ t_lbs w' = t_lbs w.
Proof.
  intros Hid Hk Hrun. unfold LB_Create in Hrun. rewrite (bool_decide_true ("" = "")) in Hrun by done.
  rewrite mret_bind in Hrun.
  run_step Hrun v w1; apply (frame_run t_lbs) in Hrun0 as Hf; try apply _;
    [|by eauto|destruct (no_panic_run (wrap_err _ (vpc_GetByID ctx vpcID)) _ _ _ Hrun0)].
  apply total_bind_inv in Hrun as (i & w2 & Hi & Hrun); [|apply _].
  apply total_bind_inv in Hrun as (now & w3 & Hnow & Hrun); [|apply _].
  apply (frame_run t_lbs) in Hi as Hf1; [|apply _].
  apply (frame_run t_lbs) in Hnow as Hf2; [|apply _]. cbn zeta in Hrun.
  run_step Hrun u w4; apply lb_Create_outcome in Hrun1 as [(Hr & _ & Hno & _)|(e' & Hr & Hw)]; try done.
  - rewrite Hf2, Hf1, Hf in Hno. by destruct (Hno id lb Hid).
  - rewrite Hw. cbn. split; [eauto|congruence].
Qed.

(** ** Targets *)

(** Every target is an instance in the VPC of its load balancer. *)
Definition target_ok (lbs : gmap uuid LoadBalancer) (insts : gmap uuid Instance) (t : LBTarget) : Prop :=
  ∃ lb inst, lbs !! tgt_LBID t = Some lb ∧ insts !! tgt_InstanceID t = Some inst ∧
    inst_VpcID inst = Some (lb_VpcID lb).

Lemma lb_GetByID_row `{!OrderLaws} ctx id w lb w' :
  lb_GetByID ctx id w = (Ok lb, w') →
  w' = w <| w_tick ::= S |> ∧ t_lbs w !! id = Some lb ∧ lb_UserID lb = UserIDFromContext ctx.
Proof.
  intros Hrun. apply wrap_err_Ok, (db_query_row_pk_Ok t_lbs) in Hrun as (-> & Hi & Hu).
  unfold of_user in Hu. apply bool_decide_eq_true in Hu. done.
Qed.

(** A target is added only by the owner of both the load balancer and the instance, only when
    they are in the same VPC, with a weight that is not zero; every failure leaves the
    targets as they were. *)
Theorem AddTarget_effect `{!OrderLaws} ctx lbID instanceID port weight w r w' :
  AddTarget ctx lbID instanceID port weight w = (r, w') →
  match r with
  | Ok _ =>
      ∃ k t lb inst, t_lb_targets w !! k = None ∧ t_lb_targets w' = <[k := t]> (t_lb_targets w) ∧
        t_lbs w !! lbID = Some lb ∧ lb_UserID lb = UserIDFromContext ctx ∧
        t_instances w !! instanceID = Some inst ∧ inst_UserID inst = UserIDFromContext ctx ∧
        inst_VpcID inst = Some (lb_VpcID lb) ∧
        tgt_LBID t = lbID ∧ tgt_InstanceID t = instanceID ∧ tgt_Port t = port ∧ tgt_Weight t ≠ 0 ∧
        (weight ≠ 0 → tgt_Weight t = weight) ∧
        (∀ k' t', t_lb_targets w !! k' = Some t' → tgt_LBID t' = lbID → tgt_InstanceID t' ≠ instanceID)
  | Err _ => t_lb_targets w' = t_lb_targets w
  | Panic _ => False
  end.
Proof.
  intros Hrun. destruct r as [u|e|p]; [| |destruct (no_panic_run _ _ _ _ Hrun)]; unfold AddTarget in Hrun.
  - ok_step Hrun lb w1. apply lb_GetByID_row in Hrun0 as (-> & Hlb & Hlu).
    ok_step Hrun i0 w2. apply wrap_err_Ok, wrap_err_Ok, (db_query_row_pk_Ok t_instances) in Hrun0 as (-> & Hi & Hu).
    unfold of_user in Hu. apply bool_decide_eq_true in Hu. cbn in Hi.
    ok_step Hrun v w3. apply guard_err_Ok in Hrun0 as [Hvpc ->].
    apply negb_false_iff, bool_decide_eq_true in Hvpc.
    apply total_bind_inv in Hrun as (id & w4 & Hid & Hrun); [|apply _].
    apply (frame_run t_lb_targets) in Hid as Hf1; [|apply _]. cbn in Hf1.
    ok_step Hrun x w5. apply wrap_err_Ok, db_exec_Ok in Hrun0. unfold sql_insert in Hrun0.
    cbn in Hrun0. destruct (t_lb_targets w4 !! id) eqn:Hl; [done|].
    destruct (_ && no_row _ _) eqn:Hok; [|done]. apply andb_true_iff in Hok as [_ Hok].
    rewrite no_row_true in Hok. injection Hrun0 as _ Hw5.
    apply (frame_run t_lb_targets) in Hrun as Hf2; [|apply _]. rewrite Hf1 in *.
    exists id. eexists _, lb, i0. rewrite Hf2, <- Hw5. cbn. rewrite Hf1.
    split; [done|]. split; [reflexivity|]. cbn. split_and!; try done.
    + case_bool_decide; lia.
    + intros. by rewrite bool_decide_false.
    + intros k' t' Hk' Hl1 Hl2. specialize (Hok k' t' Hk'). unfold target_of in Hok.
      by rewrite !bool_decide_true in Hok.
  - run_step Hrun lb w1; apply (frame_run t_lb_targets) in Hrun0 as Hf; try apply _; [|done].
    run_step Hrun i0 w2; apply (frame_run t_lb_targets) in Hrun1 as Hf1; try apply _; [|congruence].
    run_step Hrun v w3; apply (frame_run t_lb_targets) in Hrun2 as Hf2; try apply _; [|congruence].
    apply total_bind_inv in Hrun as (id & w4 & Hid & Hrun); [|apply _].
    apply (frame_run t_lb_targets) in Hid as Hf3; [|apply _].
    run_step Hrun x w5.
    { by apply total_run in Hrun as [? ?]; [|apply _]. }
    unfold lb_AddTarget, wrap_err in Hrun3. destruct (db_exec _ _) as [r9 w9] eqn:Hex.
    apply db_exec_outcome in Hex as [(z & -> & _)|(e' & -> & ->)]; [done|].
    injection Hrun3 as _ <-. cbn. congruence.
Qed.

(** ** Optimistic locking *)

(** Of two updates made from the same version of a load balancer only the first takes effect:
    the second fails with a conflict and changes nothing, so no update is lost. *)
Theorem lb_Update_no_lost_update `{!NoFaults} lb1 lb2 w r1 w1 :
  lb_ID lb2 = lb_ID lb1 → lb_Version lb2 = lb_Version lb1 →
  lb_Update lb1 w = (Ok r1, w1) →
  lb_Update lb2 w1 =
    (Err (New Conflict "update conflict: load balancer was modified or not found"),
     w1 <| w_tick ::= S |>).
Proof.
  intros Hid Hv Hrun. apply lb_Update_outcome in Hrun as [(row & _ & Hl & Hrv & Hru & Hw1)|(e & ? & _)]; [|done].
  unfold lb_Update, mbind, M_bind, wrap_err, db_exec. rewrite no_faults.
  unfold sql_update. cbn. rewrite Hid.
  assert (∃ row', t_lbs w1 !! lb_ID lb1 = Some row' ∧ lb_Version row' = lb_Version lb1 + 1) as (row' & -> & Hv').
  { rewrite Hw1. cbn. rewrite lookup_insert_eq. eexists. split; [done|]. cbn. lia. }
  rewrite bool_decide_false by lia. done.
Qed.

(** ** The worker *)

(** How a turn of the worker changes a row, with the calls made since [base]. *)
Definition lb_evolves (base calls : list Call) (o o' : option LoadBalancer) : Prop :=
  o' = o ∨
  (∃ lb ts proxy, o = Some lb ∧ lb_Status lb = LBStatusCreating ∧
     answered base calls (DeployProxy lb ts) (inr proxy) ∧
     o' = Some (lb <| lb_Status := LBStatusActive |> <| lb_Version ::= (λ v, v + 1) |>)) ∨
  (∃ lb a, o = Some lb ∧ lb_Status lb = LBStatusDeleted ∧
     answered base calls (RemoveProxy (lb_ID lb)) a ∧ o' = None).

Lemma lb_evolves_mono b1 b2 c1 c2 o o' :
  (∃ l, b1 = l ++ b2) → (∃ l, c2 = l ++ c1) → lb_evolves b1 c1 o o' → lb_evolves b2 c2 o o'.
Proof.
  intros [l ->] [l' ->] [->|[(lb & ts & p & -> & Hst & Ha & ->)|(lb & a & -> & Hst & Ha & ->)]]; [by left|..];
    right; [left; exists lb, ts, p|right; exists lb, a]; (split_and!; [done|done| |done]);
    by eapply answered_app, answered_base.
Qed.

Lemma lb_evolves_trans base calls o1 o2 o3 :
  lb_evolves base calls o1 o2 → lb_evolves base calls o2 o3 → lb_evolves base calls o1 o3.
Proof.
  intros [->|[(lb & ts & p & -> & Hst & Hc & ->)|(lb & a & -> & Hst & Hc & ->)]] H2; [done|..].
  - destruct H2 as [->|[(lb' & ts' & p' & [= <-] & ? & _)|(lb' & a' & [= <-] & ? & _)]]; [|done..].
    right. left. eauto 10.
  - destruct H2 as [->|[(? & ? & ? & ? & _)|(? & ? & ? & _)]]; [|done..]. right. right. eauto 10.
Qed.

(** The body of a loop of the worker, run on a row of the table, changes that row only. *)
Definition lb_body_ok (st : LBStatus) (body : LoadBalancer → M unit) : Prop :=
  ∀ lb w r w', lb_Status lb = st → t_lbs w !! lb_ID lb = Some lb → body lb w = (r, w') →
    (∀ k, k ≠ lb_ID lb → t_lbs w' !! k = t_lbs w !! k) ∧
    lb_evolves (w_calls w) (w_calls w') (Some lb) (t_lbs w' !! lb_ID lb).

Lemma lb_loop st body lbs w r w' :
  (∀ lb, Steps grows (body lb)) → (∀ lb, NoPanic (body lb)) → lb_body_ok st body →
  (∀ lb, lb ∈ lbs → t_lbs w !! lb_ID lb = Some lb) → NoDup (lb_ID <$> lbs) →
  foreach lbs (when_status st body) w = (r, w') →
  ∀ k, lb_evolves (w_calls w) (w_calls w') (t_lbs w !! k) (t_lbs w' !! k) ∧
       (k ∉ lb_ID <$> lbs → t_lbs w' !! k = t_lbs w !! k).
Proof.
  intros Hg Hnp Hbody. revert w. induction lbs as [|lb lbs IH]; intros w Hrows Hnd Hrun k.
  { cbn in Hrun. unfold mret, M_ret in Hrun. injection Hrun as _ <-. split; [by left|done]. }
  rewrite fmap_cons in Hnd. apply NoDup_cons in Hnd as [Hnew Hnd]. cbn in Hrun.
  pose proof (Hrows lb (list_elem_of_here _ _)) as Hrow.
  assert (∀ r1 w1, when_status st body lb w = (r1, w1) →
    (∀ k, k ≠ lb_ID lb → t_lbs w1 !! k = t_lbs w !! k) ∧
    lb_evolves (w_calls w) (w_calls w1) (Some lb) (t_lbs w1 !! lb_ID lb)) as Hstep.
  { intros r1 w1 Hs. unfold when_status in Hs. case_bool_decide as Hst; [by eapply Hbody|].
    unfold mret, M_ret in Hs. injection Hs as _ <-. split; [done|]. by left. }
  assert (∀ r1 w1, when_status st body lb w = (r1, w1) → ∀ k,
    lb_evolves (w_calls w) (w_calls w1) (t_lbs w !! k) (t_lbs w1 !! k) ∧
    (k ∉ lb_ID <$> lb :: lbs → t_lbs w1 !! k = t_lbs w !! k)) as Hone.
  { intros r1 w1 Hs k'. destruct (Hstep r1 w1 Hs) as [Hother Hev]. split.
    - destruct (decide (k' = lb_ID lb)) as [->|Hne]; [by rewrite Hrow|]. left. by apply Hother.
    - rewrite fmap_cons. intros [Hne _]%not_elem_of_cons. by apply Hother. }
  run_step Hrun u w1; [|by eapply Hone..].
  destruct (Hstep _ _ Hrun0) as [Hother Hev].
  assert (∀ lb', lb' ∈ lbs → t_lbs w1 !! lb_ID lb' = Some lb') as Hrows1.
  { intros lb' Hin. rewrite Hother; [apply Hrows; by right|]. intros Heq. apply Hnew.
    rewrite <- Heq. by apply list_elem_of_fmap_2. }
  destruct (IH w1 Hrows1 Hnd Hrun k) as [IH1 IH2].
  assert (grows w1 w') as Hmono.
  { refine (run_grows _ _ _ _ _ Hrun). apply steps_foreach; [apply _|]. intros lb'.
    unfold when_status. apply _. }
  assert (grows w w1) as Hmono0 by (refine (run_grows _ _ _ _ _ Hrun0); unfold when_status; apply _).
  destruct (Hone _ _ Hrun0 k) as [Hk1 Hk2]. split.
  - eapply lb_evolves_trans; (eapply lb_evolves_mono; [| |done]); [by exists []|done|done|by exists []].
  - rewrite fmap_cons. intros [Hne Hin]%not_elem_of_cons. rewrite IH2 by done. by apply Hother.
Qed.

Lemma for_all_lbs_evolves `{!OrderLaws} st body w r w' :
  (∀ lb, Steps grows (body lb)) → (∀ lb, NoPanic (body lb)) → lb_body_ok st body →
  keyed lb_ID (t_lbs w) → for_all_lbs (when_status st body) w = (r, w') →
  (∀ k, lb_evolves (w_calls w) (w_calls w') (t_lbs w !! k) (t_lbs w' !! k)) ∧
  grows w w'.
Proof.
  intros Hg Hnp Hbody Hkey Hrun. split.
  2:{ refine (run_grows _ _ _ _ _ Hrun). unfold for_all_lbs, when_status. apply _. }
  unfold for_all_lbs in Hrun. apply total_bind_inv in Hrun as (a & w1 & Hl & Hrun); [|apply _].
  apply (frame_run t_lbs) in Hl as Hf; [|apply _]. apply (frame_run w_calls) in Hl as Hfc; [|apply _].
  destruct a as [e|lbs]; [unfold mret, M_ret in Hrun; injection Hrun as _ <-; intros k; left; by rewrite Hf|].
  unfold attempt in Hl. destruct (lb_ListAll w) as [[l|e|p] wl] eqn:Hla; [|done..].
  injection Hl as -> ->. unfold lb_ListAll in Hla. ok_step Hla l0 w2. apply wrap_err_Ok, db_query_Ok in Hrun0 as [-> Hl0].
  unfold mret, M_ret in Hla. injection Hla as Hlbs Hw1.
  assert (∀ lb, lb ∈ lbs → t_lbs w1 !! lb_ID lb = Some lb) as Hrows.
  { intros lb. rewrite <- Hlbs, elem_of_order_desc, Hl0. intros Hin%elem_of_cut.
    rewrite env_order_elem in Hin. apply (elem_of_select_key lb_ID) in Hin as [_ Hin]; [|done].
    by rewrite Hf. }
  assert (NoDup (lb_ID <$> lbs)) as Hnd.
  { rewrite <- Hlbs, Hl0. unfold order_desc. rewrite merge_sort_Permutation.
    eapply sublist_NoDup; [|apply fmap_sublist, cut_sublist]. rewrite env_order_perm. by apply select_NoDup. }
  intros k. rewrite <- Hf, <- Hfc. by eapply lb_loop.
Qed.

Lemma deployLB_ok : lb_body_ok LBStatusCreating deployLB.
Proof.
  intros lb w r w' Hst Hrow Hrun. unfold deployLB in Hrun.
  apply total_bind_inv in Hrun as (a & w1 & Hts & Hrun); [|apply _].
  apply (frame_run t_lbs) in Hts as Hf; [|apply _].
  destruct a as [e|ts].
  { unfold mret, M_ret in Hrun. injection Hrun as _ <-. rewrite Hf. split; [done|by left]. }
  apply total_bind_inv in Hrun as (a & w2 & Hd & Hrun); [|apply _].
  apply (frame_run t_lbs) in Hd as Hf2; [|apply _].
  destruct a as [e|proxy].
  { unfold mret, M_ret in Hrun. injection Hrun as _ <-. rewrite Hf2, Hf. split; [done|by left]. }
  assert (answered (w_calls w) (w_calls w2) (DeployProxy lb ts) (inr proxy)) as Hcall.
  { eapply answered_before; [|exact Hts|]; [apply _|].
    apply attempt_inv in Hd as [(? & Hd & [= <-])|[(? & _ & ?)|(? & _ & ?)]]; [|done..].
    by apply perform_Ok_answered. }
  apply ignore_inv in Hrun as [[_ [r0 Hup]]|(p & Hp & _)]; [|destruct (no_panic_run _ _ _ _ Hp)].
  apply lb_Update_outcome in Hup as [(row & _ & Hl & Hv & Hu & ->)|(e & _ & ->)]; cbn.
  - change (lb_ID (lb <| lb_Status := LBStatusActive |>)) with (lb_ID lb) in *.
    rewrite Hf2, Hf in *. rewrite Hrow in Hl. injection Hl as <-. split.
    + intros k Hne. by rewrite lookup_insert_ne.
    + rewrite lookup_insert_eq. right. left. exists lb, ts, proxy. by split_and!.
  - rewrite Hf2, Hf. split; [done|by left].
Qed.

Lemma lb_Delete_lbs ctx id w r w' :
  lb_Delete ctx id w = (r, w') → t_lbs w' = t_lbs w ∨ t_lbs w' = delete id (t_lbs w).
Proof.
  intros Hrun. unfold lb_Delete, wrap_err, db_exec, mbind, M_bind in Hrun.
  destruct (env_fault _); [simplify_eq; by left|]. unfold sql_delete in Hrun. cbn in Hrun.
  destruct (t_lbs w !! id); [destruct (of_user _ _ _)|]; cbn in Hrun;
    unfold mret, M_ret, fail in Hrun; injection Hrun as _ <-; auto.
Qed.

Lemma cleanupLB_ok ctx :
  lb_body_ok LBStatusDeleted (λ lb, cleanupLB (WithUserID ctx (lb_UserID lb)) lb).
Proof.
  intros lb w r w' Hst Hrow Hrun. unfold cleanupLB in Hrun.
  apply ignore_bind_inv in Hrun as (r1 & w1 & Hp & Hrun); [|apply _].
  apply (frame_run t_lbs) in Hp as Hf; [|apply _].
  assert (∃ a, answered (w_calls w) (w_calls w') (RemoveProxy (lb_ID lb)) a) as [a Hcall].
  { destruct r1 as [x|e|p]; [exists (inr x)|exists (inl e)|by destruct (no_panic_run _ _ _ _ Hp)];
      (eapply answered_grows; [|exact Hrun|]; [apply _|]); [by apply perform_Ok_answered|by apply perform_Err_answered]. }
  apply ignore_inv in Hrun as [[_ [r0 Hdel]]|(p & Hp' & _)]; [|destruct (no_panic_run _ _ _ _ Hp')].
  apply lb_Delete_lbs in Hdel as [->| ->]; rewrite Hf.
  - split; [done|]. rewrite Hrow. by left.
  - split; [intros k Hne; by rewrite lookup_delete_ne|]. rewrite lookup_delete_eq.
    right. right. exists lb, a. by split_and!.
Qed.

Lemma lb_evolves_keyed base calls t t' :
  keyed lb_ID t → (∀ k, lb_evolves base calls (t !! k) (t' !! k)) → keyed lb_ID t'.
Proof.
  intros Hkey Hev k lb Hk. destruct (Hev k) as [Heq|[(a & ts & p & Ha & _ & _ & Heq)|(a & ? & _ & _ & _ & Heq)]];
    rewrite Heq in Hk; [by apply Hkey| |done].
  injection Hk as <-. cbn. by apply Hkey.
Qed.

(** C28: In a turn of the worker a load balancer only goes from CREATING to ACTIVE, after the
    backend answered in this turn that its proxy is deployed, or disappears from DELETED, after
    the removal of its proxy was tried; every other row is as it was, whatever fails, and the
    turn ends. *)
Theorem lb_worker_tick_transitions `{!OrderLaws} ctx w :
  keyed lb_ID (t_lbs w) →
  ∃ w', lb_worker_tick ctx w = (Ok tt, w') ∧
    ∀ k, lb_evolves (w_calls w) (w_calls w') (t_lbs w !! k) (t_lbs w' !! k).
Proof.
  intros Hkey. destruct (lb_worker_tick ctx w) as [r w'] eqn:Hrun. unfold lb_worker_tick in Hrun.
  apply total_bind_inv in Hrun as ([] & w1 & H1 & Hrun); [|unfold processCreatingLBs; apply _].
  apply total_bind_inv in Hrun as ([] & w2 & H2 & Hrun); [|unfold processDeletingLBs; apply _].
  apply total_bind_inv in Hrun as ([] & w3 & H3 & Hrun); [|unfold processActiveLBs; apply _].
  eapply for_all_lbs_evolves in H1 as [H1 Hg1]; [|apply _..|exact deployLB_ok|exact Hkey].
  pose proof (lb_evolves_keyed _ _ _ _ Hkey H1) as Hkey1.
  eapply for_all_lbs_evolves in H2 as [H2 Hg2]; [|apply _..|exact (cleanupLB_ok ctx)|exact Hkey1].
  assert (t_lbs w3 = t_lbs w2) as Hf3
    by (revert H3; apply frame_run; unfold processActiveLBs; apply _).
  assert (t_lbs w' = t_lbs w2) as Hf4
    by (rewrite <- Hf3; revert Hrun; apply frame_run; unfold processHealthChecks; apply _).
  assert (grows w2 w') as Hg4.
  { transitivity w3.
    - refine (run_grows _ _ _ _ _ H3). unfold processActiveLBs, for_all_lbs, when_status. apply _.
    - refine (run_grows _ _ _ _ _ Hrun). unfold processHealthChecks, for_all_lbs, when_status. apply _. }
  assert (∃ u, r = Ok u) as [[] ->].
  { eapply total_run, Hrun. unfold processHealthChecks. apply _. }
  exists w'. split; [done|]. intros k. rewrite Hf4. eapply lb_evolves_trans.
  - assert (grows w1 w') as Hg by (by transitivity w2).
    refine (lb_evolves_mono _ _ _ _ _ _ _ Hg (H1 k)). by exists [].
  - exact (lb_evolves_mono _ _ _ _ _ _ Hg1 Hg4 (H2 k)).
Qed.

End lb_proofs.
