(* ===== verification/AutoScalingProofs.v ===== *)
(** * The auto-scaling component: the services it calls keep the promises of their interfaces,
    and what it guarantees on top of them *)
From S2P Require Import Prelude GoStd Net Errors Domain DomainData World Logic Sql InstanceRepo NetworkRepo.
From S2P Require Import InstanceService LBRepo LBService Ports InstanceProofs AutoScalingRepo.
From S2P Require Import AutoScalingService AutoScalingWorker.

(** * The services keep the promises of their interfaces *)

Section instances_keyed.
Context `{Env}.

Notation Keyed := (holds t_instances (keyed inst_ID)).

#[export] Instance instance_Create_keyed i : Steps Keyed (instance_Create i).
Proof.
  apply steps_wrap_err, steps_db_exec; [apply _..|]. intros w a w' Hs. unfold instance_insert in Hs.
  destruct (to_inet _); [|done]. cbn [mbind option_bind] in Hs.
  refine (sql_insert_keyed t_instances inst_ID _ _ _ _ _ _ _ Hs). done.
Qed.

#[export] Instance instance_Update_keyed i : Steps Keyed (instance_Update i).
Proof.
  unfold instance_Update. apply steps_bind; [apply _..|]. intros now.
  apply steps_bind; [apply _| |apply _]. apply steps_wrap_err, steps_db_exec; [apply _..|].
  apply sql_update_keyed; [apply _|]. intros w r r' Hr.
  by apply instance_update_row_fields in Hr as (ip & _ & ->).
Qed.

#[export] Instance instance_Delete_keyed ctx id : Steps Keyed (instance_Delete ctx id).
Proof.
  intros w. unfold holds, keeps. destruct (instance_Delete ctx id w) as [r w'] eqn:Hrun. cbn.
  apply instance_Delete_outcome in Hrun as [(row & _ & _ & _ & ->)|(e & _ & ->)]; [|done].
  cbn. intros Hkey k i [_ Hk]%lookup_delete_Some. by apply Hkey.
Qed.

#[export] Instance LaunchInstance_keyed ctx n i p v s vs : Steps Keyed (LaunchInstance ctx n i p v s vs).
Proof.
  unfold LaunchInstance, launch_resources, launch_container, launch_running, launch_failed.
  do 5 (apply steps_bind; [apply _..|intros ?]). apply steps_bind; [apply _..|intros [[??]?]].
  apply steps_bind; [apply _..|intros [??]]. apply _.
Qed.

#[export] Instance TerminateInstance_keyed ctx s : Steps Keyed (TerminateInstance ctx s).
Proof. unfold TerminateInstance. apply _. Qed.

#[export] Instance Instance_Stop_keyed ctx s : Steps Keyed (Instance_Stop ctx s).
Proof. unfold Instance_Stop. apply _. Qed.

End instances_keyed.

(** ** The instance service *)

Section lawful.
Context `{Env}.

(** Without a subnet there is no switch port, and nothing is plumbed. *)
Lemma launch_without_subnet_no_panic ctx n i p v : NoPanic (LaunchInstance ctx n i p v None []).
Proof.
  intros w. destruct (LaunchInstance ctx n i p v None [] w) as [r w'] eqn:Hrun.
  apply launch_decompose in Hrun
    as [(_ & _ & e & ->)|(ps & inst & row & w0 & _ & _ & (_ & _ & _ & _ & _ & Hsub) & _ & _ & _ & _ & Hrun)]; [done|].
  unfold launch_resources in Hrun. rewrite Hsub in Hrun.
  run_step Hrun x w1; [|done|destruct (no_panic_run _ _ _ _ Hrun0)].
  destruct x as [[net ip] port].
  assert (port = "") as ->.
  { unfold resolveNetworkConfig in Hrun0. ok_step Hrun0 n0 w2.
    unfold mret, M_ret in Hrun0. by simplify_eq. }
  cbn in Hrun. rewrite mret_bind in Hrun.
  set (i0 := inst <| inst_PrivateIP := ip |> <| inst_OvsPort := "" |>) in Hrun.
  assert (inst_OvsPort i0 = "") as Hport by done. clearbody i0.
  assert (∀ c, NoPanic (plumbNetwork ctx i0 c)).
  { intros c. unfold plumbNetwork. rewrite Hport. apply _. }
  assert (NoPanic (launch_container ctx i0 ps net [] [])) as Hnp.
  { unfold launch_container, launch_failed, launch_running. apply _. }
  specialize (Hnp w1). by rewrite Hrun in Hnp.
Qed.

#[export] Instance lawful_instance_service `{!UUIDLaws, !OrderLaws} : LawfulInstanceService.
Proof.
  constructor; cbn [svc_LaunchInstance svc_TerminateInstance instance_service_port]; intros;
    try apply _; try apply launch_without_subnet_no_panic.
  - match goal with Hr : LaunchInstance _ _ _ _ _ _ _ _ = _ |- _ => rename Hr into Hrun end.
    apply launch_decompose in Hrun
      as [(_ & _ & e & ?)|(ps & i0 & row0 & w0 & _ & Hfresh & _ & Hi & _ & _ & Hl & Hrun)]; [done|].
    apply launch_resources_effect in Hrun as [(row & Ht & _ & Hid & _) _]; [|done].
    rewrite Hid, Ht, Hi. split; [done|]. by rewrite lookup_insert_eq.
  - match goal with Hr : TerminateInstance _ _ _ = _ |- _ => rename Hr into Hrun end.
    apply terminate_run in Hrun
      as [[Hrefs _]|(i0 & w1 & w2 & Hget & _ & Hrefs & _ & [(_ & Hrefs' & _)|(_ & Hrefs' & _)])].
    + left. unfold instance_refs in Hrefs. congruence.
    + left. unfold instance_refs in Hrefs'. congruence.
    + right. apply (GetInstance_row ctx (uuid_string id) id) in Hget as (_ & _ & Hid & _);
        [|apply uuid_parse_string|done].
      unfold instance_refs in Hrefs, Hrefs'. cbn in Hrefs'. rewrite Hid in Hrefs'. congruence.
Qed.

#[export] Instance lawful_lb_service : LawfulLBService.
Proof. constructor; cbn [svc_AddTarget svc_RemoveTarget lb_service_port]; intros; apply _. Qed.

End lawful.

(** * What [services/autoscaling.go] and [autoscaling_worker.go] guarantee *)

(** ** Frames of the worker *)

Section worker_frames.
Context `{Env} {T : Type} (p : World → T) `{!Indep p w_tick}.

#[export] Instance update_group_frame g : Indep p t_groups → Frame p (update_group g).
Proof. intros. unfold update_group. apply _. Qed.
#[export] Instance shouldSkip_frame g : Frame p (shouldSkipDueToFailures g).
Proof. unfold shouldSkipDueToFailures. apply _. Qed.
#[export] Instance recordFailure_frame g : Indep p t_groups → Frame p (recordFailure g).
Proof. intros. unfold recordFailure. apply _. Qed.
#[export] Instance resetFailures_frame g : Indep p t_groups → Frame p (resetFailures g).
Proof. intros. unfold resetFailures. apply _. Qed.
#[export] Instance force_bounds_frame g : Indep p t_groups → Frame p (force_bounds g).
Proof. intros. unfold force_bounds. apply _. Qed.
#[export] Instance sync_count_frame g l : Indep p t_groups → Frame p (sync_count g l).
Proof. intros. unfold sync_count. apply _. Qed.
#[export] Instance in_cooldown_frame pol : Frame p (in_cooldown pol).
Proof. unfold in_cooldown. apply _. Qed.
End worker_frames.

Section worker_total.
Context `{Env}.
#[export] Instance update_group_total g : Total (update_group g).
Proof. unfold update_group. apply _. Qed.
#[export] Instance shouldSkip_total g : Total (shouldSkipDueToFailures g).
Proof. unfold shouldSkipDueToFailures. apply _. Qed.
#[export] Instance recordFailure_total g : Total (recordFailure g).
Proof. unfold recordFailure. apply _. Qed.
#[export] Instance resetFailures_total g : Total (resetFailures g).
Proof. unfold resetFailures. apply _. Qed.
#[export] Instance force_bounds_total g : Total (force_bounds g).
Proof. unfold force_bounds. apply _. Qed.
#[export] Instance sync_count_total g l : Total (sync_count g l).
Proof. unfold sync_count. apply _. Qed.
#[export] Instance in_cooldown_total pol : Total (in_cooldown pol).
Proof. unfold in_cooldown. apply _. Qed.
End worker_total.

(** ** The struct the worker holds *)

Section struct.
Context `{Env}.

(** The fields of a group but its version. *)
Definition but_version (g : ScalingGroup) : ScalingGroup := g <| sg_Version := 0 |>.

Lemma update_group_struct g w g' w' :
  update_group g w = (Ok g', w') → but_version g' = but_version g.
Proof.
  unfold update_group. intros Hrun. ok_step Hrun a w1. unfold mret, M_ret in Hrun.
  injection Hrun as <- <-. unfold attempt in Hrun0.
  destruct (asg_UpdateGroup g w) as [[g1|e|p] w2] eqn:Hup; [|by injection Hrun0 as <- _|done].
  injection Hrun0 as <- _. unfold asg_UpdateGroup in Hup. ok_step Hup n w3. ok_step Hup u w4.
  unfold mret, M_ret in Hup. by injection Hup as <- _.
Qed.

Definition clamp (g : ScalingGroup) : Z :=
  Z.min (sg_MaxInstances g) (Z.max (sg_MinInstances g) (sg_DesiredCount g)).

Lemma but_version_proj {T} (f : ScalingGroup → T) g g' :
  (∀ g, f (but_version g) = f g) → but_version g' = but_version g → f g' = f g.
Proof. intros Hf Heq. by rewrite <- (Hf g'), <- (Hf g), Heq. Qed.

Lemma force_bounds_struct g w g' w' :
  sg_MinInstances g ≤ sg_MaxInstances g → force_bounds g w = (Ok g', w') →
  but_version g' = but_version (g <| sg_DesiredCount := clamp g |>).
Proof.
  intros Hmm Hrun. unfold force_bounds in Hrun. ok_step Hrun g1 w1.
  assert (but_version g1 = but_version
    (g <| sg_DesiredCount := Z.max (sg_MinInstances g) (sg_DesiredCount g) |>)) as H1.
  { destruct (Z.ltb_spec (sg_DesiredCount g) (sg_MinInstances g)).
    - rewrite (update_group_struct _ _ _ _ Hrun0). by rewrite Z.max_l by lia.
    - unfold mret, M_ret in Hrun0. injection Hrun0 as <- _. rewrite Z.max_r by lia. by destruct g. }
  pose proof (but_version_proj sg_MaxInstances _ _ ltac:(done) H1) as Hmax.
  pose proof (but_version_proj sg_DesiredCount _ _ ltac:(done) H1) as Hdes. cbn in Hmax, Hdes.
  unfold clamp. destruct (Z.ltb_spec (sg_MaxInstances g1) (sg_DesiredCount g1)).
  - rewrite (update_group_struct _ _ _ _ Hrun). rewrite Z.min_l, Hmax by lia.
    change (but_version g1 <| sg_DesiredCount := sg_MaxInstances g |>
            = but_version (g <| sg_DesiredCount := sg_MaxInstances g |>)). by rewrite H1.
  - unfold mret, M_ret in Hrun. injection Hrun as <- _. rewrite Z.min_r by lia. done.
Qed.

Lemma resetFailures_struct g w g' w' :
  resetFailures g w = (Ok g', w') →
  but_version g' = but_version g ∨
  but_version g' = but_version (g <| sg_FailureCount := 0 |> <| sg_LastFailureAt := None |>).
Proof.
  unfold resetFailures. intros Hrun. destruct (0 <? _).
  - right. by eapply update_group_struct.
  - unfold mret, M_ret in Hrun. injection Hrun as <- _. by left.
Qed.

Lemma recordFailure_struct g w g' w' :
  recordFailure g w = (Ok g', w') →
  ∃ t, but_version g' = but_version (g <| sg_FailureCount ::= (λ n, int_add n 1) |>
                                       <| sg_LastFailureAt := Some t |>).
Proof.
  unfold recordFailure. intros Hrun. ok_step Hrun now w1. exists now. by eapply update_group_struct.
Qed.

End struct.

(** ** The members of a group *)

Section reconcile.
Context `{Env, !InstanceServicePort, !LBServicePort, !LawfulInstanceService, !LawfulLBService}.

(** The rows of [scaling_group_instances] of one group. *)
Definition members_of (g : uuid) (w : World) : gmap (uuid * uuid) unit :=
  filter (λ kv, kv.1.1 = g) (t_group_instances w).

Definition group_size (g : uuid) (w : World) : Z := Z.of_nat (size (members_of g w)).

Notation inst_keyed w := (keyed inst_ID (t_instances w)).

Lemma members_of_same g w w' : t_group_instances w' = t_group_instances w → members_of g w' = members_of g w.
Proof. unfold members_of. by intros ->. Qed.

Lemma lb_step_same {A} (lb : option A) (f : A → M unit) w r w' :
  (∀ a, Frame t_group_instances (f a)) → (∀ a, Frame t_instances (f a)) → (∀ a, NoPanic (f a)) →
  match lb with Some a => ignore (f a) | None => mret () end w = (r, w') →
  r = Ok tt ∧ t_group_instances w' = t_group_instances w ∧ t_instances w' = t_instances w.
Proof.
  intros Hf Hi Hnp Hrun. destruct lb as [a|].
  - apply (frame_run t_group_instances) in Hrun as Hg; [|apply _].
    apply (frame_run t_instances) in Hrun as Hin; [|apply _].
    apply total_run in Hrun as [[] ->]; [done|apply _].
  - unfold mret, M_ret in Hrun. by injection Hrun as <- <-.
Qed.

Lemma asg_AddInstance_outcome g i w r w' :
  asg_AddInstanceToGroup g i w = (r, w') →
  (r = Ok tt ∧ t_group_instances w !! (g, i) = None ∧
   w' = w <| w_tick ::= S |> <| t_group_instances ::= <[(g, i) := tt]> |>) ∨
  (∃ e, r = Err e ∧ w' = w <| w_tick ::= S |>).
Proof.
  intros Hrun. apply db_exec_outcome in Hrun as [([] & -> & Hst)|(e & -> & ->)]; [|eauto].
  unfold sql_insert in Hst. cbn in Hst. destruct (t_group_instances w !! (g, i)) eqn:Hl; [done|].
  destruct (_ && _); [|done]. injection Hst as <-. by left.
Qed.

Lemma asg_RemoveInstance_outcome g i w r w' :
  asg_RemoveInstanceFromGroup g i w = (r, w') →
  (r = Ok tt ∧ t_instances w' = t_instances w ∧
   t_group_instances w' = delete (g, i) (t_group_instances w)) ∨
  (∃ e, r = Err e ∧ w' = w <| w_tick ::= S |>).
Proof.
  unfold asg_RemoveInstanceFromGroup. intros Hrun.
  run_step Hrun n w1; apply db_exec_outcome in Hrun0 as [(k & Hr & Hst)|(e0 & Hr & Hw)]; try done; [|right; eauto].
  unfold mret, M_ret in Hrun. injection Hrun as <- <-. left. unfold sql_delete in Hst. cbn in Hst.
  destruct (t_group_instances w !! (g, i)) as [[]|] eqn:Hl; injection Hst as _ <-; [done|].
  cbn. by rewrite delete_id.
Qed.

(** A successful scale-out adds exactly one member, a failed one none. *)
Lemma scaleOut_members ctx group w r w' :
  inst_keyed w → scaleOut ctx group w = (r, w') →
  inst_keyed w' ∧
  match r with
  | Ok _ => ∃ i, members_of (sg_ID group) w !! (sg_ID group, i) = None ∧
              members_of (sg_ID group) w' = <[(sg_ID group, i) := tt]> (members_of (sg_ID group) w)
  | Err _ => members_of (sg_ID group) w' = members_of (sg_ID group) w
  | Panic _ => False
  end.
Proof.
  intros Hkey Hrun. unfold scaleOut in Hrun.
  apply total_bind_inv in Hrun as (now & w0 & Hnow & Hrun); [|apply _].
  apply (frame_run t_group_instances) in Hnow as Hg0; [|apply _].
  apply (frame_run t_instances) in Hnow as Hi0; [|apply _].
  assert (inst_keyed w0) as Hk0 by by rewrite Hi0.
  run_step Hrun i0 w1; pose proof (holds_run t_instances (keyed inst_ID) _ _ _ _ Hrun0 Hk0) as Hk1;
    apply (frame_run t_group_instances) in Hrun0 as Hg1; try apply _;
    [|split; [done|apply members_of_same; congruence]|destruct (no_panic_run _ _ _ _ Hrun0)].
  run_step Hrun u w2; apply asg_AddInstance_outcome in Hrun1
    as [(Hr & Hnew & Hw2)|(e' & Hr & Hw2)]; try done;
    [|rewrite Hw2; split; [done|apply members_of_same; cbn; congruence]].
  apply bind_inv in Hrun as [(v & w3 & Hlb & Hrun)|[(? & Hlb & _)|(? & Hlb & _)]];
    eapply (lb_step_same (sg_LoadBalancerID group)
      (λ lb, svc_AddTarget ctx lb (inst_ID i0) 80 1)) in Hlb as (? & Hg3 & Hi3);
    try apply _; try done.
  apply (frame_run t_group_instances) in Hrun as Hg4; [|apply _].
  apply (frame_run t_instances) in Hrun as Hi4; [|apply _].
  apply total_run in Hrun as [[] ->]; [|apply _].
  split; [by rewrite Hi4, Hi3, Hw2|]. exists (inst_ID i0).
  assert (t_group_instances w1 = t_group_instances w) as Hg1' by congruence.
  rewrite Hg1' in Hnew. unfold members_of. split.
  - by rewrite map_lookup_filter, Hnew.
  - rewrite Hg4, Hg3, Hw2. cbn. rewrite Hg1'. by rewrite map_filter_insert_True.
Qed.

(** A successful scale-in removes exactly the member it is given, a failed one none. *)
Lemma scaleIn_members ctx group t w r w' :
  inst_keyed w → scaleIn ctx group t w = (r, w') →
  inst_keyed w' ∧
  match r with
  | Ok _ => members_of (sg_ID group) w' = delete (sg_ID group, t) (members_of (sg_ID group) w)
  | Err _ => members_of (sg_ID group) w' = members_of (sg_ID group) w
  | Panic _ => False
  end.
Proof.
  intros Hkey Hrun. unfold scaleIn in Hrun.
  apply bind_inv in Hrun as [(v & w1 & Hlb & Hrun)|[(? & Hlb & _)|(? & Hlb & _)]];
    eapply (lb_step_same (sg_LoadBalancerID group)
      (λ lb, svc_RemoveTarget ctx lb t)) in Hlb as (? & Hg1 & Hi1);
    try apply _; try done.
  run_step Hrun u w2; apply asg_RemoveInstance_outcome in Hrun0
    as [(Hr & Hi2 & Hg2)|(e' & Hr & Hw2)]; try done;
    [|rewrite Hw2; cbn; split; [by rewrite Hi1|by apply members_of_same]].
  apply ignore_bind_inv in Hrun as (r3 & w3 & Hterm & Hrun); [|apply _].
  assert (inst_keyed w2) as Hk2 by by rewrite Hi2, Hi1.
  pose proof (holds_run t_instances (keyed inst_ID) _ _ _ _ Hterm Hk2) as Hk3.
  apply (frame_run t_group_instances) in Hrun as Hg4; [|apply _].
  apply (frame_run t_instances) in Hrun as Hi4; [|apply _].
  apply total_run in Hrun as [[] ->]; [|apply _].
  split; [by rewrite Hi4|]. unfold members_of. rewrite Hg4.
  apply terminate_members in Hterm as [Hg3|Hg3]; [..|done]; rewrite Hg3, Hg2, Hg1.
  - by rewrite map_filter_delete.
  - apply map_eq. intros [g i]. apply option_eq. intros [].
    rewrite !map_lookup_filter_Some, !lookup_delete_Some, !map_lookup_filter_Some. cbn. naive_solver.
Qed.

Lemma members_of_insert (g i : uuid) (m : gmap (uuid * uuid) unit) :
  m !! (g, i) = None → size (<[(g, i) := tt]> m) = S (size m).
Proof. apply map_size_insert_None. Qed.

Lemma scale_out_loop_members ctx n : ∀ group w r w',
  inst_keyed w → scale_out_loop ctx group n w = (r, w') →
  ∃ g' k, r = Ok g' ∧ (k ≤ n)%nat ∧
    size (members_of (sg_ID group) w') = (size (members_of (sg_ID group) w) + k)%nat ∧
    sg_DesiredCount g' = sg_DesiredCount group ∧
    (sg_FailureCount group = 0 → sg_FailureCount g' = 0 → k = n).
Proof.
  induction n as [|n IH]; intros group w r w' Hkey Hrun; cbn in Hrun.
  { unfold mret, M_ret in Hrun. injection Hrun as <- <-. exists group, 0%nat. split_and!; auto; lia. }
  destruct (scaleOut ctx group w) as [r1 w1] eqn:Hso.
  pose proof (scaleOut_members _ _ _ _ _ Hkey Hso) as [Hk1 Hm].
  destruct r1 as [u|e|p]; [..|done].
  - rewrite (bind_Ok_run _ _ _ _ _ (attempt_Ok_run _ _ _ _ Hso)) in Hrun.
    destruct Hm as (i & Hnew & Hm).
    apply total_bind_inv in Hrun as (g1 & w2 & Hreset & Hrun); [|apply _].
    apply (frame_run t_group_instances) in Hreset as Hg2; [|apply _].
    apply (frame_run t_instances) in Hreset as Hi2; [|apply _].
    apply resetFailures_struct in Hreset as Hstruct.
    assert (sg_ID g1 = sg_ID group ∧ sg_DesiredCount g1 = sg_DesiredCount group ∧
      (sg_FailureCount group = 0 → sg_FailureCount g1 = 0)) as (Hid & Hdes & Hfc).
    { destruct Hstruct as [Hs|Hs].
      - pose proof (but_version_proj sg_ID _ _ ltac:(done) Hs).
        pose proof (but_version_proj sg_DesiredCount _ _ ltac:(done) Hs).
        pose proof (but_version_proj sg_FailureCount _ _ ltac:(done) Hs). split_and!; congruence.
      - pose proof (but_version_proj sg_ID _ _ ltac:(done) Hs).
        pose proof (but_version_proj sg_DesiredCount _ _ ltac:(done) Hs).
        pose proof (but_version_proj sg_FailureCount _ _ ltac:(done) Hs). cbn in *. split_and!; congruence. }
    apply IH in Hrun as (g' & k & -> & Hk & Hsize & Hdes' & Hfc'); [|by rewrite Hi2].
    exists g', (S k). rewrite Hid in Hsize. rewrite Hsize, (members_of_same _ w1 w2), Hm by done.
    rewrite members_of_insert by done. split_and!; [done|lia|lia|congruence|].
    intros ? ?. rewrite Hfc'; auto.
  - rewrite (bind_Ok_run _ _ _ _ _ (attempt_Err_run _ _ _ _ Hso)) in Hrun.
    apply (frame_run t_group_instances) in Hrun as Hg2; [|apply _].
    pose proof Hrun as Htot. apply total_run in Htot as [g' ->]; [|apply _].
    apply recordFailure_struct in Hrun as [t Hs].
    pose proof (but_version_proj sg_DesiredCount _ _ ltac:(done) Hs) as Hd.
    pose proof (but_version_proj sg_FailureCount _ _ ltac:(done) Hs) as Hfc. cbn in Hd, Hfc.
    exists g', 0%nat. split_and!; [done|lia| |done|].
    + rewrite (members_of_same _ w1 w') by done. rewrite Hm. lia.
    + intros Hz Hz1. rewrite Hz in Hfc. cbn in Hfc. rewrite Hz1 in Hfc. done.
Qed.

Lemma scale_in_loop_members ctx group targets n : ∀ w r w',
  inst_keyed w → (n ≤ length targets)%nat → NoDup targets →
  (∀ t, t ∈ targets → is_Some (members_of (sg_ID group) w !! (sg_ID group, t))) →
  scale_in_loop ctx group targets n w = (r, w') →
  r = Ok tt ∧ ∃ k, (k ≤ n)%nat ∧
    size (members_of (sg_ID group) w) = (size (members_of (sg_ID group) w') + k)%nat.
Proof.
  revert n. induction targets as [|t ts IH]; intros [|n] w r w' Hkey Hn Hnd Hin Hrun; cbn in Hrun, Hn;
    try lia; try (unfold mret, M_ret in Hrun; injection Hrun as <- <-; split; [done|exists 0%nat; lia]).
  apply NoDup_cons in Hnd as [Hnew Hnd].
  destruct (scaleIn ctx group t w) as [r1 w1] eqn:Hsi.
  pose proof (scaleIn_members _ _ _ _ _ _ Hkey Hsi) as [Hk1 Hm].
  destruct r1 as [u|e|p]; [..|done].
  - rewrite (bind_Ok_run _ _ _ _ _ (attempt_Ok_run _ _ _ _ Hsi)) in Hrun.
    apply IH in Hrun as (-> & k & Hk & Hsize); [|done|lia|done|].
    + split; [done|]. exists (S k). split; [lia|]. rewrite Hm in Hsize.
      destruct (Hin t (list_elem_of_here _ _)) as [[] Ht].
      rewrite <- (insert_delete_id _ _ _ Ht), map_size_insert_None by apply lookup_delete_eq. lia.
    + intros t' Ht'. rewrite Hm, lookup_delete_ne; [apply Hin; by right|]. intros [= ->]. done.
  - rewrite (bind_Ok_run _ _ _ _ _ (attempt_Err_run _ _ _ _ Hsi)) in Hrun.
    unfold mret, M_ret in Hrun. injection Hrun as <- <-. split; [done|]. exists 0%nat. rewrite Hm. lia.
Qed.

(** C7: reconciliation never overshoots: the size of the group after it lies between the size
    before and the desired count, which was first forced into the bounds of the group; it
    never panics; and a group below its desired count reaches it exactly unless a failure
    was recorded. *)
Theorem reconcile_no_overshoot ctx g ids w r w' :
  inst_keyed w → 0 ≤ sg_MinInstances g ≤ sg_MaxInstances g → sg_MaxInstances g < 2 ^ 63 →
  sg_FailureCount g = 0 → Z.of_nat (length ids) < 2 ^ 63 →
  NoDup ids → Z.of_nat (length ids) = group_size (sg_ID g) w →
  (∀ i, i ∈ ids → is_Some (members_of (sg_ID g) w !! (sg_ID g, i))) →
  reconcileInstances ctx g ids w = (r, w') →
  ∃ g', r = Ok g' ∧ sg_DesiredCount g' = clamp g ∧
    Z.min (group_size (sg_ID g) w) (clamp g) ≤ group_size (sg_ID g) w'
      ≤ Z.max (group_size (sg_ID g) w) (clamp g) ∧
    (group_size (sg_ID g) w ≤ clamp g → sg_FailureCount g' = 0 → group_size (sg_ID g) w' = clamp g).
Proof.
  intros Hkey Hmm Hmax Hfc Hlen63 Hnd Hlen Hin Hrun. unfold reconcileInstances in Hrun.
  apply total_bind_inv in Hrun as (g1 & w1 & Hfb & Hrun); [|apply _].
  apply (frame_run t_group_instances) in Hfb as Hg1; [|apply _].
  apply (frame_run t_instances) in Hfb as Hi1; [|apply _].
  apply force_bounds_struct in Hfb as Hs; [|lia].
  pose proof (but_version_proj sg_ID _ _ ltac:(done) Hs) as Hid.
  pose proof (but_version_proj sg_DesiredCount _ _ ltac:(done) Hs) as Hdes.
  pose proof (but_version_proj sg_FailureCount _ _ ltac:(done) Hs) as Hfc1. cbn in Hid, Hdes, Hfc1.
  assert (0 ≤ clamp g < 2 ^ 63) as Hc by (unfold clamp; lia).
  pose proof (members_of_same (sg_ID g) _ _ Hg1) as Hm1.
  destruct (Z.ltb_spec (Z.of_nat (length ids)) (sg_DesiredCount g1)) as [Hlt|Hge].
  - apply total_bind_inv in Hrun as (skip & w2 & Hskip & Hrun); [|apply _].
    assert (skip = false) as ->.
    { unfold shouldSkipDueToFailures in Hskip. rewrite Hfc1, Hfc in Hskip. cbn in Hskip.
      unfold mret, M_ret in Hskip. by injection Hskip as <- _. }
    apply (frame_run t_group_instances) in Hskip as Hg2; [|apply _].
    apply (frame_run t_instances) in Hskip as Hi2; [|apply _].
    apply scale_out_loop_members in Hrun as (g' & k & -> & Hk & Hsize & Hdes' & Hall); [|by rewrite Hi2, Hi1].
    rewrite Hid, (members_of_same _ w1 w2 Hg2), Hm1 in Hsize.
    rewrite int_sub_exact in Hk, Hall by (unfold int64_range; lia).
    exists g'. unfold group_size in *. split_and!; [done|congruence|lia|lia|].
    intros _ Hf. rewrite Hall in Hsize by congruence. lia.
  - destruct (Z.ltb_spec (sg_DesiredCount g1) (Z.of_nat (length ids))) as [Hgt|Heq].
    + destruct (scale_in_loop ctx g1 (reverse ids)
        (Z.to_nat (int_sub (Z.of_nat (length ids)) (sg_DesiredCount g1))) w1) as [r2 w2] eqn:Hloop.
      rewrite int_sub_exact in Hloop by (unfold int64_range; lia).
      pose proof Hloop as Hl2.
      apply scale_in_loop_members in Hl2 as (-> & k & Hk & Hsize).
      * rewrite int_sub_exact in Hrun by (unfold int64_range; lia).
        rewrite (bind_Ok_run _ _ _ _ _ Hloop) in Hrun. unfold mret, M_ret in Hrun.
        injection Hrun as <- <-. rewrite Hid, Hm1 in Hsize. exists g1. unfold group_size in *.
        split_and!; [done|done|lia|lia|lia].
      * by rewrite Hi1.
      * rewrite length_reverse. lia.
      * by rewrite reverse_Permutation.
      * intros t Ht. rewrite (reverse_Permutation ids) in Ht. rewrite Hid, Hm1. by apply Hin.
    + unfold mret, M_ret in Hrun. injection Hrun as <- <-. exists g1. unfold group_size in *.
      rewrite Hm1. split_and!; [done|done|lia|lia|lia].
Qed.

End reconcile.
