(* ===== verification/ScalingProofs.v ===== *)
(** * What [services/autoscaling.go] and the policies of the worker guarantee *)
From S2P Require Import Prelude GoStd Net Errors Domain DomainData World Logic Sql InstanceRepo NetworkRepo.
From S2P Require Import InstanceService InstanceProofs AutoScalingRepo LBRepo LBService Ports.
From S2P Require Import AutoScalingService AutoScalingWorker AutoScalingProofs.

Section groups.
Context `{Env}.

(** ** The repository *)

Lemma asg_CreateGroup_outcome g w r w' :
  asg_CreateGroup g w = (r, w') →
  (r = Ok tt ∧ t_groups w !! sg_ID g = None ∧ group_insert_ok g w = true ∧
   w' = w <| w_tick ::= S |> <| t_groups ::= <[sg_ID g := group_default_failures g]> |>) ∨
  (∃ e, r = Err e ∧ w' = w <| w_tick ::= S |>).
Proof.
  intros Hrun. apply db_exec_outcome in Hrun as [([] & -> & Hst)|(e & -> & ->)]; [|eauto].
  unfold sql_insert in Hst. cbn in Hst. destruct (t_groups w !! sg_ID g) eqn:Hl; [done|].
  destruct (group_insert_ok _ _) eqn:Hok; [|done]. injection Hst as <-. by left.
Qed.

Lemma asg_UpdateGroup_outcome g w r w' :
  asg_UpdateGroup g w = (r, w') →
  (∃ row row', r = Ok (g <| sg_Version ::= (λ v, int_add v 1) |>) ∧
     t_groups w !! sg_ID g = Some row ∧ sg_Version row = sg_Version g ∧ sg_UserID row = sg_UserID g ∧
     group_update_row g (w <| w_tick ::= S |>) row = Some row' ∧
     w' = w <| w_tick ::= S |> <| t_groups ::= <[sg_ID g := row']> |>) ∨
  (∃ e, r = Err e ∧ w' = w <| w_tick ::= S |>).
Proof.
  unfold asg_UpdateGroup. intros Hrun. run_step Hrun n w1;
    apply db_exec_outcome in Hrun0 as [(k & Hr & Hst)|(e' & Hr & Hw)]; try done; [|right; eauto].
  unfold sql_update in Hst. cbn in Hst. injection Hr as <-.
  destruct (t_groups w !! sg_ID g) as [row|] eqn:Hl.
  2:{ injection Hst as <- <-. cbn in Hrun. unfold fail, mbind, M_bind in Hrun. injection Hrun as <- <-. eauto. }
  destruct (_ && _) eqn:Hok.
  2:{ injection Hst as <- <-. cbn in Hrun. unfold fail, mbind, M_bind in Hrun. injection Hrun as <- <-. eauto. }
  apply andb_true_iff in Hok as [Hv Hu]. unfold of_user in Hu. apply bool_decide_eq_true in Hv, Hu.
  apply bind_Some in Hst as (row' & Hrow & Hw). injection Hw as <- <-. cbn in Hrun.
  unfold mbind, M_bind, mret, M_ret in Hrun. injection Hrun as <- <-. left. by exists row, row'.
Qed.

Lemma group_update_row_fields g w row row' :
  group_update_row g w row = Some row' →
  sg_ID row' = sg_ID row ∧ sg_UserID row' = sg_UserID row ∧ sg_Status row' = sg_Status g ∧
  sg_DesiredCount row' = sg_DesiredCount g ∧ sg_MinInstances row' = sg_MinInstances g ∧
  sg_MaxInstances row' = sg_MaxInstances g ∧
  sg_Version row' = sg_Version row + 1 ∧ sg_FailureCount row' = sg_FailureCount row ∧
  sg_LastFailureAt row' = sg_LastFailureAt row ∧ sg_CurrentCount row' = sg_CurrentCount row ∧
  group_checks row' = true.
Proof.
  unfold group_update_row. destruct (_ && no_row _ _) eqn:Hok; [|done]. intros [= <-].
  apply andb_true_iff in Hok as [[Hc _]%andb_true_iff _]. by split_and!.
Qed.

Lemma asg_GetGroupByID_row `{!OrderLaws} ctx id w g w' :
  asg_GetGroupByID ctx id w = (Ok g, w') →
  w' = w <| w_tick ::= S |> ∧ ∃ row, t_groups w !! id = Some row ∧ g = group_scan row ∧
    sg_UserID row = UserIDFromContext ctx.
Proof.
  unfold asg_GetGroupByID. intros Hrun. ok_step Hrun row w1.
  unfold mret, M_ret in Hrun. injection Hrun as <- <-.
  apply wrap_err_Ok, (db_query_row_pk_Ok t_groups) in Hrun0 as (-> & Hl & Hu).
  unfold of_user in Hu. apply bool_decide_eq_true in Hu. eauto.
Qed.

(** ** Creation *)

(** The number of groups a user has in a VPC. *)
Definition groups_in_vpc (u vpc : uuid) (w : World) : Z :=
  Z.of_nat (length (select (λ r, bool_decide (sg_VpcID r = vpc) && of_user sg_UserID u r) (t_groups w))).

Lemma validate_group_None ps :
  validate_group ps = None ↔
  0 ≤ gp_MinInstances ps ≤ gp_DesiredCount ps ∧ gp_DesiredCount ps ≤ gp_MaxInstances ps ≤ 20.
Proof.
  unfold validate_group, MaxInstancesHardLimit.
  destruct (Z.ltb_spec 20 (gp_MaxInstances ps)), (Z.ltb_spec (gp_MinInstances ps) 0),
    (Z.ltb_spec (gp_MaxInstances ps) (gp_MinInstances ps)),
    (Z.ltb_spec (gp_DesiredCount ps) (gp_MinInstances ps)),
    (Z.ltb_spec (gp_MaxInstances ps) (gp_DesiredCount ps)); cbn; split; intros; try done; lia.
Qed.

Lemma count_groups_Ok `{!OrderLaws} ctx vpc w n w' :
  asg_CountGroupsByVPC ctx vpc w = (Ok n, w') →
  w' = w <| w_tick ::= S |> ∧ n = groups_in_vpc (UserIDFromContext ctx) vpc w.
Proof.
  unfold asg_CountGroupsByVPC, db_query_row. intros Hrun. ok_step Hrun l w1.
  apply db_rows_Ok in Hrun0 as [-> ->]. rewrite env_order_singleton in Hrun.
  unfold mret, M_ret in Hrun. by injection Hrun as <- <-.
Qed.

(** What a group created from [ps] looks like and what its creation needed. *)
Definition created_group (ctx : Context) (ps : CreateScalingGroupParams) (w : World)
    (g : ScalingGroup) : Prop :=
  0 ≤ gp_MinInstances ps ≤ gp_DesiredCount ps ∧ gp_DesiredCount ps ≤ gp_MaxInstances ps ≤ 20 ∧
  sg_MinInstances g = gp_MinInstances ps ∧ sg_MaxInstances g = gp_MaxInstances ps ∧
  sg_DesiredCount g = gp_DesiredCount ps ∧ sg_UserID g = UserIDFromContext ctx ∧
  sg_VpcID g = gp_VpcID ps ∧ sg_Status g = ScalingGroupStatusActive ∧ sg_Version g = 1 ∧
  (∃ vpc, t_vpcs w !! gp_VpcID ps = Some vpc ∧ vpc_UserID vpc = UserIDFromContext ctx) ∧
  groups_in_vpc (UserIDFromContext ctx) (gp_VpcID ps) w < 5 ∧
  t_groups w !! sg_ID g = None.

Lemma vpc_GetByID_row `{!OrderLaws} ctx id w v w' :
  vpc_GetByID ctx id w = (Ok v, w') →
  w' = w <| w_tick ::= S |> ∧ t_vpcs w !! id = Some v ∧ vpc_UserID v = UserIDFromContext ctx.
Proof.
  intros Hrun. apply wrap_err_Ok, (db_query_row_pk_Ok t_vpcs) in Hrun as (-> & Hl & Hu).
  unfold of_user in Hu. apply bool_decide_eq_true in Hu. done.
Qed.

(** The part of [CreateGroup] after the idempotency check. *)
Lemma create_new_group `{!OrderLaws} ctx ps w r w' :
  (vpc_GetByID ctx (gp_VpcID ps) ;;
   count ← asg_CountGroupsByVPC ctx (gp_VpcID ps);
   guard_err (MaxScalingGroupsPerVPC <=? count)
     (New ResourceLimitExceeded ("VPC already has " +:+ itoa count +:+ " scaling groups (max: "
                                 +:+ itoa MaxScalingGroupsPerVPC +:+ ")")) ;;
   id ← uuid_New;
   created ← Now;
   updated ← Now;
   let group := new_group ctx ps id created updated in
   asg_CreateGroup group ;;
   ignore (Log (sg_UserID group) "asg.group_create" "scaling_group" (uuid_string (sg_ID group))
             (Some [("name", VString (sg_Name group))])) ;;
   mret group) w = (r, w') →
  validate_group ps = None →
  match r with
  | Ok g => created_group ctx ps w g ∧ t_groups w' = <[sg_ID g := g]> (t_groups w)
  | Err _ => t_groups w' = t_groups w
  | Panic _ => False
  end.
Proof.
  intros Hrun Hval. apply validate_group_None in Hval.
  run_step Hrun vpc w1; [|by apply (frame_run t_groups) in Hrun0; [|apply _]|
    by destruct (no_panic_run (vpc_GetByID ctx (gp_VpcID ps)) _ _ _ Hrun0)].
  apply vpc_GetByID_row in Hrun0 as (-> & Hvpc & Hvu).
  run_step Hrun n w2; [|by apply (frame_run t_groups) in Hrun0; [|apply _]|
    by destruct (no_panic_run (asg_CountGroupsByVPC ctx (gp_VpcID ps)) _ _ _ Hrun0)].
  apply count_groups_Ok in Hrun0 as (-> & ->).
  destruct (Z.leb_spec MaxScalingGroupsPerVPC (groups_in_vpc (UserIDFromContext ctx) (gp_VpcID ps)
    (w <| w_tick ::= S |>))) as [Hge|Hlt]; cbn [guard_err] in Hrun.
  { unfold mbind, M_bind, fail in Hrun. by injection Hrun as <- <-. }
  rewrite mret_bind in Hrun.
  apply total_bind_inv in Hrun as (id & w3 & Hid & Hrun); [|apply _].
  apply total_bind_inv in Hrun as (cr & w4 & Hcr & Hrun); [|apply _].
  apply total_bind_inv in Hrun as (up & w5 & Hup & Hrun); [|apply _].
  apply (frame_run t_groups) in Hid as Hf1, Hcr as Hf2, Hup as Hf3; try apply _.
  cbn in Hf1. cbn zeta in Hrun. set (g0 := new_group ctx ps id cr up) in *.
  run_step Hrun u w6; apply asg_CreateGroup_outcome in Hrun0
    as [(Hr & Hfresh & _ & Hw6)|(e' & Hr & Hw6)]; try done; [|rewrite Hw6; cbn; congruence].
  apply ignore_bind_inv in Hrun as (r1 & w7 & Hlog & Hrun); [|apply _].
  apply (frame_run t_groups) in Hlog as Hf4; [|apply _].
  unfold mret, M_ret in Hrun. injection Hrun as <- <-.
  assert (t_groups w5 = t_groups w) as Hf by congruence.
  split.
  - unfold created_group. split_and!; try done; [by apply Hval..|eauto|by rewrite <- Hf].
  - by rewrite Hf4, Hw6, <- Hf.
Qed.

(** The group of the caller that a known idempotency key names. *)
Definition known_group (ctx : Context) (ps : CreateScalingGroupParams) (w : World) (g : ScalingGroup) : Prop :=
  gp_IdempotencyKey ps ≠ "" ∧ ∃ k row, t_groups w !! k = Some row ∧ g = group_scan row ∧
    sg_IdempotencyKey row = gp_IdempotencyKey ps ∧ sg_UserID row = UserIDFromContext ctx.

Lemma GetGroupByIdempotencyKey_Ok `{!OrderLaws} ctx ps w g w' :
  gp_IdempotencyKey ps ≠ "" → asg_GetGroupByIdempotencyKey ctx (gp_IdempotencyKey ps) w = (Ok g, w') →
  known_group ctx ps w g.
Proof.
  intros Hkey Hget. unfold asg_GetGroupByIdempotencyKey in Hget. ok_step Hget row w3.
  unfold mret, M_ret in Hget. injection Hget as <- <-.
  apply wrap_err_Ok, (db_query_row_Ok t_groups) in Hrun as (_ & HP & k & Hk).
  unfold of_user in HP. apply andb_true_iff in HP as [[HP1 _]%andb_true_iff HP2].
  apply bool_decide_eq_true in HP1, HP2. split; [done|]. by exists k, row.
Qed.

(** Without failures the lookup finds the group if there is one. *)
Lemma GetGroupByIdempotencyKey_Err `{!OrderLaws, !NoFaults} ctx ps w e w' g :
  asg_GetGroupByIdempotencyKey ctx (gp_IdempotencyKey ps) w = (Err e, w') → ¬ known_group ctx ps w g.
Proof.
  intros Hget (Hkey & k & row & Hk & _ & Hik & Hu). unfold asg_GetGroupByIdempotencyKey in Hget.
  apply bind_inv in Hget as [(r & w1 & _ & Hm)|[(e' & Hget & _)|(p & _ & ?)]]; [by unfold mret, M_ret in Hm| |done].
  unfold wrap_err, db_query_row, mbind, M_bind in Hget. rewrite db_rows_run in Hget by apply no_faults.
  destruct (env_order _ _ _) as [|r l] eqn:Hl; [|by unfold mret, M_ret in Hget].
  assert (row ∈ ([] : list ScalingGroup)) as []%elem_of_nil. rewrite <- Hl.
  apply env_order_elem, elem_of_select. split; [|by exists k]. unfold of_user.
  cbn beta. by rewrite (bool_decide_true (sg_IdempotencyKey row = _)), bool_decide_false, bool_decide_true.
Qed.

(** C35: A group is created only within its bounds (0 <= min <= desired <= max <= 20), in a VPC of
    the caller that has fewer than five of his groups, under a fresh identifier.  A known
    idempotency key gives the group of the caller that has it and changes nothing: no second
    one is created, unless the lookup of the key fails.  A failure changes no group, and there
    is no panic. *)
Theorem CreateGroup_effect `{!OrderLaws} ctx ps w r w' :
  CreateGroup ctx ps w = (r, w') →
  match r with
  | Ok g =>
      (created_group ctx ps w g ∧ t_groups w' = <[sg_ID g := g]> (t_groups w) ∧
       (NoFaults → ∀ g0, ¬ known_group ctx ps w g0)) ∨
      (known_group ctx ps w g ∧ t_groups w' = t_groups w)
  | Err _ => t_groups w' = t_groups w ∧ (NoFaults → ∀ g0, ¬ known_group ctx ps w g0)
  | Panic _ => False
  end.
Proof.
  intros Hrun. unfold CreateGroup in Hrun.
  case_bool_decide as Hkey; [rewrite mret_bind in Hrun|].
  { assert (∀ g0, ¬ known_group ctx ps w g0) as Hno by (by intros g0 [? _]).
    destruct (validate_group ps) eqn:Hval.
    - unfold fail in Hrun. by injection Hrun as <- <-.
    - apply create_new_group in Hrun; [|done]. destruct r; naive_solver. }
  apply total_bind_inv in Hrun as (eo & w1 & Hex & Hrun); [|apply _].
  ok_step Hex a w2. unfold mret at 1, M_ret at 1 in Hex. injection Hex as <- <-.
  apply attempt_inv in Hrun0 as [(g & Hget & Ha)|[(e & Hget & Ha)|(? & _ & ?)]]; [..|done];
    injection Ha as ->; apply (frame_run t_groups) in Hget as Hf; try apply _;
    apply (frame_run t_vpcs) in Hget as Hfv; try apply _.
  - unfold mret, M_ret in Hrun. injection Hrun as <- <-. right. split; [|done].
    by eapply GetGroupByIdempotencyKey_Ok.
  - assert (NoFaults → ∀ g0, ¬ known_group ctx ps w g0) as Hno
      by (intros ? g0; by eapply GetGroupByIdempotencyKey_Err).
    destruct (validate_group ps) eqn:Hval.
    { unfold fail in Hrun. by injection Hrun as <- <-. }
    apply create_new_group in Hrun; [|done]. unfold created_group, groups_in_vpc in *.
    rewrite Hf, Hfv in Hrun. destruct r; naive_solver.
Qed.

(** ** Deletion and the worker *)

(** Deleting a group wins over a turn of the worker that read the group before: the row goes
    to DELETING with no instances desired, and every update made from the version the worker
    holds is refused as a conflict and changes nothing. *)
Theorem DeleteGroup_wins `{!OrderLaws, !NoFaults} ctx id w w1 row g :
  t_groups w !! id = Some row → sg_Version row < 2 ^ 63 - 1 →
  sg_ID g = id → sg_Version g = sg_Version row →
  sg_ID row = id → DeleteGroup ctx id w = (Ok tt, w1) →
  (∃ row', t_groups w1 !! id = Some row' ∧ sg_Status row' = ScalingGroupStatusDeleting ∧
     sg_MinInstances row' = 0 ∧ sg_DesiredCount row' = 0) ∧
  asg_UpdateGroup g w1 =
    (Err (New Conflict "scaling group update conflict or not found"), w1 <| w_tick ::= S |>).
Proof.
  intros Hrow Hmax Hgid Hgv Hid Hrun. unfold DeleteGroup in Hrun. ok_step Hrun g0 w2.
  apply asg_GetGroupByID_row in Hrun0 as (-> & row0 & Hrow0 & -> & Hu). rewrite Hrow in Hrow0.
  injection Hrow0 as <-. ok_step Hrun g1 w3.
  apply asg_UpdateGroup_outcome in Hrun0 as [(r0 & row' & _ & Hr0 & _ & _ & Hupd & ->)|(? & ? & _)]; [|done].
  cbn in Hr0. rewrite Hid, Hrow in Hr0. injection Hr0 as <-.
  apply group_update_row_fields in Hupd as (_ & _ & Hst & Hde & Hmi & _ & Hv & _).
  apply (frame_run t_groups) in Hrun as Hf; [|apply _]. cbn in Hf, Hst, Hde, Hmi. rewrite Hid in Hf.
  assert (t_groups w1 !! id = Some row') as Hl by (rewrite Hf; apply lookup_insert_eq).
  split; [by exists row'|].
  unfold asg_UpdateGroup, mbind, M_bind, db_exec. rewrite no_faults. unfold sql_update. cbn.
  rewrite Hgid, Hl, bool_decide_false by lia. done.
Qed.

(** Any caller, and not only the owner of the group, deletes a policy whose identifier he
    knows. *)
Theorem DeletePolicy_not_scoped `{!NoFaults} ctx id w :
  DeletePolicy ctx id w = (Ok tt, w <| w_tick ::= S |> <| t_policies ::= delete id |>).
Proof.
  unfold DeletePolicy, asg_DeletePolicy, mbind, M_bind, db_exec. rewrite no_faults.
  unfold sql_delete. cbn. destruct (t_policies w !! id) as [p|] eqn:Hp; [done|].
  unfold mret, M_ret. f_equal. destruct w as []. unfold modify. cbn in *. by rewrite delete_id.
Qed.

(** ** Backoff *)

Lemma sync_count_struct g ids w g' w' :
  sync_count g ids w = (Ok g', w') → sg_FailureCount g' = sg_FailureCount g.
Proof.
  unfold sync_count. intros Hrun. case_bool_decide; [by unfold mret, M_ret in Hrun; injection Hrun as <- _|].
  apply update_group_struct in Hrun. by apply (but_version_proj sg_FailureCount) in Hrun.
Qed.

Lemma set_desired_failures (b : bool) g d w g' w' :
  (if b then update_group (g <| sg_DesiredCount := d |>) else mret g) w = (Ok g', w') →
  sg_FailureCount g' = sg_FailureCount g.
Proof.
  destruct b; [|by unfold mret, M_ret; intros [= <- _]].
  intros Hrun%update_group_struct. by apply (but_version_proj sg_FailureCount) in Hrun.
Qed.

Lemma force_bounds_failures g w g' w' :
  force_bounds g w = (Ok g', w') → sg_FailureCount g' = sg_FailureCount g.
Proof.
  unfold force_bounds. intros Hrun. ok_step Hrun g1 w1.
  apply set_desired_failures in Hrun0. apply set_desired_failures in Hrun. congruence.
Qed.

Lemma asg_ListAllGroups_Ok `{!OrderLaws} w l w' g :
  asg_ListAllGroups w = (Ok l, w') → g ∈ l →
  ∃ k row, t_groups w !! k = Some row ∧ g = group_scan row.
Proof.
  unfold asg_ListAllGroups. intros Hrun. ok_step Hrun rows w1. unfold mret, M_ret in Hrun.
  injection Hrun as <- <-. intros (row & -> & Hin)%list_elem_of_fmap.
  apply db_query_Ok in Hrun0 as [-> ->]. apply elem_of_cut in Hin. rewrite env_order_elem, elem_of_select in Hin.
  destruct Hin as [_ [k Hk]]. by exists k, row.
Qed.

(** The backoff after five failures never takes effect: whatever failures were recorded
    before, a group that a turn of the worker reads is not skipped when the turn
    gets to its reconciliation; and a recorded failure leaves the failure columns of the
    rows as they were. *)
Theorem backoff_never_applies `{!OrderLaws} w l w1 g ids w2 g1 w3 g2 w4 :
  asg_ListAllGroups w = (Ok l, w1) → g ∈ l →
  sync_count g ids w2 = (Ok g1, w3) → force_bounds g1 w3 = (Ok g2, w4) →
  shouldSkipDueToFailures g2 w4 = (Ok false, w4) ∧
  ∀ g3 w5 k row, recordFailure g2 w4 = (Ok g3, w5) → t_groups w5 !! k = Some row →
    ∃ row0, t_groups w4 !! k = Some row0 ∧ sg_FailureCount row = sg_FailureCount row0 ∧
      sg_LastFailureAt row = sg_LastFailureAt row0.
Proof.
  intros Hlist Hin Hsync Hfb. split.
  - apply (asg_ListAllGroups_Ok _ _ _ _ Hlist) in Hin as (k & row & _ & ->).
    apply sync_count_struct in Hsync. apply force_bounds_failures in Hfb.
    unfold shouldSkipDueToFailures. by rewrite Hfb, Hsync.
  - intros g3 w5 k row Hrec Hk. unfold recordFailure in Hrec. ok_step Hrec now w6.
    apply (frame_run t_groups) in Hrun as Hf; [|apply _]. rewrite <- Hf.
    unfold update_group in Hrec. ok_step Hrec a w7. unfold mret, M_ret in Hrec.
    injection Hrec as _ <-. apply attempt_inv in Hrun0 as [(g4 & Hup & _)|[(e & Hup & _)|(? & _ & ?)]]; [..|done];
      apply asg_UpdateGroup_outcome in Hup as [(r0 & row' & _ & Hr0 & _ & _ & Hupd & ->)|(? & _ & ->)];
      try (by exists row).
    all: apply group_update_row_fields in Hupd as (_ & _ & _ & _ & _ & _ & _ & Hfc & Hlf & _);
      cbn in Hk; apply lookup_insert_Some in Hk as [[<- <-]|[_ Hk]]; [exists r0|exists row]; done.
Qed.

(** ** Policies *)

(** The sizes a group and its policies may have without overflow. *)
Definition group_in_range (g : ScalingGroup) : Prop :=
  0 ≤ sg_MinInstances g < 2 ^ 31 ∧ sg_MaxInstances g < 2 ^ 31 ∧ 0 ≤ sg_CurrentCount g < 2 ^ 31.

Definition policy_in_range (p : ScalingPolicy) : Prop :=
  0 < pol_ScaleOutStep p < 2 ^ 31 ∧ 0 < pol_ScaleInStep p < 2 ^ 31.

(** What a policy that triggers asks for. *)
Definition sound_decision (g : ScalingGroup) (avgCPU : float64) (p : ScalingPolicy) (d : Z) : Prop :=
  pol_MetricType p = "cpu" ∧
  ((float_gt avgCPU (pol_TargetValue p) = true ∧ sg_CurrentCount g < d ≤ sg_MaxInstances g) ∨
   (float_lt avgCPU (float_sub (pol_TargetValue p) (float_of_int 10)) = true ∧
    sg_MinInstances g ≤ d < sg_CurrentCount g)).

Lemma scaling_decision_sound g avgCPU p d :
  group_in_range g → policy_in_range p → scaling_decision g avgCPU p = Some d →
  sound_decision g avgCPU p d.
Proof.
  intros (Hmin & Hmax & Hcur) (Hout & Hin). unfold scaling_decision, sound_decision.
  case_bool_decide; [cbn [negb]|done]. rewrite int_add_exact, int_sub_exact by (unfold int64_range; lia).
  destruct (float_gt _ _).
  - destruct (Z.ltb_spec (sg_CurrentCount g) (sg_MaxInstances g)); [|done]. intros [= <-].
    split; [done|]. left. split; [done|].
    destruct (Z.ltb_spec (sg_MaxInstances g) (sg_CurrentCount g + pol_ScaleOutStep p)); lia.
  - destruct (float_lt _ _); [|done].
    destruct (Z.ltb_spec (sg_MinInstances g) (sg_CurrentCount g)); [|done]. intros [= <-].
    split; [done|]. right. split; [done|].
    destruct (Z.ltb_spec (sg_CurrentCount g - pol_ScaleInStep p) (sg_MinInstances g)); lia.
Qed.

(** The cooldown of a policy has passed by one of the readings of the clock of the run. *)
Definition cooled_down (w w' : World) (p : ScalingPolicy) : Prop :=
  ∀ t, pol_LastScaledAt p = Some t →
  ∃ n, (w_tick w ≤ n < w_tick w')%nat ∧
    wrap64 (pol_CooldownSec p * nanos_per_second) ≤ time_sub (env_now n) t.

Lemma in_cooldown_false p w w' : in_cooldown p w = (Ok false, w') → cooled_down w w' p.
Proof.
  unfold in_cooldown, cooled_down. destruct (pol_LastScaledAt p) as [t|]; [|done].
  intros Hrun. ok_step Hrun now w1. unfold mret, M_ret in Hrun. injection Hrun as Hlt <-.
  apply Z.ltb_ge in Hlt. rewrite Now_run in Hrun0. injection Hrun0 as <- <-. intros t' [= <-].
  exists (w_tick w). cbn. split; [lia|done].
Qed.

Lemma cooled_down_mono w w1 w2 w' p :
  later w w1 → later w2 w' → cooled_down w1 w2 p → cooled_down w w' p.
Proof. unfold later. intros H1 H2 Hc t Ht. destruct (Hc t Ht) as (n & Hn & Hle). exists n. split; [lia|done]. Qed.

(** Only the desired count of the group [g] goes to [d]. *)
Definition desired_updated (g : ScalingGroup) (d : Z) (t t' : gmap uuid ScalingGroup) : Prop :=
  t' = t ∨
  ∃ row row', t !! sg_ID g = Some row ∧ sg_Version row = sg_Version g ∧
    sg_DesiredCount row' = d ∧ group_checks row' = true ∧ t' = <[sg_ID g := row']> t.

Lemma update_desired_effect g d w g' w' :
  update_group (g <| sg_DesiredCount := d |>) w = (Ok g', w') →
  desired_updated g d (t_groups w) (t_groups w').
Proof.
  unfold update_group. intros Hrun. ok_step Hrun a w1. unfold mret, M_ret in Hrun. injection Hrun as _ <-.
  apply attempt_inv in Hrun0 as [(g4 & Hup & _)|[(e & Hup & _)|(? & _ & ?)]]; [..|done];
    apply asg_UpdateGroup_outcome in Hup as [(row & row' & _ & Hr & Hv & _ & Hupd & ->)|(? & _ & ->)];
    try by left.
  all: apply group_update_row_fields in Hupd as (_ & _ & _ & Hd & _ & _ & _ & _ & _ & _ & Hc);
    right; by exists row, row'.
Qed.

Lemma UpdatePolicyLastScaled_others id t w r w' k :
  asg_UpdatePolicyLastScaled id t w = (r, w') → k ≠ id → t_policies w' !! k = t_policies w !! k.
Proof.
  unfold asg_UpdatePolicyLastScaled. intros Hrun Hk.
  apply bind_inv in Hrun as [(n & w1 & Hrun0 & Hrun)|[(e & Hrun0 & _)|(? & Hrun0 & _)]];
    apply db_exec_outcome in Hrun0 as [(m & _ & Hst)|(e' & _ & ->)]; try done.
  all: try (unfold mret, M_ret in Hrun; injection Hrun as _ <-); try done.
  all: unfold sql_update in Hst; cbn in Hst; destruct (t_policies w !! id); injection Hst as _ <-;
    cbn; by rewrite ?lookup_insert_ne.
Qed.

#[local] Instance in_cooldown_later p : Steps later (in_cooldown p).
Proof. unfold in_cooldown. apply _. Qed.
#[local] Instance update_group_later g : Steps later (update_group g).
Proof. unfold update_group, asg_UpdateGroup. apply _. Qed.
#[local] Instance UpdatePolicyLastScaled_later id t : Steps later (asg_UpdatePolicyLastScaled id t).
Proof. unfold asg_UpdatePolicyLastScaled. apply _. Qed.
#[local] Instance GetAverageCPU_later ids t : Steps later (asg_GetAverageCPU ids t).
Proof. unfold asg_GetAverageCPU. apply _. Qed.

(** What one evaluation of the policies does. *)
Definition policies_effect (g : ScalingGroup) (avgCPU : float64) (policies : list ScalingPolicy)
    (w w' : World) : Prop :=
  (t_groups w' = t_groups w ∧ t_policies w' = t_policies w) ∨
  ∃ p d, p ∈ policies ∧ cooled_down w w' p ∧ scaling_decision g avgCPU p = Some d ∧
    desired_updated g d (t_groups w) (t_groups w') ∧
    ∀ k, k ≠ pol_ID p → t_policies w' !! k = t_policies w !! k.

Lemma evaluate_policies_loop_effect g avgCPU policies : ∀ w r w',
  evaluate_policies_loop g avgCPU policies w = (r, w') →
  r = Ok tt ∧ policies_effect g avgCPU policies w w'.
Proof.
  induction policies as [|p ps IH]; intros w r w' Hrun; cbn in Hrun.
  { unfold mret, M_ret in Hrun. injection Hrun as <- <-. split; [done|by left]. }
  apply total_bind_inv in Hrun as (skip & w1 & Hskip & Hrun); [|apply _].
  apply (frame_run t_groups) in Hskip as Hg1; [|apply _].
  apply (frame_run t_policies) in Hskip as Hp1; [|apply _].
  assert (evaluate_policies_loop g avgCPU ps w1 = (r, w') →
    r = Ok tt ∧ policies_effect g avgCPU (p :: ps) w w') as Hrest.
  { intros [-> [[Hg Hp]|(p' & d & Hin & Hc & Hd & Hu & Ho)]]%IH; (split; [done|]).
    - left. split; congruence.
    - right. exists p', d. rewrite Hg1 in Hu. setoid_rewrite Hp1 in Ho.
      split_and!; try done; [by right|]. apply later_run in Hskip; [|apply _].
      eapply (cooled_down_mono w w1 w' w'); [exact Hskip|by unfold later|done]. }
  destruct skip; [by apply Hrest|]. destruct (scaling_decision g avgCPU p) as [d|] eqn:Hd; [|by apply Hrest].
  apply total_bind_inv in Hrun as (g' & w2 & Hup & Hrun); [|apply _].
  apply total_bind_inv in Hrun as (now & w3 & Hnow & Hrun); [|apply _].
  apply (frame_run t_policies) in Hup as Hp2, Hnow as Hp3; try apply _.
  apply (frame_run t_groups) in Hnow as Hg3, Hrun as Hg4; try apply _.
  apply later_run in Hup as Hl2, Hnow as Hl3, Hrun as Hl4; try apply _.
  apply update_desired_effect in Hup. rewrite Hg1 in Hup.
  apply ignore_inv in Hrun as [(-> & r0 & Hrun)|(? & Hrun & _)]; [|by destruct (no_panic_run _ _ _ _ Hrun)].
  split; [done|]. right. exists p, d. rewrite Hg4, Hg3. split_and!; try done; [by left| |].
  { apply in_cooldown_false in Hskip. eapply (cooled_down_mono _ w w1); [by unfold later| |done].
    unfold later. lia. }
  intros k Hk. rewrite (UpdatePolicyLastScaled_others _ _ _ _ _ _ Hrun Hk). congruence.
Qed.

Lemma evaluate_policies_loop_calls g avgCPU l : Frame w_calls (evaluate_policies_loop g avgCPU l).
Proof. induction l as [|p l IH]; cbn [evaluate_policies_loop]; apply _. Qed.

(** The average load of the instances over the last minute, as it was measured in this run. *)
Definition measured_load (ids : list uuid) (w w' : World) (avgCPU : float64) : Prop :=
  if bool_decide (ids = []) then avgCPU = float_of_int 0
  else answered (w_calls w) (w_calls w') (AverageCPU ids (env_now (w_tick w) - 60 * nanos_per_second)) (inr avgCPU).

(** C39: In one turn at most one policy of a group acts, one whose cooldown has passed: it scales
    out only when the load measured over the last minute is above its target, to more than the
    current count and at most the maximum, and in only when the load is more than ten below it,
    to less than the current count and at least the minimum; other groups and policies are
    untouched and an update that was made from a stale version or breaks the bounds is refused. *)
Theorem evaluatePolicies_effect g ids policies w r w' :
  group_in_range g → (∀ p, p ∈ policies → policy_in_range p) →
  evaluatePolicies g ids policies w = (r, w') →
  r = Ok tt ∧
  ((t_groups w' = t_groups w ∧ t_policies w' = t_policies w) ∨
   ∃ avgCPU p d, measured_load ids w w' avgCPU ∧ p ∈ policies ∧ cooled_down w w' p ∧
     sound_decision g avgCPU p d ∧ desired_updated g d (t_groups w) (t_groups w') ∧
     ∀ k, k ≠ pol_ID p → t_policies w' !! k = t_policies w !! k).
Proof.
  intros Hg Hps Hrun. unfold evaluatePolicies in Hrun. case_bool_decide as Hnil.
  { unfold mret, M_ret in Hrun. injection Hrun as <- <-. split; [done|by left]. }
  apply total_bind_inv in Hrun as (now & w1 & Hnow & Hrun); [|apply _].
  apply total_bind_inv in Hrun as (a & w2 & Havg & Hrun); [|apply _].
  rewrite Now_run in Hnow. injection Hnow as <- <-.
  apply (frame_run t_groups) in Havg as Hg2; try apply _.
  apply (frame_run t_policies) in Havg as Hp2; try apply _.
  destruct a as [e|avgCPU].
  { unfold mret, M_ret in Hrun. injection Hrun as <- <-. split; [done|]. by left. }
  assert (w_calls w' = w_calls w2) as Hcalls by (revert Hrun; apply frame_run, evaluate_policies_loop_calls).
  assert (measured_load ids w w' avgCPU) as Hload.
  { apply attempt_inv in Havg as [(v & Havg & [= <-])|[(? & _ & ?)|(? & _ & ?)]]; [|done..].
    unfold measured_load, asg_GetAverageCPU in *. case_bool_decide; [by unfold mret, M_ret in Havg; simplify_eq|].
    rewrite Hcalls. exact (perform_Ok_answered (AverageCPU ids _) _ _ _ Havg). }
  apply later_run in Havg as Hlater; [|apply _]. cbn in Hg2, Hp2.
  apply evaluate_policies_loop_effect in Hrun as [-> [[? ?]|(p & d & Hin & Hc & Hd & Hu & Ho)]];
    (split; [done|]); [left; split; congruence|].
  right. exists avgCPU, p, d. rewrite <- Hp2, <- Hg2.
  split_and!; auto using scaling_decision_sound.
  eapply (cooled_down_mono _ w2 w'); [|by unfold later|done]. unfold later. cbn in Hlater. lia.
Qed.

End groups.

(** ** Ports of the launched instances *)

(** A mapping on an ephemeral host port, to the container port of [p]. *)
Definition dynamic_of (p q : string) : Prop :=
  ∃ h c, split_on ":"%char p = [h; c] ∧ split_on ":"%char q = ["0"; c].

Lemma dynamic_port_spec p :
  valid_mapping p → valid_mapping (dynamic_port p) ∧ dynamic_of p (dynamic_port p).
Proof.
  intros (h & c & a & b & Hs & Ha & Hb & Har & Hbr). unfold dynamic_port. rewrite Hs.
  pose proof (split_on_pieces_free ":"%char p) as Hf. rewrite Hs in Hf.
  apply Forall_cons in Hf as [_ [Hc _]%Forall_cons].
  assert (split_on ":"%char ("0:" +:+ c) = ["0"; c]) as Hq.
  { change ("0:" +:+ c) with ("0" +:+ String ":" c). by rewrite split_on_app_sep, (split_on_free _ c). }
  split; [exists "0", c, 0, b|exists h, c]; split_and!; try done; [|lia..]. by apply parsePort_spec.
Qed.

Lemma dynamic_port_no_comma p :
  str_free ","%char p = true → str_free ","%char (dynamic_port p) = true.
Proof.
  intros Hp. unfold dynamic_port. pose proof (split_on_free_other ":"%char _ _ Hp) as Hf.
  destruct (split_on ":"%char p) as [|h [|c []]]; try done.
  apply Forall_cons in Hf as [_ [Hc _]%Forall_cons]. exact Hc.
Qed.

(** C40: the ports an instance of a group is launched with are valid whenever those of the group
    are: mapping by mapping the host port becomes 0, so that no two instances of a host
    compete for it, and the container port stays. *)
Theorem toDynamicPorts_valid ports l :
  parseAndValidatePorts ports = inr l →
  parseAndValidatePorts (toDynamicPorts ports) = inr (dynamic_port <$> l) ∧
  Forall2 dynamic_of l (dynamic_port <$> l).
Proof.
  unfold parseAndValidatePorts, toDynamicPorts. case_bool_decide as Hp; [by intros [= <-]|].
  destruct (Z.ltb_spec MaxPortsPerInstance (Z.of_nat (length (split_on "," ports)))) as [|Hm]; [done|].
  destruct (check_mappings _) eqn:Hc; [done|]. intros [= <-]. apply check_mappings_None in Hc.
  pose proof (split_on_nonempty ","%char ports) as Hne.
  assert (split_on ","%char (join "," (dynamic_port <$> split_on "," ports))
          = dynamic_port <$> split_on "," ports) as Hsplit.
  { apply split_on_join; [by destruct (split_on _ _)|]. apply Forall_map.
    eapply Forall_impl; [apply split_on_pieces_free|]. apply dynamic_port_no_comma. }
  assert (Forall valid_mapping (dynamic_port <$> split_on "," ports)) as Hv.
  { apply Forall_map. eapply Forall_impl; [exact Hc|]. intros p ?. by apply dynamic_port_spec. }
  split.
  - rewrite bool_decide_false.
    2:{ intros Hj. rewrite Hj in Hsplit. destruct (split_on "," ports) as [|p ps]; [done|].
      apply Forall_cons in Hv as [(h & c & _ & _ & Hs & _) _]. injection Hsplit as Hd _.
      by rewrite <- Hd in Hs. }
    rewrite Hsplit, length_fmap. destruct (Z.ltb_spec MaxPortsPerInstance (Z.of_nat (length (split_on "," ports)))); [lia|].
    apply check_mappings_None in Hv. by rewrite Hv.
  - apply Forall2_fmap_r, Forall_Forall2_diag. eapply Forall_impl; [exact Hc|].
    intros p ?. by apply dynamic_port_spec.
Qed.

(** ** Cleaning up *)

Section cleanup.
Context `{Env, !InstanceServicePort, !LBServicePort, !LawfulInstanceService, !LawfulLBService,
          !NoFaults}.

Lemma scaleIn_succeeds ctx g t w r w' : scaleIn ctx g t w = (r, w') → r = Ok tt ∧ t_groups w' = t_groups w.
Proof.
  intros Hrun. apply (frame_run t_groups) in Hrun as Hf; [|unfold scaleIn; apply _]. split; [|done].
  unfold scaleIn in Hrun.
  apply bind_inv in Hrun as [(v & w1 & Hlb & Hrun)|[(? & Hlb & _)|(? & Hlb & _)]];
    eapply (lb_step_same (sg_LoadBalancerID g) (λ lb, svc_RemoveTarget ctx lb t)) in Hlb as (? & _ & _);
    try apply _; try done.
  run_step Hrun u w2; unfold asg_RemoveInstanceFromGroup, mbind, M_bind, db_exec in Hrun0;
    rewrite no_faults in Hrun0; unfold sql_delete in Hrun0; cbn in Hrun0;
    try (by destruct (t_group_instances _ !! _)).
  apply ignore_bind_inv in Hrun as (? & ? & _ & Hrun); [|apply _].
  by apply total_run in Hrun as [[] ->]; [|apply _].
Qed.

Lemma cleanupGroup_run ctx g ids w r w' :
  keyed inst_ID (t_instances w) → cleanupGroup ctx g ids w = (r, w') →
  r = Ok tt ∧
  match ids with
  | [] => ∀ row, t_groups w !! sg_ID g = Some row → sg_UserID row = UserIDFromContext ctx →
            t_groups w' = delete (sg_ID g) (t_groups w) ∧ members_of (sg_ID g) w' = ∅
  | _ => t_groups w' = t_groups w ∧
         ∀ k, members_of (sg_ID g) w' !! k =
              if decide (k.2 ∈ ids) then None else members_of (sg_ID g) w !! k
  end.
Proof.
  intros Hkey Hrun. unfold cleanupGroup in Hrun.
  destruct ids as [|i0 ids0].
  { split; [by apply total_run in Hrun as [[] ->]; [|apply _]|]. intros row Hrow Hu.
    unfold ignore, attempt, asg_DeleteGroup, mbind, M_bind, db_exec in Hrun.
    rewrite no_faults in Hrun. unfold sql_delete in Hrun. cbn in Hrun. rewrite Hrow in Hrun.
    unfold of_user in Hrun. rewrite bool_decide_true in Hrun by done. injection Hrun as _ <-.
    split; [done|]. unfold members_of. cbn. apply map_empty. intros [g' i].
    rewrite map_lookup_filter_None. right. intros []. rewrite map_lookup_filter_Some. cbn. naive_solver. }
  set (ids := i0 :: ids0) in *. clearbody ids. clear i0 ids0.
  revert w r w' Hkey Hrun. induction ids as [|i ids IH]; intros w r w' Hkey Hrun; cbn in Hrun.
  { unfold mret, M_ret in Hrun. injection Hrun as <- <-. by split_and!. }
  apply ignore_bind_inv in Hrun as (r1 & w1 & Hsi & Hrun); [|unfold scaleIn; apply _].
  apply scaleIn_succeeds in Hsi as Hok. destruct Hok as [-> Hg1].
  apply scaleIn_members in Hsi as [Hk1 Hm1]; [|done]. cbn in Hm1.
  apply IH in Hrun as (-> & Hg & Hm); [|done]. split_and!; [done|congruence|].
  intros [g' k]. rewrite Hm, Hm1. cbn.
  destruct (decide (k ∈ ids)) as [Hk|Hk].
  { by rewrite decide_True by by right. }
  destruct (decide (k = i)) as [-> |Hki].
  - rewrite decide_True by left. apply lookup_delete_None.
    destruct (decide (g' = sg_ID g)) as [-> |]; [by left|right].
    unfold members_of. apply map_lookup_filter_None. right. intros []. naive_solver.
  - rewrite decide_False by (rewrite elem_of_cons; tauto). apply lookup_delete_ne. congruence.
Qed.

Lemma all_instances_read `{!OrderLaws} groups w instances w' g :
  asg_GetAllScalingGroupInstances (sg_ID <$> groups) w = (Ok instances, w') → g ∈ groups →
  ∀ i, i ∈ instances (sg_ID g) ↔ is_Some (members_of (sg_ID g) w !! (sg_ID g, i)).
Proof.
  unfold asg_GetAllScalingGroupInstances. intros Hrun Hg i.
  rewrite bool_decide_false in Hrun.
  2:{ intros Hnil%fmap_nil_inv. by rewrite Hnil in Hg; apply elem_of_nil in Hg. }
  erewrite bind_Ok_run in Hrun by apply db_query_run. unfold mret, M_ret in Hrun. injection Hrun as <- _.
  rewrite list_elem_of_fmap. setoid_rewrite list_elem_of_filter. setoid_rewrite env_order_elem.
  unfold members. setoid_rewrite list_elem_of_filter. setoid_rewrite list_elem_of_fmap.
  unfold members_of, is_Some. setoid_rewrite map_lookup_filter_Some. split.
  - intros ([g' i'] & -> & Hg' & _ & [[g2 i2] []] & Heq & Hin%elem_of_map_to_list). cbn in *.
    injection Heq as <- <-. subst. eauto.
  - intros [[] [Hi _]]. exists (sg_ID g, i). split_and!; [done|done| |].
    + cbn. unfold mem. apply bool_decide_eq_true. by apply list_elem_of_fmap_2.
    + exists (sg_ID g, i, tt). split; [done|]. by apply elem_of_map_to_list.
Qed.

(** C29: When no statement fails and no reading breaks off, the worker takes a group in DELETING
    apart in two turns, by what it read at the start of the turn: a turn that read members removes every one of them from
    the group and keeps all the rows of groups, and a turn that read none deletes the row of
    the group and no other. *)
Theorem deleting_group_turn `{!OrderLaws} ctx groups instances policies g w w1 w2 w3 r w' :
  asg_ListAllGroups w = (Ok groups, w1) →
  asg_GetAllScalingGroupInstances (sg_ID <$> groups) w1 = (Ok instances, w2) →
  g ∈ groups → sg_Status g = ScalingGroupStatusDeleting →
  keyed sg_ID (t_groups w) → keyed inst_ID (t_instances w3) →
  t_groups w3 !! sg_ID g = t_groups w !! sg_ID g → members_of (sg_ID g) w3 = members_of (sg_ID g) w →
  evaluate_group ctx instances policies g w3 = (r, w') →
  r = Ok tt ∧ members_of (sg_ID g) w' = ∅ ∧
  t_groups w' = if decide (members_of (sg_ID g) w = ∅) then delete (sg_ID g) (t_groups w3) else t_groups w3.
Proof.
  intros Hl Hi Hg Hst Hkg Hki Hrow Hmem Hrun. unfold evaluate_group in Hrun.
  rewrite bool_decide_true in Hrun by done.
  apply (frame_run t_group_instances) in Hl as Hf; [|apply _].
  apply (asg_ListAllGroups_Ok _ _ _ _ Hl) in Hg as Hrow0. destruct Hrow0 as (k & row & Hk & Hgr).
  assert (∀ i, i ∈ instances (sg_ID g) ↔ is_Some (members_of (sg_ID g) w !! (sg_ID g, i))) as Hin.
  { intros i. rewrite (all_instances_read _ _ _ _ _ Hi Hg). by rewrite (members_of_same _ w w1). }
  apply cleanupGroup_run in Hrun as [-> Hend]; [|done]. split; [done|].
  assert (sg_ID row = k) as Hrk by (by apply Hkg). assert (sg_ID g = k ∧ sg_UserID g = sg_UserID row) as [Hgk Hgu].
  { rewrite Hgr. unfold group_scan, group_default_failures. by case_match. }
  destruct (instances (sg_ID g)) as [|i0 ids] eqn:Hids.
  - destruct (Hend row) as [Hg' Hm']; [by rewrite Hrow, Hgk|by rewrite Hgu|]. rewrite decide_True; [done|]. clear Hg' Hm'.
    apply map_empty. intros [g' i]. destruct (decide (g' = sg_ID g)) as [->|Hne].
    + apply eq_None_not_Some. rewrite <- Hin. apply not_elem_of_nil.
    + apply map_lookup_filter_None. right. intros [] _. naive_solver.
  - destruct Hend as [Hg' Hm']. rewrite decide_False.
    2:{ intros He. destruct (Hin i0) as [[x Hx] _]; [by left|]. by rewrite He, lookup_empty in Hx. }
    split; [|done]. apply map_empty. intros [g' i]. rewrite Hm'. case_decide as Hd; [done|].
    rewrite Hmem. destruct (decide (g' = sg_ID g)) as [->|Hne].
    + apply eq_None_not_Some. by rewrite <- Hin.
    + apply map_lookup_filter_None. right. intros [] _. naive_solver.
Qed.

End cleanup.
