(* ===== verification/QueueProofs.v ===== *)
(** * What the message queues guarantee *)
From S2P Require Import Prelude GoStd Net Errors Domain DomainData World Logic Sql Queue.

Section queue_proofs.
Context `{Env}.

Notation msgs_keyed w := (keyed msg_ID (t_messages w)).

(** ** Receiving *)

(** [m] is the row [row] as a consumer receives it at [now], under the handle made from the
    identifier [u]. *)
Definition received (now timeout : Z) (u : uuid) (row m : Message) : Prop :=
  m = row <| msg_ReceiptHandle := uuid_string u |>
          <| msg_VisibleAt := now + wrap64 (timeout * 1000000000) |>
          <| msg_ReceivedCount ::= (λ n, int_add n 1) |>.

Lemma receive_loop now timeout rows : ∀ acc w r w',
  foldM (λ acc m, m' ← receive_one now timeout m; mret (acc ++ [m'])) acc rows w = (r, w') →
  ∃ ms, r = Ok (acc ++ ms) ∧ t_messages w' = t_messages w ∧
    w_tick w' = (w_tick w + length rows)%nat ∧ length ms = length rows ∧
    ∀ i row, rows !! i = Some row →
      ∃ m, ms !! i = Some m ∧ received now timeout (env_uuid (w_tick w + i)) row m.
Proof.
  induction rows as [|row rows IH]; intros acc w r w' Hrun; cbn in Hrun.
  { unfold mret, M_ret in Hrun. injection Hrun as <- <-. exists []. by rewrite app_nil_r, Nat.add_0_r. }
  unfold mbind at 1, M_bind at 1 in Hrun. unfold receive_one in Hrun. cbn in Hrun.
  apply IH in Hrun as (ms & -> & Ht & Htick & Hlen & Hms). cbn in Ht, Htick.
  eexists (_ :: ms). rewrite <- (assoc_L (++)). split_and!; [done|done|cbn; lia|cbn; lia|].
  intros [|i] row' Hi; cbn in Hi.
  - injection Hi as <-. eexists. split; [done|]. unfold received. by rewrite Nat.add_0_r.
  - destruct (Hms _ _ Hi) as (m & Hm & Hrec). exists m. split; [done|].
    by replace (w_tick w + S i)%nat with (S (w_tick w) + i)%nat by lia.
Qed.

(** The rows after marking: those of [ms] are replaced, all others stay. *)
Definition marked (ms : list Message) (t t' : gmap uuid Message) : Prop :=
  (∀ m, m ∈ ms → t' !! msg_ID m = Some m) ∧ (∀ k, k ∉ msg_ID <$> ms → t' !! k = t !! k).

Lemma mark_loop ms : ∀ w w',
  NoDup (msg_ID <$> ms) →
  (∀ m, m ∈ ms → ∃ row now timeout u, t_messages w !! msg_ID m = Some row ∧ received now timeout u row m) →
  foreach ms mark_received w = (Ok tt, w') →
  w_tick w' = (w_tick w + length ms)%nat ∧ marked ms (t_messages w) (t_messages w').
Proof.
  induction ms as [|m ms IH]; intros w w' Hnd Hrows Hrun; cbn in Hrun.
  { unfold mret, M_ret in Hrun. injection Hrun as <-. split; [cbn; lia|].
    split; [by intros m ?%elem_of_nil|done]. }
  apply NoDup_cons in Hnd as [Hnew Hnd]. ok_step Hrun u w1. unfold mark_received in Hrun0.
  ok_step Hrun0 n w2. unfold mret, M_ret in Hrun0. injection Hrun0 as _ ->.
  apply db_exec_Ok in Hrun1. unfold sql_update in Hrun1. cbn in Hrun1.
  destruct (Hrows m (list_elem_of_here _ _)) as (row & now & timeout & u' & Hrow & Hrec).
  rewrite Hrow in Hrun1. destruct (int4 (msg_ReceivedCount row + 1)) eqn:Hint; [|done].
  cbn in Hrun1. injection Hrun1 as _ <-.
  assert (row <| msg_ReceiptHandle := msg_ReceiptHandle m |> <| msg_VisibleAt := msg_VisibleAt m |>
              <| msg_ReceivedCount ::= (λ n, n + 1) |> = m) as Hm.
  { rewrite Hrec. unfold int4 in Hint. apply andb_true_iff in Hint as [?%Z.leb_le ?%Z.ltb_lt].
    destruct row. unfold modify. cbn in *. by rewrite int_add_exact by (unfold int64_range; lia). }
  rewrite Hm in Hrun. apply IH in Hrun as [Htick [Hin Hout]]; [|done|].
  - cbn in Htick, Hin, Hout. split; [cbn; lia|]. split.
    + intros m' [-> |Hm']%elem_of_cons; [|by apply Hin].
      rewrite Hout by done. apply lookup_insert_eq.
    + intros k Hk. apply not_elem_of_cons in Hk as [Hk1 Hk2]. rewrite Hout by done.
      by apply lookup_insert_ne.
  - intros m' Hm'. destruct (Hrows m' (list_elem_of_further _ _ _ Hm')) as (row' & Hr').
    exists row'. cbn. rewrite lookup_insert_ne; [done|]. intros Heq. apply Hnew. rewrite Heq.
    by apply list_elem_of_fmap_2.
Qed.

#[local] Instance receive_one_later now timeout m : Steps later (receive_one now timeout m).
Proof. unfold receive_one. apply _. Qed.
#[local] Instance mark_received_later m : Steps later (mark_received m).
Proof. unfold mark_received. apply _. Qed.

(** Everything a call of [ReceiveMessages] on the repository guarantees. *)
Lemma receive_effect `{!OrderLaws} q n timeout w r w' :
  msgs_keyed w → queue_ReceiveMessages q n timeout w = (r, w') →
  (w_tick w < w_tick w')%nat ∧
  match r with
  | Ok ms =>
      NoDup (msg_ID <$> ms) ∧ Z.of_nat (length ms) ≤ Z.max 0 n ∧
      marked ms (t_messages w) (t_messages w') ∧
      ∀ i m, ms !! i = Some m →
        ∃ row, t_messages w !! msg_ID m = Some row ∧ msg_QueueID row = q ∧
          msg_VisibleAt row ≤ env_db_now (S (w_tick w)) ∧ env_locked (S (w_tick w)) (msg_ID m) = false ∧
          (w_tick w + 4 + i < w_tick w')%nat ∧
          (w_tick w + 3 < w_tick w')%nat ∧
          received (env_now (w_tick w + 3)) timeout (env_uuid (w_tick w + 4 + i)) row m
  | Err _ => t_messages w' = t_messages w
  | Panic _ => False
  end.
Proof.
  intros Hkey Hrun. unfold queue_ReceiveMessages, transaction, transaction_w in Hrun.
  destruct (env_fault (w_tick w)) as [e0|].
  { injection Hrun as <- <-. cbn. split; [lia|done]. }
  lazymatch type of Hrun with context [match ?m ?w1 with _ => _ end] =>
    destruct (m w1) as [r0 w0] eqn:Hbody end.
  pose proof (later_run _ _ _ _ Hbody) as Hlater. cbn in Hlater.
  destruct r0 as [ms|e|p];
    [|injection Hrun as <- <-; cbn; split; [lia|done]|by destruct (no_panic_run _ _ _ _ Hbody)].
  destruct (env_fault (w_tick w0)) as [e|]; injection Hrun as <- <-; cbn; (split; [lia|]); [done|].
  ok_step Hbody t w1. injection Hrun as <- <-. cbn in Hbody.
  ok_step Hbody rows w2. apply db_query_Ok in Hrun as [-> Hrows]. cbn in Hbody, Hrows.
  ok_step Hbody now w3. apply (frame_run t_messages) in Hrun as Hf; [|apply _].
  unfold Now, next_tick, mbind, M_bind, mret, M_ret in Hrun. injection Hrun as <- <-. clear Hf.
  ok_step Hbody ms' w4. apply receive_loop in Hrun as (ms0 & Hms & Ht4 & Htick4 & Hlen & Hrec).
  cbn in Hms, Ht4, Htick4, Hrec. injection Hms as ->.
  ok_step Hbody u w5. destruct u. unfold mret, M_ret in Hbody. injection Hbody as <- <-.
  cbn [app] in Hrun. set (rs := take (Z.to_nat n) rows) in *.
  assert (∀ i m, ms0 !! i = Some m → ∃ row, rs !! i = Some row ∧
    received (env_now (S (S (S (w_tick w))))) timeout (env_uuid (w_tick w + 4 + i)) row m) as Hback.
  { intros i m Hm. destruct (lookup_lt_is_Some_2 rs i) as [row Hrow].
    { rewrite <- Hlen. by eapply lookup_lt_Some. }
    exists row. split; [done|]. destruct (Hrec _ _ Hrow) as (m' & Hm' & Hr).
    rewrite Hm in Hm'. injection Hm' as <-. by replace (w_tick w + 4 + i)%nat with (S (S (S (S (w_tick w + i))))) by lia. }
  assert (∀ row, row ∈ rs → t_messages w !! msg_ID row = Some row ∧
    visible_in q (env_db_now (S (w_tick w))) (env_locked (S (w_tick w))) row = true) as Hsel.
  { intros row Hin. unfold rs in Hin. apply elem_of_take in Hin as (i & Hi & _).
    apply list_elem_of_lookup_2 in Hi. rewrite Hrows in Hi. apply elem_of_cut in Hi. rewrite env_order_elem in Hi.
    apply (elem_of_select_key msg_ID) in Hi as [? ?]; [done|exact Hkey]. }
  assert (msg_ID <$> ms0 = msg_ID <$> rs) as Hids.
  { apply list_eq_same_length with (length rs); rewrite ?length_fmap; [done|done|].
    intros i x y _ Hx Hy. rewrite list_lookup_fmap in Hx, Hy.
    apply fmap_Some in Hx as (m & Hm & ->). apply fmap_Some in Hy as (row' & Hrow' & ->).
    destruct (Hback _ _ Hm) as (row & Hrow & ->). by simplify_eq. }
  assert (NoDup (msg_ID <$> ms0)) as Hnd.
  { rewrite Hids. unfold rs. rewrite fmap_take. apply (sublist_NoDup _ (msg_ID <$> rows)); [|apply sublist_take].
    rewrite Hrows. eapply sublist_NoDup; [|apply fmap_sublist, cut_sublist].
    rewrite (env_order_perm _ _ _). by apply select_NoDup. }
  apply mark_loop in Hrun as [Htick5 Hmarked]; [|done|].
  2:{ intros m [i Hm]%list_elem_of_lookup_1. destruct (Hback _ _ Hm) as (row & Hrow & Hr).
    exists row. do 3 eexists. split; [|exact Hr]. rewrite Ht4.
    assert (msg_ID m = msg_ID row) as -> by (by rewrite Hr).
    by apply Hsel, (list_elem_of_lookup_2 _ i). }
  rewrite Ht4 in Hmarked. split_and!; [done| |done|].
  - rewrite Hlen. unfold rs. rewrite length_take. lia.
  - intros i m Hm. destruct (Hback _ _ Hm) as (row & Hrow & Hr).
    destruct (Hsel row (list_elem_of_lookup_2 _ _ _ Hrow)) as [Hrow0 Hvis].
    assert (msg_ID m = msg_ID row) as Hid by (by rewrite Hr).
    unfold visible_in in Hvis. apply andb_true_iff in Hvis as [[Hq%bool_decide_eq_true Hv%Z.leb_le]%andb_true_iff Hl%negb_true_iff].
    exists row. rewrite Hid. apply lookup_lt_Some in Hm. split_and!; [done..|lia|lia|].
    by replace (w_tick w + 3)%nat with (S (S (S (w_tick w)))) by lia.
Qed.

(** ** The owner of a queue *)

Lemma GetQueue_row `{!OrderLaws} ctx id w r w' :
  GetQueue ctx id w = (r, w') →
  t_messages w' = t_messages w ∧ t_queues w' = t_queues w ∧
  match r with
  | Ok q => w' = w <| w_tick ::= S |> ∧ t_queues w !! id = Some q ∧ q_UserID q = UserIDFromContext ctx
  | Err _ => True
  | Panic _ => False
  end.
Proof.
  intros Hrun. apply (frame_run t_messages) in Hrun as Hm; [|apply _].
  apply (frame_run t_queues) in Hrun as Hq; [|apply _]. split_and!; [done..|].
  destruct r as [q|e|p]; [|done|by destruct (no_panic_run _ _ _ _ Hrun)].
  unfold GetQueue, current_user in Hrun. ok_step Hrun u w1. ok_step Hrun0 u' w2.
  apply guard_err_Ok in Hrun1 as [_ ->]. unfold mret, M_ret in Hrun0. injection Hrun0 as <- <-.
  ok_step Hrun o w3. apply from_opt_Ok in Hrun as [-> ->].
  unfold queue_GetByID, row_or_nil in Hrun0. ok_step Hrun0 a w4.
  apply attempt_inv in Hrun as [(q' & Hget & Ha)|[(e & Hget & Ha)|(? & _ & ?)]]; [..|done];
    injection Ha as ->.
  - unfold mret, M_ret in Hrun0. injection Hrun0 as -> <-.
    apply (db_query_row_pk_Ok t_queues) in Hget as (-> & Hl & Hu). unfold of_user in Hu.
    apply bool_decide_eq_true in Hu. done.
  - destruct e; done.
Qed.

(** A queue serves its owner only: sending to it, receiving from it, deleting a message,
    purging and deleting it fail for every other user and change neither queues nor
    messages. *)
Theorem queue_tenant_isolation `{!OrderLaws} ctx id body n h w op :
  (∀ q, t_queues w !! id = Some q → q_UserID q ≠ UserIDFromContext ctx) →
  op ∈ [SendMessage ctx id body ;; mret (); ReceiveMessages ctx id n ;; mret ();
        DeleteMessage ctx id h; PurgeQueue ctx id; DeleteQueue ctx id] →
  ∃ e w', op w = (Err e, w') ∧ t_messages w' = t_messages w ∧ t_queues w' = t_queues w.
Proof.
  intros Hforeign Hop. destruct (GetQueue ctx id w) as [r w1] eqn:Hget.
  apply GetQueue_row in Hget as Hrow. destruct Hrow as (Hm & Hq & Hr).
  destruct r as [q|e|p]; [by destruct (Hforeign q); apply Hr|clear Hr|done].
  exists e, w1. split; [|done].
  repeat (apply elem_of_cons in Hop as [-> |Hop]); [..|by apply elem_of_nil in Hop];
    unfold SendMessage, ReceiveMessages, DeleteMessage, PurgeQueue, DeleteQueue;
    repeat (first [exact Hget | apply bind_Err_run]).
Qed.

(** ** Sending *)

(** A message is accepted only within the size limit of the queue of its sender; it is stored
    once, under a fresh identifier, with its body, never received and without a receipt
    handle; a failure stores nothing. *)
Theorem SendMessage_effect `{!OrderLaws} ctx id body w r w' :
  keyed q_ID (t_queues w) → SendMessage ctx id body w = (r, w') →
  match r with
  | Ok m =>
      ∃ q row, t_queues w !! id = Some q ∧ q_UserID q = UserIDFromContext ctx ∧
        Z.of_nat (String.length body) ≤ q_MaxMessageSize q ∧
        t_messages w !! msg_ID m = None ∧ t_messages w' = <[msg_ID m := row]> (t_messages w) ∧
        msg_ID row = msg_ID m ∧ msg_QueueID row = id ∧ msg_Body row = body ∧
        msg_ReceivedCount row = 0 ∧ msg_ReceiptHandle row = "" ∧
        (msg_VisibleAt row = msg_VisibleAt m ∨ ∃ t, msg_VisibleAt row = env_db_now t)
  | Err _ => t_messages w' = t_messages w
  | Panic _ => False
  end.
Proof.
  intros Hkey Hrun. unfold SendMessage in Hrun.
  run_step Hrun q w1; apply GetQueue_row in Hrun0 as (Hm1 & Hq1 & Hr); [|done|done].
  destruct Hr as (-> & Hq & Hu). apply Hkey in Hq as Hid.
  destruct (Z.ltb_spec (q_MaxMessageSize q) (Z.of_nat (String.length body))) as [|Hsize];
    cbn [guard_err] in Hrun; [unfold mbind, M_bind, fail in Hrun; by injection Hrun as <- <-|].
  rewrite mret_bind in Hrun.
  run_step Hrun m w2; [| |by destruct (no_panic_run _ _ _ _ Hrun0)];
    unfold queue_SendMessage in Hrun0;
    apply total_bind_inv in Hrun0 as (mid & w3 & H3 & Hrun0); try apply _;
    apply total_bind_inv in Hrun0 as (v & w4 & H4 & Hrun0); try apply _;
    apply total_bind_inv in Hrun0 as (c & w5 & H5 & Hrun0); try apply _;
    cbn zeta in Hrun0;
    apply total_bind_inv in Hrun0 as (n1 & w6 & H6 & Hrun0); try apply _;
    apply total_bind_inv in Hrun0 as (b & w7 & H7 & Hrun0); try apply _;
    apply (frame_run t_messages) in H3, H4, H5, H6, H7; try apply _;
    unfold next_tick in Hrun0; unfold mbind at 1, M_bind at 1 in Hrun0;
    assert (t_messages w7 = t_messages w) as Hf by (cbn in H3; congruence).
  - ok_step Hrun0 u w8. unfold mret, M_ret in Hrun0. injection Hrun0 as <- ->.
    apply db_exec_Ok in Hrun1. unfold sql_insert in Hrun1. cbn in Hrun1.
    destruct (t_messages w7 !! mid) eqn:Hnew; [done|]. case_bool_decide; [|done].
    injection Hrun1 as _ <-.
    apply ignore_bind_inv in Hrun as (? & w9 & Hev & Hrun); [|apply _].
    apply (frame_run t_messages) in Hev; [|apply _].
    unfold mret, M_ret in Hrun. injection Hrun as <- <-. rewrite Hf in Hnew.
    exists q. eexists. cbn in Hev |- *. rewrite Hev, Hf.
    do 3 (split; [done|]). split; [done|]. split; [reflexivity|]. destruct b; cbn; split_and!; eauto.
  - run_step Hrun0 u w8; apply db_exec_outcome in Hrun as [(k & Hr & _)|(e' & Hr & ->)]; try done.
Qed.

(** ** Delivery *)

(** A message of the queue [q] that a consumer got: the row as it was, and what it became.  The
    clocks of the database and of the process and the identifiers are read in the call: the
    message was visible at [n] and is hidden from [s] on for the timeout of the queue. *)
Definition delivered (q : Queue) (w w' : World) (m : Message) : Prop :=
  ∃ row n s t, t_messages w !! msg_ID m = Some row ∧ msg_QueueID row = q_ID q ∧
    (w_tick w ≤ n < w_tick w')%nat ∧ msg_VisibleAt row ≤ env_db_now n ∧
    env_locked n (msg_ID m) = false ∧ (n < s < w_tick w')%nat ∧ (w_tick w ≤ t < w_tick w')%nat ∧
    received (env_now s) (q_VisibilityTimeout q) (env_uuid t) row m.

Lemma events_loop_ok ctx q msgs w r w' :
  (foreach msgs (λ m, ignore (RecordEvent ctx "MESSAGE_RECEIVED" (uuid_string (msg_ID m)) "MESSAGE"
     (queue_meta q))) ;; mret msgs) w = (r, w') →
  r = Ok msgs ∧ t_messages w' = t_messages w ∧ (w_tick w ≤ w_tick w')%nat.
Proof.
  intros Hrun. apply total_bind_inv in Hrun as (u & w1 & Hev & Hrun); [|apply _].
  apply (frame_run t_messages) in Hev as Hf; [|apply _].
  assert (∀ m, Steps later (RecordEvent ctx "MESSAGE_RECEIVED" (uuid_string (msg_ID m)) "MESSAGE"
    (queue_meta q))) as Hl.
  { intros m. unfold RecordEvent, event_Create. apply steps_bind; [apply _..|]. intros a.
    apply steps_bind; [apply _..|]. intros b. apply steps_db_exec; [apply _..|].
    intros w2 x w3 Hs. destruct (_ || _); [done|]. injection Hs as _ <-. unfold later. done. }
  apply later_run in Hev; [|apply _]. unfold mret, M_ret in Hrun. by injection Hrun as <- <-.
Qed.

Lemma batch_size_bounds n : 1 ≤ batch_size n ≤ 10.
Proof. unfold batch_size. destruct (Z.leb_spec n 0), (Z.ltb_spec 10 n); cbn; lia. Qed.

(** What a batch contains; the theorems on delivery share it. *)
Lemma batch_effect `{!OrderLaws} ctx id n w r w' :
  keyed msg_ID (t_messages w) → keyed q_ID (t_queues w) →
  ReceiveMessages ctx id n w = (r, w') →
  match r with
  | Ok ms =>
      ∃ q, t_queues w !! id = Some q ∧ q_UserID q = UserIDFromContext ctx ∧
        NoDup (msg_ID <$> ms) ∧ (length ms ≤ 10)%nat ∧
        marked ms (t_messages w) (t_messages w') ∧ ∀ m, m ∈ ms → delivered q w w' m
  | Err _ => t_messages w' = t_messages w
  | Panic _ => False
  end.
Proof.
  intros Hkey Hqk Hrun. unfold ReceiveMessages in Hrun.
  run_step Hrun q w1; apply GetQueue_row in Hrun0 as (Hm1 & Hq1 & Hr); [|done|done].
  destruct Hr as (-> & Hq & Hu).
  run_step Hrun ms w2; apply receive_effect in Hrun0 as [Ht2 Hms]; try done.
  destruct Hms as (Hnd & Hlen & Hmk & Hdel). cbn in *.
  apply events_loop_ok in Hrun as (-> & Hf & Ht3).
  exists q. pose proof (batch_size_bounds n). rewrite Hf. split_and!; [done..|lia|done|].
  intros m [i Hi]%list_elem_of_lookup_1.
  destruct (Hdel i m Hi) as (row & Hrow & Hqid & Hvis & Hlock & Htick & Hnow & Hrec).
  exists row, (S (S (w_tick w))), (S (w_tick w) + 3)%nat, (S (w_tick w) + 4 + i)%nat. split_and!; try done; lia.
Qed.

(** C8: The owner of a queue gets at most ten messages in a batch, without repetition, each one a
    message of the queue that was visible and not locked; each gets a fresh receipt handle, is
    counted once more and is hidden from the time of the call, by the clock of the process, for
    the visibility timeout of the queue; every other message stays as it was, and so do all of
    them when the call fails. *)
Theorem ReceiveMessages_effect `{!OrderLaws} ctx id n w r w' :
  keyed msg_ID (t_messages w) → keyed q_ID (t_queues w) →
  ReceiveMessages ctx id n w = (r, w') →
  match r with
  | Ok ms =>
      ∃ q, t_queues w !! id = Some q ∧ q_UserID q = UserIDFromContext ctx ∧
        NoDup (msg_ID <$> ms) ∧ (length ms ≤ 10)%nat ∧
        marked ms (t_messages w) (t_messages w') ∧ ∀ m, m ∈ ms → delivered q w w' m
  | Err _ => t_messages w' = t_messages w
  | Panic _ => False
  end.
Proof. apply batch_effect. Qed.

(** Every handle of the table was made from a fresh identifier, and no two rows share one. *)
Definition handles_ok (w : World) : Prop :=
  (∀ k m, t_messages w !! k = Some m →
     msg_ReceiptHandle m = "" ∨ ∃ t, (t < w_tick w)%nat ∧ msg_ReceiptHandle m = uuid_string (env_uuid t)) ∧
  (∀ k1 k2 m1 m2, t_messages w !! k1 = Some m1 → t_messages w !! k2 = Some m2 →
     msg_ReceiptHandle m1 = msg_ReceiptHandle m2 → msg_ReceiptHandle m1 ≠ "" → k1 = k2).

Lemma uuid_string_inj `{!UUIDLaws} u1 u2 : uuid_string u1 = uuid_string u2 → u1 = u2.
Proof. intros Heq. apply (f_equal uuid_parse) in Heq. rewrite !uuid_parse_string in Heq. by injection Heq. Qed.

(** Where a row of the table after a batch comes from. *)
Lemma after_receive `{!OrderLaws} q n timeout w ms w' k m :
  keyed msg_ID (t_messages w) → queue_ReceiveMessages q n timeout w = (Ok ms, w') →
  t_messages w' !! k = Some m →
  (∃ i, ms !! i = Some m ∧ k = msg_ID m ∧ msg_QueueID m = q ∧ (w_tick w + 4 + i < w_tick w')%nat ∧
     msg_ReceiptHandle m = uuid_string (env_uuid (w_tick w + 4 + i))) ∨
  (k ∉ msg_ID <$> ms ∧ t_messages w !! k = Some m).
Proof.
  intros Hkey Hrun Hm. apply receive_effect in Hrun as (_ & Hnd & _ & [Hin Hout] & Hdel); [|done].
  destruct (decide (k ∈ msg_ID <$> ms)) as [Hk|Hk]; [left|right; by rewrite <- Hout].
  apply list_elem_of_fmap in Hk as (m' & -> & Hk). rewrite (Hin m' Hk) in Hm. injection Hm as ->.
  apply list_elem_of_lookup_1 in Hk as [i Hi].
  destruct (Hdel i m Hi) as (row & _ & Hq & _ & _ & Ht & _ & ->). eauto 10.
Qed.

Lemma receive_handles_ok `{!OrderLaws, !UUIDLaws, !FreshUUIDs} q n timeout w ms w' :
  handles_ok w → keyed msg_ID (t_messages w) →
  queue_ReceiveMessages q n timeout w = (Ok ms, w') → handles_ok w'.
Proof.
  intros [Hold Huniq] Hkey Hrun.
  assert (w_tick w < w_tick w')%nat as Hlt by (by apply receive_effect in Hrun as [? _]).
  assert (∀ k1 k2 m1 m2 i, ms !! i = Some m1 → k1 = msg_ID m1 →
    msg_ReceiptHandle m1 = uuid_string (env_uuid (w_tick w + 4 + i)) →
    t_messages w' !! k2 = Some m2 → msg_ReceiptHandle m1 = msg_ReceiptHandle m2 → k1 = k2) as Hcase.
  { intros k1 k2 m1 m2 i Hi -> Hh Hk2 Heq.
    destruct (after_receive _ _ _ _ _ _ _ _ Hkey Hrun Hk2) as [(j & Hj & -> & _ & _ & Hh2)|[_ Hk2']].
    - rewrite Heq, Hh2 in Hh. apply uuid_string_inj, env_uuid_inj in Hh.
      assert (i = j) as -> by lia. congruence.
    - destruct (Hold _ _ Hk2') as [Hn|(t & Ht & Hh2)].
      + rewrite Heq, Hn in Hh. by destruct (uuid_string_nonempty (env_uuid (w_tick w + 4 + i))).
      + rewrite Heq, Hh2 in Hh. apply uuid_string_inj, env_uuid_inj in Hh. lia. }
  split.
  - intros k m Hk.
    destruct (after_receive _ _ _ _ _ _ _ _ Hkey Hrun Hk) as [(i & _ & _ & _ & Ht & Hh)|[_ Hk']]; [by eauto|].
    destruct (Hold _ _ Hk') as [?|(t & ? & ?)]; [by left|]. right. exists t. split; [lia|done].
  - intros k1 k2 m1 m2 Hk1 Hk2 Heq Hne.
    destruct (after_receive _ _ _ _ _ _ _ _ Hkey Hrun Hk1) as [(i & Hi & -> & _ & _ & Hh)|[_ Hk1']].
    { by eapply Hcase. }
    destruct (after_receive _ _ _ _ _ _ _ _ Hkey Hrun Hk2) as [(i & Hi & -> & _ & _ & Hh)|[_ Hk2']].
    { symmetry. by eapply Hcase. }
    by eapply Huniq.
Qed.

Lemma DeleteMessage_run `{!NoFaults} q h w :
  queue_DeleteMessage q h w =
    (let gone := filter (λ kv, has_handle q h kv.2 = true) (t_messages w) in
     let w' := w <| w_tick ::= S |> <| t_messages ::= filter (λ kv, has_handle q h kv.2 = false) |> in
     if decide (gone = ∅) then (Err (New NotFound "message not found or receipt handle expired"), w')
     else (Ok tt, w')).
Proof.
  unfold queue_DeleteMessage, mbind, M_bind, db_exec. rewrite no_faults. unfold sql_delete_where. cbn.
  destruct (decide _) as [->|Hne]; [done|]. apply map_size_non_empty_iff in Hne.
  by destruct (size _) as [|].
Qed.

Lemma has_handle_true q h m :
  has_handle q h m = true ↔ msg_QueueID m = q ∧ msg_ReceiptHandle m = h ∧ msg_ReceiptHandle m ≠ "".
Proof.
  unfold has_handle. rewrite !andb_true_iff, negb_true_iff, !bool_decide_eq_true, bool_decide_eq_false. tauto.
Qed.

(** C27: When no statement fails, a receipt handle is good for the delivery it came with, and for
    that one only: it deletes exactly the message it was given for, and the handle of an earlier
    delivery of that message is refused as not found and deletes nothing. *)
Theorem receipt_handle_once `{!OrderLaws, !UUIDLaws, !FreshUUIDs, !NoFaults} q n timeout w ms w1 m :
  handles_ok w → keyed msg_ID (t_messages w) →
  queue_ReceiveMessages q n timeout w = (Ok ms, w1) → m ∈ ms →
  queue_DeleteMessage q (msg_ReceiptHandle m) w1 =
    (Ok tt, w1 <| w_tick ::= S |> <| t_messages ::= delete (msg_ID m) |>) ∧
  ∀ row, t_messages w !! msg_ID m = Some row →
    queue_DeleteMessage q (msg_ReceiptHandle row) w1 =
      (Err (New NotFound "message not found or receipt handle expired"), w1 <| w_tick ::= S |>).
Proof.
  intros Hok Hkey Hrun Hin. pose proof (receive_handles_ok _ _ _ _ _ _ Hok Hkey Hrun) as [_ Huniq].
  apply receive_effect in Hrun as Heff; [|done]. destruct Heff as (_ & _ & _ & [Hnew _] & _).
  specialize (Hnew m Hin).
  assert (msg_QueueID m = q ∧ ∃ i, msg_ReceiptHandle m = uuid_string (env_uuid (w_tick w + 4 + i))) as (Hq & i & Hh).
  { destruct (after_receive _ _ _ _ _ _ _ _ Hkey Hrun Hnew) as [(i & _ & _ & ? & _ & ?)|[Hno _]]; [by eauto|].
    destruct Hno. by apply list_elem_of_fmap_2. }
  assert (msg_ReceiptHandle m ≠ "") as Hne by (rewrite Hh; apply uuid_string_nonempty).
  split.
  - rewrite DeleteMessage_run. cbv zeta. rewrite decide_False.
    2:{ intros Hempty. apply map_eq_iff with (i := msg_ID m) in Hempty.
      rewrite lookup_empty, map_lookup_filter_None in Hempty.
      destruct Hempty as [Hnone|Hf]; [congruence|]. apply (Hf m Hnew). by apply has_handle_true. }
    f_equal. destruct w1 as []. unfold modify. cbn in *. f_equal.
    apply map_eq. intros k. apply option_eq. intros x.
    rewrite map_lookup_filter_Some, lookup_delete_Some, <- not_true_iff_false, has_handle_true. cbn.
    split; [|intros [Hk Hx]; split; [done|]; intros (? & Heq & ?); apply Hk; symmetry; by eapply Huniq].
    intros [Hx Hn]. split; [|done]. intros <-. rewrite Hnew in Hx. injection Hx as <-. by apply Hn.
  - intros row Hrow.
    assert (∀ k x, t_messages w1 !! k = Some x → has_handle q (msg_ReceiptHandle row) x = false) as Hnone.
    { intros k x Hx. apply not_true_iff_false. rewrite has_handle_true. intros (_ & Heq & Hxne).
      destruct Hok as [Hold Hu].
      destruct (after_receive _ _ _ _ _ _ _ _ Hkey Hrun Hx) as [(j & _ & _ & _ & _ & Hhx)|[Hk Hx']].
      - destruct (Hold _ _ Hrow) as [?|(t & Ht & Hhr)]; [congruence|].
        rewrite Heq, Hhr in Hhx. apply uuid_string_inj, env_uuid_inj in Hhx. lia.
      - apply Hk. rewrite (Hu _ _ _ _ Hx' Hrow Heq Hxne). by apply list_elem_of_fmap_2. }
    rewrite DeleteMessage_run. cbv zeta. rewrite decide_True.
    + f_equal. destruct w1 as []. unfold modify. cbn in *. f_equal.
      apply map_filter_id. intros k x Hx. by eapply Hnone.
    + apply map_empty. intros k. rewrite map_lookup_filter_None. right. intros x Hx. cbn.
      by rewrite (Hnone _ _ Hx).
Qed.

(** C11: while the messages of a batch are hidden no other batch has them: a batch received later, by
    the same or another consumer, in a state that still has the messages of the first as they
    were delivered, shares none with it as long as by the clock of the database none has
    become visible again. *)
Theorem no_double_delivery `{!OrderLaws} ctx1 ctx2 id n1 n2 w ms1 w1 w2 ms2 w3 :
  keyed msg_ID (t_messages w) → keyed q_ID (t_queues w) →
  ReceiveMessages ctx1 id n1 w = (Ok ms1, w1) →
  keyed msg_ID (t_messages w2) → keyed q_ID (t_queues w2) →
  (∀ m, m ∈ ms1 → t_messages w2 !! msg_ID m = t_messages w1 !! msg_ID m) →
  ReceiveMessages ctx2 id n2 w2 = (Ok ms2, w3) →
  (∀ m t, m ∈ ms1 → (w_tick w2 ≤ t < w_tick w3)%nat → env_db_now t < msg_VisibleAt m) →
  ∀ m, m ∈ ms2 → msg_ID m ∉ msg_ID <$> ms1.
Proof.
  intros Hk1 Hq1 Hrun1 Hk2 Hq2 Hsame Hrun2 Hhidden m Hm (m1 & Hid & Hm1)%list_elem_of_fmap.
  apply batch_effect in Hrun1 as (_ & _ & _ & _ & _ & [Hin _] & _); [|done..].
  apply batch_effect in Hrun2 as (q & _ & _ & _ & _ & _ & Hdel); [|done..].
  destruct (Hdel m Hm) as (row & t & s & t' & Hrow & _ & Ht & Hvis & _).
  rewrite Hid, Hsame, Hin in Hrow by done. injection Hrow as <-.
  specialize (Hhidden m1 t Hm1 Ht). lia.
Qed.

End queue_proofs.
