(* ===== verification/RbacProofs.v ===== *)
(** * What the authorisation of requests guarantees *)
From S2P Require Import Prelude GoStd Net Errors Domain DomainData World Logic Sql Rbac.

Section rbac_proofs.
Context `{Env}.

(** ** Authorisation *)

(** The constraint UNIQUE(name) of [roles]. *)
Definition role_names_unique (w : World) : Prop :=
  ∀ k1 k2 r1 r2, t_roles w !! k1 = Some r1 → t_roles w !! k2 = Some r2 →
    role_Name r1 = role_Name r2 → k1 = k2.

(** The specification of a grant: the permissions of the stored role of that name if there is one,
    and otherwise the defaults of the name. *)
Definition permits (w : World) (roleName permission : string) : Prop :=
  (∃ k row, t_roles w !! k = Some row ∧ role_Name row = roleName ∧
     (PermissionFullAccess ∈ role_Permissions row ∨ permission ∈ role_Permissions row)) ∨
  ((∀ k row, t_roles w !! k = Some row → role_Name row ≠ roleName) ∧
   hasDefaultPermission roleName permission = true).

Lemma role_grants_true perms p :
  role_grants perms p = true ↔ PermissionFullAccess ∈ perms ∨ p ∈ perms.
Proof.
  unfold role_grants. rewrite existsb_exists. setoid_rewrite <- list_elem_of_In.
  setoid_rewrite orb_true_iff. setoid_rewrite bool_decide_eq_true. naive_solver.
Qed.

Lemma role_GetRoleByName_run `{!OrderLaws, !NoFaults} name w :
  keyed role_ID (t_roles w) → role_names_unique w →
  (∃ k row perms w', t_roles w !! k = Some row ∧ role_Name row = name ∧
     perms ≡ₚ role_Permissions row ∧
     role_GetRoleByName name w = (Ok (row <| role_Permissions := perms |>), w')) ∨
  ((∀ k row, t_roles w !! k = Some row → role_Name row ≠ name) ∧
   ∃ e w', role_GetRoleByName name w = (Err e, w')).
Proof.
  intros Hkey Huniq. unfold role_GetRoleByName, db_query_row.
  destruct (select (λ r, bool_decide (role_Name r = name)) (t_roles w)) as [|r l] eqn:Hsel.
  - right. split.
    + intros k row Hk Hn. assert (row ∈ select (λ r, bool_decide (role_Name r = name)) (t_roles w)) as Hin.
      { apply elem_of_select. rewrite bool_decide_eq_true. eauto. }
      rewrite Hsel in Hin. by apply elem_of_nil in Hin.
    + eexists _, _. apply bind_Err_run. rewrite (bind_Ok_run _ _ _ _ _ (db_rows_run _ w (no_faults _))).
      change (t_roles (w <| w_tick ::= S |>)) with (t_roles w). by rewrite Hsel, env_order_nil.
  - left. assert (r ∈ select (λ r, bool_decide (role_Name r = name)) (t_roles w)) as Hin
      by (rewrite Hsel; left).
    apply elem_of_select in Hin as [Hn%bool_decide_eq_true [k Hk]].
    assert (role_ID r = k) as Hid by by apply Hkey.
    eexists k, r, _, _. split; [done|]. split; [done|]. split; [|].
    2:{ erewrite bind_Ok_run; [|eapply (db_query_row_unique t_roles _ k r)].
      - unfold role_GetPermissionsForRole.
        rewrite (bind_Ok_run _ _ _ _ _ (db_query_run _ _)). reflexivity.
      - apply no_faults.
      - done.
      - by apply bool_decide_eq_true.
      - intros k' r' Hk' Hn'%bool_decide_eq_true.
        rewrite (Huniq k' k r' r) in Hk' by (done || congruence). congruence. }
    rewrite env_order_perm. cbn. rewrite Hid. by rewrite Hk.
Qed.


Lemma HasPermission_run `{!OrderLaws, !NoFaults} userID permission w :
  keyed role_ID (t_roles w) → role_names_unique w →
  match t_users w !! userID with
  | None => ∃ e w', HasPermission userID permission w = (Err e, w')
  | Some u => ∃ b w', HasPermission userID permission w = (Ok b, w') ∧
      (b = true ↔ permits w (user_Role u) permission)
  end.
Proof.
  intros Hkey Huniq. unfold HasPermission, user_GetByID.
  pose proof (db_query_row_pk t_users userID (λ _, true) w (no_faults _)) as Hget.
  destruct (t_users w !! userID) as [u|].
  2:{ eexists _, _. apply bind_Err_run, wrap_err_Err_run, wrap_err_Err_run. exact Hget. }
  set (w1 := w <| w_tick ::= S |>) in *.
  destruct (role_GetRoleByName_run (user_Role u) w1 Hkey Huniq)
    as [(k & row & perms & w' & Hk & Hn & Hperm & Hrun)|(Hno & e & w' & Hrun)].
  - exists (role_grants perms permission), w'. split.
    + rewrite (bind_Ok_run _ _ _ _ _ (wrap_err_Ok_run _ _ _ _ _ (wrap_err_Ok_run _ _ _ _ _ Hget))).
      by rewrite (bind_Ok_run _ _ _ _ _ (attempt_Ok_run _ _ _ _ Hrun)).
    + rewrite role_grants_true. unfold permits. split.
      * intros Hg. left. exists k, row. by rewrite <- Hperm.
      * intros [(k' & row' & Hk' & Hn' & Hg)|[Hno _]]; [|by destruct (Hno k row Hk)].
        assert (k' = k) as -> by (by eapply Huniq; try done; congruence).
        change (t_roles w !! k = Some row) in Hk. rewrite Hk in Hk'. injection Hk' as <-. by rewrite Hperm.
  - exists (hasDefaultPermission (user_Role u) permission), w'. split.
    + rewrite (bind_Ok_run _ _ _ _ _ (wrap_err_Ok_run _ _ _ _ _ (wrap_err_Ok_run _ _ _ _ _ Hget))).
      by rewrite (bind_Ok_run _ _ _ _ _ (attempt_Err_run _ _ _ _ Hrun)).
    + unfold permits. split; [by right|]. intros [(k & row & Hk & Hn & _)|[_ Hd]]; [|done].
      by destruct (Hno k row Hk).
Qed.

(** ** When statements fail *)

(** One of the two statements that read a role with its permissions, from the tick [n] on. *)
Definition role_query_failed (n : nat) : Prop := env_fault n ≠ None ∨ env_fault (S n) ≠ None.

(** A role that was read grants what is stored at most, and a role that was not read is not
    stored, unless a statement failed. *)
Lemma role_GetRoleByName_Ok `{!OrderLaws} name w role w' p :
  keyed role_ID (t_roles w) → role_GetRoleByName name w = (Ok role, w') →
  role_grants (role_Permissions role) p = true → permits w name p.
Proof.
  intros Hkey Hrun Hg. unfold role_GetRoleByName in Hrun. ok_step Hrun row w1.
  apply (db_query_row_Ok t_roles) in Hrun0 as (-> & Hn%bool_decide_eq_true & k & Hk).
  ok_step Hrun perms w2. apply db_query_read in Hrun0 as [-> Hread].
  unfold mret, M_ret in Hrun. injection Hrun as <- <-. cbn in Hg, Hread. rewrite (Hkey k row Hk), Hk in Hread.
  apply role_grants_true in Hg. left. exists k, row. split; [done|]. split; [done|].
  destruct Hg as [Hg|Hg]; [left|right]; by eapply read_rows_elem.
Qed.

Lemma role_GetRoleByName_Err `{!OrderLaws} name w e w' :
  role_GetRoleByName name w = (Err e, w') →
  (∀ k row, t_roles w !! k = Some row → role_Name row ≠ name) ∨ role_query_failed (w_tick w).
Proof.
  intros Hrun. destruct (env_fault (w_tick w)) as [err|] eqn:Hf; [right; left; by rewrite Hf|].
  destruct (env_fault (S (w_tick w))) as [err|] eqn:Hf1; [right; right; by rewrite Hf1|]. left.
  intros k row Hk Hn. unfold role_GetRoleByName, db_query_row in Hrun.
  destruct (env_order (w_tick w) Role (select (λ r, bool_decide (role_Name r = name)) (t_roles w)))
    as [|r l] eqn:Hl.
  - assert (row ∈ ([] : list Role)) as []%elem_of_nil. rewrite <- Hl.
    apply env_order_elem, elem_of_select. rewrite bool_decide_eq_true. eauto.
  - unfold mbind, M_bind in Hrun. rewrite db_rows_run in Hrun by done.
    change (t_roles (w <| w_tick ::= S |>)) with (t_roles w) in Hrun. rewrite Hl in Hrun.
    unfold role_GetPermissionsForRole, db_query in Hrun. cbn in Hrun. unfold db_rows in Hrun. cbn in Hrun.
    by rewrite Hf1 in Hrun.
Qed.

Lemma HasPermission_sound `{!OrderLaws} userID permission w w' :
  keyed role_ID (t_roles w) → HasPermission userID permission w = (Ok true, w') →
  ∃ u, t_users w !! userID = Some u ∧
    (permits w (user_Role u) permission ∨
     role_query_failed (S (w_tick w)) ∧ hasDefaultPermission (user_Role u) permission = true).
Proof.
  intros Hkey Hrun. unfold HasPermission in Hrun. ok_step Hrun u w1.
  apply wrap_err_Ok, wrap_err_Ok, (db_query_row_pk_Ok t_users) in Hrun0 as (-> & Hu & _).
  exists u. split; [done|]. ok_step Hrun a w2.
  apply attempt_inv in Hrun0 as [(role & Hget & [= ->])|[(e & Hget & [= ->])|(? & _ & ?)]]; [..|done];
    unfold mret, M_ret in Hrun; injection Hrun as Hg _.
  - left. by eapply role_GetRoleByName_Ok in Hget.
  - apply role_GetRoleByName_Err in Hget as [Hno|Hfail]; [left; by right|right; by split].
Qed.

(** C13: when the database answers, a request is authorised exactly when its user exists and his role
    permits it: by its stored permissions or, for a role that is not stored, by the
    defaults of its name; nothing is changed by the decision. *)
Theorem Authorize_spec `{!OrderLaws, !NoFaults} userID permission w r w' :
  keyed role_ID (t_roles w) → role_names_unique w →
  Authorize userID permission w = (r, w') →
  t_users w' = t_users w ∧ t_roles w' = t_roles w ∧
  (r = Ok tt ↔ ∃ u, t_users w !! userID = Some u ∧ permits w (user_Role u) permission) ∧
  (∀ u, t_users w !! userID = Some u → r = Ok tt ∨
     r = Err (New Forbidden ("permission denied: " +:+ permission))).
Proof.
  intros Hkey Huniq Hrun. split; [by apply (frame_run t_users) in Hrun; [|apply _]|].
  split; [by apply (frame_run t_roles) in Hrun; [|apply _]|].
  pose proof (HasPermission_run userID permission w Hkey Huniq) as Hp. unfold Authorize in Hrun.
  destruct (t_users w !! userID) as [u|] eqn:Hu.
  - destruct Hp as (b & w1 & Hb & Hiff). rewrite (bind_Ok_run _ _ _ _ _ Hb) in Hrun.
    destruct b; cbn in Hrun; unfold mret, M_ret, fail in Hrun; injection Hrun as <- <-; (split; [|by auto]).
    + split; [|done]. intros _. exists u. split; [done|]. by apply Hiff.
    + split; [done|]. intros (u' & [= <-] & Hperm%Hiff). done.
  - destruct Hp as (e & w1 & He). rewrite (bind_Err_run _ _ _ _ _ He) in Hrun. injection Hrun as <- <-.
    split; [|done]. split; [done|]. by intros (u & ? & _).
Qed.

(** Authorisation fails open: when the query of the role fails, a developer is granted every
    permission but the wildcard, whatever permissions his stored role has. *)
Theorem Authorize_fails_open userID permission w u e :
  env_fault (w_tick w) = None → env_fault (S (w_tick w)) = Some e →
  t_users w !! userID = Some u → user_Role u = RoleDeveloper → permission ≠ PermissionFullAccess →
  OrderLaws →
  Authorize userID permission w = (Ok tt, w <| w_tick ::= S |> <| w_tick ::= S |>).
Proof.
  intros Hf0 Hf1 Hu Hrole Hperm Horder. unfold Authorize, HasPermission, user_GetByID.
  pose proof (db_query_row_pk t_users userID (λ _, true) w Hf0) as Hget. rewrite Hu in Hget.
  assert (role_GetRoleByName (user_Role u) (w <| w_tick ::= S |>)
          = (Err e, w <| w_tick ::= S |> <| w_tick ::= S |>)) as Hq.
  { unfold role_GetRoleByName, db_query_row. apply bind_Err_run, bind_Err_run.
    unfold db_rows. cbn. by rewrite Hf1. }
  unfold mbind at 1, M_bind at 1.
  rewrite (bind_Ok_run _ _ _ _ _ (wrap_err_Ok_run _ _ _ _ _ (wrap_err_Ok_run _ _ _ _ _ Hget))).
  rewrite (bind_Ok_run _ _ _ _ _ (attempt_Err_run _ _ _ _ Hq)).
  rewrite Hrole. unfold hasDefaultPermission, RoleDeveloper, RoleAdmin, RoleViewer. cbn.
  by rewrite (bool_decide_false (permission = PermissionFullAccess)).
Qed.

(** ** Changing a role *)

Lemma insert_permissions id perms : ∀ w w' row,
  foreach perms (λ p, db_exec (insert_permission id p) ;; mret ()) w = (Ok tt, w') →
  t_roles w !! id = Some row →
  ∃ row', t_roles w' = <[id := row']> (t_roles w) ∧ role_Name row' = role_Name row ∧
    role_Description row' = role_Description row ∧
    role_Permissions row' = reverse perms ++ role_Permissions row.
Proof.
  induction perms as [|p perms IH]; intros w w' row Hrun Hrow; cbn in Hrun.
  { unfold mret, M_ret in Hrun. injection Hrun as <-. exists row. by rewrite insert_id. }
  ok_step Hrun u w1. ok_step Hrun0 n w2. unfold mret, M_ret in Hrun0. injection Hrun0 as _ ->.
  apply db_exec_Ok in Hrun1. unfold insert_permission in Hrun1. cbn in Hrun1. rewrite Hrow in Hrun1.
  destruct (mem p _); [done|]. unfold sql_update in Hrun1. cbn in Hrun1. rewrite Hrow in Hrun1.
  injection Hrun1 as _ <-. eapply IH in Hrun as (row' & Hw & Hn & Hd & Hp); [|cbn; apply lookup_insert_eq].
  exists row'. cbn in Hw, Hn, Hd, Hp. rewrite insert_insert_eq in Hw.
  split_and!; [done..|]. rewrite Hp, reverse_cons. by rewrite <- (assoc_L (++)).
Qed.

(** Changing a role is all or nothing: it fails and leaves the roles as they were, or the role
    has the new name and description and exactly the new permissions, and the other roles
    are as they were. *)
Theorem UpdateRole_atomic role w r w' row :
  t_roles w !! role_ID role = Some row → UpdateRole role w = (r, w') →
  match r with
  | Ok _ => ∃ row', t_roles w' = <[role_ID role := row']> (t_roles w) ∧
              role_Name row' = role_Name role ∧ role_Description row' = role_Description role ∧
              role_Permissions row' ≡ₚ role_Permissions role
  | Err _ => t_roles w' = t_roles w
  | Panic _ => False
  end.
Proof.
  intros Hrow Hrun. unfold UpdateRole, role_UpdateRole in Hrun. apply transaction_w_inv in Hrun as Hinv.
  destruct Hinv as [(a & w2 & -> & Hbody & ->)|(Hno & n & l & ->)].
  2:{ destruct r as [a|e|p]; [by destruct (Hno a)|done|]. by destruct (no_panic_run _ _ _ _ Hrun). }
  clear Hrun. ok_step Hbody n1 w3. apply db_exec_Ok in Hrun. unfold sql_update in Hrun.
  cbn in Hrun. rewrite Hrow in Hrun. destruct (no_row _ _); [|done]. cbn in Hrun. injection Hrun as _ <-.
  ok_step Hbody n2 w4. apply db_exec_Ok in Hrun. unfold sql_update in Hrun.
  cbn in Hrun. rewrite lookup_insert_eq in Hrun. injection Hrun as _ <-. destruct a.
  eapply insert_permissions in Hbody as (row' & Hw & Hn & Hd & Hp); [|cbn; apply lookup_insert_eq].
  exists row'. cbn in *. rewrite !insert_insert_eq in Hw. split_and!; [done..|].
  rewrite Hp, app_nil_r. apply reverse_Permutation.
Qed.

(** Binding a role changes the role of one user only, named by identifier or e-mail, and only to a
    role that is stored; a failure changes no user. *)
Theorem BindRole_effect `{!OrderLaws} s roleName w r w' :
  keyed user_ID (t_users w) → BindRole s roleName w = (r, w') →
  match r with
  | Ok _ =>
      ∃ u, t_users w !! user_ID u = Some u ∧ (uuid_parse s = Some (user_ID u) ∨
                                              (uuid_parse s = None ∧ user_Email u = s)) ∧
        t_users w' = <[user_ID u := u <| user_Role := roleName |>]> (t_users w) ∧
        ∃ k row, t_roles w !! k = Some row ∧ role_Name row = roleName
  | Err _ => t_users w' = t_users w
  | Panic _ => False
  end.
Proof.
  intros Hkey Hrun. unfold BindRole in Hrun.
  assert (Frame t_users (role_GetRoleByName roleName)) as Hfr
    by (unfold role_GetRoleByName, role_GetPermissionsForRole; apply _).
  assert (NoPanic (role_GetRoleByName roleName)) as Hnp
    by (unfold role_GetRoleByName, role_GetPermissionsForRole; apply _).
  run_step Hrun role w1; apply (frame_run t_users) in Hrun0 as Hf1; try apply _;
    [|done|by destruct (no_panic_run (wrap_err _ (role_GetRoleByName roleName)) _ _ _ Hrun0)].
  apply wrap_err_Ok in Hrun0. unfold role_GetRoleByName in Hrun0. ok_step Hrun0 row w2. clear Hrun0.
  apply (db_query_row_Ok t_roles) in Hrun1 as (_ & Hn%bool_decide_eq_true & k & Hk).
  set (find := match uuid_parse s with Some userID => user_GetByID userID | None => user_GetByEmail s end) in *.
  assert (Frame t_users find) as Hff by (unfold find, user_GetByID, user_GetByEmail; apply _).
  assert (NoPanic find) as Hnf by (unfold find, user_GetByID, user_GetByEmail; apply _).
  run_step Hrun u w3; apply (frame_run t_users) in Hrun0 as Hf2; try apply _;
    [|congruence|by destruct (no_panic_run (wrap_err _ find) _ _ _ Hrun0)].
  assert (t_users w !! user_ID u = Some u ∧ (uuid_parse s = Some (user_ID u) ∨
    (uuid_parse s = None ∧ user_Email u = s))) as [Hu Hs].
  { apply wrap_err_Ok in Hrun0. unfold find in Hrun0. rewrite <- Hf1. rewrite <- Hf1 in Hkey.
    destruct (uuid_parse s) as [i|].
    - apply wrap_err_Ok, (db_query_row_pk_Ok t_users) in Hrun0 as (_ & Hu & _).
      rewrite (Hkey _ _ Hu). auto.
    - apply wrap_err_Ok, (db_query_row_Ok t_users) in Hrun0 as (_ & He%bool_decide_eq_true & i & Hu).
      rewrite (Hkey _ _ Hu). auto. }
  assert (t_users w3 = t_users w) as Hf by congruence. unfold user_Update in Hrun.
  apply bind_inv in Hrun as [(n & w4 & Hex & Hrun)|[(e & Hex & ->)|(? & Hex & ->)]];
    [|by apply wrap_err_Err in Hex as (e0 & _ & ->%db_exec_Err)|by destruct (no_panic_run (wrap_err _ (db_exec _)) _ _ _ Hex)].
  unfold mret, M_ret in Hrun. injection Hrun as <- <-.
  apply wrap_err_Ok, db_exec_Ok in Hex. unfold sql_update in Hex. cbn in Hex. rewrite Hf, Hu in Hex.
  destruct (no_row _ _); [|done]. cbn in Hex. injection Hex as _ <-.
  exists u. split; [done|]. split; [done|]. split; [cbn; rewrite Hf; by destruct u|by exists k, row].
Qed.

End rbac_proofs.
