(* ===== verification/ContainerProofs.v ===== *)
(** * What the deployments of containers guarantee, and where they fail *)
From S2P Require Import Prelude GoStd Net Errors Domain DomainData World Logic Sql InstanceRepo NetworkRepo.
From S2P Require Import InstanceService LBRepo LBService Ports AutoScalingWorker Queue Container.

Section container_proofs.
Context `{Env, !InstanceServicePort}.

(** Every container belongs to a deployment: the foreign key of the table. *)
Definition containers_fk (w : World) : Prop :=
  ∀ k c, t_containers w !! k = Some c → is_Some (t_deployments w !! dc_DeploymentID c).

(** ** Creation *)

Lemma CreateDeployment_Ok ctx name image replicas ports w dep w1 :
  CreateDeployment ctx name image replicas ports w = (Ok dep, w1) →
  t_deployments w !! dep_ID dep = None ∧ t_deployments w1 = <[dep_ID dep := dep]> (t_deployments w) ∧
  t_containers w1 = t_containers w ∧ int4 replicas = true ∧ dep_Replicas dep = replicas ∧
  dep_Status dep = DeploymentStatusScaling ∧ dep_UserID dep = UserIDFromContext ctx ∧ dep_CurrentCount dep = 0.
Proof.
  intros Hrun. apply (frame_run t_containers) in Hrun as Hc; [|apply _].
  unfold CreateDeployment in Hrun. ok_step Hrun u w2. apply (frame_run t_deployments) in Hrun0 as Hf; [|apply _].
  unfold current_user in Hrun0. ok_step Hrun0 x w9. unfold mret, M_ret in Hrun0. injection Hrun0 as <- ->.
  clear Hrun1.
  apply total_bind_inv in Hrun as (id & w3 & H3 & Hrun); [|apply _].
  apply total_bind_inv in Hrun as (cr & w4 & H4 & Hrun); [|apply _].
  apply total_bind_inv in Hrun as (up & w5 & H5 & Hrun); [|apply _].
  apply (frame_run t_deployments) in H3, H4, H5; try apply _. cbn zeta in Hrun.
  ok_step Hrun v w6. apply db_exec_Ok in Hrun0. unfold sql_insert in Hrun0. cbn in Hrun0.
  destruct (t_deployments w5 !! id) eqn:Hl; [done|].
  destruct (_ && no_row _ _) eqn:Hok; [|done]. injection Hrun0 as _ <-.
  apply andb_true_iff in Hok as [[[_ Hint]%andb_true_iff _]%andb_true_iff _].
  apply ignore_bind_inv in Hrun as (? & w7 & H7 & Hrun); [|apply _].
  apply ignore_bind_inv in Hrun as (? & w8 & H8 & Hrun); [|apply _].
  apply (frame_run t_deployments) in H7, H8; try apply _.
  unfold mret, M_ret in Hrun. injection Hrun as <- <-. cbn in H7 |- *.
  assert (t_deployments w5 = t_deployments w) as Hf5 by congruence.
  rewrite H8, H7, Hf5. rewrite Hf5 in Hl. done.
Qed.

Lemma dep_GetContainers_run `{!OrderLaws, !NoFaults} d w :
  dep_GetContainers d w =
    (Ok (dc_InstanceID <$> env_order (w_tick w) _
           (select (λ c, bool_decide (dc_DeploymentID c = d)) (t_containers w))),
     w <| w_tick ::= S |>).
Proof.
  unfold dep_GetContainers. by rewrite (bind_Ok_run _ _ _ _ _ (db_query_run _ w)).
Qed.

(** A deployment without containers and with a negative number of replicas. *)
Lemma reconcile_negative `{!OrderLaws, !NoFaults} c dep w :
  - 2 ^ 31 ≤ dep_Replicas dep < 0 → dep_Status dep ≠ DeploymentStatusDeleting →
  (∀ k x, t_containers w !! k = Some x → dc_DeploymentID x ≠ dep_ID dep) →
  reconcileDeployment c dep w = (Panic index_out_of_range, w <| w_tick ::= S |>).
Proof.
  intros Hneg Hst Hnone. unfold reconcileDeployment.
  rewrite (bind_Ok_run _ _ _ _ _ (attempt_Ok_run _ _ _ _ (dep_GetContainers_run _ w))).
  assert (select (λ x, bool_decide (dc_DeploymentID x = dep_ID dep)) (t_containers w) = []) as ->.
  { destruct (select _ _) as [|x l] eqn:Hs; [done|].
    assert (x ∈ x :: l) as Hin by left. rewrite <- Hs in Hin.
    apply elem_of_select in Hin as [Hd%bool_decide_eq_true [k Hk]]. by destruct (Hnone k x Hk). }
  rewrite env_order_nil, (bool_decide_false (dep_Status dep = _)) by done.
  unfold scale_deployment. cbn [fmap list_fmap length]. change (Z.of_nat 0) with 0.
  destruct (Z.ltb_spec 0 (dep_Replicas dep)), (Z.ltb_spec (dep_Replicas dep) 0); try lia.
  rewrite int_sub_exact by (unfold int64_range; lia).
  by destruct (Z.to_nat (0 - dep_Replicas dep)) eqn:Hn; [lia|].
Qed.

(** A deployment created with a negative number of replicas, which the service accepts, makes the
    reconciliation of that deployment panic at an index out of range; the worker does not recover
    from panics, so a turn that reaches it ends the process. *)
Theorem negative_replicas_panic `{!OrderLaws, !NoFaults} ctx c name image replicas ports w dep w1 :
  containers_fk w → replicas < 0 →
  CreateDeployment ctx name image replicas ports w = (Ok dep, w1) →
  (reconcileDeployment c dep w1).1 = Panic index_out_of_range ∧
  (t_deployments w = ∅ → (Reconcile c w1).1 = Panic index_out_of_range).
Proof.
  intros Hfk Hneg Hrun. apply CreateDeployment_Ok in Hrun as (Hnew & Hd & Hc & Hint & Hr & Hst & _).
  unfold int4 in Hint. apply andb_true_iff in Hint as [?%Z.leb_le ?%Z.ltb_lt].
  assert (∀ w2, t_containers w2 = t_containers w →
    reconcileDeployment c dep w2 = (Panic index_out_of_range, w2 <| w_tick ::= S |>)) as Hpanic.
  { intros w2 Hc2. apply reconcile_negative; [lia|by rewrite Hst|]. intros k x Hk Heq. rewrite Hc2 in Hk.
    destruct (Hfk k x Hk) as [? Hx]. congruence. }
  split; [by rewrite Hpanic|]. intros Hempty. unfold Reconcile, dep_ListAllDeployments.
  unfold mbind at 1, M_bind at 1.
  rewrite (attempt_Ok_run _ _ _ _ (db_query_run _ w1)).
  change (t_deployments (w1 <| w_tick ::= S |>)) with (t_deployments w1).
  assert (select (λ _, true) (t_deployments w1) = [dep]) as ->.
  { rewrite Hd, Hempty, insert_empty. unfold select. by rewrite map_to_list_singleton. }
  rewrite env_order_singleton. cbn. unfold mbind, M_bind. by rewrite Hpanic.
Qed.

(** ** Deletion *)

(** Deleting a deployment is lost when the worker, which read it before, writes its status
    afterwards: the deployment is in DELETING after the request and READY or SCALING again
    after the worker, so it is never removed. *)
Theorem delete_lost_to_worker `{!OrderLaws, !NoFaults} ctx dep ids w w1 :
  t_deployments w !! dep_ID dep = Some dep → int4 (dep_Replicas dep) = true →
  int4 (Z.of_nat (length ids)) = true → Z.of_nat (length ids) ≠ dep_CurrentCount dep →
  DeleteDeployment ctx (dep_ID dep) w = (Ok tt, w1) →
  (∃ row, t_deployments w1 !! dep_ID dep = Some row ∧ dep_Status row = DeploymentStatusDeleting) ∧
  ∀ r w2, update_status dep ids w1 = (r, w2) →
    ∃ row, t_deployments w2 !! dep_ID dep = Some row ∧
      (dep_Status row = DeploymentStatusReady ∨ dep_Status row = DeploymentStatusScaling).
Proof.
  intros Hrow Hint Hlen Hcount Hrun.
  assert (∃ row, t_deployments w1 !! dep_ID dep = Some row ∧ dep_Status row = DeploymentStatusDeleting)
    as (row & Hrow1 & Hst).
  { unfold DeleteDeployment in Hrun. ok_step Hrun d w2.
    apply (db_query_row_pk_Ok t_deployments) in Hrun0 as (-> & Hd & _). rewrite Hrow in Hd. injection Hd as <-.
    ok_step Hrun u w3. apply (frame_run t_deployments) in Hrun as Hf; [|apply _].
    unfold dep_UpdateDeployment in Hrun0. ok_step Hrun0 t w4. injection Hrun1 as <- <-.
    ok_step Hrun0 n w5. apply db_exec_Ok in Hrun1. unfold sql_update in Hrun1. cbn in Hrun1.
    rewrite Hrow in Hrun1. destruct (_ && _); [|done]. injection Hrun1 as _ <-.
    unfold mret, M_ret in Hrun0. injection Hrun0 as _ <-. rewrite Hf. cbn. rewrite lookup_insert_eq. eauto. }
  split; [by exists row|]. intros r w2 Hup. unfold update_status in Hup. cbn zeta in Hup.
  rewrite (bool_decide_false (dep_CurrentCount dep = _)), orb_true_r in Hup by done.
  apply ignore_inv in Hup as [(_ & r0 & Hup)|(? & Hup & _)]; [|by destruct (no_panic_run _ _ _ _ Hup)].
  unfold dep_UpdateDeployment, next_tick, db_exec, mbind, M_bind in Hup. rewrite no_faults in Hup.
  unfold sql_update in Hup. cbn in Hup. rewrite Hrow1 in Hup. rewrite Hint, Hlen in Hup. cbn in Hup.
  unfold mret, M_ret in Hup. injection Hup as _ <-. eexists. cbn. rewrite lookup_insert_eq.
  split; [done|]. cbn. case_bool_decide; auto.
Qed.

(** ** A number of replicas that is not negative *)

Context `{!LawfulInstanceService}.

#[local] Instance launchContainer_no_panic ctx dep : NoPanic (launchContainer ctx dep).
Proof. unfold launchContainer. apply _. Qed.
#[local] Instance terminateContainer_no_panic ctx dep i : NoPanic (terminateContainer ctx dep i).
Proof. unfold terminateContainer. apply _. Qed.

Lemma launch_loop_total ctx dep n : Total (launch_loop ctx dep n).
Proof. induction n as [|n IH]; cbn; apply _. Qed.

Lemma terminate_loop_total ctx dep n : ∀ ids, (n ≤ length ids)%nat → Total (terminate_loop ctx dep ids n).
Proof.
  induction n as [|n IH]; intros [|i ids] Hn; cbn in *; try apply _; [lia|].
  assert (Total (terminate_loop ctx dep ids n)) by (apply IH; lia). apply _.
Qed.

(** C34: with a number of replicas that is not negative a turn for a deployment always ends without a
    panic, whatever fails meanwhile, so the worker goes on to the next deployment. *)
Theorem reconcileDeployment_total ctx dep w r w' :
  0 ≤ dep_Replicas dep → reconcileDeployment ctx dep w = (r, w') → r = Ok tt.
Proof.
  intros Hr Hrun. unfold reconcileDeployment in Hrun.
  apply total_bind_inv in Hrun as (a & w1 & _ & Hrun); [|apply _].
  destruct a as [e|ids]; [unfold mret, M_ret in Hrun; by injection Hrun as <- _|].
  assert (∀ d l, Total (update_status d l)) as Hus by (intros; unfold update_status; apply _).
  assert (Total (scale_deployment (WithUserID ctx (dep_UserID dep)) dep ids)) as Hsc.
  { unfold scale_deployment. pose proof (wrap64_le (Z.of_nat (length ids) - dep_Replicas dep)).
    destruct (Z.ltb_spec (Z.of_nat (length ids)) (dep_Replicas dep)); [apply launch_loop_total|].
    destruct (Z.ltb_spec (dep_Replicas dep) (Z.of_nat (length ids))); [|apply _].
    apply terminate_loop_total. unfold int_sub. lia. }
  by apply total_run in Hrun as [[] ->]; [|apply _].
Qed.

End container_proofs.
