(* ===== verification/System.v ===== *)
(** * The whole control plane as a transition system

    [cmd/api/main.go], [internal/api/setup] and the goroutines of the services: a state of
    the system is a [World]; it moves when a request runs an operation of a service
    ([api]), when a ticker runs a pass of one of the four workers ([worker]), when the
    runtime runs a goroutine a service left behind, in any order, when the process is
    started again, which empties its memory, and when something only reads, which moves the
    clock and the history of calls.  An operation runs to its end before the next
    one: the transitions interleave whole operations, but for logins, whose sections under
    the mutex of the lockouts are transitions too, in any order.  An operation that panics
    leaves the state it had reached: the HTTP server recovers from a panic of a handler. *)
From S2P Require Import Prelude GoStd Encoding Net Errors Domain DomainData World Logic Sql InstanceRepo.
From S2P Require Import NetworkRepo InstanceService VolumeService NetworkService LBRepo LBService.
From S2P Require Import AutoScalingRepo Ports AutoScalingService AutoScalingWorker InstanceProofs.
From S2P Require Import AutoScalingProofs Secret Queue Storage Rbac Auth SecurityGroup Snapshot Http Cron.
From S2P Require Import Gateway Notify Cache Database Function Stack Container.

(** What the process is configured with. *)
Record Config := MkConfig {
  cfg_masterKey : list N;
  cfg_basePath : string;
  cfg_defaultCIDR : string;
  cfg_getwd : option string
}.

Section system.
Context `{Env, Crypto, HttpEnv, CronParser, ZipReader, Formats} (cfg : Config).

(** ** Goroutines *)

(** The body of the goroutine a task stands for. *)
Definition run_task (t : Task) : M unit :=
  match t with
  | SnapshotTask vol snapshot => snapshot_task (cfg_getwd cfg) vol snapshot
  | CronTask job => runJob job
  | DeliverTask sub body => deliver None sub body
  | RemoveCodeTask path => remove_code_task (cfg_basePath cfg) path
  | InvocationTask f i payload => ignore (runInvocation (cfg_basePath cfg) f i payload)
  | ProcessStackTask stack => processStack (cfg_defaultCIDR cfg) stack
  | DeleteStackTask id userID => delete_stack_task id userID
  end.

(** ** The operations a request can run *)

(** Operations of the public endpoints, before anybody is known; with the sections of a
    login, between which other logins run. *)
Inductive public_api : ∀ A, M A → Prop :=
  | P_Register ctx email password name : public_api User (Register ctx email password name)
  | P_Login ctx email password : public_api (User * string) (Login ctx email password)
  | P_check_lockout email : public_api unit (check_lockout email)
  | P_login_checked ctx email password :
      public_api (User * string) (login_checked ctx email password)
  | P_incrementFailure email : public_api unit (incrementFailure email)
  | P_clear_failures email : public_api unit (clear_failures email)
  | P_RequestReset email : public_api unit (RequestReset email)
  | P_ResetPassword token password : public_api unit (ResetPassword token password)
  | P_Proxy path : public_api (option (string * string)) (gw_Proxy path).

(** Operations on the identity of a user and on the roles. *)
Inductive identity_api (ctx : Context) : ∀ A, M A → Prop :=
  | I_CreateKey name : identity_api ctx APIKey (CreateKey (UserIDFromContext ctx) name)
  | I_ListKeys : identity_api ctx (list APIKey) (ListKeys (UserIDFromContext ctx))
  | I_RevokeKey id : identity_api ctx unit (RevokeKey (UserIDFromContext ctx) id)
  | I_RotateKey id : identity_api ctx APIKey (RotateKey (UserIDFromContext ctx) id)
  | I_CreateRole role : identity_api ctx unit (CreateRole role)
  | I_UpdateRole role : identity_api ctx unit (UpdateRole role)
  | I_DeleteRole id : identity_api ctx unit (DeleteRole id)
  | I_AddPermission id p : identity_api ctx unit (AddPermissionToRole id p)
  | I_RemovePermission id p : identity_api ctx unit (RemovePermissionFromRole id p)
  | I_BindRole user role : identity_api ctx unit (BindRole user role).

(** Operations on compute, storage volumes and networks. *)
Inductive compute_api (ctx : Context) : ∀ A, M A → Prop :=
  | C_Launch name image ports vpc subnet vols :
      compute_api ctx Instance (LaunchInstance ctx name image ports vpc subnet vols)
  | C_Stop s : compute_api ctx unit (Instance_Stop ctx s)
  | C_Logs s : compute_api ctx string (InstanceLogs ctx s)
  | C_Terminate s : compute_api ctx unit (TerminateInstance ctx s)
  | C_CreateVolume name size : compute_api ctx Volume (CreateVolume ctx name size)
  | C_DeleteVolume s : compute_api ctx unit (DeleteVolume ctx s)
  | C_CreateSnapshot vol desc : compute_api ctx Snapshot (CreateSnapshot ctx vol desc)
  | C_DeleteSnapshot id : compute_api ctx unit (DeleteSnapshot ctx id)
  | C_RestoreSnapshot id name :
      compute_api ctx Volume (RestoreSnapshot (cfg_getwd cfg) ctx id name)
  | C_CreateVPC name cidr : compute_api ctx VPC (CreateVPC (cfg_defaultCIDR cfg) ctx name cidr)
  | C_DeleteVPC s : compute_api ctx unit (DeleteVPC ctx s)
  | C_CreateSubnet vpc name cidr az : compute_api ctx Subnet (CreateSubnet ctx vpc name cidr az)
  | C_DeleteSubnet id : compute_api ctx unit (DeleteSubnet ctx id)
  | C_CreateSecurityGroup vpc name desc :
      compute_api ctx SecurityGroup (secg_CreateGroup ctx vpc name desc)
  | C_DeleteSecurityGroup id : compute_api ctx unit (secg_DeleteGroup ctx id)
  | C_AddRule id rule : compute_api ctx SecurityRule (AddRule ctx id rule)
  | C_RemoveRule id : compute_api ctx unit (RemoveRule ctx id)
  | C_Attach inst group : compute_api ctx unit (AttachToInstance ctx inst group)
  | C_Detach inst group : compute_api ctx unit (DetachFromInstance ctx inst group).

(** Operations on load balancers, scaling groups, deployments and stacks. *)
Inductive orchestration_api (ctx : Context) : ∀ A, M A → Prop :=
  | O_CreateLB name vpc port algo key :
      orchestration_api ctx LoadBalancer (LB_Create ctx name vpc port algo key)
  | O_DeleteLB id : orchestration_api ctx unit (LB_Delete ctx id)
  | O_AddTarget lb inst port weight : orchestration_api ctx unit (AddTarget ctx lb inst port weight)
  | O_RemoveTarget lb inst : orchestration_api ctx unit (RemoveTarget ctx lb inst)
  | O_CreateGroup params : orchestration_api ctx ScalingGroup (CreateGroup ctx params)
  | O_DeleteGroup id : orchestration_api ctx unit (DeleteGroup ctx id)
  | O_SetDesired id n : orchestration_api ctx unit (SetDesiredCapacity ctx id n)
  | O_CreatePolicy params : orchestration_api ctx ScalingPolicy (CreatePolicy ctx params)
  | O_DeletePolicy id : orchestration_api ctx unit (DeletePolicy ctx id)
  | O_CreateDeployment name image n ports :
      orchestration_api ctx Deployment (CreateDeployment ctx name image n ports)
  | O_ScaleDeployment id n : orchestration_api ctx unit (ScaleDeployment ctx id n)
  | O_DeleteDeployment id : orchestration_api ctx unit (DeleteDeployment ctx id)
  | O_CreateStack name template params :
      orchestration_api ctx Stack (CreateStack ctx name template params)
  | O_DeleteStack id : orchestration_api ctx unit (DeleteStack ctx id).

(** Operations on data, messages, schedules and functions. *)
Inductive data_api (ctx : Context) : ∀ A, M A → Prop :=
  | D_CreateSecret name value desc :
      data_api ctx Secret (CreateSecret (cfg_masterKey cfg) ctx name value desc)
  | D_GetSecret id : data_api ctx Secret (GetSecret (cfg_masterKey cfg) ctx id)
  | D_GetSecretByName name : data_api ctx Secret (GetSecretByName (cfg_masterKey cfg) ctx name)
  | D_DeleteSecret id : data_api ctx unit (DeleteSecret ctx id)
  | D_Upload bucket key r : data_api ctx Object (Upload (cfg_basePath cfg) ctx bucket key r)
  | D_Download bucket key :
      data_api ctx (string * Object) (Download (cfg_basePath cfg) ctx bucket key)
  | D_DeleteObject bucket key : data_api ctx unit (DeleteObject ctx bucket key)
  | D_CreateCache name version mem vpc : data_api ctx Cache (CreateCache ctx name version mem vpc)
  | D_DeleteCache s : data_api ctx unit (DeleteCache ctx s)
  | D_FlushCache s : data_api ctx unit (FlushCache ctx s)
  | D_CreateDatabase name engine version vpc :
      data_api ctx Database (CreateDatabase ctx name engine version vpc)
  | D_DeleteDatabase id : data_api ctx unit (DeleteDatabase ctx id)
  | D_CreateQueue name opts : data_api ctx Queue (CreateQueue ctx name opts)
  | D_DeleteQueue id : data_api ctx unit (DeleteQueue ctx id)
  | D_SendMessage id body : data_api ctx Message (SendMessage ctx id body)
  | D_ReceiveMessages id n : data_api ctx (list Message) (ReceiveMessages ctx id n)
  | D_DeleteMessage id handle : data_api ctx unit (DeleteMessage ctx id handle)
  | D_PurgeQueue id : data_api ctx unit (PurgeQueue ctx id)
  | D_CreateTopic name : data_api ctx Topic (CreateTopic ctx name)
  | D_DeleteTopic id : data_api ctx unit (DeleteTopic ctx id)
  | D_Subscribe topic protocol endpoint :
      data_api ctx Subscription (Subscribe ctx topic protocol endpoint)
  | D_Unsubscribe id : data_api ctx unit (Unsubscribe ctx id)
  | D_Publish topic body : data_api ctx unit (Publish ctx topic body)
  | D_CreateJob name schedule url method payload :
      data_api ctx CronJob (CreateJob ctx name schedule url method payload)
  | D_PauseJob id : data_api ctx unit (PauseJob ctx id)
  | D_ResumeJob id : data_api ctx unit (ResumeJob ctx id)
  | D_DeleteJob id : data_api ctx unit (cron_DeleteJob ctx id)
  | D_CreateRoute name prefix target strip limit :
      data_api ctx GatewayRoute (CreateRoute ctx name prefix target strip limit)
  | D_DeleteRoute id : data_api ctx unit (DeleteRoute ctx id)
  | D_CreateFunction name runtime handler code :
      data_api ctx Function (CreateFunction (cfg_basePath cfg) ctx name runtime handler code)
  | D_DeleteFunction id : data_api ctx unit (DeleteFunction ctx id)
  | D_InvokeFunction id payload async :
      data_api ctx Invocation (InvokeFunction (cfg_basePath cfg) ctx id payload async).

(** What a request can run: a public operation, or an operation in the name of the user of
    its context. *)
Inductive api : ∀ A, M A → Prop :=
  | api_public A m : public_api A m → api A m
  | api_identity ctx A m : identity_api ctx A m → api A m
  | api_compute ctx A m : compute_api ctx A m → api A m
  | api_orchestration ctx A m : orchestration_api ctx A m → api A m
  | api_data ctx A m : data_api ctx A m → api A m.

(** A pass of a worker that [main] starts, with the context of the process. *)
Inductive worker : M unit → Prop :=
  | W_LB : worker (lb_worker_tick None)
  | W_AutoScaling : worker (Evaluate None)
  | W_Cron : worker ProcessJobs
  | W_Container : worker (Reconcile None).

(** ** Transitions *)

(** A new process: the maps in memory are empty, its goroutines are gone, and
    [NewGatewayService] loads the routes. *)
Definition restart : M unit :=
  modifies m_failedAttempts (λ _, ∅) ;;
  modifies m_lockouts (λ _, ∅) ;;
  modifies m_routes (λ _, ∅) ;;
  modifies w_tasks (λ _, []) ;;
  ignore RefreshRoutes.

Definition take_task (l : list Task) : M unit := modifies w_tasks (λ _, l).

Inductive step : World → World → Prop :=
  | step_api w A m : api A m → step w (m w).2
  | step_worker w m : worker m → step w (m w).2
  | step_task w l1 t l2 :
      w_tasks w = l1 ++ t :: l2 → step w ((take_task (l1 ++ l2) ;; run_task t) w).2
  | step_restart w : step w (restart w).2
  | step_reads w w' : reads w w' → step w w'.

(** The roles that the migration [027_create_rbac.up.sql] inserts. *)
Definition admin_role : Role := MkRole 1%N "admin" "Full platform access" ["*"].

Definition developer_role : Role :=
  MkRole 2%N "developer" "Access to manage compute, storage and network resources"
    ["instance:launch"; "instance:terminate"; "instance:read"; "vpc:read"; "volume:read"; "snapshot:read"].

Definition viewer_role : Role :=
  MkRole 3%N "viewer" "Read-only access to all resources"
    ["instance:read"; "vpc:read"; "volume:read"; "snapshot:read"].

(** The database after the migrations, with a process that has just started. *)
Definition seeded_world : World :=
  empty_world <| t_roles ::= (λ _, <[role_ID admin_role := admin_role]> (<[role_ID developer_role := developer_role]>
    {[role_ID viewer_role := viewer_role]})) |>.

(** From the database that the migrations leave. *)
Inductive reachable : World → Prop :=
  | reach_init : reachable seeded_world
  | reach_step w w' : reachable w → step w w' → reachable w'.

(** ** Rule induction over relations that every program keeps *)

Section invariant.
Context (R : relation World) `{!PreOrder R, !ReadsOk R}.
Context (Hapi : ∀ A m, api A m → Steps R m) (Hworker : ∀ m, worker m → Steps R m).
Context (Htask : ∀ t, Steps R (run_task t)) (Htake : ∀ l, Steps R (take_task l)) (Hrestart : Steps R restart).

Lemma step_rel w w' : step w w' → R w w'.
Proof.
  intros [v A m Hm|v m Hm|v l1 t l2 _|v|v v' Hr].
  - apply (Hapi _ _ Hm).
  - apply (Hworker _ Hm).
  - assert (Steps R (take_task (l1 ++ l2) ;; run_task t)) as Hs; [|apply Hs].
    apply steps_bind; [done|apply Htake|intros _; apply Htask].
  - apply Hrestart.
  - by apply reads_ok.
Qed.

End invariant.

(** An invariant that holds at the start and that every transition keeps holds always. *)
Lemma reachable_inv (P : World → Prop) :
  P seeded_world → (∀ w w', step w w' → P w → P w') → ∀ w, reachable w → P w.
Proof. intros Hinit Hstep w. induction 1; eauto. Qed.

End system.
