(* ===== verification/Server.v ===== *)
(** * The server: the middlewares of [SetupRouter], the handler of every endpoint, and the
    answer to a request

    [internal/api/setup/router.go], [pkg/httputil/middleware.go], [security.go] and [auth.go],
    [pkg/ratelimit]. *)
From S2P Require Import Prelude GoStd Encoding Errors Json Net Domain DomainData World Logic Sql InstanceRepo.
From S2P Require Import Rbac Secret Auth Http Cron Function Stack Storage Router System Gin ComputeHandlers.
From S2P Require Import OrchestrationHandlers DataHandlers IdentityHandlers.

(** ** Headers *)

Definition HeaderXRequestID : string := "X-Request-ID".

Definition CORS_headers : list (string * string) := [
  ("Access-Control-Allow-Origin", "*");
  ("Access-Control-Allow-Methods", "POST, GET, OPTIONS, PUT, DELETE, PATCH");
  ("Access-Control-Allow-Headers", "Accept, Content-Type, Content-Length, Accept-Encoding, X-CSRF-Token, Authorization, x-api-key");
  ("Access-Control-Expose-Headers", "Content-Length");
  ("Access-Control-Allow-Credentials", "true")
].

Definition SecurityHeaders : list (string * string) := [
  ("X-Content-Type-Options", "nosniff");
  ("X-Frame-Options", "DENY");
  ("X-XSS-Protection", "1; mode=block");
  ("Strict-Transport-Security", "max-age=31536000; includeSubDomains");
  ("Referrer-Policy", "strict-origin-when-cross-origin");
  ("Content-Security-Policy", "default-src 'self'")
].

Section server.
Context `{Env, Crypto, HttpEnv, CronParser, ZipReader, Formats, UnicodeTables, Gin} (cfg : Config).

(** ** The handlers *)

(** Behind [httputil.Auth]. *)
Definition user_handlers : list (string * Handler) := [
  ("Identity.CreateKey", IdentityHandler_CreateKey);
  ("Identity.ListKeys", IdentityHandler_ListKeys);
  ("Identity.RevokeKey", IdentityHandler_RevokeKey);
  ("Identity.RotateKey", IdentityHandler_RotateKey);
  ("Identity.RegenerateKey", IdentityHandler_RegenerateKey);
  ("Instance.Launch", InstanceHandler_Launch);
  ("Instance.List", InstanceHandler_List);
  ("Instance.Get", InstanceHandler_Get);
  ("Instance.Stop", InstanceHandler_Stop);
  ("Instance.GetLogs", InstanceHandler_GetLogs);
  ("Instance.GetStats", InstanceHandler_GetStats);
  ("Instance.Terminate", InstanceHandler_Terminate);
  ("Vpc.Create", VpcHandler_Create (cfg_defaultCIDR cfg));
  ("Vpc.List", VpcHandler_List);
  ("Vpc.Get", VpcHandler_Get);
  ("Vpc.Delete", VpcHandler_Delete);
  ("Subnet.Create", SubnetHandler_Create);
  ("Subnet.List", SubnetHandler_List);
  ("Subnet.Get", SubnetHandler_Get);
  ("Subnet.Delete", SubnetHandler_Delete);
  ("SecurityGroup.Create", SecurityGroupHandler_Create);
  ("SecurityGroup.List", SecurityGroupHandler_List);
  ("SecurityGroup.Get", SecurityGroupHandler_Get);
  ("SecurityGroup.Delete", SecurityGroupHandler_Delete);
  ("SecurityGroup.AddRule", SecurityGroupHandler_AddRule);
  ("SecurityGroup.Attach", SecurityGroupHandler_Attach);
  ("Storage.Upload", StorageHandler_Upload (cfg_basePath cfg));
  ("Storage.Download", StorageHandler_Download (cfg_basePath cfg));
  ("Storage.List", StorageHandler_List);
  ("Storage.Delete", StorageHandler_Delete);
  ("Event.List", EventHandler_List);
  ("Audit.ListLogs", AuditHandler_ListLogs);
  ("RBAC.CreateRole", RBACHandler_CreateRole);
  ("RBAC.ListRoles", RBACHandler_ListRoles);
  ("RBAC.GetRole", RBACHandler_GetRole);
  ("RBAC.UpdateRole", RBACHandler_UpdateRole);
  ("RBAC.DeleteRole", RBACHandler_DeleteRole);
  ("RBAC.AddPermission", RBACHandler_AddPermission);
  ("RBAC.RemovePermission", RBACHandler_RemovePermission);
  ("RBAC.BindRole", RBACHandler_BindRole);
  ("RBAC.ListRoleBindings", RBACHandler_ListRoleBindings);
  ("Volume.Create", VolumeHandler_Create);
  ("Volume.List", VolumeHandler_List);
  ("Volume.Get", VolumeHandler_Get);
  ("Volume.Delete", VolumeHandler_Delete);
  ("Dashboard.GetSummary", DashboardHandler_GetSummary);
  ("Dashboard.GetRecentEvents", DashboardHandler_GetRecentEvents);
  ("Dashboard.GetStats", DashboardHandler_GetStats);
  ("Dashboard.StreamEvents", DashboardHandler_StreamEvents);
  ("Snapshot.Create", SnapshotHandler_Create);
  ("Snapshot.List", SnapshotHandler_List);
  ("Snapshot.Get", SnapshotHandler_Get);
  ("Snapshot.Delete", SnapshotHandler_Delete);
  ("Snapshot.Restore", SnapshotHandler_Restore (cfg_getwd cfg));
  ("LB.Create", LBHandler_Create);
  ("LB.List", LBHandler_List);
  ("LB.Get", LBHandler_Get);
  ("LB.Delete", LBHandler_Delete);
  ("LB.AddTarget", LBHandler_AddTarget);
  ("LB.ListTargets", LBHandler_ListTargets);
  ("LB.RemoveTarget", LBHandler_RemoveTarget);
  ("Database.Create", DatabaseHandler_Create);
  ("Database.List", DatabaseHandler_List);
  ("Database.Get", DatabaseHandler_Get);
  ("Database.Delete", DatabaseHandler_Delete);
  ("Database.GetConnectionString", DatabaseHandler_GetConnectionString);
  ("Secret.Create", SecretHandler_Create (cfg_masterKey cfg));
  ("Secret.List", SecretHandler_List);
  ("Secret.Get", SecretHandler_Get (cfg_masterKey cfg));
  ("Secret.Delete", SecretHandler_Delete (cfg_masterKey cfg));
  ("Function.Create", FunctionHandler_Create (cfg_basePath cfg));
  ("Function.List", FunctionHandler_List);
  ("Function.Get", FunctionHandler_Get);
  ("Function.Delete", FunctionHandler_Delete);
  ("Function.Invoke", FunctionHandler_Invoke (cfg_basePath cfg));
  ("Function.GetLogs", FunctionHandler_GetLogs);
  ("Cache.Create", CacheHandler_Create);
  ("Cache.List", CacheHandler_List);
  ("Cache.Get", CacheHandler_Get);
  ("Cache.Delete", CacheHandler_Delete);
  ("Cache.GetConnectionString", CacheHandler_GetConnectionString);
  ("Cache.Flush", CacheHandler_Flush);
  ("Cache.GetStats", CacheHandler_GetStats);
  ("Queue.Create", QueueHandler_Create);
  ("Queue.List", QueueHandler_List);
  ("Queue.Get", QueueHandler_Get);
  ("Queue.Delete", QueueHandler_Delete);
  ("Queue.SendMessage", QueueHandler_SendMessage);
  ("Queue.ReceiveMessages", QueueHandler_ReceiveMessages);
  ("Queue.DeleteMessage", QueueHandler_DeleteMessage);
  ("Queue.Purge", QueueHandler_Purge);
  ("Notify.CreateTopic", NotifyHandler_CreateTopic);
  ("Notify.ListTopics", NotifyHandler_ListTopics);
  ("Notify.DeleteTopic", NotifyHandler_DeleteTopic);
  ("Notify.Subscribe", NotifyHandler_Subscribe);
  ("Notify.ListSubscriptions", NotifyHandler_ListSubscriptions);
  ("Notify.Unsubscribe", NotifyHandler_Unsubscribe);
  ("Notify.Publish", NotifyHandler_Publish);
  ("Cron.CreateJob", CronHandler_CreateJob);
  ("Cron.ListJobs", CronHandler_ListJobs);
  ("Cron.GetJob", CronHandler_GetJob);
  ("Cron.DeleteJob", CronHandler_DeleteJob);
  ("Cron.PauseJob", CronHandler_PauseJob);
  ("Cron.ResumeJob", CronHandler_ResumeJob);
  ("Gateway.CreateRoute", GatewayHandler_CreateRoute);
  ("Gateway.ListRoutes", GatewayHandler_ListRoutes);
  ("Gateway.DeleteRoute", GatewayHandler_DeleteRoute);
  ("Container.CreateDeployment", ContainerHandler_CreateDeployment);
  ("Container.ListDeployments", ContainerHandler_ListDeployments);
  ("Container.GetDeployment", ContainerHandler_GetDeployment);
  ("Container.ScaleDeployment", ContainerHandler_ScaleDeployment);
  ("Container.DeleteDeployment", ContainerHandler_DeleteDeployment);
  ("AutoScaling.CreateGroup", AutoScalingHandler_CreateGroup);
  ("AutoScaling.ListGroups", AutoScalingHandler_ListGroups);
  ("AutoScaling.GetGroup", AutoScalingHandler_GetGroup);
  ("AutoScaling.DeleteGroup", AutoScalingHandler_DeleteGroup);
  ("AutoScaling.CreatePolicy", AutoScalingHandler_CreatePolicy);
  ("AutoScaling.DeletePolicy", AutoScalingHandler_DeletePolicy);
  ("Stack.Create", StackHandler_Create);
  ("Stack.List", StackHandler_List);
  ("Stack.Get", StackHandler_Get);
  ("Stack.Delete", StackHandler_Delete);
  ("Stack.Validate", StackHandler_Validate)
].

Definition public_handlers : list (string * Handler) := [
  ("Health.Live", HealthHandler_Live);
  ("Health.Ready", HealthHandler_Ready);
  ("", health_ovs);
  ("Auth.Register", AuthHandler_Register);
  ("Auth.Login", AuthHandler_Login);
  ("Auth.ForgotPassword", AuthHandler_ForgotPassword);
  ("Auth.ResetPassword", AuthHandler_ResetPassword);
  ("Gateway.Proxy", GatewayHandler_Proxy)
].

Definition lookup_handler (l : list (string * Handler)) (name : string) : option Handler :=
  snd <$> find (λ h, bool_decide (h.1 = name)) l.

(** The handler of an endpoint of this table; the metrics and the documentation have
    handlers of other packages. *)
Definition handler_of (e : Endpoint) : option Handler :=
  lookup_handler (if ep_Auth e then user_handlers else public_handlers) (ep_Handler e).

(** The middlewares of the route and its handler. *)
Definition answer (e : Endpoint) (h : Handler) (rq : Request) : M Response :=
  r ← attempt (gate e (GetHeader rq "X-API-Key"));
  match r with
  | inl err => Error err
  | inr ctx => h ctx rq
  end.

(** ** The chain of middlewares *)

Context {Limiter : Type} (NewLimiter NewAuthLimiter : Limiter) (Allow : Limiter → time → bool * Limiter).

(** The world, and the limiters of all requests and of the requests for credentials. *)
Record Server := MkServer {
  sv_world : World;
  sv_limiter : gmap string Limiter;
  sv_authLimiter : gmap string Limiter
}.

(** A response with the headers the middlewares set. *)
Record Reply := MkReply { rp_Headers : list (string * string); rp_Response : Response }.

(** A handler of another package: metrics and documentation, or no route. *)
Context (other : option Endpoint → Request → Response).

Definition RequestID (rq : Request) : M string :=
  if bool_decide (GetHeader rq HeaderXRequestID = "") then id ← uuid_New; mret (uuid_string id)
  else mret (GetHeader rq HeaderXRequestID).

(** [rate.Limiter.Allow] reads the clock. *)
Definition allowed (fresh : Limiter) (m : gmap string Limiter) (rq : Request) (w : World)
    : bool * gmap string Limiter * World :=
  let now := env_now (w_tick w) in
  (Middleware fresh Allow m now (GetHeader rq "X-API-Key") (rq_ClientIP rq), w <| w_tick ::= S |>).

Definition too_many : Response := MkResponse 429 (BJSON (error_object "rate limit exceeded")).

(** [authMiddleware] is in front of the endpoints for credentials. *)
Definition auth_limited : list string := ["Auth.Register"; "Auth.Login"; "Auth.ForgotPassword"; "Auth.ResetPassword"].

(** The end of a run: [gin.Recovery] answers a panic with status 500, and no handler
    returns an error. *)
Definition outcome (r : res Response) : Response :=
  match r with
  | Ok resp => resp
  | Err _ | Panic _ => MkResponse 500 BEmpty
  end.

(** A request to a route, after the middlewares of all requests. *)
Definition serve_route (e : Endpoint) (rq : Request) (s : Server) : Response * Server :=
  let '(ok, limiters, w) :=
    if mem (ep_Handler e) auth_limited then allowed NewAuthLimiter (sv_authLimiter s) rq (sv_world s)
    else (true, sv_authLimiter s, sv_world s) in
  let s := MkServer w (sv_limiter s) limiters in
  if ok then
    match handler_of e with
    | Some h => let '(r, w) := answer e h rq w in (outcome r, MkServer w (sv_limiter s) limiters)
    | None => (other (Some e) rq, s)
    end
  else (too_many, s).

(** [r.ServeHTTP]; the readings of the clock for the log and the metrics are left out. *)
Definition ServeHTTP (e : option Endpoint) (rq : Request) (s : Server) : Reply * Server :=
  let '(r, w) := RequestID rq (sv_world s) in
  let requestID := match r with Ok id => id | _ => "" end in
  let headers := (HeaderXRequestID, requestID) :: CORS_headers in
  if bool_decide (rq_Method rq = "OPTIONS")
  then (MkReply headers (MkResponse 204 BEmpty), MkServer w (sv_limiter s) (sv_authLimiter s))
  else
    let headers := headers ++ SecurityHeaders in
    let '(ok, limiters, w) := allowed NewLimiter (sv_limiter s) rq w in
    let s := MkServer w limiters (sv_authLimiter s) in
    if ok then
      match e with
      | Some e => let '(resp, s) := serve_route e rq s in (MkReply headers resp, s)
      | None => (MkReply headers (other None rq), s)
      end
    else (MkReply headers too_many, s).

End server.
