(* ===== verification/Invariants.v ===== *)
(** * Proof automation for relations that every transition of the system keeps

    An invariant of some tables is kept by an operation that leaves the tables alone (its
    frame), and otherwise by every statement of it: the search unfolds an operation without
    a frame down to its statements. *)
From S2P Require Import Prelude GoStd Encoding Net Errors Domain DomainData World Logic Sql InstanceRepo.
From S2P Require Import NetworkRepo InstanceService VolumeService NetworkService LBRepo LBService.
From S2P Require Import AutoScalingRepo Ports AutoScalingService AutoScalingWorker InstanceProofs.
From S2P Require Import AutoScalingProofs Secret Queue Storage Rbac Auth SecurityGroup Snapshot Http Cron.
From S2P Require Import Gateway Notify Cache Database Function Stack Container System.

Ltac head_of m := lazymatch m with ?f _ => head_of f | _ => m end.

(** Unfold the operation of a goal; the combinators of the monad have rules of their own. *)
Ltac unfold_prog :=
  lazymatch goal with
  | |- Steps _ ?m =>
      let h := head_of m in
      lazymatch h with
      | @mbind => fail | @mret => fail | @foreach => fail | @foldM => fail
      | @db_exec => fail | @db_rows => fail | @db_query => fail | @perform => fail | @attempt => fail
      | @ignore => fail | @wrap_err => fail | @modifies => fail | @gets => fail
      | @transaction_w => fail | @transaction => fail | @guard_err => fail | @from_opt => fail
      | @scale_out_loop => fail | @scale_in_loop => fail | @evaluate_policies_loop => fail
      | @launch_loop => fail | @terminate_loop => fail
      | _ => unfold h
      end
  end.

#[export] Hint Extern 60 (Steps (holds _ _) _) => unfold_prog : typeclass_instances.

(** ** The loops and the interfaces of the workers *)

Section loops.
Context `{Env, !InstanceServicePort, !LBServicePort} (R : relation World) `{!PreOrder R}.

#[export] Instance steps_scale_out_loop ctx g n :
  (∀ ctx g, Steps R (scaleOut ctx g)) → (∀ g, Steps R (recordFailure g)) →
  (∀ g, Steps R (resetFailures g)) → Steps R (scale_out_loop ctx g n).
Proof. intros. revert g. induction n as [|n IH]; intros g; cbn; apply _. Qed.

#[export] Instance steps_scale_in_loop ctx g l n :
  (∀ ctx g i, Steps R (scaleIn ctx g i)) → Steps R (scale_in_loop ctx g l n).
Proof. intros. revert l. induction n as [|n IH]; intros [|t l]; cbn; apply _. Qed.

#[export] Instance steps_evaluate_policies_loop g cpu l :
  (∀ p, Steps R (in_cooldown p)) → (∀ g, Steps R (update_group g)) → Steps R Now →
  (∀ i t, Steps R (asg_UpdatePolicyLastScaled i t)) → Steps R (evaluate_policies_loop g cpu l).
Proof. intros. induction l as [|p l IH]; cbn; apply _. Qed.

#[export] Instance steps_launch_loop ctx d n :
  (∀ ctx d, Steps R (launchContainer ctx d)) → Steps R (launch_loop ctx d n).
Proof. intros. induction n as [|n IH]; cbn; apply _. Qed.

#[export] Instance steps_terminate_loop ctx d l n :
  (∀ ctx d i, Steps R (terminateContainer ctx d i)) → Steps R (terminate_loop ctx d l n).
Proof. intros. revert l. induction n as [|n IH]; intros [|t l]; cbn; apply _. Qed.

End loops.

(** The interfaces are those of the services. *)
Ltac unfold_port op :=
  unfold op; cbn [instance_service_port lb_service_port].
#[export] Hint Extern 1 (Steps _ (@svc_LaunchInstance (@instance_service_port _) _ _ _ _ _ _ _)) =>
  unfold_port svc_LaunchInstance : typeclass_instances.
#[export] Hint Extern 1 (Steps _ (@svc_TerminateInstance (@instance_service_port _) _ _)) =>
  unfold_port svc_TerminateInstance : typeclass_instances.
#[export] Hint Extern 1 (Steps _ (@svc_AddTarget (@lb_service_port _) _ _ _ _ _)) =>
  unfold_port svc_AddTarget : typeclass_instances.
#[export] Hint Extern 1 (Steps _ (@svc_RemoveTarget (@lb_service_port _) _ _ _)) =>
  unfold_port svc_RemoveTarget : typeclass_instances.

(** ** What the passes of the workers and the goroutines touch *)

Section frames.
Context `{Env} {T : Type} (p : World → T) `{!Indep p w_tick}.

Section evaluate.
Context `{!Indep p w_calls, !Indep p t_instances, !Indep p t_volumes, !Indep p t_lb_targets,
  !Indep p t_group_instances, !Indep p t_containers, !Indep p t_sg_instances, !Indep p t_groups,
  !Indep p t_policies, !Indep p t_events, !Indep p t_audit}.

#[export] Instance scaleOut_frame ctx g : Frame p (scaleOut ctx g).
Proof. unfold scaleOut. apply _. Qed.
#[export] Instance scaleIn_frame ctx g i : Frame p (scaleIn ctx g i).
Proof. unfold scaleIn. apply _. Qed.
#[export] Instance cleanupGroup_frame ctx g l : Frame p (cleanupGroup ctx g l).
Proof. unfold cleanupGroup. apply _. Qed.
#[export] Instance reconcileInstances_frame ctx g l : Frame p (reconcileInstances ctx g l).
Proof. unfold reconcileInstances. apply _. Qed.
#[export] Instance evaluatePolicies_frame g l ps : Frame p (evaluatePolicies g l ps).
Proof. unfold evaluatePolicies. apply _. Qed.
#[export] Instance Evaluate_frame ctx : Frame p (Evaluate ctx).
Proof. unfold Evaluate, evaluate_group. apply _. Qed.

End evaluate.

Section reconcile.
Context `{!Indep p w_calls, !Indep p t_instances, !Indep p t_volumes, !Indep p t_lb_targets,
  !Indep p t_group_instances, !Indep p t_containers, !Indep p t_sg_instances, !Indep p t_deployments,
  !Indep p t_events, !Indep p t_audit}.

#[export] Instance launchContainer_frame ctx d : Frame p (launchContainer ctx d).
Proof. unfold launchContainer. apply _. Qed.
#[export] Instance terminateContainer_frame ctx d i : Frame p (terminateContainer ctx d i).
Proof. unfold terminateContainer. apply _. Qed.
#[export] Instance scale_deployment_frame ctx d l : Frame p (scale_deployment ctx d l).
Proof. unfold scale_deployment. apply _. Qed.
#[export] Instance update_status_frame d l : Frame p (update_status d l).
Proof. unfold update_status. apply _. Qed.
#[export] Instance reconcileDeployment_frame ctx d : Frame p (reconcileDeployment ctx d).
Proof. unfold reconcileDeployment. apply _. Qed.
#[export] Instance Reconcile_frame ctx : Frame p (Reconcile ctx).
Proof. unfold Reconcile. apply _. Qed.

End reconcile.

#[export] Instance take_task_frame l : Indep p w_tasks → Frame p (take_task l).
Proof. intros. unfold take_task. apply _. Qed.

Context `{HttpEnv}.
#[export] Instance restart_frame :
  Indep p m_failedAttempts → Indep p m_lockouts → Indep p m_routes → Indep p w_tasks → Frame p restart.
Proof. intros. unfold restart. apply _. Qed.

End frames.

(** ** Statements and the keys of a table *)

Lemma keyed_sub {A} (key : A → uuid) (t t' : gmap uuid A) : t' ⊆ t → keyed key t → keyed key t'.
Proof. intros Hs Ht k r Hk. apply Ht. by eapply lookup_weaken. Qed.

Lemma keyed_fmap {A} (key : A → uuid) (f : A → A) (t : gmap uuid A) :
  (∀ r, key (f r) = key r) → keyed key t → keyed key (f <$> t).
Proof.
  intros Hf Ht k r. rewrite lookup_fmap. destruct (t !! k) as [r0|] eqn:Hk; [|done]. cbn.
  intros [= <-]. rewrite Hf. by apply Ht.
Qed.

Lemma stmt_frame_holds {T A} (p : World → T) Q (stmt : World → option (A * World)) :
  StmtOk (same p) stmt → StmtOk (holds p Q) stmt.
Proof. intros Hs w a w' Hw. unfold holds, keeps. by rewrite (Hs w a w' Hw). Qed.

(** A statement that takes rows away, from its table or by a referential action, or changes
    some in place. *)
Ltac keyed_stmt :=
  let w := fresh "w" in let a := fresh "a" in let w' := fresh "w'" in let Hs := fresh "Hs" in
  intros w a w' Hs; unfold sql_delete, sql_delete_where, sql_update_where in Hs; unfold holds, keeps;
  repeat case_match; simplify_eq; try done; cbn -[keyed];
  first [ apply keyed_sub; first [apply delete_subseteq | apply map_filter_subseteq]
        | apply keyed_fmap; intros; repeat case_match; done ].

#[export] Hint Extern 1 (StmtOk (holds ?t (keyed _)) (sql_insert ?t _ _ _)) =>
  apply sql_insert_keyed; [apply _|first [reflexivity|repeat case_match; reflexivity]] : typeclass_instances.
#[export] Hint Extern 1 (StmtOk (holds ?t (keyed _)) (sql_update ?t _ _ _)) =>
  apply sql_update_keyed; [apply _|intros; repeat case_match; simplify_eq; reflexivity] : typeclass_instances.
#[export] Hint Extern 2 (StmtOk (holds _ _) _) => apply stmt_frame_holds; solve [apply _] : typeclass_instances.
#[export] Hint Extern 3 (StmtOk (holds _ (keyed _)) _) => keyed_stmt : typeclass_instances.

(** One goal for each operation of the system. *)
Ltac each_operation :=
  intros;
  lazymatch goal with
  | Hs : step ?cfg _ _ |- _ =>
      eapply (step_rel cfg);
      [apply _|apply _|intros ? ? [? ? []|? ? ? []|? ? ? []|? ? ? []|? ? ? []]|intros ? []|intros []|intros ?| |exact Hs];
      clear Hs
  end.
