(* ===== verification/Keyed.v ===== *)
(** * Every row of every table is stored under its own identifier, always *)
From S2P Require Import Prelude GoStd Encoding Net Errors Domain DomainData World Logic Sql InstanceRepo.
From S2P Require Import NetworkRepo InstanceService VolumeService NetworkService LBRepo LBService.
From S2P Require Import AutoScalingRepo Ports AutoScalingService AutoScalingWorker InstanceProofs.
From S2P Require Import AutoScalingProofs ScalingProofs Secret Queue Storage Rbac Auth SecurityGroup Snapshot.
From S2P Require Import Http Cron Gateway Notify Cache Database Function Stack Container System Invariants.

(** ** Statements that are more than one of the pieces of [Sql] *)

Section statements.
Context `{Env}.

#[export] Instance vpc_insert_keyed v : StmtOk (holds t_vpcs (keyed vpc_ID)) (vpc_insert v).
Proof.
  intros w a w' Hs. unfold vpc_insert in Hs. apply bind_Some in Hs as (c & _ & Hs).
  by refine (sql_insert_keyed t_vpcs vpc_ID _ _ _ _ _ _ _ Hs).
Qed.
#[export] Instance subnet_insert_keyed s : StmtOk (holds t_subnets (keyed sn_ID)) (subnet_insert s).
Proof.
  intros w a w' Hs. unfold subnet_insert in Hs. apply bind_Some in Hs as (c & _ & Hs).
  apply bind_Some in Hs as (g & _ & Hs). by refine (sql_insert_keyed t_subnets sn_ID _ _ _ _ _ _ _ Hs).
Qed.
#[export] Instance policy_insert_keyed x : StmtOk (holds t_policies (keyed pol_ID)) (policy_insert x).
Proof.
  intros w a w' Hs. unfold policy_insert in Hs. apply bind_Some in Hs as (t & _ & Hs).
  by refine (sql_insert_keyed t_policies pol_ID _ _ _ _ _ _ _ Hs).
Qed.
#[export] Instance group_update_keyed k P g :
  StmtOk (holds t_groups (keyed sg_ID)) (sql_update t_groups k P (group_update_row g)).
Proof.
  apply sql_update_keyed; [apply _|]. intros w r r' Hr.
  by apply group_update_row_fields in Hr as (Hid & _).
Qed.
#[export] Instance insert_permission_keyed i x :
  StmtOk (holds t_roles (keyed role_ID)) (insert_permission i x).
Proof.
  intros w a w' Hs. unfold insert_permission in Hs. destruct (t_roles w !! i); [|done].
  destruct (mem _ _); [done|]. refine (sql_update_keyed t_roles role_ID _ _ _ _ _ _ _ Hs).
  by intros ??? [= <-].
Qed.
#[export] Instance AddPermission_keyed i x :
  Steps (holds t_roles (keyed role_ID)) (role_AddPermissionToRole i x).
Proof.
  unfold role_AddPermissionToRole. apply steps_bind; [apply _| |apply _]. apply steps_db_exec; [apply _..|].
  intros w a w' Hs. destruct (t_roles w !! i); [|done].
  destruct (mem _ _); [injection Hs as _ <-; by intros ?|]. by eapply insert_permission_keyed.
Qed.
#[export] Instance MarkAsUsed_keyed i : Steps (holds t_reset_tokens (keyed prt_ID)) (MarkAsUsed i).
Proof.
  unfold MarkAsUsed. apply steps_bind; [apply _| |apply _]. apply steps_db_exec; [apply _..|].
  intros w a w' Hs. apply bind_Some in Hs as (id & _ & Hs).
  refine (sql_update_keyed t_reset_tokens prt_ID _ _ _ _ _ _ _ Hs). by intros ??? [= <-].
Qed.
#[export] Instance save_meta_keyed o : StmtOk (holds t_objects (keyed obj_ID)) (save_meta o).
Proof.
  intros w a w' Hs. unfold save_meta in Hs. destruct (user_fk _ _); [|done]. destruct (no_row _ _).
  - by refine (sql_insert_keyed t_objects obj_ID _ _ _ _ _ _ _ Hs).
  - injection Hs as _ <-. unfold holds, keeps. cbn -[keyed]. apply keyed_fmap. intros r. by destruct (same_object _ _ r).
Qed.

(** Operations many others run. *)
#[export] Instance volume_Update_keyed v : Steps (holds t_volumes (keyed vol_ID)) (volume_Update v).
Proof. unfold volume_Update. apply _. Qed.
#[export] Instance launch_running_keyed ctx i vs x :
  Steps (holds t_volumes (keyed vol_ID)) (launch_running ctx i vs x).
Proof. unfold launch_running, updateVolumesAfterLaunch. apply _. Qed.
#[export] Instance LaunchInstance_keyed_volumes ctx n i p v s vs :
  Steps (holds t_volumes (keyed vol_ID)) (LaunchInstance ctx n i p v s vs).
Proof. unfold LaunchInstance, launch_resources, launch_container. apply _. Qed.
#[export] Instance TerminateInstance_keyed_volumes ctx s :
  Steps (holds t_volumes (keyed vol_ID)) (TerminateInstance ctx s).
Proof. unfold TerminateInstance. apply _. Qed.

End statements.

(** ** Every transition keeps the keys of every table *)

Section keyed_steps.
Context `{Env, Crypto, HttpEnv, CronParser, ZipReader, Formats} (cfg : Config).

Lemma users_keyed w w' : step cfg w w' → holds t_users (keyed user_ID) w w'.
Proof. each_operation; apply _. Qed.

Lemma roles_keyed w w' : step cfg w w' → holds t_roles (keyed role_ID) w w'.
Proof. each_operation; apply _. Qed.

Lemma instances_keyed w w' : step cfg w w' → holds t_instances (keyed inst_ID) w w'.
Proof. each_operation; apply _. Qed.

Lemma volumes_keyed w w' : step cfg w w' → holds t_volumes (keyed vol_ID) w w'.
Proof. each_operation; apply _. Qed.

Lemma vpcs_keyed w w' : step cfg w w' → holds t_vpcs (keyed vpc_ID) w w'.
Proof. each_operation; apply _. Qed.

Lemma subnets_keyed w w' : step cfg w w' → holds t_subnets (keyed sn_ID) w w'.
Proof. each_operation; apply _. Qed.

Lemma lbs_keyed w w' : step cfg w w' → holds t_lbs (keyed lb_ID) w w'.
Proof. each_operation; apply _. Qed.

Lemma lb_targets_keyed w w' : step cfg w w' → holds t_lb_targets (keyed tgt_ID) w w'.
Proof. each_operation; apply _. Qed.

Lemma groups_keyed w w' : step cfg w w' → holds t_groups (keyed sg_ID) w w'.
Proof. each_operation; apply _. Qed.

Lemma policies_keyed w w' : step cfg w w' → holds t_policies (keyed pol_ID) w w'.
Proof. each_operation; apply _. Qed.

Lemma queues_keyed w w' : step cfg w w' → holds t_queues (keyed q_ID) w w'.
Proof. each_operation; apply _. Qed.

Lemma messages_keyed w w' : step cfg w w' → holds t_messages (keyed msg_ID) w w'.
Proof. each_operation; apply _. Qed.

Lemma deployments_keyed w w' : step cfg w w' → holds t_deployments (keyed dep_ID) w w'.
Proof. each_operation; apply _. Qed.

Lemma containers_keyed w w' : step cfg w w' → holds t_containers (keyed dc_ID) w w'.
Proof. each_operation; apply _. Qed.

Lemma security_groups_keyed w w' : step cfg w w' → holds t_security_groups (keyed secg_ID) w w'.
Proof. each_operation; apply _. Qed.

Lemma security_rules_keyed w w' : step cfg w w' → holds t_security_rules (keyed rule_ID) w w'.
Proof. each_operation; apply _. Qed.

Lemma snapshots_keyed w w' : step cfg w w' → holds t_snapshots (keyed snap_ID) w w'.
Proof. each_operation; apply _. Qed.

Lemma secrets_keyed w w' : step cfg w w' → holds t_secrets (keyed sec_ID) w w'.
Proof. each_operation; apply _. Qed.

Lemma api_keys_keyed w w' : step cfg w w' → holds t_api_keys (keyed ak_ID) w w'.
Proof. each_operation; apply _. Qed.

Lemma reset_tokens_keyed w w' : step cfg w w' → holds t_reset_tokens (keyed prt_ID) w w'.
Proof. each_operation; apply _. Qed.

Lemma objects_keyed w w' : step cfg w w' → holds t_objects (keyed obj_ID) w w'.
Proof. each_operation; apply _. Qed.

Lemma caches_keyed w w' : step cfg w w' → holds t_caches (keyed ca_ID) w w'.
Proof. each_operation; apply _. Qed.

Lemma databases_keyed w w' : step cfg w w' → holds t_databases (keyed db_ID) w w'.
Proof. each_operation; apply _. Qed.

Lemma functions_keyed w w' : step cfg w w' → holds t_functions (keyed fn_ID) w w'.
Proof. each_operation; apply _. Qed.

Lemma invocations_keyed w w' : step cfg w w' → holds t_invocations (keyed iv_ID) w w'.
Proof. each_operation; apply _. Qed.

Lemma cron_jobs_keyed w w' : step cfg w w' → holds t_cron_jobs (keyed cj_ID) w w'.
Proof. each_operation; apply _. Qed.

Lemma cron_runs_keyed w w' : step cfg w w' → holds t_cron_runs (keyed cr_ID) w w'.
Proof. each_operation; apply _. Qed.

Lemma routes_keyed w w' : step cfg w w' → holds t_routes (keyed rt_ID) w w'.
Proof. each_operation; apply _. Qed.

Lemma topics_keyed w w' : step cfg w w' → holds t_topics (keyed top_ID) w w'.
Proof. each_operation; apply _. Qed.

Lemma subscriptions_keyed w w' : step cfg w w' → holds t_subscriptions (keyed sub_ID) w w'.
Proof. each_operation; apply _. Qed.

Lemma notify_messages_keyed w w' : step cfg w w' → holds t_notify_messages (keyed nm_ID) w w'.
Proof. each_operation; apply _. Qed.

Lemma stack_resources_keyed w w' : step cfg w w' → holds t_stack_resources (keyed sr_ID) w w'.
Proof. each_operation; apply _. Qed.

Definition well_keyed (w : World) : Prop :=
  keyed user_ID (t_users w) ∧
  keyed role_ID (t_roles w) ∧
  keyed inst_ID (t_instances w) ∧
  keyed vol_ID (t_volumes w) ∧
  keyed vpc_ID (t_vpcs w) ∧
  keyed sn_ID (t_subnets w) ∧
  keyed lb_ID (t_lbs w) ∧
  keyed tgt_ID (t_lb_targets w) ∧
  keyed sg_ID (t_groups w) ∧
  keyed pol_ID (t_policies w) ∧
  keyed q_ID (t_queues w) ∧
  keyed msg_ID (t_messages w) ∧
  keyed dep_ID (t_deployments w) ∧
  keyed dc_ID (t_containers w) ∧
  keyed secg_ID (t_security_groups w) ∧
  keyed rule_ID (t_security_rules w) ∧
  keyed snap_ID (t_snapshots w) ∧
  keyed sec_ID (t_secrets w) ∧
  keyed ak_ID (t_api_keys w) ∧
  keyed prt_ID (t_reset_tokens w) ∧
  keyed obj_ID (t_objects w) ∧
  keyed ca_ID (t_caches w) ∧
  keyed db_ID (t_databases w) ∧
  keyed fn_ID (t_functions w) ∧
  keyed iv_ID (t_invocations w) ∧
  keyed cj_ID (t_cron_jobs w) ∧
  keyed cr_ID (t_cron_runs w) ∧
  keyed rt_ID (t_routes w) ∧
  keyed top_ID (t_topics w) ∧
  keyed sub_ID (t_subscriptions w) ∧
  keyed nm_ID (t_notify_messages w) ∧
  keyed sr_ID (t_stack_resources w).

Lemma step_keyed w w' : step cfg w w' → well_keyed w → well_keyed w'.
Proof.
  intros Hs Hw. unfold well_keyed in *. destruct_and! Hw.
    split_and!; [
      by eapply users_keyed|
      by eapply roles_keyed|
      by eapply instances_keyed|
      by eapply volumes_keyed|
      by eapply vpcs_keyed|
      by eapply subnets_keyed|
      by eapply lbs_keyed|
      by eapply lb_targets_keyed|
      by eapply groups_keyed|
      by eapply policies_keyed|
      by eapply queues_keyed|
      by eapply messages_keyed|
      by eapply deployments_keyed|
      by eapply containers_keyed|
      by eapply security_groups_keyed|
      by eapply security_rules_keyed|
      by eapply snapshots_keyed|
      by eapply secrets_keyed|
      by eapply api_keys_keyed|
      by eapply reset_tokens_keyed|
      by eapply objects_keyed|
      by eapply caches_keyed|
      by eapply databases_keyed|
      by eapply functions_keyed|
      by eapply invocations_keyed|
      by eapply cron_jobs_keyed|
      by eapply cron_runs_keyed|
      by eapply routes_keyed|
      by eapply topics_keyed|
      by eapply subscriptions_keyed|
      by eapply notify_messages_keyed|
      by eapply stack_resources_keyed].
Qed.

Lemma seeded_keyed : keyed role_ID (t_roles seeded_world).
Proof.
  intros k r Hk. cbn [seeded_world t_roles] in Hk. change (t_roles seeded_world) with
    (<[role_ID admin_role := admin_role]> (<[role_ID developer_role := developer_role]>
      ({[role_ID viewer_role := viewer_role]} : gmap uuid Role))) in Hk.
  repeat (apply lookup_insert_Some in Hk as [[<- <-]|[_ Hk]]; [done|]).
  by apply lookup_singleton_Some in Hk as [<- <-].
Qed.

(** The primary key of every row is the identifier the row carries, in every state the
    system can reach: a lookup by identifier returns the row of that identifier. *)
Lemma reachable_keyed w : reachable cfg w → well_keyed w.
Proof.
  revert w. apply reachable_inv; [|apply step_keyed].
  unfold well_keyed. split_and!;
    first [exact seeded_keyed | intros k r Hk; cbn in Hk; by rewrite lookup_empty in Hk].
Qed.

End keyed_steps.
