(* ===== verification/Isolation.v ===== *)
(** * The operations of a user leave the rows of the other users alone

    The view [others] of a table is what is in the rows of everybody but the user [u].  An
    operation that keeps the view changes no row of another user and takes none away.  Two
    referential actions reach into rows of other users: the deletion of an instance clears
    the reference to it in a volume, that of a VPC the reference in a database; [row_kept]
    says that a row is otherwise as it was.  Most operations
    keep it because each of their statements does; the ones that change a row by its
    identifier alone keep it because they read the row first, by the identifier and the
    user. *)
From S2P Require Import Prelude GoStd Encoding Net Errors Domain DomainData World Logic Sql InstanceRepo.
From S2P Require Import NetworkRepo InstanceService VolumeService NetworkService LBRepo LBService.
From S2P Require Import AutoScalingRepo Ports AutoScalingService AutoScalingWorker InstanceProofs.
From S2P Require Import AutoScalingProofs ScalingProofs Secret Queue Storage Rbac Auth SecurityGroup Snapshot.
From S2P Require Import Http Cron Gateway Notify Cache Database Function Stack Container QueueProofs System.
From S2P Require Import Invariants Keyed.

(** ** The view *)

Definition others {A B} (owner : A → uuid) (forget : A → B) (u : uuid) (t : gmap uuid A) : gmap uuid B :=
  omap (λ r, if bool_decide (owner r = u) then None else Some (forget r)) t.

(** The row under [k], if there is one, is the user's. *)
Definition own_at {A} (owner : A → uuid) (u k : uuid) (t : gmap uuid A) : Prop :=
  ∀ r, t !! k = Some r → owner r = u.

Section others.
Context {A B : Type} (owner : A → uuid) (forget : A → B) (u : uuid).
Implicit Types (t : gmap uuid A) (k : uuid).

Lemma lookup_others t k :
  others owner forget u t !! k
  = (r ← t !! k; if bool_decide (owner r = u) then None else Some (forget r)).
Proof. apply lookup_omap. Qed.

Lemma others_own t k : own_at owner u k t → others owner forget u t !! k = None.
Proof.
  intros Hown. rewrite lookup_others. destruct (t !! k) as [r|] eqn:Hk; [|done].
  cbn. by rewrite bool_decide_true by by apply Hown.
Qed.

Lemma others_insert t k r :
  own_at owner u k t → owner r = u → others owner forget u (<[k := r]> t) = others owner forget u t.
Proof.
  intros Hown Hr. apply map_eq. intros j. destruct (decide (j = k)) as [->|Hne].
  - rewrite (others_own t) by done. apply others_own. intros r'. rewrite lookup_insert_eq. by intros [= <-].
  - by rewrite !lookup_others, lookup_insert_ne by done.
Qed.

Lemma others_delete t k :
  own_at owner u k t → others owner forget u (delete k t) = others owner forget u t.
Proof.
  intros Hown. apply map_eq. intros j. destruct (decide (j = k)) as [->|Hne].
  - rewrite (others_own t) by done. apply others_own. intros r'. by rewrite lookup_delete_eq.
  - by rewrite !lookup_others, lookup_delete_ne by done.
Qed.

Lemma others_fmap t f :
  (∀ r, owner (f r) = owner r) → (∀ r, forget (f r) = forget r) →
  others owner forget u (f <$> t) = others owner forget u t.
Proof.
  intros Ho Hf. apply map_eq. intros j. rewrite !lookup_others, lookup_fmap.
  destruct (t !! j) as [r|]; [|done]. cbn. by rewrite Ho, Hf.
Qed.

End others.

#[global] Opaque others.

(** ** Statements *)

Section stmts.
Context {A B : Type} (tbl : World → gmap uuid A) `{!Field tbl, !FieldOk tbl}.
Context (owner : A → uuid) (forget : A → B) (u : uuid).
Notation view := (λ w, others owner forget u (tbl w)).

Lemma insert_own k row ok : owner row = u → StmtOk (same view) (sql_insert tbl k row ok).
Proof.
  intros Hrow w a w' Hs. unfold sql_insert in Hs. unfold same.
  destruct (tbl w !! k) eqn:Hk; [done|]. destruct (ok w); [|done]. injection Hs as _ <-.
  rewrite field_get. apply others_insert; [|done]. intros r. by rewrite Hk.
Qed.

Lemma update_own_at k P upd w a w' :
  own_at owner u k (tbl w) → (∀ r r', owner r = u → upd w r = Some r' → owner r' = u) →
  sql_update tbl k P upd w = Some (a, w') → same view w w'.
Proof.
  intros Hown Hupd Hs. unfold sql_update in Hs. unfold same.
  destruct (tbl w !! k) as [r|] eqn:Hk; [|by simplify_eq]. destruct (P r); [|by simplify_eq].
  apply bind_Some in Hs as (r' & Hr & Hw). injection Hw as _ <-.
  rewrite field_get. apply others_insert; [done|]. by eapply Hupd; [apply Hown|].
Qed.

Lemma update_own k P upd :
  (∀ r, P r = true → owner r = u) → (∀ w r r', owner r = u → upd w r = Some r' → owner r' = u) →
  StmtOk (same view) (sql_update tbl k P upd).
Proof.
  intros HP Hupd w a w' Hs. unfold sql_update in Hs. unfold same.
  destruct (tbl w !! k) as [r|] eqn:Hk; [|by simplify_eq]. destruct (P r) eqn:Hr; [|by simplify_eq].
  apply bind_Some in Hs as (r' & Hu & Hw). injection Hw as _ <-. rewrite field_get. apply others_insert.
  - intros r0. rewrite Hk. intros [= <-]. by apply HP.
  - eapply Hupd; [by apply HP|done].
Qed.

Lemma delete_own_at k P ok cascade w a w' :
  own_at owner u k (tbl w) → (∀ w, view (cascade w) = view w) →
  sql_delete tbl k P ok cascade w = Some (a, w') → same view w w'.
Proof.
  intros Hown Hc Hs. unfold sql_delete in Hs. unfold same.
  destruct (tbl w !! k) as [r|] eqn:Hk; [|by simplify_eq]. destruct (P r); [|by simplify_eq].
  destruct (ok w); [|done]. injection Hs as _ <-. rewrite Hc, field_get. by apply others_delete.
Qed.

Lemma delete_own k P ok cascade :
  (∀ r, P r = true → owner r = u) → (∀ w, view (cascade w) = view w) →
  StmtOk (same view) (sql_delete tbl k P ok cascade).
Proof.
  intros HP Hc w a w' Hs. unfold sql_delete in Hs. unfold same.
  destruct (tbl w !! k) as [r|] eqn:Hk; [|by simplify_eq]. destruct (P r) eqn:Hr; [|by simplify_eq].
  destruct (ok w); [|done]. injection Hs as _ <-. rewrite Hc, field_get. apply others_delete.
  intros r0. rewrite Hk. intros [= <-]. by apply HP.
Qed.

End stmts.

(** ** Programs *)

Ltac own_where :=
  intros; unfold of_user in *; rewrite ?andb_true_iff, ?bool_decide_eq_true in *;
  destruct_and?; cbn in *; congruence.
Ltac own_update :=
  intros; unfold instance_update_row in *; repeat case_match; simplify_option_eq; try done; cbn; congruence.
Ltac own_cascade :=
  intros; first [ reflexivity | cbn; apply others_fmap; intros; case_match; reflexivity ].

Notation Isolates u tbl owner forget m := (Frame (λ w, others owner forget u (tbl w)) m).

#[export] Hint Extern 1 (StmtOk (same _) (sql_insert ?t _ _ _)) =>
  apply (insert_own t); [cbn; congruence] : typeclass_instances.
#[export] Hint Extern 1 (StmtOk (same _) (sql_update ?t _ _ _)) =>
  apply (update_own t); [own_where|own_update] : typeclass_instances.
#[export] Hint Extern 1 (StmtOk (same _) (sql_delete ?t _ _ _ _)) =>
  apply (delete_own t); [own_where|own_cascade] : typeclass_instances.
#[export] Hint Extern 2 (StmtOk (same _) (sql_delete ?t _ _ _ _)) =>
  apply (sql_delete_same t); [apply _|own_cascade] : typeclass_instances.

(** What a program returns satisfies [Q]. *)
Class Returns {A} (Q : A → Prop) (m : M A) := returns : ∀ w a w', m w = (Ok a, w') → Q a.
#[export] Hint Mode Returns - - ! : typeclass_instances.

Lemma steps_bind_returns {A B} (R : relation World) `{!PreOrder R} (Q : A → Prop) (m : M A) (f : A → M B) :
  Returns Q m → Steps R m → (∀ a, Q a → Steps R (f a)) → Steps R (m ≫= f).
Proof.
  intros Hq Hm Hf w. specialize (Hm w). unfold mbind, M_bind.
  destruct (m w) as [[a|e|p] w1] eqn:Hrun; simpl in *; [|done|done].
  etransitivity; [exact Hm|]. apply Hf. by eapply Hq.
Qed.

#[export] Instance returns_wrap {A} (Q : A → Prop) g (m : M A) : Returns Q m → Returns Q (wrap_err g m).
Proof. intros Hm w a w' Hw%wrap_err_Ok. by eapply Hm. Qed.

(** Operations whose statements name the user of the context go through by unfolding them. *)
#[export] Hint Extern 60 (Steps (same (λ _, others _ _ _ _)) _) => unfold_prog : typeclass_instances.
#[export] Hint Extern 0 (Steps (same (λ _, others _ _ _ _)) (_ ≫= _)) =>
  eapply steps_bind_returns; [apply _|solve [apply _]|apply _|intros ? ?] : typeclass_instances.

Section getters.
Context `{Env, !OrderLaws}.

Lemma row_pk_returns {A} (tbl : World → gmap uuid A) `{!Indep tbl w_tick} (P : A → bool) (Q : A → Prop) k :
  (∀ r, P r = true → Q r) → Returns Q (db_query_row (λ w, by_pk (tbl w) k P)).
Proof. intros HP w r w' Hr. apply (db_query_row_pk_Ok tbl) in Hr as (_ & _ & Hr). by apply HP. Qed.

Lemma row_select_returns {A} (tbl : World → gmap uuid A) `{!Indep tbl w_tick} (P : A → bool) (Q : A → Prop) :
  (∀ r, P r = true → Q r) → Returns Q (db_query_row (λ w, select P (tbl w))).
Proof. intros HP w r w' Hr. apply (db_query_row_Ok tbl) in Hr as (_ & Hr & _). by apply HP. Qed.

Ltac getter tbl := apply returns_wrap; first [apply (row_pk_returns tbl)|apply (row_select_returns tbl)]; own_where.

#[export] Instance current_user_returns ctx : Returns (λ u, u = UserIDFromContext ctx) (current_user ctx).
Proof.
  intros w a w' Hrun. unfold current_user in Hrun. ok_step Hrun v w1.
  unfold mret, M_ret in Hrun. by injection Hrun as <- _.
Qed.
#[export] Instance instance_GetByID_returns ctx k :
  Returns (λ i, inst_UserID i = UserIDFromContext ctx) (instance_GetByID ctx k).
Proof. getter t_instances. Qed.
#[export] Instance instance_GetByName_returns ctx s :
  Returns (λ i, inst_UserID i = UserIDFromContext ctx) (instance_GetByName ctx s).
Proof. getter t_instances. Qed.
#[export] Instance GetInstance_returns ctx s :
  Returns (λ i, inst_UserID i = UserIDFromContext ctx) (GetInstance ctx s).
Proof. unfold GetInstance. case_match; apply _. Qed.
#[export] Instance lb_GetByID_returns ctx k :
  Returns (λ r, lb_UserID r = UserIDFromContext ctx) (lb_GetByID ctx k).
Proof. getter t_lbs. Qed.
#[export] Instance secret_GetByID_returns ctx k :
  Returns (λ r, sec_UserID r = UserIDFromContext ctx) (secret_GetByID ctx k).
Proof. getter t_secrets. Qed.
#[export] Instance secret_GetByName_returns ctx s :
  Returns (λ r, sec_UserID r = UserIDFromContext ctx) (secret_GetByName ctx s).
Proof. getter t_secrets. Qed.
#[export] Instance snap_GetByID_returns ctx k :
  Returns (λ r, snap_UserID r = UserIDFromContext ctx) (snap_GetByID ctx k).
Proof. apply (row_pk_returns t_snapshots). own_where. Qed.
#[export] Instance volume_GetByID_returns ctx k :
  Returns (λ r, vol_UserID r = UserIDFromContext ctx) (volume_GetByID ctx k).
Proof. apply (row_pk_returns t_volumes). own_where. Qed.
#[export] Instance volume_GetByName_returns ctx s :
  Returns (λ r, vol_UserID r = UserIDFromContext ctx) (volume_GetByName ctx s).
Proof. apply (row_select_returns t_volumes). own_where. Qed.
#[export] Instance asg_GetGroupByID_returns ctx k :
  Returns (λ r, sg_UserID r = UserIDFromContext ctx) (asg_GetGroupByID ctx k).
Proof.
  intros w r w' Hrun. unfold asg_GetGroupByID in Hrun. ok_step Hrun r0 w1.
  apply wrap_err_Ok, (db_query_row_pk_Ok t_groups) in Hrun0 as (_ & _ & Ho).
  unfold mret, M_ret in Hrun. injection Hrun as <- _. unfold of_user in Ho.
  by rewrite bool_decide_eq_true in Ho.
Qed.

End getters.

(** ** Statements and loops of more than one piece *)

Section pieces.
Context `{Env, !OrderLaws}.

#[export] Instance instance_insert_own u i :
  inst_UserID i = u → StmtOk (same (λ w, others inst_UserID id u (t_instances w))) (instance_insert i).
Proof.
  intros Hu w a w' Hs. unfold instance_insert in Hs. apply bind_Some in Hs as (ip & _ & Hs).
  by refine (insert_own t_instances inst_UserID id u _ _ _ _ _ _ _ Hs).
Qed.

Lemma vpc_insert_own u v :
  vpc_UserID v = u → StmtOk (same (λ w, others vpc_UserID id u (t_vpcs w))) (vpc_insert v).
Proof.
  intros Hu w a w' Hs. unfold vpc_insert in Hs. apply bind_Some in Hs as (c & _ & Hs).
  by refine (insert_own t_vpcs vpc_UserID id u _ _ _ _ _ _ _ Hs).
Qed.

#[export] Instance asg_UpdateGroup_own u g :
  sg_UserID g = u →
  Isolates u t_groups sg_UserID id (asg_UpdateGroup g).
Proof.
  intros Hu. unfold asg_UpdateGroup. apply steps_bind; [apply _| |apply _].
  apply steps_db_exec; [apply _..|]. apply (update_own t_groups); [own_where|].
  intros w r r' Hr Hrow. apply group_update_row_fields in Hrow as (_ & -> & _). done.
Qed.

Lemma volumes_foreach u (l : list Volume) (body : Volume → M unit) :
  Forall (λ v, vol_UserID v = u) l →
  (∀ v, vol_UserID v = u →
     Isolates u t_volumes vol_UserID id (body v)) →
  Isolates u t_volumes vol_UserID id (foreach l body).
Proof. intros Hl Hb. induction Hl as [|v l Hv _ IH]; cbn; [apply _|]. apply steps_bind; [apply _|auto|auto]. Qed.

End pieces.

(** ** A row is read before it is changed by its identifier alone *)

Section checked.
Context `{Env, !OrderLaws} {A B : Type} (tbl : World → gmap uuid A) `{!Field tbl, !FieldOk tbl, !Indep tbl w_tick}.
Context (owner : A → uuid) (forget : A → B) (u : uuid).
Notation view := (λ w, others owner forget u (tbl w)).

(** From a state with [I], the program keeps the view. *)
Definition keeps_from {C} (I : gmap uuid A → Prop) (m : M C) : Prop := ∀ w, I (tbl w) → same view w (m w).2.

Lemma keeps_from_get {X C} I (J : X → gmap uuid A → Prop) (get : M X) (f : X → M C) :
  (∀ w x w1, I (tbl w) → get w = (Ok x, w1) → tbl w1 = tbl w ∧ J x (tbl w)) →
  Steps (same view) get → (∀ x, keeps_from (J x) (f x)) → keeps_from I (get ≫= f).
Proof.
  intros Hget Hs Hf w HI. pose proof (Hs w) as Hw. unfold mbind, M_bind.
  destruct (get w) as [[x|e|p] w1] eqn:Hrun; [|done|done].
  destruct (Hget _ _ _ HI Hrun) as [Ht HJ]. etransitivity; [exact Hw|]. apply Hf. by rewrite Ht.
Qed.

Lemma keeps_from_bind {X C} I (m : M X) (f : X → M C) :
  keeps_from I m → (∀ x, Steps (same view) (f x)) → keeps_from I (m ≫= f).
Proof.
  intros Hm Hf w HI. specialize (Hm w HI). unfold mbind, M_bind.
  destruct (m w) as [[x|e|p] w1]; [|done|done]. etransitivity; [exact Hm|]. apply Hf.
Qed.

(** A first part that keeps [I] too. *)
Lemma keeps_from_seq {X C} I (m : M X) (f : X → M C) :
  Steps (same view) m → Steps (holds tbl I) m → (∀ x, keeps_from I (f x)) → keeps_from I (m ≫= f).
Proof.
  intros Hm HI Hf w Hw. specialize (Hm w). specialize (HI w Hw). unfold mbind, M_bind.
  destruct (m w) as [[x|e|p] w1]; [|done|done]. etransitivity; [exact Hm|]. by apply Hf.
Qed.

Lemma keeps_from_exec {C} I (stmt : World → option (C * World)) :
  (∀ w a w', I (tbl w) → stmt w = Some (a, w') → same view w w') → keeps_from I (db_exec stmt).
Proof.
  intros Hs w HI. unfold db_exec, same. destruct (env_fault _); cbn [snd]; [by rewrite (indep (p := tbl) (q := w_tick))|].
  destruct (stmt _) as [[a w']|] eqn:Hst; cbn [snd]; [|by rewrite (indep (p := tbl) (q := w_tick))].
  apply Hs in Hst as ->; by rewrite (indep (p := tbl) (q := w_tick)).
Qed.

Lemma frame_keeps_from {C} I (m : M C) : Steps (same view) m → keeps_from I m.
Proof. intros Hm w _. apply Hm. Qed.

Lemma keeps_from_attempt {C} I (m : M C) : keeps_from I m → keeps_from I (attempt m).
Proof. intros Hm w HI. specialize (Hm w HI). unfold attempt. by destruct (m w) as [[]]. Qed.
Lemma keeps_from_wrap {C} I g (m : M C) : keeps_from I m → keeps_from I (wrap_err g m).
Proof. intros Hm w HI. specialize (Hm w HI). unfold wrap_err. by destruct (m w) as [[]]. Qed.

Lemma keeps_from_delete I k P ok cascade :
  (∀ t, I t → own_at owner u k t) → (∀ w, view (cascade w) = view w) →
  keeps_from I (db_exec (sql_delete tbl k P ok cascade)).
Proof. intros HI Hc. apply keeps_from_exec. intros w a w' Hw Hs. eapply (delete_own_at tbl); [by apply HI|exact Hc|exact Hs]. Qed.

Lemma keeps_from_update I k P upd :
  (∀ t, I t → own_at owner u k t) → (∀ w r r', owner r = u → upd w r = Some r' → owner r' = u) →
  keeps_from I (db_exec (sql_update tbl k P upd)).
Proof. intros HI Hu. apply keeps_from_exec. intros w a w' Hw Hs. eapply (update_own_at tbl); [by apply HI|by apply Hu|exact Hs]. Qed.

(** The row under [k] read by its identifier and the user, in a table where rows carry
    their identifiers. *)
Definition read_at (key : A → uuid) (k : uuid) (r : A) (t : gmap uuid A) : Prop :=
  t !! k = Some r ∧ owner r = u ∧ key r = k.

Lemma read_at_own key k r t : read_at key k r t → own_at owner u k t.
Proof. intros (Hk & Ho & _) r'. rewrite Hk. by intros [= <-]. Qed.
Lemma read_at_own_key key k r t : read_at key k r t → own_at owner u (key r) t.
Proof. intros Hr. pose proof Hr as (_ & _ & ->). by eapply read_at_own. Qed.

Lemma read_by_id key k P w r w1 :
  (∀ r, P r = true → owner r = u) → keyed key (tbl w) →
  db_query_row (λ w, by_pk (tbl w) k P) w = (Ok r, w1) → tbl w1 = tbl w ∧ read_at key k r (tbl w).
Proof.
  intros HP Hkey Hq. apply (db_query_row_pk_Ok tbl) in Hq as (-> & Hk & Hr).
  rewrite (indep (p := tbl) (q := w_tick)). repeat split; auto.
Qed.

End checked.

(** ** The operations that do so *)

Section operations.
Context `{Env, !OrderLaws} (ctx : Context).
Notation user := (UserIDFromContext ctx).

Ltac read_first tbl owner key k := intros;
  apply (keeps_from_get tbl) with (J := read_at owner user key k);
  [intros ? ? ? ? ?; eapply (read_by_id tbl); [|done|eassumption]; own_where|apply _|intros r].
Ltac at_own := intros ? ?; first [by eapply read_at_own|by eapply read_at_own_key].

Lemma DeleteRoute_isolates `{HttpEnv} k :
  keeps_from t_routes rt_UserID id user (keyed rt_ID) (DeleteRoute ctx k).
Proof.
  unfold DeleteRoute. read_first t_routes rt_UserID rt_ID k. apply keeps_from_bind; [|apply _].
  unfold gw_DeleteRoute. apply keeps_from_bind; [|apply _].
  apply (keeps_from_delete t_routes); [at_own|done].
Qed.

Lemma keeps_from_user {A B C} (tbl : World → gmap uuid A) (owner : A → uuid) (forget : A → B) I
    (f : uuid → M C) :
  keeps_from tbl owner forget user I (f user) → keeps_from tbl owner forget user I (current_user ctx ≫= f).
Proof.
  intros Hf w HI. unfold current_user. case_bool_decide; [done|].
  change (guard_err false (Errorf "unauthorized")) with (mret () : M unit). rewrite !mret_bind. by apply Hf.
Qed.

Lemma DeleteTopic_isolates k :
  keeps_from t_topics top_UserID id user (keyed top_ID) (DeleteTopic ctx k).
Proof.
  unfold DeleteTopic. apply keeps_from_user. read_first t_topics top_UserID top_ID k.
  apply keeps_from_bind; [|apply _]. unfold topic_Delete. apply keeps_from_bind; [|apply _].
  apply (keeps_from_delete t_topics); [at_own|done].
Qed.

Lemma cron_DeleteJob_isolates k :
  keeps_from t_cron_jobs cj_UserID id user (keyed cj_ID) (cron_DeleteJob ctx k).
Proof.
  unfold cron_DeleteJob. read_first t_cron_jobs cj_UserID cj_ID k.
  apply keeps_from_bind; [|apply _]. unfold cron_repo_DeleteJob. apply keeps_from_bind; [|apply _].
  apply (keeps_from_delete t_cron_jobs); [at_own|done].
Qed.

Lemma cron_UpdateJob_isolates k r r' :
  cj_ID r' = cj_ID r →
  keeps_from t_cron_jobs cj_UserID id user (read_at cj_UserID user cj_ID k r) (cron_UpdateJob r').
Proof.
  intros Hid. unfold cron_UpdateJob.
  apply keeps_from_seq; [apply _|by apply frame_holds, _|intros t]. apply keeps_from_bind; [|apply _].
  apply (keeps_from_update t_cron_jobs); [rewrite Hid; at_own|own_update].
Qed.

Lemma PauseJob_isolates k :
  keeps_from t_cron_jobs cj_UserID id user (keyed cj_ID) (PauseJob ctx k).
Proof. unfold PauseJob. read_first t_cron_jobs cj_UserID cj_ID k. by apply cron_UpdateJob_isolates. Qed.

Lemma ResumeJob_isolates `{CronParser} k :
  keeps_from t_cron_jobs cj_UserID id user (keyed cj_ID) (ResumeJob ctx k).
Proof.
  unfold ResumeJob. read_first t_cron_jobs cj_UserID cj_ID k. case_match; [done|].
  apply keeps_from_seq; [apply _|by apply frame_holds, _|intros t]. by apply cron_UpdateJob_isolates.
Qed.

Lemma dep_UpdateDeployment_isolates k r r' :
  dep_ID r' = dep_ID r →
  keeps_from t_deployments dep_UserID id user (read_at dep_UserID user dep_ID k r) (dep_UpdateDeployment r').
Proof.
  intros Hid. unfold dep_UpdateDeployment.
  apply keeps_from_seq; [apply _|by apply frame_holds, _|intros t]. apply keeps_from_bind; [|apply _].
  apply (keeps_from_update t_deployments); [rewrite Hid; at_own|own_update].
Qed.

Lemma ScaleDeployment_isolates k n :
  keeps_from t_deployments dep_UserID id user (keyed dep_ID) (ScaleDeployment ctx k n).
Proof.
  unfold ScaleDeployment. read_first t_deployments dep_UserID dep_ID k.
  apply keeps_from_bind; [|apply _]. by apply dep_UpdateDeployment_isolates.
Qed.

Lemma DeleteDeployment_isolates k :
  keeps_from t_deployments dep_UserID id user (keyed dep_ID) (DeleteDeployment ctx k).
Proof.
  unfold DeleteDeployment. read_first t_deployments dep_UserID dep_ID k.
  apply keeps_from_bind; [|apply _]. by apply dep_UpdateDeployment_isolates.
Qed.

Lemma GetQueue_reads k w q w1 :
  keyed q_ID (t_queues w) → GetQueue ctx k w = (Ok q, w1) →
  t_queues w1 = t_queues w ∧ read_at q_UserID user q_ID k q (t_queues w).
Proof.
  intros Hkey Hrun. apply GetQueue_row in Hrun as (_ & Hq & _ & Hk & Ho). repeat split; [done..|by apply Hkey].
Qed.

Lemma DeleteQueue_isolates k :
  keeps_from t_queues q_UserID id user (keyed q_ID) (DeleteQueue ctx k).
Proof.
  unfold DeleteQueue. apply (keeps_from_get t_queues) with (J := read_at q_UserID user q_ID k).
  - intros ? ? ?. apply GetQueue_reads.
  - apply _.
  - intros q. apply keeps_from_bind; [|apply _]. unfold queue_Delete. apply keeps_from_bind; [|apply _].
    apply (keeps_from_delete t_queues); [at_own|done].
Qed.

(** The rights on a key are checked after it is read by its identifier alone. *)
Lemma GetAPIKeyByID_reads {C} (f : APIKey → M C) k e :
  (∀ r, keeps_from t_api_keys ak_UserID id user (own_at ak_UserID user k) (f r)) →
  keeps_from t_api_keys ak_UserID id user (λ _, True)
    (key ← GetAPIKeyByID k; guard_err (negb (bool_decide (ak_UserID key = user))) e ;; f key).
Proof.
  intros Hf. apply (keeps_from_get t_api_keys) with (J := λ r t, t !! k = Some r).
  - intros w r w1 _ Hr. apply wrap_err_Ok, (db_query_row_pk_Ok t_api_keys) in Hr as (-> & Hk & _). done.
  - apply _.
  - intros r w Hk. case_bool_decide as Ho; [|done].
    change (guard_err _ _) with (mret () : M unit). rewrite mret_bind. apply Hf.
    intros r'. rewrite Hk. by intros [= <-].
Qed.

Lemma DeleteAPIKey_isolates k :
  keeps_from t_api_keys ak_UserID id user (own_at ak_UserID user k) (DeleteAPIKey k).
Proof.
  unfold DeleteAPIKey. apply keeps_from_bind; [|apply _]. apply keeps_from_wrap.
  by apply (keeps_from_delete t_api_keys).
Qed.

Lemma RevokeKey_isolates k :
  keeps_from t_api_keys ak_UserID id user (λ _, True) (RevokeKey user k).
Proof.
  unfold RevokeKey. apply GetAPIKeyByID_reads. intros r. apply keeps_from_bind; [|apply _].
  apply DeleteAPIKey_isolates.
Qed.

Lemma CreateKey_own_at `{Crypto} k name :
  Steps (holds t_api_keys (own_at ak_UserID user k)) (CreateKey user name).
Proof.
  unfold CreateKey, CreateAPIKey. repeat (apply steps_bind; [apply _| |intros ?]); try apply _.
  apply steps_wrap_err, steps_db_exec; [apply _..|]. intros w v w' Hs. unfold holds, keeps.
  unfold sql_insert in Hs. repeat case_match; simplify_eq. cbn. intros Hown r.
  destruct (decide (k = a0)) as [->|Hne]; [rewrite lookup_insert_eq; by intros [= <-]|].
  rewrite lookup_insert_ne by done. apply Hown.
Qed.

Lemma RotateKey_isolates `{Crypto} k :
  keeps_from t_api_keys ak_UserID id user (λ _, True) (RotateKey user k).
Proof.
  unfold RotateKey. apply GetAPIKeyByID_reads. intros r.
  apply keeps_from_seq; [apply _|apply CreateKey_own_at|intros nk]. apply keeps_from_bind; [|apply _].
  apply keeps_from_attempt, DeleteAPIKey_isolates.
Qed.

End operations.

(** ** Volumes and instances *)

Section compute.
Context `{Env, !OrderLaws} (ctx : Context).
Notation user := (UserIDFromContext ctx).
Notation IsolatesVolumes m := (Isolates user t_volumes vol_UserID id m).

#[export] Instance volume_Update_own v : vol_UserID v = user → IsolatesVolumes (volume_Update v).
Proof.
  intros Hv. unfold volume_Update. apply steps_bind; [apply _| |apply _].
  apply steps_db_exec; [apply _..|]. apply (update_own t_volumes); [own_where|own_update].
Qed.

#[export] Instance resolveVolumes_returns l :
  Returns (λ r : list string * list Volume, Forall (λ v, vol_UserID v = user) r.2) (resolveVolumes ctx l).
Proof.
  unfold resolveVolumes. intros w r w' Hrun.
  assert (Forall (λ v, vol_UserID v = user) ([] : list Volume)) as Hacc by constructor.
  change ([] : list Volume) with (([] : list string, [] : list Volume).2) in Hacc. revert Hacc Hrun.
  generalize ([] : list string, [] : list Volume) as acc. revert w.
  induction l as [|va l IH]; intros w acc Hacc Hrun; cbn [foldM] in Hrun.
  { unfold mret, M_ret in Hrun. by injection Hrun as <- _. }
  ok_step Hrun acc' w1. refine (IH _ _ _ Hrun). ok_step Hrun0 v w2. ok_step Hrun0 x w3.
  unfold mret, M_ret in Hrun0. injection Hrun0 as <- _. cbn. apply Forall_app. split; [done|].
  apply Forall_singleton. apply wrap_err_Ok in Hrun1. unfold getVolumeByIDOrName in Hrun1.
  case_match; [by eapply volume_GetByID_returns|by eapply volume_GetByName_returns].
Qed.

#[export] Instance volume_ListByInstanceID_returns i :
  Returns (Forall (λ v, vol_UserID v = user)) (volume_ListByInstanceID ctx i).
Proof.
  intros w l w' Hrun. unfold volume_ListByInstanceID in Hrun. apply db_query_Ok in Hrun as [_ ->].
  apply Forall_forall. intros v Hv%elem_of_cut. rewrite env_order_perm in Hv. unfold select in Hv.
  apply list_elem_of_filter in Hv as [Hv _]. own_where.
Qed.

#[export] Instance updateVolumesAfterLaunch_own l i :
  Forall (λ v, vol_UserID v = user) l → IsolatesVolumes (updateVolumesAfterLaunch l i).
Proof. intros Hl. unfold updateVolumesAfterLaunch. apply volumes_foreach; [done|]. intros v Hv. apply _. Qed.

#[export] Instance releaseAttachedVolumes_own i : IsolatesVolumes (releaseAttachedVolumes ctx i).
Proof.
  unfold releaseAttachedVolumes. eapply steps_bind_returns; [apply _..|]. intros l Hl.
  apply volumes_foreach; [done|]. intros v Hv. unfold released. apply _.
Qed.

#[local] Hint Extern 1 (Steps _ (volume_Update _)) =>
  apply volume_Update_own; cbn; congruence : typeclass_instances.
#[local] Hint Extern 1 (Steps _ (updateVolumesAfterLaunch _ _)) =>
  apply updateVolumesAfterLaunch_own; assumption : typeclass_instances.

Lemma LaunchInstance_volumes name image ports vpc subnet vols :
  IsolatesVolumes (LaunchInstance ctx name image ports vpc subnet vols).
Proof.
  unfold LaunchInstance. do 5 (apply steps_bind; [apply _..|intros ?]).
  unfold launch_resources. apply steps_bind; [apply _..|]. intros [[] ?].
  eapply steps_bind_returns; [apply _..|]. intros [binds attached] Hl. cbn in Hl.
  unfold launch_container. apply steps_bind; [apply _..|]. intros [e|c]; [apply _|].
  unfold launch_running. apply _.
Qed.

Lemma LaunchInstance_instances name image ports vpc subnet vols :
  Isolates user t_instances inst_UserID id (LaunchInstance ctx name image ports vpc subnet vols).
Proof.
  unfold LaunchInstance. do 4 (apply steps_bind; [apply _..|intros ?]).
  unfold instance_Create. apply steps_bind; [apply _| |intros _].
  { apply steps_wrap_err, steps_db_exec; [apply _..|]. by apply instance_insert_own. }
  unfold launch_resources. apply steps_bind; [apply _..|]. intros [[] ?]. apply _.
Qed.

Lemma CreateVPC_vpcs dflt name cidr :
  Isolates user t_vpcs vpc_UserID id (CreateVPC dflt ctx name cidr).
Proof.
  assert (∀ v, vpc_UserID v = user → Isolates user t_vpcs vpc_UserID id (vpc_Create v)) as Hc.
  { intros v Hv. unfold vpc_Create. apply steps_wrap_err, steps_db_exec; [apply _..|].
    by apply vpc_insert_own. }
  unfold CreateVPC. do 3 (apply steps_bind; [apply _..|intros ?]).
  apply steps_bind; [apply _|by apply steps_attempt, Hc|apply _].
Qed.

End compute.

(** ** A reference the deletion of a row of the user clears *)

Section detached.
Context {A P : Type} (tbl : World → gmap uuid A) (parents : World → gmap uuid P).
Context (owner : A → uuid) (ref : A → option uuid) (clear : A → A) (parent_owner : P → uuid) (u : uuid).

(** A row of another user is as it was, or lost its reference to a row of the user. *)
Definition row_kept (w : World) (r r' : A) : Prop :=
  r' = r ∨ r' = clear r ∧ ∃ i, ref r = Some i ∧ ∀ x, parents w !! i = Some x → parent_owner x = u.

Definition rows_kept (w w' : World) : Prop :=
  ∀ k r, tbl w !! k = Some r → owner r ≠ u → ∃ r', tbl w' !! k = Some r' ∧ row_kept w r r'.

Definition detaches : relation World := λ w w',
  same (λ w, others parent_owner id u (parents w)) w w' ∧
  same (λ w, others owner clear u (tbl w)) w w' ∧ rows_kept w w'.

Context (owner_clear : ∀ r, owner (clear r) = owner r) (ref_clear : ∀ r, ref (clear r) = None).
Context (clear_clear : ∀ r, clear (clear r) = clear r).

Lemma parent_same w w' i :
  same (λ w, others parent_owner id u (parents w)) w w' →
  (∀ x, parents w' !! i = Some x → parent_owner x = u) → ∀ x, parents w !! i = Some x → parent_owner x = u.
Proof.
  intros Hs Hp x Hx. destruct (decide (parent_owner x = u)) as [|Hne]; [done|]. unfold same in Hs.
  assert (others parent_owner id u (parents w') !! i = Some x) as Hi.
  { rewrite Hs, lookup_others, Hx. cbn. by rewrite bool_decide_false. }
  rewrite lookup_others in Hi. destruct (parents w' !! i) as [y|]; [|done]. cbn in Hi.
  case_bool_decide; [done|]. injection Hi as ->. by apply Hp.
Qed.

Lemma detaches_trans w1 w2 w3 : detaches w1 w2 → detaches w2 w3 → detaches w1 w3.
Proof.
  intros (Hp1 & Ho1 & Hk1) (Hp2 & Ho2 & Hk2). split_and!; [by transitivity w2..|].
  intros k r Hr Hne. destruct (Hk1 k r Hr Hne) as (r2 & Hr2 & Hs1).
  assert (owner r2 ≠ u) as Hne2 by (destruct Hs1 as [->|[-> _]]; by rewrite ?owner_clear).
  destruct (Hk2 k r2 Hr2 Hne2) as (r3 & Hr3 & Hs2). exists r3. split; [done|].
  destruct Hs2 as [->|[-> (i & Hi & Hx)]]; [done|]. destruct Hs1 as [->|[-> _]].
  - right. split; [done|]. exists i. split; [done|]. by apply (parent_same w1 w2).
  - by rewrite ref_clear in Hi.
Qed.

#[local] Instance detaches_preorder : PreOrder detaches.
Proof.
  split; [|intros w1 w2 w3; apply detaches_trans].
  intros w. split_and!; [done..|]. intros k r Hr _. exists r. split; [done|by left].
Qed.

(** An operation that keeps both tables of the others. *)
Lemma same_detaches w w' :
  same (λ w, others parent_owner id u (parents w)) w w' → same (λ w, others owner id u (tbl w)) w w' →
  detaches w w'.
Proof.
  intros Hp Hs. unfold same in Hs.
  assert (∀ k r, owner r ≠ u → tbl w !! k = Some r → tbl w' !! k = Some r) as Hkeep.
  { intros k r Hne Hr. assert (others owner id u (tbl w') !! k = Some r) as Hk.
    { rewrite Hs, lookup_others, Hr. cbn. by rewrite bool_decide_false. }
    rewrite lookup_others in Hk. destruct (tbl w' !! k) as [y|]; [|done]. cbn in Hk.
    case_bool_decide; [done|]. by injection Hk as ->. }
  split_and!; [done| |intros k r Hr Hne; exists r; split; [by apply Hkeep|by left]].
  unfold same. apply map_eq. intros k. pose proof (f_equal (.!! k) Hs) as Hk. cbn in Hk.
  rewrite !lookup_others in Hk |- *. destruct (tbl w !! k), (tbl w' !! k); cbn in *;
    repeat case_bool_decide; simplify_eq; done.
Qed.

Lemma steps_detaches {C} (m : M C) :
  Isolates u parents parent_owner id m → Isolates u tbl owner id m → Steps detaches m.
Proof. intros Hp Ht w. apply same_detaches; [apply (Hp w)|apply (Ht w)]. Qed.

(** The deletion of a row of the user, which clears the references to it. *)
Lemma delete_detaches `{!Field parents, !FieldOk parents, !Indep tbl parents} k cond ok cascade :
  (∀ x, cond x = true → parent_owner x = u) → (∀ w, parents (cascade w) = parents w) →
  (∀ w, tbl (cascade w) = (λ r, if bool_decide (ref r = Some k) then clear r else r) <$> tbl w) →
  StmtOk detaches (sql_delete parents k cond ok cascade).
Proof.
  intros Hcond Hpar Hcas w a w' Hs.
  assert (StmtOk (same (λ w, others parent_owner id u (parents w))) (sql_delete parents k cond ok cascade)) as Hp.
  { apply (delete_own parents); [done|]. intros v. by rewrite Hpar. }
  specialize (Hp w a w' Hs). unfold sql_delete in Hs. destruct (parents w !! k) as [x|] eqn:Hx; [|by simplify_eq].
  destruct (cond x) eqn:Hc; [|by simplify_eq]. destruct (ok w); [|done]. injection Hs as _ <-.
  assert (∀ v, tbl (v <| parents ::= delete k |>) = tbl v) as Hind by (intros v; apply (indep (p := tbl))).
  split_and!; [done| |].
  - unfold same. rewrite Hcas, Hind. apply others_fmap; intros r; case_bool_decide; by rewrite ?owner_clear, ?clear_clear.
  - intros j r Hr _. rewrite Hcas, Hind, lookup_fmap, Hr. eexists. split; [done|].
    case_bool_decide as He; [|by left]. right. split; [done|]. exists k. split; [done|].
    rewrite Hx. intros y [= <-]. by apply Hcond.
Qed.

End detached.

(** ** Every operation of a user *)

Section isolation.
Context `{Env, Crypto, HttpEnv, CronParser, ZipReader, Formats, !OrderLaws} (cfg : Config).
Context (ctx : Context).
Notation user := (UserIDFromContext ctx).

(** What a request of the user of the context can run. *)
Inductive user_api : ∀ A, M A → Prop :=
  | user_identity A m : identity_api ctx A m → user_api A m
  | user_compute A m : compute_api cfg ctx A m → user_api A m
  | user_orchestration A m : orchestration_api ctx A m → user_api A m
  | user_data A m : data_api cfg ctx A m → user_api A m.

(** What the rows of the other users hold, without the references to an instance or a VPC
    that the deletion of the latter clears. *)
Record ForeignRows := MkForeignRows {
  f_instances : gmap uuid Instance;
  f_volumes : gmap uuid Volume;
  f_vpcs : gmap uuid VPC;
  f_lbs : gmap uuid LoadBalancer;
  f_groups : gmap uuid ScalingGroup;
  f_deployments : gmap uuid Deployment;
  f_queues : gmap uuid Queue;
  f_databases : gmap uuid Database;
  f_cron_jobs : gmap uuid CronJob;
  f_routes : gmap uuid GatewayRoute;
  f_topics : gmap uuid Topic;
  f_secrets : gmap uuid Secret;
  f_api_keys : gmap uuid APIKey
}.

Definition foreign_rows (u : uuid) (w : World) : ForeignRows :=
  MkForeignRows
    (others inst_UserID id u (t_instances w))
    (others vol_UserID (λ v, v <| vol_InstanceID := None |>) u (t_volumes w))
    (others vpc_UserID id u (t_vpcs w))
    (others lb_UserID id u (t_lbs w))
    (others sg_UserID id u (t_groups w))
    (others dep_UserID id u (t_deployments w))
    (others q_UserID id u (t_queues w))
    (others db_UserID (λ d, d <| db_VpcID := None |>) u (t_databases w))
    (others cj_UserID id u (t_cron_jobs w))
    (others rt_UserID id u (t_routes w))
    (others top_UserID id u (t_topics w))
    (others sec_UserID id u (t_secrets w))
    (others ak_UserID id u (t_api_keys w)).

Ltac each_user_operation := intros ? ? [? ? []|? ? []|? ? []|? ? []].

Lemma instances_isolated : ∀ A m, user_api A m → Isolates user t_instances inst_UserID id m.
Proof. each_user_operation; try apply _. apply LaunchInstance_instances. Qed.
Lemma vpcs_isolated : ∀ A m, user_api A m → Isolates user t_vpcs vpc_UserID id m.
Proof. each_user_operation; try apply _. apply CreateVPC_vpcs. Qed.
Lemma lbs_isolated : ∀ A m, user_api A m → Isolates user t_lbs lb_UserID id m.
Proof. each_user_operation; apply _. Qed.
Lemma groups_isolated :
  ∀ A m, user_api A m → Isolates user t_groups sg_UserID id m.
Proof.
  each_user_operation; try apply _; [unfold DeleteGroup|unfold SetDesiredCapacity];
    (eapply steps_bind_returns; [apply _..|intros g Hg]).
  - apply steps_bind; [apply _|by apply asg_UpdateGroup_own|apply _].
  - apply steps_bind; [apply _..|intros _].
    apply steps_bind; [apply _|by apply asg_UpdateGroup_own|apply _].
Qed.
Lemma secrets_isolated : ∀ A m, user_api A m → Isolates user t_secrets sec_UserID id m.
Proof. each_user_operation; apply _. Qed.
Lemma api_keys_isolated : ∀ A m, user_api A m → Isolates user t_api_keys ak_UserID id m.
Proof.
  each_user_operation; try apply _; intros w; [by apply RevokeKey_isolates|by apply RotateKey_isolates].
Qed.
Lemma deployments_isolated :
  ∀ A m, user_api A m → keeps_from t_deployments dep_UserID id user (keyed dep_ID) m.
Proof.
  each_user_operation; try (apply frame_keeps_from; apply _);
  [apply ScaleDeployment_isolates|apply DeleteDeployment_isolates].
Qed.
Lemma queues_isolated : ∀ A m, user_api A m → keeps_from t_queues q_UserID id user (keyed q_ID) m.
Proof.
  each_user_operation; try (apply frame_keeps_from; apply _);
  apply DeleteQueue_isolates.
Qed.
Lemma cron_jobs_isolated : ∀ A m, user_api A m → keeps_from t_cron_jobs cj_UserID id user (keyed cj_ID) m.
Proof.
  each_user_operation; try (apply frame_keeps_from; apply _);
  [apply PauseJob_isolates|apply ResumeJob_isolates|apply cron_DeleteJob_isolates].
Qed.
Lemma routes_isolated : ∀ A m, user_api A m → keeps_from t_routes rt_UserID id user (keyed rt_ID) m.
Proof.
  each_user_operation; try (apply frame_keeps_from; apply _);
  apply DeleteRoute_isolates.
Qed.
Lemma topics_isolated : ∀ A m, user_api A m → keeps_from t_topics top_UserID id user (keyed top_ID) m.
Proof.
  each_user_operation; try (apply frame_keeps_from; apply _);
  apply DeleteTopic_isolates.
Qed.

(** The two operations that delete an instance or a VPC clear the references to it. *)
Notation detaches_volumes := (detaches t_volumes t_instances vol_UserID vol_InstanceID
  (λ v, v <| vol_InstanceID := None |>) inst_UserID user).
Notation detaches_databases := (detaches t_databases t_vpcs db_UserID db_VpcID
  (λ d, d <| db_VpcID := None |>) vpc_UserID user).

#[local] Instance detaches_volumes_preorder : PreOrder detaches_volumes.
Proof. by apply detaches_preorder. Qed.
#[local] Instance detaches_databases_preorder : PreOrder detaches_databases.
Proof. by apply detaches_preorder. Qed.

#[local] Hint Extern 100 (Steps (detaches _ _ _ _ _ _ _) _) =>
  apply steps_detaches; apply _ : typeclass_instances.

Lemma instance_Delete_detaches k : Steps detaches_volumes (instance_Delete ctx k).
Proof.
  unfold instance_Delete. apply steps_bind; [apply _| |intros n; apply _]. apply steps_wrap_err, steps_db_exec;
    [apply _|intros w; by apply same_detaches|].
  apply delete_detaches; try done. own_where.
Qed.

Lemma volumes_detached : ∀ A m, user_api A m → Steps detaches_volumes m.
Proof.
  intros A m Hm. assert (Isolates user t_instances inst_UserID id m) as Hi by by apply instances_isolated.
  revert Hi. revert A m Hm. each_user_operation; intros Hi;
    try (apply steps_detaches; [exact Hi|first [apply _|apply LaunchInstance_volumes]]).
  clear Hi. unfold TerminateInstance. apply steps_bind; [apply _..|intros inst].
  do 2 (apply steps_bind; [apply _..|intros ?]). apply steps_bind; [apply _|apply instance_Delete_detaches|].
  intros ?. apply _.
Qed.

Lemma vpc_Delete_detaches k : Steps detaches_databases (vpc_Delete ctx k).
Proof.
  unfold vpc_Delete. apply steps_bind; [apply _| |intros n; apply _]. apply steps_wrap_err, steps_db_exec;
    [apply _|intros w; by apply same_detaches|].
  apply delete_detaches; try done. own_where.
Qed.

Lemma databases_detached : ∀ A m, user_api A m → Steps detaches_databases m.
Proof.
  intros A m Hm. assert (Isolates user t_vpcs vpc_UserID id m) as Hi by by apply vpcs_isolated.
  revert Hi. revert A m Hm. each_user_operation; intros Hi; try (apply steps_detaches; [exact Hi|apply _]).
  clear Hi. unfold DeleteVPC. apply steps_bind; [apply _..|intros v].
  apply steps_bind; [apply _..|intros ?].
  apply steps_bind; [apply _|apply steps_wrap_err, vpc_Delete_detaches|]. intros ?. apply _.
Qed.

(** The rows of the other users are as they were, but for a volume or a database that lost
    its reference to a deleted instance or VPC of the user. *)
Definition undisturbed (u : uuid) (w w' : World) : Prop :=
  foreign_rows u w' = foreign_rows u w ∧
  rows_kept t_volumes t_instances vol_UserID vol_InstanceID (λ v, v <| vol_InstanceID := None |>)
    inst_UserID u w w' ∧
  rows_kept t_databases t_vpcs db_UserID db_VpcID (λ d, d <| db_VpcID := None |>) vpc_UserID u w w'.

(** The same as a relation between the tables. *)
Definition detached_rows : relation World := λ w w', detaches_volumes w w' ∧ detaches_databases w w'.

#[export] Instance detached_rows_preorder : PreOrder detached_rows.
Proof.
  split; [intros w; by split|]. intros w1 w2 w3 [? ?] [? ?]. split; by transitivity w2.
Qed.

(** No operation of a user changes, adds or removes a row of another user among the
    instances, volumes, VPCs, load balancers, scaling groups, deployments, queues,
    databases, scheduled jobs, routes, topics, secrets and API keys, whatever it returns and
    wherever it fails or panics.  Every state the system reaches is [well_keyed]. *)
Lemma tenant_rows A (m : M A) w :
  user_api A m → well_keyed w → foreign_rows user (m w).2 = foreign_rows user w.
Proof.
  intros Hm Hw. unfold well_keyed in Hw. destruct_and! Hw. unfold foreign_rows.
  destruct (volumes_detached _ _ Hm w) as (_ & Hv & _). destruct (databases_detached _ _ Hm w) as (_ & Hd & _).
  f_equal;
    first [ by apply (instances_isolated _ _ Hm) | exact Hv
          | by apply (vpcs_isolated _ _ Hm) | by apply (lbs_isolated _ _ Hm)
          | by apply (groups_isolated _ _ Hm) | by apply (deployments_isolated _ _ Hm)
          | by apply (queues_isolated _ _ Hm) | exact Hd
          | by apply (cron_jobs_isolated _ _ Hm) | by apply (routes_isolated _ _ Hm)
          | by apply (topics_isolated _ _ Hm) | by apply (secrets_isolated _ _ Hm)
          | by apply (api_keys_isolated _ _ Hm) ].
Qed.

Lemma tenant_detached A (m : M A) w : user_api A m → detached_rows w (m w).2.
Proof. intros Hm. split; [apply (volumes_detached _ _ Hm)|apply (databases_detached _ _ Hm)]. Qed.

Lemma undisturbed_intro w w' :
  foreign_rows user w' = foreign_rows user w → detached_rows w w' → undisturbed user w w'.
Proof. intros Hf [(_ & _ & Hv) (_ & _ & Hd)]. by split. Qed.

(** The two together. *)
Theorem tenant_isolation A (m : M A) w :
  user_api A m → well_keyed w → undisturbed user w (m w).2.
Proof. intros Hm Hw. apply undisturbed_intro; [by apply tenant_rows|by apply tenant_detached]. Qed.

End isolation.
