(* ===== verification/EdgeProofs.v ===== *)
(** * Schedules, routes and notifications: what a pass starts, what a request is forwarded
    to, what a published message reaches *)
From S2P Require Import Prelude GoStd Encoding Net Errors Domain DomainData World Logic Sql InstanceRepo.
From S2P Require Import Queue Http Cron Gateway Notify.

(** Leaving one goroutine per element of a list. *)
Lemma spawn_all {A} (f : A → Task) l w :
  foreach l (λ x, spawn (f x)) w = (Ok tt, w <| w_tasks ::= (λ t, t ++ (f <$> l)) |>).
Proof.
  revert w. induction l as [|x l IH]; intros w.
  - cbn. unfold mret, M_ret, modify. cbn. rewrite app_nil_r. by destruct w.
  - cbn [foreach]. unfold mbind, M_bind. unfold spawn at 1, modifies.
    rewrite IH. unfold modify. cbn. by rewrite <- (assoc_L (++)).
Qed.

Lemma GetNextJobsToRun_Ok `{Env, !OrderLaws} w jobs w1 :
  GetNextJobsToRun w = (Ok jobs, w1) →
  read_rows jobs (select (job_due (env_db_now (w_tick w)) (env_locked (w_tick w))) (t_cron_jobs w)) ∧
  w1 = w <| w_tick := S (S (w_tick w)) |>.
Proof.
  unfold GetNextJobsToRun, next_tick. intros Hrun. ok_step Hrun t w0. injection Hrun0 as <- <-.
  by apply db_query_read in Hrun as [-> ?].
Qed.

(** ** Scheduled jobs *)

Section cron_proofs.
Context `{Env, HttpEnv, CronParser, !OrderLaws}.

(** The jobs a pass starts: active, due at the time of the database, not locked. *)
Definition due_jobs (w : World) : list CronJob :=
  select (job_due (env_db_now (w_tick w)) (env_locked (w_tick w))) (t_cron_jobs w).

(** A pass leaves one goroutine for each due job it read and for no other, and writes nothing: a
    job stays due until its run ends. *)
Theorem ProcessJobs_effect w r w' :
  ProcessJobs w = (r, w') →
  r = Ok tt ∧
  ∃ jobs n, w' = w <| w_tick := n |> <| w_tasks := w_tasks w ++ (CronTask <$> jobs) |> ∧
    (read_rows jobs (due_jobs w) ∨ jobs = [] ∧ ∃ t, env_fault t ≠ None).
Proof.
  unfold ProcessJobs. intros Hrun.
  apply total_bind_inv in Hrun as (a & w1 & Ha & Hrun); [|apply _].
  apply attempt_inv in Ha as [(jobs & Hj & [= ->])|[(e & Hj & [= ->])|(p & _ & ?)]]; [| |done].
  - apply GetNextJobsToRun_Ok in Hj as [Hp ->]. rewrite spawn_all in Hrun. injection Hrun as <- <-.
    split; [done|]. exists jobs, (S (S (w_tick w))). split; [done|by left].
  - unfold mret, M_ret in Hrun. injection Hrun as <- <-. split; [done|].
    unfold GetNextJobsToRun, next_tick, mbind, M_bind, db_query, db_rows in Hj. cbn in Hj.
    destruct (env_fault (S (w_tick w))) eqn:Hf; [|done]. injection Hj as _ <-.
    exists [], (S (S (w_tick w))). unfold modify. cbn. rewrite app_nil_r. split; [by destruct w|].
    right. split; [done|]. exists (S (w_tick w)). by rewrite Hf.
Qed.

(** The next pass starts a job again that the last one started and that has not ended: two
    passes in a row leave two goroutines for it. *)
Theorem due_job_runs_twice `{!NoFaults} job w r1 w1 r2 w2 :
  job ∈ due_jobs w → job ∈ due_jobs w1 →
  ProcessJobs w = (r1, w1) → ProcessJobs w1 = (r2, w2) →
  ∃ l1 l2 l3, w_tasks w2 = l1 ++ CronTask job :: l2 ++ CronTask job :: l3.
Proof.
  intros Hj1 Hj2 Hr1 Hr2.
  assert (∀ v r v', ProcessJobs v = (r, v') →
    ∃ jobs, w_tasks v' = w_tasks v ++ (CronTask <$> jobs) ∧ jobs ≡ₚ due_jobs v) as Hpass.
  { intros v r v' Hv. unfold ProcessJobs in Hv.
    apply total_bind_inv in Hv as (a & v1 & Ha & Hv); [|apply _].
    unfold attempt, GetNextJobsToRun, next_tick, mbind, M_bind, db_query, db_rows in Ha. cbn in Ha.
    rewrite no_faults, no_cuts in Ha. injection Ha as <- <-. rewrite spawn_all in Hv. injection Hv as _ <-. cbn.
    eexists. split; [done|]. apply env_order_perm. }
  destruct (Hpass _ _ _ Hr1) as (j1 & Ht1 & Hp1), (Hpass _ _ _ Hr2) as (j2 & Ht2 & Hp2).
  rewrite <- Hp1 in Hj1. rewrite <- Hp2 in Hj2.
  apply list_elem_of_split in Hj1 as (a1 & b1 & ->), Hj2 as (a2 & b2 & ->).
  exists (w_tasks w ++ (CronTask <$> a1)), ((CronTask <$> b1) ++ (CronTask <$> a2)), (CronTask <$> b2).
  rewrite Ht2, Ht1, !fmap_app, !fmap_cons. by rewrite <- !(assoc_L (++)).
Qed.

(** A run writes its job back as it was when the pass read it. *)
Lemma recordRun_update `{!NoFaults} job row status code line d Next w r w' :
  cron_Parse false (cj_Schedule job) = inr Next → t_cron_jobs w !! cj_ID job = Some row →
  recordRun job status code line d w = (r, w') →
  r = Ok tt ∧ ∃ row' now, t_cron_jobs w' = <[cj_ID job := row']> (t_cron_jobs w) ∧
    cj_Status row' = cj_Status job ∧ cj_NextRunAt row' = Some (Next now) ∧ cj_UserID row' = cj_UserID row.
Proof.
  intros HN Hrow Hrun. unfold recordRun in Hrun. rewrite HN in Hrun.
  apply total_bind_inv in Hrun as (rid & w1 & Hid & Hrun); [|apply _].
  apply total_bind_inv in Hrun as (now & w2 & Hnow & Hrun); [|apply _].
  apply ignore_bind_inv in Hrun as (x & w3 & Hsave & Hrun); [|apply _].
  apply total_bind_inv in Hrun as (t & w4 & Ht & Hrun); [|apply _].
  assert (t_cron_jobs w4 = t_cron_jobs w) as Hf.
  { apply (frame_run t_cron_jobs) in Hid, Hnow, Hsave, Ht; try apply _. congruence. }
  apply ignore_inv in Hrun as [[-> [y Hupd]]|(p & Hp & _)].
  - split; [done|]. unfold cron_UpdateJob, next_tick, mbind, M_bind, db_exec in Hupd. cbn in Hupd.
    rewrite no_faults in Hupd. unfold sql_update in Hupd. cbn in Hupd. rewrite Hf, Hrow in Hupd.
    injection Hupd as _ <-. cbn. rewrite Hf. eexists _, _. split; [done|]. by cbn.
  - by destruct (no_panic_run _ _ _ _ Hp).
Qed.

Lemma runJob_records job w r w' :
  runJob job w = (r, w') →
  ∃ status code line d v, recordRun job status code line d v = (r, w') ∧ t_cron_jobs v = t_cron_jobs w.
Proof.
  unfold runJob. intros Hrun. apply total_bind_inv in Hrun as (start & w1 & Hst & Hrun); [|apply _].
  apply (frame_run t_cron_jobs) in Hst; [|apply _]. destruct (NewRequest _ _) as [e|m].
  - apply total_bind_inv in Hrun as (now & w2 & Hnow & Hrun); [|apply _].
    apply (frame_run t_cron_jobs) in Hnow; [|apply _]. eexists _, _, _, _, w2. split; [done|congruence].
  - apply total_bind_inv in Hrun as (a & w2 & Ha & Hrun); [|apply _].
    apply total_bind_inv in Hrun as (now & w3 & Hnow & Hrun); [|apply _].
    apply (frame_run t_cron_jobs) in Ha, Hnow; try apply _.
    destruct a as [e|[code line]]; eexists _, _, _, _, w3; (split; [done|congruence]).
Qed.

(** A job paused while a run of it is under way is active again, with a time of its next
    run, when the run ends. *)
Theorem pause_lost_to_run `{!NoFaults} ctx job row Next w w1 r w2 :
  cj_Status job = CronStatusActive → cron_Parse false (cj_Schedule job) = inr Next →
  t_cron_jobs w !! cj_ID job = Some row → cj_ID row = cj_ID job →
  PauseJob ctx (cj_ID job) w = (Ok tt, w1) → runJob job w1 = (r, w2) →
  (∃ row1, t_cron_jobs w1 !! cj_ID job = Some row1 ∧ cj_Status row1 = CronStatusPaused
           ∧ cj_NextRunAt row1 = None) ∧
  r = Ok tt ∧
  ∃ row2 t, t_cron_jobs w2 !! cj_ID job = Some row2 ∧ cj_Status row2 = CronStatusActive ∧
    cj_NextRunAt row2 = Some t.
Proof.
  intros Hact HN Hrow Hid Hpause Hrun. unfold PauseJob in Hpause. ok_step Hpause j0 w0.
  apply (db_query_row_pk_Ok t_cron_jobs) in Hrun0 as (-> & Hj0 & _). rewrite Hrow in Hj0.
  injection Hj0 as <-.
  unfold cron_UpdateJob, next_tick, mbind, M_bind, db_exec in Hpause. cbn in Hpause.
  rewrite no_faults in Hpause. unfold sql_update in Hpause. cbn in Hpause.
  rewrite Hid, Hrow in Hpause. injection Hpause as <-.
  split; [cbn; rewrite lookup_insert_eq; by eexists|].
  apply runJob_records in Hrun as (st & code & line & d & v & Hrec & Hv).
  eapply recordRun_update in Hrec as (-> & row' & now & Ht & Hst & Hnext & _); [|exact HN|].
  2: { rewrite Hv. cbn. apply lookup_insert_eq. }
  split; [done|]. exists row', (Next now). rewrite Ht, lookup_insert_eq. split_and!; [done|congruence|done].
Qed.

(** A schedule of the parser of the service that the parser of the worker does not know,
    like ["@daily"], is accepted, and the first run of its job panics, whatever the target
    answers. *)
Theorem descriptor_schedule_panics ctx name schedule url meth payload w job w1 e v :
  CreateJob ctx name schedule url meth payload w = (Ok job, w1) → cron_Parse false schedule = inl e →
  ∃ msg, (runJob job v).1 = Panic msg.
Proof.
  intros Hrun Hp. assert (cj_Schedule job = schedule) as Hs.
  { unfold CreateJob in Hrun. ok_step Hrun u w2. case_match; [done|]. ok_step Hrun now w3.
    ok_step Hrun jid w4. ok_step Hrun cr w5. ok_step Hrun up w6. cbn zeta in Hrun. ok_step Hrun x w7.
    ok_step Hrun ev w8. ok_step Hrun lg w9. unfold mret, M_ret in Hrun. by injection Hrun as <- _. }
  destruct (runJob job v) as [r v'] eqn:Hj. apply runJob_records in Hj as (st & c & l & d & v1 & Hrec & _).
  unfold recordRun in Hrec. rewrite Hs, Hp in Hrec.
  apply total_bind_inv in Hrec as (rid & v2 & _ & Hrec); [|apply _].
  apply total_bind_inv in Hrec as (now & v3 & _ & Hrec); [|apply _].
  apply ignore_bind_inv in Hrec as (x & v4 & _ & Hrec); [|apply _].
  unfold panic in Hrec. injection Hrec as <- _. by eexists.
Qed.

End cron_proofs.

(** ** Routes *)

Section gateway_proofs.
Context `{Env, HttpEnv, !OrderLaws}.

Lemma route_map_fold routes (m : gmap string GatewayRoute) prefix r :
  foldl (λ m r, if parses (rt_TargetURL r) then <[rt_PathPrefix r := r]> m else m) m routes !! prefix = Some r →
  m !! prefix = Some r ∨ (r ∈ routes ∧ parses (rt_TargetURL r) = true ∧ rt_PathPrefix r = prefix).
Proof.
  revert m. induction routes as [|x l IH]; intros m; cbn; [by left|].
  intros [Hm|(Hr & Hp)]%IH; [|right; split; [by right|done]].
  destruct (parses (rt_TargetURL x)) eqn:Hp; [|by left].
  destruct (decide (rt_PathPrefix x = prefix)) as [<-|Hne].
  - rewrite lookup_insert_eq in Hm. injection Hm as ->. right. split; [by left|done].
  - left. by rewrite lookup_insert_ne in Hm.
Qed.

Lemma route_map_total routes (m : gmap string GatewayRoute) r :
  (is_Some (m !! rt_PathPrefix r) ∨ (r ∈ routes ∧ parses (rt_TargetURL r) = true)) →
  is_Some (foldl (λ m r, if parses (rt_TargetURL r) then <[rt_PathPrefix r := r]> m else m) m routes
             !! rt_PathPrefix r).
Proof.
  revert m. induction routes as [|x l IH]; intros m; cbn.
  { intros [?|[Hr _]]; [done|]. by apply not_elem_of_nil in Hr. }
  intros Hr. apply IH. destruct Hr as [Hm|[[->|Hr]%elem_of_cons Hp]].
  - left. case_match; [|done]. destruct (decide (rt_PathPrefix x = rt_PathPrefix r)) as [->|Hne];
      [by rewrite lookup_insert_eq|by rewrite lookup_insert_ne].
  - left. rewrite Hp. by rewrite lookup_insert_eq.
  - by right.
Qed.

Lemma RefreshRoutes_Ok w u w1 :
  RefreshRoutes w = (Ok u, w1) →
  ∃ l, read_rows l (select (λ _, true) (t_routes w)) ∧ m_routes w1 = route_map l ∧ t_routes w1 = t_routes w.
Proof.
  unfold RefreshRoutes, GetAllActiveRoutes. intros Hrun. ok_step Hrun l w0.
  apply db_query_read in Hrun0 as [-> Hl]. injection Hrun as _ <-. cbn. by exists l.
Qed.

Lemma GetProxy_run path w :
  ∃ o, GetProxy path w = (Ok o, w <| w_tick ::= S |>) ∧
  match o with
  | Some rt => ∃ prefix, m_routes w !! prefix = Some rt ∧ HasPrefix path prefix = true
  | None => ∀ prefix rt, m_routes w !! prefix = Some rt → HasPrefix path prefix = false
  end.
Proof.
  unfold GetProxy, gets, next_tick, mbind, M_bind, mret, M_ret.
  eexists. split; [reflexivity|].
  destruct (find _ _) as [[prefix rt]|] eqn:Hf; cbn.
  - apply find_some in Hf as [Hin Hp]. exists prefix. split; [|done].
    by rewrite <- list_elem_of_In, env_order_elem, elem_of_map_to_list in Hin.
  - intros prefix rt Hm. apply (find_none _ _ Hf (prefix, rt)).
    by rewrite <- list_elem_of_In, env_order_elem, elem_of_map_to_list.
Qed.

(** C18: After a refresh, when no statement fails and no reading breaks off, a request is forwarded to
    a stored route whose target is a URL and whose prefix is one of its path, and it is turned
    away only when no such route is stored. *)
Theorem gateway_serves_routes `{!NoFaults} path w u w1 :
  RefreshRoutes w = (Ok u, w1) →
  ∃ o w2, GetProxy path w1 = (Ok o, w2) ∧ t_routes w2 = t_routes w ∧
  match o with
  | Some rt => (∃ k, t_routes w !! k = Some rt) ∧ parses (rt_TargetURL rt) = true ∧
      HasPrefix path (rt_PathPrefix rt) = true
  | None => ∀ k rt, t_routes w !! k = Some rt → parses (rt_TargetURL rt) = true →
      HasPrefix path (rt_PathPrefix rt) = false
  end.
Proof.
  intros (l & Hl & Hm & Ht)%RefreshRoutes_Ok.
  destruct (GetProxy_run path w1) as (o & Hrun & Ho). exists o, (w1 <| w_tick ::= S |>).
  split_and!; [done|done|]. destruct o as [rt|].
  - destruct Ho as (prefix & Hp & Hpre). rewrite Hm in Hp. unfold route_map in Hp.
    apply route_map_fold in Hp as [Hp|(Hin & Hp & <-)]; [by rewrite lookup_empty in Hp|].
    apply (read_rows_elem _ _ _ Hl), elem_of_select in Hin as [_ Hk]. done.
  - intros k rt Hk Hp. destruct (route_map_total l ∅ rt) as [rt' Hrt'].
    { right. split; [|done]. destruct Hl as [_ Hl]. rewrite (Hl _). apply elem_of_select.
      split; [done|by exists k]. }
    apply (Ho _ rt'). by rewrite Hm.
Qed.

End gateway_proofs.

(** ** What the prefix is stripped from *)

Lemma HasPrefix_app a b : HasPrefix (a +:+ b) a = true.
Proof. induction a as [|c a IH]; [by destruct b|]. cbn. by rewrite bool_decide_true, IH. Qed.

Lemma str_drop_app a b : str_drop (String.length a) (a +:+ b) = b.
Proof. induction a as [|c a IH]; [by destruct b|]. cbn. apply IH. Qed.

Lemma TrimPrefix_app a b : TrimPrefix (a +:+ b) a = b.
Proof. unfold TrimPrefix. by rewrite HasPrefix_app, str_drop_app. Qed.

Lemma HasPrefix_slash_app a b : HasPrefix a "/" = true → HasPrefix (a +:+ b) "/" = true.
Proof. by destruct a. Qed.

(** The prefix of a route is taken off the path of a request only when the target URL has
    no path of its own: it is looked for after the path of the target has been put in
    front, so any other target gets the path with "/gw" and the prefix in it. *)
Theorem strip_prefix_only_at_root r target rest :
  rt_StripPrefix r = true → let asked := "/gw" +:+ rt_PathPrefix r in
  (url_Path target = "" →
     director r target (asked +:+ rest) = if HasPrefix rest "/" then rest else "/" +:+ rest) ∧
  (HasPrefix (url_Path target) "/" = true → HasSuffix_slash (url_Path target) = false →
   HasPrefix (url_Path target +:+ asked +:+ rest) asked = false →
     director r target (asked +:+ rest) = url_Path target +:+ asked +:+ rest).
Proof.
  intros Hs asked. unfold director, singleJoiningSlash. rewrite Hs. fold asked. split.
  - intros ->. change (HasSuffix_slash "") with false. cbn [andb negb].
    change (HasPrefix (asked +:+ rest) "/") with true. cbn [andb negb].
    change ("" +:+ asked +:+ rest) with (asked +:+ rest). by rewrite TrimPrefix_app.
  - intros Hp Hsl Hno. rewrite Hsl. cbn [andb negb].
    change (HasPrefix (asked +:+ rest) "/") with true. cbn [andb negb].
    unfold TrimPrefix. by rewrite Hno, HasPrefix_slash_app.
Qed.

(** ** Notifications *)

Section notify_proofs.
Context `{Env, HttpEnv, !OrderLaws} (ctx : Context).

Lemma sub_List_Ok topic w subs w1 :
  sub_List topic w = (Ok subs, w1) →
  read_rows subs (select (λ s, bool_decide (sub_TopicID s = topic)) (t_subscriptions w)) ∧ w1 = w <| w_tick ::= S |>.
Proof.
  unfold sub_List. intros Hrun. ok_step Hrun l w0. apply db_query_read in Hrun0 as [-> Hl].
  unfold mret, M_ret in Hrun. injection Hrun as <- <-. split; [|done]. unfold order_desc.
  by rewrite merge_sort_Permutation.
Qed.

(** C33: A published message is stored once, under the topic of the user, and one delivery is
    left to run for each subscription of the topic that was read, whoever made it, and for
    nothing else.  All of them are read when no statement fails and no reading breaks off; a
    reading that breaks off is not noticed, and the subscriptions behind it get nothing. *)
Theorem Publish_fans_out topic body w u w' :
  Publish ctx topic body w = (Ok u, w') →
  ∃ t mid created subs,
    t_topics w !! topic = Some t ∧ top_UserID t = UserIDFromContext ctx ∧
    t_notify_messages w !! mid = None ∧
    t_notify_messages w' = <[mid := MkNotifyMessage mid (top_ID t) body created]> (t_notify_messages w) ∧
    read_rows subs (select (λ s, bool_decide (sub_TopicID s = topic)) (t_subscriptions w)) ∧
    w_tasks w' = w_tasks w ++ ((λ s, DeliverTask s body) <$> subs) ∧
    t_topics w' = t_topics w ∧ t_subscriptions w' = t_subscriptions w.
Proof.
  unfold Publish. intros Hrun. ok_step Hrun user w1.
  assert (user = UserIDFromContext ctx ∧ w1 = w) as [-> ->].
  { unfold current_user in Hrun0. ok_step Hrun0 x w2. apply guard_err_Ok in Hrun1 as [_ ->].
    unfold mret, M_ret in Hrun0. by injection Hrun0 as <- <-. }
  ok_step Hrun t w1. apply (db_query_row_pk_Ok t_topics) in Hrun1 as (-> & Ht & Ho).
  unfold of_user in Ho. rewrite bool_decide_eq_true in Ho.
  ok_step Hrun mid w2. injection Hrun1 as <- <-. ok_step Hrun created w3. injection Hrun1 as <- <-.
  cbn zeta in Hrun. ok_step Hrun x w4. unfold SaveMessage, db_exec in Hrun1.
  destruct (env_fault _); [done|]. unfold sql_insert in Hrun1. cbn in Hrun1.
  destruct (t_notify_messages w !! _) eqn:Hfresh; [done|]. case_bool_decide; [|done].
  injection Hrun1 as _ <-. ok_step Hrun subs w5. apply sub_List_Ok in Hrun1 as [Hsubs ->]. cbn in Hsubs.
  ok_step Hrun y w6. rewrite spawn_all in Hrun1. injection Hrun1 as _ <-.
  ok_step Hrun ev w7. apply (frame_run t_notify_messages) in Hrun1 as Hf1; [|apply _].
  apply (frame_run t_topics) in Hrun1 as Hf2; [|apply _].
  apply (frame_run t_subscriptions) in Hrun1 as Hf3; [|apply _].
  apply (frame_run w_tasks) in Hrun1 as Hf4; [|apply _].
  apply (frame_run t_notify_messages) in Hrun as Hg1; [|apply _].
  apply (frame_run t_topics) in Hrun as Hg2; [|apply _].
  apply (frame_run t_subscriptions) in Hrun as Hg3; [|apply _].
  apply (frame_run w_tasks) in Hrun as Hg4; [|apply _].
  cbn in *. exists t. eexists _, _, subs. split_and!; [exact Ht|done|exact Hfresh|by rewrite Hg1, Hf1|done|
    by rewrite Hg4, Hf4|congruence|congruence].
Qed.

(** The endpoint of a webhook is not looked at when the subscription is made: the first
    message that reaches one that is no URL panics outside of any request. *)
Theorem bad_webhook_panics topic endpoint w sub w1 dctx body v err :
  Subscribe ctx topic ProtocolWebhook endpoint w = (Ok sub, w1) → url_Parse endpoint = inl err →
  deliver dctx sub body v = (Panic "invalid memory address or nil pointer dereference", v).
Proof.
  unfold Subscribe. intros Hrun Hp. ok_step Hrun user w2. ok_step Hrun t w3. ok_step Hrun sid w4.
  ok_step Hrun cr w5. ok_step Hrun up w6. cbn zeta in Hrun. ok_step Hrun x w7. ok_step Hrun ev w8.
  ok_step Hrun lg w9. unfold mret, M_ret in Hrun. injection Hrun as <- _.
  unfold deliver. cbn [sub_Protocol sub_Endpoint]. rewrite bool_decide_false by done.
  rewrite bool_decide_true by done. unfold NewRequest. rewrite bool_decide_false by done.
  change (validMethod_bytes "POST") with true. cbn iota. by rewrite Hp.
Qed.

End notify_proofs.
