(* ===== verification/DataProofs.v ===== *)
(** * What functions, caches and snapshots leave behind *)
From S2P Require Import Prelude GoStd Encoding Net Errors Domain DomainData World Logic Sql InstanceRepo.
From S2P Require Import NetworkRepo Secret Storage Function InstanceService VolumeService NetworkService.
From S2P Require Import NetworkProofs Cache Database Snapshot.

(** * Running a function touches no file outside the directory made for it *)

(** What the files outside a directory hold stays. *)
Definition confined (dir : string) : relation World :=
  λ w w', ∀ p, inside dir p = false → w_files w' !! p = w_files w !! p.

#[export] Instance confined_preorder dir : PreOrder (confined dir).
Proof. split; [done|]. intros w1 w2 w3 H1 H2 p Hp. by rewrite H2, H1. Qed.
#[export] Instance confined_tick dir : TickOk (confined dir).
Proof. done. Qed.
#[export] Instance confined_call dir : CallOk (confined dir).
Proof. done. Qed.

Lemma frame_confined {A} dir (m : M A) : Frame w_files m → Steps (confined dir) m.
Proof. intros Hm w p _. by rewrite (Hm w). Qed.

Lemma confined_write dir path s :
  inside dir path = true → Steps (confined dir) (modifies w_files <[path := s]>).
Proof.
  intros Hin w p Hp. cbn. rewrite lookup_insert_ne; [done|]. intros ->. congruence.
Qed.

Lemma guarded_steps {A} (R : relation World) `{!PreOrder R} b e (m : M A) :
  (b = false → Steps R m) → Steps R (guard_err b e ;; m).
Proof.
  intros Hm w. destruct b; [by cbn|]. change (guard_err false e) with (mret () : M unit).
  rewrite mret_bind. by apply Hm.
Qed.

Section function_proofs.
Context `{Env, ZipReader} (basePath : string).

(** An entry whose name leads out of the directory is refused before anything is written. *)
#[export] Instance extract_confined dir file : Steps (confined dir) (extract dir file).
Proof.
  unfold extract. apply guarded_steps; [apply _|]. intros Hin%negb_false_iff.
  destruct (zf_IsDir file); [apply frame_confined; apply _|].
  repeat (apply steps_bind; [apply _|first [by apply confined_write|by apply frame_confined, _]|intros _]).
  destruct (zf_content file) as [e|src]; [apply _|].
  apply steps_bind; [apply _|by apply confined_write|]. intros _. case_match; apply _.
Qed.

Lemma remove_all_confined dir : Steps (confined dir) (remove_all dir).
Proof.
  unfold remove_all. apply steps_bind; [apply _|by apply frame_confined, _|]. intros _ w p Hp. cbn.
  destruct (w_files w !! p) as [s|] eqn:Hs.
  - apply map_lookup_filter_Some. split; [done|]. cbn. by rewrite Hp.
  - apply map_lookup_filter_None. by left.
Qed.

(** What the extraction leaves: nothing is written without a directory made for it. *)
Lemma prepareCode_outcome f w r w' :
  prepareCode basePath f w = (r, w') →
  (w_files w' = w_files w ∧ ∀ d, r ≠ Ok d) ∨
  ∃ h dir, env_respond h (MkdirTemp ("fn-" +:+ uuid_string (fn_ID f))) = inr dir ∧
    confined dir w w' ∧ (∀ d, r = Ok d → d = dir).
Proof.
  unfold prepareCode. intros Hrun. run_step Hrun code w1.
  2,3: left; split; [by apply (frame_run w_files) in Hrun0; [|apply _]|done].
  apply (frame_run w_files) in Hrun0 as Hf1; [|apply _].
  run_step Hrun dir w2.
  2,3: left; split; [apply (frame_run w_files) in Hrun1; [|apply _]; congruence|done].
  apply (frame_run w_files) in Hrun1 as Hf2; [|apply _].
  right. unfold perform in Hrun1. destruct (env_respond (w_calls w1) _) as [e|d] eqn:Hresp; [done|].
  injection Hrun1 as -> _. exists (w_calls w1), dir. split; [done|].
  assert (Steps (confined dir) (match zip_NewReader code with
            | inl err => fail err
            | inr files => foreach files (extract dir) ;; mret dir
            end)) as Hs by (case_match; apply _).
  split.
  - intros p Hp. specialize (Hs w2 p Hp). rewrite Hrun in Hs. cbn in Hs. congruence.
  - intros d ->. case_match; [done|]. ok_step Hrun x w3. unfold mret, M_ret in Hrun. by injection Hrun as ->.
Qed.

(** C10: Whatever the archive of a function holds and whatever the backends answer, a run of it
    changes no file of the host outside the one temporary directory made for that run; and a
    run that returns an invocation leaves no file in that directory, when the host lets it be
    removed. *)
Theorem runInvocation_confined f i payload w r w' :
  runInvocation basePath f i payload w = (r, w') →
  (w_files w' = w_files w ∧ ∀ v, r ≠ Ok v) ∨
  ∃ h dir, env_respond h (MkdirTemp ("fn-" +:+ uuid_string (fn_ID f))) = inr dir ∧
    (∀ p, inside dir p = false → w_files w' !! p = w_files w !! p) ∧
    ((∀ h, env_respond h (RemoveAll dir) = inr tt) → (∃ v, r = Ok v) →
     ∀ p, inside dir p = true → w_files w' !! p = None).
Proof.
  unfold runInvocation. cbn zeta. intros Hrun.
  apply total_bind_inv in Hrun as (pr & w1 & Hpr & Hrun); [|apply _].
  apply attempt_inv in Hpr as [(dir & Hpr & [= ->])|[(e & Hpr & [= ->])|(x & _ & ?)]]; [| |done].
  - apply prepareCode_outcome in Hpr as [[_ Hd]|(h & d & Hresp & Hc & Hd)]; [by destruct (Hd dir)|].
    specialize (Hd dir eq_refl) as ->. right. exists h, d. split; [done|].
    apply total_bind_inv in Hrun as (res & w2 & Hres & Hrun); [|apply _].
    assert (w_files w2 = w_files w1) as Hf2.
    { apply (frame_run w_files) in Hres; [done|apply _]. }
    apply ignore_bind_inv in Hrun as (r1 & w3 & Hrm & Hrun); [|apply _].
    assert (w' = w3) as ->. { destruct res; unfold fail, mret, M_ret in Hrun; by injection Hrun as _ <-. }
    split.
    + intros p Hp. pose proof (remove_all_confined d w2 p Hp) as Hrc. rewrite Hrm in Hrc. cbn in Hrc.
      rewrite Hrc, Hf2. by apply Hc.
    + intros Hall _ p Hp. unfold remove_all, mbind, M_bind, perform in Hrm. rewrite Hall in Hrm.
      injection Hrm as _ <-. cbn. apply map_lookup_filter_None. right. intros s _. cbn. by rewrite Hp.
  - apply (frame_run w_files) in Hrun as Hf; [|apply _].
    apply prepareCode_outcome in Hpr as [[Hsame _]|(h & d & Hresp & Hc & _)].
    + left. split; [congruence|]. intros v ->. unfold record_failure in Hrun.
      ok_step Hrun x w2. done.
    + right. exists h, d. split; [done|]. split; [intros p Hp; rewrite Hf; by apply Hc|].
      intros _ [v ->]. unfold record_failure in Hrun. ok_step Hrun x w2. done.
Qed.

End function_proofs.

(** * Caches and snapshots: what their operations leave behind *)

Section cache_proofs.
Context `{Env, Crypto, !OrderLaws, !NoFaults}.

Lemma getCache_by_id ctx s k c w :
  uuid_parse s = Some k → t_caches w !! k = Some c →
  getCacheByIDOrName ctx s w = (Ok c, w <| w_tick ::= S |>).
Proof.
  intros Hs Hk. unfold getCacheByIDOrName, cache_GetByID, wrap_err. rewrite Hs.
  by rewrite (db_query_row_pk t_caches), Hk by apply no_faults.
Qed.

(** Whoever knows the identifier of a cache gets its password, and can delete it: neither
    operation compares its owner with the user of the request. *)
Theorem caches_not_scoped ctx s k c w :
  uuid_parse s = Some k → t_caches w !! k = Some c → ca_ID c = k →
  (cache_GetConnectionString ctx s w).1
    = Ok ("redis://:" +:+ ca_Password c +:+ "@localhost:" +:+ itoa (ca_Port c)) ∧
  ∃ w', DeleteCache ctx s w = (Ok tt, w') ∧ t_caches w' = delete k (t_caches w).
Proof.
  intros Hs Hk Hid. pose proof (getCache_by_id ctx s k c w Hs Hk) as Hget. split.
  { unfold cache_GetConnectionString. by rewrite (bind_Ok_run _ _ _ _ _ Hget). }
  destruct (DeleteCache ctx s w) as [r w'] eqn:Hrun. exists w'. unfold DeleteCache in Hrun.
  rewrite (bind_Ok_run _ _ _ _ _ Hget) in Hrun.
  apply total_bind_inv in Hrun as (x & w1 & Hstop & Hrun); [|apply _].
  apply (frame_run t_caches) in Hstop as Hf; [|apply _]. cbn in Hf.
  unfold cache_Delete in Hrun. rewrite Hid in Hrun.
  run_step Hrun y w2.
  - ok_step Hrun0 n w3. apply wrap_err_Ok in Hrun1. unfold db_exec in Hrun1. rewrite no_faults in Hrun1.
    unfold sql_delete in Hrun1. cbn in Hrun1. rewrite Hf, Hk in Hrun1. injection Hrun1 as _ <-.
    unfold mret, M_ret in Hrun0. injection Hrun0 as _ <-.
    apply ignore_bind_inv in Hrun as (r1 & w4 & Hev & Hrun); [|apply _].
    destruct (total_run _ _ _ _ Hrun) as [[] ->]. split; [done|].
    apply (frame_run t_caches) in Hev as Hf1, Hrun as Hf2; [|apply _..]. rewrite Hf2, Hf1. cbn. by rewrite Hf.
  - exfalso. apply bind_Err_inv in Hrun0 as [Hd|(n & w3 & _ & ?)]; [|done].
    apply wrap_err_Err in Hd as (e0 & _ & Hd). unfold db_exec in Hd. rewrite no_faults in Hd.
    unfold sql_delete in Hd. cbn in Hd. by rewrite Hf, Hk in Hd.
  - by destruct (no_panic_run _ _ _ _ Hrun0).
Qed.

(** A cache asked for in the VPC of somebody else is refused only after its row is stored,
    and the row stays: the owner of the VPC, whose tables do not show him that cache, can
    no longer delete the VPC. *)
Theorem foreign_cache_blocks_vpc ctx name version mem v s vpc w r w' :
  uuid_parse s = Some v → t_vpcs w !! v = Some vpc → vpc_ID vpc = v →
  vpc_UserID vpc ≠ UserIDFromContext ctx →
  CreateCache ctx name version mem (Some v) w = (r, w') →
  (∃ e, r = Err e) ∧
  (t_caches w' ≠ t_caches w → ∀ owner, UserIDFromContext owner = vpc_UserID vpc →
     ∃ e w'', DeleteVPC owner s w' = (Err e, w'') ∧ t_vpcs w'' = t_vpcs w').
Proof.
  intros Hs Hv Hid Hne Hrun. unfold CreateCache in Hrun.
  apply total_bind_inv in Hrun as (pw & w1 & Hp & Hrun); [|apply _].
  apply total_bind_inv in Hrun as (k & w2 & Hk & Hrun); [|apply _].
  apply total_bind_inv in Hrun as (cr & w3 & Hc & Hrun); [|apply _].
  apply total_bind_inv in Hrun as (up & w4 & Hu & Hrun); [|apply _].
  apply (frame_run t_caches) in Hp as Hp1, Hk as Hk1, Hc as Hc1, Hu as Hu1; try apply _.
  apply (frame_run t_vpcs) in Hp as Hp2, Hk as Hk2, Hc as Hc2, Hu as Hu2; try apply _.
  assert (t_caches w4 = t_caches w) as Hw4 by congruence. assert (t_vpcs w4 = t_vpcs w) as Hv4 by congruence.
  clear Hp Hk Hc Hu. cbn zeta in Hrun. set (c := MkCache _ _ _ _ _ _ _ _ _ _ _ _ _) in Hrun.
  run_step Hrun x w5.
  2:{ split; [by eexists|]. unfold cache_Create in Hrun0. apply wrap_err_Err in Hrun0 as (e0 & _ & Hdb).
      apply db_exec_outcome in Hdb as [(a & ? & _)|(e1 & _ & ->)]; [done|]. cbn. by rewrite Hw4. }
  2:{ by destruct (no_panic_run _ _ _ _ Hrun0). }
  unfold cache_Create in Hrun0. apply wrap_err_Ok in Hrun0.
  apply db_exec_outcome in Hrun0 as [(a & _ & Hins)|(e1 & ? & _)]; [|done].
  unfold sql_insert in Hins. cbn in Hins. rewrite Hw4 in Hins.
  destruct (t_caches w !! k); [done|]. destruct (_ && _); [|done]. injection Hins as _ <-.
  unfold cache_network, vpc_GetByID in Hrun.
  assert (∃ e, (r, w') = (Err e, (w4 <| w_tick ::= S |>) <| t_caches ::= <[k := c]> |> <| w_tick ::= S |>)) as [e He].
  { rewrite <- Hrun. unfold mbind, M_bind, wrap_err. rewrite (db_query_row_pk t_vpcs) by apply no_faults.
    cbn. rewrite Hv4, Hv. unfold of_user. rewrite bool_decide_false by done. by eexists. }
  injection He as -> ->. split; [by eexists|]. intros _ owner Ho. set (w' := _ <| w_tick ::= S |>).
  destruct (DeleteVPC owner s w') as [r2 w''] eqn:Hdel. unfold DeleteVPC, GetVPC in Hdel. rewrite Hs in Hdel.
  assert (vpc_GetByID owner v w' = (Ok vpc, w' <| w_tick ::= S |>)) as Hget.
  { unfold vpc_GetByID, wrap_err. rewrite (db_query_row_pk t_vpcs) by apply no_faults. subst w'.
    cbn. rewrite Hv4, Hv. unfold of_user. by rewrite bool_decide_true. }
  rewrite (bind_Ok_run _ _ _ _ _ Hget) in Hdel. run_step Hdel y w6.
  2:{ eexists _, _. split; [reflexivity|]. by apply (frame_run t_vpcs) in Hrun0; [|apply _]. }
  2:{ by destruct (no_panic_run _ _ _ _ Hrun0). }
  apply wrap_err_Ok, perform_run in Hrun0 as [-> _].
  unfold vpc_Delete, mbind, M_bind, wrap_err, db_exec in Hdel. cbn in Hdel. rewrite no_faults in Hdel.
  unfold sql_delete in Hdel. cbn in Hdel. rewrite Hv4, Hid, Hv in Hdel. unfold of_user in Hdel.
  rewrite bool_decide_true in Hdel by done.
  assert (∀ w7, t_caches w7 = t_caches w' → vpc_unreferenced v w7 = false) as Hun.
  { intros w7 Hw7. unfold vpc_unreferenced. rewrite Hw7.
    rewrite (no_row_false _ (t_caches w') k c); [by rewrite !andb_false_r|subst w'; cbn; apply lookup_insert_eq|].
    by apply bool_decide_eq_true. }
  rewrite Hun in Hdel by done. injection Hdel as <- <-. eexists _, _. by split.
Qed.

End cache_proofs.

(** ** Snapshots *)

Section snapshot_proofs.
Context `{Env, !OrderLaws, !NoFaults} (getwd : option string).

Lemma snap_Update_run snap row v :
  t_snapshots v !! snap_ID snap = Some row → snap_UserID row = snap_UserID snap →
  ∃ v', snap_Update snap v = (Ok tt, v') ∧ t_snapshots v' =
    <[snap_ID snap := row <| snap_Status := snap_Status snap |> <| snap_Description := snap_Description snap |>]>
      (t_snapshots v).
Proof.
  intros Hk Ho. unfold snap_Update, mbind, M_bind, db_exec. rewrite no_faults.
  unfold sql_update. cbn. rewrite Hk. unfold of_user. rewrite bool_decide_true by done. cbn. by eexists.
Qed.

(** The answer of the backend to the goroutine of a snapshot. *)
Definition archived (vol : Volume) (snap : Snapshot) (v : World) : bool :=
  let path := Abs getwd (snapshot_path (snap_ID snap)) in
  match env_respond (MkdirAll (Dir path) :: w_calls v)
          (CreateVolumeSnapshot (docker_volume_name (vol_ID vol)) path) with
  | inl _ => false
  | inr _ => true
  end.

Lemma performSnapshot_archived vol snap v :
  ∃ res v2, attempt (performSnapshot getwd vol snap) v = (Ok res, v2) ∧ t_snapshots v2 = t_snapshots v ∧
    match res with inl _ => archived vol snap v = false | inr _ => archived vol snap v = true end.
Proof.
  unfold performSnapshot, archived, ignore, mbind, M_bind, attempt, wrap_err, perform, mret, M_ret.
  destruct (env_respond (w_calls v) _); cbn; destruct (env_respond _ (CreateVolumeSnapshot _ _));
    eexists _, _; by split_and!.
Qed.

(** C22: A new snapshot is CREATING and has one goroutine; whenever that runs, while the row is
    there and no statement fails, the snapshot ends AVAILABLE if the backend wrote the archive
    and in ERROR if it did not: it is not left CREATING. *)
Theorem snapshot_settles ctx volumeID desc w snap w1 :
  CreateSnapshot ctx volumeID desc w = (Ok snap, w1) →
  ∃ vol, t_volumes w !! volumeID = Some vol ∧ vol_UserID vol = UserIDFromContext ctx ∧
    t_snapshots w1 = <[snap_ID snap := snap]> (t_snapshots w) ∧ snap_Status snap = SnapshotStatusCreating ∧
    w_tasks w1 = w_tasks w ++ [SnapshotTask vol snap] ∧
    ∀ v row r v', t_snapshots v !! snap_ID snap = Some row → snap_UserID row = snap_UserID snap →
      snapshot_task getwd vol snap v = (r, v') →
      r = Ok tt ∧ ∃ row', t_snapshots v' = <[snap_ID snap := row']> (t_snapshots v) ∧
        snap_Status row' = (if archived vol snap v then SnapshotStatusAvailable else SnapshotStatusError).
Proof.
  unfold CreateSnapshot. intros Hrun. ok_step Hrun vol w2.
  apply (db_query_row_pk_Ok t_volumes) in Hrun0 as (-> & Hv & Ho).
  unfold of_user in Ho. rewrite bool_decide_eq_true in Ho.
  ok_step Hrun sid w3. injection Hrun0 as <- <-. ok_step Hrun cr w4. injection Hrun0 as <- <-.
  cbn zeta in Hrun. ok_step Hrun x w5. unfold snap_Create, db_exec in Hrun0. rewrite no_faults in Hrun0.
  unfold sql_insert in Hrun0. cbn in Hrun0. destruct (t_snapshots w !! _); [done|].
  destruct (_ && _); [|done]. injection Hrun0 as _ <-.
  ok_step Hrun y w6. injection Hrun0 as _ <-. ok_step Hrun ev w7. ok_step Hrun lg w8.
  apply (frame_run t_snapshots) in Hrun0 as Hf1, Hrun1 as Hf2; try apply _.
  apply (frame_run w_tasks) in Hrun0 as Hg1, Hrun1 as Hg2; try apply _.
  unfold mret, M_ret in Hrun. injection Hrun as <- <-. cbn in *.
  exists vol. split_and!; [done|done|by rewrite Hf2, Hf1|done|by rewrite Hg2, Hg1|].
  set (snap := MkSnapshot _ _ _ _ _ _ _ _). intros v row r v' Hrow Hown Htask.
  unfold snapshot_task in Htask.
  destruct (performSnapshot_archived vol snap v) as (res & v2 & Hperf & Hv2 & Hres).
  rewrite (bind_Ok_run _ _ _ _ _ Hperf) in Htask. cbn zeta in Htask.
  set (snap' := snap <| snap_Status := _ |>) in Htask.
  destruct (snap_Update_run snap' row v2) as (v3 & Hupd & Hv3); [by rewrite Hv2|done|].
  unfold ignore in Htask. rewrite (bind_Ok_run _ _ _ _ _ (attempt_Ok_run _ _ _ _ Hupd)) in Htask.
  unfold mret, M_ret in Htask. injection Htask as <- <-. split; [done|].
  eexists. rewrite Hv3, Hv2. split; [reflexivity|]. subst snap'. cbn. destruct res; by rewrite Hres.
Qed.

Lemma reads_run {A} (m : M A) w r w' : Steps reads m → m w = (r, w') → reads w w'.
Proof. intros Hm Hrun. pose proof (Hm w) as Hs. by rewrite Hrun in Hs. Qed.

(** The calls of a restoration into the backend volume [name]: it was made, and the archive
    of the snapshot was asked for. *)
Definition restoring (name path : string) (calls : list Call) : list Call :=
  RestoreVolumeSnapshot name path :: World.CreateVolume name :: calls.

(** C31: Restoring a snapshot keeps the volumes of the backend and the rows together, whatever
    fails.  On success there is one new row, with the size of the snapshot and the user as its
    owner, and the backend answered that its volume is made and then that it is filled from the
    archive of the snapshot.  On failure no table changed, and if the backend had made the
    volume its removal was asked for as the last call. *)
Theorem RestoreSnapshot_compensates ctx k name w r w' :
  RestoreSnapshot getwd ctx k name w = (r, w') →
  match r with
  | Ok v =>
      t_volumes w !! vol_ID v = None ∧ t_volumes w' = <[vol_ID v := v]> (t_volumes w) ∧
      ∃ s, t_snapshots w !! k = Some s ∧ snap_Status s = SnapshotStatusAvailable ∧
        vol_SizeGB v = snap_SizeGB s ∧ vol_UserID v = snap_UserID s ∧ snap_UserID s = UserIDFromContext ctx ∧
        let n := docker_volume_name (vol_ID v) in
        let path := Abs getwd (snapshot_path (snap_ID s)) in
        w_calls w' = restoring n path (w_calls w) ∧
        env_respond (w_calls w) (World.CreateVolume n) = inr tt ∧
        env_respond (World.CreateVolume n :: w_calls w) (RestoreVolumeSnapshot n path) = inr tt
  | Err _ =>
      reads w w' ∧
      (w_calls w' = w_calls w ∨
       (∃ n e, w_calls w' = World.CreateVolume n :: w_calls w ∧
          env_respond (w_calls w) (World.CreateVolume n) = inl e) ∨
       (∃ n path, w_calls w' = World.DeleteVolume n :: restoring n path (w_calls w) ∧
          env_respond (w_calls w) (World.CreateVolume n) = inr tt))
  | Panic _ => False
  end.
Proof.
  unfold RestoreSnapshot. intros Hrun.
  run_step Hrun s w1; apply (frame_run w_calls) in Hrun0 as Hg; try apply _;
    apply reads_run in Hrun0 as Hr1; try (unfold snap_GetByID; apply _);
    [|by split; [|left]|by destruct (no_panic_run (snap_GetByID ctx k) _ _ _ Hrun0)].
  apply (db_query_row_pk_Ok t_snapshots) in Hrun0 as (_ & Hs & Ho).
  unfold of_user in Ho. rewrite bool_decide_eq_true in Ho.
  run_step Hrun x w2; [|unfold guard_err in Hrun0; case_match; [|done]; by injection Hrun0 as _ <-; split; [|left]|
    by destruct (no_panic_run _ _ _ _ Hrun0)].
  apply guard_err_Ok in Hrun0 as [Hav ->]. apply negb_false_iff, bool_decide_eq_true in Hav.
  apply total_bind_inv in Hrun as (vid & w3 & Hid & Hrun); [|apply _].
  apply total_bind_inv in Hrun as (cr & w4 & Hc & Hrun); [|apply _].
  apply total_bind_inv in Hrun as (up & w5 & Hu & Hrun); [|apply _].
  assert (reads w w5) as Hr5.
  { apply reads_run in Hid, Hc, Hu; try apply _. by transitivity w1; [|transitivity w3; [|transitivity w4]]. }
  assert (w_calls w5 = w_calls w) as Hc5.
  { rewrite <- Hg. unfold uuid_New, Now, next_tick, mbind, M_bind, mret, M_ret in *. by simplify_eq. }
  clear Hid Hc Hu Hg Hr1. cbn zeta in Hrun. set (vol := MkVolume _ _ _ _ _ _ _ _ _) in Hrun.
  assert (t_volumes w5 = t_volumes w) as Hv5 by (by apply (reads_ok (R := same t_volumes))).
  run_step Hrun y w6.
  2:{ apply wrap_err_Err in Hrun0 as (e0 & _ & Hp). apply reads_run in Hp as Hr6; [|apply _].
      apply perform_run in Hp as [-> Hp]. rewrite Hc5 in Hp. split; [by transitivity w5|].
      right. left. eexists _, _. cbn. rewrite Hc5. done. }
  2:{ by destruct (no_panic_run _ _ _ _ Hrun0). }
  apply wrap_err_Ok in Hrun0. apply reads_run in Hrun0 as Hr6; [|apply _].
  apply perform_run in Hrun0 as [-> Hmade]. rewrite Hc5 in Hmade. destruct y.
  apply total_bind_inv in Hrun as (res & w7 & Hres & Hrun); [|apply _].
  apply reads_run in Hres as Hr7; [|apply _].
  apply attempt_inv in Hres as [(b & Hres & [= ->])|[(b & Hres & [= ->])|(b & _ & ?)]]; [..|done];
    apply perform_run in Hres as [-> Hfilled].
  2:{ apply ignore_bind_inv in Hrun as (r1 & w8 & Hd & Hrun); [|apply _]. apply reads_run in Hd as Hr8; [|apply _].
      apply perform_run in Hd as [-> _]. unfold fail in Hrun. injection Hrun as <- <-.
      split; [by etransitivity; [|etransitivity; [|etransitivity]]|].
      right. right. eexists _, _. cbn. rewrite Hc5. done. }
  cbn in Hfilled. rewrite Hc5 in Hfilled. destruct b.
  apply total_bind_inv in Hrun as (sv & w8 & Hsv & Hrun); [|apply _].
  apply attempt_inv in Hsv as [(c & Hsv & [= ->])|[(c & Hsv & [= ->])|(c & _ & ?)]]; [..|done];
    apply db_exec_outcome in Hsv as [(c' & Hok & Hst)|(c' & Hok & Hw8)]; try done.
  - unfold sql_insert in Hst. cbn in Hst. rewrite Hv5 in Hst. destruct (t_volumes w !! vid) eqn:Hfresh; [done|].
    destruct (_ && _); [|done]. injection Hst as _ <-.
    apply ignore_bind_inv in Hrun as (r1 & w9 & Hev & Hrun); [|apply _].
    apply ignore_bind_inv in Hrun as (r2 & w10 & Hlog & Hrun); [|apply _].
    unfold mret, M_ret in Hrun. injection Hrun as <- <-.
    apply (frame_run t_volumes) in Hev as Ha1, Hlog as Ha2; try apply _.
    apply (frame_run w_calls) in Hev as Hb1, Hlog as Hb2; try apply _.
    rewrite Ha2, Ha1, Hb2, Hb1. cbn. rewrite Hv5, Hc5. split_and!; [done|done|].
    exists s. by split_and!.
  - apply ignore_bind_inv in Hrun as (r1 & w9 & Hd & Hrun); [|apply _]. apply reads_run in Hd as Hr9; [|apply _].
    apply perform_run in Hd as [-> _]. unfold fail in Hrun. injection Hrun as <- <-. rewrite Hw8 in *.
    split; [|right; right; eexists _, _; cbn; by rewrite Hc5].
    etransitivity; [|exact Hr9]. etransitivity; [|apply tick_ok]. by etransitivity; [|etransitivity].
Qed.

End snapshot_proofs.
