(* ===== verification/StackProofs.v ===== *)
(** * The life of a stack *)
From S2P Require Import Prelude GoStd Encoding Net Errors Domain DomainData World Logic Sql InstanceRepo.
From S2P Require Import NetworkRepo InstanceService InstanceProofs VolumeService NetworkService Snapshot.
From S2P Require Import AutoScalingProofs Stack Invariants.

(** ** What a creation leaves in the tables *)

Section created.
Context `{Env, Formats}.

(** A row of the table of a type of resources. *)
Definition in_table (ty : string) (id : uuid) (w : World) : Prop :=
  (ty = "VPC" ∧ is_Some (t_vpcs w !! id)) ∨ (ty = "Volume" ∧ is_Some (t_volumes w !! id)) ∨
  (ty = "Instance" ∧ is_Some (t_instances w !! id)) ∨ (ty = "Snapshot" ∧ is_Some (t_snapshots w !! id)).

Notation stays tbl id := (holds tbl (λ t, is_Some (t !! id))).

Lemma insert_stays {A} (tbl : World → gmap uuid A) `{!Field tbl, !FieldOk tbl} id k row ok :
  StmtOk (stays tbl id) (sql_insert tbl k row ok).
Proof.
  intros w a w' Hs. unfold sql_insert in Hs. repeat case_match; simplify_eq. unfold holds, keeps.
  rewrite field_get. intros Hi. by apply lookup_insert_is_Some'; right.
Qed.

Lemma update_stays {A} (tbl : World → gmap uuid A) `{!Field tbl, !FieldOk tbl} id k P upd :
  StmtOk (stays tbl id) (sql_update tbl k P upd).
Proof.
  intros w a w' Hs. unfold sql_update in Hs. unfold holds, keeps. repeat case_match; simplify_eq; try done.
  apply bind_Some in Hs as (r' & _ & Hw). injection Hw as _ <-.
  rewrite field_get. intros Hi. by apply lookup_insert_is_Some'; right.
Qed.

Lemma sql_insert_row {A} (tbl : World → gmap uuid A) `{!Field tbl, !FieldOk tbl} k row ok w a w' :
  sql_insert tbl k row ok w = Some (a, w') → is_Some (tbl w' !! k).
Proof.
  unfold sql_insert. destruct (tbl w !! k); [done|]. destruct (ok w); [|done]. intros [= _ <-].
  rewrite field_get. apply lookup_insert_is_Some'. by left.
Qed.

#[local] Hint Extern 1 (StmtOk (holds ?t (λ _, is_Some _)) (sql_insert ?t _ _ _)) =>
  apply insert_stays : typeclass_instances.
#[local] Hint Extern 1 (StmtOk (holds ?t (λ _, is_Some _)) (sql_update ?t _ _ _)) =>
  apply update_stays : typeclass_instances.
#[local] Hint Extern 60 (Steps (holds _ (λ _, is_Some _)) _) => unfold_prog : typeclass_instances.
#[local] Hint Extern 60 (Steps later _) => unfold_prog : typeclass_instances.

#[local] Instance event_Create_later e : Steps later (event_Create e).
Proof.
  apply steps_db_exec; [apply _..|]. intros w a w' Hs. destruct (_ || _); [done|]. injection Hs as _ <-.
  by unfold later.
Qed.
#[local] Instance audit_Create_later l : Steps later (audit_Create l).
Proof.
  apply steps_wrap_err, steps_db_exec; [apply _..|]. intros w a w' Hs. destruct (_ || _); [done|].
  injection Hs as _ <-. by unfold later.
Qed.

Lemma same_later {A} (stmt : World → option (A * World)) : StmtOk (same w_tick) stmt → StmtOk later stmt.
Proof. intros Hs w a w' Hw. unfold later. by rewrite (Hs w a w' Hw). Qed.
#[local] Hint Extern 5 (StmtOk later _) => (apply same_later; apply _) : typeclass_instances.

(** The creation [m] of a resource: it leaves the stacks alone, keeps the rows there are, and
    adds one. *)
Definition creates {A} (ty : string) (key : A → uuid) (m : M A) : Prop :=
  ∀ w r w', m w = (r, w') →
    (w_tick w ≤ w_tick w')%nat ∧ t_stacks w' = t_stacks w ∧ t_stack_resources w' = t_stack_resources w ∧
    (∀ ty' id, in_table ty' id w → in_table ty' id w') ∧
    match r with Ok a => in_table ty (key a) w' | _ => True end.

Lemma creates_intro {A} ty (key : A → uuid) (m : M A) :
  Steps later m → Frame t_stacks m → Frame t_stack_resources m →
  (∀ id, Steps (stays t_vpcs id) m) → (∀ id, Steps (stays t_volumes id) m) →
  (∀ id, Steps (stays t_instances id) m) → (∀ id, Steps (stays t_snapshots id) m) →
  (∀ w a w', m w = (Ok a, w') → in_table ty (key a) w') → creates ty key m.
Proof.
  intros Hl Hs Hr Hv Ho Hi Hn Hok w r w' Hrun. split_and!.
  - by apply later_run in Hrun.
  - by apply (frame_run t_stacks) in Hrun.
  - by apply (frame_run t_stack_resources) in Hrun.
  - intros ty' id. unfold in_table.
    pose proof (Hv id w) as H1. pose proof (Ho id w) as H2. pose proof (Hi id w) as H3. pose proof (Hn id w) as H4.
    rewrite Hrun in H1, H2, H3, H4. unfold holds, keeps in *. cbn in *. naive_solver.
  - destruct r; [by eapply Hok|done..].
Qed.

#[local] Instance vpc_insert_ok (R : relation World) v :
  (∀ k row ok, StmtOk R (sql_insert t_vpcs k row ok)) → StmtOk R (vpc_insert v).
Proof.
  intros HR w a w' Hs. unfold vpc_insert in Hs. apply bind_Some in Hs as (c & _ & Hs).
  by eapply HR.
Qed.
#[local] Instance instance_insert_ok (R : relation World) i :
  (∀ k row ok, StmtOk R (sql_insert t_instances k row ok)) → StmtOk R (instance_insert i).
Proof.
  intros HR w a w' Hs. unfold instance_insert in Hs. apply bind_Some in Hs as (ip & _ & Hs).
  by eapply HR.
Qed.

Lemma CreateVPC_creates dflt ctx name cidr : creates "VPC" vpc_ID (CreateVPC dflt ctx name cidr).
Proof.
  apply creates_intro; [apply _..|]. intros w v w' Hrun. unfold CreateVPC in Hrun.
  ok_step Hrun nid w1. ok_step Hrun x w2. ok_step Hrun cr w3. cbn zeta in Hrun. ok_step Hrun a w4.
  destruct a as [e|[]]; [ok_step Hrun y w5; done|].
  apply attempt_inv in Hrun3 as [(y & Hc & _)|[(? & _ & ?)|(? & _ & ?)]]; [|done..].
  ok_step Hrun z w5. apply (frame_run t_vpcs) in Hrun3; [|apply _].
  unfold mret, M_ret in Hrun. injection Hrun as <- <-. left. split; [done|].
  apply wrap_err_Ok, db_exec_Ok in Hc. unfold vpc_insert in Hc. apply bind_Some in Hc as (c & _ & Hc).
  rewrite Hrun3. by apply (sql_insert_row t_vpcs) in Hc.
Qed.

Lemma CreateVolume_creates ctx name size : creates "Volume" vol_ID (VolumeService.CreateVolume ctx name size).
Proof.
  apply creates_intro; [apply _..|]. intros w v w' Hrun. unfold VolumeService.CreateVolume in Hrun.
  ok_step Hrun nid w1. ok_step Hrun cr w2. ok_step Hrun up w3. cbn zeta in Hrun. ok_step Hrun x w4.
  ok_step Hrun a w5. destruct a as [e|[]]; [ok_step Hrun y w6; done|].
  apply attempt_inv in Hrun4 as [(y & Hc & _)|[(? & _ & ?)|(? & _ & ?)]]; [|done..].
  ok_step Hrun z1 w6. ok_step Hrun z2 w7. apply (frame_run t_volumes) in Hrun4, Hrun5; [|apply _..].
  unfold mret, M_ret in Hrun. injection Hrun as <- <-. right. left. split; [done|].
  apply db_exec_Ok, (sql_insert_row t_volumes) in Hc. by rewrite Hrun5, Hrun4.
Qed.

Lemma CreateSnapshot_creates ctx vol desc : creates "Snapshot" snap_ID (CreateSnapshot ctx vol desc).
Proof.
  apply creates_intro; [apply _..|]. intros w s w' Hrun. unfold CreateSnapshot in Hrun.
  ok_step Hrun v w1. ok_step Hrun nid w2. ok_step Hrun cr w3. cbn zeta in Hrun. ok_step Hrun x w4.
  ok_step Hrun y1 w5. ok_step Hrun y2 w6. ok_step Hrun y3 w7.
  apply (frame_run t_snapshots) in Hrun4, Hrun5, Hrun6; [|apply _..].
  unfold mret, M_ret in Hrun. injection Hrun as <- <-. do 3 right. split; [done|].
  apply db_exec_Ok, (sql_insert_row t_snapshots) in Hrun3. by rewrite Hrun6, Hrun5, Hrun4.
Qed.

Lemma LaunchInstance_creates ctx name image ports vpc subnet vols :
  creates "Instance" inst_ID (LaunchInstance ctx name image ports vpc subnet vols).
Proof.
  apply creates_intro; [apply _..|]. intros w i w' Hrun. do 2 right. left. split; [done|].
  apply launch_decompose in Hrun
    as [(_ & _ & e & ?)|(ps & inst & row0 & w0 & _ & _ & _ & _ & _ & _ & Hl & Hrun)]; [done|].
  apply launch_resources_effect in Hrun as [(row & -> & _ & -> & _) _]; [|done]. by rewrite lookup_insert_eq.
Qed.

Lemma no_row_false_inv {A} (P : A → bool) (t : gmap uuid A) :
  no_row P t = false → ∃ k r, t !! k = Some r ∧ P r = true.
Proof.
  unfold no_row. intros Hf. assert (∃ r, r ∈ (map_to_list t).*2 ∧ P r = true) as (r & Hr & HP).
  { induction (map_to_list t).*2 as [|x l IH]; cbn in Hf; [done|]. destruct (P x) eqn:Hx.
    - exists x. split; [by left|done].
    - destruct (IH Hf) as (r & Hr & HP). exists r. split; [by right|done]. }
  apply list_elem_of_fmap in Hr as ([k r'] & -> & Hk). exists k, r'. by apply elem_of_map_to_list in Hk.
Qed.

(** *** The rows a stack records *)

Section recorded.
Context `{!NoFaults, !FreshUUIDs, !OrderLaws} (sid : uuid) (t : Template).

(** The stack has a row for the resource of the template, and what the row names exists. *)
Definition recorded (logicalID ty : string) (w : World) : Prop :=
  ∃ k row pid, t_stack_resources w !! k = Some row ∧ sr_StackID row = sid ∧ sr_LogicalID row = logicalID ∧
    sr_ResourceType row = ty ∧ sr_PhysicalID row = uuid_string pid ∧ in_table ty pid w.

(** The rows of the stack are resources of the template, and new identifiers are free. *)
Definition recording (w : World) : Prop :=
  is_Some (t_stacks w !! sid) ∧ (∀ n, (w_tick w ≤ n)%nat → t_stack_resources w !! env_uuid n = None) ∧
  ∀ k row, t_stack_resources w !! k = Some row → sr_StackID row = sid →
    ∃ res, tpl_Resources t !! sr_LogicalID row = Some res ∧ recorded (sr_LogicalID row) (rd_Type res) w.

Definition records (w w' : World) : Prop := ∀ l ty, recorded l ty w → recorded l ty w'.

Lemma creates_records {A} ty (key : A → uuid) m w r w' :
  creates ty key m → m w = (r, w') → recording w → recording w' ∧ records w w'.
Proof.
  intros Hm Hrun (Hs & Hfree & Hrows). destruct (Hm w r w' Hrun) as (Ht & Hst & Hsr & Hin & _).
  assert (records w w') as Hrec.
  { intros l ty' (k & row & pid & Hk & ? & ? & ? & ? & Hpid). exists k, row, pid. rewrite Hsr. eauto 10. }
  split; [|done]. unfold recording. rewrite Hst, Hsr. split_and!; [done|intros n Hn; apply Hfree; lia|].
  intros k row Hk Hsid. destruct (Hrows k row Hk Hsid) as (res & Hres & Hr). eauto.
Qed.

Lemma add_resource_records l pid ty st res w r w' :
  recording w → tpl_Resources t !! l = Some res → rd_Type res = ty → in_table ty pid w →
  add_resource sid l pid ty st w = (r, w') → recording w' ∧ records w w' ∧ recorded l ty w'.
Proof.
  intros (Hs & Hfree & Hrows) Hres Hty Hin Hrun.
  unfold add_resource, uuid_New, Now, next_tick, ignore, attempt, AddResource, db_exec, mbind, M_bind, mret, M_ret in Hrun.
  cbn in Hrun. rewrite no_faults in Hrun. unfold sql_insert in Hrun. cbn in Hrun.
  rewrite (Hfree (w_tick w)) in Hrun by lia. rewrite bool_decide_true in Hrun by done.
  set (new := MkStackResource _ _ _ _ _ _ _) in Hrun. cbn [andb] in Hrun.
  destruct (no_row _ _) eqn:Hno; injection Hrun as _ <-.
  - assert (∀ l' ty', recorded l' ty' w → recorded l' ty'
      (w <| w_tick ::= S |> <| w_tick ::= S |> <| w_tick ::= S |>
         <| t_stack_resources ::= <[env_uuid (w_tick w) := new]> |>)) as Hrec.
    { intros l' ty' (k & row & p & Hk & Hr). exists k, row, p. cbn.
      rewrite lookup_insert_ne; [by split|]. intros <-. by rewrite (Hfree (w_tick w)) in Hk by lia. }
    assert (recorded l ty (w <| w_tick ::= S |> <| w_tick ::= S |> <| w_tick ::= S |>
         <| t_stack_resources ::= <[env_uuid (w_tick w) := new]> |>)) as Hnew.
    { exists (env_uuid (w_tick w)), new, pid. cbn. by rewrite lookup_insert_eq. }
    split; [|by split]. unfold recording. cbn. split_and!; [done| |].
    + intros n Hn. rewrite lookup_insert_ne; [apply Hfree; lia|]. intros Heq%env_uuid_inj. lia.
    + intros k row [[<- <-]|[_ Hk]]%lookup_insert_Some Hsid; [|destruct (Hrows k row Hk Hsid) as (res' & ? & ?); eauto].
      exists res. cbn. rewrite Hty. done.
  - split; [|split; [intros l' ty' Hr; exact Hr|]].
    + split_and!; [done|cbn; intros n Hn; apply Hfree; lia|exact Hrows].
    + apply no_row_false_inv in Hno as (k & row & Hk & HP). apply bool_decide_eq_true in HP as [Hsid Hl].
      destruct (Hrows k row Hk Hsid) as (res' & Hres' & Hr). cbn in Hl. rewrite Hl, Hres in Hres'.
      injection Hres' as <-. by rewrite Hl, Hty in Hr.
Qed.

(** A creation that adds the row of its resource. *)
Definition recording_step (ty : string) (l : string) (m : M uuid) : Prop :=
  ∀ w id w' res, tpl_Resources t !! l = Some res → rd_Type res = ty → recording w → m w = (Ok id, w') →
    recording w' ∧ records w w' ∧ recorded l ty w'.

Lemma created_step {A} ty (key : A → uuid) (m : M A) l st :
  creates ty key m → recording_step ty l (a ← m; add_resource sid l (key a) ty st ;; mret (key a)).
Proof.
  intros Hm w id w' res Hres Hty Hrec Hrun. ok_step Hrun a w1.
  destruct (creates_records ty key m w _ _ Hm Hrun0 Hrec) as [Hrec1 Hall1].
  destruct (Hm _ _ _ Hrun0) as (_ & _ & _ & _ & Hin). ok_step Hrun u w2.
  unfold mret, M_ret in Hrun. injection Hrun as <- <-.
  apply (add_resource_records l _ ty st res) in Hrun1 as (Hrec2 & Hall2 & Hnew); [|done..].
  split; [done|]. split; [|done]. intros l' ty' Hr. by apply Hall2, Hall1.
Qed.

Lemma pass_records ty create refs b1 b2 w refs' w' :
  (∀ l ps, recording_step ty l (create l ps)) → recording w →
  create_pass t ty create refs b1 b2 w = (Ok refs', w') →
  recording w' ∧ records w w' ∧
  (∀ l res, tpl_Resources t !! l = Some res → rd_Type res = ty → recorded l ty w').
Proof.
  intros Hstep Hrec Hrun. unfold create_pass in Hrun. erewrite bind_Ok_run in Hrun by reflexivity.
  assert (recording (w <| w_tick ::= S |>)) as Hrec1.
  { destruct Hrec as (? & Hfree & ?). split_and!; [done|cbn; intros n Hn; apply Hfree; lia|done]. }
  assert (∀ l res, (l, res) ∈ env_order (w_tick w) (string * ResourceDefinition) (map_to_list (tpl_Resources t)) ↔
    tpl_Resources t !! l = Some res) as Hin.
  { intros l res. by rewrite env_order_elem, elem_of_map_to_list. }
  assert (∀ l res, (l, res) ∈ env_order (w_tick w) (string * ResourceDefinition) (map_to_list (tpl_Resources t)) →
    tpl_Resources t !! l = Some res) as Hsub by (intros; by apply Hin).
  setoid_rewrite <- Hin. change (records w w') with (records (w <| w_tick ::= S |>) w').
  clear Hin Hrec. revert refs Hsub Hrec1 Hrun. generalize (w <| w_tick ::= S |>) as v.
  induction (env_order _ _ _) as [|[l res] ls IH]; intros v refs Hsub Hrec Hrun; cbn [foldM] in Hrun.
  { unfold mret, M_ret in Hrun. injection Hrun as <- <-. split; [done|]. split; [by intros ???|].
    by intros l res ?%elem_of_nil. }
  assert (∀ l0 res0, (l0, res0) ∈ ls → tpl_Resources t !! l0 = Some res0) as Hsub' by (intros; apply Hsub; by right).
  pose proof (Hsub l res (list_elem_of_here _ _)) as Hres. ok_step Hrun refs1 v1. case_bool_decide as Hty.
  - ok_step Hrun0 nid v2. unfold mret, M_ret in Hrun0. injection Hrun0 as <- <-. apply wrap_err_Ok in Hrun1.
    destruct (Hstep l _ v _ v2 res Hres Hty Hrec Hrun1) as (Hrec2 & Hall2 & Hnew).
    destruct (IH _ _ Hsub' Hrec2 Hrun) as (Hrec' & Hall & Hok). split; [done|].
    split; [intros l' ty' Hr; by apply Hall, Hall2|].
    intros l0 res0 [[= -> ->]|Hin]%elem_of_cons Ht; [by apply Hall|by eapply Hok].
  - unfold mret, M_ret in Hrun0. injection Hrun0 as <- <-.
    destruct (IH _ _ Hsub' Hrec Hrun) as (Hrec' & Hall & Hok).
    split; [done|]. split; [done|]. intros l0 res0 [[= -> ->]|Hin]%elem_of_cons Ht; [done|by eapply Hok].
Qed.

(** Every resource of a known type has its row once the four passes are through. *)
Definition resource_types : list string := ["VPC"; "Volume"; "Instance"; "Snapshot"].

Definition all_created (w : World) : Prop :=
  ∀ l res, tpl_Resources t !! l = Some res → rd_Type res ∈ resource_types → recorded l (rd_Type res) w.

Lemma create_resources_records dflt ctx w x w' :
  recording w → create_resources dflt ctx sid t w = (Ok x, w') → all_created w'.
Proof.
  intros Hrec Hrun. unfold create_resources in Hrun.
  ok_step Hrun r1 w1. apply pass_records in Hrun0 as (Hrec1 & _ & Hv); [|intros l ps|done].
  2:{ unfold stack_createVPC. apply created_step, CreateVPC_creates. }
  ok_step Hrun r2 w2. apply pass_records in Hrun0 as (Hrec2 & Hm2 & Ho); [|intros l ps|done].
  2:{ unfold stack_createVolume. apply created_step, CreateVolume_creates. }
  ok_step Hrun r3 w3. apply pass_records in Hrun0 as (Hrec3 & Hm3 & Hi); [|intros l ps|done].
  2:{ unfold stack_createInstance. apply created_step, LaunchInstance_creates. }
  ok_step Hrun r4 w4. apply pass_records in Hrun0 as (_ & Hm4 & Hn); [|intros l ps|done].
  2:{ unfold stack_createSnapshot. destruct (prop_uuid ps "VolumeID") as [vol|]; cbn [from_opt].
      - intros v a v'. rewrite mret_bind. by apply created_step, CreateSnapshot_creates.
      - intros v a v' res _ _ _ Hf. done. }
  unfold mret, M_ret in Hrun. injection Hrun as _ <-. intros l res Hl.
  unfold resource_types. rewrite !elem_of_cons.
  intros [Ht|[Ht|[Ht|[Ht|[]%elem_of_nil]]]]; rewrite Ht.
  - by eapply Hm4, Hm3, Hm2, Hv.
  - by eapply Hm4, Hm3, Ho.
  - by eapply Hm4, Hi.
  - by eapply Hn.
Qed.

End recorded.

End created.

Section stack_proofs.
Context `{Env, Formats, !NoFaults} (defaultCIDR : string).

#[export] Instance stack_createInstance_no_panic ctx s l ps : NoPanic (stack_createInstance ctx s l ps).
Proof.
  unfold stack_createInstance. apply no_panic_bind; [apply launch_without_subnet_no_panic|apply _].
Qed.
#[export] Instance create_pass_no_panic t ty create refs b1 b2 :
  (∀ l ps, NoPanic (create l ps)) → NoPanic (create_pass t ty create refs b1 b2).
Proof. intros. unfold create_pass. apply _. Qed.
#[export] Instance create_resources_no_panic ctx s t : NoPanic (create_resources defaultCIDR ctx s t).
Proof. unfold create_resources. apply _. Qed.
#[export] Instance delete_resources_total ctx l : Total (delete_resources ctx l).
Proof. unfold delete_resources, deletePhysicalResource. apply _. Qed.

(** The row of a stack after its status is set: the statement finds it by its identifier. *)
Lemma updateStackStatus_run s status reason w row :
  t_stacks w !! stk_ID s = Some row →
  ∃ w' row', updateStackStatus s status reason w = (Ok tt, w') ∧
    t_stacks w' = <[stk_ID s := row']> (t_stacks w) ∧ t_stack_resources w' = t_stack_resources w ∧
    stk_Status (row_stack row') = status ∧ row_status_reason row' = Some reason ∧
    stk_UserID (row_stack row') = stk_UserID (row_stack row) ∧
    stk_Name (row_stack row') = stk_Name (row_stack row).
Proof.
  intros Hk. unfold updateStackStatus, Now, next_tick, stack_Update, ignore, attempt, mbind, M_bind, mret, M_ret, db_exec.
  cbn. rewrite no_faults. unfold sql_update. cbn. rewrite Hk. cbn. eexists _, _. by split_and!.
Qed.

Lemma rollbackStack_run ctx k w :
  ∃ w', rollbackStack ctx k w = (Ok tt, w') ∧ t_stacks w' = t_stacks w ∧
    ∀ id r, t_stack_resources w' !! id = Some r → sr_StackID r ≠ k.
Proof.
  destruct (rollbackStack ctx k w) as [r w'] eqn:Hrun. exists w'.
  apply (frame_run t_stacks) in Hrun as Hf; [|apply _].
  unfold rollbackStack in Hrun. unfold stack_ListResources at 1 in Hrun.
  rewrite (bind_Ok_run _ _ _ _ _ (db_query_run _ w)) in Hrun.
  apply total_bind_inv in Hrun as (x & w1 & _ & Hrun); [|apply _].
  unfold DeleteResources, mbind, M_bind, db_exec in Hrun. cbn in Hrun. rewrite no_faults in Hrun.
  injection Hrun as <- <-. split_and!; [done|done|]. intros id r Hr. cbn in Hr.
  apply map_lookup_filter_Some in Hr as [_ Hr]. cbn in Hr. intros Hk. by rewrite bool_decide_true in Hr.
Qed.

Lemma all_created_update sid t s status reason w r w' :
  updateStackStatus s status reason w = (r, w') → all_created sid t w → all_created sid t w'.
Proof.
  intros Hrun Hall l res Hl Hty. destruct (Hall l res Hl Hty) as (k & row & pid & Hk & Ha & Hb & Hc & Hd & Hin).
  exists k, row, pid. unfold in_table in *.
  apply (frame_run t_stack_resources) in Hrun as Hr; [|apply _]. rewrite Hr.
  by apply (frame_run t_vpcs) in Hrun as Hv; apply (frame_run t_volumes) in Hrun as Ho;
    apply (frame_run t_instances) in Hrun as Hi; apply (frame_run t_snapshots) in Hrun as Hn; try apply _;
    rewrite Hv, Ho, Hi, Hn.
Qed.

(** C16: When no statement fails, the goroutine of a new stack ends and leaves its stack in a
    final status with a reason: CREATE_FAILED when the template is no YAML; CREATE_COMPLETE when
    every creation succeeded, and then each VPC, volume, instance and snapshot of the template
    has a row of the stack under its logical name that names an existing resource; otherwise
    ROLLBACK_COMPLETE, with the error as the reason and no resource row left. *)
Theorem processStack_settles `{!OrderLaws, !FreshUUIDs} s w row r w' :
  t_stacks w !! stk_ID s = Some row →
  (∀ k res, t_stack_resources w !! k = Some res → sr_StackID res ≠ stk_ID s) →
  (∀ n, (w_tick w ≤ n)%nat → t_stack_resources w !! env_uuid n = None) →
  processStack defaultCIDR s w = (r, w') →
  r = Ok tt ∧
  ∃ row' reason, t_stacks w' = <[stk_ID s := row']> (t_stacks w) ∧ row_status_reason row' = Some reason ∧
    stk_UserID (row_stack row') = stk_UserID (row_stack row) ∧
    match yaml_Unmarshal (stk_Template s) with
    | inl _ => stk_Status (row_stack row') = StackStatusCreateFailed
    | inr t =>
        match (create_resources defaultCIDR (WithUserID None (stk_UserID s)) (stk_ID s) t w).1 with
        | Ok _ => stk_Status (row_stack row') = StackStatusCreateComplete ∧ reason = "" ∧
            all_created (stk_ID s) t w'
        | Err e =>
            stk_Status (row_stack row') = StackStatusRollbackComplete ∧ reason = error_text e ∧
            ∀ k res, t_stack_resources w' !! k = Some res → sr_StackID res ≠ stk_ID s
        | Panic _ => False
        end
    end.
Proof.
  intros Hk Hnone Hfree Hrun. unfold processStack in Hrun. destruct (yaml_Unmarshal _) as [e|t].
  { destruct (updateStackStatus_run s StackStatusCreateFailed "Invalid template YAML" w row Hk)
      as (w1 & row' & Hupd & Hw1 & _ & Hst & Hre & Hu & _).
    cbn zeta in Hrun. rewrite Hupd in Hrun. injection Hrun as <- <-. split; [done|]. eauto 10. }
  cbn zeta in Hrun. set (ctx := WithUserID None (stk_UserID s)) in *.
  apply total_bind_inv in Hrun as (res & w1 & Hres & Hrun); [|apply _].
  apply attempt_inv in Hres as [(x & Hres & [= ->])|[(e & Hres & [= ->])|(m & _ & ?)]]; [..|done];
    apply (frame_run t_stacks) in Hres as Hf; try apply _; rewrite Hres; cbn [fst].
  - apply create_resources_records in Hres.
    2:{ split_and!; [by eexists|exact Hfree|]. intros k res Hr Hsid. by destruct (Hnone k res Hr). }
    destruct (updateStackStatus_run s StackStatusCreateComplete "" w1 row)
      as (w2 & row' & Hupd & Hw2 & _ & Hst & Hre & Hu & _); [by rewrite Hf|].
    eapply all_created_update in Hres; [|exact Hupd].
    rewrite Hupd in Hrun. injection Hrun as <- <-. split; [done|]. rewrite Hw2, Hf. eauto 10.
  - unfold startRollback in Hrun.
    destruct (updateStackStatus_run s StackStatusRollbackInProgress (error_text e) w1 row)
      as (w2 & row2 & Hupd & Hw2 & _ & _ & _ & Hu2 & _); [by rewrite Hf|].
    rewrite (bind_Ok_run _ _ _ _ _ Hupd) in Hrun.
    destruct (rollbackStack_run ctx (stk_ID s) w2) as (w3 & Hroll & Hw3 & Hgone).
    rewrite (bind_Ok_run _ _ _ _ _ (attempt_Ok_run _ _ _ _ Hroll)) in Hrun.
    destruct (updateStackStatus_run s StackStatusRollbackComplete (error_text e) w3 row2)
      as (w4 & row4 & Hupd4 & Hw4 & Hr4 & Hst & Hre & Hu & _); [by rewrite Hw3, Hw2, lookup_insert_eq|].
    rewrite Hupd4 in Hrun. injection Hrun as <- <-. split; [done|]. exists row4, (error_text e).
    rewrite Hw4, Hw3, Hw2, Hf, Hr4, insert_insert_eq. split_and!; [done|done|congruence|done..].
Qed.

Lemma scan_fails l s acc v :
  MkStackRow s None ∈ l →
  ∃ e, (foldM (λ acc r, s ← scan_stack r; mret (acc ++ [s])) acc l v).1 = Err e.
Proof.
  intros Hin. revert acc v. induction l as [|r l IH]; intros acc v; [by apply not_elem_of_nil in Hin|].
  cbn [foldM]. apply elem_of_cons in Hin as [<-|Hin]; [by eexists|].
  destruct r as [x [re|]]; [|by eexists].
  change (scan_stack (MkStackRow x (Some re))) with (mret (x <| stk_StatusReason := re |>) : M Stack).
  rewrite !mret_bind. by apply IH.
Qed.

(** Until its goroutine has set a status, the creator of a stack can neither read it nor
    list his stacks: the row has no reason, and the field it is read into is a string. *)
Theorem new_stack_unreadable `{!OrderLaws} ctx name template params w s w1 :
  CreateStack ctx name template params w = (Ok s, w1) →
  t_stacks w1 = <[stk_ID s := MkStackRow s None]> (t_stacks w) ∧
  (∃ e, (GetStack ctx (stk_ID s) w1).1 = Err e) ∧ (∃ e, (ListStacks ctx w1).1 = Err e).
Proof.
  unfold CreateStack. intros Hrun. ok_step Hrun sid w2. injection Hrun0 as <- <-.
  ok_step Hrun cr w3. injection Hrun0 as <- <-. ok_step Hrun up w4. injection Hrun0 as <- <-.
  cbn zeta in Hrun. ok_step Hrun x w5. unfold stack_Create, db_exec in Hrun0. rewrite no_faults in Hrun0.
  unfold sql_insert in Hrun0. cbn in Hrun0. destruct (t_stacks w !! _); [done|]. destruct (_ && _); [|done].
  injection Hrun0 as _ <-. ok_step Hrun y w6. injection Hrun0 as _ <-.
  unfold mret, M_ret in Hrun. injection Hrun as <- <-.
  set (s := MkStack _ _ _ _ _ _ _ _ _ _). change (MkStackRow _ None) with (MkStackRow s None).
  set (w1 := _ <| w_tasks ::= _ |>).
  assert (t_stacks w1 !! stk_ID s = Some (MkStackRow s None)) as Hk by apply lookup_insert_eq.
  split_and!; [done| |].
  - unfold GetStack, stack_GetByID. unfold mbind at 1, M_bind at 1.
    rewrite (db_query_row_pk t_stacks) by apply no_faults. rewrite Hk. cbn. by eexists.
  - unfold ListStacks, stack_ListByUserID.
    rewrite (bind_Ok_run _ _ _ _ _ (db_query_run _ w1)).
    set (l := order_desc _ _).
    assert (MkStackRow s None ∈ l) as Hin.
    { subst l. unfold order_desc. rewrite merge_sort_Permutation, env_order_elem, elem_of_select.
      split; [unfold of_user; by rewrite bool_decide_true|]. by exists (stk_ID s). }
    by apply (scan_fails _ s).
Qed.

End stack_proofs.
