(* ===== verification/SecurityGroupProofs.v ===== *)
(** * Security groups: who may join an instance to one, and which flows are installed *)
From S2P Require Import Prelude GoStd Encoding Net Errors Domain DomainData World Logic Sql InstanceRepo.
From S2P Require Import NetworkRepo InstanceService VolumeService NetworkService NetworkProofs SecurityGroup.

Section security_group_proofs.
Context `{Env, !OrderLaws}.

Definition member_tables (w : World) := (t_sg_instances w, t_instances w, t_security_groups w).

(** The owner of an instance, and of a group, is checked against the same user before the
    membership is written. *)
Lemma check_instance_owner_Ok u i w x w1 :
  check_instance_owner u i w = (Ok x, w1) →
  w1 = w <| w_tick ::= S |> ∧ ∃ inst, t_instances w !! i = Some inst ∧ inst_UserID inst = u.
Proof.
  intros Hrun. unfold check_instance_owner in Hrun. ok_step Hrun row w2.
  apply wrap_err_Ok, (db_query_row_pk_Ok t_instances) in Hrun0 as (-> & Hi & _).
  apply guard_err_Ok in Hrun as [Hu%negb_false_iff%bool_decide_eq_true ->]. eauto.
Qed.

Lemma check_group_owner_Ok u g w x w1 :
  check_group_owner u g w = (Ok x, w1) →
  w1 = w <| w_tick ::= S |> ∧ ∃ sg, t_security_groups w !! g = Some sg ∧ secg_UserID sg = u.
Proof.
  intros Hrun. unfold check_group_owner in Hrun. ok_step Hrun row w2.
  apply wrap_err_Ok, (db_query_row_pk_Ok t_security_groups) in Hrun0 as (-> & Hg & _).
  apply guard_err_Ok in Hrun as [Hu%negb_false_iff%bool_decide_eq_true ->]. eauto.
Qed.

(** What joining a group does: only the user who owns both sides can do it. *)
Lemma AddInstanceToGroup_outcome ctx i g w r w1 :
  AddInstanceToGroup ctx i g w = (r, w1) →
  (r = Ok tt ∧ (∃ inst sg, t_instances w !! i = Some inst ∧ t_security_groups w !! g = Some sg ∧
     inst_UserID inst = UserIDFromContext ctx ∧ secg_UserID sg = UserIDFromContext ctx) ∧
   t_sg_instances w1 = <[(i, g) := tt]> (t_sg_instances w) ∧
   t_instances w1 = t_instances w ∧ t_security_groups w1 = t_security_groups w) ∨
  ((∀ x, r ≠ Ok x) ∧ member_tables w1 = member_tables w).
Proof.
  intros Hrun. unfold AddInstanceToGroup in Hrun.
  apply transaction_w_inv in Hrun as [([] & w2 & -> & Hbody & ->)|(Hr & n & l & ->)]; [left|right; by split].
  ok_step Hbody x w3. apply check_instance_owner_Ok in Hrun as (-> & inst & Hi & Hiu).
  ok_step Hbody y w4. apply check_group_owner_Ok in Hrun as (-> & sg & Hg & Hgu).
  apply wrap_err_Ok, db_exec_Ok in Hbody. cbn in Hi, Hg.
  split; [done|]. split; [by exists inst, sg|]. unfold member_insert in Hbody. cbn in Hbody.
  destruct (t_sg_instances w !! (i, g)) as [[]|] eqn:Hm.
  - injection Hbody as <-. cbn. by rewrite insert_id.
  - unfold sql_insert in Hbody. cbn in Hbody. rewrite Hm in Hbody. destruct (_ && _); [|done].
    by injection Hbody as <-.
Qed.

(** ** Flows *)

(** Calls survive a rollback, so a transaction that makes none leaves them unchanged. *)
#[export] Instance same_calls_rollback : RollbackOk (same w_calls).
Proof. intros w w' Hw. exact Hw. Qed.

#[local] Instance AddInstanceToGroup_calls ctx i g : Frame w_calls (AddInstanceToGroup ctx i g).
Proof.
  unfold AddInstanceToGroup. apply steps_transaction_w; apply _.
Qed.

(** The calls that install the flows of some rules on a switch, the last one first. *)
Definition flow_calls (bridge : string) (rules : list SecurityRule) : list Call :=
  reverse ((λ r, AddFlowRule bridge (translateToFlow r)) <$> rules).

Lemma install_flows bridge rules w r w' :
  foreach rules (λ rule, perform (AddFlowRule bridge (translateToFlow rule)) ;; mret ()) w = (r, w') →
  ∃ done rest, rules = done ++ rest ∧ w' = w <| w_calls := flow_calls bridge done ++ w_calls w |> ∧
    (r = Ok tt → rest = []).
Proof.
  revert w. induction rules as [|rule rules IH]; intros w Hrun; cbn [foreach] in Hrun.
  { unfold mret, M_ret in Hrun. injection Hrun as <- <-. exists [], []. split_and!; [done| |done].
    by destruct w. }
  unfold mbind at 1, M_bind at 1 in Hrun.
  destruct ((perform (AddFlowRule bridge (translateToFlow rule)) ;; mret ()) w) as [r1 w1] eqn:Hp.
  assert (w1 = w <| w_calls ::= cons (AddFlowRule bridge (translateToFlow rule)) |>) as Hw1.
  { unfold mbind, M_bind in Hp. destruct (perform _ w) as [r2 w2] eqn:Hp2.
    apply perform_run in Hp2 as [-> _]. by destruct r2; injection Hp as _ <-. }
  destruct r1 as [x|e|p].
  - apply IH in Hrun as (dn & rest & -> & -> & Hr). exists (rule :: dn), rest.
    split_and!; [done| |done]. rewrite Hw1. unfold flow_calls. rewrite fmap_cons, reverse_cons.
    unfold modify. cbn. by rewrite <- (assoc_L (++)).
  - injection Hrun as <- <-. exists [rule], rules. by split_and!.
  - injection Hrun as <- <-. exists [rule], rules. by split_and!.
Qed.

(** The rules of a group, by priority. *)
Lemma secg_GetByID_Ok ctx g w sg w1 :
  secg_GetByID ctx g w = (Ok sg, w1) →
  ∃ row, t_security_groups w !! g = Some row ∧ secg_UserID row = UserIDFromContext ctx ∧
    secg_VPCID sg = secg_VPCID row ∧ secg_UserID sg = secg_UserID row ∧
    read_rows (secg_Rules sg) (select (λ r, bool_decide (rule_GroupID r = secg_ID row)) (t_security_rules w)) ∧
    StronglySorted (desc rule_Priority) (secg_Rules sg) ∧ w1 = w <| w_tick := S (S (w_tick w)) |>.
Proof.
  unfold secg_GetByID, getRulesForGroup. intros Hrun. ok_step Hrun row w2.
  apply wrap_err_Ok, (db_query_row_pk_Ok t_security_groups) in Hrun0 as (-> & Hg & Ho).
  unfold of_user in Ho. rewrite bool_decide_eq_true in Ho.
  ok_step Hrun rules w3. ok_step Hrun0 l w4. apply db_query_read in Hrun1 as [-> Hl].
  unfold mret, M_ret in Hrun0, Hrun. injection Hrun0 as <- <-. injection Hrun as <- <-.
  exists row. split_and!; [done..| | |done].
  - cbn. unfold order_desc. by rewrite merge_sort_Permutation.
  - cbn. unfold order_desc. apply Sorted_StronglySorted; [intros a b c; unfold desc; lia|].
    apply Sorted_merge_sort. intros a b. unfold desc. lia.
Qed.

Lemma syncGroupFlows_run ctx sg w r w' :
  syncGroupFlows ctx sg w = (r, w') →
  ∃ bridge dn rest, secg_Rules sg = dn ++ rest ∧ w_calls w' = flow_calls bridge dn ++ w_calls w ∧
    (r = Ok tt → rest = [] ∧ ∃ vpc, t_vpcs w !! secg_VPCID sg = Some vpc ∧ vpc_NetworkID vpc = bridge).
Proof.
  unfold syncGroupFlows. intros Hrun. run_step Hrun vpc w1.
  2,3: apply (frame_run w_calls) in Hrun0; [|apply _]; exists "", [], (secg_Rules sg); by split_and!.
  apply wrap_err_Ok, (db_query_row_pk_Ok t_vpcs) in Hrun0 as (-> & Hv & _).
  apply install_flows in Hrun as (dn & rest & Hd & -> & Hr). exists (vpc_NetworkID vpc), dn, rest.
  split_and!; [done|done|]. intros ->. split; [by apply Hr|]. by exists vpc.
Qed.

(** Attaching succeeds only for a user who owns the instance and the group; then the
    membership is stored, and the flow of each rule of the group is installed on the
    switch of its VPC, by falling priority. *)
Theorem AttachToInstance_effect ctx i g w u w' :
  AttachToInstance ctx i g w = (Ok u, w') →
  ∃ inst sg rules vpc,
    t_instances w !! i = Some inst ∧ inst_UserID inst = UserIDFromContext ctx ∧
    t_security_groups w !! g = Some sg ∧ secg_UserID sg = UserIDFromContext ctx ∧
    t_sg_instances w' = <[(i, g) := tt]> (t_sg_instances w) ∧
    read_rows rules (select (λ r, bool_decide (rule_GroupID r = secg_ID sg)) (t_security_rules w)) ∧
    StronglySorted (desc rule_Priority) rules ∧
    t_vpcs w !! secg_VPCID sg = Some vpc ∧
    w_calls w' = flow_calls (vpc_NetworkID vpc) rules ++ w_calls w.
Proof.
  unfold AttachToInstance. intros Hrun. ok_step Hrun x w1.
  apply (frame_run w_calls) in Hrun0 as Hc; [|apply _]. apply (frame_run t_vpcs) in Hrun0 as Hv; [|apply _].
  apply (frame_run t_security_rules) in Hrun0 as Hr; [|apply _].
  apply AddInstanceToGroup_outcome in Hrun0
    as [(_ & (inst & sg & Hi & Hg & Hiu & Hgu) & Hm & _ & Hsg)|[Hx _]]; [|by destruct (Hx x)].
  ok_step Hrun sgr w2. apply secg_GetByID_Ok in Hrun0 as (row & Hrow & _ & Hvpc & _ & Hp & Hs & ->).
  rewrite Hsg, Hg in Hrow. injection Hrow as <-. rewrite Hr in Hp.
  apply (frame_run t_sg_instances) in Hrun as Hf; [|apply _].
  apply syncGroupFlows_run in Hrun as (br & dn & rest & Hd & Hcalls & Hok).
  destruct u. destruct (Hok eq_refl) as (-> & vpc & Hvp & <-). rewrite app_nil_r in Hd. cbn in Hf, Hvp, Hcalls.
  exists inst, sg, (secg_Rules sgr), vpc. rewrite Hvpc, Hv in Hvp.
  split_and!; [done|done|done|done|by rewrite Hf|done|done|done|by rewrite Hcalls, Hd, Hc].
Qed.

(** Adding a rule stores it but installs flows only for rules the group had before: the
    group is read before the rule is added, and is not read again. *)
Theorem AddRule_installs_old_rules ctx g rule w rl w' :
  AddRule ctx g rule w = (Ok rl, w') →
  t_security_rules w !! rule_ID rl = None ∧
  t_security_rules w' = <[rule_ID rl := rl]> (t_security_rules w) ∧ rule_GroupID rl = g ∧
  ∃ sg bridge old,
    t_security_groups w !! g = Some sg ∧ secg_UserID sg = UserIDFromContext ctx ∧
    w_calls w' = flow_calls bridge old ++ w_calls w ∧
    (∀ r, r ∈ old → rule_GroupID r = secg_ID sg ∧ ∃ k, t_security_rules w !! k = Some r).
Proof.
  unfold AddRule. intros Hrun. ok_step Hrun sgr w1.
  apply secg_GetByID_Ok in Hrun0 as (sg & Hg & Ho & _ & _ & Hp & _ & ->).
  ok_step Hrun rid w2. injection Hrun0 as <- <-. ok_step Hrun cr w3. injection Hrun0 as <- <-.
  cbn zeta in Hrun. set (rl0 := rule <| rule_ID := _ |> <| rule_GroupID := _ |> <| rule_CreatedAt := _ |>) in Hrun.
  ok_step Hrun x w4. apply wrap_err_Ok, wrap_err_Ok, db_exec_outcome in Hrun0 as [(a & _ & Hins)|(e & ? & _)]; [|done].
  unfold sql_insert in Hins. cbn in Hins. destruct (t_security_rules w !! _) eqn:Hfresh; [done|].
  destruct (_ && _); [|done]. injection Hins as _ <-.
  apply ignore_bind_inv in Hrun as (r1 & w5 & Hsync & Hrun); [|apply _].
  apply ignore_bind_inv in Hrun as (r2 & w6 & Hlog & Hrun); [|apply _].
  apply (frame_run t_security_rules) in Hsync as Hf1, Hlog as Hf2; try apply _.
  apply (frame_run w_calls) in Hlog as Hg2; [|apply _].
  apply syncGroupFlows_run in Hsync as (br & dn & rest & Hd & Hc & _).
  unfold mret, M_ret in Hrun. injection Hrun as <- <-.
  split_and!; [exact Hfresh|by rewrite Hf2, Hf1|done|]. exists sg, br, dn.
  split_and!; [done|done|by rewrite Hg2, Hc|]. intros r Hr.
  assert (r ∈ secg_Rules sgr) as Hin by (rewrite Hd; apply elem_of_app; by left).
  by apply (read_rows_elem _ _ _ Hp), elem_of_select in Hin as [Hrule%bool_decide_eq_true Hk].
Qed.

End security_group_proofs.
