(* ===== verification/AdapterProofs.v ===== *)
(** * What the adapters of the backends guarantee

    What an instance that could not be made leaves behind, which networks and names are handed
    out, what becomes of the container of a helper. *)
From S2P Require Import Prelude GoStd Encoding Net Errors Domain DomainData World Logic InstanceRepo.
From S2P Require Import NetworkRepo Host InstanceService NetworkService Http Ovs Libvirt Docker.

(** ** Networks of libvirt *)

Lemma add_offset_rev_ok l off : bytes_ok l → 0 ≤ off → bytes_ok (add_offset_rev l off).
Proof.
  revert off. induction l as [|b l IH]; intros off Hl Hoff; [done|]. cbn.
  destruct (0 <? off); [|done]. apply Forall_cons in Hl as [Hb Hl].
  apply Forall_cons. split; [apply Z.mod_pos_bound; lia|]. apply IH; [done|]. apply Z.div_pos; lia.
Qed.

Lemma add_offset_rev_length l off : length (add_offset_rev l off) = length l.
Proof. revert off. induction l as [|b l IH]; intros off; [done|]. cbn. by destruct (0 <? off); cbn; rewrite ?IH. Qed.

(** The addition is exact when the sum fits; the bytes above stay as they are. *)
Lemma add_offset_rev_val l r off :
  bytes_ok l → 0 ≤ off → le_val l + off < 256 ^ Z.of_nat (length l) →
  add_offset_rev (l ++ r) off = add_offset_rev l off ++ r ∧
  le_val (add_offset_rev l off) = le_val l + off.
Proof.
  revert off. induction l as [|b l IH]; intros off Hl Hoff Hfit.
  { cbn in Hfit. assert (off = 0) as -> by lia. by destruct r. }
  cbn [app add_offset_rev]. apply Forall_cons in Hl as [Hb Hl].
  cbn [length] in Hfit. rewrite pow256_S in Hfit. cbn [le_val] in *. destruct (Z.ltb_spec 0 off); [|split; [done|cbn; lia]].
  pose proof (Z.div_mod (b + off) 256 ltac:(lia)) as Hdm.
  pose proof (Z.mod_pos_bound (b + off) 256 ltac:(lia)) as Hm.
  destruct (IH ((b + off) / 256) Hl) as [Happ Hval]; [apply Z.div_pos; lia|nia|].
  rewrite Happ. split; [done|]. cbn [le_val]. rewrite Hval. lia.
Qed.

Lemma with_last_app ip b x : with_last (ip ++ [x]) b = ip ++ [b].
Proof. unfold with_last. by rewrite length_app, Nat.add_sub, take_app_length. Qed.

Lemma with_last_val ip b x : ip_val (with_last (ip ++ [x]) b) = 256 * ip_val ip + b.
Proof. rewrite with_last_app. unfold ip_val. rewrite reverse_snoc. cbn. lia. Qed.

Definition pool_size : Z := 4150172.
Definition pool_value : Z := 3232261120.

(** The first three bytes of the network of a counter, which fits in four up to [pool_size]
    networks. *)
Lemma base_ip_network n :
  0 ≤ n < pool_size →
  ∃ top, base_ip n = in16 (top ++ [0]) ∧ bytes_ok top ∧ length top = 3%nat ∧ 256 * ip_val top = pool_value + 256 * n.
Proof.
  intros Hn. unfold pool_size in Hn. unfold base_ip.
  rewrite wrap64_id by (unfold int64_range; lia).
  change (reverse poolStart) with ([0; 100; 168; 192] ++ reverse v4InV6Prefix).
  assert (bytes_ok [0; 100; 168; 192]) as Hok by (repeat constructor; lia).
  destruct (add_offset_rev_val [0; 100; 168; 192] (reverse v4InV6Prefix) (n * 256) Hok) as [-> Hval];
    [lia|cbn; lia|].
  pose proof (add_offset_rev_ok _ (n * 256) Hok ltac:(lia)) as Hb.
  pose proof (add_offset_rev_length [0; 100; 168; 192] (n * 256)) as Hlen.
  assert (∃ l, add_offset_rev [0; 100; 168; 192] (n * 256) = 0 :: l) as [l Hl].
  { cbn [add_offset_rev]. destruct (0 <? n * 256); [|by eexists]. rewrite Z.add_0_l, Z.mod_mul by done. by eexists. }
  rewrite Hl in *. apply Forall_cons in Hb as [_ Hb]. exists (reverse l).
  rewrite reverse_app, reverse_cons, reverse_involutive. split_and!.
  - done.
  - by apply bytes_ok_reverse.
  - rewrite length_reverse. by injection Hlen.
  - unfold ip_val. rewrite reverse_involutive. cbn in Hval. unfold pool_value. lia.
Qed.

Lemma with_last_in16 ip b x : with_last (in16 (ip ++ [x])) b = in16 (with_last (ip ++ [x]) b).
Proof. unfold in16. by rewrite (assoc_L (++)), !with_last_app, (assoc_L (++)). Qed.

Lemma IP_String_in16 `{IPv6Text} ip : length ip = 4%nat → IP_String (in16 ip) = dotted ip.
Proof.
  intros Hl. unfold IP_String, To4, in16. rewrite bool_decide_false by (rewrite length_app, Hl; cbn; lia).
  rewrite bool_decide_true; [done|]. rewrite length_app, Hl. split; [done|]. by rewrite take_app_length'.
Qed.

Section libvirt_proofs.
Context `{Env, HttpEnv, HostEnv}.

(** C32: The [n]-th network of a libvirt adapter is the [n]-th block of 256 addresses behind
    192.168.100.0, so two networks never overlap; its gateway and its range of leases are the
    addresses 1, 2 and 254 of the block, as dotted text.  From the 102nd on the networks lie
    behind the end of the pool, which nothing tests. *)
Theorem networks_disjoint h :
  let n := h_networkCounter h in
  0 ≤ n < pool_size →
  ∃ addr gw first last,
    getNextNetworkRange h = (Ok (dotted gw, dotted first, dotted last), h <| h_networkCounter := n + 1 |>) ∧
    Forall ipv4_ok [addr; gw; first; last] ∧
    ip_val addr = pool_value + 256 * n ∧
    ip_val gw = ip_val addr + 1 ∧ ip_val first = ip_val addr + 2 ∧ ip_val last = ip_val addr + 254 ∧
    (ip_val (drop 12 poolEnd) < ip_val addr ↔ 101 ≤ n).
Proof.
  intros n Hn. destruct (base_ip_network n Hn) as (top & Hbase & Hok & Hlen & Hval).
  assert (∀ b, 0 ≤ b < 256 → ipv4_ok (with_last (top ++ [0]) b) ∧
    ip_val (with_last (top ++ [0]) b) = pool_value + 256 * n + b ∧
    IP_String (with_last (base_ip n) b) = dotted (with_last (top ++ [0]) b)) as Hb.
  { intros b Hb. rewrite with_last_val. split_and!; [|lia|].
    - rewrite with_last_app. split; [|by rewrite length_app, Hlen].
      apply Forall_app. split; [done|]. by apply Forall_singleton.
    - rewrite Hbase, with_last_in16. apply IP_String_in16. by rewrite with_last_app, length_app, Hlen. }
  destruct (Hb 0 ltac:(lia)) as (K0 & V0 & _), (Hb 1 ltac:(lia)) as (K1 & V1 & T1),
    (Hb 2 ltac:(lia)) as (K2 & V2 & T2), (Hb 254 ltac:(lia)) as (K3 & V3 & T3).
  exists (with_last (top ++ [0]) 0), (with_last (top ++ [0]) 1), (with_last (top ++ [0]) 2), (with_last (top ++ [0]) 254).
  split_and!; [|do 4 (constructor; [assumption|]); constructor|lia..|].
  - unfold getNextNetworkRange, h_gets, h_modifies, mbind, H_bind, mret, H_ret. fold n.
    rewrite T1, T2, T3. unfold modify. cbn. fold n.
    by rewrite int_add_exact by (unfold int64_range, pool_size in *; lia).
  - rewrite V0. change (ip_val (drop 12 poolEnd)) with 3232286975. unfold pool_value. lia.
Qed.

(** ** What a failed creation leaves behind *)

Definition neutral (c : HostCall) : Prop :=
  match c with StorageVolCreateXML _ _ | DomainDefineXML _ => False | _ => True end.

(** Among the calls [l] made after [base], the volumes that were created and not deleted
    afterwards are among [vs], and the domains that were defined and not undefined among [ds]. *)
Definition owes (base l : list HostCall) (vs ds : list string) : Prop :=
  (∀ l1 l2 pool xml v, l = l1 ++ StorageVolCreateXML pool xml :: l2 →
     host_respond (l2 ++ base) (StorageVolCreateXML pool xml) = inr v → StorageVolDelete v ∈ l1 ∨ v ∈ vs) ∧
  (∀ l1 l2 xml d, l = l1 ++ DomainDefineXML xml :: l2 →
     host_respond (l2 ++ base) (DomainDefineXML xml) = inr d → DomainUndefine d ∈ l1 ∨ d ∈ ds).

(** Among the calls [l] made after [base], [c] was made and the host answered [a]. *)
Definition host_answered (base l : list HostCall) (c : HostCall) (a : host_resp c) : Prop :=
  ∃ l1 l2, l = l1 ++ c :: l2 ∧ host_respond (l2 ++ base) c = inr a.

Lemma host_answered_app base l' l c a : host_answered base l c a → host_answered base (l' ++ l) c a.
Proof. intros (l1 & l2 & -> & Ha). exists (l' ++ l1), l2. by rewrite (assoc_L (++)). Qed.

Lemma host_answered_cons base c' l c a : host_answered base l c a → host_answered base (c' :: l) c a.
Proof. apply (host_answered_app base [c']). Qed.

Lemma host_answered_now base l c a : host_respond (l ++ base) c = inr a → host_answered base (c :: l) c a.
Proof. intros Ha. by exists [], l. Qed.

Lemma owes_nil base : owes base [] [] [].
Proof. split; intros [] ? *; done. Qed.

Lemma owes_call base c l vs ds vs' ds' :
  owes base l vs ds →
  (∀ v, v ∈ vs → c = StorageVolDelete v ∨ v ∈ vs') → (∀ d, d ∈ ds → c = DomainUndefine d ∨ d ∈ ds') →
  (∀ pool xml v, c = StorageVolCreateXML pool xml →
     host_respond (l ++ base) (StorageVolCreateXML pool xml) = inr v → v ∈ vs') →
  (∀ xml d, c = DomainDefineXML xml →
     host_respond (l ++ base) (DomainDefineXML xml) = inr d → d ∈ ds') →
  owes base (c :: l) vs' ds'.
Proof.
  intros [Hv Hd] Hvs Hds Hc Hx. split.
  - intros [|c1 l1] l2 pool xml v [= -> ->] Hr; [right; by eapply Hc|].
    destruct (Hv l1 l2 pool xml v eq_refl Hr) as [|[->|]%Hvs]; [left|left|by right]; set_solver.
  - intros [|c1 l1] l2 xml d [= -> ->] Hr; [right; by eapply Hx|].
    destruct (Hd l1 l2 xml d eq_refl Hr) as [|[->|]%Hds]; [left|left|by right]; set_solver.
Qed.

Lemma owes_neutral base l' l vs ds : Forall neutral l' → owes base l vs ds → owes base (l' ++ l) vs ds.
Proof.
  intros Hn Ho. induction Hn as [|c l' Hc _ IH]; [done|]. cbn.
  eapply owes_call; [exact IH|auto|auto| |]; intros * -> _; done.
Qed.

Lemma owes_volume base pool xml l vs ds :
  owes base l vs ds →
  owes base (StorageVolCreateXML pool xml :: l)
    match host_respond (l ++ base) (StorageVolCreateXML pool xml) with inr v => v :: vs | inl _ => vs end ds.
Proof.
  intros Ho. eapply owes_call; [exact Ho| |auto| |by intros *].
  - intros v Hv. right. destruct (host_respond _ _); [done|by right].
  - intros ? ? v [= <- <-] ->. by left.
Qed.

Lemma owes_domain base xml l vs ds :
  owes base l vs ds →
  owes base (DomainDefineXML xml :: l) vs
    match host_respond (l ++ base) (DomainDefineXML xml) with inr d => d :: ds | inl _ => ds end.
Proof.
  intros Ho. eapply owes_call; [exact Ho|auto| |by intros *|].
  - intros d Hd. right. destruct (host_respond _ _); [done|by right].
  - intros ? d [= <-] ->. by left.
Qed.

Lemma owes_delete base v l ds : owes base l [v] ds → owes base (StorageVolDelete v :: l) [] ds.
Proof. intros Ho. eapply owes_call; [exact Ho| |auto|by intros *|by intros *]. intros x ->%list_elem_of_singleton. by left. Qed.

Lemma owes_undefine base d l vs : owes base l vs [d] → owes base (DomainUndefine d :: l) vs [].
Proof. intros Ho. eapply owes_call; [exact Ho|auto| |by intros *|by intros *]. intros x ->%list_elem_of_singleton. by left. Qed.

Lemma owes_other base c l vs ds : neutral c → owes base l vs ds → owes base (c :: l) vs ds.
Proof. intros Hc. apply (owes_neutral _ [c]). by constructor. Qed.

#[local] Instance generateCloudInitISO_neutral name env cmd : Emits neutral (generateCloudInitISO name env cmd).
Proof. unfold generateCloudInitISO, safe_name. apply _. Qed.
#[local] Instance resolveBinds_neutral binds : Emits neutral (resolveBinds binds).
Proof. unfold resolveBinds, resolve_bind. apply _. Qed.

Lemma safe_name_run name h r h' :
  safe_name name h = (r, h') → h_calls h' = h_calls h ∧ ∃ s, r = Ok s.
Proof.
  unfold safe_name. destruct (bool_decide _); [|intros [= <- <-]; eauto].
  unfold mbind, H_bind, on_db. cbn. intros [= <- <-]. cbn. eauto.
Qed.

Lemma prepareRootVolume_run name h r h' :
  prepareRootVolume name h = (r, h') →
  ∃ l, h_calls h' = l ++ h_calls h ∧
    ((∃ path vol, r = Ok (path, vol) ∧
        (∃ pool xml, host_answered (h_calls h) l (StorageVolCreateXML pool xml) vol) ∧
        host_answered (h_calls h) l (StorageVolGetPath vol) path ∧ owes (h_calls h) l [vol] []) ∨
     (∃ e, r = Err e ∧ owes (h_calls h) l [] [])).
Proof.
  unfold prepareRootVolume.
  intros [(pool & h1 & Hpool & Hrun)|[(e & Hpool & ->)|(p & Hpool & _)]]%h_bind_inv;
    call_inv Hpool; destruct Hpool as [-> [(v & Hr & Heq)|(e' & Hr & Heq)]]; try discriminate.
  2:{ eexists [_]. split; [done|]. right. eexists. split; [done|]. apply owes_other; [done|apply owes_nil]. }
  set (xml := generateVolumeXML _ _) in Hrun.
  pose proof (owes_volume (h_calls h) pool xml _ _ _
    (owes_other (h_calls h) (StoragePoolLookupByName defaultPoolName) [] [] [] I (owes_nil _))) as Ho.
  apply h_bind_inv in Hrun as [(vol & h2 & Hvol & Hrun)|[(e & Hvol & ->)|(p & Hvol & _)]];
    call_inv Hvol; destruct Hvol as [-> [(v' & Hr' & Heq')|(e' & Hr' & Heq')]]; try discriminate;
    cbn in Ho, Hr'; rewrite Hr' in Ho.
  2:{ eexists [_; _]. split; [done|]. right. eexists. by split. }
  injection Heq' as <-.
  apply h_bind_inv in Hrun as [(path & h3 & Hpath & Hrun)|[(e & Hpath & _)|(p & Hpath & _)]];
    apply h_attempt_inv in Hpath as [(a & Hpath & Heq2)|[(e' & Hpath & Heq2)|(p' & Hpath & Heq2)]];
    try discriminate; injection Heq2 as ->; call_inv Hpath; destruct Hpath as [-> Hans];
    try (by case_match).
  - injection Hrun as <- <-. eexists [_; _; _]. split; [done|]. left.
    destruct (host_respond _ (StorageVolGetPath vol)) as [|path'] eqn:Hp; [done|]. injection Hans as <-.
    eexists _, _. split; [done|]. split; [|split; [by apply host_answered_now|by apply owes_other]].
    exists pool, xml. apply host_answered_cons. by apply host_answered_now.
  - apply h_bind_inv in Hrun as [(u & h4 & Hdel & Hrun)|[(e & Hdel & _)|(p & Hdel & _)]];
      call_inv Hdel; destruct Hdel as [Heq2 ->]; try discriminate.
    injection Hrun as <- <-. eexists [_; _; _; _]. split; [done|]. right. eexists. split; [done|].
    by apply owes_delete, owes_other.
Qed.

(** Both the disk and the definition are taken back when the domain does not start. *)
Lemma start_domain_run xml vol undo h r h' base m :
  Emits neutral undo → owes base m [vol] [] → h_calls h = m ++ base → start_domain xml vol undo h = (r, h') →
  ∃ l, h_calls h' = l ++ h_calls h ∧
    ((r = Ok () ∧ ∃ dom, host_answered base (l ++ m) (DomainDefineXML xml) dom ∧
        host_answered base (l ++ m) (DomainCreate dom) tt ∧ owes base (l ++ m) [vol] [dom]) ∨
     ((∀ a, r ≠ Ok a) ∧ owes base (l ++ m) [] [])).
Proof.
  intros Hundo Ho Hm. unfold start_domain.
  pose proof (owes_domain base xml _ _ _ Ho) as Ho1. rewrite <- Hm in Ho1.
  intros [(def & h1 & Hdef & Hrun)|[(e & Hdef & _)|(p & Hdef & _)]]%h_bind_inv;
    apply h_attempt_inv in Hdef as [(dom & Hdef & Heq)|[(e' & Hdef & Heq)|(p' & Hdef & Heq)]];
    try discriminate; injection Heq as ->; call_inv Hdef; destruct Hdef as [-> Hans];
    destruct (host_respond (h_calls h) (DomainDefineXML xml)) as [e0|d] eqn:Hresp; try discriminate; injection Hans as ->.
  - apply h_bind_inv in Hrun as [(st & h2 & Hst & Hrun)|[(e & Hst & _)|(p & Hst & _)]];
      apply h_attempt_inv in Hst as [(u & Hst & Heq)|[(e' & Hst & Heq)|(p' & Hst & Heq)]];
      try discriminate; injection Heq as ->; call_inv Hst; destruct Hst as [-> Hans];
      try (by case_match).
    + injection Hrun as <- <-. eexists [_; _]. split; [done|]. left. split; [done|].
      cbn in Hans. destruct (host_respond _ (DomainCreate d)) as [|[]] eqn:Hc in Hans; [done|].
      rewrite Hm in Hresp, Hc. exists d.
      split; [by apply host_answered_cons, host_answered_now|].
      split; [by apply host_answered_now|]. by apply owes_other.
    + apply h_bind_inv in Hrun as [(u1 & h3 & Hun & Hrun)|[(e & Hun & _)|(p & Hun & _)]];
        call_inv Hun; destruct Hun as [Heq1 ->]; try discriminate.
      apply h_bind_inv in Hrun as [(u2 & h4 & Hdel & Hrun)|[(e & Hdel & _)|(p & Hdel & _)]];
        call_inv Hdel; destruct Hdel as [Heq2 ->]; try discriminate.
      injection Hrun as <- <-. eexists [_; _; _; _]. split; [done|]. right. split; [done|].
      by apply owes_delete, owes_undefine, owes_other.
  - apply h_bind_inv in Hrun as [(u1 & h3 & Hdel & Hrun)|[(e & Hdel & _)|(p & Hdel & _)]];
      call_inv Hdel; destruct Hdel as [Heq1 ->]; try discriminate.
    match type of Hrun with _ ?h1 = _ => destruct (Hundo h1) as (l & Hl & Hn) end.
    assert (h_calls h' = l ++ StorageVolDelete vol :: DomainDefineXML xml :: h_calls h ∧ ∀ a, r ≠ Ok a) as [Hl' Hne].
    { apply h_bind_inv in Hrun as [(u2 & h4 & Hu & Hrun)|[(e & Hu & ->)|(p & Hu & ->)]]; rewrite Hu in Hl; cbn in Hl.
      - by injection Hrun as <- <-.
      - done.
      - done. }
    exists (l ++ [StorageVolDelete vol; DomainDefineXML xml]). split; [by rewrite Hl', <- (assoc_L (++))|].
    right. split; [done|]. rewrite <- (assoc_L (++)). apply owes_neutral; [done|]. by apply owes_delete.
Qed.

#[local] Instance generateCloudInitISO_no_panic name env cmd : HNoPanic (generateCloudInitISO name env cmd).
Proof. unfold generateCloudInitISO, safe_name. apply _. Qed.
#[local] Instance resolveBinds_total binds : HTotal (resolveBinds binds).
Proof. unfold resolveBinds, resolve_bind. apply _. Qed.

(** A step that always returns and makes neutral calls. *)
Lemma neutral_step {A B} (m : H A) (f : A → H B) h r h' :
  Emits neutral m → HTotal m → (m ≫= f) h = (r, h') →
  ∃ a h1 l, f a h1 = (r, h') ∧ h_calls h1 = l ++ h_calls h ∧ Forall neutral l.
Proof.
  intros Hm Ht Hrun. destruct (Hm h) as (l & Hl & Hn). specialize (Ht h). unfold mbind, H_bind in Hrun.
  destruct (m h) as [ra h1]. destruct Ht as [a Ha]. cbn in Ha, Hl. subst ra. by exists a, h1, l.
Qed.

(** C30: An instance that could not be made is taken back, whatever call failed: every
    volume that was created has been asked to be deleted since, and every domain that was
    defined to be undefined (the code does not look at the answers of these calls).  When
    the instance was made, the host has created one volume, named its path, defined one
    domain with that disk and started that domain, and nothing else is left. *)
Theorem libvirt_CreateInstance_compensates name image ports net binds env cmd h r h' :
  libvirt_CreateInstance name image ports net binds env cmd h = (r, h') →
  ∃ l, h_calls h' = l ++ h_calls h ∧
    match r with
    | Ok id => ∃ pool root vol path network iso disks dom,
        let xml := generateDomainXML id path network iso 512 1 disks in
        host_answered (h_calls h) l (StorageVolCreateXML pool root) vol ∧
        host_answered (h_calls h) l (StorageVolGetPath vol) path ∧
        host_answered (h_calls h) l (DomainDefineXML xml) dom ∧
        host_answered (h_calls h) l (DomainCreate dom) tt ∧
        owes (h_calls h) l [vol] [dom]
    | _ => owes (h_calls h) l [] []
    end.
Proof.
  unfold libvirt_CreateInstance.
  intros [(s & h1 & Hname & Hrun)|[(e & Hname & _)|(p & Hname & _)]]%h_bind_inv;
    apply safe_name_run in Hname as [Hcalls (s' & Hs)]; try discriminate.
  apply h_bind_inv in Hrun as [([path vol] & h2 & Hprep & Hrun)|[(e & Hprep & ->)|(p & Hprep & ->)]];
    apply prepareRootVolume_run in Hprep as (l1 & Hl1 & [(path' & vol' & Heq & Hvol & Hpath & Ho)|(e' & Heq & Ho)]);
    try discriminate; rewrite Hcalls in *.
  2:{ exists l1. by split. }
  injection Heq as <- <-.
  apply neutral_step in Hrun as (isoPath & h3 & l2 & Hrun & Hl2 & Hn2); [|apply _..].
  apply neutral_step in Hrun as (disks & h4 & l3 & Hrun & Hl3 & Hn3); [|apply _..].
  assert (h_calls h4 = (l3 ++ l2 ++ l1) ++ h_calls h) as Hl4 by (by rewrite Hl3, Hl2, Hl1, <- !(assoc_L (++))).
  assert (owes (h_calls h) (l3 ++ l2 ++ l1) [vol] []) as Ho4
    by (apply owes_neutral; [done|]; by apply owes_neutral).
  apply h_bind_inv in Hrun as [(u & h5 & Hstart & Hrun)|[(e & Hstart & ->)|(p & Hstart & ->)]];
    apply (start_domain_run _ _ _ _ _ _ (h_calls h) (l3 ++ l2 ++ l1) _ Ho4 Hl4) in Hstart
      as (l5 & Hl5 & [(Heq & dom & Hdef & Hdom & Hend)|(Hne & Hend)]);
    try discriminate; try (by destruct (Hne u)); rewrite Hl4, (assoc_L (++)) in Hl5.
  2,3: by exists (l5 ++ l3 ++ l2 ++ l1).
  apply neutral_step in Hrun as (u' & h6 & l6 & Hrun & Hl6 & Hn6); [|apply _|by case_match; intros ?; eexists].
  injection Hrun as <- <-. exists (l6 ++ l5 ++ l3 ++ l2 ++ l1).
  split; [by rewrite Hl6, Hl5, !(assoc_L (++))|]. destruct Hvol as (pool & root & Hvol).
  exists pool, root, vol, path. do 4 eexists. cbv zeta.
  split; [by do 4 apply host_answered_app|]. split; [by do 4 apply host_answered_app|].
  split; [apply host_answered_app; exact Hdef|]. split; [by apply host_answered_app|].
  by apply owes_neutral.
Qed.

(** ** What the services ask of libvirt and do not get *)

(** The proxy looks the address of a target up by the identifier of the instance, but a
    domain has the name the instance service gives it: while no domain has an identifier for
    its name, no configuration has a target. *)
Theorem libvirt_proxy_has_no_targets lb targets h r h' :
  (∀ calls t, t ∈ targets → ∃ e, host_respond calls (DomainLookupByName (uuid_string (tgt_InstanceID t))) = inl e) →
  libvirt_generateNginxConfig lb targets h = (r, h') →
  r = Ok (nginx_config (lb_Port lb) (bool_decide (lb_Algorithm lb = "least-conn")) []).
Proof.
  intros Hno. unfold libvirt_generateNginxConfig.
  assert (∀ ts, (∀ t, t ∈ ts → t ∈ targets) → ∀ g, ∃ g', h_fold target_info [] ts g = (Ok [], g')) as Hloop.
  { induction ts as [|t ts IH]; intros Hin g; [by eexists|]. cbn [h_fold].
    assert (target_info [] t g = (Ok [], g <| h_calls ::= cons (DomainLookupByName (uuid_string (tgt_InstanceID t))) |>))
      as Hstep.
    { unfold target_info, GetInstanceIP, mbind, H_bind, h_attempt, h_wrap, call.
      destruct (Hno (h_calls g) t) as [e ->]; [apply Hin; by left|done]. }
    unfold mbind, H_bind. rewrite Hstep. apply IH. intros x Hx. apply Hin. by right. }
  unfold mbind, H_bind. destruct (Hloop targets (λ t Ht, Ht) h) as [g ->]. by intros [= <- <-].
Qed.

(** A bind names a volume and the path it is mounted at; the volume is looked up by all of
    it: while no volume has such a name, an instance is made without its volumes. *)
Theorem libvirt_binds_lost binds h r h' :
  (∀ calls pool b, b ∈ binds → ∃ e, host_respond calls (StorageVolLookupByName pool b) = inl e) →
  resolveBinds binds h = (r, h') → r = Ok [].
Proof.
  intros Hno. unfold resolveBinds. destruct (bool_decide _); [by intros [= <- <-]|].
  assert (∀ pool bs, (∀ b, b ∈ bs → b ∈ binds) → ∀ g, ∃ g', h_fold (resolve_bind pool) [] bs g = (Ok [], g')) as Hloop.
  { intros pool. induction bs as [|b bs IH]; intros Hin g; [by eexists|]. cbn [h_fold].
    assert (resolve_bind pool [] b g = (Ok [], g <| h_calls ::= cons (StorageVolLookupByName pool b) |>)) as Hstep.
    { unfold resolve_bind, mbind, H_bind, h_attempt, call.
      destruct (Hno (h_calls g) pool b) as [e ->]; [apply Hin; by left|done]. }
    unfold mbind, H_bind. rewrite Hstep. apply IH. intros x Hx. apply Hin. by right. }
  intros [(pool & h1 & Hpool & Hrun)|[(e & Hpool & ->)|(p & Hpool & ->)]]%h_bind_inv;
    apply h_total_run in Hpool as Hok; try apply _; destruct Hok as [a Ha]; try discriminate.
  destruct pool as [e|pool]; [by injection Hrun as <- <-|].
  destruct (Hloop pool binds (λ b Hb, Hb) h1) as [g Hg]. by rewrite Hg in Hrun; injection Hrun as <- <-.
Qed.

End libvirt_proofs.

(** ** Names of interfaces *)

(** The text of a UUID: 36 letters, digits and hyphens. *)
Class UUIDText `{Env} :=
  uuid_text u : String.length (uuid_string u) = 36%nat ∧ forallb bridge_char (list_ascii_of_string (uuid_string u)) = true.

Lemma list_ascii_app s t : list_ascii_of_string (s +:+ t) = list_ascii_of_string s ++ list_ascii_of_string t.
Proof. induction s; cbn; congruence. Qed.

Lemma forallb_prefix n s :
  forallb bridge_char (list_ascii_of_string s) = true →
  forallb bridge_char (list_ascii_of_string (str_prefix n s)) = true.
Proof.
  revert s. induction n as [|n IH]; intros [|a s]; cbn; [done..|].
  intros [Ha Hs]%andb_true_iff. rewrite Ha. by apply IH.
Qed.

Lemma prefix_length n s : (n ≤ String.length s)%nat → String.length (str_prefix n s) = n.
Proof. revert s. induction n as [|n IH]; intros [|a s]; cbn; [done..|lia|]. intros Hn. f_equal. apply IH. lia. Qed.

Lemma str_length_app s t : String.length (s +:+ t) = (String.length s + String.length t)%nat.
Proof. induction s; cbn; congruence. Qed.

Section ovs_proofs.
Context `{Env, HostEnv, !UUIDText}.

Lemma short_name_ok prefix u :
  prefix ≠ "" → forallb bridge_char (list_ascii_of_string prefix) = true →
  bridge_name_ok (prefix +:+ str_prefix 8 (uuid_string u)) = true ∧
  String.length (prefix +:+ str_prefix 8 (uuid_string u)) = (String.length prefix + 8)%nat.
Proof.
  intros Hne Hp. destruct (uuid_text u) as [Hlen Hall]. split.
  - unfold bridge_name_ok. rewrite bool_decide_false by (by destruct prefix). cbn [negb andb].
    by rewrite list_ascii_app, forallb_app, Hp, forallb_prefix.
  - rewrite str_length_app, prefix_length; lia.
Qed.

(** The names the services give to the bridge of a VPC and to the interface of an instance
    are none that the adapter refuses, so a command is run for each, and none is longer than
    the 15 bytes Linux allows. *)
Theorem interface_names_accepted a vpcID vni u h :
  let bridge := bridge_name vpcID in let veth := "veth-" +:+ str_prefix 8 (uuid_string u) in
  ovs_CreateBridge a bridge vni h = run_or "failed to add bridge" [ovsPath a; "add-br"; bridge] h ∧
  ovs_DeleteBridge a bridge h = run_or "failed to delete bridge" [ovsPath a; "del-br"; bridge] h ∧
  ovs_AddPort a bridge veth h = run_or "failed to add port" [ovsPath a; "add-port"; bridge; veth] h ∧
  (∀ rule, ovs_AddFlowRule a bridge rule h =
     run_or "failed to add flow rule" [ofctlPath a; "add-flow"; bridge; flow_spec rule] h) ∧
  (String.length bridge ≤ 15)%nat ∧ (String.length veth ≤ 15)%nat.
Proof.
  intros bridge veth.
  destruct (short_name_ok "br-vpc-" vpcID) as [Hb Lb]; [done..|].
  destruct (short_name_ok "veth-" u) as [Hv Lv]; [done..|].
  fold veth in Hv, Lv. change ("br-vpc-" +:+ str_prefix 8 (uuid_string vpcID)) with bridge in Hb, Lb.
  unfold ovs_CreateBridge, ovs_DeleteBridge, ovs_AddPort, ovs_AddFlowRule. rewrite Hb, Hv.
  split_and!; [done..|rewrite Lb; cbn; lia|rewrite Lv; cbn; lia].
Qed.

End ovs_proofs.

(** ** Docker *)

(** The element of [l1 ++ l2] at a split is in one of the two. *)
Lemma app_cons_split {A} (l1 l2 k1 k2 : list A) x :
  l1 ++ l2 = k1 ++ x :: k2 →
  (∃ l3, l1 = k1 ++ x :: l3 ∧ k2 = l3 ++ l2) ∨ (∃ l4, k1 = l1 ++ l4 ∧ l2 = l4 ++ x :: k2).
Proof.
  revert k1. induction l1 as [|y l1 IH]; intros k1 Heq; [by right; exists k1|].
  destruct k1 as [|z k1]; injection Heq as -> Heq; [left; by exists l1|].
  destruct (IH k1 Heq) as [(l3 & -> & ->)|(l4 & -> & ->)]; [left; by exists l3|right; by exists l4].
Qed.

Section docker_proofs.
Context `{Env, HostEnv}.

(** The container that reads or writes an archive is removed, as the last thing done, however
    its task ends. *)
Theorem helper_container_removed task cmd binds h r h' :
  helper_container task cmd binds h = (r, h') →
  ∃ l, h_calls h' = l ++ h_calls h ∧
    ∀ l1 l2 config host nets name id, l = l1 ++ ContainerCreate config host nets name :: l2 →
      host_respond (l2 ++ h_calls h) (ContainerCreate config host nets name) = inr id →
      head l = Some (ContainerRemove id).
Proof.
  unfold helper_container.
  intros [(u & h1 & Hpull & Hrun)|[(e & Hpull & ->)|(p & Hpull & _)]]%h_bind_inv;
    call_inv Hpull; destruct Hpull as [-> [(v & Hr & Heq)|(e' & Hr & Heq)]]; try discriminate.
  2:{ eexists [_]. split; [done|]. intros [|? [|? ?]] *; discriminate. }
  apply h_bind_inv in Hrun as [(id0 & h2 & Hnew & Hrun)|[(e & Hnew & ->)|(p & Hnew & _)]];
    call_inv Hnew; destruct Hnew as [-> [(v' & Hr' & Heq')|(e' & Hr' & Heq')]]; try discriminate.
  2:{ eexists [_; _]. split; [done|]. intros [|? [|? [|? ?]]] l2 * [=] Hid; subst.
      cbn in Hr', Hid. rewrite Hr' in Hid. discriminate. }
  injection Heq' as <-. unfold deferred in Hrun.
  match type of Hrun with (let '(_, _) := ?m ?g in _) = _ =>
    assert (Emits (λ c, match c with ContainerCreate _ _ _ _ => False | _ => True end) m) as Hm end.
  { apply emits_bind; [apply _|intros _]. apply emits_bind; [apply _|]. intros [[e|]|code|e]; apply _. }
  match type of Hrun with (let '(_, _) := ?m ?g in _) = _ =>
    destruct (Hm g) as (l & Hl & Hn); destruct (m g) as [r3 h3] end.
  injection Hrun as <- <-. cbn in Hl.
  exists (ContainerRemove id0 :: l ++ [ContainerCreate (no_config <| cc_Image := "alpine" |> <| cc_Cmd := cmd |>)
    (no_host <| hc_Binds := binds |>) [] ""; ImagePull "alpine"]). split.
  { etransitivity; [apply (ignored_calls (ContainerRemove id0))|]. rewrite Hl. cbn. by rewrite <- (assoc_L (++)). }
  intros l1 l2 config host nets name id Heq3 Hid. cbn. do 2 f_equal.
  destruct l1 as [|c l1]; [discriminate|]. injection Heq3 as _ Heq3.
  rewrite Forall_forall in Hn. apply app_cons_split in Heq3 as [(l3 & -> & _)|(l4 & -> & Heq4)].
  { destruct (Hn (ContainerCreate config host nets name)). set_solver. }
  destruct l4 as [|? [|? [|? ?]]]; try discriminate. injection Heq4 as <- <- <- <- <-.
  cbn in Hr', Hid. rewrite Hr' in Hid. by injection Hid.
Qed.

End docker_proofs.
