(* ===== verification/AuthProofs.v ===== *)
(** * What API keys, the gate, login, lockout and password reset guarantee *)
From S2P Require Import Prelude GoStd Encoding Net Errors Domain DomainData World Logic Sql InstanceRepo Rbac.
From S2P Require Import RbacProofs Secret Auth Router.

(** * What the API keys and the table of endpoints guarantee *)

Section key_proofs.
Context `{Env}.

(** The constraint UNIQUE(key) of [api_keys]. *)
Definition keys_unique (w : World) : Prop :=
  ∀ k1 k2 r1 r2, t_api_keys w !! k1 = Some r1 → t_api_keys w !! k2 = Some r2 →
    ak_Key r1 = ak_Key r2 → k1 = k2.

(** The key is one of the user's. *)
Definition key_of (w : World) (apiKey : string) (userID : uuid) : Prop :=
  ∃ k row, t_api_keys w !! k = Some row ∧ ak_Key row = apiKey ∧ ak_UserID row = userID.

(** ** Validation *)

Lemma GetAPIKeyByKey_found `{!OrderLaws, !NoFaults} w k row :
  keys_unique w → t_api_keys w !! k = Some row →
  GetAPIKeyByKey (ak_Key row) w = (Ok row, w <| w_tick ::= S |>).
Proof.
  intros Hu Hk. apply wrap_err_Ok_run.
  apply (db_query_row_unique t_api_keys _ k); [apply no_faults|done|by apply bool_decide_eq_true|].
  intros k' r' Hk' Hr'%bool_decide_eq_true. rewrite (Hu k' k r' row Hk' Hk Hr') in Hk'. congruence.
Qed.

Lemma GetAPIKeyByKey_missing `{!OrderLaws, !NoFaults} w key :
  (∀ k row, t_api_keys w !! k = Some row → ak_Key row ≠ key) →
  GetAPIKeyByKey key w = (Err (New Unauthorized "invalid api key"), w <| w_tick ::= S |>).
Proof.
  intros Hnone. apply norows_run, (db_query_row_none t_api_keys); [apply no_faults|].
  intros k r Hk. apply bool_decide_eq_false. by apply (Hnone k).
Qed.

Lemma GetAPIKeyByID_Ok `{!OrderLaws} id w row w1 :
  GetAPIKeyByID id w = (Ok row, w1) → w1 = w <| w_tick ::= S |> ∧ t_api_keys w !! id = Some row.
Proof.
  intros Hrun. apply wrap_err_Ok, (db_query_row_pk_Ok t_api_keys) in Hrun as (-> & Hr & _). done.
Qed.

Lemma DeleteAPIKey_outcome id w r w1 :
  DeleteAPIKey id w = (r, w1) →
  (r = Ok tt ∧ t_api_keys w1 = delete id (t_api_keys w)) ∨
  ((∃ e, r = Err e) ∧ t_api_keys w1 = t_api_keys w).
Proof.
  intros Hrun. unfold DeleteAPIKey, wrap_err, mbind, M_bind in Hrun.
  destruct (db_exec _ w) as [r0 w2] eqn:Hd.
  apply db_exec_outcome in Hd as [(n & -> & Hst)|(e & -> & ->)]; [|right; simplify_eq; eauto].
  unfold mret, M_ret in Hrun. injection Hrun as <- <-. left. split; [done|].
  unfold sql_delete in Hst. cbn in Hst. destruct (t_api_keys w !! id) eqn:Hl; simplify_eq; [done|].
  cbn. by rewrite delete_id.
Qed.

(** ** Revocation *)

(** C25: A user can revoke his own keys only: when no statement fails, after a successful
    revocation the key opens nothing any more, and a key of another user is left as it was. *)
Theorem RevokeKey_effect `{!OrderLaws, !NoFaults} userID id w r w1 row :
  keys_unique w → t_api_keys w !! id = Some row → RevokeKey userID id w = (r, w1) →
  if decide (ak_UserID row = userID)
  then r = Ok tt ∧ t_api_keys w1 = delete id (t_api_keys w) ∧
       ∀ ctx, (Auth (ak_Key row) ctx w1).1 = Err (New Unauthorized "invalid API key") ∨ ak_Key row = ""
  else r = Err (New Forbidden "cannot revoke key owned by another user") ∧
       t_api_keys w1 = t_api_keys w.
Proof.
  intros Hu Hrow Hrun. unfold RevokeKey, GetAPIKeyByID in Hrun.
  erewrite bind_Ok_run in Hrun; [|apply wrap_err_Ok_run; rewrite (db_query_row_pk t_api_keys), Hrow
    by apply no_faults; reflexivity].
  case_decide as Hown.
  - rewrite bool_decide_true in Hrun by done. change (guard_err _ _) with (mret () : M unit) in Hrun.
    rewrite mret_bind in Hrun.
    assert (∃ w2, DeleteAPIKey id (w <| w_tick ::= S |>) = (Ok tt, w2)) as [w2 Hdel].
    { unfold DeleteAPIKey. erewrite bind_Ok_run; [by eexists|]. apply wrap_err_Ok_run.
      rewrite db_exec_run by apply no_faults. unfold sql_delete. cbn. rewrite Hrow. reflexivity. }
    rewrite (bind_Ok_run _ _ _ _ _ Hdel) in Hrun.
    apply DeleteAPIKey_outcome in Hdel as [[_ Hd]|[[e He] _]]; [|done].
    apply total_run in Hrun as Hr; [|apply _]. destruct Hr as [[] ->].
    apply (frame_run t_api_keys) in Hrun; [|apply _]. split_and!; [done|by rewrite Hrun, Hd|].
    intros ctx. destruct (decide (ak_Key row = "")) as [He|He]; [by right|left].
    unfold Auth, ValidateAPIKey. rewrite bool_decide_false by done.
    change (guard_err _ _) with (mret () : M unit). rewrite mret_bind. erewrite bind_Err_run; [done|].
    erewrite wrap_err_Err_run; [reflexivity|]. apply GetAPIKeyByKey_missing.
    intros k row' Hk Heq. rewrite Hrun, Hd in Hk. apply lookup_delete_Some in Hk as [Hne Hk].
    by apply Hne, (Hu id k row row').
  - rewrite bool_decide_false in Hrun by done. cbn in Hrun. injection Hrun as <- <-. done.
Qed.

(** ** The gate *)

Lemma Auth_Ok `{!OrderLaws} apiKey w ctx w1 :
  Auth apiKey None w = (Ok ctx, w1) →
  w1 = w <| w_tick ::= S |> ∧ apiKey ≠ "" ∧ ∃ userID, ctx = Some userID ∧ key_of w apiKey userID.
Proof.
  intros Hrun. unfold Auth in Hrun. ok_step Hrun u0 w3. apply guard_err_Ok in Hrun0 as [Hne ->].
  apply bool_decide_eq_false in Hne. ok_step Hrun row w4. apply wrap_err_Ok, wrap_err_Ok in Hrun0.
  apply (db_query_row_Ok t_api_keys) in Hrun0 as (-> & Hk%bool_decide_eq_true & k & Hrow).
  unfold mret, M_ret in Hrun. injection Hrun as <- <-.
  split_and!; [done|done|]. exists (ak_UserID row). split; [done|]. by exists k, row.
Qed.

(** C4: A request that reaches the handler of an endpoint with a permission carries the key of
    a user that exists and the handler acts as that user.  The role of the user permits it, by
    its stored permissions or, when it is not stored, by the defaults of its name; only when a
    statement that reads the role fails do the defaults decide about a stored role too. *)
Theorem gate_sound `{!OrderLaws} e p apiKey w ctx w1 :
  ep_Auth e = true → ep_Permission e = Some p → keyed role_ID (t_roles w) →
  gate e apiKey w = (Ok ctx, w1) →
  ∃ userID u, ctx = Some userID ∧ apiKey ≠ "" ∧ key_of w apiKey userID ∧ t_users w !! userID = Some u ∧
    (permits w (user_Role u) p ∨
     role_query_failed (S (S (w_tick w))) ∧ hasDefaultPermission (user_Role u) p = true).
Proof.
  intros Ha Hp Hkey Hrun. unfold gate in Hrun. rewrite Ha, Hp in Hrun.
  ok_step Hrun c w2. apply Auth_Ok in Hrun0 as (-> & Hne & userID & -> & Hkey').
  ok_step Hrun v w5. unfold mret, M_ret in Hrun. injection Hrun as <- <-.
  unfold Permission in Hrun0. ok_step Hrun0 v' w6. apply guard_err_Ok in Hrun as [_ ->].
  unfold Authorize in Hrun0. ok_step Hrun0 b w7. apply guard_err_Ok in Hrun0 as [Hb _].
  apply negb_false_iff in Hb as ->.
  apply HasPermission_sound in Hrun as (u & Hu & Hperm); [|done].
  exists userID, u. by split_and!.
Qed.

End key_proofs.

(** ** The table of endpoints *)

(** The endpoints without a key: health, metrics, documentation, the endpoints that hand out
    and restore credentials, and the proxy of the gateway.  Every other endpoint needs a key, and
    all but the key, security-group, storage, event, audit and dashboard endpoints also need a
    permission. *)
Definition unpermitted_prefixes : list string :=
  ["/auth/keys"; "/security-groups"; "/storage"; "/events"; "/audit"; "/api/dashboard"].

Definition endpoint_ok (e : Endpoint) : bool :=
  if mem (ep_Path e) (ep_Path <$> public_routes) then negb (ep_Auth e)
  else ep_Auth e &&
    match ep_Permission e with
    | Some p => negb (bool_decide (p = ""))
    | None => existsb (HasPrefix (ep_Path e)) unpermitted_prefixes
    end.

Theorem endpoints_guarded : Forall (λ e, endpoint_ok e = true) endpoints.
Proof. apply Forall_forall. intros e He. apply list_elem_of_In in He. revert e He. apply forallb_forall. vm_compute. reflexivity. Qed.

(** No two endpoints of the table have the same method and path. *)
Lemma endpoints_distinct : NoDup ((λ e, (ep_Method e, ep_Path e)) <$> endpoints).
Proof. apply (bool_decide_unpack _). vm_compute. exact I. Qed.

(** The prefix of a managed role only matters through its permissions: a user whose role
    is not stored and has no defaults passes no endpoint that asks for a permission. *)
Lemma permits_unknown_role `{Env} w role p :
  (∀ k row, t_roles w !! k = Some row → role_Name row ≠ role) →
  role ≠ RoleAdmin → role ≠ RoleViewer → role ≠ RoleDeveloper → ¬ permits w role p.
Proof.
  intros Hno Ha Hv Hd [(k & row & Hk & Hn & _)|[_ Hdef]]; [by apply (Hno k row)|].
  unfold hasDefaultPermission in Hdef. by rewrite !bool_decide_false in Hdef by done.
Qed.

(** * What login, lockout, API keys and password reset guarantee *)

Section auth_proofs.
Context `{Env, Crypto}.

(** ** Lockout *)

(** An address with five counted failures is locked. *)
Definition lockout_inv (w : World) : Prop :=
  ∀ email, 5 ≤ failures email w → is_Some (m_lockouts w !! email).

Lemma failures_insert email e n (w : World) :
  failures email (w <| m_failedAttempts ::= <[e := n]> |>) =
  if decide (email = e) then n else failures email w.
Proof.
  unfold failures. cbn. case_decide as He; subst; [by rewrite lookup_insert_eq|].
  by rewrite lookup_insert_ne.
Qed.

Lemma incrementFailure_run email w :
  0 ≤ failures email w < 5 →
  incrementFailure email w = (Ok tt,
    if decide (failures email w = 4)
    then w <| m_failedAttempts ::= <[email := 5]> |> <| w_tick ::= S |>
           <| m_lockouts ::= <[email := env_now (w_tick w) + lockoutDuration]> |>
    else w <| m_failedAttempts ::= <[email := failures email w + 1]> |>).
Proof.
  intros Hn. unfold incrementFailure.
  erewrite bind_Ok_run by reflexivity. rewrite int_add_exact by (unfold int64_range; lia).
  erewrite bind_Ok_run by reflexivity. erewrite bind_Ok_run by reflexivity.
  rewrite failures_insert, decide_True by done. unfold maxFailedAttempts. case_decide as H4.
  - rewrite H4. reflexivity.
  - destruct (Z.leb_spec 5 (failures email w + 1)); [lia|reflexivity].
Qed.

(** Each section of a login keeps the invariant, whatever ran between it and the section
    before. *)
Lemma incrementFailure_inv email w r w1 :
  lockout_inv w → incrementFailure email w = (r, w1) → lockout_inv w1.
Proof.
  intros Hinv Hrun e. unfold incrementFailure in Hrun. do 3 erewrite bind_Ok_run in Hrun by reflexivity.
  rewrite failures_insert, decide_True in Hrun by done. set (n := int_add _ _) in Hrun.
  unfold maxFailedAttempts in Hrun. destruct (Z.leb_spec 5 n).
  - injection Hrun as _ <-. intros He. cbn.
    destruct (decide (e = email)) as [->|Hd]; [rewrite lookup_insert_eq; by eexists|].
    rewrite lookup_insert_ne by done. apply Hinv. unfold failures in *. cbn in He.
    by rewrite lookup_insert_ne in He.
  - injection Hrun as _ <-. rewrite failures_insert. case_decide; [lia|apply Hinv].
Qed.

Lemma clear_failures_inv email w r w1 :
  lockout_inv w → clear_failures email w = (r, w1) → lockout_inv w1.
Proof.
  intros Hinv [= <- <-] e He. apply (Hinv e). unfold failures in *. cbn in He.
  destruct (decide (e = email)) as [->|Hd]; [by rewrite lookup_delete_eq in He|by rewrite lookup_delete_ne in He].
Qed.

Lemma check_lockout_inv email w r w1 :
  lockout_inv w → check_lockout email w = (r, w1) → lockout_inv w1.
Proof.
  intros Hinv Hrun. unfold check_lockout in Hrun. erewrite bind_Ok_run in Hrun by reflexivity.
  destruct (m_lockouts w !! email) as [t|]; [|by injection Hrun as _ <-].
  erewrite bind_Ok_run in Hrun by apply Now_run. destruct (_ <? t); [by injection Hrun as _ <-|].
  injection Hrun as _ <-. intros e He. unfold failures in He. cbn in *.
  destruct (decide (e = email)) as [->|Hd]; [by rewrite lookup_delete_eq in He|].
  rewrite lookup_delete_ne in He by done. rewrite lookup_delete_ne by done. by apply (Hinv e).
Qed.

(** A wrong password is counted, and the fifth failure locks the address. *)
Lemma failed_login `{!OrderLaws} ctx email password w :
  m_lockouts w !! email = None → 0 ≤ failures email w < 5 →
  (∀ k u, t_users w !! k = Some u → user_Email u = email →
     bcrypt_compare (user_PasswordHash u) password = false) →
  ∃ w1, Login ctx email password w = (Err bad_credentials, w1) ∧ t_users w1 = t_users w ∧
    failures email w1 = failures email w + 1 ∧
    (if decide (failures email w = 4) then m_lockouts w1 !! email = Some (env_now (w_tick w1 - 1) + lockoutDuration)
     else m_lockouts w1 !! email = None).
Proof.
  intros Hno Hn Hbad. unfold Login, login_checked.
  assert (check_lockout email w = (Ok tt, w)) as Hc.
  { unfold check_lockout. erewrite bind_Ok_run by reflexivity. by rewrite Hno. }
  rewrite (bind_Ok_run _ _ _ _ _ Hc).
  destruct (attempt (user_GetByEmail email) w) as [rf wf] eqn:Hf.
  pose proof (frame_run t_users _ _ _ _ Hf) as Hfu.
  pose proof (frame_run m_failedAttempts _ _ _ _ Hf) as Hff.
  pose proof (frame_run m_lockouts _ _ _ _ Hf) as Hfl.
  assert (∀ m : M (User * string), m = (incrementFailure email ;; fail bad_credentials) →
    ∃ w1, m wf = (Err bad_credentials, w1) ∧ t_users w1 = t_users w ∧
    failures email w1 = failures email w + 1 ∧
    (if decide (failures email w = 4) then m_lockouts w1 !! email = Some (env_now (w_tick w1 - 1) + lockoutDuration)
     else m_lockouts w1 !! email = None)) as Hend.
  { intros m ->. assert (failures email wf = failures email w) as Heq by (unfold failures; by rewrite Hff).
    eexists. split; [erewrite bind_Ok_run by (apply incrementFailure_run; lia); reflexivity|].
    rewrite Heq. case_decide as H4.
    - split; [done|]. rewrite H4. split; [by unfold failures; cbn; rewrite lookup_insert_eq|].
      cbn. rewrite lookup_insert_eq. by rewrite Nat.sub_0_r.
    - split; [done|]. split; [by unfold failures at 1; cbn; rewrite lookup_insert_eq|].
      cbn. by rewrite Hfl. }
  assert (∃ f, rf = Ok f ∧ match f with inl _ => True | inr u => bcrypt_compare (user_PasswordHash u) password = false end)
    as (f & -> & Hfp).
  { apply attempt_inv in Hf as [(u & Hg & ->)|[(e & Hg & ->)|(p & Hg & ->)]]; [|by eexists|].
    - exists (inr u). split; [done|]. apply wrap_err_Ok in Hg.
      apply (db_query_row_Ok t_users) in Hg as (_ & He%bool_decide_eq_true & k & Hk). by apply (Hbad k).
    - destruct (no_panic_run _ _ _ _ Hg). }
  rewrite (bind_Ok_run _ _ _ _ _ Hf). destruct f as [e|u]; [by apply Hend|]. rewrite Hfp. by apply Hend.
Qed.

(** A locked address is refused whatever the password is, until the time is over, and
    the attempt changes nothing. *)
Lemma locked_login ctx email password w t :
  m_lockouts w !! email = Some t → env_now (w_tick w) < t →
  Login ctx email password w =
    (Err (New Unauthorized "account is locked due to too many failed attempts"), w <| w_tick ::= S |>).
Proof.
  intros Hl Ht. unfold Login. apply bind_Err_run. unfold check_lockout.
  erewrite bind_Ok_run by reflexivity. rewrite Hl. erewrite bind_Ok_run by apply Now_run.
  by destruct (Z.ltb_spec (env_now (w_tick w)) t); [|lia].
Qed.

(** Login attempts one after the other. *)
Definition try_logins (ctx : Context) (email : string) (passwords : list string) : M unit :=
  foreach passwords (λ pw, ignore (Login ctx email pw)).

Lemma wrong_passwords_lock `{!OrderLaws} ctx email n ps w r w1 :
  length ps = n → m_lockouts w !! email = None → 0 ≤ failures email w →
  failures email w + Z.of_nat n = 5 → (0 < n)%nat →
  (∀ pw k u, pw ∈ ps → t_users w !! k = Some u → user_Email u = email →
     bcrypt_compare (user_PasswordHash u) pw = false) →
  try_logins ctx email ps w = (r, w1) →
  m_lockouts w1 !! email = Some (env_now (w_tick w1 - 1) + lockoutDuration).
Proof.
  revert ps w r w1. induction n as [|n IH]; intros ps w r w1 Hlen Hno Hf Hn Hpos Hbad Hrun; [lia|].
  destruct ps as [|p ps]; [done|]. cbn in Hlen. unfold try_logins in Hrun. cbn [foreach] in Hrun.
  destruct (failed_login ctx email p w Hno) as (w2 & Hl & Hu & Hf2 & Hlk); [lia| |].
  { intros k u. apply Hbad. left. }
  assert (ignore (Login ctx email p) w = (Ok tt, w2)) as Hig.
  { unfold ignore. by rewrite (bind_Ok_run _ _ _ _ _ (attempt_Err_run _ _ _ _ Hl)). }
  rewrite (bind_Ok_run _ _ _ _ _ Hig) in Hrun. case_decide as H4.
  - assert (n = 0%nat) as -> by lia. destruct ps; [|done]. cbn in Hrun. injection Hrun as _ <-. done.
  - apply (IH ps w2 r w1); [lia|done|lia|lia|lia| |done].
    intros pw k u Hpw. rewrite Hu. apply Hbad. by right.
Qed.

(** C14: After five wrong passwords in a row for an address without failures or lockout, the
    right one is refused too for a quarter of an hour from the fifth attempt. *)
Theorem five_failures_lock `{!OrderLaws} ctx email passwords w r w1 :
  m_lockouts w !! email = None → failures email w = 0 → length passwords = 5%nat →
  (∀ pw k u, pw ∈ passwords → t_users w !! k = Some u → user_Email u = email →
     bcrypt_compare (user_PasswordHash u) pw = false) →
  try_logins ctx email passwords w = (r, w1) →
  ∃ t, m_lockouts w1 !! email = Some (t + lockoutDuration) ∧ t = env_now (w_tick w1 - 1) ∧
    ∀ w2 password, m_lockouts w2 = m_lockouts w1 → env_now (w_tick w2) < t + lockoutDuration →
      (Login ctx email password w2).1 =
        Err (New Unauthorized "account is locked due to too many failed attempts").
Proof.
  intros Hno H0' Hlen Hbad Hrun.
  apply (wrong_passwords_lock ctx email 5) in Hrun; [|done|done|lia|lia|lia|done].
  exists (env_now (w_tick w1 - 1)). split_and!; [done|done|]. intros w2 pw Hw2 Ht.
  rewrite (locked_login _ _ _ _ (env_now (w_tick w1 - 1) + lockoutDuration)); [done| |done].
  by rewrite Hw2.
Qed.

(** ** The key of a login *)

Lemma CreateKey_Ok userID name w key w1 :
  CreateKey userID name w = (Ok key, w1) →
  ak_UserID key = userID ∧ t_api_keys w !! ak_ID key = None ∧
  (∀ k r, t_api_keys w !! k = Some r → ak_Key r ≠ ak_Key key) ∧
  t_api_keys w1 = <[ak_ID key := key]> (t_api_keys w) ∧ HasPrefix (ak_Key key) key_prefix = true.
Proof.
  intros Hrun. unfold CreateKey in Hrun.
  ok_step Hrun b w2. apply (frame_run t_api_keys) in Hrun0; [|apply _].
  ok_step Hrun kid w3. apply (frame_run t_api_keys) in Hrun1; [|apply _].
  ok_step Hrun cr w4. apply (frame_run t_api_keys) in Hrun2; [|apply _]. cbn zeta in Hrun.
  ok_step Hrun u w5. apply wrap_err_Ok, db_exec_Ok in Hrun3. unfold sql_insert in Hrun3. cbn in Hrun3.
  destruct (t_api_keys w4 !! kid) eqn:Hl; [done|]. destruct (_ && no_row _ _) eqn:Hok; [|done].
  injection Hrun3 as _ <-. apply andb_true_iff in Hok as [_ Hno]. rewrite no_row_true in Hno.
  apply ignore_bind_inv in Hrun as (? & w6 & H6 & Hrun); [|apply _].
  apply (frame_run t_api_keys) in H6; [|apply _]. unfold mret, M_ret in Hrun. injection Hrun as <- <-.
  assert (t_api_keys w4 = t_api_keys w) as Hf by congruence. rewrite Hf in *. cbn in H6 |- *.
  split_and!; [done|done| |by rewrite H6, Hf|by rewrite !bool_decide_true by done].
  intros k r Hk. by eapply bool_decide_eq_false, Hno.
Qed.

Lemma keys_unique_insert w key w1 :
  keys_unique w → t_api_keys w !! ak_ID key = None →
  (∀ k r, t_api_keys w !! k = Some r → ak_Key r ≠ ak_Key key) →
  t_api_keys w1 = <[ak_ID key := key]> (t_api_keys w) → keys_unique w1.
Proof.
  intros Hu Hl Hno Heq k1 k2 r1 r2. rewrite Heq.
  intros [[<- <-]|[_ Hk1]]%lookup_insert_Some [[<- <-]|[_ Hk2]]%lookup_insert_Some Hk; [done|..].
  - by destruct (Hno k2 r2 Hk2).
  - by destruct (Hno k1 r1 Hk1).
  - by eapply Hu.
Qed.

(** C24: When no statement fails, a login with the right password gives a key that opens the
    protected endpoints as the user, and forgets the failures of the address. *)
Theorem Login_key_opens `{!OrderLaws, !NoFaults} ctx email password w user key w1 :
  keys_unique w → Login ctx email password w = (Ok (user, key), w1) →
  user_Email user = email ∧ bcrypt_compare (user_PasswordHash user) password = true ∧
  (∃ k, t_users w !! k = Some user) ∧
  failures email w1 = 0 ∧ m_lockouts w1 !! email = None ∧ keys_unique w1 ∧
  (∀ c, ∃ w2, Auth key c w1 = (Ok (Some (user_ID user)), w2)).
Proof.
  intros Hu Hrun. unfold Login in Hrun. ok_step Hrun u0 w2. unfold login_checked in Hrun.
  assert (m_lockouts w2 !! email = None ∧ t_users w2 = t_users w ∧ t_api_keys w2 = t_api_keys w) as (Hno & Hus & Hks).
  { split_and!; [|by apply (frame_run t_users) in Hrun0; [|apply _]
                 |by apply (frame_run t_api_keys) in Hrun0; [|apply _]].
    unfold check_lockout in Hrun0. erewrite bind_Ok_run in Hrun0 by reflexivity.
    destruct (m_lockouts w !! email) eqn:Hl; [|by injection Hrun0 as _ <-].
    erewrite bind_Ok_run in Hrun0 by apply Now_run. destruct (_ <? _); [done|].
    injection Hrun0 as _ <-. cbn. by rewrite lookup_delete_eq. }
  ok_step Hrun found w3.
  apply attempt_inv in Hrun1 as [(u & Hg & Hfo)|[(e & Hg & Hfo)|(p & _ & Hp)]]; [|..|done];
    injection Hfo as ->.
  2:{ ok_step Hrun x w4. done. }
  apply (frame_run t_api_keys) in Hg as Hgk; [|apply _].
  apply (frame_run m_lockouts) in Hg as Hgl; [|apply _].
  apply wrap_err_Ok, (db_query_row_Ok t_users) in Hg as (_ & He%bool_decide_eq_true & k & Hk).
  rewrite Hus in Hk. destruct (bcrypt_compare _ _) eqn:Hcmp; [|ok_step Hrun x w4; done].
  erewrite bind_Ok_run in Hrun by reflexivity. ok_step Hrun ak w4. apply wrap_err_Ok in Hrun1.
  apply (frame_run m_failedAttempts) in Hrun1 as Hff; [|apply _].
  apply (frame_run m_lockouts) in Hrun1 as Hfl; [|apply _].
  apply CreateKey_Ok in Hrun1 as (Huid & Hl & Hnokey & Hins & Hpre).
  cbn in Hl, Hnokey, Hins, Hff, Hfl. rewrite Hgk, Hks in Hl, Hnokey, Hins.
  apply ignore_bind_inv in Hrun as (? & w5 & H5 & Hrun); [|apply _].
  apply (frame_run t_api_keys) in H5 as H5k; [|apply _].
  apply (frame_run m_failedAttempts) in H5 as H5f; [|apply _].
  apply (frame_run m_lockouts) in H5; [|apply _].
  unfold mret, M_ret in Hrun. injection Hrun as <- <- <-.
  assert (keys_unique w5) as Hu5 by (eapply (keys_unique_insert w); [done..|congruence]).
  split_and!; [done|done|by exists k|by unfold failures; rewrite H5f, Hff, lookup_delete_eq
    |by rewrite H5, Hfl, Hgl|done|].
  intros c. unfold Auth, ValidateAPIKey. rewrite bool_decide_false.
  2:{ intros Hnil. rewrite Hnil in Hpre. done. }
  change (guard_err _ _) with (mret () : M unit). eexists. rewrite mret_bind.
  erewrite bind_Ok_run; [|apply wrap_err_Ok_run, (GetAPIKeyByKey_found _ (ak_ID ak)); [done|]].
  - by rewrite Huid.
  - by rewrite H5k, Hins, lookup_insert_eq.
Qed.

(** ** Password reset *)

(** The UNIQUE constraint of [password_reset_tokens]. *)
Definition tokens_unique (w : World) : Prop :=
  ∀ k1 k2 r1 r2, t_reset_tokens w !! k1 = Some r1 → t_reset_tokens w !! k2 = Some r2 →
    prt_TokenHash r1 = prt_TokenHash r2 → k1 = k2.

Lemma GetByTokenHash_Ok `{!OrderLaws} h w t w1 :
  keyed prt_ID (t_reset_tokens w) → GetByTokenHash h w = (Ok t, w1) →
  prt_TokenHash t = h ∧ t_reset_tokens w !! prt_ID t = Some t.
Proof.
  intros Hkey Hrun. apply wrap_err_Ok, (db_query_row_Ok t_reset_tokens) in Hrun
    as (_ & He%bool_decide_eq_true & k & Hk). by rewrite (Hkey _ _ Hk).
Qed.

Lemma GetByTokenHash_found `{!OrderLaws, !NoFaults} w k t :
  tokens_unique w → t_reset_tokens w !! k = Some t →
  GetByTokenHash (prt_TokenHash t) w = (Ok t, w <| w_tick ::= S |>).
Proof.
  intros Hu Hk. apply wrap_err_Ok_run.
  apply (db_query_row_unique t_reset_tokens _ k); [apply no_faults|done|by apply bool_decide_eq_true|].
  intros k' r' Hk' Hr'%bool_decide_eq_true. rewrite (Hu k' k r' t Hk' Hk Hr') in Hk'. congruence.
Qed.

(** The row an update of a user leaves, when the user was read from the table. *)
Lemma user_Update_Ok u u0 w r w1 :
  t_users w !! user_ID u = Some u0 → user_CreatedAt u = user_CreatedAt u0 → user_ID u0 = user_ID u →
  user_Update u w = (Ok r, w1) → t_users w1 = <[user_ID u := u]> (t_users w).
Proof.
  intros Hu Hc Hid Hrun. unfold user_Update in Hrun. ok_step Hrun n w2.
  unfold mret, M_ret in Hrun. injection Hrun as _ <-.
  apply wrap_err_Ok, db_exec_Ok in Hrun0. unfold sql_update in Hrun0. cbn in Hrun0. rewrite Hu in Hrun0.
  destruct (no_row _ _); [|done]. cbn in Hrun0. injection Hrun0 as _ <-. cbn.
  destruct u, u0. cbn in *. by subst.
Qed.

Lemma MarkAsUsed_Ok `{!UUIDLaws} w t r w1 :
  t_reset_tokens w !! prt_ID t = Some t → MarkAsUsed (uuid_string (prt_ID t)) w = (Ok r, w1) →
  t_reset_tokens w1 = <[prt_ID t := t <| prt_Used := true |>]> (t_reset_tokens w).
Proof.
  intros Ht Hrun. unfold MarkAsUsed in Hrun. ok_step Hrun n w2.
  unfold mret, M_ret in Hrun. injection Hrun as _ <-. apply db_exec_Ok in Hrun0.
  rewrite uuid_parse_string in Hrun0. unfold sql_update in Hrun0. cbn in Hrun0. rewrite Ht in Hrun0.
  cbn in Hrun0. by injection Hrun0 as _ <-.
Qed.

(** C23: When no statement fails, a reset sets the password of the user the token was issued to,
    of nobody else, and the token opens nothing a second time. *)
Theorem ResetPassword_effect `{!UUIDLaws, !OrderLaws, !NoFaults, !CryptoLaws} token pw w w1 :
  keyed prt_ID (t_reset_tokens w) → keyed user_ID (t_users w) → tokens_unique w →
  ResetPassword token pw w = (Ok tt, w1) →
  ∃ t u h, prt_TokenHash t = token_hash token ∧ prt_Used t = false ∧
    t_reset_tokens w !! prt_ID t = Some t ∧
    t_users w !! prt_UserID t = Some u ∧ user_ID u = prt_UserID t ∧ bcrypt_compare h pw = true ∧
    t_users w1 = <[user_ID u := u <| user_PasswordHash := h |>]> (t_users w) ∧
    t_reset_tokens w1 = <[prt_ID t := t <| prt_Used := true |>]> (t_reset_tokens w) ∧
    ∀ pw2 w2, t_reset_tokens w2 = t_reset_tokens w1 →
      ResetPassword token pw2 w2 = (Err (Errorf "token already used"), w2 <| w_tick ::= S |>).
Proof.
  intros Hkey Hku Huniq Hrun. unfold ResetPassword in Hrun.
  ok_step Hrun t w2. apply (frame_run t_users) in Hrun0 as Hu2; [|apply _].
  apply (frame_run t_reset_tokens) in Hrun0 as Ht2; [|apply _].
  apply wrap_err_Ok, GetByTokenHash_Ok in Hrun0 as (Hhash & Ht); [|done].
  ok_step Hrun g w3. apply guard_err_Ok in Hrun0 as [Hused ->].
  ok_step Hrun now w4. rewrite Now_run in Hrun0. injection Hrun0 as <- <-.
  ok_step Hrun g2 w5. apply guard_err_Ok in Hrun0 as [_ ->].
  ok_step Hrun h w6. apply (frame_run t_users) in Hrun0 as Hu6; [|apply _].
  apply (frame_run t_reset_tokens) in Hrun0 as Ht6; [|apply _].
  assert (bcrypt_compare h pw = true) as Hcmp.
  { unfold GenerateFromPassword in Hrun0. ok_step Hrun0 tk w7. destruct (Nat.ltb_spec 72 (String.length pw)); [done|].
    injection Hrun0 as <- _. by apply bcrypt_compare_hash. }
  ok_step Hrun u w7. apply (frame_run t_reset_tokens) in Hrun1 as Ht7; [|apply _].
  apply wrap_err_Ok, (db_query_row_pk_Ok t_users) in Hrun1 as (Hw7 & Hu & _).
  assert (t_users w7 = t_users w6) as Hu7 by by rewrite Hw7.
  assert (t_users w6 = t_users w) as Hu6w by (rewrite Hu6; cbn; done). rewrite Hu6w in Hu, Hu7.
  pose proof (Hku _ _ Hu) as Hid.
  ok_step Hrun x w8. apply (frame_run t_reset_tokens) in Hrun1 as Ht8; [|apply _].
  apply (user_Update_Ok _ u) in Hrun1; [|cbn; by rewrite Hu7, Hid|done|done]. cbn in Hrun1. rewrite Hu7 in Hrun1.
  assert (t_reset_tokens w8 = t_reset_tokens w) as Ht8w by (rewrite Ht8, Ht7, Ht6; cbn; done).
  apply (frame_run t_users) in Hrun as Hu9; [|apply _].
  apply MarkAsUsed_Ok in Hrun; [|by rewrite Ht8w]. rewrite Ht8w in Hrun.
  exists t, u, h. split_and!; [done|done|done|done|done|done|congruence|done|].
  intros pw2 w9 H9. unfold ResetPassword. rewrite <- Hhash.
  change (prt_TokenHash t) with (prt_TokenHash (t <| prt_Used := true |>)).
  erewrite bind_Ok_run; [|apply wrap_err_Ok_run, (GetByTokenHash_found w9 (prt_ID t))].
  - cbn. by apply bind_Err_run.
  - intros k1 k2 r1 r2. rewrite H9, Hrun. intros [[<- <-]|[? Hk1]]%lookup_insert_Some [[<- <-]|[? Hk2]]%lookup_insert_Some;
      [done|by apply (Huniq _ _ t r2)|by apply (Huniq _ _ r1 t)|by apply Huniq].
  - by rewrite H9, Hrun, lookup_insert_eq.
Qed.

End auth_proofs.
