(* ===== verification/StorageProofs.v ===== *)
(** * What the object store guarantees, and where it fails *)
From S2P Require Import Prelude GoStd Encoding Net Errors Domain DomainData World Logic Sql InstanceRepo.
From S2P Require Import Storage.

Section storage_proofs.
Context `{Env} (basePath : string).

(** ** The file store *)

Lemma object_path_write bucket key :
  basePath ≠ "" → Join [Join [basePath; Clean bucket]; Clean key] = object_path basePath bucket key.
Proof. intros Hb. apply Join_Join; [done|apply Clean_nonempty..]. Qed.

Lemma store_Write_Ok bucket key r w n w1 :
  basePath ≠ "" → store_Write basePath bucket key r w = (Ok n, w1) →
  HasPrefix (object_path basePath bucket key) (Clean basePath) = true ∧
  n = Z.of_nat (String.length (rd_data r)) ∧
  w_files w1 = <[object_path basePath bucket key := rd_data r]> (w_files w).
Proof.
  intros Hb Hrun. unfold store_Write in Hrun. rewrite (object_path_write _ _ Hb) in Hrun.
  ok_step Hrun u w2. apply guard_err_Ok in Hrun0 as [Hc ->].
  apply negb_false_iff in Hc. ok_step Hrun u1 w3. apply (frame_run w_files) in Hrun0; [|apply _].
  ok_step Hrun u2 w4. apply (frame_run w_files) in Hrun1; [|apply _].
  ok_step Hrun u3 w5. unfold modifies in Hrun2. injection Hrun2 as _ <-.
  destruct (rd_err r); [done|]. unfold mret, M_ret in Hrun. injection Hrun as <- <-.
  split_and!; [done..|]. cbn. by rewrite Hrun1, Hrun0.
Qed.

Lemma store_Read_run bucket key content w :
  HasPrefix (object_path basePath bucket key) (Clean basePath) = true →
  w_files w !! object_path basePath bucket key = Some content →
  env_respond (w_calls w) (OpenFile (object_path basePath bucket key)) = inr tt →
  store_Read basePath bucket key w =
    (Ok content, w <| w_calls ::= cons (OpenFile (object_path basePath bucket key)) |>).
Proof.
  intros Hc Hf Hr. unfold store_Read, check_path. rewrite Hc. cbn.
  unfold mbind, M_bind, mret, M_ret, gets. rewrite Hf. cbn. unfold wrap_err, perform. by rewrite Hr.
Qed.

(** ** The metadata *)

(** The values an object row takes from the struct that is saved. *)
Definition saved_as (obj r : Object) : Prop :=
  obj_UserID r = obj_UserID obj ∧ obj_SizeBytes r = obj_SizeBytes obj ∧
  obj_CreatedAt r = obj_CreatedAt obj ∧ obj_DeletedAt r = None.

Lemma same_object_true bucket key r :
  same_object bucket key r = true ↔ obj_Bucket r = bucket ∧ obj_Key r = key.
Proof. unfold same_object. by rewrite andb_true_iff, !bool_decide_eq_true. Qed.

Lemma save_meta_rows obj w u w1 :
  obj_DeletedAt obj = None → save_meta obj w = Some (u, w1) →
  (∃ k r, t_objects w1 !! k = Some r ∧ same_object (obj_Bucket obj) (obj_Key obj) r = true) ∧
  (∀ k r, t_objects w1 !! k = Some r → same_object (obj_Bucket obj) (obj_Key obj) r = true →
          saved_as obj r) ∧
  (∀ k r, t_objects w !! k = Some r → same_object (obj_Bucket obj) (obj_Key obj) r = false →
          t_objects w1 !! k = Some r).
Proof.
  intros Hdel Hs. unfold save_meta in Hs. destruct (user_fk _ _); [|done].
  assert (same_object (obj_Bucket obj) (obj_Key obj) obj = true) as Hself by by apply same_object_true.
  destruct (no_row _ _) eqn:Hno.
  - rewrite no_row_true in Hno. unfold sql_insert in Hs.
    destruct (t_objects w !! obj_ID obj) eqn:Hfresh; [done|]. destruct (no_row _ _); [|done].
    injection Hs as _ <-. cbn. split_and!.
    + exists (obj_ID obj), obj. by rewrite lookup_insert_eq.
    + intros k r [[<- <-]|[_ Hk]]%lookup_insert_Some Hr; [done|]. by rewrite (Hno _ _ Hk) in Hr.
    + intros k r Hk _. rewrite lookup_insert_ne; [done|]. congruence.
  - injection Hs as _ <-. cbn. split_and!.
    + apply not_true_iff_false in Hno. rewrite no_row_true in Hno.
      destruct (decide (map_Forall (λ _ r, same_object (obj_Bucket obj) (obj_Key obj) r = false)
                  (t_objects w))) as [Hall|Hex]; [by destruct Hno|].
      apply map_not_Forall in Hex as (k & r & Hk & Hr); [|apply _].
      apply not_false_iff_true in Hr. eexists k, _. rewrite lookup_fmap, Hk. cbn. rewrite Hr.
      split; [done|]. apply same_object_true in Hr. by apply same_object_true.
    + intros k r Hk Hr. rewrite lookup_fmap in Hk.
      destruct (t_objects w !! k) as [r0|]; [|done]. cbn in Hk. injection Hk as <-.
      destruct (same_object _ _ r0) eqn:Hr0; [done|]. congruence.
    + intros k r Hk Hr. rewrite lookup_fmap, Hk. cbn. by rewrite Hr.
Qed.

Lemma Upload_Ok ctx bucket key data w obj w1 :
  basePath ≠ "" → Upload basePath ctx bucket key (MkReader data None) w = (Ok obj, w1) →
  let path := object_path basePath bucket key in
  HasPrefix path (Clean basePath) = true ∧ w_files w1 = <[path := data]> (w_files w) ∧
  obj_UserID obj = UserIDFromContext ctx ∧ obj_SizeBytes obj = Z.of_nat (String.length data) ∧
  (∃ k r, t_objects w1 !! k = Some r ∧ same_object bucket key r = true) ∧
  (∀ k r, t_objects w1 !! k = Some r → same_object bucket key r = true → saved_as obj r) ∧
  (∀ k r, t_objects w !! k = Some r → same_object bucket key r = false → t_objects w1 !! k = Some r).
Proof.
  intros Hb Hrun. cbn zeta. unfold Upload in Hrun. ok_step Hrun n w2.
  apply (frame_run t_objects) in Hrun0 as Hfo; [|apply _].
  apply store_Write_Ok in Hrun0 as (Hc & -> & Hf); [|done].
  apply total_bind_inv in Hrun as (id & w3 & H3 & Hrun); [|apply _].
  apply total_bind_inv in Hrun as (cr & w4 & H4 & Hrun); [|apply _].
  apply (frame_run t_objects) in H3 as H3o, H4 as H4o; [|apply _..].
  apply (frame_run w_files) in H3, H4; try apply _. cbn zeta in Hrun.
  set (o := MkObject _ _ _ _ _ _ _ _ _) in Hrun.
  ok_step Hrun s w5. apply attempt_inv in Hrun0 as [(u & Hs & [= ->])|[(e & Hs & [= ->])|(p & _ & Hp)]];
    [|ok_step Hrun v w6; done|done].
  apply (frame_run w_files) in Hs as Hsf; [|apply _]. apply wrap_err_Ok, db_exec_Ok in Hs.
  apply ignore_bind_inv in Hrun as (? & w6 & H6 & Hrun); [|apply _].
  apply (frame_run w_files) in H6 as H6f; [|apply _].
  apply (frame_run t_objects) in H6; [|apply _].
  unfold mret, M_ret in Hrun. injection Hrun as <- <-.
  apply save_meta_rows in Hs as (Hex & Hall & Hoth); [|done].
  split_and!; [done|by rewrite H6f, Hsf, H4, H3, Hf|done..|by rewrite H6|by rewrite H6|].
  rewrite H6. intros k r Hk. apply Hoth. cbn. by rewrite H4o, H3o, Hfo.
Qed.

Lemma GetMeta_missing `{!OrderLaws, !NoFaults} ctx bucket key w :
  (∀ k r, t_objects w !! k = Some r → same_object bucket key r = true →
          live_of (UserIDFromContext ctx) r = false) →
  GetMeta ctx bucket key w = (Err (New ObjectNotFound "object metadata not found"), w <| w_tick ::= S |>).
Proof.
  intros Hnone. unfold GetMeta. apply norows_run.
  apply (db_query_row_none t_objects); [apply no_faults|]. intros k r Hk. destruct (same_object bucket key r) eqn:Hs; [|done]. by apply (Hnone k r).
Qed.

(** C21: When no statement fails, the one who uploaded an object last is the one who can download
    it, and gets the content of that upload; another user, who may have owned the object, is told
    that it does not exist. *)
Theorem Upload_Download `{!OrderLaws, !NoFaults} ctx bucket key data w obj w1 :
  basePath ≠ "" → Upload basePath ctx bucket key (MkReader data None) w = (Ok obj, w1) →
  env_respond (w_calls w1) (OpenFile (object_path basePath bucket key)) = inr tt →
  (∃ meta w2, Download basePath ctx bucket key w1 = (Ok (data, meta), w2) ∧
     obj_Bucket meta = bucket ∧ obj_Key meta = key ∧ obj_UserID meta = UserIDFromContext ctx ∧
     obj_SizeBytes meta = Z.of_nat (String.length data)) ∧
  (∀ ctx', UserIDFromContext ctx' ≠ UserIDFromContext ctx →
     (Download basePath ctx' bucket key w1).1 = Err (New ObjectNotFound "object metadata not found")).
Proof.
  intros Hb Hrun Hopen.
  apply Upload_Ok in Hrun as (Hc & Hf & Hu & Hsz & (k & r & Hk & Hr) & Hall & _); [|done]. split.
  - destruct (Hall k r Hk Hr) as (Hur & _ & _ & Hd).
    destruct (db_query_row_some t_objects
      (λ r, same_object bucket key r && live_of (UserIDFromContext ctx) r) k r w1)
      as (k' & r' & Hk' & HP & Hq); [apply no_faults|done| |].
    { rewrite Hr. unfold live_of, of_user. rewrite Hd. cbn. apply bool_decide_eq_true. congruence. }
    apply andb_true_iff in HP as [Hr' _]. destruct (Hall k' r' Hk' Hr') as (? & ? & _).
    apply same_object_true in Hr' as [? ?].
    unfold Download, GetMeta. rewrite (bind_Ok_run _ _ _ _ _ (wrap_err_Ok_run _ _ _ _ _ Hq)).
    erewrite bind_Ok_run; [|by apply store_Read_run; [|cbn; rewrite Hf; apply lookup_insert_eq|]].
    eexists r', _. split; [reflexivity|]. split_and!; congruence.
  - intros ctx' Hne. unfold Download. erewrite bind_Err_run; [done|]. apply GetMeta_missing.
    intros k' r' Hk' Hr'. destruct (Hall k' r' Hk' Hr') as (Hur & _).
    unfold live_of, of_user. rewrite bool_decide_false with (P := obj_UserID r' = _) by congruence.
    by rewrite andb_false_r.
Qed.

(** A deleted object cannot be downloaded or deleted again by anyone who could before,
    and its file stays. *)
Theorem DeleteObject_effect `{!OrderLaws, !NoFaults} ctx bucket key w u w1 :
  DeleteObject ctx bucket key w = (Ok u, w1) →
  (Download basePath ctx bucket key w1).1 = Err (New ObjectNotFound "object metadata not found") ∧
  (DeleteObject ctx bucket key w1).1 = Err (New ObjectNotFound "object not found or already deleted") ∧
  w_files w1 = w_files w.
Proof.
  intros Hrun. apply (frame_run w_files) in Hrun as Hf; [|apply _].
  assert (∀ k r, t_objects w1 !! k = Some r → same_object bucket key r = true →
          live_of (UserIDFromContext ctx) r = false) as Hnone.
  { unfold DeleteObject in Hrun. ok_step Hrun v w2.
    apply (frame_run t_objects) in Hrun as ->; [|apply _]. unfold SoftDelete in Hrun0.
    apply total_bind_inv in Hrun0 as (now & w3 & _ & Hrun0); [|apply _].
    ok_step Hrun0 n w4. apply wrap_err_Ok, db_exec_Ok in Hrun. injection Hrun as <- <-.
    apply guard_err_Ok in Hrun0 as [_ ->]. intros k r Hk Hr. cbn in Hk. rewrite lookup_fmap in Hk.
    destruct (t_objects w3 !! k) as [r0|]; [|done]. cbn in Hk. injection Hk as <-.
    destruct (same_object bucket key r0 && live_of _ r0) eqn:Hr0; [done|]. by rewrite Hr in Hr0. }
  split_and!; [| |done].
  - unfold Download. by rewrite (bind_Err_run _ _ _ _ _ (GetMeta_missing _ _ _ _ Hnone)).
  - unfold DeleteObject, SoftDelete. erewrite bind_Err_run; [done|].
    erewrite bind_Ok_run by apply Now_run. erewrite bind_Ok_run by
      (apply wrap_err_Ok_run; rewrite db_exec_run by apply no_faults; reflexivity).
    cbn. replace (filter _ (t_objects w1)) with (∅ : gmap uuid Object); [done|].
    apply map_eq. intros k. rewrite lookup_empty. symmetry. apply map_lookup_filter_None. right.
    intros r Hk HP. cbn in HP. apply andb_true_iff in HP as [Hs Hl]. by rewrite (Hnone k r Hk Hs) in Hl.
Qed.

(** ** Paths that leave their bucket *)

Definition cross_key (bucket key : string) : string := "../" +:+ bucket +:+ "/" +:+ key.

Lemma plain_not_rooted e s : plain_elem e → is_rooted (e +:+ s) = false.
Proof.
  intros (Hne & _ & _ & Hfree). rewrite is_rooted_app by done.
  destruct e as [|a e]; [done|]. cbn in *. unfold is_rooted. cbn.
  apply andb_true_iff in Hfree as [Ha%negb_true_iff _]. unfold slash in Ha. by rewrite Ha.
Qed.

Lemma split_plain l : l ≠ [] → Forall plain_elem l → split_on slash (join "/" l) = l.
Proof.
  intros Hne Hl. apply split_join_elems; [done|]. eapply Forall_impl; [exact Hl|].
  unfold plain_elem. naive_solver.
Qed.

Lemma Clean_plain e : plain_elem e → Clean e = e.
Proof.
  intros He. pose proof (plain_not_rooted e "" He) as Hr. rewrite str_app_nil_r in Hr.
  unfold Clean, clean_elems. rewrite Hr, split_on_free by apply He.
  rewrite push_plain by by apply Forall_singleton. cbn. by rewrite bool_decide_false by apply He.
Qed.

Lemma push_plain_elem r acc e : plain_elem e → push_elem r acc e = e :: acc.
Proof. intros He. apply (push_plain r [e] acc). by apply Forall_singleton. Qed.

Lemma plain_pair b k : plain_elem b → plain_elem k → Forall plain_elem [b; k].
Proof. intros Hb Hk. apply Forall_cons. split; [done|]. by apply Forall_singleton. Qed.

Lemma split_pair b k :
  plain_elem b → plain_elem k → split_on slash (b +:+ "/" +:+ k) = [b; k].
Proof. intros Hb Hk. apply (split_plain [b; k]); [done|by apply plain_pair]. Qed.

Lemma split_dots_plain b k :
  plain_elem b → plain_elem k → split_on slash (cross_key b k) = [".."; b; k].
Proof.
  intros Hb Hk. unfold cross_key. change ("../" +:+ ?x) with (".." +:+ String slash x).
  by rewrite split_on_app, split_pair.
Qed.

Lemma Clean_cross b k : plain_elem b → plain_elem k → Clean (cross_key b k) = cross_key b k.
Proof.
  intros Hb Hk. unfold Clean, clean_elems. change (is_rooted (cross_key b k)) with false.
  rewrite split_dots_plain by done. cbn [foldl].
  change (push_elem false [] "..") with [".."].
  change (push_elem false (push_elem false [".."] b) k) with (foldl (push_elem false) [".."] [b; k]).
  by rewrite push_plain by by apply plain_pair.
Qed.

(** The key ["../b/k"] of one bucket names the file of the key ["k"] of the bucket ["b"]. *)
Lemma cross_path b1 b2 k :
  basePath ≠ "" → plain_elem b1 → plain_elem b2 → plain_elem k →
  object_path basePath b1 (cross_key b2 k) = object_path basePath b2 k.
Proof.
  intros Hb H1 H2 Hk. unfold object_path. rewrite Clean_cross, !Clean_plain by done.
  assert (∀ e, plain_elem e → e ≠ "") as Hne by (unfold plain_elem; naive_solver).
  rewrite !Join_nonempty by (repeat constructor; auto). cbn [join].
  assert (∀ l, l ≠ "" → clean_elems (basePath +:+ "/" +:+ l) =
    reverse (foldl (push_elem (is_rooted basePath)) [] (split_on slash basePath ++ split_on slash l))) as Hc.
  { intros l _. unfold clean_elems. rewrite is_rooted_app by done.
    change ("/" +:+ l) with (String slash l). by rewrite split_on_app. }
  assert (clean_elems (basePath +:+ "/" +:+ b1 +:+ "/" +:+ cross_key b2 k) =
          clean_elems (basePath +:+ "/" +:+ b2 +:+ "/" +:+ k)) as He.
  { rewrite !Hc by (intros Hnil; by destruct b1, b2). f_equal.
    change (b1 +:+ "/" +:+ ?x) with (b1 +:+ String slash x). rewrite split_on_app.
    rewrite split_dots_plain by done. rewrite (split_on_free _ b1) by apply H1.
    rewrite split_pair by done.
    rewrite !foldl_app. cbn [foldl app]. f_equal. f_equal.
    rewrite (push_plain_elem _ _ b1) by done. unfold push_elem at 1. rewrite bool_decide_false by naive_solver.
    rewrite bool_decide_true by done. by rewrite bool_decide_false by apply H1. }
  unfold Clean. rewrite He, !is_rooted_app by done. done.
Qed.

(** A user who uploads to a key that climbs out of the bucket replaces the content of the
    object of another user, who downloads it with his own metadata. *)
Theorem cross_bucket_overwrite `{!OrderLaws, !NoFaults} alice_ctx bob_ctx b1 b2 k data w obj w1 id row :
  basePath ≠ "" → plain_elem b1 → plain_elem b2 → plain_elem k → b1 ≠ b2 →
  t_objects w !! id = Some row → same_object b2 k row = true →
  live_of (UserIDFromContext bob_ctx) row = true →
  Upload basePath alice_ctx b1 (cross_key b2 k) (MkReader data None) w = (Ok obj, w1) →
  env_respond (w_calls w1) (OpenFile (object_path basePath b2 k)) = inr tt →
  ∃ meta w2, Download basePath bob_ctx b2 k w1 = (Ok (data, meta), w2) ∧
    live_of (UserIDFromContext bob_ctx) meta = true.
Proof.
  intros Hb Hp1 Hp2 Hk Hne Hrow Hsame Hlive Hrun Hopen.
  apply Upload_Ok in Hrun as (Hc & Hf & _ & _ & _ & _ & Hoth); [|done].
  rewrite cross_path in Hc, Hf by done.
  assert (t_objects w1 !! id = Some row) as Hrow1.
  { apply Hoth; [done|]. apply same_object_true in Hsame as [Hbk _].
    apply not_true_iff_false. rewrite same_object_true. naive_solver. }
  destruct (db_query_row_some t_objects
    (λ r, same_object b2 k r && live_of (UserIDFromContext bob_ctx) r) id row w1)
    as (k' & r' & Hk' & [_ HP]%andb_true_iff & Hq); [apply no_faults|done|by rewrite Hsame|].
  unfold Download, GetMeta. rewrite (bind_Ok_run _ _ _ _ _ (wrap_err_Ok_run _ _ _ _ _ Hq)).
  erewrite bind_Ok_run; [|by apply store_Read_run; [|cbn; rewrite Hf; apply lookup_insert_eq|]].
  by eexists r', _.
Qed.

End storage_proofs.
