(* ===== verification/SecretProofs.v ===== *)
(** * Secrets are stored sealed and come back as they were given *)
From S2P Require Import Prelude GoStd Encoding Net Errors Domain DomainData World Logic Sql Secret.

Section secret_proofs.
Context `{Env, Crypto, !CryptoLaws} (masterKey : list N).

(** The stored value is a ciphertext under the key of the row's owner. *)
Definition sealed_row (s : Secret) : Prop :=
  ∃ plaintext, sealed (getDerivedKey masterKey (sec_UserID s)) plaintext (sec_EncryptedValue s).

Definition sealed_table (t : gmap uuid Secret) : Prop := ∀ k s, t !! k = Some s → sealed_row s.

Lemma getDerivedKey_length u : length (getDerivedKey masterKey u) = 32%nat.
Proof. apply DeriveKey_length. Qed.

(** ** Outcomes *)

Lemma secret_GetByID_Ok `{!OrderLaws} ctx id w s w1 :
  secret_GetByID ctx id w = (Ok s, w1) →
  w1 = w <| w_tick ::= S |> ∧ t_secrets w !! id = Some s ∧ sec_UserID s = UserIDFromContext ctx.
Proof.
  intros Hrun. apply wrap_err_Ok in Hrun. apply (db_query_row_pk_Ok t_secrets) in Hrun as (-> & Hs & Hu).
  by apply bool_decide_eq_true in Hu.
Qed.

Lemma secret_Update_outcome s w r w1 :
  secret_Update s w = (r, w1) →
  t_secrets w1 = t_secrets w ∨
  ∃ row now, t_secrets w !! sec_ID s = Some row ∧ sec_UserID row = sec_UserID s ∧
    t_secrets w1 = <[sec_ID s := row <| sec_EncryptedValue := sec_EncryptedValue s |>
      <| sec_Description := sec_Description s |> <| sec_UpdatedAt := now |>
      <| sec_LastAccessedAt := sec_LastAccessedAt s |>]> (t_secrets w).
Proof.
  intros Hrun. unfold secret_Update in Hrun.
  apply total_bind_inv in Hrun as (now & w2 & H2 & Hrun); [|apply _].
  apply (frame_run t_secrets) in H2; [|apply _].
  assert (∀ r w3, wrap_err (Errorf_w "failed to update secret")
    (db_exec (sql_update t_secrets (sec_ID s) (of_user sec_UserID (sec_UserID s)) (λ _ r,
       Some (r <| sec_EncryptedValue := sec_EncryptedValue s |>
               <| sec_Description := sec_Description s |> <| sec_UpdatedAt := now |>
               <| sec_LastAccessedAt := sec_LastAccessedAt s |>)))) w2 = (r, w3) →
    t_secrets w3 = t_secrets w ∨ ∃ row now, t_secrets w !! sec_ID s = Some row ∧
      sec_UserID row = sec_UserID s ∧ t_secrets w3 = <[sec_ID s := row
        <| sec_EncryptedValue := sec_EncryptedValue s |>
        <| sec_Description := sec_Description s |> <| sec_UpdatedAt := now |>
        <| sec_LastAccessedAt := sec_LastAccessedAt s |>]> (t_secrets w)) as Hexec.
  { intros r0 w3 Hw. unfold wrap_err in Hw. destruct (db_exec _ w2) as [r1 w4] eqn:Hd.
    assert (w4 = w3) as -> by (by destruct r1; simplify_eq).
    apply db_exec_outcome in Hd as [(n & _ & Hs)|(e & _ & ->)]; [|left; done].
    unfold sql_update in Hs. change (t_secrets (w2 <| w_tick ::= S |>)) with (t_secrets w2) in Hs.
    rewrite H2 in Hs. destruct (t_secrets w !! sec_ID s) as [row|] eqn:Hrow; [|simplify_eq; left; done].
    destruct (of_user _ _ row) eqn:Hu; [|simplify_eq; left; done]. cbn in Hs. injection Hs as _ <-.
    right. exists row, now. apply bool_decide_eq_true in Hu. cbn. by rewrite H2. }
  run_step Hrun n w3; eauto. unfold mret, M_ret in Hrun. injection Hrun as _ <-. eauto.
Qed.

(** ** The invariant *)

Lemma sealed_table_insert k s t : sealed_table t → sealed_row s → sealed_table (<[k := s]> t).
Proof. intros Ht Hs k' s' [[<- <-]|[_ Hk]]%lookup_insert_Some; [done|by apply (Ht k')]. Qed.

Lemma secret_Update_sealed s w r w1 :
  secret_Update s w = (r, w1) → sealed_row s → sealed_table (t_secrets w) → sealed_table (t_secrets w1).
Proof.
  intros [->|(row & now & _ & Hu & ->)]%secret_Update_outcome Hs Ht; [done|].
  apply sealed_table_insert; [done|]. destruct Hs as [p Hp]. exists p. cbn. by rewrite Hu.
Qed.

Lemma open_secret_sealed ctx s w r w1 :
  open_secret masterKey ctx s w = (r, w1) → sealed_row s →
  sealed_table (t_secrets w) → sealed_table (t_secrets w1).
Proof.
  intros Hrun Hs Ht. unfold open_secret in Hrun.
  run_step Hrun d w2; [|by apply (frame_run t_secrets) in Hrun0 as ->; [|apply _]..].
  apply (frame_run t_secrets) in Hrun0 as Hf0; [|apply _].
  apply total_bind_inv in Hrun as (now & w3 & H3 & Hrun); [|apply _].
  apply (frame_run t_secrets) in H3; [|apply _]. cbn zeta in Hrun.
  apply ignore_bind_inv in Hrun as (r4 & w4 & H4 & Hrun); [|apply _].
  apply (frame_run t_secrets) in Hrun as ->; [|apply _].
  eapply secret_Update_sealed; [exact H4| |by rewrite H3, Hf0].
  destruct Hs as [p Hp]. by exists p.
Qed.

Lemma CreateSecret_sealed ctx name value desc w r w1 :
  CreateSecret masterKey ctx name value desc w = (r, w1) →
  sealed_table (t_secrets w) → sealed_table (t_secrets w1).
Proof.
  intros Hrun Ht. unfold CreateSecret in Hrun. cbn zeta in Hrun.
  run_step Hrun enc w2; [|by apply (frame_run t_secrets) in Hrun0 as ->; [|apply _]..].
  apply (frame_run t_secrets) in Hrun0 as Hf0; [|apply _].
  apply wrap_err_Ok, Encrypt_Ok in Hrun0 as Henc.
  apply total_bind_inv in Hrun as (id & w3 & H3 & Hrun); [|apply _].
  apply total_bind_inv in Hrun as (cr & w4 & H4 & Hrun); [|apply _].
  apply total_bind_inv in Hrun as (up & w5 & H5 & Hrun); [|apply _].
  apply (frame_run t_secrets) in H3, H4, H5; try apply _.
  assert (∀ s r0 w6, secret_Create s w5 = (r0, w6) → sealed_row (s <| sec_LastAccessedAt := None |>) →
    sealed_table (t_secrets w6)) as Hins.
  { intros s r0 w6 Hw Hs. unfold secret_Create, wrap_err in Hw. destruct (db_exec _ w5) as [r1 w7] eqn:Hd.
    assert (w7 = w6) as -> by (by destruct r1; simplify_eq).
    assert (sealed_table (t_secrets w5)) as Ht5 by (by rewrite H5, H4, H3, Hf0).
    apply db_exec_outcome in Hd as [(n & _ & Hst)|(e & _ & ->)]; [|done].
    unfold sql_insert in Hst. cbn in Hst. destruct (t_secrets w5 !! _); [done|].
    destruct (_ && _); [|done]. injection Hst as _ <-. by apply sealed_table_insert. }
  run_step Hrun u w6; [|by eapply Hins; [exact Hrun1|exists (str_bytes value)]..].
  apply (frame_run t_secrets) in Hrun as ->; [|apply _].
  eapply Hins; [exact Hrun1|by exists (str_bytes value)].
Qed.

Lemma GetSecret_sealed `{!OrderLaws} ctx id w r w1 :
  GetSecret masterKey ctx id w = (r, w1) → sealed_table (t_secrets w) → sealed_table (t_secrets w1).
Proof.
  intros Hrun Ht. unfold GetSecret in Hrun.
  run_step Hrun s w2; [|by apply (frame_run t_secrets) in Hrun0 as ->; [|apply _]..].
  apply secret_GetByID_Ok in Hrun0 as (-> & Hs & _). eapply open_secret_sealed; [exact Hrun| |done].
  by apply (Ht id).
Qed.

Lemma GetSecretByName_sealed `{!OrderLaws} ctx name w r w1 :
  GetSecretByName masterKey ctx name w = (r, w1) →
  sealed_table (t_secrets w) → sealed_table (t_secrets w1).
Proof.
  intros Hrun Ht. unfold GetSecretByName in Hrun.
  run_step Hrun s w2; [|by apply (frame_run t_secrets) in Hrun0 as ->; [|apply _]..].
  apply wrap_err_Ok in Hrun0. apply (db_query_row_Ok t_secrets) in Hrun0 as (-> & _ & k & Hk).
  eapply open_secret_sealed; [exact Hrun| |done]. by apply (Ht k).
Qed.

Lemma DeleteSecret_sealed `{!OrderLaws} ctx id w r w1 :
  DeleteSecret ctx id w = (r, w1) → sealed_table (t_secrets w) → sealed_table (t_secrets w1).
Proof.
  intros Hrun Ht. unfold DeleteSecret in Hrun.
  run_step Hrun s w2; [|by apply (frame_run t_secrets) in Hrun0 as ->; [|apply _]..].
  apply (frame_run t_secrets) in Hrun0 as Hf0; [|apply _]. rewrite <- Hf0 in Ht.
  assert (∀ r0 w3, secret_Delete ctx id w2 = (r0, w3) → sealed_table (t_secrets w3)) as Hdel.
  { intros r0 w3 Hd. unfold secret_Delete, wrap_err, mbind, M_bind in Hd.
    destruct (db_exec _ w2) as [r1 w4] eqn:He.
    assert (w4 = w3) as -> by (unfold mret, M_ret in Hd; by destruct r1; simplify_eq).
    apply db_exec_outcome in He as [(n & _ & Hst)|(e & _ & ->)]; [|done].
    unfold sql_delete in Hst. cbn in Hst.
    destruct (t_secrets w2 !! id) as [row|]; [destruct (of_user _ _ row)|]; simplify_eq; try done.
    intros k s' Hk. cbn in Hk. apply lookup_delete_Some in Hk as [_ Hk]. by apply (Ht k). }
  run_step Hrun u w3; [|by eapply Hdel..]. apply Hdel in Hrun1.
  by apply (frame_run t_secrets) in Hrun as ->; [|apply _].
Qed.

(** ** Round trip *)

(** C9: When no statement fails, a secret that was created is given back with its value to its
    owner, and to no one else; what the table holds after the access is still the ciphertext. *)
Theorem secret_roundtrip `{!OrderLaws, !NoFaults} ctx name value desc w s w1 :
  CreateSecret masterKey ctx name value desc w = (Ok s, w1) →
  (∃ s' w2, GetSecret masterKey ctx (sec_ID s) w1 = (Ok s', w2) ∧ sec_EncryptedValue s' = value ∧
     sec_Name s' = name ∧ sec_Description s' = desc ∧
     sec_EncryptedValue <$> t_secrets w2 !! sec_ID s = Some (sec_EncryptedValue s)) ∧
  sealed (getDerivedKey masterKey (UserIDFromContext ctx)) (str_bytes value) (sec_EncryptedValue s) ∧
  (∀ ctx', UserIDFromContext ctx' ≠ UserIDFromContext ctx →
     (GetSecret masterKey ctx' (sec_ID s) w1).1 = Err (New NotFound "secret not found")).
Proof.
  intros Hrun. unfold CreateSecret in Hrun. cbn zeta in Hrun. ok_step Hrun enc w2.
  apply wrap_err_Ok, Encrypt_Ok in Hrun0 as Henc.
  apply total_bind_inv in Hrun as (id & w3 & _ & Hrun); [|apply _].
  apply total_bind_inv in Hrun as (cr & w4 & _ & Hrun); [|apply _].
  apply total_bind_inv in Hrun as (up & w5 & _ & Hrun); [|apply _].
  ok_step Hrun u w6. apply wrap_err_Ok, db_exec_Ok in Hrun1. unfold sql_insert in Hrun1. cbn in Hrun1.
  destruct (t_secrets w5 !! id); [done|]. destruct (_ && _); [|done]. injection Hrun1 as _ <-.
  ok_step Hrun v w7. apply (frame_run t_secrets) in Hrun1 as Hf7; [|apply _].
  unfold mret, M_ret in Hrun. injection Hrun as <- <-. cbn in Hf7. cbn [sec_ID sec_EncryptedValue].
  set (s := MkSecret id (UserIDFromContext ctx) name enc desc cr up None) in *.
  assert (t_secrets w7 !! id = Some s) as Hrow by (rewrite Hf7; apply lookup_insert_eq).
  split_and!; [| done |].
  - unfold GetSecret, secret_GetByID.
    erewrite bind_Ok_run; [|by apply wrap_err_Ok_run; rewrite (db_query_row_pk t_secrets), Hrow by
      (apply no_faults); unfold of_user; rewrite bool_decide_true].
    unfold open_secret. change (sec_UserID s) with (UserIDFromContext ctx).
    erewrite bind_Ok_run; [|apply wrap_err_Ok_run, Decrypt_sealed; [apply getDerivedKey_length|exact Henc]].
    erewrite bind_Ok_run by apply Now_run. cbn zeta.
    set (s1 := s <| sec_LastAccessedAt := Some _ |>). set (w8 := w7 <| w_tick ::= _ |> <| w_tick ::= _ |>).
    destruct ((ignore (secret_Update s1) ;; secret_event ctx "SECRET_ACCESS" "secret.access" (sec_UserID s1)
      (sec_ID s1) (sec_Name s1)) w8) as [r9 w9] eqn:H9.
    apply ignore_bind_inv in H9 as (r10 & w10 & H10 & H9); [|apply _].
    pose proof (total_run _ _ _ _ H9) as [[] ->].
    assert (∃ v, (ignore (secret_Update s1) w8) = (Ok v, w10)) as [v' Hig].
    { unfold ignore, attempt, mbind, M_bind, mret, M_ret. rewrite H10.
      destruct r10; [by eexists..|by destruct (no_panic_run _ _ _ _ H10)]. }
    exists (s1 <| sec_EncryptedValue := bytes_str (str_bytes value) |>), w9.
    split_and!; [|apply bytes_str_bytes|done|done|].
    + rewrite (bind_Ok_run _ _ _ _ _ Hig). by rewrite (bind_Ok_run _ _ _ _ _ H9).
    + apply (frame_run t_secrets) in H9 as ->; [|apply _].
      apply secret_Update_outcome in H10 as [->|(row & now & Hr & _ & ->)]; [by cbn; rewrite Hrow|].
      change (sec_ID s1) with id. by rewrite lookup_insert_eq.
  - intros ctx' Hne. unfold GetSecret, secret_GetByID. erewrite bind_Err_run; [done|].
    unfold wrap_err. rewrite (db_query_row_pk t_secrets), Hrow by apply no_faults.
    unfold of_user. by rewrite bool_decide_false by (intros Heq; by apply Hne).
Qed.

(** Listing shows no value, not even an encrypted one. *)
Lemma ListSecrets_redacts ctx w l w1 :
  ListSecrets ctx w = (Ok l, w1) → Forall (λ s, sec_EncryptedValue s = "[REDACTED]") l.
Proof.
  unfold ListSecrets. intros Hrun. ok_step Hrun l0 w2. unfold mret, M_ret in Hrun. injection Hrun as <- <-.
  apply Forall_fmap, Forall_true. done.
Qed.

End secret_proofs.
