(* ===== verification/Reach.v ===== *)
(** * Invariants of every state the system can reach

    Secrets are sealed, the lockouts agree with the counted failures, API keys and the
    hashes of reset tokens are unique, a security group applies to instances of its owner
    only. *)
From S2P Require Import Prelude GoStd Encoding Net Errors Domain DomainData World Logic Sql InstanceRepo.
From S2P Require Import NetworkRepo InstanceService VolumeService NetworkService LBRepo LBService.
From S2P Require Import AutoScalingRepo Ports AutoScalingService AutoScalingWorker InstanceProofs.
From S2P Require Import AutoScalingProofs Secret Queue QueueProofs Storage Rbac Auth SecurityGroup Snapshot.
From S2P Require Import Http Cron Gateway Notify Cache Database Function Stack Container System Invariants.
From S2P Require Import Keyed Router AuthProofs SecretProofs SecurityGroupProofs.

(** An operation whose every run keeps the property keeps the invariant. *)
Lemma holds_intro {A T} (p : World → T) Q (m : M A) :
  (∀ w r w1, m w = (r, w1) → Q (p w) → Q (p w1)) → Steps (holds p Q) m.
Proof.
  intros Hm w. unfold holds, keeps. destruct (m w) as [r w1] eqn:Hrun. by apply (Hm w r w1).
Qed.

Lemma stmt_holds_intro {A T} (p : World → T) Q (stmt : World → option (A * World)) :
  (∀ w a w1, stmt w = Some (a, w1) → Q (p w) → Q (p w1)) → StmtOk (holds p Q) stmt.
Proof. intros Hs w a w1 Hw. exact (Hs w a w1 Hw). Qed.

(** ** Secrets *)

Section secrets.
Context `{Env, Crypto, HttpEnv, CronParser, ZipReader, Formats, !OrderLaws, !CryptoLaws} (cfg : Config).
Notation sealed := (holds t_secrets (sealed_table (cfg_masterKey cfg))).

#[local] Instance CreateSecret_holds ctx n v d : Steps sealed (CreateSecret (cfg_masterKey cfg) ctx n v d).
Proof. apply holds_intro. intros. by eapply CreateSecret_sealed. Qed.
#[local] Instance GetSecret_holds ctx i : Steps sealed (GetSecret (cfg_masterKey cfg) ctx i).
Proof. apply holds_intro. intros. by eapply GetSecret_sealed. Qed.
#[local] Instance GetSecretByName_holds ctx n : Steps sealed (GetSecretByName (cfg_masterKey cfg) ctx n).
Proof. apply holds_intro. intros. by eapply GetSecretByName_sealed. Qed.
#[local] Instance DeleteSecret_holds ctx i : Steps sealed (DeleteSecret ctx i).
Proof. apply holds_intro. intros. by eapply DeleteSecret_sealed. Qed.

Lemma step_sealed w w' : step cfg w w' → sealed w w'.
Proof. each_operation; apply _. Qed.

(** C19: In every reachable state each stored secret is a ciphertext under the key derived for
    its owner: a plaintext is never written to the table. *)
Theorem reachable_sealed w : reachable cfg w → sealed_table (cfg_masterKey cfg) (t_secrets w).
Proof.
  revert w. apply reachable_inv; [intros k s Hk; cbn in Hk; by rewrite lookup_empty in Hk|].
  intros w w' Hs. exact (step_sealed w w' Hs).
Qed.

End secrets.

(** ** Lockouts *)

Section lockouts.
Context `{Env, Crypto, HttpEnv, CronParser, ZipReader, Formats} (cfg : Config).

Definition lock_maps (w : World) : gmap string Z * gmap string time := (m_failedAttempts w, m_lockouts w).

Definition lock_maps_ok (m : gmap string Z * gmap string time) : Prop :=
  ∀ email, 5 ≤ default 0 (m.1 !! email) → is_Some (m.2 !! email).

#[local] Instance check_lockout_holds e : Steps (holds lock_maps lock_maps_ok) (check_lockout e).
Proof. apply holds_intro. intros w r w1 Hrun Hok. exact (check_lockout_inv _ _ _ _ Hok Hrun). Qed.
#[local] Instance incrementFailure_holds e : Steps (holds lock_maps lock_maps_ok) (incrementFailure e).
Proof. apply holds_intro. intros w r w1 Hrun Hok. exact (incrementFailure_inv _ _ _ _ Hok Hrun). Qed.
#[local] Instance clear_failures_holds e : Steps (holds lock_maps lock_maps_ok) (clear_failures e).
Proof. apply holds_intro. intros w r w1 Hrun Hok. exact (clear_failures_inv _ _ _ _ Hok Hrun). Qed.
#[local] Instance login_checked_holds ctx e x : Steps (holds lock_maps lock_maps_ok) (login_checked ctx e x).
Proof. unfold login_checked. apply _. Qed.
#[local] Instance Login_holds ctx e x : Steps (holds lock_maps lock_maps_ok) (Login ctx e x).
Proof. unfold Login. apply _. Qed.
#[local] Instance restart_holds : Steps (holds lock_maps lock_maps_ok) restart.
Proof.
  apply holds_intro. intros w r w1 Hrun _. unfold restart in Hrun.
  erewrite bind_Ok_run in Hrun by reflexivity. erewrite bind_Ok_run in Hrun by reflexivity.
  apply (frame_run lock_maps) in Hrun as ->; [|apply _]. intros email. cbn. by rewrite !lookup_empty.
Qed.

Lemma step_lockout w w' : step cfg w w' → holds lock_maps lock_maps_ok w w'.
Proof. each_operation; apply _. Qed.

(** C15: In every reachable state, also one that the sections of concurrent logins reach in
    any order, an address with five counted failures or more is locked out, and until its
    lockout is over a login is refused with any password and changes no state. *)
Theorem reachable_lockout w email : reachable cfg w → 5 ≤ failures email w →
  ∃ t, m_lockouts w !! email = Some t ∧
    (env_now (w_tick w) < t → ∀ ctx password, Login ctx email password w =
      (Err (New Unauthorized "account is locked due to too many failed attempts"), w <| w_tick ::= S |>)).
Proof.
  intros Hw H5. assert (lockout_inv w) as Hinv.
  { clear H5. revert w Hw. apply reachable_inv; [intros e; unfold failures; cbn; by rewrite !lookup_empty|].
    intros w w' Hs. exact (step_lockout w w' Hs). }
  destruct (Hinv email H5) as [t Ht]. exists t. split; [done|]. intros Hlt ctx pw. by apply (locked_login _ _ _ _ t).
Qed.

End lockouts.

(** ** Unique keys *)

(** No two rows have the same value of a column. *)
Definition unique_on {A B} (f : A → B) (t : gmap uuid A) : Prop :=
  ∀ k1 k2 r1 r2, t !! k1 = Some r1 → t !! k2 = Some r2 → f r1 = f r2 → k1 = k2.

Lemma unique_on_sub {A B} (f : A → B) (t t' : gmap uuid A) : t' ⊆ t → unique_on f t → unique_on f t'.
Proof. intros Hs Hu k1 k2 r1 r2 H1 H2. apply Hu; by eapply lookup_weaken. Qed.

Lemma unique_on_insert {A B} (f : A → B) (t : gmap uuid A) k r :
  (∀ k' r', t !! k' = Some r' → k' ≠ k → f r' ≠ f r) → unique_on f t → unique_on f (<[k := r]> t).
Proof.
  intros Hno Hu k1 k2 r1 r2 [[<- <-]|[? Hk1]]%lookup_insert_Some [[<- <-]|[? Hk2]]%lookup_insert_Some Heq;
    [done| | |by eapply Hu].
  - by destruct (Hno k2 r2 Hk2).
  - by destruct (Hno k1 r1 Hk1).
Qed.

(** The constraint UNIQUE of an INSERT is what keeps a column unique. *)
Lemma sql_insert_unique {A B} `{EqDecision B} (tbl : World → gmap uuid A) `{!Field tbl, !FieldOk tbl}
    (f : A → B) k row ok :
  (∀ w, ok w = true → no_row (λ r, bool_decide (f r = f row)) (tbl w) = true) →
  StmtOk (holds tbl (unique_on f)) (sql_insert tbl k row ok).
Proof.
  intros Hok. apply stmt_holds_intro. intros w a w1 Hs Hu. unfold sql_insert in Hs.
  destruct (tbl w !! k); [done|]. destruct (ok w) eqn:Ho; [|done]. injection Hs as _ <-.
  rewrite field_get. apply unique_on_insert; [|done]. intros k' r' Hk' _.
  apply Hok in Ho. rewrite no_row_true in Ho. by eapply bool_decide_eq_false, Ho.
Qed.

Lemma sql_update_unique {A B} (tbl : World → gmap uuid A) `{!Field tbl, !FieldOk tbl} (f : A → B) k P upd :
  (∀ w r r', upd w r = Some r' → f r' = f r) →
  StmtOk (holds tbl (unique_on f)) (sql_update tbl k P upd).
Proof.
  intros Hupd. apply stmt_holds_intro. intros w a w1 Hs Hu. unfold sql_update in Hs.
  destruct (tbl w !! k) as [r|] eqn:Hr; [|by simplify_eq]. destruct (P r); [|by simplify_eq].
  apply bind_Some in Hs as (r' & Hr' & Hw). injection Hw as _ <-. rewrite field_get.
  apply unique_on_insert; [|done]. intros k' r0 Hk' Hne Heq. apply Hne, (Hu k' k r0 r); [done|done|].
  by rewrite Heq, (Hupd _ _ _ Hr').
Qed.

Ltac unique_stmt :=
  apply stmt_holds_intro; intros ? ? ? Hs; unfold sql_delete, sql_delete_where in Hs;
  repeat case_match; simplify_eq; try done; cbn -[unique_on];
  apply unique_on_sub; first [apply delete_subseteq | apply map_filter_subseteq].

#[export] Hint Extern 1 (StmtOk (holds ?t (unique_on _)) (sql_insert ?t _ _ _)) =>
  apply sql_insert_unique; intros ? Hok; repeat (apply andb_true_iff in Hok as [? Hok]); done
  : typeclass_instances.
#[export] Hint Extern 3 (StmtOk (holds _ (unique_on _)) _) => unique_stmt : typeclass_instances.

Section unique.
Context `{Env, Crypto, HttpEnv, CronParser, ZipReader, Formats} (cfg : Config).

#[local] Instance MarkAsUsed_holds i : Steps (holds t_reset_tokens (unique_on prt_TokenHash)) (MarkAsUsed i).
Proof.
  unfold MarkAsUsed. apply steps_bind; [apply _| |apply _]. apply steps_db_exec; [apply _..|].
  apply stmt_holds_intro. intros w a w' Hs. apply bind_Some in Hs as (id & _ & Hs).
  refine (sql_update_unique t_reset_tokens prt_TokenHash _ _ _ _ _ _ _ Hs). by intros ??? [= <-].
Qed.

Lemma step_keys_unique w w' : step cfg w w' → holds t_api_keys (unique_on ak_Key) w w'.
Proof. each_operation; apply _. Qed.

Lemma step_tokens_unique w w' : step cfg w w' → holds t_reset_tokens (unique_on prt_TokenHash) w w'.
Proof. each_operation; apply _. Qed.

(** In every reachable state no two rows hold the same API key, and no two the same reset
    token: what a credential opens is determined. *)
Lemma reachable_unique w : reachable cfg w → keys_unique w ∧ tokens_unique w.
Proof.
  revert w. apply reachable_inv.
  - split; intros k1 k2 r1 r2 Hk; cbn in Hk; by rewrite lookup_empty in Hk.
  - intros w w' Hs [Hk Ht]. split; [exact (step_keys_unique w w' Hs Hk)|exact (step_tokens_unique w w' Hs Ht)].
Qed.

End unique.

(** ** The members of security groups *)

Section members.
Context `{Env, !OrderLaws}.

(** A member is an instance with a row, its group has a row, and both have one owner. *)
Definition members_ok
    (t : gmap (uuid * uuid) unit * gmap uuid Instance * gmap uuid SecurityGroup) : Prop :=
  ∀ i g, is_Some (t.1.1 !! (i, g)) →
    ∃ inst sg, t.1.2 !! i = Some inst ∧ t.2 !! g = Some sg ∧ inst_UserID inst = secg_UserID sg.

Notation Members := (holds member_tables members_ok).

#[local] Instance instance_Create_members i : Steps Members (instance_Create i).
Proof.
  apply steps_wrap_err, steps_db_exec; [apply _..|]. apply stmt_holds_intro. intros w a w' Hs Hok.
  unfold instance_insert in Hs. apply bind_Some in Hs as (ip & _ & Hs). unfold sql_insert in Hs.
  destruct (t_instances w !! inst_ID i) eqn:Hl; [done|]. destruct (_ && _); [|done]. injection Hs as _ <-.
  intros i' g Hm. destruct (Hok i' g Hm) as (inst & sg & Hi & Hg & Hu). exists inst, sg.
  split_and!; [|done|done]. cbn. rewrite lookup_insert_ne; [done|]. intros <-. cbn in Hi. congruence.
Qed.

#[local] Instance instance_Update_members i : Steps Members (instance_Update i).
Proof.
  apply holds_intro. intros w r w1 Hrun Hok.
  apply instance_Update_outcome in Hrun as [(row & row' & now & _ & Hl & _ & _ & Hup & ->)|(e & _ & ->)];
    [|exact Hok].
  apply instance_update_row_fields in Hup as (ip & _ & ->).
  intros i' g Hm. destruct (Hok i' g Hm) as (inst & sg & Hi & Hg & Hu). cbn in Hi, Hg |- *.
  destruct (decide (i' = inst_ID i)) as [->|Hne].
  - rewrite lookup_insert_eq. eexists _, sg. split; [done|]. split; [done|]. cbn. congruence.
  - rewrite lookup_insert_ne by done. by exists inst, sg.
Qed.

#[local] Instance instance_Delete_members ctx id : Steps Members (instance_Delete ctx id).
Proof.
  apply holds_intro. intros w r w1 Hrun Hok.
  apply instance_Delete_outcome in Hrun as [(row & _ & _ & _ & ->)|(e & _ & ->)]; [|exact Hok].
  intros i g [u Hm]. cbn in Hm. apply map_lookup_filter_Some in Hm as [Hm Hne]. cbn in Hne.
  destruct (Hok i g) as (inst & sg & Hi & Hg & Hu); [by exists u|]. exists inst, sg.
  split_and!; [|done|done]. cbn. by rewrite lookup_delete_ne.
Qed.

#[local] Instance secg_Create_members sg : Steps Members (secg_Create sg).
Proof.
  apply steps_wrap_err, steps_db_exec; [apply _..|]. apply stmt_holds_intro. intros w a w' Hs Hok.
  unfold sql_insert in Hs. destruct (t_security_groups w !! secg_ID sg) eqn:Hl; [done|].
  destruct (_ && _); [|done]. injection Hs as _ <-.
  intros i g Hm. destruct (Hok i g Hm) as (inst & sg' & Hi & Hg & Hu). exists inst, sg'.
  split_and!; [done| |done]. cbn. rewrite lookup_insert_ne; [done|]. intros <-. cbn in Hg. congruence.
Qed.

#[local] Instance secg_Delete_members ctx id : Steps Members (secg_Delete ctx id).
Proof.
  unfold secg_Delete. apply steps_bind; [apply _| |apply _]. apply steps_db_exec; [apply _..|].
  apply stmt_holds_intro. intros w a w' Hs Hok. unfold sql_delete in Hs.
  destruct (t_security_groups w !! id) as [sg|]; [|by simplify_eq].
  destruct (of_user _ _ sg); [|by simplify_eq]. injection Hs as _ <-.
  intros i g [u Hm]. cbn in Hm. apply map_lookup_filter_Some in Hm as [Hm Hne]. cbn in Hne.
  destruct (Hok i g) as (inst & sg' & Hi & Hg & Hu); [by exists u|]. exists inst, sg'.
  split_and!; [done| |done]. cbn. by rewrite lookup_delete_ne.
Qed.

#[local] Instance vpc_Delete_members ctx id : Steps Members (vpc_Delete ctx id).
Proof.
  unfold vpc_Delete. apply steps_bind; [apply _| |apply _]. apply steps_wrap_err, steps_db_exec; [apply _..|].
  apply stmt_holds_intro. intros w a w' Hs Hok. unfold sql_delete in Hs.
  destruct (t_vpcs w !! id) as [v|]; [|by simplify_eq].
  destruct (of_user _ _ v); [|by simplify_eq]. destruct (vpc_unreferenced id w); [|done]. injection Hs as _ <-.
  intros i g [u Hm]. cbn in Hm. apply map_lookup_filter_Some in Hm as [Hm Hgone]. cbn in Hgone.
  destruct (Hok i g) as (inst & sg & Hi & Hg & Hu); [by exists u|]. exists inst, sg.
  cbn in Hg. rewrite Hg in Hgone. apply bool_decide_eq_false in Hgone.
  split_and!; [done| |done]. cbn. apply map_lookup_filter_Some. by split.
Qed.

#[local] Instance AddInstanceToGroup_members ctx i g : Steps Members (AddInstanceToGroup ctx i g).
Proof.
  apply holds_intro. intros w r w1 Hrun Hok.
  apply AddInstanceToGroup_outcome in Hrun
    as [(_ & (inst & sg & Hi & Hg & Hiu & Hgu) & Hm & Hti & Htg)|[_ ->]]; [|done].
  intros i' g' Hm'. cbn in *. rewrite Hm in Hm'. rewrite Hti, Htg.
  destruct (decide ((i, g) = (i', g'))) as [[= <- <-]|Hne].
  - exists inst, sg. split_and!; [done|done|congruence].
  - rewrite lookup_insert_ne in Hm' by done. by apply Hok.
Qed.

#[local] Instance RemoveInstanceFromGroup_members ctx i g : Steps Members (RemoveInstanceFromGroup ctx i g).
Proof.
  unfold RemoveInstanceFromGroup. apply steps_transaction_w; [apply _..|].
  apply steps_bind; [apply _..|intros _]. apply steps_bind; [apply _..|intros _].
  apply steps_bind; [apply _| |apply _]. apply steps_wrap_err, steps_db_exec; [apply _..|].
  apply stmt_holds_intro. intros w a w' Hs Hok. unfold sql_delete in Hs.
  destruct (t_sg_instances w !! (i, g)); [|by simplify_eq]. injection Hs as _ <-.
  intros i' g' [v Hm]. cbn in Hm. apply lookup_delete_Some in Hm as [_ Hm]. apply Hok. by exists v.
Qed.

Context `{!Crypto, !HttpEnv, !CronParser, !ZipReader, !Formats} (cfg : Config).

Lemma step_members w w' : step cfg w w' → Members w w'.
Proof. each_operation; apply _. Qed.

(** C17: In every reachable state a security group applies only to instances that exist and that
    belong to the owner of the group. *)
Theorem reachable_members w : reachable cfg w → members_ok (member_tables w).
Proof.
  revert w. apply reachable_inv; [intros i g [u Hm]; cbn in Hm; by rewrite lookup_empty in Hm|].
  intros w w' Hs. exact (step_members w w' Hs).
Qed.

End members.
