(* ===== verification/ServerProofs.v ===== *)
(** * What the handlers let through and what a request to the server can do *)
From S2P Require Import Prelude GoStd Encoding Net Errors Json Domain DomainData World Logic Sql.
From S2P Require Import InstanceService Storage Secret Gin ComputeHandlers DataHandlers InstanceRepo.
From S2P Require Import NetworkRepo VolumeService NetworkService LBRepo LBService AutoScalingRepo Ports.
From S2P Require Import AutoScalingService AutoScalingWorker InstanceProofs AutoScalingProofs Queue Rbac Auth.
From S2P Require Import SecurityGroup Snapshot Http Cron Gateway Notify Cache Database Function Stack.
From S2P Require Import Container Dashboard Router System Invariants Keyed Isolation AuthProofs Reach.
From S2P Require Import OrchestrationHandlers IdentityHandlers Server.

(** * What the handlers let through *)

(** ** Trimming keeps a leading slash *)

Lemma trim_left_slash l : trim_left (47%N :: l) = 47%N :: l.
Proof. by destruct l as [|b [|c l]]. Qed.

Lemma trim_right_slash l : ∃ y, trim_right_rev (l ++ [47%N]) = y ++ [47%N].
Proof.
  remember (length l) as n eqn:Hn. revert l Hn. induction (lt_wf n) as [n _ IH]; intros l ->.
  destruct l as [|a l]; [by exists []|]. cbn [app trim_right_rev].
  destruct (is_ascii_space a); [eapply IH; [|done]; cbn; lia|].
  destruct l as [|b l]; cbn [app]; [by exists [a]|].
  destruct (is_space2 b a); [eapply IH; [|done]; cbn; lia|].
  destruct l as [|c l]; cbn [app]; [by exists [a; b]|].
  destruct (is_space3 c b a); [eapply IH; [|done]; cbn; lia|by exists (a :: b :: c :: l)].
Qed.

Lemma TrimSpace_slash s : HasPrefix s "/" = true → HasPrefix (TrimSpace s) "/" = true.
Proof.
  destruct s as [|a s]; [done|]. intros Ha. cbn in Ha. rewrite andb_true_r in Ha.
  apply bool_decide_eq_true in Ha as ->. unfold TrimSpace.
  change (str_bytes (String "/" s)) with (47%N :: str_bytes s). rewrite trim_left_slash, reverse_cons.
  destruct (trim_right_slash (reverse (str_bytes s))) as [y ->]. by rewrite reverse_snoc.
Qed.

(** ** Launching an instance *)

Section handlers.
Context `{Env, UnicodeTables, Gin}.

(** A letter, a digit, a hyphen or an underscore. *)
Definition name_character (r : Z) : Prop := IsLetter r = true ∨ IsDigit r = true ∨ r = 45 ∨ r = 95.

Definition attachment_ok (v : VolumeAttachmentRequest) : Prop :=
  TrimSpace (var_VolumeID v) ≠ "" ∧ HasPrefix (var_MountPath v) "/" = true.

(** The requests that may reach the service, as the body gives them. *)
Definition acceptable (req : LaunchRequest) : Prop :=
  (1 ≤ String.length (TrimSpace (lr_Name req)) ≤ 64)%nat ∧
  Forall name_character (runes (str_bytes (TrimSpace (lr_Name req)))) ∧
  TrimSpace (lr_Image req) ≠ "" ∧ (String.length (TrimSpace (lr_Image req)) ≤ 256)%nat ∧
  Forall attachment_ok (lr_Volumes req).

Definition trimmed_attachment (v : VolumeAttachmentRequest) : VolumeAttachmentRequest :=
  MkVolumeAttachmentRequest (TrimSpace (var_VolumeID v)) (TrimSpace (var_MountPath v)).

Definition trimmed (req : LaunchRequest) : LaunchRequest :=
  req <| lr_Name := TrimSpace (lr_Name req) |> <| lr_Image := TrimSpace (lr_Image req) |>
    <| lr_Volumes := trimmed_attachment <$> lr_Volumes req |>.

(** The VPC a request names: none, or the one whose identifier it gives. *)
Definition named_vpc (req : LaunchRequest) : option (option uuid) :=
  if decide (lr_VpcID req = "") then Some None else Some <$> uuid_parse (lr_VpcID req).

Definition named_subnet (req : LaunchRequest) : option uuid :=
  if decide (lr_SubnetID req = "") then None else uuid_parse (lr_SubnetID req).

Lemma isValidResourceName_spec s :
  isValidResourceName s = true ↔ Forall name_character (runes (str_bytes s)).
Proof.
  unfold isValidResourceName, name_character. rewrite forallb_forall, Forall_forall.
  setoid_rewrite list_elem_of_In. apply forall_proper. intros r.
  rewrite !orb_true_iff, !Z.eqb_eq. tauto.
Qed.

Lemma validate_volumes_spec l :
  match validate_volumes l with
  | inl err => error_type err = InvalidInput ∧ ¬ Forall attachment_ok l
  | inr l' => Forall attachment_ok l ∧ l' = trimmed_attachment <$> l
  end.
Proof.
  induction l as [|v l IH]; cbn [validate_volumes]; [by split; [constructor|]|].
  pose proof (Forall_cons attachment_ok v l) as Hcons.
  assert (TrimSpace (var_VolumeID v) = "" → ¬ attachment_ok v) by (by intros ? []).
  case_bool_decide; [split; [done|tauto]|].
  case_bool_decide as Hm.
  { split; [done|]. intros [[_ Hp] _]%Hcons. apply TrimSpace_slash in Hp. by rewrite Hm in Hp. }
  destruct (HasPrefix (var_MountPath v) "/") eqn:Hp; cbn [negb].
  2:{ split; [done|]. intros [[_ Hs] _]%Hcons. by rewrite Hp in Hs. }
  destruct (validate_volumes l); destruct IH as [IH1 IH2]; [split; [done|tauto]|].
  split; [by apply Hcons|]. by rewrite IH2.
Qed.

Lemma validateLaunchRequest_spec req :
  match validateLaunchRequest req with
  | inl err => error_type err = InvalidInput ∧ ¬ acceptable req
  | inr req' => acceptable req ∧ req' = trimmed req
  end.
Proof.
  unfold validateLaunchRequest, acceptable, minNameLength, maxNameLength, maxImageLength.
  destruct (Nat.ltb_spec (String.length (TrimSpace (lr_Name req))) 1); [split; [done|lia]|].
  destruct (Nat.ltb_spec 64 (String.length (TrimSpace (lr_Name req)))); [split; [done|lia]|]. cbn [orb].
  pose proof (isValidResourceName_spec (TrimSpace (lr_Name req))) as Hname.
  destruct (isValidResourceName _); cbn [negb]; [|split; [done|]; intros (_ & Hc & _); by apply Hname in Hc].
  case_bool_decide; [split; [done|tauto]|].
  destruct (Nat.ltb_spec 256 (String.length (TrimSpace (lr_Image req)))); [split; [done|lia]|].
  pose proof (validate_volumes_spec (lr_Volumes req)) as Hv.
  destruct (validate_volumes _) as [err|vs]; destruct Hv as [Hv1 Hv2]; [split; [done|tauto]|].
  split; [|by rewrite Hv2]. split; [done|]. split; [by apply Hname|done].
Qed.

Lemma trimmed_attachments req :
  ((λ v, MkVolumeAttachment (var_VolumeID v) (var_MountPath v)) <$> lr_Volumes (trimmed req)) =
  ((λ v, MkVolumeAttachment (TrimSpace (var_VolumeID v)) (TrimSpace (var_MountPath v))) <$> lr_Volumes req).
Proof. cbn. by rewrite <- list_fmap_compose. Qed.

Lemma Error_run err w :
  Error err w = (Ok (render (status_code (error_type err)) (BError (error_body err) (env_now (w_tick w)))),
                 w <| w_tick ::= S |>).
Proof. done. Qed.

(** C36: A launch is asked of the service exactly when the body of the request is read, its
    name without the surrounding space has one to 64 bytes and no character but letters,
    digits, hyphens and underscores, its image has one to 256 bytes, every attachment names
    a volume and an absolute path, and the VPC it names, if any, is an identifier; and then
    it is asked for with what the body gives.  Any other request is answered with status
    400 and changes nothing but the clock. *)
Theorem Launch_validates ctx rq w :
  (∃ req vpc, ShouldBindJSON rq = inr req ∧ acceptable req ∧ named_vpc req = Some vpc ∧
    InstanceHandler_Launch ctx rq w =
    respond (LaunchInstance ctx (TrimSpace (lr_Name req)) (TrimSpace (lr_Image req)) (lr_Ports req)
               vpc (named_subnet req)
               ((λ v, MkVolumeAttachment (TrimSpace (var_VolumeID v)) (TrimSpace (var_MountPath v)))
                  <$> lr_Volumes req))
      (λ inst, Success 201 (PInstance inst)) w) ∨
  ((∀ req, ShouldBindJSON rq = inr req → acceptable req → named_vpc req = None) ∧
   ∃ resp w', InstanceHandler_Launch ctx rq w = (Ok resp, w') ∧ resp_Status resp = 400 ∧
     (w' = w ∨ w' = w <| w_tick ::= S |>)).
Proof.
  unfold InstanceHandler_Launch, bind_body, invalid.
  destruct (ShouldBindJSON rq) as [err|req]; [right; split; [done|]; by do 2 eexists; split; [|split; [|right]]|].
  pose proof (validateLaunchRequest_spec req) as Hspec.
  destruct (validateLaunchRequest req) as [err|req']; destruct Hspec as [Hspec1 Hspec2].
  { right. split; [by intros ? [= <-] ?|]. do 2 eexists. split; [apply Error_run|]. by rewrite Hspec1; auto. }
  subst req'. unfold Parse.
  change (lr_VpcID (trimmed req)) with (lr_VpcID req). change (lr_SubnetID (trimmed req)) with (lr_SubnetID req).
  unfold named_vpc in *. case_bool_decide as Hempty.
  - left. exists req, None. rewrite decide_True by done. split_and!; try done.
    rewrite trimmed_attachments. unfold named_subnet. by case_bool_decide; case_decide.
  - destruct (uuid_parse (lr_VpcID req)) as [id|] eqn:Hid.
    + left. exists req, (Some id). rewrite decide_False, Hid by done. split_and!; try done.
      rewrite trimmed_attachments. unfold named_subnet. by case_bool_decide; case_decide.
    + right. split; [intros ? [= <-] _; by rewrite decide_False, Hid|]. by do 2 eexists; split; [|split; [|left]].
Qed.

(** ** What the handlers do not mean to do *)

(** An identifier of a subnet that cannot be read is dropped: the instance is launched outside
    any subnet instead of being refused, as one with a bad identifier of a VPC is. *)
Theorem bad_subnet_dropped ctx rq w req req' :
  ShouldBindJSON rq = inr req → validateLaunchRequest req = inr req' →
  lr_VpcID req' = "" → uuid_parse (lr_SubnetID req') = None →
  InstanceHandler_Launch ctx rq w =
  respond (LaunchInstance ctx (lr_Name req') (lr_Image req') (lr_Ports req') None None
             ((λ v, MkVolumeAttachment (var_VolumeID v) (var_MountPath v)) <$> lr_Volumes req'))
    (λ inst, Success 201 (PInstance inst)) w.
Proof.
  intros Hbind Hval Hvpc Hsub. unfold InstanceHandler_Launch, bind_body. rewrite Hbind, Hval.
  rewrite bool_decide_true by done. rewrite Hsub. by destruct (bool_decide _).
Qed.

(** A body that cannot be read is the client's fault, but the handlers that give the error of the
    binding to [httputil.Error] as it is answer with status 500. *)
Theorem malformed_body_is_500 ctx rq w text :
  ShouldBindJSON (T := CreateVolumeRequest) rq = inl (ExternalError text) →
  VolumeHandler_Create ctx rq w =
  (Ok (MkResponse 500 (BError (MkErrorBody "INTERNAL" "An unexpected error occurred" "INTERNAL")
                         (env_now (w_tick w)))), w <| w_tick ::= S |>).
Proof. intros Hbind. unfold VolumeHandler_Create, bind_body. by rewrite Hbind. Qed.

End handlers.

(** The same with the handlers that wrap it: status 400. *)
Lemma malformed_body_is_400 `{Env, Crypto, Gin} masterKey ctx rq w text :
  ShouldBindJSON (T := CreateSecretRequest) rq = inl (ExternalError text) →
  SecretHandler_Create masterKey ctx rq w =
  (Ok (MkResponse 400 (BError (MkErrorBody "INVALID_INPUT" text "INVALID_INPUT") (env_now (w_tick w)))),
   w <| w_tick ::= S |>).
Proof. intros Hbind. unfold SecretHandler_Create, bind_body. by rewrite Hbind. Qed.

(** * What a request to the server can do

    Every handler is a sequence of operations of the API in the name of the user of its
    context, with readings in between: what holds of the operations and of the reachable
    states holds of the server. *)

(** ** Sequences of operations *)

Definition op_step (P : ∀ A, M A → Prop) : relation World := λ w w',
  reads w w' ∨ ∃ A (m : M A), P A m ∧ w' = (m w).2.

(** Operations that satisfy [P], one after the other, with readings before and after. *)
Definition ran (P : ∀ A, M A → Prop) : relation World := rtc (op_step P).

Section ran.
Context (P : ∀ A, M A → Prop).

#[export] Instance ran_preorder : PreOrder (ran P).
Proof. unfold ran. apply _. Qed.
#[export] Instance ran_tick : TickOk (ran P).
Proof. intros w. apply rtc_once. by left. Qed.
#[export] Instance ran_call : CallOk (ran P).
Proof. intros c w. apply rtc_once. by left. Qed.

Lemma ran_op A (m : M A) : P A m → Steps (ran P) m.
Proof. intros Hm w. apply rtc_once. right. by exists A, m. Qed.

End ran.

Create HintDb api discriminated.
#[export] Hint Constants Opaque : api.
#[export] Hint Transparent GetUserID : api.
#[export] Hint Constructors public_api identity_api compute_api orchestration_api data_api user_api : api.

(** An operation of the inductive [P], which is told by its head. *)
Ltac run_op :=
  lazymatch goal with
  | |- Steps (ran _) ?m =>
      let h := head_of m in
      lazymatch h with
      | @mbind => fail | @mret => fail | @attempt => fail | @ignore => fail | @wrap_err => fail
      | @perform => fail | @db_rows => fail | @db_query => fail | @db_exec => fail
      | _ => apply ran_op; solve [eauto 2 with api nocore]
      end
  end.
#[export] Hint Extern 0 (Steps (ran _) _) => run_op : typeclass_instances.
#[export] Hint Extern 60 (Steps (ran _) _) => unfold_prog : typeclass_instances.

Section handlers.
Context `{Env, Crypto, HttpEnv, CronParser, ZipReader, Formats, UnicodeTables, Gin} (cfg : Config).

Section user.
Context (ctx : Context).
Notation Runs := (Steps (ran (user_api cfg ctx))).

#[local] Instance stream_summaries_runs n : Runs (stream_summaries ctx n).
Proof. induction n as [|n IH]; cbn; apply _. Qed.

(** A new role is stored the same whether or not the handler looks at it afterwards. *)
#[local] Instance created_role_runs role : Runs (created_role role).
Proof.
  intros w. assert ((created_role role w).2 = (CreateRole role w).2) as ->.
  { unfold created_role, CreateRole, mbind, M_bind, mret, M_ret.
    case_bool_decide; cbn; repeat case_match; by simplify_eq. }
  apply (ran_op _ _ (CreateRole role)). eauto 2 with api nocore.
Qed.

Lemma user_handlers_run : Forall (λ h, ∀ rq, Runs (h.2 ctx rq)) (user_handlers cfg).
Proof. repeat (constructor; [cbn [snd]; intros rq; apply _|]); constructor. Qed.

End user.

Lemma public_handlers_run : Forall (λ h, ∀ rq, Steps (ran public_api) (h.2 None rq)) public_handlers.
Proof. repeat (constructor; [cbn [snd]; intros rq; apply _|]); constructor. Qed.

(** ** The table and its handlers *)

Lemma lookup_handler_In l name h : lookup_handler l name = Some h → ∃ n, (n, h) ∈ l.
Proof.
  unfold lookup_handler. destruct (find _ l) as [[n h']|] eqn:Hf; [|done]. cbn. intros [= ->].
  apply find_some in Hf as [Hin _]. exists n. by apply list_elem_of_In.
Qed.

(** What the handler of an endpoint can run, in the context the middlewares leave. *)
Lemma handler_runs e h ctx rq :
  handler_of cfg e = Some h →
  if ep_Auth e then Steps (ran (user_api cfg ctx)) (h ctx rq) else Steps (ran public_api) (h None rq).
Proof.
  unfold handler_of. intros Hh. destruct (ep_Auth e); apply lookup_handler_In in Hh as [n Hin].
  - pose proof (user_handlers_run ctx) as Hall. rewrite Forall_forall in Hall. apply (Hall _ Hin).
  - pose proof public_handlers_run as Hall. rewrite Forall_forall in Hall. apply (Hall _ Hin).
Qed.

Lemma gate_reads e apiKey : Steps reads (gate e apiKey).
Proof.
  assert (∀ ctx p, Steps reads (Permission ctx p)) as Hp.
  { intros ctx p. unfold Permission, Authorize, HasPermission, role_GetRoleByName,
      role_GetPermissionsForRole, user_GetByID. apply _. }
  unfold gate, Auth, ValidateAPIKey, GetAPIKeyByKey. destruct (ep_Auth e), (ep_Permission e); apply _.
Qed.

Lemma ran_mono P Q w w' : (∀ A (m : M A), P A m → Q A m) → ran P w w' → ran Q w w'.
Proof.
  intros HPQ Hr. unfold ran in *. eapply (rtc_subrel _ _ _ _ _ Hr). Unshelve.
  intros v v' [Hv|(A & m & Hm & ->)]; [by left|right]. exists A, m. split; [by apply HPQ|done].
Qed.

Lemma user_is_api ctx A (m : M A) : user_api cfg ctx A m → api cfg A m.
Proof. intros [? ? Hm|? ? Hm|? ? Hm|? ? Hm]; econstructor; exact Hm. Qed.

(** A response in the world after the readings of the middlewares. *)
Lemma answer_inv e h rq w :
  ∃ w1, reads w w1 ∧
    ((∃ err, answer e h rq w = Error err w1) ∨
     (∃ ctx, gate e (GetHeader rq "X-API-Key") w = (Ok ctx, w1) ∧ answer e h rq w = h ctx rq w1) ∨
     (∃ p, answer e h rq w = (Panic p, w1))).
Proof.
  pose proof (gate_reads e (GetHeader rq "X-API-Key") w) as Hg.
  unfold answer, mbind, M_bind, attempt. destruct (gate _ _ w) as [[ctx|err|p] w1]; exists w1; split; eauto.
Qed.

Lemma answer_runs e h rq : handler_of cfg e = Some h → Steps (ran (api cfg)) (answer e h rq).
Proof.
  intros Hh w. destruct (answer_inv e h rq w) as (w1 & Hr & Hcase).
  assert (ran (api cfg) w w1) as Hran by (apply rtc_once; by left).
  destruct Hcase as [[err ->]|[(ctx & Hgate & ->)|[p ->]]].
  - etransitivity; [exact Hran|]. apply (steps (R := ran (api cfg)) (m := Error err)).
  - etransitivity; [exact Hran|]. pose proof (handler_runs e h ctx rq Hh) as Hs.
    assert (ep_Auth e = false → ctx = None) as Hctx.
    { intros Ha. unfold gate in Hgate. rewrite Ha in Hgate. by injection Hgate as <- _. }
    destruct (ep_Auth e).
    + eapply ran_mono; [|apply Hs]. apply user_is_api.
    + rewrite (Hctx eq_refl). eapply ran_mono; [|apply Hs]. intros A m Hm. by constructor.
  - exact Hran.
Qed.

End handlers.

(** Every endpoint of the routing table has its handler, but the two that belong to other
    packages. *)
Theorem endpoints_have_handlers
    `{Env, Crypto, HttpEnv, CronParser, ZipReader, Formats, UnicodeTables, Gin} cfg e :
  e ∈ endpoints → is_Some (handler_of cfg e) ∨ ep_Handler e ∈ ["promhttp"; "ginSwagger"].
Proof.
  assert (forallb (λ e, match handler_of cfg e with
                        | Some _ => true
                        | None => mem (ep_Handler e) ["promhttp"; "ginSwagger"]
                        end) endpoints = true) as Hall by (vm_compute; reflexivity).
  rewrite forallb_forall in Hall. intros He%list_elem_of_In. specialize (Hall e He).
  destruct (handler_of cfg e); [left; by eexists|right; by apply mem_true].
Qed.

(** ** Handlers answer *)

(** A handler ends with a response or panics: the error of the service is in the response. *)
Class Answers {A} (m : M A) := answers : ∀ w, match (m w).1 with Err _ => False | _ => True end.
#[export] Hint Mode Answers - ! : typeclass_instances.

Section answers.
Context `{Env}.
Implicit Types A B : Type.

#[export] Instance answers_ret A (a : A) : Answers (mret a : M A).
Proof. done. Qed.
#[export] Instance answers_attempt A (m : M A) : Answers (attempt m).
Proof. intros w. unfold attempt. by destruct (m w) as [[]]. Qed.
#[export] Instance answers_Now : Answers Now.
Proof. done. Qed.
#[export] Instance answers_bind A B (m : M A) (f : A → M B) :
  Answers m → (∀ a, Answers (f a)) → Answers (m ≫= f).
Proof.
  intros Hm Hf w. specialize (Hm w). unfold mbind, M_bind. destruct (m w) as [[a|e|p] w1]; [apply Hf|done|done].
Qed.
#[export] Instance answers_ignore A (m : M A) : Answers (ignore m).
Proof. unfold ignore. apply _. Qed.
#[export] Instance answers_Error err : Answers (Error err).
Proof. unfold Error. destruct (http_error err). apply _. Qed.
#[export] Instance answers_Success st p : Answers (Success st p).
Proof. unfold Success. apply _. Qed.
#[export] Instance answers_respond A (m : M A) ok : (∀ a, Answers (ok a)) → Answers (respond m ok).
Proof. intros. unfold respond. apply answers_bind; [apply _|intros []; apply _]. Qed.
#[export] Instance answers_bind_body `{Bindable T} rq bad ok :
  (∀ err, Answers (bad err)) → (∀ req, Answers (ok req)) → Answers (bind_body (T := T) rq bad ok).
Proof. intros. unfold bind_body. destruct (ShouldBindJSON rq); apply _. Qed.
#[export] Instance answers_param_uuid `{Gin} rq name bad ok :
  (∀ err, Answers (bad err)) → (∀ id, Answers (ok id)) → Answers (param_uuid rq name bad ok).
Proof. intros. unfold param_uuid. destruct (Parse _); apply _. Qed.

End answers.

(** A handler is taken apart down to these. *)
Ltac unfold_answer :=
  lazymatch goal with
  | |- Answers ?m =>
      let h := head_of m in
      lazymatch h with
      | @mbind => fail | @mret => fail | @attempt => fail | @ignore => fail | @respond => fail
      | @bind_body => fail | @param_uuid => fail
      | _ => unfold h
      end
  end.
#[export] Hint Extern 1 (Answers (match ?x with _ => _ end)) => destruct x : typeclass_instances.
#[export] Hint Extern 1 (Answers (let '(_, _) := ?x in _)) => destruct x : typeclass_instances.
#[export] Hint Extern 60 (Answers _) => unfold_answer : typeclass_instances.

Section answer.
Context `{Env, Crypto, HttpEnv, CronParser, ZipReader, Formats, UnicodeTables, Gin} (cfg : Config).

#[local] Instance stream_answers ctx n : Answers (stream_summaries ctx n).
Proof. induction n as [|n IH]; cbn; apply _. Qed.

Lemma user_handlers_answer : Forall (λ h, ∀ ctx rq, Answers (h.2 ctx rq)) (user_handlers cfg).
Proof. repeat (constructor; [cbn [snd]; intros ctx rq; apply _|]); constructor. Qed.
Lemma public_handlers_answer : Forall (λ h, ∀ ctx rq, Answers (h.2 ctx rq)) public_handlers.
Proof. repeat (constructor; [cbn [snd]; intros ctx rq; apply _|]); constructor. Qed.

(** No request makes a handler end with an error: there is a response, or a panic, which the
    server turns into status 500. *)
Lemma answer_no_error e h rq w err w' : handler_of cfg e = Some h → answer e h rq w ≠ (Err err, w').
Proof.
  intros Hh Hrun. assert (∀ ctx, Answers (h ctx rq)) as Hans.
  { intros ctx. unfold handler_of in Hh. destruct (ep_Auth e); apply lookup_handler_In in Hh as [n Hin].
    - pose proof user_handlers_answer as Hall. rewrite Forall_forall in Hall. apply (Hall _ Hin).
    - pose proof public_handlers_answer as Hall. rewrite Forall_forall in Hall. apply (Hall _ Hin). }
  assert (Answers (answer e h rq)) as Ha.
  { unfold answer. apply answers_bind; [apply _|intros []; apply _]. }
  specialize (Ha w). by rewrite Hrun in Ha.
Qed.

End answer.

(** ** The server *)

Section server.
Context `{Env, Crypto, HttpEnv, CronParser, ZipReader, Formats, UnicodeTables, Gin} (cfg : Config).
Context {Limiter : Type} (NewLimiter NewAuthLimiter : Limiter) (Allow : Limiter → time → bool * Limiter).
Context (other : option Endpoint → Request → Response).

Notation serve := (ServeHTTP cfg NewLimiter NewAuthLimiter Allow other).
Notation Server := (@Server Limiter).
Notation world := (@sv_world Limiter).

Lemma RequestID_reads rq : Steps reads (RequestID rq).
Proof. unfold RequestID. destruct (bool_decide _); apply _. Qed.

Lemma allowed_reads fresh m rq w ok m' w' : allowed Allow fresh m rq w = (ok, m', w') → reads w w'.
Proof. unfold allowed. intros [= _ <-]. apply tick_ok. Qed.

(** A request either stops before its handler, with a status of its own, or gets the answer of
    the handler, and the world only ticks before. *)
Lemma serve_inv e rq s resp s' :
  serve e rq s = (resp, s') →
  ∃ w1, reads (world s) w1 ∧
    ((world s' = w1 ∧ (resp_Status (rp_Response resp) ∈ [204; 429] ∨
        rp_Response resp = other e rq ∧ ∀ ep, e = Some ep → handler_of cfg ep = None)) ∨
     (∃ ep h, e = Some ep ∧ handler_of cfg ep = Some h ∧
        rp_Response resp = outcome (answer ep h rq w1).1 ∧ world s' = (answer ep h rq w1).2)).
Proof.
  unfold ServeHTTP. pose proof (RequestID_reads rq (world s)) as Hid.
  destruct (RequestID rq (world s)) as [rid w]. cbn in Hid.
  destruct (bool_decide (rq_Method rq = "OPTIONS")).
  { intros [= <- <-]. exists w. split; [done|]. left. split; [done|]. left. cbn. set_solver. }
  destruct (allowed Allow NewLimiter (sv_limiter s) rq w) as [[ok l] w1] eqn:Hallow.
  apply allowed_reads in Hallow. assert (reads (world s) w1) as Hw1 by (by etransitivity).
  destruct ok.
  2:{ intros [= <- <-]. exists w1. split; [done|]. left. split; [done|]. left. cbn. set_solver. }
  destruct e as [ep|]; [|intros [= <- <-]; exists w1; split; [done|]; left; split; [done|by right]].
  unfold serve_route. cbn [sv_world sv_authLimiter sv_limiter].
  destruct (if mem _ _ then _ else _) as [[ok l'] w2] eqn:Hauth.
  assert (reads (world s) w2) as Hw2.
  { destruct (mem _ _); [apply allowed_reads in Hauth; by etransitivity|by injection Hauth as _ _ <-]. }
  destruct ok.
  2:{ intros [= <- <-]. exists w2. split; [done|]. left. split; [done|]. left. cbn. set_solver. }
  destruct (handler_of cfg ep) as [h|] eqn:Hh.
  - destruct (answer ep h rq w2) as [r w3] eqn:Ha. intros [= <- <-]. exists w2. split; [done|]. right.
    exists ep, h. by rewrite Ha.
  - intros [= <- <-]. exists w2. split; [done|]. left. split; [done|]. right. split; [done|]. by intros ? [= <-].
Qed.

Lemma reachable_ran w w' : reachable cfg w → ran (api cfg) w w' → reachable cfg w'.
Proof.
  intros Hw Hr. revert Hw. unfold ran in Hr. induction Hr as [w|w1 w2 w3 Hs _ IH]; [done|]. intros Hw. apply IH. eapply reach_step; [exact Hw|].
  destruct Hs as [Hs|(A & m & Hm & ->)]; [by apply step_reads|by apply step_api].
Qed.

(** C2: The server implements the transition system: whatever is asked of it, with any limiter
    and any failure, a request takes a reachable state to a reachable state, by operations of
    the API with readings in between.  What holds in the reachable states holds behind the
    server. *)
Theorem server_refines e rq s resp s' :
  reachable cfg (world s) → serve e rq s = (resp, s') →
  ran (api cfg) (world s) (world s') ∧ reachable cfg (world s').
Proof.
  intros Hs Hrun. assert (ran (api cfg) (world s) (world s')) as Hran.
  { apply serve_inv in Hrun as (w1 & Hw1 & [[-> _]|(ep & h & _ & Hh & _ & ->)]); [apply rtc_once; by left|].
    etransitivity; [apply rtc_once; left; exact Hw1|]. by apply answer_runs. }
  split; [done|]. by eapply reachable_ran.
Qed.

(** ** Isolation at the door *)

Lemma foreign_rows_reads user w w' : reads w w' → foreign_rows user w' = foreign_rows user w.
Proof. by intros ->. Qed.
Lemma well_keyed_reads w w' : reads w w' → well_keyed w → well_keyed w'.
Proof. by intros ->. Qed.

Lemma undisturbed_reads user w w' : reads w w' → undisturbed user w w'.
Proof.
  intros ->. split_and!; [done|..]; intros k r Hr _; exists r; (split; [done|by left]).
Qed.

Lemma ran_isolated `{!OrderLaws} ctx w w' :
  well_keyed w → ran (user_api cfg ctx) w w' → undisturbed (UserIDFromContext ctx) w w'.
Proof.
  intros Hw Hr. assert (foreign_rows (UserIDFromContext ctx) w' = foreign_rows (UserIDFromContext ctx) w ∧
    detached_rows ctx w w') as []; [|by apply undisturbed_intro].
  revert Hw. unfold ran in Hr. induction Hr as [w|w1 w2 w3 Hs _ IH]; [done|]. intros Hw.
  destruct Hs as [Hs|(A & m & Hm & ->)].
  - destruct IH as [IH1 IH2]; [by eapply well_keyed_reads|]. rewrite IH1, (foreign_rows_reads _ _ _ Hs).
    split; [done|]. etransitivity; [|exact IH2]. split; by apply same_detaches; apply reads_ok.
  - destruct IH as [IH1 IH2].
    { eapply (step_keyed cfg); [|exact Hw]. apply step_api. by eapply user_is_api. }
    split; [by rewrite IH1; eapply tenant_rows|]. etransitivity; [by eapply tenant_detached|exact IH2].
Qed.

Lemma undisturbed_from_reads user w w1 w2 : reads w w1 → undisturbed user w1 w2 → undisturbed user w w2.
Proof. by intros ->. Qed.

(** C1: Whatever is asked of an endpoint that asks for an API key, the request changes, adds or
    removes no row of anybody but the owner of the key in the thirteen tables of [foreign_rows],
    in any column; but the deletion of an instance or a VPC of the owner clears the references to
    it in the volumes and databases of others, and nothing else of those rows. A key that is
    nobody's changes no row at all. *)
Theorem request_isolation `{!OrderLaws} e rq s resp s' userID :
  well_keyed (world s) → ep_Auth e = true → serve (Some e) rq s = (resp, s') →
  (∀ owner, key_of (world s) (GetHeader rq "X-API-Key") owner → owner = userID) →
  undisturbed userID (world s) (world s').
Proof.
  intros Hw Ha Hrun Howner.
  apply serve_inv in Hrun as (w1 & Hw1 & [[-> _]|(ep & h & [= <-] & Hh & _ & ->)]); [by apply undisturbed_reads|].
  apply (undisturbed_from_reads _ _ _ _ Hw1). apply (well_keyed_reads _ _ Hw1) in Hw as Hkeyed.
  destruct (answer_inv e h rq w1) as (w2 & Hw2 & [[err ->]|[(ctx & Hgate & ->)|[p ->]]]).
  - apply undisturbed_reads. etransitivity; [exact Hw2|].
    unfold Error. destruct (http_error err). apply (steps (R := reads) (m := Now ≫= _)).
  - pose proof (handler_runs cfg e h ctx rq Hh) as Hs. rewrite Ha in Hs. specialize (Hs w2).
    unfold gate in Hgate. rewrite Ha in Hgate. ok_step Hgate c w3.
    apply Auth_Ok in Hrun as (-> & _ & owner & -> & Hkey).
    assert (ctx = Some owner) as -> by (ok_step Hgate v w4; by injection Hgate as <- _).
    assert (owner = userID) as -> by (apply Howner; unfold reads in Hw1; rewrite Hw1 in Hkey; exact Hkey).
    apply (well_keyed_reads _ _ Hw2) in Hkeyed. apply (ran_isolated (Some userID)) in Hs; [|done].
    by apply (undisturbed_from_reads _ _ _ _ Hw2).
  - by apply undisturbed_reads.
Qed.

(** C5: A request without a key of the table to an endpoint that asks for one is refused with
    status 401, unless a limiter or the check of another origin stops it before, and nothing
    but the clock moves. *)
Theorem keyless_request_refused `{!OrderLaws} e h rq s resp s' :
  ep_Auth e = true → handler_of cfg e = Some h → (∀ owner, ¬ key_of (world s) (GetHeader rq "X-API-Key") owner) →
  serve (Some e) rq s = (resp, s') →
  reads (world s) (world s') ∧ resp_Status (rp_Response resp) ∈ [204; 429; 401].
Proof.
  intros Ha Hh Hno Hrun.
  apply serve_inv in Hrun as (w1 & Hw1 & [[-> [Hst|[_ Hnone]]]|(ep & h' & [= <-] & _ & -> & ->)]).
  { split; [done|]. revert Hst. rewrite !elem_of_cons. tauto. }
  { by rewrite (Hnone e eq_refl) in Hh. }
  destruct (Auth (GetHeader rq "X-API-Key") None w1) as [r w2] eqn:Hauth.
  assert (∃ msg, r = Err (New Unauthorized msg)) as [msg ->].
  { destruct r as [ctx|err|p].
    - apply Auth_Ok in Hauth as (_ & _ & owner & _ & Hkey). destruct (Hno owner).
      unfold reads in Hw1. rewrite Hw1 in Hkey. exact Hkey.
    - unfold Auth in Hauth. apply bind_Err_inv in Hauth as [Hg|(u & w3 & _ & Hrest)].
      + destruct (bool_decide _); [injection Hg as <- _; by eexists|done].
      + apply bind_Err_inv in Hrest as [Hv|(k & w4 & _ & Hk)]; [|done].
        apply wrap_err_Err in Hv as (e0 & -> & _). by eexists.
    - pose proof (no_panic (m := Auth (GetHeader rq "X-API-Key") None) w1) as Hp. by rewrite Hauth in Hp. }
  assert (answer e h' rq w1 = Error (New Unauthorized msg) w2) as ->.
  { unfold answer, gate. rewrite Ha. unfold mbind, M_bind, attempt. by rewrite Hauth. }
  assert (reads w1 w2) as Hw2.
  { pose proof (gate_reads e (GetHeader rq "X-API-Key") w1) as Hg. unfold gate in Hg. rewrite Ha in Hg.
    unfold mbind, M_bind in Hg. by rewrite Hauth in Hg. }
  split; [|cbn; set_solver].
  etransitivity; [exact Hw1|]. etransitivity; [exact Hw2|].
  apply (steps (R := reads) (m := Error (New Unauthorized msg))).
Qed.

End server.

(** ** The handshake of a WebSocket *)

Section ws.
Context `{Env, Gin} (upgrade : Request → bool).

(** A client of the hub has an API key of the table; it is the key, not its owner, that the
    client is named by. *)
Theorem connected_with_key `{!OrderLaws} rq w userID w' :
  ServeWS upgrade rq w = (Ok (Connected userID), w') →
  w' = w <| w_tick ::= S |> ∧ userID = Query rq "api_key" ∧ userID ≠ "" ∧
  ∃ owner, key_of w userID owner.
Proof.
  unfold ServeWS. intros Hrun. case_bool_decide as Hne; [done|].
  unfold mbind, M_bind, attempt in Hrun.
  destruct (ValidateAPIKey (Query rq "api_key") w) as [[k|err|p] w1] eqn:Hk; [|done|done].
  destruct (upgrade rq); [|done]. injection Hrun as <- <-.
  assert (Auth (Query rq "api_key") None w = (Ok (WithUserID None (ak_UserID k)), w1)) as Hauth.
  { unfold Auth. rewrite bool_decide_false by done. change (guard_err false _) with (mret () : M unit).
    rewrite mret_bind. unfold mbind, M_bind, wrap_err. by rewrite Hk. }
  apply Auth_Ok in Hauth as (-> & _ & owner & _ & Hkey). by split_and!; [..|exists owner].
Qed.

End ws.
