(* ===== verification/PlatformWitnesses.v ===== *)
(** * Concrete instances of the other parameters, and the theorems on reachable states, users,
    keys and the gate evaluated with them *)
From S2P Require Import Prelude GoStd Encoding Net Errors Domain DomainData World Logic Sql Concrete Storage.
From S2P Require Import Secret Http Cron Function Stack Rbac System InstanceRepo NetworkRepo InstanceService.
From S2P Require Import VolumeService NetworkService Auth SecurityGroup Router Invariants Keyed Isolation.
From S2P Require Import SecurityGroupProofs RbacProofs AuthProofs SecretProofs Reach.

(** * Concrete instances of the other parameters

    Cryptography, URLs, schedules, archives and templates that compute and obey the laws, next
    to the environment of [Concrete]: the theorems of the services that use them are
    evaluated with these. *)

(** ** Cryptography

    A ciphertext is a byte that depends on the key, and the plaintext as a list of bits. *)

Fixpoint pos_bit_list (p : positive) : list N :=
  match p with xH => [] | xO q => 0%N :: pos_bit_list q | xI q => 1%N :: pos_bit_list q end.

Fixpoint bit_list_pos (l : list N) : positive :=
  match l with [] => xH | b :: l => if (b =? 0)%N then xO (bit_list_pos l) else xI (bit_list_pos l) end.

Lemma bit_list_pos_bits p : bit_list_pos (pos_bit_list p) = p.
Proof. induction p; cbn; congruence. Qed.

Definition checksum (k : list N) : N := (foldr N.add 0 k mod 256)%N.

Definition demo_seal (k nonce p : list N) : list N := checksum k :: pos_bit_list (encode p).

Definition demo_open (k nonce c : list N) : option (list N) :=
  match c with
  | x :: bits => if (x =? checksum k)%N then decode (bit_list_pos bits) else None
  | [] => None
  end.

#[export] Instance demo_crypto : Crypto := {|
  env_rand t n := (λ i, (N.of_nat t / 256 ^ N.of_nat i) mod 256)%N <$> seq 0 n;
  env_rand_int t i n := (N.of_nat (t + i) mod n)%N;
  hkdf_sha256 secret salt info n := take n (salt ++ secret ++ info ++ replicate n 0%N);
  gcm_seal := demo_seal;
  gcm_open := demo_open;
  sha256 l := take 32 (l ++ replicate 32 0%N);
  bcrypt_hash _ p := "hash of " +:+ p;
  bcrypt_compare h p := bool_decide (h = "hash of " +:+ p);
  password_weak p := if (String.length p <? 8)%nat then Some (ExternalError "insecure password") else None;
|}.

Lemma mod_byte_ok n : byte_ok (n mod 256)%N.
Proof. unfold byte_ok. apply N.mod_lt. done. Qed.

Lemma pos_bit_list_bytes p : Forall byte_ok (pos_bit_list p).
Proof. induction p; cbn; constructor; try done; unfold byte_ok; lia. Qed.

#[export] Instance demo_crypto_laws : CryptoLaws.
Proof.
  constructor; cbn.
  - intros t n. by rewrite length_fmap, length_seq.
  - intros t n. apply Forall_fmap, Forall_forall. intros i _. apply mod_byte_ok.
  - intros t i n Hn. apply N.mod_lt. lia.
  - intros secret salt info n. rewrite length_take, !length_app, length_replicate. lia.
  - intros k n p. constructor; [apply mod_byte_ok|apply pos_bit_list_bytes].
  - intros k n p. by rewrite N.eqb_refl, bit_list_pos_bits, decode_encode.
  - intros t p _. by rewrite bool_decide_true.
Qed.

(** ** URLs, schedules, archives and templates *)

(** The text before the first slash, and the rest. *)
Fixpoint before_slash (s : string) : string * string :=
  match s with
  | EmptyString => ("", "")
  | String a s' =>
      if bool_decide (a = "/"%char) then ("", s)
      else let '(host, path) := before_slash s' in (String a host, path)
  end.

#[export] Instance demo_http : HttpEnv := {|
  url_Parse s :=
    if HasPrefix s "http://" then
      let '(host, path) := before_slash (str_drop 7 s) in inr (MkURL "http" host path "")
    else inl (Errorf "parse: no URL");
  quote s := "<" +:+ s +:+ ">";
|}.

(** Every minute, and daily as a descriptor. *)
#[export] Instance demo_cron : CronParser := {|
  cron_Parse descriptors s :=
    if bool_decide (s = "* * * * *") then inr (λ t, t + 60000000000)
    else if descriptors && bool_decide (s = "@daily") then inr (λ t, t + 86400000000000)
    else inl (Errorf "expected exactly 5 fields");
|}.

(** An archive is "PK" and the name of its only file. *)
#[export] Instance demo_zip : ZipReader := {|
  zip_NewReader s :=
    if HasPrefix s "PK" then inr [MkZipFile (str_drop 2 s) false (inr (MkReader "code" None))]
    else inl (Errorf "zip: not a valid zip file");
|}.

(** Two templates: a VPC, and a VPC with a snapshot of no volume, which fails. *)
Definition network_resources : gmap string ResourceDefinition :=
  {["Net" := MkResourceDefinition "VPC" ∅]}.

Definition broken_resources : gmap string ResourceDefinition :=
  <["Copy" := MkResourceDefinition "Snapshot" ∅]> network_resources.

#[export] Instance demo_formats : Formats := {|
  yaml_Unmarshal s :=
    if bool_decide (s = "network") then inr (MkTemplate network_resources)
    else if bool_decide (s = "broken") then inr (MkTemplate broken_resources)
    else inl (Errorf "yaml: cannot unmarshal");
  json_params _ := "{}";
|}.

Definition demo_config : Config :=
  MkConfig (replicate 32 7%N) "/var/lib/thecloud" "10.0.0.0/16" (Some "/srv").

(** * The theorems on reachable states, users, keys and the gate at concrete inputs

    One run per theorem with the instances above and of [Concrete]. *)

#[local] Existing Instance demo.

#[local] Notation cfg := demo_config.


(** ** A history *)

Definition carol_email : string := "carol@example.org".

(** A user registers, mistypes the password once and logs in. *)
Definition registered : World := after (Register None carol_email "correct horse" "Carol") seeded_world.
Definition mistyped : World := after (Login None carol_email "wrong horse") registered.
Definition logged_in : World := after (Login None carol_email "correct horse") mistyped.

Definition carol : uuid := 3%N.
Definition carol_ctx : Context := WithUserID None carol.

(** She stores a secret, launches an instance in a VPC and puts it into a security group. *)
Definition with_secret : World :=
  after (CreateSecret (cfg_masterKey cfg) carol_ctx "db" "s3cret" "of the database") logged_in.
Definition with_vpc : World := after (CreateVPC (cfg_defaultCIDR cfg) carol_ctx "net" "10.1.0.0/16") with_secret.
Definition carol_vpc : uuid := 33%N.
Definition with_instance : World :=
  after (LaunchInstance carol_ctx "web" "nginx" "8080:80" (Some carol_vpc) None []) with_vpc.
Definition carol_instance : uuid := 39%N.
Definition with_group : World := after (secg_CreateGroup carol_ctx carol_vpc "web" "") with_instance.
Definition carol_group : uuid := 52%N.
Definition attached : World := after (AttachToInstance carol_ctx carol_instance carol_group) with_group.
Definition history : World := after (RequestReset carol_email) attached.

Lemma reach_after w A (m : M A) : reachable cfg w → api cfg A m → reachable cfg (after m w).
Proof. intros Hw Hm. eapply reach_step; [exact Hw|]. by apply step_api. Qed.

Lemma registered_reachable : reachable cfg registered.
Proof. apply reach_after; [constructor|]. apply api_public. constructor. Qed.

Lemma mistyped_reachable : reachable cfg mistyped.
Proof. apply reach_after; [apply registered_reachable|]. apply api_public. constructor. Qed.

Lemma history_reachable : reachable cfg history.
Proof.
  apply reach_after; [|apply api_public; constructor].
  apply reach_after; [|apply (api_compute _ carol_ctx); constructor].
  apply reach_after; [|apply (api_compute _ carol_ctx); constructor].
  apply reach_after; [|apply (api_compute _ carol_ctx); constructor].
  apply reach_after; [|apply (api_compute _ carol_ctx); constructor].
  apply reach_after; [|apply (api_data _ carol_ctx); constructor].
  apply reach_after; [|apply api_public; constructor].
  apply mistyped_reachable.
Qed.

(** ** Invariants *)

Lemma reachable_keyed_witness :
  reachable cfg history ∧ well_keyed history ∧ size (t_sg_instances history) = 1%nat.
Proof.
  split; [apply history_reachable|]. split; [|vm_compute; reflexivity].
  apply (reachable_keyed cfg). apply history_reachable.
Defined.

Lemma reachable_sealed_witness :
  reachable cfg history ∧ sealed_table (cfg_masterKey cfg) (t_secrets history) ∧ size (t_secrets history) = 1%nat.
Proof.
  split; [apply history_reachable|]. split; [|vm_compute; reflexivity].
  apply (reachable_sealed cfg). apply history_reachable.
Defined.

(** Six logins with a wrong password that all read the lockout before the first is counted. *)
Definition six_checks : World :=
  fold_right (λ _ w, after (check_lockout carol_email) w) registered (seq 0 6).
Definition six_wrong : World :=
  fold_right (λ _ w, after (login_checked None carol_email "wrong horse") w) six_checks (seq 0 6).

Lemma six_wrong_reachable : reachable cfg six_wrong.
Proof.
  unfold six_wrong, six_checks. cbn [seq fold_right].
  do 12 (apply reach_after; [|apply api_public; constructor]). apply registered_reachable.
Qed.

Lemma reachable_lockout_witness :
  reachable cfg six_wrong ∧ failures carol_email six_wrong = 6 ∧
  (Login None carol_email "correct horse" six_wrong).1 =
    Err (New Unauthorized "account is locked due to too many failed attempts").
Proof.
  split; [apply six_wrong_reachable|]. split; [vm_compute; reflexivity|].
  destruct (reachable_lockout cfg six_wrong carol_email) as (t & Ht & Hlogin);
    [apply six_wrong_reachable|vm_compute; discriminate|].
  rewrite Hlogin; [reflexivity|]. revert Ht. vm_compute. intros [= <-]. reflexivity.
Defined.

Lemma reachable_unique_witness :
  reachable cfg history ∧ keys_unique history ∧ tokens_unique history ∧
  size (t_api_keys history) = 1%nat ∧ size (t_reset_tokens history) = 1%nat.
Proof.
  split; [apply history_reachable|].
  destruct (reachable_unique cfg history history_reachable) as [Hk Ht].
  split; [exact Hk|]. split; [exact Ht|]. split; vm_compute; reflexivity.
Defined.

Lemma reachable_members_witness :
  reachable cfg history ∧
  ∃ inst sg, t_instances history !! carol_instance = Some inst ∧
    t_security_groups history !! carol_group = Some sg ∧ inst_UserID inst = secg_UserID sg.
Proof.
  split; [apply history_reachable|].
  apply (reachable_members cfg history history_reachable carol_instance carol_group).
  vm_compute. eexists. reflexivity.
Defined.

(** ** Tenants *)

(** [bob] launches an instance and leaves what [alice] has alone. *)
Definition bob_launch : M Instance := LaunchInstance bob_ctx "web" "nginx" "8080:80" None None [].

Lemma demo_world_keyed : well_keyed demo_world.
Proof. unfold well_keyed. split_and!; apply keyed_check; vm_compute; reflexivity. Qed.

Lemma tenant_isolation_witness :
  is_ok (bob_launch demo_world) = true ∧
  foreign_rows bob (after bob_launch demo_world) = foreign_rows bob demo_world ∧
  f_volumes (foreign_rows bob demo_world) !! 3%N = Some demo_volume.
Proof.
  split; [vm_compute; reflexivity|]. split; [|vm_compute; reflexivity].
  apply (tenant_isolation cfg bob_ctx Instance bob_launch demo_world).
  - apply user_compute. constructor.
  - apply demo_world_keyed.
Defined.

(** ** Logins *)

Definition wrong_passwords : list string := replicate 5 "wrong horse".

Lemma wrong_passwords_wrong pw k u :
  pw ∈ wrong_passwords → t_users registered !! k = Some u → user_Email u = carol_email →
  bcrypt_compare (user_PasswordHash u) pw = false.
Proof.
  intros ->%elem_of_replicate_inv Hk _. apply negb_true_iff.
  apply (rows_check (λ _ u, negb (bcrypt_compare (user_PasswordHash u) "wrong horse")) (t_users registered))
    with (k := k); [vm_compute; reflexivity|exact Hk].
Qed.

Lemma five_failures_lock_witness :
  let w1 := after (try_logins None carol_email wrong_passwords) registered in
  (Login None carol_email "correct horse" w1).1 =
    Err (New Unauthorized "account is locked due to too many failed attempts").
Proof.
  intros w1.
  destruct (five_failures_lock None carol_email wrong_passwords registered
    (try_logins None carol_email wrong_passwords registered).1 w1)
    as (t & Ht & Hnow & Hlogin);
    [vm_compute; reflexivity|vm_compute; reflexivity|reflexivity|apply wrong_passwords_wrong|apply surjective_pairing|].
  apply (Hlogin w1); [reflexivity|]. rewrite Hnow. vm_compute. reflexivity.
Defined.

Lemma no_keys_unique w : t_api_keys w = ∅ → keys_unique w.
Proof. intros Hw k1 k2 r1 r2 H1. by rewrite Hw, lookup_empty in H1. Qed.

Lemma Login_key_opens_witness :
  ∃ user key w1, Login None carol_email "correct horse" mistyped = (Ok (user, key), w1) ∧
    failures carol_email w1 = 0 ∧ ∃ w2, Auth key None w1 = (Ok (Some (user_ID user)), w2).
Proof.
  run_ok x w1 Hrun. destruct x as [user key]. exists user, key, w1. split; [exact Hrun|].
  assert (keys_unique mistyped) as Hu by (apply no_keys_unique; vm_compute; reflexivity).
  destruct (Login_key_opens None carol_email "correct horse" mistyped user key w1 Hu Hrun)
    as (_ & _ & _ & Hf & _ & _ & Hauth).
  split; [exact Hf|apply Hauth].
Defined.

(** ** Resets *)

Definition carol_token : string := hex_encode (env_rand 66 32).

Lemma ResetPassword_effect_witness :
  ∃ w1, ResetPassword carol_token "new password" history = (Ok tt, w1) ∧
    (ResetPassword carol_token "other password" w1).1 = Err (Errorf "token already used").
Proof.
  run_ok x w1 Hrun. destruct x. exists w1. split; [exact Hrun|].
  destruct (ResetPassword_effect carol_token "new password" history w1) as (t & u & h & Hr);
    [apply keyed_check; vm_compute; reflexivity|apply keyed_check; vm_compute; reflexivity| |exact Hrun|].
  - intros k1 k2 r1 r2 H1 H2 He.
    eapply (unique_check prt_TokenHash (λ _, True) (t_reset_tokens history)); [vm_compute; reflexivity|done..].
  - destruct Hr as (_ & _ & _ & _ & _ & _ & _ & _ & Hused).
    by rewrite (Hused "other password" w1 eq_refl).
Defined.

(** ** Keys and the gate *)

Definition alice_keyed : World := after (CreateKey alice "cli") demo_world.
Definition alice_key_id : uuid := 102%N.
Definition alice_key : string := default "" (ak_Key <$> t_api_keys alice_keyed !! alice_key_id).

Lemma alice_keyed_unique : keys_unique alice_keyed.
Proof.
  intros k1 k2 r1 r2 H1 H2 He.
  eapply (unique_check ak_Key (λ _, True) (t_api_keys alice_keyed)); [vm_compute; reflexivity|done..].
Qed.

(** Her own revocation succeeds, that of another user does not. *)
Lemma RevokeKey_effect_witness :
  t_api_keys (after (RevokeKey alice alice_key_id) alice_keyed) = ∅ ∧
  t_api_keys (after (RevokeKey bob alice_key_id) alice_keyed) = t_api_keys alice_keyed.
Proof.
  destruct (t_api_keys alice_keyed !! alice_key_id) as [row|] eqn:Hrow; [|vm_compute in Hrow; discriminate].
  assert (ak_UserID row = alice) as Hrowner by (vm_compute in Hrow; injection Hrow as <-; reflexivity).
  pose proof (RevokeKey_effect alice alice_key_id alice_keyed _ _ row alice_keyed_unique Hrow
                (surjective_pairing _)) as Hown.
  pose proof (RevokeKey_effect bob alice_key_id alice_keyed _ _ row alice_keyed_unique Hrow
                (surjective_pairing _)) as Hother.
  rewrite Hrowner in Hown, Hother.
  rewrite decide_True in Hown by done. rewrite decide_False in Hother by done.
  destruct Hown as (_ & Hown & _). destruct Hother as [_ Hother]. unfold after.
  split; [rewrite Hown; vm_compute; reflexivity|exact Hother].
Defined.

Definition list_instances : Endpoint := guarded "GET" "/instances" PermissionInstanceRead "Instance.List".

Lemma gate_sound_witness :
  list_instances ∈ endpoints ∧
  ∃ ctx w1, gate list_instances alice_key alice_keyed = (Ok ctx, w1) ∧
    ∃ userID u, ctx = Some userID ∧ key_of alice_keyed alice_key userID ∧
      permits alice_keyed (user_Role u) PermissionInstanceRead.
Proof.
  split; [apply list_elem_of_In; vm_compute; tauto|].
  run_ok ctx w1 Hrun. exists ctx, w1. split; [exact Hrun|].
  destruct (gate_sound list_instances PermissionInstanceRead alice_key alice_keyed ctx w1)
    as (userID & u & Hctx & _ & Hk & _ & Hperm); [reflexivity|reflexivity| |exact Hrun|].
  - apply keyed_check. vm_compute. reflexivity.
  - exists userID, u. split; [exact Hctx|]. split; [exact Hk|].
    destruct Hperm as [Hperm|[[Hf|Hf] _]]; [exact Hperm|by destruct Hf..].
Defined.

(** ** Secrets *)

Lemma secret_roundtrip_witness :
  ∃ s w1, CreateSecret (cfg_masterKey cfg) carol_ctx "db" "s3cret" "of the database" logged_in = (Ok s, w1) ∧
    sec_EncryptedValue s ≠ "s3cret" ∧
    ∃ s' w2, GetSecret (cfg_masterKey cfg) carol_ctx (sec_ID s) w1 = (Ok s', w2) ∧
      sec_EncryptedValue s' = "s3cret".
Proof.
  run_ok s w1 Hrun. exists s, w1. split; [exact Hrun|].
  assert (sec_EncryptedValue s ≠ "s3cret") as Hne by (vm_compute in Hrun; injection Hrun as <- _; done).
  split; [exact Hne|].
  destruct (secret_roundtrip (cfg_masterKey cfg) carol_ctx "db" "s3cret" "of the database" logged_in s w1 Hrun)
    as [(s' & w2 & Hget & Hv & _) _].
  exists s', w2. split; [exact Hget|exact Hv].
Defined.

(** ** Security groups *)

Lemma AttachToInstance_effect_witness :
  ∃ w1, AttachToInstance carol_ctx carol_instance carol_group with_group = (Ok tt, w1) ∧
    t_sg_instances w1 = <[(carol_instance, carol_group) := tt]> (t_sg_instances with_group).
Proof.
  run_ok x w1 Hrun. destruct x. exists w1. split; [exact Hrun|].
  destruct (AttachToInstance_effect carol_ctx carol_instance carol_group with_group tt w1 Hrun)
    as (inst & sg & rules & vpc & _ & _ & _ & _ & Hm & _).
  exact Hm.
Defined.
