(* ===== verification/ServerWitnesses.v ===== *)
(** * Requests to the server at concrete inputs

    A framework that computes: a body is a list of members like [name=web&size_gb=5]. *)
From S2P Require Import Prelude GoStd Encoding Net Errors Json Domain DomainData World Logic Sql Concrete.
From S2P Require Import InstanceRepo InstanceService Rbac Auth Secret Http Cron Function Stack Storage Router System.
From S2P Require Import Invariants Keyed Isolation AuthProofs PlatformWitnesses Gin ComputeHandlers.
From S2P Require Import DataHandlers IdentityHandlers Server ServerProofs.

#[local] Existing Instance demo.
#[local] Notation cfg := demo_config.

(** ** The framework *)

Definition demo_member (s : string) : string * json :=
  match split_on "=" s with
  | [k; v] => (k, match parse_uint v with Some _ => JNumber v | None => JString v end)
  | _ => (s, JNull)
  end.

Definition demo_document (s : string) : error + json :=
  if bool_decide (s = "") then inl (ExternalError "EOF") else inr (JObject (demo_member <$> split_on "&" s)).

#[export] Instance demo_json : JsonText := {|
  json_Decode := demo_document;
  json_type_error t _ := ExternalError ("json: cannot unmarshal into " +:+ t);
  ParseFloat s := float_of_int <$> parse_uint s;
  uuid_UnmarshalText s := match uuid_parse s with Some u => inr u | None => inl (ExternalError "invalid UUID") end;
  time_UnmarshalJSON _ := inl (ExternalError "parsing time");
|}.

Definition demo_rule (r : Rule) (f : FieldValue) : bool :=
  match r, f with
  | Required, FString s => negb (bool_decide (s = ""))
  | Required, FInt n => negb (bool_decide (n = 0))
  | Required, FUUID u => negb (bool_decide (u = uuid_Nil))
  | Required, FFloat x => true
  | Min n, FInt m => n <=? m
  | Max n, FInt m => m <=? n
  | Min n, FString s => (Z.to_nat n <=? String.length s)%nat
  | Max n, FString s => (String.length s <=? Z.to_nat n)%nat
  | _, _ => true
  end.

#[export] Instance demo_gin : Gin := {|
  body_Decode r := demo_document (rd_data r);
  rule_holds := demo_rule;
  validation_error _ := ExternalError "validation failed";
  form_fields _ := inl (ExternalError "no form");
  form_file _ _ := inl (ExternalError "no file");
  uuid_error _ := ExternalError "invalid UUID";
  uuid_partial _ := uuid_Nil;
  stream_ticks _ := 0%nat;
|}.

#[export] Instance demo_unicode : UnicodeTables := {|
  IsLetter r := ((65 <=? r) && (r <=? 90)) || ((97 <=? r) && (r <=? 122));
  IsDigit r := (48 <=? r) && (r <=? 57);
|}.

Lemma demo_rule_laws : RuleLaws.
Proof. by constructor. Qed.

Definition request (method key body : string) (params : gmap string string) : Request :=
  MkRequest method {["X-API-Key" := key; "X-Request-ID" := "r-1"]} params ∅ (MkReader body None) "10.0.0.7".

(** A limiter that lets everything pass. *)
Notation serve := (ServeHTTP cfg tt tt (λ l _, (true, l)) (λ _ _, MkResponse 404 (BText "404 page not found"))).
Definition server (w : World) : Server := MkServer (Limiter := unit) w ∅ ∅.

(** ** A body *)

Example body_folds :
  ShouldBindJSON (T := CreateVolumeRequest) (request "POST" "" "NAME=data&Size_GB=5&other=1" ∅)
  = inr (MkCreateVolumeRequest "data" 5).
Proof. vm_compute. reflexivity. Qed.

Example volume_too_large :
  ShouldBindJSON (T := CreateVolumeRequest) (request "POST" "" "name=data&size_gb=16001" ∅)
  = inl (ExternalError "validation failed").
Proof. vm_compute. reflexivity. Qed.

Example valid_names :
  isValidResourceName "web-1_A" = true ∧ isValidResourceName "web 1" = false ∧ isValidResourceName "w/b" = false.
Proof. vm_compute. done. Qed.

(** Two, three and four bytes, and bytes that start no character. *)
Example decoded_runes :
  runes [0x41; 0xC3; 0xA9; 0xE2; 0x82; 0xAC; 0xF0; 0x9F; 0x98; 0x80; 0xFF; 0xC3]%N
  = [0x41; 0xE9; 0x20AC; 0x1F600; 0xFFFD; 0xFFFD].
Proof. vm_compute. reflexivity. Qed.

(** ** Requests *)

Definition endpoint (name : string) : Endpoint :=
  default (public "" "" "") (find (λ e, bool_decide (ep_Handler e = name)) endpoints).

(** Dave registers and logs in after [history]. *)
Definition dave_email : string := "dave@example.org".
Definition with_dave : World :=
  after (Login None dave_email "correct horse") (after (Register None dave_email "correct horse" "Dave") history).

Definition key_by_email (email : string) (w : World) : string * uuid :=
  match list_find (λ kr, user_Email kr.2 = email) (map_to_list (t_users w)) with
  | Some (_, (u, _)) =>
      match list_find (λ kr, ak_UserID kr.2 = u) (map_to_list (t_api_keys w)) with
      | Some (_, (_, k)) => (ak_Key k, u)
      | None => ("", u)
      end
  | None => ("", uuid_Nil)
  end.

Definition dave_key : string := (key_by_email dave_email with_dave).1.
Definition dave : uuid := (key_by_email dave_email with_dave).2.

Lemma with_dave_reachable : reachable cfg with_dave.
Proof. apply reach_after; [apply reach_after; [apply history_reachable|]|]; apply api_public; constructor. Qed.

Definition new_key : Request := request "POST" dave_key "name=laptop" ∅.

(** A name with a slash is refused before the service is called; the same name with an
    underscore, between spaces, is not. *)
Definition launch_request (name : string) : Request :=
  request "POST" dave_key ("name=" +:+ name +:+ "&image=alpine") ∅.

Lemma Launch_validates_witness :
  (∃ resp w', InstanceHandler_Launch alice_ctx (launch_request "w/b") history = (Ok resp, w') ∧
     resp_Status resp = 400 ∧ t_instances w' = t_instances history) ∧
  InstanceHandler_Launch alice_ctx (launch_request " w_b ") history =
  respond (LaunchInstance alice_ctx "w_b" "alpine" "" None None []) (λ inst, Success 201 (PInstance inst)) history.
Proof.
  generalize history. intros w. split.
  - destruct (Launch_validates alice_ctx (launch_request "w/b") w)
      as [(req & vpc & Hreq & (_ & Hname & _) & _)|(_ & resp & w' & Hrun & Hst & Hw)].
    + exfalso. vm_compute in Hreq. injection Hreq as <-.
      apply isValidResourceName_spec in Hname. vm_compute in Hname. discriminate.
    + exists resp, w'. split; [exact Hrun|]. split; [exact Hst|]. by destruct Hw as [->| ->].
  - destruct (Launch_validates alice_ctx (launch_request " w_b ") w)
      as [(req & vpc & Hreq & _ & Hvpc & Hrun)|(Hno & _)].
    + rewrite Hrun. vm_compute in Hreq. injection Hreq as <-. vm_compute in Hvpc. injection Hvpc as <-. reflexivity.
    + exfalso. assert (ShouldBindJSON (launch_request " w_b ") = inr (MkLaunchRequest " w_b " "alpine" "" "" "" []))
        as Hreq by (vm_compute; reflexivity).
      specialize (Hno _ Hreq). assert (named_vpc (MkLaunchRequest " w_b " "alpine" "" "" "" []) = None) as Hv; [|by vm_compute in Hv].
      apply Hno. split; [split; vm_compute; lia|]. split; [apply isValidResourceName_spec; vm_compute; reflexivity|].
      split; [by vm_compute|]. split; [vm_compute; lia|constructor].
Defined.

Lemma server_refines_witness :
  let run := serve (Some (endpoint "Identity.CreateKey")) new_key (server with_dave) in
  reachable cfg (sv_world run.2) ∧ resp_Status (rp_Response run.1) = 201 ∧
  size (t_api_keys (sv_world run.2)) = 3%nat.
Proof.
  intros run. split; [|split; vm_compute; reflexivity].
  destruct (server_refines cfg tt tt (λ l _, (true, l)) (λ _ _, MkResponse 404 (BText "404 page not found"))
    (Some (endpoint "Identity.CreateKey")) new_key (server with_dave) run.1 run.2
    with_dave_reachable (surjective_pairing _)) as [_ Hreach]. exact Hreach.
Defined.

Lemma key_owner_check w key user :
  forallb (λ r, negb (bool_decide (ak_Key r = key)) || bool_decide (ak_UserID r = user))
    (map_to_list (t_api_keys w)).*2 = true →
  ∀ owner, key_of w key owner → owner = user.
Proof.
  intros Hall owner (k & row & Hk & Hkey & <-). rewrite forallb_forall in Hall.
  assert (In row (map_to_list (t_api_keys w)).*2) as Hin.
  { apply list_elem_of_In, list_elem_of_fmap. exists (k, row). split; [done|]. by apply elem_of_map_to_list. }
  specialize (Hall row Hin). rewrite bool_decide_true in Hall by done. by apply bool_decide_eq_true in Hall.
Qed.

Lemma request_isolation_witness :
  let run := serve (Some (endpoint "Identity.CreateKey")) new_key (server with_dave) in
  resp_Status (rp_Response run.1) = 201 ∧
  foreign_rows dave (sv_world run.2) = foreign_rows dave with_dave ∧
  size (f_api_keys (foreign_rows dave with_dave)) = 1%nat ∧ size (f_instances (foreign_rows dave with_dave)) = 1%nat.
Proof.
  intros run. split; [vm_compute; reflexivity|]. split; [|split; vm_compute; reflexivity].
  apply (request_isolation cfg tt tt (λ l _, (true, l)) (λ _ _, MkResponse 404 (BText "404 page not found"))
    (endpoint "Identity.CreateKey") new_key (server with_dave) run.1 run.2 dave).
  - unfold well_keyed. split_and!; apply keyed_check; vm_compute; reflexivity.
  - vm_compute. reflexivity.
  - apply surjective_pairing.
  - apply key_owner_check. vm_compute. reflexivity.
Defined.

Lemma keyless_request_refused_witness :
  let run := serve (Some (endpoint "Instance.Launch")) (request "POST" "guess" "" ∅) (server history) in
  reads history (sv_world run.2) ∧ resp_Status (rp_Response run.1) = 401.
Proof.
  intros run. split; [|vm_compute; reflexivity].
  assert (handler_of cfg (endpoint "Instance.Launch") = Some InstanceHandler_Launch) as Hh by reflexivity.
  assert (∀ owner, ¬ key_of history "guess" owner) as Hno.
  { intros owner Hkey.
    assert (owner = 0%N) by (revert Hkey; apply key_owner_check; vm_compute; reflexivity).
    assert (owner = 1%N) by (revert Hkey; apply key_owner_check; vm_compute; reflexivity). congruence. }
  destruct (keyless_request_refused cfg tt tt (λ l _, (true, l)) (λ _ _, MkResponse 404 (BText "404 page not found"))
    (endpoint "Instance.Launch") InstanceHandler_Launch (request "POST" "guess" "" ∅) (server history) run.1 run.2
    eq_refl Hh Hno (surjective_pairing _)) as [Hreads _]. exact Hreads.
Defined.
