(* ===== verification/DataWitnesses.v ===== *)
(** * The theorems on objects, snapshots, stacks, topics, routes and functions at concrete inputs

    One run per theorem with the instances of [Concrete] and [PlatformWitnesses]. *)
From S2P Require Import Prelude GoStd Encoding Net Errors Domain DomainData World Logic Sql Concrete.
From S2P Require Import InstanceRepo NetworkRepo InstanceService VolumeService NetworkService Secret Storage.
From S2P Require Import Snapshot Http Cron Gateway Notify Function Stack Dashboard System DataProofs.
From S2P Require Import EdgeProofs StackProofs StorageProofs PlatformWitnesses.

#[local] Existing Instance demo.

#[local] Notation base := (cfg_basePath demo_config).
#[local] Notation getwd := (cfg_getwd demo_config).
#[local] Notation cidr := (cfg_defaultCIDR demo_config).

(** ** Objects *)

Lemma Upload_Download_witness :
  ∃ obj w1, Upload base alice_ctx "photos" "cat.png" (MkReader "meow" None) demo_world = (Ok obj, w1) ∧
    (∃ meta w2, Download base alice_ctx "photos" "cat.png" w1 = (Ok ("meow", meta), w2)) ∧
    (Download base bob_ctx "photos" "cat.png" w1).1 = Err (New ObjectNotFound "object metadata not found").
Proof.
  run_ok obj w1 Hrun. exists obj, w1. split; [exact Hrun|].
  destruct (Upload_Download base alice_ctx "photos" "cat.png" "meow" demo_world obj w1)
    as [(meta & w2 & Hd & _) Hother]; [discriminate|exact Hrun|reflexivity|].
  split; [exists meta, w2; exact Hd|]. apply Hother. discriminate.
Defined.

(** ** Snapshots *)

Lemma snapshot_settles_witness :
  ∃ snap w1, CreateSnapshot alice_ctx 3%N "weekly" demo_world = (Ok snap, w1) ∧
    snap_Status snap = SnapshotStatusCreating ∧
    snap_Status <$> t_snapshots (after (snapshot_task getwd demo_volume snap) w1) !! snap_ID snap
      = Some SnapshotStatusAvailable.
Proof.
  run_ok snap w1 Hrun. exists snap, w1. split; [exact Hrun|].
  destruct (snapshot_settles getwd alice_ctx 3%N "weekly" demo_world snap w1 Hrun)
    as (vol & Hvol & _ & Hrows & Hst & _ & Hsettle).
  split; [exact Hst|].
  assert (vol = demo_volume) as -> by (vm_compute in Hvol; by injection Hvol as <-).
  destruct (Hsettle w1 snap _ _ ltac:(rewrite Hrows; apply lookup_insert_eq) eq_refl (surjective_pairing _))
    as (_ & row' & Hrow' & Hfinal).
  unfold after. rewrite Hrow', lookup_insert_eq. cbn [fmap option_fmap option_map]. rewrite Hfinal.
  vm_compute in Hrun. injection Hrun as <- <-. vm_compute. reflexivity.
Defined.

Definition snapshot_world : World :=
  let w := after (CreateSnapshot alice_ctx 3%N "weekly") demo_world in
  match w_tasks w with
  | SnapshotTask vol snap :: _ => after (snapshot_task getwd vol snap) w
  | _ => w
  end.
Definition snapshot_id : uuid := default 0%N (head (fst <$> map_to_list (t_snapshots snapshot_world))).

Lemma RestoreSnapshot_compensates_witness :
  ∃ v w1, RestoreSnapshot getwd alice_ctx snapshot_id "copy" snapshot_world = (Ok v, w1) ∧
    t_volumes w1 = <[vol_ID v := v]> (t_volumes snapshot_world) ∧ vol_UserID v = alice.
Proof.
  run_ok v w1 Hrun. exists v, w1. split; [exact Hrun|].
  destruct (RestoreSnapshot_compensates getwd alice_ctx snapshot_id "copy" snapshot_world (Ok v) w1 Hrun)
    as (_ & Hrows & s & _ & _ & _ & Hu & Hs & _).
  split; [exact Hrows|]. rewrite Hu. exact Hs.
Defined.

(** ** Stacks *)

Definition stack_of (template : string) : World := after (CreateStack alice_ctx "app" template ∅) demo_world.
Definition stack_id : uuid := 101%N.
Definition stack_row (template : string) : StackRow :=
  default (MkStackRow (MkStack 0 0 "" "" "" StackStatusCreateFailed "" [] 0 0) None)
    (t_stacks (stack_of template) !! stack_id).

Lemma stack_of_fresh template :
  t_stack_resources (stack_of template) = ∅ →
  (∀ k res, t_stack_resources (stack_of template) !! k = Some res → sr_StackID res ≠ stack_id) ∧
  (∀ n, (w_tick (stack_of template) ≤ n)%nat → t_stack_resources (stack_of template) !! env_uuid n = None).
Proof. intros ->. split; intros *; rewrite lookup_empty; done. Qed.

(** The template without errors is created, with a row for its VPC; the other leaves nothing
    behind. *)
Lemma processStack_settles_witness :
  (let w' := after (processStack cidr (row_stack (stack_row "network"))) (stack_of "network") in
   (∃ row, t_stacks w' !! stack_id = Some row ∧ stk_Status (row_stack row) = StackStatusCreateComplete) ∧
   ∃ k res, t_stack_resources w' !! k = Some res ∧ sr_LogicalID res = "Net" ∧ ∃ id, sr_PhysicalID res = uuid_string id ∧ in_table "VPC" id w') ∧
  (∃ row, t_stacks (after (processStack cidr (row_stack (stack_row "broken"))) (stack_of "broken")) !! stack_id
     = Some row ∧ stk_Status (row_stack row) = StackStatusRollbackComplete).
Proof.
  split.
  - destruct (stack_of_fresh "network") as [Hnone Hfree]; [vm_compute; reflexivity|].
    destruct (processStack_settles cidr (row_stack (stack_row "network")) (stack_of "network")
      (stack_row "network") _ _ ltac:(vm_compute; reflexivity) Hnone Hfree (surjective_pairing _))
      as (_ & row & reason & Hrow & _ & _ & Hst).
    change (yaml_Unmarshal (stk_Template (row_stack (stack_row "network"))))
      with (@inr error Template (MkTemplate network_resources)) in Hst.
    assert (is_ok (create_resources cidr (WithUserID None (stk_UserID (row_stack (stack_row "network"))))
      (stk_ID (row_stack (stack_row "network"))) (MkTemplate network_resources) (stack_of "network")) = true)
      as Hok by (vm_compute; reflexivity).
    cbv beta iota in Hst. destruct (is_ok_run _ Hok) as (x & w2 & He). rewrite He in Hst.
    destruct Hst as (Hst & _ & Hall). unfold after. split.
    + exists row. rewrite Hrow. split; [vm_compute; reflexivity|exact Hst].
    + destruct (Hall "Net" (MkResourceDefinition "VPC" ∅)) as (k & res & pid & Hk & _ & Hl & _ & Hp & Hin);
        [vm_compute; reflexivity|by left|].
      exists k, res. split; [exact Hk|]. split; [exact Hl|]. exists pid. split; [exact Hp|exact Hin].
  - destruct (stack_of_fresh "broken") as [Hnone Hfree]; [vm_compute; reflexivity|].
    destruct (processStack_settles cidr (row_stack (stack_row "broken")) (stack_of "broken")
      (stack_row "broken") _ _ ltac:(vm_compute; reflexivity) Hnone Hfree (surjective_pairing _))
      as (_ & row & reason & Hrow & _ & _ & Hst).
    exists row. unfold after. rewrite Hrow. split; [vm_compute; reflexivity|].
    assert (is_err (create_resources cidr (WithUserID None (stk_UserID (row_stack (stack_row "broken"))))
      (stk_ID (row_stack (stack_row "broken"))) (MkTemplate broken_resources) (stack_of "broken")) = true)
      as Herr by (vm_compute; reflexivity).
    change (yaml_Unmarshal (stk_Template (row_stack (stack_row "broken"))))
      with (@inr error Template (MkTemplate broken_resources)) in Hst.
    cbv beta iota in Hst. destruct (is_err_run _ Herr) as (e & w2 & He). rewrite He in Hst. apply Hst.
Defined.

(** ** Topics *)

Definition topic_world : World := after (CreateTopic alice_ctx "alerts") demo_world.
Definition topic_id : uuid := default 0%N (head (fst <$> map_to_list (t_topics topic_world))).
Definition subscribed : World :=
  after (Subscribe alice_ctx topic_id ProtocolWebhook "http://hooks.example.org/a") topic_world.

Lemma Publish_fans_out_witness :
  ∃ w1, Publish alice_ctx topic_id "hello" subscribed = (Ok tt, w1) ∧
    w_tasks subscribed = [] ∧ length (w_tasks w1) = 1%nat.
Proof.
  run_ok x w1 Hrun. destruct x. exists w1. split; [exact Hrun|].
  destruct (Publish_fans_out alice_ctx topic_id "hello" subscribed tt w1 Hrun)
    as (t & mid & created & subs & _ & _ & _ & _ & Hsubs & Htasks & _).
  split; [vm_compute; reflexivity|]. destruct Hsubs as [_ Hsubs].
  rewrite Htasks, length_app, length_fmap, (Hsubs _). vm_compute. reflexivity.
Defined.

(** ** Routes *)

Definition route_world : World :=
  after (CreateRoute alice_ctx "api" "/api" "http://backend.example.org" true 100) demo_world.

Lemma gateway_serves_routes_witness :
  ∃ w1, RefreshRoutes route_world = (Ok tt, w1) ∧
    ∃ rt w2, GetProxy "/api/v1" w1 = (Ok (Some rt), w2) ∧ rt_PathPrefix rt = "/api".
Proof.
  run_ok x w1 Hrun. destruct x. exists w1. split; [exact Hrun|].
  destruct (gateway_serves_routes "/api/v1" route_world tt w1 Hrun) as (o & w2 & Hget & _ & Ho).
  assert (∀ k rt, t_routes route_world !! k = Some rt →
    parses (rt_TargetURL rt) && bool_decide (rt_PathPrefix rt = "/api") = true) as Hall
    by (apply rows_check; vm_compute; reflexivity).
  destruct o as [rt|].
  - exists rt, w2. split; [exact Hget|]. destruct Ho as [[k Hk] _].
    specialize (Hall k rt Hk). apply andb_true_iff in Hall as [_ Hp]. by apply bool_decide_eq_true in Hp.
  - exfalso. destruct (head (map_to_list (t_routes route_world))) as [[k rt]|] eqn:Hhead;
      [|vm_compute in Hhead; discriminate].
    assert (t_routes route_world !! k = Some rt) as Hk.
    { apply elem_of_map_to_list. destruct (map_to_list (t_routes route_world)) as [|x l]; [discriminate|].
      injection Hhead as ->. by left. }
    specialize (Hall k rt Hk). apply andb_true_iff in Hall as [Hparses Hp]. apply bool_decide_eq_true in Hp.
    specialize (Ho k rt Hk Hparses). rewrite Hp in Ho. discriminate.
Defined.

(** ** The dashboard *)

Lemma GetSummary_counts_witness :
  ∃ s w1, GetSummary alice_ctx demo_world = (Ok s, w1) ∧ TotalVolumes s = 1 ∧ TotalStorageMB s = 10240.
Proof.
  run_ok s w1 Hrun. exists s, w1. split; [exact Hrun|].
  destruct (GetSummary_counts alice_ctx demo_world s w1 Hrun) as (_ & _ & _ & Hv & _ & Hmb & _).
  split; [rewrite Hv; vm_compute; reflexivity|rewrite Hmb; vm_compute; reflexivity].
Defined.

(** ** Functions *)

(** The archive holds one file, whose name climbs out of its directory. *)
Definition escaping_world : World :=
  after (CreateFunction base alice_ctx "fn" "nodejs20" "index.js" "PK../../etc/passwd") demo_world.
Definition escaping_fn : Function :=
  default (MkFunction 0 0 "" "" "" "" 0 0 "" 0 0) (snd <$> head (map_to_list (t_functions escaping_world))).

Lemma runInvocation_confined_witness :
  let f := escaping_fn in let m := runInvocation base f (MkInvocation 0 0 "" 0 None 0 0 "" ) "{}" in
  size (w_files escaping_world) = 1%nat ∧
  w_files (after m escaping_world) !! "/etc/passwd" = w_files escaping_world !! "/etc/passwd".
Proof.
  intros f m. split; [vm_compute; reflexivity|].
  destruct (runInvocation_confined base f (MkInvocation 0 0 "" 0 None 0 0 "") "{}" escaping_world _ _
    (surjective_pairing _)) as [[Hw _]|(h & dir & Hdir & Hout & _)]; unfold after, m.
  - by rewrite Hw.
  - apply Hout. injection Hdir as <-. vm_compute. reflexivity.
Defined.
