(* ===== verification/AdapterWitnesses.v ===== *)
(** * The theorems on the adapters and the WebSocket hub at concrete inputs *)
From S2P Require Import Prelude GoStd Encoding Net Errors Domain DomainData World Logic Sql Concrete.
From S2P Require Import NetworkService Http Host Ovs Libvirt Docker Hub AdapterProofs PlatformWitnesses.

(** ** A host that answers

    Names of volumes and domains are made from the number of calls before; the calls that
    [refuse] picks fail. *)
Definition demo_host_answer (calls : list HostCall) (c : HostCall) : host_resp c :=
  let name := "object-" +:+ itoa (Z.of_nat (length calls)) in
  match c return host_resp c with
  | Output _ | OsOpen _ => "" | LookPath file => "/usr/bin/" +:+ file | OsMkdirTemp pattern => "/tmp/" +:+ pattern
  | OsReadDir _ => ["disk.qcow2"]
  | StoragePoolLookupByName n | NetworkLookupByName n | DomainLookupByName n => n
  | StorageVolLookupByName _ n => n
  | StorageVolCreateXML _ _ | DomainDefineXML _ | NetworkDefineXML _ => name
  | StorageVolGetPath v => "/var/lib/libvirt/images/" +:+ v
  | DomainGetXMLDesc _ => "<mac address='52:54:00:00:00:01'/>"
  | DomainGetState _ => 5
  | DomainMemoryStats _ => []
  | NetworkGetDhcpLeases _ => [(["52:54:00:00:00:01"], "192.168.122.10")]
  | ContainerCreate _ _ _ _ | ContainerExecCreate _ _ | DockerNetworkCreate _ _ => name
  | ContainerLogs _ | ContainerStats _ => ""
  | ContainerInspect _ => MkInspection ∅ ["172.17.0.2"]
  | ContainerWait _ => WaitStatus 0
  | ContainerExecAttach _ => ("", None)
  | ContainerExecInspect _ => 0
  | Run _ | OsRemove _ | OsRemoveAll _ | OsMkdirAll _ | OsWriteFile _ _ | OsStat _
  | StoragePoolRefresh _ | StorageVolDelete _ | DomainCreate _ | DomainUndefine _ | DomainDestroy _
  | NetworkCreate _ | NetworkDestroy _ | NetworkUndefine _ | ImagePull _ | ContainerStart _
  | ContainerStop _ | ContainerRemove _ | ContainerExecStart _ | DockerNetworkRemove _
  | DockerVolumeCreate _ | DockerVolumeRemove _ | Tick => tt
  end.

Definition demo_host_env (refuse : HostCall → bool) : HostEnv := {|
  host_respond calls c := if refuse c then inl (ExternalError "refused") else inr (demo_host_answer calls c);
  is_not_found _ := false;
  TempDir := "/tmp";
|}.

Definition new_host : Host := MkHost demo_world [] ∅ 0 [].

(** Domains are defined but do not start. *)
Definition no_start (c : HostCall) : bool := match c with DomainCreate _ => true | _ => false end.

#[local] Existing Instance demo.

(** ** libvirt *)

Lemma libvirt_CreateInstance_compensates_witness :
  let run := @libvirt_CreateInstance demo demo_http (demo_host_env no_start) "web" "alpine" [] "" [] [] [] new_host in
  (∃ e, run.1 = Err e) ∧
  @owes (demo_host_env no_start) [] (h_calls run.2) [] [] ∧
  In (StorageVolDelete "object-1") (h_calls run.2).
Proof.
  intros run. destruct (@libvirt_CreateInstance_compensates demo demo_http (demo_host_env no_start)
    "web" "alpine" [] "" [] [] [] new_host run.1 run.2 (surjective_pairing _)) as (l & Hl & Hr).
  assert (∃ e, run.1 = Err e) as Herr by (vm_compute; eexists; reflexivity).
  split; [exact Herr|]. split; [|vm_compute; tauto].
  destruct Herr as [e He]. rewrite He in Hr. rewrite Hl, app_nil_r. exact Hr.
Defined.

(** The network of a new adapter: 192.168.100.0 behind the gateway 192.168.100.1. *)
Lemma networks_disjoint_witness :
  ∃ addr gw first last,
    getNextNetworkRange new_host = (Ok (dotted gw, dotted first, dotted last), new_host <| h_networkCounter := 1 |>) ∧
    ip_val addr = pool_value ∧ ip_val gw = pool_value + 1 ∧ ip_val first = pool_value + 2 ∧ ip_val last = pool_value + 254.
Proof.
  destruct (networks_disjoint new_host) as (addr & gw & first & last & Hrun & _ & Ha & Hg & Hf & Hl & _);
    [vm_compute; split; [discriminate|reflexivity]|].
  change (h_networkCounter new_host) with 0 in Hrun, Ha.
  exists addr, gw, first, last. split; [exact Hrun|]. repeat split; lia.
Defined.

Example first_network :
  (getNextNetworkRange new_host).1 = Ok ("192.168.100.1", "192.168.100.2", "192.168.100.254").
Proof. vm_compute. reflexivity. Qed.

(** ** Docker *)

Definition failing_task (c : HostCall) : bool := match c with ContainerWait _ => true | _ => false end.

Lemma helper_container_removed_witness :
  let run := @helper_container (demo_host_env failing_task) "snapshot" ["tar"] [] new_host in
  (∃ e, run.1 = Err e) ∧ head (h_calls run.2) = Some (ContainerRemove "object-1").
Proof.
  intros run. split; [vm_compute; eexists; reflexivity|].
  destruct (@helper_container_removed (demo_host_env failing_task) "snapshot" ["tar"] [] new_host run.1 run.2
    (surjective_pairing _)) as (l & Hl & Hremoved).
  rewrite Hl, app_nil_r. cbn [h_calls new_host] in Hl. rewrite app_nil_r in Hl.
  apply (Hremoved [ContainerRemove "object-1"; ContainerWait "object-1"; ContainerStart "object-1"]
    [ImagePull "alpine"] (no_config <| cc_Image := "alpine" |> <| cc_Cmd := ["tar"] |>) no_host [] "" "object-1");
    [rewrite <- Hl; vm_compute; reflexivity|vm_compute; reflexivity].
Defined.

(** ** The WebSocket hub *)

Lemma elements_one (c : nat) : [c] ≡ₚ elements ({[c]} ∪ ∅ : gset nat).
Proof. by rewrite (right_id_L ∅ (∪)), elements_singleton. Qed.

(** A client connects and starts its writer, an event is published and taken: the client that
    is to get it has all the messages but that one. *)
Definition hub_running : Hub :=
  MkHub {[0%nat]} [] (Sending "created" [0%nat]) {[0%nat := NewClient 0 <| cl_writer := Running |>]} ["created"].

Lemma hub_running_reachable : hub_reachable hub_running.
Proof.
  change (hub_reachable (NewHub <| hub_state ::= <[0%nat := NewClient 0]> |> <| hub_clients ::= (λ l, {[0%nat]} ∪ l) |>
    <| hub_state ::= <[0%nat := NewClient 0 <| cl_writer := Running |>]> |> <| hub_broadcast ::= (λ l, l ++ ["created"]) |>
    <| hub_broadcast := [] |> <| hub_turn := Sending "created" [0%nat] |> <| hub_log ::= (λ l, l ++ ["created"]) |>)).
  eapply hub_more; [|by apply step_take; [..|apply elements_one]].
  eapply hub_more; [|apply step_publish; vm_compute; lia].
  eapply hub_more; [|by apply (step_start_writer _ 0%nat (NewClient 0))].
  eapply hub_more; [apply hub_init|]. by apply step_register.
Qed.

Lemma hub_correct_witness :
  is_Some (deliver_to "created" 0%nat (hub_running <| hub_turn := Sending "created" [] |>)) ∧
  pending hub_running 0%nat = ["created"].
Proof.
  destruct (hub_correct hub_running _ hub_running_reachable
    (step_deliver hub_running "created" 0%nat [] eq_refl)) as [Hstep Hclients].
  split; [exact Hstep|].
  destruct (Hclients 0%nat _ (lookup_insert_eq ∅ 0%nat (NewClient 0 <| cl_writer := Running |>))) as [_ Hall].
  specialize (Hall ltac:(vm_compute; reflexivity) ltac:(discriminate)). exact Hall.
Defined.
