(* ===== verification/ResourceWitnesses.v ===== *)
(** * The theorems on instances, networks and load balancers at concrete inputs

    One run per theorem in the environment of [Concrete], where its hypotheses hold. *)
From S2P Require Import Prelude GoStd Net Errors Domain DomainData World Logic Sql Concrete InstanceRepo.
From S2P Require Import NetworkRepo InstanceService VolumeService NetworkService LBRepo LBService.
From S2P Require Import InstanceProofs NetworkProofs LBProofs.

#[local] Existing Instance demo.

(** ** States *)

Definition web_launch : M Instance :=
  LaunchInstance alice_ctx "web" "nginx" "8080:80" (Some 1%N) (Some 2%N)
    [MkVolumeAttachment (demo_uuid_string 3) "/data"].

(** After the launch of an instance with a volume, its state and its identifier. *)
Definition web_world : World := after web_launch demo_world.
Definition web_id : uuid := 101%N.

(** With a load balancer, one with a key and its target. *)
Definition lb_world : World :=
  after (LB_Create alice_ctx "lb" 1%N 80 "round-robin" "key") web_world.
Definition lb_id : uuid := 124%N.
Definition keyless_world : World :=
  after (LB_Create alice_ctx "lb" 1%N 80 "round-robin" "") web_world.

Example web_launch_ok : is_ok (web_launch demo_world) = true.
Proof. vm_compute. reflexivity. Qed.
Example web_id_ok : (inst_Status <$> t_instances web_world !! web_id) = Some StatusRunning.
Proof. vm_compute. reflexivity. Qed.
Example lb_world_ok : size (t_lbs lb_world) = 1%nat ∧ size (t_lbs keyless_world) = 1%nat.
Proof. split; vm_compute; reflexivity. Qed.


(** ** Addresses *)

Lemma findAvailableIP_correct_witness :
  ipv4_ok [10; 0; 1; 0] ∧
  match findAvailableIP (ipv4_net [10; 0; 1; 0] 24) ["10.0.1.1"; "10.0.1.2"] with
  | Found s => s = "10.0.1.3" ∧ ∃ j, s = IP_String (nth_ip j (net_IP (ipv4_net [10; 0; 1; 0] 24)))
  | _ => False
  end.
Proof.
  assert (ipv4_ok [10; 0; 1; 0]) as Hok by (split; [repeat constructor; lia|done]).
  split; [done|].
  pose proof (findAvailableIP_correct [10; 0; 1; 0] 24 ["10.0.1.1"; "10.0.1.2"] Hok ltac:(lia) ltac:(done)) as H.
  cbv zeta in H. destruct (findAvailableIP _ _) as [s| |] eqn:Hf; [|vm_compute in Hf; discriminate..].
  split; [vm_compute in Hf; congruence|]. destruct H as (j & _ & -> & _). by exists j.
Defined.

(** ** Instances *)

Lemma LaunchInstance_effect_witness :
  ∃ i w', web_launch demo_world = (Ok i, w') ∧
    ∃ id row, t_instances demo_world !! id = None ∧
      t_instances w' = <[id := row]> (t_instances demo_world) ∧ inst_Status row = StatusRunning ∧
      ∃ ps, parseAndValidatePorts "8080:80" = inr ps ∧
        container_created demo_world w' row ps (inst_ContainerID row).
Proof.
  destruct (is_ok_run (web_launch demo_world)) as (i & w' & H); [vm_compute; reflexivity|].
  exists i, w'. split; [exact H|].
  destruct (LaunchInstance_effect _ _ _ _ _ _ _ _ _ _ H) as [[[_ [e He]]|(id & row & Hn & Hi & _ & _ & Hr)] _];
    [discriminate|]. destruct Hr as (_ & Hst & _ & _ & _ & Hc).
    exists id, row. split; [exact Hn|]. split; [exact Hi|]. split; [exact Hst|exact Hc].
Defined.

Lemma Stop_idempotent_witness :
  ∃ w1, Instance_Stop alice_ctx (demo_uuid_string web_id) web_world = (Ok tt, w1) ∧
    Instance_Stop alice_ctx (demo_uuid_string web_id) w1 = (Ok tt, w1 <| w_tick ::= S |>).
Proof.
  destruct (is_ok_run (Instance_Stop alice_ctx (demo_uuid_string web_id) web_world))
    as ([] & w1 & H); [vm_compute; reflexivity|].
  exists w1. split; [exact H|].
  apply (Stop_idempotent alice_ctx (demo_uuid_string web_id) web_id web_world w1);
    [vm_compute; reflexivity|apply keyed_check; vm_compute; reflexivity|exact H].
Defined.

Lemma TerminateInstance_effect_witness :
  ∃ w', TerminateInstance alice_ctx (demo_uuid_string web_id) web_world = (Ok tt, w') ∧
    t_instances w' = delete web_id (t_instances web_world) ∧
    ∀ k v, t_volumes w' !! k = Some v → vol_InstanceID v ≠ Some web_id.
Proof.
  destruct (is_ok_run (TerminateInstance alice_ctx (demo_uuid_string web_id) web_world))
    as ([] & w1 & H); [vm_compute; reflexivity|].
  exists w1. split; [exact H|].
  destruct (TerminateInstance_effect alice_ctx (demo_uuid_string web_id) web_id web_world (Ok tt) w1)
    as (inst & _ & _ & _ & Hi & _ & _ & _ & Hv);
    [vm_compute; reflexivity|apply keyed_check; vm_compute; reflexivity
    |apply keyed_check; vm_compute; reflexivity|exact H|].
  split; [exact Hi|]. intros k. apply (Hv k).
Defined.

Lemma TerminateInstance_releases_volumes_witness :
  ∃ w' v now, TerminateInstance alice_ctx (demo_uuid_string web_id) web_world = (Ok tt, w') ∧
    t_volumes web_world !! 3%N = Some v ∧ vol_Status v = VolumeStatusInUse ∧
    t_volumes w' !! 3%N = Some (released v now).
Proof.
  destruct (is_ok_run (TerminateInstance alice_ctx (demo_uuid_string web_id) web_world))
    as ([] & w1 & H); [vm_compute; reflexivity|].
  destruct (t_volumes web_world !! 3%N) as [v|] eqn:Hv; [|vm_compute in Hv; discriminate].
  destruct (TerminateInstance_releases_volumes alice_ctx (demo_uuid_string web_id) web_id
    web_world w1) with (k := 3%N) (v := v) as [now Hnow];
    [vm_compute; reflexivity|apply keyed_check; vm_compute; reflexivity
    |apply keyed_check; vm_compute; reflexivity|exact H|exact Hv
    |vm_compute in Hv; injection Hv as <-; reflexivity
    |vm_compute in Hv; injection Hv as <-; reflexivity|].
  exists w1, v, now. split; [exact H|]. split; [done|]. split; [|exact Hnow].
  vm_compute in Hv. by injection Hv as <-.
Defined.

Lemma launch_in_subnet_without_vpc_fails_witness :
  (LaunchInstance alice_ctx "web" "nginx" "" None (Some 2%N) [] demo_world).1 = Panic nil_dereference.
Proof.
  pose proof (launch_in_subnet_without_vpc_fails alice_ctx "web" "nginx" "" 2%N [] demo_world
    _ _ eq_refl (λ l c, ex_intro _ _ eq_refl) (surjective_pairing _)) as H.
  destruct (LaunchInstance alice_ctx "web" "nginx" "" None (Some 2%N) [] demo_world).1 eqn:Hr;
    [done|vm_compute in Hr; discriminate|by rewrite H].
Defined.

Lemma allocateIP_ignores_used_addresses_witness :
  map inst_PrivateIP (map_to_list (t_instances web_world)).*2 = ["10.0.1.1/32"] ∧
  allocateIP alice_ctx demo_subnet web_world =
    (Ok "10.0.1.1", web_world <| w_tick ::= S |>).
Proof.
  split; [vm_compute; reflexivity|].
  change "10.0.1.1" with (IP_String (incr (net_IP (ipv4_net [10; 0; 1; 0] 24)))).
  assert (∀ ip, bytes_ok ip → length ip = 4%nat → ipv4_ok ip) as Hok by done.
  apply (allocateIP_ignores_used_addresses alice_ctx demo_subnet
    [0; 0; 0; 0; 0; 0; 0; 0; 0; 0; 255; 255; 10; 0; 1; 0] [10; 0; 1; 0] 24).
  - vm_compute. reflexivity.
  - apply Hok; [repeat constructor; lia|done].
  - lia.
  - exists [10; 0; 1; 1]. split; [apply Hok; [repeat constructor; lia|done]|vm_compute; reflexivity].
  - intros k i Hi. right. exists [10; 0; 1; 1]. split; [apply Hok; [repeat constructor; lia|done]|].
    apply (rows_check (λ _ i, bool_decide (inst_PrivateIP i = dotted [10; 0; 1; 1] +:+ "/32")))
      in Hi; [by apply bool_decide_eq_true in Hi|vm_compute; reflexivity].
Defined.

Lemma LaunchInstance_attaches_volumes_witness :
  ∃ i w' v now, web_launch demo_world = (Ok i, w') ∧ t_volumes demo_world !! 3%N = Some v ∧
    vol_Status v = VolumeStatusAvailable ∧ t_volumes w' !! 3%N = Some (attached v (inst_ID i) now).
Proof.
  destruct (is_ok_run (web_launch demo_world)) as (i & w' & H); [vm_compute; reflexivity|].
  destruct (LaunchInstance_attaches_volumes alice_ctx "web" "nginx" "8080:80" (Some 1%N) (Some 2%N)
    [MkVolumeAttachment (demo_uuid_string 3) "/data"] demo_world i w'
    ltac:(apply keyed_check; vm_compute; reflexivity) H
    (MkVolumeAttachment (demo_uuid_string 3) "/data") 3%N ltac:(left) ltac:(vm_compute; reflexivity))
    as (v & now & Hv & Hst & _ & Hw & _).
  exists i, w', v, now. by split_and!.
Defined.

(** ** Volumes and networks *)

Lemma CreateVolume_compensates_witness :
  (∃ v w', CreateVolume alice_ctx "data" 5 demo_world = (Ok v, w') ∧
     t_volumes w' = <[vol_ID v := v]> (t_volumes demo_world)) ∧
  ∃ e w' name, CreateVolume alice_ctx "disk" 5 demo_world = (Err e, w') ∧
     w_calls w' = World.DeleteVolume name :: World.CreateVolume name :: w_calls demo_world.
Proof.
  split.
  - destruct (is_ok_run (CreateVolume alice_ctx "data" 5 demo_world)) as (v & w' & H);
      [vm_compute; reflexivity|].
    exists v, w'. split; [exact H|]. by destruct (CreateVolume_compensates _ _ _ _ _ _ H) as (_ & Hw & _).
  - destruct (is_err_run (CreateVolume alice_ctx "disk" 5 demo_world)) as (e & w' & H);
      [vm_compute; reflexivity|].
    destruct (CreateVolume_compensates _ _ _ _ _ _ H) as (_ & name & [Hc|(_ & e' & He)]);
      [by exists e, w', name|vm_compute in He; discriminate].
Defined.

Lemma DeleteVolume_keeps_attached_witness :
  ∃ e w' v, DeleteVolume alice_ctx "disk" web_world = (Err e, w') ∧
    t_volumes web_world !! 3%N = Some v ∧ vol_Status v = VolumeStatusInUse ∧ t_volumes w' !! 3%N = Some v.
Proof.
  destruct (is_err_run (DeleteVolume alice_ctx "disk" web_world)) as (e & w' & H);
    [vm_compute; reflexivity|].
  destruct (t_volumes web_world !! 3%N) as [v|] eqn:Hv; [|vm_compute in Hv; discriminate].
  assert (vol_Status v = VolumeStatusInUse) as Hst by (vm_compute in Hv; by injection Hv as <-).
  exists e, w', v. split; [exact H|]. split; [done|]. split; [exact Hst|].
  apply (DeleteVolume_keeps_attached alice_ctx "disk" web_world (Err e) w');
    [apply keyed_check; vm_compute; reflexivity|exact H|exact Hv|exact Hst].
Defined.

Lemma CreateVPC_compensates_witness :
  (∃ v w', CreateVPC "10.0.0.0/16" alice_ctx "other" "" demo_world = (Ok v, w') ∧
     dom (t_vpcs w') = {[vpc_ID v]} ∪ dom (t_vpcs demo_world)) ∧
  ∃ e w' br id, CreateVPC "10.0.0.0/16" bob_ctx "net" "" demo_world = (Err e, w') ∧
     w_calls w' = DeleteBridge br :: CreateBridge br id :: w_calls demo_world.
Proof.
  split.
  - destruct (is_ok_run (CreateVPC "10.0.0.0/16" alice_ctx "other" "" demo_world)) as (v & w' & H);
      [vm_compute; reflexivity|].
    exists v, w'. split; [exact H|]. by destruct (CreateVPC_compensates _ _ _ _ _ _ _ H) as (_ & Hw & _).
  - destruct (is_err_run (CreateVPC "10.0.0.0/16" bob_ctx "net" "" demo_world)) as (e & w' & H);
      [vm_compute; reflexivity|].
    destruct (CreateVPC_compensates _ _ _ _ _ _ _ H) as (_ & br & id & [Hc|(_ & e' & He)]);
      [by exists e, w', br, id|vm_compute in He; discriminate].
Defined.

Lemma DeleteVPC_in_use_loses_bridge_witness :
  ∃ e w', DeleteVPC alice_ctx (demo_uuid_string 1) web_world = (Err e, w') ∧
    t_vpcs w' = t_vpcs web_world ∧ w_calls w' = DeleteBridge "br-vpc-1" :: w_calls web_world.
Proof.
  destruct (t_instances web_world !! web_id) as [i|] eqn:Hi; [|vm_compute in Hi; discriminate].
  apply (DeleteVPC_in_use_loses_bridge alice_ctx (demo_uuid_string 1) 1%N demo_vpc web_id i);
    [vm_compute; reflexivity..|exact Hi|vm_compute in Hi; by injection Hi as <-|reflexivity].
Defined.

Lemma CreateSubnet_effect_witness :
  ∃ s w', CreateSubnet alice_ctx 1%N "back" "10.0.2.0/24" "az" demo_world = (Ok s, w') ∧
    sn_GatewayIP s = "10.0.2.1" ∧ t_subnets demo_world !! sn_ID s = None ∧
    ∃ row, t_subnets w' = <[sn_ID s := row]> (t_subnets demo_world).
Proof.
  destruct (is_ok_run (CreateSubnet alice_ctx 1%N "back" "10.0.2.0/24" "az" demo_world)) as (s & w' & H);
    [vm_compute; reflexivity|].
  destruct (CreateSubnet_effect _ _ _ _ _ _ _ _ H)
    as (vpc & a & vnet & ip & snet & _ & _ & _ & Hip & _ & Hgw & _ & Hn & row & Hw & _).
  exists s, w'. split; [exact H|]. split; [|split; [exact Hn|by exists row]].
  rewrite Hgw. vm_compute in Hip. by injection Hip as <- _.
Defined.

(** ** Load balancers *)

Lemma LB_Create_idempotent_witness :
  ∃ lb w1, LB_Create alice_ctx "lb" 1%N 80 "round-robin" "key" web_world = (Ok lb, w1) ∧
    LB_Create alice_ctx "other" 7%N 443 "least-conn" "key" w1 = (Ok lb, w1 <| w_tick ::= S |>).
Proof.
  destruct (is_ok_run (LB_Create alice_ctx "lb" 1%N 80 "round-robin" "key" web_world)) as (lb & w1 & H);
    [vm_compute; reflexivity|].
  exists lb, w1. split; [exact H|].
  apply (LB_Create_idempotent alice_ctx "lb" 1%N 80 "round-robin" "key" web_world); [|done|exact H].
  assert (t_lbs web_world = ∅) as Hempty by (vm_compute; reflexivity).
  intros k1 k2 r1 r2 Hk1. rewrite Hempty, lookup_empty in Hk1. discriminate.
Defined.

Lemma LB_Create_second_keyless_fails_witness :
  t_lbs keyless_world ≠ ∅ ∧
  ∃ e, (LB_Create bob_ctx "second" 1%N 81 "round-robin" "" keyless_world).1 = Err e.
Proof.
  destruct (t_lbs keyless_world !! 123%N) as [lb|] eqn:Hl; [|vm_compute in Hl; discriminate].
  split; [intros Hn; by rewrite Hn in Hl|].
  exact (proj1 (LB_Create_second_keyless_fails bob_ctx "second" 1%N 81 "round-robin" keyless_world _ _
    123%N lb Hl ltac:(vm_compute in Hl; by injection Hl as <-) (surjective_pairing _))).
Defined.

Lemma AddTarget_effect_witness :
  ∃ w' k t, AddTarget alice_ctx lb_id web_id 80 0 lb_world = (Ok tt, w') ∧
    t_lb_targets w' = <[k := t]> (t_lb_targets lb_world) ∧ tgt_InstanceID t = web_id ∧ tgt_Weight t ≠ 0.
Proof.
  destruct (is_ok_run (AddTarget alice_ctx lb_id web_id 80 0 lb_world)) as ([] & w' & H);
    [vm_compute; reflexivity|].
  destruct (AddTarget_effect _ _ _ _ _ _ _ _ H)
    as (k & t & lb & inst & _ & Hw & _ & _ & _ & _ & _ & _ & Hi & _ & Hne & _).
  exists w', k, t. by split_and!.
Defined.

Lemma lb_Update_no_lost_update_witness :
  ∃ lb r1 w1, t_lbs lb_world !! lb_id = Some lb ∧
    lb_Update (lb <| lb_Status := LBStatusActive |>) lb_world = (Ok r1, w1) ∧
    lb_Update (lb <| lb_Status := LBStatusDeleted |>) w1 =
      (Err (New Conflict "update conflict: load balancer was modified or not found"),
       w1 <| w_tick ::= S |>).
Proof.
  destruct (t_lbs lb_world !! lb_id) as [lb|] eqn:Hl; [|vm_compute in Hl; discriminate].
  destruct (is_ok_run (lb_Update (lb <| lb_Status := LBStatusActive |>) lb_world)) as (r1 & w1 & H).
  { vm_compute in Hl. injection Hl as <-. vm_compute. reflexivity. }
  exists lb, r1, w1. split; [done|]. split; [exact H|].
  by apply (lb_Update_no_lost_update (lb <| lb_Status := LBStatusActive |>)
    (lb <| lb_Status := LBStatusDeleted |>) lb_world r1 w1).
Defined.

Lemma lb_worker_tick_transitions_witness :
  ∃ w', lb_worker_tick None lb_world = (Ok tt, w') ∧
    (lb_Status <$> t_lbs lb_world !! lb_id) = Some LBStatusCreating ∧
    lb_evolves (w_calls lb_world) (w_calls w') (t_lbs lb_world !! lb_id) (t_lbs w' !! lb_id).
Proof.
  destruct (lb_worker_tick_transitions None lb_world) as (w' & Hw & Hev);
    [apply keyed_check; vm_compute; reflexivity|].
  exists w'. split; [exact Hw|]. split; [vm_compute; reflexivity|exact (Hev lb_id)].
Defined.
