(* ===== verification/ServiceWitnesses.v ===== *)
(** * The theorems on scaling groups, queues, roles and deployments at concrete inputs *)
From S2P Require Import Prelude GoStd Net Errors Domain DomainData World Logic Sql Concrete InstanceRepo.
From S2P Require Import NetworkRepo InstanceService InstanceProofs LBRepo LBService AutoScalingRepo Ports.
From S2P Require Import AutoScalingService AutoScalingWorker Queue Rbac Container AutoScalingProofs.
From S2P Require Import ScalingProofs QueueProofs RbacProofs ContainerProofs.

#[local] Existing Instance demo.

(** ** Scaling groups *)

Definition pool_params : CreateScalingGroupParams :=
  MkCreateScalingGroupParams "pool" 1%N "nginx" "80:80" 1 3 2 None "".
Definition pool_world : World := after (CreateGroup alice_ctx pool_params) demo_world.
Definition pool_id : uuid := 103%N.
Definition empty_group : ScalingGroup :=
  new_group None pool_params 0 0 0.
Definition pool : ScalingGroup := default empty_group (t_groups pool_world !! pool_id).

(** After one reconciliation the group has its two instances. *)
Definition filled_world : World := after (reconcileInstances alice_ctx pool []) pool_world.
Definition pool_members : list uuid := (map_to_list (t_group_instances filled_world)).*1.*2.

(** The states are evaluated by [vm_compute] only. *)
#[local] Opaque pool_world pool filled_world pool_members.

Lemma reconcile_no_overshoot_witness :
  ∃ g' w', reconcileInstances alice_ctx pool [] pool_world = (Ok g', w') ∧
    group_size pool_id pool_world = 0 ∧ group_size pool_id w' = 2.
Proof.
  destruct (is_ok_run (reconcileInstances alice_ctx pool [] pool_world)) as (g' & w' & H);
    [vm_compute; reflexivity|].
  assert (Hbounds : 0 ≤ sg_MinInstances pool ≤ sg_MaxInstances pool ∧ sg_MaxInstances pool < 2 ^ 63)
    by (split; [split|]; vm_compute; [discriminate|discriminate|reflexivity]).
  destruct (reconcile_no_overshoot alice_ctx pool [] pool_world (Ok g') w') as (g2 & Hg & _ & Hsize & Hexact).
  - apply keyed_check. vm_compute. reflexivity.
  - apply Hbounds.
  - apply Hbounds.
  - vm_compute. reflexivity.
  - vm_compute. reflexivity.
  - constructor.
  - vm_compute. reflexivity.
  - intros i Hi. exfalso. by apply (not_elem_of_nil i).
  - exact H.
  - exists g', w'. split; [exact H|]. injection Hg as <-.
    assert (group_size pool_id pool_world = 0) as H0 by (vm_compute; reflexivity).
    split; [exact H0|]. assert (sg_ID pool = pool_id) as Hid by (vm_compute; reflexivity).
    assert (clamp pool = 2) as Hcl by (vm_compute; reflexivity). rewrite Hid, Hcl in Hexact.
    apply Hexact; [rewrite H0; lia|].
    assert (sg_FailureCount <$> (match (reconcileInstances alice_ctx pool [] pool_world).1 with
      Ok x => Some x | _ => None end) = Some 0) as Hf by (vm_compute; reflexivity).
    rewrite H in Hf. by injection Hf as ->.
Defined.

Lemma CreateGroup_effect_witness :
  ∃ g w', CreateGroup alice_ctx pool_params demo_world = (Ok g, w') ∧
    created_group alice_ctx pool_params demo_world g ∧ t_groups w' = <[sg_ID g := g]> (t_groups demo_world).
Proof.
  destruct (is_ok_run (CreateGroup alice_ctx pool_params demo_world)) as (g & w' & H);
    [vm_compute; reflexivity|].
  exists g, w'. split; [exact H|].
  destruct (CreateGroup_effect _ _ _ _ _ H) as [(Hc & Hg & _)|[[Hne _] _]]; [by split|by destruct Hne].
Defined.

Lemma DeleteGroup_wins_witness :
  ∃ w1, DeleteGroup alice_ctx pool_id pool_world = (Ok tt, w1) ∧
    asg_UpdateGroup (pool <| sg_DesiredCount := 3 |>) w1 =
      (Err (New Conflict "scaling group update conflict or not found"), w1 <| w_tick ::= S |>).
Proof.
  destruct (is_ok_run (DeleteGroup alice_ctx pool_id pool_world)) as ([] & w1 & H); [vm_compute; reflexivity|].
  exists w1. split; [exact H|].
  apply (DeleteGroup_wins alice_ctx pool_id pool_world w1 pool (pool <| sg_DesiredCount := 3 |>));
    [vm_compute; reflexivity..|exact H].
Defined.

Definition busy_policy : CreateScalingPolicyParams :=
  MkCreateScalingPolicyParams pool_id "busy" "cpu" (float_of_int 30) 1 1 60.
Definition policy_world : World := after (CreatePolicy alice_ctx busy_policy) filled_world.
Definition policies : list ScalingPolicy := (map_to_list (t_policies policy_world)).*2.

#[local] Opaque policy_world policies.

Lemma DeletePolicy_not_scoped_witness :
  ∃ id, is_Some (t_policies policy_world !! id) ∧
    DeletePolicy bob_ctx id policy_world =
      (Ok tt, policy_world <| w_tick ::= S |> <| t_policies ::= delete id |>).
Proof.
  destruct (map_to_list (t_policies policy_world)) as [|[id p] l] eqn:Hl; [vm_compute in Hl; discriminate|].
  exists id. split; [|apply DeletePolicy_not_scoped].
  exists p. apply elem_of_map_to_list. rewrite Hl. left.
Defined.

Lemma backoff_never_applies_witness :
  ∃ l w1 g g1 w3 g2 w4, asg_ListAllGroups pool_world = (Ok l, w1) ∧ g ∈ l ∧
    sync_count g pool_members w1 = (Ok g1, w3) ∧ force_bounds g1 w3 = (Ok g2, w4) ∧
    shouldSkipDueToFailures g2 w4 = (Ok false, w4).
Proof.
  destruct (is_ok_run (asg_ListAllGroups pool_world)) as (l & w1 & Hl); [vm_compute; reflexivity|].
  destruct l as [|g l]; [vm_compute in Hl; discriminate|].
  destruct (sync_count g pool_members w1) as [r3 w3] eqn:H3.
  destruct (total_run _ _ _ _ H3) as [g1 ->].
  destruct (force_bounds g1 w3) as [r4 w4] eqn:H4. destruct (total_run _ _ _ _ H4) as [g2 ->].
  exists (g :: l), w1, g, g1, w3, g2, w4. split; [exact Hl|]. split; [left|]. split; [done|]. split; [exact H4|].
  exact (proj1 (backoff_never_applies pool_world (g :: l) w1 g pool_members w1 g1 w3 g2 w4
    Hl ltac:(left) H3 H4)).
Defined.

Lemma evaluatePolicies_effect_witness :
  ∃ w' avgCPU p d, evaluatePolicies pool pool_members policies policy_world = (Ok tt, w') ∧
    measured_load pool_members policy_world w' avgCPU ∧ p ∈ policies ∧ sound_decision pool avgCPU p d ∧
    desired_updated pool d (t_groups policy_world) (t_groups w').
Proof.
  destruct (is_ok_run (evaluatePolicies pool pool_members policies policy_world)) as ([] & w' & H);
    [vm_compute; reflexivity|].
  assert (sg_DesiredCount <$> t_groups w' !! pool_id = Some 1) as Hnew.
  { rewrite <- (after_run _ _ _ _ H). vm_compute. reflexivity. }
  assert (sg_DesiredCount <$> t_groups policy_world !! pool_id = Some 2) as Hold by (vm_compute; reflexivity).
  destruct (evaluatePolicies_effect pool pool_members policies policy_world (Ok tt) w')
    as [_ [[Hg _]|(avgCPU & p & d & Hload & Hp & _ & Hd & Hu & _)]].
  - vm_compute. repeat split; discriminate.
  - assert (forallb (λ p, (0 <? pol_ScaleOutStep p) && (pol_ScaleOutStep p <? 2 ^ 31)
      && (0 <? pol_ScaleInStep p) && (pol_ScaleInStep p <? 2 ^ 31)) policies = true) as Hall
      by (vm_compute; reflexivity).
    rewrite forallb_forall in Hall. intros p Hp. apply list_elem_of_In, Hall in Hp.
    unfold policy_in_range. rewrite !andb_true_iff, !Z.ltb_lt in Hp. tauto.
  - exact H.
  - rewrite Hg, Hold in Hnew. discriminate Hnew.
  - exists w', avgCPU, p, d. split; [exact H|]. split; [exact Hload|]. split; [exact Hp|].
    split; [exact Hd|exact Hu].
Defined.

Lemma toDynamicPorts_valid_witness :
  parseAndValidatePorts (toDynamicPorts "80:80, 8443:443") = inr ["0:80"; "0:443"].
Proof.
  exact (proj1 (toDynamicPorts_valid "80:80, 8443:443" ["80:80"; " 8443:443"] ltac:(vm_compute; reflexivity))).
Defined.

(** The worker reads the group in DELETING with its two members, and removes both. *)
Definition deleting_world : World := after (DeleteGroup alice_ctx pool_id) filled_world.

#[local] Opaque deleting_world.

Lemma deleting_group_turn_witness :
  ∃ groups instances g w1 w2 w',
    asg_ListAllGroups deleting_world = (Ok groups, w1) ∧
    asg_GetAllScalingGroupInstances (sg_ID <$> groups) w1 = (Ok instances, w2) ∧
    evaluate_group alice_ctx instances (λ _, []) g w2 = (Ok tt, w') ∧
    sg_ID g = pool_id ∧ size (members_of pool_id deleting_world) = 2%nat ∧
    members_of pool_id w' = ∅ ∧ t_groups w' = t_groups w2.
Proof.
  assert (match asg_ListAllGroups deleting_world with
    | (Ok (g :: l), w1) => bool_decide (sg_ID g = pool_id) &&
        bool_decide (sg_Status g = ScalingGroupStatusDeleting) &&
        is_ok (asg_GetAllScalingGroupInstances (sg_ID <$> g :: l) w1)
    | _ => false end = true) as Hread by (vm_compute; reflexivity).
  destruct (asg_ListAllGroups deleting_world) as [[[|g l]|e|p] w1] eqn:H1; [discriminate Hread| |discriminate Hread..].
  apply andb_true_iff in Hread as [[Hid Hst]%andb_true_iff Hok].
  apply bool_decide_eq_true in Hid, Hst.
  destruct (is_ok_run _ Hok) as (instances & w2 & H2).
  assert (t_groups w2 = t_groups deleting_world ∧ members_of (sg_ID g) w2 = members_of (sg_ID g) deleting_world ∧
    t_instances w2 = t_instances deleting_world) as (Hg & Hm & Hi).
  { apply (frame_run t_groups) in H1 as Ha, H2 as Hb; try apply _.
    apply (frame_run t_group_instances) in H1 as Hc, H2 as Hd; try apply _.
    apply (frame_run t_instances) in H1 as He, H2 as Hf; try apply _. unfold members_of. by split_and!; congruence. }
  destruct (evaluate_group alice_ctx instances (λ _, []) g w2) as [r w'] eqn:Hrun.
  destruct (deleting_group_turn alice_ctx (g :: l) instances (λ _, []) g deleting_world w1 w2 w2 r w')
    as (-> & Hend & Hrows); [exact H1|exact H2|by left|exact Hst|apply keyed_check; vm_compute; reflexivity| | | |exact Hrun|].
  - rewrite Hi. apply keyed_check. vm_compute. reflexivity.
  - by rewrite Hg.
  - exact Hm.
  - exists (g :: l), instances, g, w1, w2, w'. rewrite Hid in Hend, Hrows.
    assert (size (members_of pool_id deleting_world) = 2%nat) as Hsize by (vm_compute; reflexivity).
    split; [reflexivity|]. split; [exact H2|]. split; [exact Hrun|]. split; [exact Hid|]. split; [exact Hsize|].
    split; [exact Hend|]. rewrite decide_False in Hrows; [exact Hrows|]. intros He.
    rewrite He in Hsize. discriminate Hsize.
Defined.

(** ** Queues *)

Definition queue_world : World :=
  after (SendMessage alice_ctx 102%N "second") (after (SendMessage alice_ctx 102%N "first")
    (after (CreateQueue alice_ctx "jobs" None) demo_world)).
Definition jobs : uuid := 102%N.
#[local] Opaque queue_world.

Example queue_world_ok : size (t_messages queue_world) = 2%nat.
Proof. vm_compute. reflexivity. Qed.

Lemma queue_world_keyed : keyed msg_ID (t_messages queue_world) ∧ keyed q_ID (t_queues queue_world).
Proof. split; apply keyed_check; vm_compute; reflexivity. Qed.

Lemma queue_world_handles : handles_ok queue_world.
Proof.
  assert (∀ k m, t_messages queue_world !! k = Some m → msg_ReceiptHandle m = "") as Hnone.
  { intros k m Hk. apply (rows_check (λ _ m, bool_decide (msg_ReceiptHandle m = ""))) in Hk;
      [by apply bool_decide_eq_true in Hk|vm_compute; reflexivity]. }
  split; [intros k m Hk; left; by apply (Hnone k)|].
  intros k1 k2 m1 m2 Hk1 _ _ Hne. destruct Hne. by apply (Hnone k1).
Qed.

Lemma queue_tenant_isolation_witness :
  ∃ e w', PurgeQueue bob_ctx jobs queue_world = (Err e, w') ∧ t_messages w' = t_messages queue_world.
Proof.
  destruct (queue_tenant_isolation bob_ctx jobs "" 0 "" queue_world (PurgeQueue bob_ctx jobs))
    as (e & w' & Hr & Hm & _).
  - intros q Hq. apply (rows_check (λ _ q, negb (bool_decide (q_UserID q = bob)))) in Hq;
      [by apply negb_true_iff, bool_decide_eq_false in Hq|vm_compute; reflexivity].
  - do 3 right. left.
  - exists e, w'. split; [exact Hr|exact Hm].
Defined.

Lemma SendMessage_effect_witness :
  (∃ m w' row, SendMessage alice_ctx jobs "third" queue_world = (Ok m, w') ∧
     t_messages w' = <[msg_ID m := row]> (t_messages queue_world) ∧ msg_Body row = "third").
Proof.
  destruct (is_ok_run (SendMessage alice_ctx jobs "third" queue_world)) as (m & w' & H); [vm_compute; reflexivity|].
  destruct (SendMessage_effect _ _ _ _ _ _ (proj2 queue_world_keyed) H)
    as (q & row & _ & _ & _ & _ & Hw & _ & _ & Hb & _).
  exists m, w', row. split; [exact H|]. split; [exact Hw|exact Hb].
Defined.

Lemma ReceiveMessages_effect_witness :
  ∃ ms w' q, ReceiveMessages alice_ctx jobs 25 queue_world = (Ok ms, w') ∧ (0 < length ms ≤ 10)%nat ∧
    ∀ m, m ∈ ms → delivered q queue_world w' m.
Proof.
  destruct (is_ok_run (ReceiveMessages alice_ctx jobs 25 queue_world)) as (ms & w' & H); [vm_compute; reflexivity|].
  destruct (ReceiveMessages_effect _ _ _ _ _ _ (proj1 queue_world_keyed) (proj2 queue_world_keyed) H)
    as (q & _ & _ & _ & Hlen & _ & Hd).
  exists ms, w', q. split; [exact H|]. split; [|exact Hd]. split; [|exact Hlen].
  assert (match (ReceiveMessages alice_ctx jobs 25 queue_world).1 with
          | Ok l => (0 <? length l)%nat | _ => false end = true) as Hpos by (vm_compute; reflexivity).
  rewrite H in Hpos. by apply Nat.ltb_lt.
Defined.

Lemma receipt_handle_once_witness :
  ∃ m ms w1, queue_ReceiveMessages jobs 1 30 queue_world = (Ok (m :: ms), w1) ∧
    queue_DeleteMessage jobs (msg_ReceiptHandle m) w1 =
      (Ok tt, w1 <| w_tick ::= S |> <| t_messages ::= delete (msg_ID m) |>).
Proof.
  destruct (is_ok_run (queue_ReceiveMessages jobs 1 30 queue_world)) as (ms & w1 & H); [vm_compute; reflexivity|].
  destruct ms as [|m ms]; [vm_compute in H; discriminate H|].
  exists m, ms, w1. split; [exact H|].
  exact (proj1 (receipt_handle_once jobs 1 30 queue_world (m :: ms) w1 m queue_world_handles
    (proj1 queue_world_keyed) H (list_elem_of_here _ _))).
Defined.

Definition first_batch : World := after (ReceiveMessages alice_ctx jobs 1) queue_world.
Definition second_batch : World := after (ReceiveMessages alice_ctx jobs 1) first_batch.
Definition batch (rw : res (list Message) * World) : list Message := match rw.1 with Ok l => l | _ => [] end.

Lemma batch_run rw ms w : rw = (Ok ms, w) → ms = batch rw.
Proof. by intros ->. Qed.
Lemma first_batch_run ms w : ReceiveMessages alice_ctx jobs 1 queue_world = (Ok ms, w) → w = first_batch.
Proof. intros Hrun. symmetry. exact (after_run _ _ _ _ Hrun). Qed.
Lemma second_batch_run ms w : ReceiveMessages alice_ctx jobs 1 first_batch = (Ok ms, w) → w = second_batch.
Proof. intros Hrun. symmetry. exact (after_run _ _ _ _ Hrun). Qed.
#[local] Opaque first_batch second_batch.

Lemma no_double_delivery_witness :
  ∃ m1 m2 w2 w3, ReceiveMessages alice_ctx jobs 1 queue_world = (Ok [m1], w2) ∧
    ReceiveMessages alice_ctx jobs 1 w2 = (Ok [m2], w3) ∧ msg_ID m2 ≠ msg_ID m1.
Proof.
  destruct (is_ok_run (ReceiveMessages alice_ctx jobs 1 queue_world)) as (ms1 & w2 & H1); [vm_compute; reflexivity|].
  pose proof (first_batch_run _ _ H1) as ->.
  destruct (is_ok_run (ReceiveMessages alice_ctx jobs 1 first_batch)) as (ms2 & w3 & H2); [vm_compute; reflexivity|].
  pose proof (second_batch_run _ _ H2) as ->.
  assert (ms1 = batch (ReceiveMessages alice_ctx jobs 1 queue_world)) as Hms1
    by exact (batch_run _ _ _ H1).
  assert (ms2 = batch (ReceiveMessages alice_ctx jobs 1 first_batch)) as Hms2
    by exact (batch_run _ _ _ H2).
  assert (length ms1 = 1%nat ∧ length ms2 = 1%nat) as [Hl1 Hl2]
    by (rewrite Hms1, Hms2; split; vm_compute; reflexivity).
  pose proof (no_double_delivery alice_ctx alice_ctx jobs 1 1 queue_world ms1 first_batch first_batch ms2
    second_batch (proj1 queue_world_keyed) (proj2 queue_world_keyed) H1
    ltac:(apply keyed_check; vm_compute; reflexivity) ltac:(apply keyed_check; vm_compute; reflexivity)
    (λ m _, eq_refl) H2) as Hno.
  destruct ms1 as [|m1 [|]]; [discriminate Hl1| |discriminate Hl1].
  destruct ms2 as [|m2 [|]]; [discriminate Hl2| |discriminate Hl2].
  exists m1, m2, first_batch, second_batch. split; [exact H1|]. split; [exact H2|].
  assert (∀ m t, m ∈ [m1] → (w_tick first_batch ≤ t < w_tick second_batch)%nat →
    env_db_now t < msg_VisibleAt m) as Hhid.
  { intros m t ->%list_elem_of_singleton [_ Ht].
    assert (forallb (λ m, Z.of_nat (w_tick second_batch) * 1000000000 <? msg_VisibleAt m) [m1] = true) as Hall
      by (rewrite Hms1; vm_compute; reflexivity).
    cbn in Hall. rewrite andb_true_r in Hall. apply Z.ltb_lt in Hall.
    change (env_db_now t) with (Z.of_nat t * 1000000000). lia. }
  specialize (Hno Hhid m2 (list_elem_of_here _ _)). intros Heq. apply Hno. rewrite Heq. left.
Defined.

(** ** Roles *)

Definition reader_role : Role := MkRole 50 "developer" "read only" ["instance:read"].
Definition role_world : World := after (CreateRole reader_role) demo_world.
Definition widened_role : Role := MkRole 50 "developer" "launch" ["instance:read"; "instance:launch"].

Lemma role_world_ok : keyed role_ID (t_roles role_world) ∧ role_names_unique role_world ∧
  keyed user_ID (t_users role_world).
Proof.
  split; [apply keyed_check; vm_compute; reflexivity|]. split; [|apply keyed_check; vm_compute; reflexivity].
  intros k1 k2 r1 r2 Hk1 Hk2 _.
  apply (rows_check (λ k _, bool_decide (k = 50%N))) in Hk1; [|vm_compute; reflexivity].
  apply (rows_check (λ k _, bool_decide (k = 50%N))) in Hk2; [|vm_compute; reflexivity].
  apply bool_decide_eq_true in Hk1, Hk2. congruence.
Qed.
#[local] Opaque role_world.

Lemma Authorize_spec_witness :
  (Authorize alice "instance:read" role_world).1 = Ok tt ∧
  ∃ e, (Authorize alice "instance:launch" role_world).1 = Err e.
Proof.
  destruct role_world_ok as (Hk & Hu & _).
  destruct (Authorize_spec alice "instance:read" role_world _ _ Hk Hu (surjective_pairing _)) as (_ & _ & Hr & _).
  destruct (Authorize_spec alice "instance:launch" role_world _ _ Hk Hu (surjective_pairing _)) as (_ & _ & Hl & Ho).
  assert (t_users role_world !! alice = Some (user_named alice "alice" "developer")) as Halice
    by (vm_compute; reflexivity).
  assert (t_roles role_world !! 50%N = Some reader_role) as Hrole by (vm_compute; reflexivity).
  split.
  - apply Hr. exists (user_named alice "alice" "developer"). split; [exact Halice|].
    left. exists 50%N, reader_role. split; [exact Hrole|]. split; [reflexivity|]. right. left.
  - destruct (Ho _ Halice) as [Hok|He]; [|eexists; exact He].
    apply Hl in Hok as (u & Hu' & Hp). rewrite Halice in Hu'. injection Hu' as <-.
    destruct Hp as [(k & row & Hkr & _ & Hp)|[Hno _]]; [|by destruct (Hno _ _ Hrole)].
    apply (rows_check (λ _ r, bool_decide (role_Permissions r = ["instance:read"]))) in Hkr;
      [|vm_compute; reflexivity].
    apply bool_decide_eq_true in Hkr. rewrite Hkr in Hp.
    destruct Hp as [Hp|Hp]; apply list_elem_of_singleton in Hp; discriminate Hp.
Defined.

(** The database fails at the second statement of the check. *)
Definition role_outage : Env :=
  demo_env true (λ t, if (t =? S (w_tick role_world))%nat then Some (ExternalError "timeout") else None) (λ _, false).

Lemma Authorize_fails_open_witness :
  (Authorize alice "instance:launch" role_world).1 ≠ Ok tt ∧
  (@Authorize role_outage alice "instance:launch" role_world).1 = Ok tt.
Proof.
  split; [vm_compute; discriminate|].
  rewrite (@Authorize_fails_open role_outage alice "instance:launch" role_world
    (user_named alice "alice" "developer") (ExternalError "timeout")); [reflexivity|..].
  - vm_compute. reflexivity.
  - vm_compute. reflexivity.
  - vm_compute. reflexivity.
  - reflexivity.
  - discriminate.
  - apply demo_order.
Defined.

Lemma UpdateRole_atomic_witness :
  ∃ w' row, UpdateRole widened_role role_world = (Ok tt, w') ∧
    t_roles w' = <[50%N := row]> (t_roles role_world) ∧
    role_Permissions row ≡ₚ ["instance:read"; "instance:launch"].
Proof.
  destruct (is_ok_run (UpdateRole widened_role role_world)) as ([] & w' & H); [vm_compute; reflexivity|].
  destruct (UpdateRole_atomic widened_role role_world (Ok tt) w' reader_role) as (row & Hw & _ & _ & Hp);
    [vm_compute; reflexivity|exact H|].
  exists w', row. split; [exact H|]. split; [exact Hw|exact Hp].
Defined.

Lemma BindRole_effect_witness :
  ∃ w' u, BindRole "bob" "developer" role_world = (Ok tt, w') ∧ user_Email u = "bob" ∧
    t_users w' = <[user_ID u := u <| user_Role := "developer" |>]> (t_users role_world).
Proof.
  destruct (is_ok_run (BindRole "bob" "developer" role_world)) as ([] & w' & H); [vm_compute; reflexivity|].
  destruct (BindRole_effect "bob" "developer" role_world (Ok tt) w' (proj2 (proj2 role_world_ok)) H)
    as (u & _ & Hs & Hw & _).
  exists w', u. split; [exact H|]. split; [|exact Hw].
  destruct Hs as [Hs|[_ Hs]]; [discriminate Hs|exact Hs].
Defined.

(** ** Deployments *)

Lemma demo_containers_fk : containers_fk demo_world.
Proof. intros k c Hk. discriminate Hk. Qed.

Lemma negative_replicas_panic_witness :
  ∃ dep w1, CreateDeployment alice_ctx "app" "nginx" (-1) "" demo_world = (Ok dep, w1) ∧
    (Reconcile None w1).1 = Panic index_out_of_range.
Proof.
  destruct (is_ok_run (CreateDeployment alice_ctx "app" "nginx" (-1) "" demo_world)) as (dep & w1 & H);
    [vm_compute; reflexivity|].
  exists dep, w1. split; [exact H|].
  apply (negative_replicas_panic alice_ctx None "app" "nginx" (-1) "" demo_world dep w1);
    [exact demo_containers_fk|lia|exact H|reflexivity].
Defined.

Definition app_world : World := after (CreateDeployment alice_ctx "app" "nginx" 2 "") demo_world.
Definition app_id : uuid := 101%N.
Definition app : Deployment :=
  default (MkDeployment 0 0 "" "" 0 0 "" DeploymentStatusReady 0 0) (t_deployments app_world !! app_id).
#[local] Opaque app_world app.

Lemma delete_lost_to_worker_witness :
  ∃ w1 row1 row2, DeleteDeployment alice_ctx app_id app_world = (Ok tt, w1) ∧
    t_deployments w1 !! app_id = Some row1 ∧ dep_Status row1 = DeploymentStatusDeleting ∧
    t_deployments (update_status app [7%N; 8%N] w1).2 !! app_id = Some row2 ∧
    dep_Status row2 ≠ DeploymentStatusDeleting.
Proof.
  destruct (is_ok_run (DeleteDeployment alice_ctx app_id app_world)) as ([] & w1 & H); [vm_compute; reflexivity|].
  assert (dep_ID app = app_id) as Hid by (vm_compute; reflexivity).
  destruct (delete_lost_to_worker alice_ctx app [7%N; 8%N] app_world w1) as [(row1 & Hr1 & Hs1) Hup];
    [vm_compute; reflexivity|vm_compute; reflexivity|vm_compute; reflexivity|vm_compute; discriminate
    |rewrite Hid; exact H|].
  destruct (Hup _ _ (surjective_pairing _)) as (row2 & Hr2 & Hs2). rewrite Hid in Hr1, Hr2.
  exists w1, row1, row2. split; [exact H|]. split; [exact Hr1|]. split; [exact Hs1|]. split; [exact Hr2|].
  destruct Hs2 as [-> | ->]; discriminate.
Defined.

Lemma reconcileDeployment_total_witness :
  (reconcileDeployment None app app_world).1 = Ok tt.
Proof.
  apply (reconcileDeployment_total None app app_world _ (reconcileDeployment None app app_world).2);
    [vm_compute; discriminate|apply surjective_pairing].
Defined.
